(* ===== verification/_CoqProject ===== *)
-Q . S2P
Prelude.v
Heap.v
Threads.v
StringHelpers.v
Timers.v
Config.v
Wrp.v
Partners.v
World.v
ClientList.v
ServiceAlive.v
Queue.v
QueueHeap.v
Nopoll.v
Upstream.v
ClientHeap.v
Cjson.v
Crud.v
CrudStore.v
Downstream.v
Connection.v
Token.v
AuthToken.v
InterfaceDown.v
ConnInterface.v
System.v
Requests.v
Payloads.v
Shutdown.v
Service.v
Signals.v
StringMemory.v
ConnMemory.v
Delivery.v
Senders.v
Buffers.v
Memory.v
CrudMemory.v
DownstreamMemory.v
UpstreamMemory.v
