(* ===== verification/Prelude.v ===== *)
(** * Parodus: a verification library

    Parodus is the daemon that keeps a device's WebSocket connection to the cloud:
    local services register with it over nanomsg, it passes their messages up and the
    cloud's messages down, and answers CRUD requests on a configuration file itself.
    This library translates the C sources into Rocq and proves what they promise.

    ** How the program is put together, and which file has which part

    [main] (main.c) parses the command line (config.c) and calls
    [createSocketConnection] (conn_interface.c), which connects (connection.c), starts
    five threads and turns noPoll's event loop. The threads are connected by queues:
    noPoll's callbacks (nopoll_handlers.c) fill [ParodusMsgQ] for the downstream thread,
    the local clients fill [UpStreamMsgQ] for the upstream thread, both fill the CRUD
    queue, whose thread answers through [UpStreamMsgQ].

    - Prelude: C strings, machine integers, outcomes and the state monad, record update.
    - Heap: malloc'ed nodes and the singly linked lists made of them.
    - Threads: mutex.c and spin_thread.c, with the mutexes of POSIX.
    - StringHelpers: string_helpers.c, and arrays that hold strings.
    - Timers: time.c, heartBeat.c, [timespec_diff] of ParodusInternal.c, the timers of
      connection.c.
    - Config: config.c and config.h.
    - Wrp: the messages of the wrp-c library and its functions (a class with laws).
    - Partners: partners_check.c.
    - World: the state of the process, the calls to the outside, runs, and the tactic
      that shows what a computation keeps.
    - ClientList, ServiceAlive: client_list.c, service_alive.c. ClientHeap: the same clients
      as nodes in memory under [client_mut], for every critical section that touches them.
    - Queue: the locking of the three queues (upstream.c, nopoll_handlers.c with
      thread_tasks.c, crud_interface.c) as a step relation between the threads.
      QueueHeap: the nodes of the queues along these steps.
    - Nopoll: nopoll_helpers.c, nopoll_handlers.c, close_retry.c.
    - Upstream: upstream.c, with the producers of crud_interface.c.
    - Cjson: JSON values and the cJSON library (a class with laws and an instance).
    - Crud: crud_internal.c, crud_tasks.c and the consumer of crud_interface.c;
      CrudStore: the abstract store of tags they implement.
      StringMemory: the strings of the destination of a request.
    - Memory: computations with blocks of memory beside the world, and the relation to the same
      computations without them. CrudMemory, UpstreamMemory and DownstreamMemory: what the CRUD
      handlers and the threads of the two directions allocate, use and free.
    - Downstream: downstream.c, thread_tasks.c.
    - Connection: connection.c, networking.c, [getWebpaConveyHeader] of
      ParodusInternal.c; the class [Credentials] is what it asks of the next two.
      ConnMemory: the strings that a connection attempt allocates.
    - Token: token.c. AuthToken: auth_token.c, and the instance of [Credentials].
    - InterfaceDown: the interface_down_event flag of ParodusInternal.c between threads.
      Signals: the handlers of main.c inside a thread, with the mutexes they lock.
    - ConnInterface: conn_interface.c, seshat_interface.c with its stub, main.c.
    - System: the threads together, one turn of a thread being a step; Requests: CRUD
      requests on their way through the threads; Payloads: who frees the payloads of their
      answers; Shutdown: how the threads end; Service: what a registered client gets;
      Delivery: the clients' messages on their way to the server, and what the server reads.
    - Senders: [sendUpstreamMsgToServer] in steps, as two threads run it on one connection.
    - Buffers: arrays of a fixed size that config.c, connection.c, token.c and upstream.c
      print into.

    ** How the code is modelled

    A function is a computation in a state monad over [World], one field per
    file-scoped variable. Its outcome is [Done], [Undef] (undefined behaviour in C: a
    NULL or uninitialised pointer, signed overflow, an index out of bounds) or [NoFuel].
    What leaves the process is a value of [ext]: an oracle that sees all earlier calls
    answers it, and the call is appended to [trace]; a theorem for every oracle holds
    whatever the network, the clock or the file system do. Flags that other threads set
    are read from the oracle too: [g_shutdown], the flag of the interface, and
    [close_retry], which the CRUD thread sets for a cloud-disconnect request at any
    time the main thread looks at it ([sys_cloud_disconnect]). The local variables of the
    upstream thread that are not initialised are [upstream_locals]; a ping handler is a
    field of the world, and nothing in the program registers one. Libraries whose code is not in the repository (wrp-c,
    cJSON, cjwt, the message functions of the resolver, noPoll's message join and
    base64) are classes; the laws a theorem needs are a second class, and an instance
    of both shows that they can hold. Integers are [Z] with [u32], [s32], [u64], [s64]
    where the C type wraps.

    ** What is proved

    - Refinements: the CRUD handlers implement an abstract store on the file
      ([crud_refines_store], [write_then_retrieve]); the queues are FIFO in every
      interleaving ([queue_refines_fifo]); URL parsing in place is the parsing of
      strings ([parse_webpa_url_refines]); a message is sent as the frames of its
      specification ([sendResponse_fragments]); a request for a tag, followed through
      three threads, is an operation of the store and an answer ([tag_request_served]);
      what the server reads is what the clients have sent, in order
      ([clients_messages_in_order]); a keep-alive sweep is a filter ([sweep_is_filter]);
      the pointers of the client list
      implement the list ([client_memory_refines]).
    - Memory: every critical section keeps the clients' nodes well-formed, and none is lost
      ([client_memory_safe]); so it is with the queues in every interleaving
      ([queue_memory_safe]). The mutex is what makes it so: [url_logged_after_free]. The
      strings of a connection attempt ([connection_strings]) and of a CRUD destination
      ([dest_array_freed]), and the blocks of the CRUD handlers ([crud_memory]) and of the
      turns of the two message threads ([upstream_memory], [downstream_memory]) are used and
      freed only while they are allocated; what is lost and where the code is undefined is
      part of the statements.
    - Round trips: URLs, tags, tokens from DNS records ([parse_build_url],
      [dns_token_joined], which also says when a piece of a token does not come back whole).
    - Safety: routing and partner checks ([downstream_routing],
      [validate_partner_id_correct]), the gate in front of the connection
      ([sendUpstream_gated]), tokens ([token_server_trusted]), the command line
      ([parseCommandLine_sound]), the end of the process ([process_ends_by_shutdown]),
      wake-ups ([no_lost_wakeup], with the put and the signal as two steps;
      [interface_wait_sound]), mutexes ([mutex_excludes]), the order in which the threads
      end, or do not get going ([threads_end_by_shutdown]).
    - Invariants of the system: in every interleaving of the threads' turns the clients
      and their count are in step ([clients_in_step]); a client in the list gets the
      server's messages for it ([registered_client_served]) and stays there until it is
      silent or the process ends ([client_lost_only_if_silent]). The threads keep what they
      do not own: [keeps] with [framed] is the frame rule all of these proofs share.
    - Senders without a lock: the steps are the code's ([sending_in_steps]); messages of
      one frame stay whole in every interleaving ([short_messages_intact]), longer ones need
      not, when noPoll takes the frames ([long_messages_torn]), and nothing keeps the connection from being closed in
      between ([connection_closed_under_sender]).
    - Bounds: arrays hold what is printed into them ([fixed_arrays_hold]), the token from
      the DNS stays in its buffer ([token_buffer_holds]), back-off delays
      ([random_expiration_bounds]).
    - Termination and liveness: sweeps over the clients, connection attempts, token
      transfers, the draining of queues ([queue_delivered]), the reaction to a silent
      server, the handlers of signals ([signal_handled]).
    - Errors: what refused and malformed messages leave behind, and the places where
      the code goes wrong ([message_whole_or_stream_broken], [self_addressed_retrieve],
      [interface_up_missed],
      [signal_self_deadlock], [missing_last_record], [disconnect_strands_process], [key_overread],
      [dot_lost], [header_null_read], [message_lost_after_fragments],
      [shutdown_before_connecting] and others next to the definitions they are about).

    ** Fuel

    A loop over data recurses on the data or has fuel computed from it, and its theorem
    shows the fuel to be enough: [sweep_fuel], the length of the buffer in
    [sendResponse], two turns in [connect_and_wait], three tries in [getAuthToken].
    A loop that may go on for ever (the threads' loops, the event loop, the retries)
    takes a number of turns; a theorem about it speaks of the runs that come to an end
    within them, for every number.

    ** Not modelled

    What noPoll does with a frame it has taken (its answer to a frame says whether it has,
    [frames_taken]; the server's reading of frames in Delivery is
    the one of RFC 6455), and how it counts the references to a connection.
    Memory other than the nodes of the clients and the queues, the payloads of the upstream
    queue, the mutexes, the strings of StringMemory and ConnMemory and the blocks that CrudMemory,
    UpstreamMemory and DownstreamMemory list (the links cJSON keeps between the members of a tree
    are the library's, and [wrp_free_struct] frees a message with its strings); failing allocations
    (but for [parse_webpa_url], [init_header_info] and [createMutex]); a write that fails
    in a file that could be opened; logging (but for the log message that reads freed memory) and the
    static flags that only serve it. Interleavings are modelled at the critical sections in
    ClientHeap, step by step in Queue, QueueHeap, InterfaceDown and Signals, frame by
    frame in Senders; elsewhere a function is
    one thread's steps, and System lets the others move between its turns only (the main
    thread's turn touches nothing the others' invariants speak of). event_handler.c and
    privilege.c are empty. Messages of 2 GiB and more, and the nesting limit of cJSON.
    Payloads are read as C strings. The builds are those with ENABLE_SESHAT in the
    configuration; FEATURE_DNS_QUERY and the seshat stub are parameters. *)

From stdpp Require Export base numbers list gmap.
From stdpp Require Export strings.
From Stdlib Require Export ZArith Lia.
From Stdlib Require Export Ascii.
From Stdlib Require Import Strings.Byte.

#[global] Set Default Goal Selector "!".

(** ** C strings

    A NUL-terminated string is the list of its characters before the NUL.
    Literals are written in scope [cs]. *)

Definition cstring : Set := list ascii.

Inductive cs_literal : Set :=
| lit_nil
| lit_cons (a : ascii) (l : cs_literal).

Fixpoint cs_literal_of_bytes (l : list byte) : cs_literal :=
  match l with
  | [] => lit_nil
  | b :: t => lit_cons (ascii_of_byte b) (cs_literal_of_bytes t)
  end.

Fixpoint cs_literal_to_bytes (l : cs_literal) : list byte :=
  match l with
  | lit_nil => []
  | lit_cons a t => byte_of_ascii a :: cs_literal_to_bytes t
  end.

Declare Scope cs_scope.
Delimit Scope cs_scope with cs.
Bind Scope cs_scope with cstring.
#[warnings="-via-type-remapping,-via-type-mismatch"]
String Notation cstring cs_literal_of_bytes cs_literal_to_bytes
  (via cs_literal mapping [[nil] => lit_nil, [cons] => lit_cons]) : cs_scope.


Definition NUL : ascii := Ascii.zero.
Definition chr (n : nat) : ascii := ascii_of_nat n.

(** [strcmp (a, b) == 0] *)
Definition streq (a b : cstring) : bool := bool_decide (a = b).

(** [strncmp (a, b, n) == 0]: the comparison stops at the first NUL, which for
    lists of non-NUL characters is the end of the shorter list. *)
Definition strneq (n : nat) (a b : cstring) : bool := bool_decide (take n a = take n b).

Definition to_lower (c : ascii) : ascii :=
  let n := nat_of_ascii c in
  if (65 <=? n)%nat && (n <=? 90)%nat then ascii_of_nat (n + 32) else c.

(** [strcasecmp (a, b) == 0] and [strncasecmp (a, b, n) == 0] *)
Definition strcaseeq (a b : cstring) : bool :=
  bool_decide (map to_lower a = map to_lower b).
Definition strncaseeq (n : nat) (a b : cstring) : bool :=
  bool_decide (map to_lower (take n a) = map to_lower (take n b)).

(** [strchr (s, c)]: the offset of the first [c]. *)
Fixpoint strchr (s : cstring) (c : ascii) : option nat :=
  match s with
  | [] => None
  | x :: t => if decide (x = c) then Some 0%nat else S <$> strchr t c
  end.

(** [strstr (hay, needle) != NULL] *)
Fixpoint strstr (hay needle : cstring) : bool :=
  bool_decide (take (length needle) hay = needle) ||
  match hay with
  | [] => false
  | _ :: t => strstr t needle
  end.

(** The successive results of [strsep (&s, delim)] for a one-character [delim]. *)
Fixpoint strsep_all (delim : ascii) (s : cstring) : list cstring :=
  match s with
  | [] => [ [] ]
  | c :: t =>
      if decide (c = delim) then [] :: strsep_all delim t
      else match strsep_all delim t with
           | [] => [ [c] ]
           | tok :: rest => (c :: tok) :: rest
           end
  end.

(** [isdigit], [isalpha] in the C locale. *)
Definition code (c : ascii) : Z := Z.of_nat (nat_of_ascii c).
Definition char_between (lo hi : Z) (c : ascii) : bool := (lo <=? code c)%Z && (code c <=? hi)%Z.
Definition isdigit (c : ascii) : bool := char_between 48 57 c.
Definition isupper (c : ascii) : bool := char_between 65 90 c.
Definition islower (c : ascii) : bool := char_between 97 122 c.
Definition isalpha (c : ascii) : bool := isupper c || islower c.

(** The characters of a list before the first [c]. *)
Fixpoint before (c : ascii) (l : list ascii) : list ascii :=
  match l with
  | [] => []
  | x :: t => if decide (x = c) then [] else x :: before c t
  end.

(** The C string held by a character array. *)
Definition cstr (buf : list ascii) : cstring := before NUL buf.

(** A string without NUL, which is what a C string argument is. *)
Definition cstring_ok (s : cstring) : Prop := NUL ∉ s.

(** Decimal printing of a nonnegative number ([%u], [%lu], and [%d] on
    nonnegative arguments). *)
Definition digit_char (d : Z) : ascii := ascii_of_nat (Z.to_nat (48 + d)).
Fixpoint print_dec_aux (fuel : nat) (n : Z) (acc : cstring) : cstring :=
  match fuel with
  | O => acc
  | S f =>
      let acc' := digit_char (n mod 10)%Z :: acc in
      if (n <? 10)%Z then acc' else print_dec_aux f (n / 10)%Z acc'
  end.
Definition print_dec (n : Z) : cstring := print_dec_aux (S (Z.to_nat (Z.log2 n))) n [].
Definition print_int (n : Z) : cstring :=
  if (n <? 0)%Z then chr 45 :: print_dec (- n) else print_dec n.

(** ** Machine integers *)

Definition u32 (z : Z) : Z := z mod 2 ^ 32.
Definition u64 (z : Z) : Z := z mod 2 ^ 64.
Definition s32 (z : Z) : Z := (z + 2 ^ 31) mod 2 ^ 32 - 2 ^ 31.
Definition s64 (z : Z) : Z := (z + 2 ^ 63) mod 2 ^ 64 - 2 ^ 63.
Definition int_range (z : Z) : Prop := (- 2 ^ 31 <= z < 2 ^ 31)%Z.
Definition uint_range (z : Z) : Prop := (0 <= z < 2 ^ 32)%Z.
Definition long_range (z : Z) : Prop := (- 2 ^ 63 <= z < 2 ^ 63)%Z.

(** ** Outcomes and the state monad

    [Undef] is C undefined behaviour (a NULL or out-of-bounds access),
    [NoFuel] is only produced by a loop bound that was too small. *)

Inductive outcome (A : Type) : Type :=
| Done (a : A)
| Undef
| NoFuel.
Arguments Done {A} a.
Arguments Undef {A}.
Arguments NoFuel {A}.

#[global] Instance outcome_ret : MRet outcome := @Done.
#[global] Instance outcome_bind : MBind outcome := λ A B f m,
  match m with Done a => f a | Undef => Undef | NoFuel => NoFuel end.

Definition M (St A : Type) : Type := St → outcome (A * St).
#[global] Instance M_ret {St} : MRet (M St) := λ A a s, Done (a, s).
#[global] Instance M_bind {St} : MBind (M St) := λ A B f m s,
  match m s with
  | Done (a, s') => f a s'
  | Undef => Undef
  | NoFuel => NoFuel
  end.

Definition gets {St A} (f : St → A) : M St A := λ s, Done (f s, s).
Definition modify {St} (f : St → St) : M St unit := λ s, Done (tt, f s).
Definition undef {St A} : M St A := λ _, Undef.
Definition nofuel {St A} : M St A := λ _, NoFuel.
(** An uninitialised or missing slot of an array, or a NULL pointer, that is read. *)
Definition deref_o {A} (p : option A) : outcome A :=
  match p with Some a => Done a | None => Undef end.
Definition when {St} (b : bool) (m : M St unit) : M St unit := if b then m else mret tt.

Definition lift {St A} (o : outcome A) : M St A := λ s,
  match o with Done a => Done (a, s) | Undef => Undef | NoFuel => NoFuel end.

(** A C pointer that is dereferenced: NULL is undefined behaviour. *)
Definition deref {St A} (p : option A) : M St A :=
  match p with Some a => mret a | None => undef end.

(** ** Functional record update: [r <| f := v |>] *)

Class Settable (R : Type) := eta : R → R.
Class Setter {R T : Type} (f : R → T) := over : (T → T) → R → R.
Arguments over {R T} f {_} _ _.

Ltac solve_setter :=
  match goal with
  | |- @Setter ?R ?T ?f =>
      let i := constr:(ltac:(typeclasses eauto) : Settable R) in
      let e := eval red in i in
      match eval pattern f in e with
      | ?g _ => let r := eval cbv beta in (fun (h : T → T) (x : R) => g (fun y => h (f y)) x) in
                exact r
      end
  end.
#[global] Hint Extern 1 (Setter _) => solve_setter : typeclass_instances.

Notation "r <| f := v |>" := (over f (λ _, v) r)
  (at level 1, left associativity, f at level 0, v at level 200, format "r  <| f  :=  v |>").

(** ** Small tactics *)

#[global] Instance cstring_ok_dec (s : cstring) : Decision (cstring_ok s).
Proof. unfold cstring_ok. apply _. Defined.

(** Closed decidable goals, by evaluation. *)
Ltac by_eval := apply (bool_decide_unpack _); vm_compute; exact I.

(** Boolean tests of the code as propositions. *)
Lemma streq_true (a b : cstring) : streq a b = true ↔ a = b.
Proof. unfold streq. apply bool_decide_eq_true. Qed.
Lemma streq_false (a b : cstring) : streq a b = false ↔ a ≠ b.
Proof. unfold streq. apply bool_decide_eq_false. Qed.
Lemma streq_refl (a : cstring) : streq a a = true.
Proof. by apply streq_true. Qed.

Lemma u32_range (z : Z) : uint_range (u32 z).
Proof. unfold uint_range, u32. apply Z.mod_pos_bound. lia. Qed.

Lemma u32_add_l (a b : Z) : u32 (u32 a + b) = u32 (a + b).
Proof. unfold u32. by rewrite Zplus_mod_idemp_l. Qed.
Lemma u32_sub_l (a b : Z) : u32 (u32 a - b) = u32 (a - b).
Proof. unfold u32. by rewrite Zminus_mod_idemp_l. Qed.
Lemma u32_mul_l (a b : Z) : u32 (u32 a * b) = u32 (a * b).
Proof. unfold u32. by rewrite Zmult_mod_idemp_l. Qed.
Lemma u32_id (z : Z) : uint_range z → u32 z = z.
Proof. unfold uint_range, u32. intros. apply Z.mod_small. lia. Qed.

Create HintDb prelude.
Create Rewrite HintDb prelude.
#[export] Hint Resolve streq_refl u32_range : prelude.
#[export] Hint Rewrite streq_true streq_false : prelude.
