(* ===== verification/Heap.v ===== *)
(** * Linked lists in memory

    The queues and the client list of the sources are singly linked lists of malloc'ed
    nodes. A heap maps the locations in use to nodes; [seg] ties a chain of pointers to
    the list of the data behind them, and [owns] says that a heap holds the nodes of one
    list and nothing else, so that a lost node shows. *)

From S2P Require Import Prelude.

Abbreviation loc := positive.

Record node (A : Type) : Type := mk_node { data : A; next : option loc }.
Arguments mk_node {A} data next.
Arguments data {A} n.
Arguments next {A} n.
#[global] Instance node_settable A : Settable (node A) := λ n, mk_node (data n) (next n).
Abbreviation heap A := (gmap loc (node A)).

Section node.
Context {A : Type}.

(** The nodes at [ps], in this order, carry [l]; [p] points to the first of them, or to
    [q] when there is none, and the last one's [next] is [q]. *)
Fixpoint seg (h : heap A) (p : option loc) (ps : list loc) (l : list A) (q : option loc) : Prop :=
  match ps, l with
  | [], [] => p = q
  | x :: ps, a :: l => p = Some x /\ ∃ n, h !! x = Some (mk_node a n) /\ seg h n ps l q
  | _, _ => False
  end.

(** The heap is exactly the list that starts at [p]. *)
Definition owns (h : heap A) (p : option loc) (ps : list loc) (l : list A) : Prop :=
  seg h p ps l None /\ NoDup ps /\ dom h = list_to_set ps.

(** The node at a location; a freed or made-up location has none. *)
Definition load (h : heap A) (p : loc) : outcome (node A) := deref_o (h !! p).

(** [while (temp->next) temp = temp->next;] *)
Fixpoint last_node (fuel : nat) (h : heap A) (temp : loc) : outcome loc :=
  match fuel with
  | O => NoFuel
  | S fuel =>
      n ← load h temp;
      match next n with Some t => last_node fuel h t | None => Done temp end
  end.

(** [while (NULL != temp) { if (test) break; temp = temp->next; }] *)
Fixpoint find_node (fuel : nat) (h : heap A) (test : A → bool) (temp : option loc) : outcome (option loc) :=
  match fuel with
  | O => NoFuel
  | S fuel =>
      match temp with
      | None => Done None
      | Some x =>
          n ← load h x;
          if test (data n) then Done (Some x) else find_node fuel h test (next n)
      end
  end.

(** Links all the nodes away: [while (head) { next = head->next; free (head); head = next; }] *)
Fixpoint free_all (fuel : nat) (h : heap A) (head : option loc) : outcome (heap A) :=
  match fuel with
  | O => NoFuel
  | S fuel =>
      match head with
      | None => Done h
      | Some x => n ← load h x; free_all fuel (delete x h) (next n)
      end
  end.

(** A new node behind the last one. *)
Definition append_node (h : heap A) (head : option loc) (new : loc) (a : A) : outcome (heap A * option loc) :=
  let h := <[new := mk_node a None]> h in
  match head with
  | None => Done (h, Some new)
  | Some first =>
      temp ← last_node (size h) h first;
      n ← load h temp;
      Done (<[temp := (n <| next := Some new |>)]> h, head)
  end.
End node.

(** ** Lemmas *)

Section facts.
Context {A : Type}.
Implicit Types (h : heap A) (p q : option loc) (ps : list loc) (l : list A).

Lemma seg_length h p ps l q : seg h p ps l q → length ps = length l.
Proof.
  revert p l. induction ps as [|x ps IH]; intros p [|a l]; cbn; try done.
  intros (_ & n & _ & Hs). f_equal. by eapply IH.
Qed.

Lemma seg_app h p ps ps' l l' q :
  length ps = length l →
  seg h p (ps ++ ps') (l ++ l') q ↔ ∃ m, seg h p ps l m /\ seg h m ps' l' q.
Proof.
  revert p l. induction ps as [|x ps IH]; intros p [|a l] Hl; try done; cbn.
  - split; [intros Hs; by exists p|by intros (m & -> & Hs)].
  - injection Hl as Hl. split.
    + intros (-> & n & Hx & Hs). apply (IH n l Hl) in Hs as (m & H1 & H2). exists m. eauto 10.
    + intros (m & (-> & n & Hx & H1) & H2). split; [done|]. exists n. split; [done|]. apply (IH n l Hl). by exists m.
Qed.

(** Only the nodes of the chain matter. *)
Lemma seg_frame h h' p ps l q : (∀ x, x ∈ ps → h' !! x = h !! x) → seg h p ps l q → seg h' p ps l q.
Proof.
  revert p l. induction ps as [|x ps IH]; intros p [|a l] Hf; cbn; try done.
  intros (-> & n & Hx & Hs). split; [done|]. exists n. rewrite Hf by (by left). split; [done|].
  apply IH; [|done]. intros y Hy. apply Hf. by right.
Qed.

Lemma seg_insert h p ps l q x (n : node A) : x ∉ ps → seg h p ps l q → seg (<[x := n]> h) p ps l q.
Proof. intros Hx. apply seg_frame. intros y Hy. rewrite lookup_insert_ne; [done|]. by intros ->. Qed.

Lemma seg_delete h p ps l q x : x ∉ ps → seg h p ps l q → seg (delete x h) p ps l q.
Proof. intros Hx. apply seg_frame. intros y Hy. rewrite lookup_delete_ne; [done|]. by intros ->. Qed.

Lemma seg_lookup h p ps l q x : seg h p ps l q → x ∈ ps → is_Some (h !! x).
Proof.
  revert p l. induction ps as [|y ps IH]; intros p [|a l]; cbn; try done; [by intros _ ?%elem_of_nil|].
  intros (_ & n & Hy & Hs) [->|Hin]%elem_of_cons; [by rewrite Hy|by eapply IH].
Qed.

(** The node in the middle of a chain. *)
Lemma seg_middle h p ps l q i x :
  seg h p ps l q → ps !! i = Some x →
  ∃ a, l !! i = Some a /\ h !! x = Some (mk_node a (match ps !! S i with Some y => Some y | None => q end)).
Proof.
  revert p l i. induction ps as [|y ps IH]; intros p [|a l] i; try done; cbn.
  intros (_ & n & Hy & Hs). destruct i as [|i]; cbn.
  - intros [= <-]. exists a. split; [done|]. rewrite Hy. destruct ps as [|z ps], l as [|b l]; try done; cbn in *.
    + by rewrite Hs.
    + destruct Hs as (-> & _). done.
  - intros Hi. by apply (IH n).
Qed.

Lemma seg_head h p ps l q : seg h p ps l q → p = match ps with x :: _ => Some x | [] => q end.
Proof. destruct ps, l; cbn; try done. by intros [-> _]. Qed.

Lemma seg_size h p ps l q : seg h p ps l q → NoDup ps → (length ps <= size h)%nat.
Proof.
  intros Hs Hd. rewrite <-size_dom, <-(size_list_to_set (C := gset loc) ps) by done. apply subseteq_size.
  intros x Hx%elem_of_list_to_set. apply elem_of_dom. by apply (seg_lookup _ _ _ _ _ _ Hs).
Qed.

Lemma owns_length h p ps l : owns h p ps l → size h = length l.
Proof.
  intros (Hs & Hd & Hdom). rewrite <-(seg_length _ _ _ _ _ Hs), <-size_dom, Hdom. by apply size_list_to_set.
Qed.

Lemma owns_fresh h p ps l x : owns h p ps l → h !! x = None → x ∉ ps.
Proof. intros (Hs & _) Hx Hin. by apply (seg_lookup _ _ _ _ _ _ Hs) in Hin as [n Hn]; rewrite Hx in Hn. Qed.

Lemma owns_empty : owns (∅ : heap A) None [] [].
Proof. split; [done|]. split; [constructor|]. by rewrite dom_empty_L. Qed.
End facts.

(** ** The operations *)

Section operations.
Context {A : Type}.
Implicit Types (h : heap A) (head : option loc) (ps : list loc) (l : list A) (a : A).

Lemma load_some h x (n : node A) : h !! x = Some n → load h x = Done n.
Proof. unfold load. by intros ->. Qed.

(** The walk ends at the last node. *)
Lemma last_node_run fuel h p y ps l :
  seg h p (y :: ps) l None → (length ps < fuel)%nat →
  ∃ x, last_node fuel h y = Done x /\ last (y :: ps) = Some x.
Proof.
  revert p y l fuel. induction ps as [|z ps IH]; intros p y [|a l] [|fuel]; cbn -[last]; try done; try lia.
  - intros (_ & n & Hy & Hs) _. rewrite (load_some _ _ _ Hy). destruct l; [|done]. cbn in Hs. subst n.
    by exists y.
  - intros (_ & n & Hy & Hs) Hf. rewrite (load_some _ _ _ Hy). destruct l as [|b l]; [done|].
    pose proof Hs as (-> & _). cbn. destruct (IH (Some z) z (b :: l) fuel Hs) as (x & -> & Hl); [lia|].
    exists x. split; [done|]. by destruct ps.
Qed.

(** Appending leaves the nodes beside the list alone. *)
Lemma append_node_seg h head ps l new a :
  seg h head ps l None → NoDup ps → h !! new = None →
  ∃ h' head', append_node h head new a = Done (h', head') /\ seg h' head' (ps ++ [new]) (l ++ [a]) None /\
    dom h' = {[ new ]} ∪ dom h /\ ∀ x, x ≠ new → x ∉ ps → h' !! x = h !! x.
Proof.
  intros Hs Hd Hn. assert (new ∉ ps) as Hnew by (intros Hin; by apply (seg_lookup _ _ _ _ _ _ Hs) in Hin as [m Hm]; rewrite Hn in Hm).
  unfold append_node. pose proof (seg_head _ _ _ _ _ Hs) as Hh. destruct ps as [|y ps].
  { subst head. destruct l; [|done]. eexists _, _. split; [reflexivity|]. split; [|split].
    - cbn. split; [done|]. exists None. by rewrite lookup_insert_eq.
    - by rewrite dom_insert_L.
    - intros x Hx _. by rewrite lookup_insert_ne. }
  subst head. set (h1 := <[new := mk_node a None]> h).
  assert (seg h1 (Some y) (y :: ps) l None) as Hs1 by (by apply seg_insert).
  destruct (last_node_run (size h1) h1 (Some y) y ps l Hs1) as (x & -> & Hx).
  { unfold h1. rewrite map_size_insert_None by done. pose proof (seg_size h (Some y) (y :: ps) l None Hs Hd). cbn in *. lia. }
  assert (∃ init, y :: ps = init ++ [x]) as [init Hi] by (apply last_Some in Hx as [init ->]; by exists init).
  cbn [outcome_bind mbind]. rewrite Hi in *.
  destruct l as [|b l _] using rev_ind; [apply seg_length in Hs1; rewrite length_app in Hs1; cbn in Hs1; lia|].
  assert (length init = length l) as Hlen by (apply seg_length in Hs1; rewrite !length_app in Hs1; cbn in Hs1; lia).
  apply seg_app in Hs1 as (m & H1 & H2); [|done]. cbn in H2. destruct H2 as (-> & n & Hxn & ->).
  rewrite (load_some _ _ _ Hxn). cbn [outcome_bind mbind]. eexists _, _. split; [reflexivity|].
  apply NoDup_app in Hd as (_ & Hxi & _). assert (x ∉ init) by (intros Hin; apply (Hxi x Hin); by left).
  assert (new ≠ x) as Hne by (intros ->; apply Hnew, elem_of_app; right; by left). split; [|split].
  - rewrite <-!app_assoc. apply seg_app; [done|]. exists (Some x). split; [by apply seg_insert|].
    cbn. split; [done|]. exists (Some new). rewrite lookup_insert_eq. split; [done|].
    split; [done|]. exists None. rewrite lookup_insert_ne by done. unfold h1. by rewrite lookup_insert_eq.
  - rewrite dom_insert_L. unfold h1. rewrite dom_insert_L. assert (x ∈ dom h); [|set_solver].
    apply elem_of_dom. apply (seg_lookup _ _ _ _ _ _ Hs). apply elem_of_app. right. by left.
  - intros z Hz Hlast. rewrite lookup_insert_ne; [unfold h1; by rewrite lookup_insert_ne|].
    intros ->. apply Hlast, elem_of_app. right. by left.
Qed.

Lemma append_node_run h head ps l new a :
  owns h head ps l → h !! new = None →
  ∃ h' head', append_node h head new a = Done (h', head') /\ owns h' head' (ps ++ [new]) (l ++ [a]).
Proof.
  intros Ho Hn. pose proof (owns_fresh _ _ _ _ _ Ho Hn) as Hnew. destruct Ho as (Hs & Hd & Hdom).
  destruct (append_node_seg h head ps l new a Hs Hd Hn) as (h' & head' & Hr & Hs' & Hdom' & _).
  exists h', head'. split; [done|]. split; [done|]. split.
  - apply NoDup_app. split_and!; [done| |apply NoDup_singleton]. by intros x Hx ->%list_elem_of_singleton.
  - rewrite Hdom', Hdom, list_to_set_app_L. set_solver.
Qed.

(** The search stops at the first node that passes the test. *)
Lemma find_node_run fuel h test p ps l :
  seg h p ps l None → (length ps < fuel)%nat →
  ∃ r, find_node fuel h test p = Done r /\
    match List.find test l with
    | Some a => ∃ x n, r = Some x /\ h !! x = Some (mk_node a n)
    | None => r = None
    end.
Proof.
  revert p ps l. induction fuel as [|fuel IH]; intros p [|x ps] [|a l]; cbn; try done; try lia.
  - intros -> _. by eexists.
  - intros (-> & n & Hx & Hs) Hf. rewrite (load_some _ _ _ Hx). cbn. destruct (test a) eqn:Ht.
    + eexists. split; [done|]. by exists x, n.
    + apply (IH n ps l Hs). lia.
Qed.

Lemma owns_split h p ps1 x ps2 l1 a l2 :
  length ps1 = length l1 → owns h p (ps1 ++ x :: ps2) (l1 ++ a :: l2) →
  (x ∉ ps1) /\ (x ∉ ps2) /\
  ∃ n, h !! x = Some (mk_node a n) /\ seg h p ps1 l1 (Some x) /\ seg h n ps2 l2 None.
Proof.
  intros Hl (Hs & Hd & _). apply NoDup_app in Hd as (_ & H1 & [H2 _]%NoDup_cons).
  split; [intros Hin; apply (H1 x Hin); by left|]. split; [done|].
  apply seg_app in Hs as (m & Hs1 & Hs2); [|done]. cbn in Hs2. destruct Hs2 as (-> & n & Hx & Hs2). eauto.
Qed.

(** The data of a node is changed in place. *)
Lemma owns_update h p ps1 x ps2 l1 a b n l2 :
  length ps1 = length l1 → owns h p (ps1 ++ x :: ps2) (l1 ++ a :: l2) → h !! x = Some (mk_node a n) →
  owns (<[x := mk_node b n]> h) p (ps1 ++ x :: ps2) (l1 ++ b :: l2).
Proof.
  intros Hl Ho Hx. destruct (owns_split _ _ _ _ _ _ _ _ Hl Ho) as (H1 & H2 & n' & Hx' & Hs1 & Hs2).
  rewrite Hx in Hx'. injection Hx' as <-. destruct Ho as (_ & Hd & Hdom). split; [|split; [done|]].
  - apply seg_app; [done|]. exists (Some x). split; [by apply seg_insert|]. cbn. split; [done|]. exists n.
    rewrite lookup_insert_eq. split; [done|]. by apply seg_insert.
  - rewrite dom_insert_L, Hdom, list_to_set_app_L. cbn. set_solver.
Qed.

(** The first node is taken out and freed. *)
Lemma owns_tail h p x ps a n l :
  owns h p (x :: ps) (a :: l) → h !! x = Some (mk_node a n) → owns (delete x h) n ps l.
Proof.
  intros Ho Hx. destruct (owns_split h p [] x ps [] a l eq_refl Ho) as (_ & H2 & n' & Hx' & _ & Hs).
  rewrite Hx in Hx'. injection Hx' as <-. destruct Ho as (_ & [_ Hd]%NoDup_cons & Hdom).
  split; [by apply seg_delete|]. split; [done|]. rewrite dom_delete_L, Hdom. cbn. set_solver.
Qed.

(** A node behind another one is taken out and freed. *)
Lemma owns_unlink h p ps1 z x ps2 l1 c a l2 n :
  length ps1 = length l1 → owns h p (ps1 ++ z :: x :: ps2) (l1 ++ c :: a :: l2) →
  h !! x = Some (mk_node a n) →
  owns (delete x (<[z := mk_node c n]> h)) p (ps1 ++ z :: ps2) (l1 ++ c :: l2).
Proof.
  intros Hl Ho Hx. destruct (owns_split _ _ _ _ _ _ _ _ Hl Ho) as (H1 & H2 & m & Hz & Hs1 & Hs2).
  cbn in Hs2. destruct Hs2 as (-> & n' & Hx' & Hs2). rewrite Hx in Hx'. injection Hx' as <-.
  destruct Ho as (_ & Hd & Hdom). apply NoDup_app in Hd as (Hd1 & Hd2 & [Hz2 [Hx2 Hd3]%NoDup_cons]%NoDup_cons).
  assert (x ∉ ps1) by (intros Hin; apply (Hd2 x Hin); right; by left).
  assert (x ≠ z) by (intros ->; apply Hz2; by left).
  split; [|split].
  - apply seg_app; [done|]. exists (Some z). split; [by apply seg_delete, seg_insert|]. cbn. split; [done|].
    exists n. rewrite lookup_delete_ne, lookup_insert_eq by done. split; [done|].
    apply seg_delete; [done|]. apply seg_insert; [|done]. set_solver.
  - apply NoDup_app. split_and!; [done|set_solver|]. apply NoDup_cons. split; [set_solver|done].
  - rewrite dom_delete_L, dom_insert_L, Hdom, !list_to_set_app_L. cbn.
    assert (x ∉ (list_to_set ps1 : gset loc)) by (by rewrite elem_of_list_to_set).
    assert (x ∉ (list_to_set ps2 : gset loc)) by (by rewrite elem_of_list_to_set). set_solver.
Qed.

(** Every node is freed once, and none is left. *)
Lemma free_all_run fuel h p ps l :
  owns h p ps l → (length ps < fuel)%nat → free_all fuel h p = Done ∅.
Proof.
  revert h p ps l. induction fuel as [|fuel IH]; intros h p ps l Ho Hf; [lia|]. cbn.
  pose proof (seg_length _ _ _ _ _ (proj1 Ho)) as Hl.
  destruct ps as [|x ps], l as [|a l]; try done.
  - destruct Ho as (-> & _ & Hd). f_equal. by apply dom_empty_inv_L.
  - pose proof Ho as ((-> & n & Hx & _) & _ & _). rewrite (load_some _ _ _ Hx).
    apply (IH _ _ ps l); [by eapply owns_tail|cbn in Hf; lia].
Qed.
End operations.
