(* ===== verification/Threads.v ===== *)
(** * mutex.c and spin_thread.c

    The mutex handlers the code gives to noPoll, over the mutexes of POSIX, and the start
    and the join of the threads of [createSocketConnection]. *)

From S2P Require Import Prelude Heap.

(** ** Mutexes of POSIX *)

Abbreviation tid := nat.

Inductive mutex_type : Set := PTHREAD_MUTEX_DEFAULT | PTHREAD_MUTEX_RECURSIVE.

Record pthread_mutex_t : Set := mk_mutex {
  type : mutex_type;
  holder : option tid;
  count : nat            (* locked and not unlocked, so many times *)
}.

(** The blocks that are allocated; [None] has not been initialised. *)
Abbreviation blocks := (gmap loc (option pthread_mutex_t)).

Definition EPERM : Z := 1.
Definition EAGAIN : Z := 11.
Definition EBUSY : Z := 16.

Section mutex.
(** [max_count] is how often a recursive mutex can be locked. *)
Context (malloc : blocks → option loc) (mutex_init_rc : blocks → Z) (max_count : nat).

Definition the_mutex (p : loc) (b : blocks) : outcome pthread_mutex_t :=
  o ← deref_o (b !! p); deref_o o.

(** No result: the caller waits. *)
Definition pthread_mutex_lock (t : tid) (p : loc) (b : blocks) : outcome (option (Z * blocks)) :=
  m ← the_mutex p b;
  match holder m with
  | None => Done (Some (0%Z, <[p := Some (mk_mutex (type m) (Some t) 1)]> b))
  | Some t' =>
      if decide (t = t') then
        match type m with
        | PTHREAD_MUTEX_RECURSIVE =>
            if (count m <? max_count)%nat
            then Done (Some (0%Z, <[p := Some (mk_mutex (type m) (Some t) (S (count m)))]> b))
            else Done (Some (EAGAIN, b))
        | PTHREAD_MUTEX_DEFAULT => Undef
        end
      else Done None
  end.

Definition pthread_mutex_unlock (t : tid) (p : loc) (b : blocks) : outcome (Z * blocks) :=
  m ← the_mutex p b;
  if decide (holder m = Some t) then
    Done (0%Z, <[p := Some (match count m with
                          | S (S n) => mk_mutex (type m) (Some t) (S n)
                          | _ => mk_mutex (type m) None 0
                          end)]> b)
  else match type m with
       | PTHREAD_MUTEX_RECURSIVE => Done (EPERM, b)
       | PTHREAD_MUTEX_DEFAULT => Undef
       end.

Definition pthread_mutex_destroy (p : loc) (b : blocks) : outcome (Z * blocks) :=
  m ← the_mutex p b;
  match holder m with
  | Some _ => Done (EBUSY, b)
  | None => Done (0%Z, <[p := None]> b)
  end.

(** ** mutex.c *)

Definition createMutex (b : blocks) : option loc * blocks :=
  match malloc b with
  | None => (None, b)
  | Some mutex =>
      let b := <[mutex := None]> b in
      let rtn := mutex_init_rc b in
      if (rtn =? 0)%Z
      then (Some mutex, <[mutex := Some (mk_mutex PTHREAD_MUTEX_RECURSIVE None 0)]> b)
      else (None, delete mutex b)
  end.

(** A failure is only logged. *)
Definition lockMutex (t : tid) (mutex : option loc) (b : blocks) : outcome (option blocks) :=
  match mutex with
  | None => Done (Some b)
  | Some p => r ← pthread_mutex_lock t p b; Done (option_map snd r)
  end.

Definition unlockMutex (t : tid) (mutex : option loc) (b : blocks) : outcome blocks :=
  match mutex with
  | None => Done b
  | Some p => '(_, b) ← pthread_mutex_unlock t p b; Done b
  end.

Definition destroyMutex (mutex : option loc) (b : blocks) : outcome blocks :=
  match mutex with
  | None => Done b
  | Some p =>
      '(rc, b) ← pthread_mutex_destroy p b;
      if (rc =? 0)%Z then Done (delete p b) else Done b
  end.

(** What a thread that calls the handlers does. *)
Inductive handler_step (t : tid) : blocks → blocks → Prop :=
| h_create b m b' : createMutex b = (m, b') → handler_step t b b'
| h_lock b m b' : lockMutex t m b = Done (Some b') → handler_step t b b'
| h_unlock b m b' : unlockMutex t m b = Done b' → handler_step t b b'
| h_destroy b m b' : destroyMutex m b = Done b' → handler_step t b b'.

Definition holds (t : tid) (p : loc) (n : nat) (b : blocks) : Prop :=
  b !! p = Some (Some (mk_mutex PTHREAD_MUTEX_RECURSIVE (Some t) n)).
Definition unlocked (p : loc) (b : blocks) : Prop :=
  b !! p = Some (Some (mk_mutex PTHREAD_MUTEX_RECURSIVE None 0)).

(** All mutexes are recursive and initialised, and [count] tells whether there is a holder. *)
Definition handlers_inv (b : blocks) : Prop :=
  ∀ p o, b !! p = Some o → ∃ h n, o = Some (mk_mutex PTHREAD_MUTEX_RECURSIVE h n) /\ (h = None ↔ n = 0%nat).

(** [n] calls in a row. *)
Fixpoint lock_times (n : nat) (t : tid) (p : loc) (b : blocks) : outcome (option blocks) :=
  match n with
  | O => Done (Some b)
  | S n =>
      r ← lockMutex t (Some p) b;
      match r with Some b => lock_times n t p b | None => Done None end
  end.
Fixpoint unlock_times (n : nat) (t : tid) (p : loc) (b : blocks) : outcome blocks :=
  match n with O => Done b | S n => b ← unlockMutex t (Some p) b; unlock_times n t p b end.
End mutex.

(** ** spin_thread.c *)

(** The threads of [createSocketConnection] and the variables that name them. *)
Inductive routine : Set :=
| r_handle_upstream | r_processUpstreamMessage | r_messageHandlerTask | r_serviceAliveTask | r_CRUDHandlerTask.
Inductive tid_var : Set := upstream_tid | upstream_msg_tid | downstream_tid | svc_alive_tid | crud_tid.
#[export] Instance routine_eq_dec : EqDecision routine. Proof. solve_decision. Defined.
#[export] Instance tid_var_eq_dec : EqDecision tid_var. Proof. solve_decision. Defined.

Record process : Type := mk_process {
  started : gmap tid routine;
  ended : gset tid;
  vars : tid_var → option tid;
  exit_status : option Z
}.
#[export] Instance process_settable : Settable process :=
  λ s, mk_process (started s) (ended s) (vars s) (exit_status s).

Definition process_init : process := mk_process ∅ ∅ (λ _, None) None.

Section threads.
(** [pthread_create]: an error or the id of the new thread. *)
Context (pthread_create : gmap tid routine → Z + tid).

Definition set_var (v : tid_var) (t : tid) (s : process) : process :=
  s <| vars := λ v', if decide (v' = v) then Some t else vars s v' |>.

(** Behind [exit] nothing happens. *)
Definition StartThread (start_routine : routine) (threadId : tid_var) (s : process) : process :=
  match exit_status s with
  | Some _ => s
  | None =>
      match pthread_create (started s) with
      | inl err => s <| exit_status := Some 1%Z |>
      | inr t => set_var threadId t (s <| started := <[t := start_routine]> (started s) |>)
      end
  end.

Definition start_threads (s : process) : process :=
  let s := StartThread r_handle_upstream upstream_tid s in
  let s := StartThread r_processUpstreamMessage upstream_msg_tid s in
  let s := StartThread r_messageHandlerTask downstream_tid s in
  let s := StartThread r_serviceAliveTask svc_alive_tid s in
  StartThread r_CRUDHandlerTask crud_tid s.

(** [JoinThread] returns when the thread has ended; an id nobody has is undefined. *)
Definition JoinThread (v : tid_var) (s : process) : outcome bool :=
  t ← deref_o (vars s v);
  _ ← deref_o (started s !! t);
  Done (bool_decide (t ∈ ended s)).

(** The joins in their order: [true] when the last one has returned. *)
Fixpoint join_all (vs : list tid_var) (s : process) : outcome bool :=
  match vs with
  | [] => Done true
  | v :: vs => b ← JoinThread v s; if (b : bool) then join_all vs s else Done false
  end.
Definition join_threads : process → outcome bool :=
  join_all [svc_alive_tid; upstream_tid; downstream_tid; upstream_msg_tid; crud_tid].
End threads.

(** ** Lemmas *)

Section mutex_facts.
Context (max_count : nat).
Implicit Types b : blocks.

Lemma the_mutex_some p b m : b !! p = Some (Some m) → the_mutex p b = Done m.
Proof. unfold the_mutex. by intros ->. Qed.

Lemma lock_free t p b :
  unlocked p b → ∃ b', lockMutex max_count t (Some p) b = Done (Some b') /\ holds t p 1 b'.
Proof.
  intros Hu. unfold lockMutex, pthread_mutex_lock. rewrite (the_mutex_some _ _ _ Hu). cbn.
  eexists. split; [done|]. apply lookup_insert_eq.
Qed.

Lemma lock_held t p n b :
  holds t p n b → (n < max_count)%nat →
  ∃ b', lockMutex max_count t (Some p) b = Done (Some b') /\ holds t p (S n) b'.
Proof.
  intros Hh Hn. unfold lockMutex, pthread_mutex_lock. rewrite (the_mutex_some _ _ _ Hh). cbn -[Nat.ltb].
  rewrite decide_True by done. rewrite (proj2 (Nat.ltb_lt _ _) Hn). eexists. split; [done|]. apply lookup_insert_eq.
Qed.

Lemma lock_times_held n k t p b :
  holds t p k b → (n + k <= max_count)%nat →
  ∃ b', lock_times max_count n t p b = Done (Some b') /\ holds t p (n + k) b'.
Proof.
  revert k b. induction n as [|n IH]; intros k b Hh Hn; [by exists b|]. cbn [lock_times].
  destruct (lock_held t p k b Hh) as (b1 & -> & Hh1); [lia|]. cbn.
  destruct (IH (S k) b1 Hh1) as (b2 & -> & Hh2); [lia|]. exists b2. split; [done|]. by rewrite Nat.add_succ_r in Hh2.
Qed.

Lemma unlock_held t p n b :
  holds t p (S n) b →
  ∃ b', unlockMutex t (Some p) b = Done b' /\ if decide (n = 0%nat) then unlocked p b' else holds t p n b'.
Proof.
  intros Hh. unfold unlockMutex, pthread_mutex_unlock. rewrite (the_mutex_some _ _ _ Hh). cbn.
  rewrite decide_True by done. eexists. split; [done|]. destruct n; cbn; apply lookup_insert_eq.
Qed.

Lemma unlock_times_held n k t p b :
  holds t p (n + k) b → (0 < n + k)%nat →
  ∃ b', unlock_times n t p b = Done b' /\ if decide (k = 0%nat) then unlocked p b' else holds t p k b'.
Proof.
  revert b. induction n as [|n IH]; intros b Hh Hk; [exists b; split; [done|]; by rewrite decide_False by lia|].
  cbn [unlock_times]. destruct (unlock_held t p (n + k) b Hh) as (b1 & -> & Hb1). cbn.
  destruct (decide ((n + k)%nat = 0%nat)).
  - assert (n = 0%nat) as -> by lia. exists b1. split; [done|]. by rewrite decide_True by lia.
  - apply IH; [done|lia].
Qed.

(** What a thread that does not hold the mutex can do to it. *)
Lemma not_the_holder t t' p n b :
  holds t p n b → t' ≠ t →
  lockMutex max_count t' (Some p) b = Done None /\ unlockMutex t' (Some p) b = Done b /\
  destroyMutex (Some p) b = Done b.
Proof.
  intros Hh Hne. unfold lockMutex, unlockMutex, destroyMutex, pthread_mutex_lock, pthread_mutex_unlock, pthread_mutex_destroy.
  rewrite (the_mutex_some _ _ _ Hh). cbn. rewrite decide_False by done. rewrite decide_False by congruence. done.
Qed.

(** A handler touches no block but its own. *)
Lemma lock_other t p p' b b' : p ≠ p' → lockMutex max_count t (Some p') b = Done (Some b') → b' !! p = b !! p.
Proof.
  intros Hne. unfold lockMutex, pthread_mutex_lock. destruct (the_mutex p' b) as [m| |]; [|done..]. cbn -[Nat.ltb].
  destruct (holder m) as [t'|]; [|intros [= <-]; by rewrite lookup_insert_ne].
  destruct (decide (t = t')); [|done]. destruct (type m); [done|].
  destruct (_ <? _)%nat; intros [= <-]; [by rewrite lookup_insert_ne|done].
Qed.

Lemma unlock_other t p p' b b' : p ≠ p' → unlockMutex t (Some p') b = Done b' → b' !! p = b !! p.
Proof.
  intros Hne. unfold unlockMutex, pthread_mutex_unlock. destruct (the_mutex p' b) as [m| |]; [|done..]. cbn.
  destruct (decide _); [intros [= <-]; by rewrite lookup_insert_ne|]. by destruct (type m); [|intros [= <-]].
Qed.

Lemma destroy_other p p' b b' : p ≠ p' → destroyMutex (Some p') b = Done b' → b' !! p = b !! p.
Proof.
  intros Hne. unfold destroyMutex, pthread_mutex_destroy. destruct (the_mutex p' b) as [m| |]; [|done..]. cbn.
  destruct (holder m); cbn; intros [= <-]; [done|]. by rewrite lookup_delete_ne, lookup_insert_ne.
Qed.
End mutex_facts.

Section thread_facts.
Context (pthread_create : gmap tid routine → Z + tid).
Context (Hfresh : ∀ m t, pthread_create m = inr t → m !! t = None).

(** What a thread that is started leaves of the process. *)
Definition names (s : process) (v : tid_var) (r : routine) : Prop :=
  ∃ t, vars s v = Some t /\ started s !! t = Some r.

Lemma start_thread_cases r v s :
  exit_status s = None →
  let s' := StartThread pthread_create r v s in
  (exit_status s' = Some 1%Z /\ started s' = started s /\ ∃ err, pthread_create (started s) = inl err) \/
  (exit_status s' = None /\ names s' v r /\ (∀ v' r', v' ≠ v → names s v' r' → names s' v' r') /\
   ∃ t, (t ∉ dom (started s)) /\ vars s' v = Some t /\ dom (started s') = {[ t ]} ∪ dom (started s) /\ ended s' = ended s).
Proof using Hfresh.
  intros He. cbn zeta. unfold StartThread. rewrite He.
  destruct (pthread_create (started s)) as [err|t] eqn:Hc; [left; split; [done|]; split; [done|]; by eexists|right].
  apply Hfresh in Hc. split; [done|]. split; [|split].
  - exists t. cbn. rewrite decide_True by done. split; [done|]. apply lookup_insert_eq.
  - intros v' r' Hv (t' & H1 & H2). exists t'. cbn. rewrite decide_False by done. split; [done|].
    rewrite lookup_insert_ne; [done|]. intros ->. congruence.
  - exists t. split; [by apply not_elem_of_dom|]. cbn. rewrite decide_True by done. split; [done|]. split; [|done].
    by rewrite dom_insert_L.
Qed.

(** The threads of [done] run under their variables, and no others. *)
Definition running (s : process) (done : list (routine * tid_var)) : Prop :=
  (∀ r v, (r, v) ∈ done → names s v r) /\
  (∀ t, t ∈ dom (started s) ↔ ∃ r v, (r, v) ∈ done /\ vars s v = Some t).

Definition start_list (l : list (routine * tid_var)) (s : process) : process :=
  fold_left (λ s rv, StartThread pthread_create rv.1 rv.2 s) l s.

Lemma start_list_exited l s c : exit_status s = Some c → start_list l s = s.
Proof.
  intros He. induction l as [|[r v] l IH]; [done|]. cbn. replace (StartThread _ r v s) with s; [done|].
  unfold StartThread. by rewrite He.
Qed.

Lemma start_list_run l s done :
  exit_status s = None → NoDup (map snd (done ++ l)) → running s done →
  let s' := start_list l s in
  (exit_status s' = Some 1%Z /\ ∃ m err, pthread_create m = inl err) \/
  (exit_status s' = None /\ running s' (done ++ l)).
Proof using Hfresh.
  cbn zeta. revert s done. induction l as [|[r v] l IH]; intros s done He Hd Hr; [rewrite app_nil_r; by right|].
  cbn [start_list fold_left fst snd]. fold (start_list l (StartThread pthread_create r v s)).
  assert (∀ r' v', (r', v') ∈ done → v' ≠ v) as Hv.
  { intros r' v' Hin ->. rewrite map_app in Hd. apply NoDup_app in Hd as (_ & Hd & _). apply (Hd v); [|by left].
    by apply (list_elem_of_fmap_2 snd) in Hin. }
  destruct (start_thread_cases r v s He) as [(He' & _ & err & Herr)|(He' & Hn & Hkeep & t & Ht & Hvar & Hdom & _)].
  - left. rewrite (start_list_exited _ _ _ He'). split; [done|]. by exists (started s), err.
  - rewrite (cons_middle (r, v) done l), app_assoc in *. apply IH; [done|done|]. destruct Hr as [Hr1 Hr2]. split.
    + intros r' v' [Hin|Hin%list_elem_of_singleton]%elem_of_app; [apply Hkeep; [by eapply Hv|by apply Hr1]|].
      by injection Hin as -> ->.
    + intros t'. rewrite Hdom, elem_of_union, elem_of_singleton, Hr2. split.
      * intros [->|(r' & v' & Hin & Hvt)]; [exists r, v; split; [set_solver|done]|]. exists r', v'. split; [set_solver|].
        destruct (Hr1 r' v' Hin) as (t1 & H1 & H2). destruct (Hkeep v' r') as (t2 & H3 & H4); [by eapply Hv|by exists t1|].
        assert (vars (StartThread pthread_create r v s) v' = vars s v') as ->; [|done].
        unfold StartThread. rewrite He. destruct (pthread_create _); [done|]. cbn. by rewrite decide_False by (by eapply Hv).
      * intros (r' & v' & [Hin|Hin%list_elem_of_singleton]%elem_of_app & Hvt).
        -- right. exists r', v'. split; [done|]. revert Hvt. unfold StartThread. rewrite He.
           destruct (pthread_create _); [done|]. cbn. by rewrite decide_False by (by eapply Hv).
        -- injection Hin as -> ->. left. congruence.
Qed.

Lemma join_all_run vs s e :
  (∀ v, v ∈ vs → ∃ r, names s v r) →
  ∃ b, join_all vs (s <| ended := e |>) = Done b /\ (b = true ↔ ∀ v t, v ∈ vs → vars s v = Some t → t ∈ e).
Proof.
  induction vs as [|v vs IH]; intros Hall; [exists true; split; [done|]; split; [by intros _ v t ?%elem_of_nil|done]|].
  destruct (Hall v) as (r & t & Hv & Ht); [by left|]. cbn [join_all]. unfold JoinThread. cbn. rewrite Hv. cbn. rewrite Ht. cbn.
  destruct (IH ltac:(intros v' Hin; apply Hall; by right)) as (b & Hb & Hiff). case_bool_decide as Hin.
  - exists b. split; [done|]. rewrite Hiff. split; [intros H v' t' [->|Hv']%elem_of_cons Hvt; [congruence|by eapply H]|].
    intros H v' t' Hv'. apply H. by right.
  - exists false. split; [done|]. split; [done|]. intros H. destruct Hin. apply (H v t); [by left|done].
Qed.
End thread_facts.

(** ** Properties *)

Section handlers.
Context (malloc : blocks → option loc) (mutex_init_rc : blocks → Z) (max_count : nat).

(** [createMutex] gives a new unlocked recursive mutex exactly when there is memory and
    the initialisation works; otherwise it gives NULL and leaves nothing allocated. *)
Theorem createMutex_correct (b : blocks) (Hmalloc : ∀ p, malloc b = Some p → b !! p = None) :
  match createMutex malloc mutex_init_rc b with
  | (Some p, b') => b !! p = None /\ unlocked p b' /\ (∀ p', p' ≠ p → b' !! p' = b !! p')
  | (None, b') => b' = b /\ (malloc b = None \/ ∃ p, malloc b = Some p /\ mutex_init_rc (<[p := None]> b) ≠ 0%Z)
  end.
Proof.
  unfold createMutex. destruct (malloc b) as [p|]; [|by split; [|left]]. specialize (Hmalloc p eq_refl).
  destruct (Z.eqb_spec (mutex_init_rc (<[p := None]> b)) 0) as [Hrc|Hrc].
  - split; [done|]. split; [apply lookup_insert_eq|]. intros p' Hne. by rewrite !lookup_insert_ne.
  - split; [by rewrite delete_insert_id|]. right. by exists p.
Qed.

(** A thread can lock the mutex again as often as it likes, up to [max_count]: it has to
    unlock it as often before it is free. *)
Theorem mutex_nests (t : tid) (p : loc) (n k : nat) (b : blocks)
    (Hn : (n + S k <= max_count)%nat) (Hu : unlocked p b) :
  ∃ b1, lock_times max_count (n + S k) t p b = Done (Some b1) /\ holds t p (n + S k) b1 /\
  ∃ b2, unlock_times n t p b1 = Done b2 /\ holds t p (S k) b2 /\
  ∃ b3, unlock_times (S k) t p b2 = Done b3 /\ unlocked p b3.
Proof.
  rewrite Nat.add_succ_r in *. cbn [lock_times]. destruct (lock_free max_count t p b Hu) as (b0 & -> & H0). cbn [outcome_bind mbind].
  destruct (lock_times_held max_count (n + k) 1 t p b0 H0) as (b1 & H1 & Hh1); [lia|]. exists b1. split; [exact H1|].
  rewrite Nat.add_1_r in Hh1. split; [done|].
  destruct (unlock_times_held n (S k) t p b1) as (b2 & H2 & Hh2); [by rewrite Nat.add_succ_r|lia|].
  rewrite decide_False in Hh2 by done. exists b2. split; [done|]. split; [done|].
  destruct (unlock_times_held (S k) 0 t p b2) as (b3 & H3 & Hh3); [by rewrite Nat.add_0_r|lia|]. by exists b3.
Qed.

(** Mutual exclusion: whatever handlers the other threads call on whatever mutexes, a
    mutex that a thread holds stays allocated and held by it, as many times; the others
    have to wait for it. *)
Theorem mutex_excludes (t : tid) (p : loc) (n : nat) (b b' : blocks)
    (Hmalloc : ∀ b p, malloc b = Some p → b !! p = None) (Hh : holds t p n b)
    (Hsteps : rtc (λ b b', ∃ t', t' ≠ t /\ handler_step malloc mutex_init_rc max_count t' b b') b b') :
  holds t p n b' /\ ∀ t', t' ≠ t → lockMutex max_count t' (Some p) b' = Done None.
Proof.
  assert (holds t p n b') as Hh'; [|split; [done|]; intros t' Hne; by apply (not_the_holder max_count t t' p n)].
  induction Hsteps as [b|b b1 b' (t' & Hne & Hs) _ IH]; [done|]. apply IH. clear IH b'.
  destruct (not_the_holder max_count t t' p n b Hh Hne) as (Hlock & Hunlock & Hdestroy). unfold holds in *.
  destruct Hs as [b m b1 Hc|b [p'|] b1 Hc|b [p'|] b1 Hc|b [p'|] b1 Hc]; try (by injection Hc as <-).
  - pose proof (createMutex_correct b (Hmalloc b)) as Hcreate. rewrite Hc in Hcreate.
    destruct m as [p'|]; [|by destruct Hcreate as [-> _]]. destruct Hcreate as (Hnew & _ & Hsame).
    rewrite Hsame; [done|]. intros ->. by rewrite Hnew in Hh.
  - destruct (decide (p = p')) as [<-|Hp]; [by rewrite Hlock in Hc|]. by rewrite (lock_other _ _ _ _ _ _ Hp Hc).
  - destruct (decide (p = p')) as [<-|Hp]; [by rewrite Hunlock in Hc; injection Hc as <-|]. by rewrite (unlock_other _ _ _ _ _ Hp Hc).
  - destruct (decide (p = p')) as [<-|Hp]; [by rewrite Hdestroy in Hc; injection Hc as <-|]. by rewrite (destroy_other _ _ _ _ Hp Hc).
Qed.
End handlers.

(** Membership in a list of constructors. *)
Ltac in_list := repeat first [apply list_elem_of_here | apply list_elem_of_further].

(** When a thread cannot be started, the process exits with status 1. Otherwise five
    threads run, each under its own variable, and the joins at the end of
    [createSocketConnection] have returned exactly when all five have ended. *)
Theorem threads_started_and_joined (pthread_create : gmap tid routine → Z + tid)
    (Hfresh : ∀ m t, pthread_create m = inr t → m !! t = None) :
  let s := start_threads pthread_create process_init in
  (exit_status s = Some 1%Z /\ ∃ m err, pthread_create m = inl err) \/
  (exit_status s = None /\
   names s upstream_tid r_handle_upstream /\ names s upstream_msg_tid r_processUpstreamMessage /\
   names s downstream_tid r_messageHandlerTask /\ names s svc_alive_tid r_serviceAliveTask /\
   names s crud_tid r_CRUDHandlerTask /\
   ∀ e, join_threads (s <| ended := e |>) = Done (bool_decide (dom (started s) ⊆ e))).
Proof.
  set (l := [(r_handle_upstream, upstream_tid); (r_processUpstreamMessage, upstream_msg_tid);
    (r_messageHandlerTask, downstream_tid); (r_serviceAliveTask, svc_alive_tid); (r_CRUDHandlerTask, crud_tid)]).
  cbn zeta. change (start_threads pthread_create process_init) with (start_list pthread_create l process_init).
  destruct (start_list_run pthread_create Hfresh l process_init []) as [?|[He [H1 H2]]];
    [done|by apply (bool_decide_unpack _); vm_compute| |by left|right].
  { split; [by intros r v ?%elem_of_nil|]. intros t. cbn. rewrite dom_empty_L. split; [by intros ?%elem_of_empty|].
    by intros (r & v & ?%elem_of_nil & _). }
  set (s := start_list pthread_create l process_init) in *. cbn [app] in H1, H2. split; [done|].
  do 5 (split; [apply H1; in_list|]). intros e.
  destruct (join_all_run [svc_alive_tid; upstream_tid; downstream_tid; upstream_msg_tid; crud_tid] s e) as (b & Hb & Hiff).
  { intros [] _; eexists; apply H1; in_list. }
  unfold join_threads. rewrite Hb. f_equal. apply eq_true_iff_eq. rewrite Hiff, bool_decide_eq_true. split.
  - intros Hall t Ht. apply H2 in Ht as (r & v & _ & Hv). apply (Hall v t); [destruct v; in_list|done].
  - intros Hsub v t _ Hv. apply Hsub, H2. destruct v; eexists _, _; (split; [|exact Hv]); in_list.
Qed.

(** ** Witnesses *)

Definition malloc_ok : blocks → option loc := λ b, Some (fresh (dom b : gset loc)).
Definition init_ok : blocks → Z := λ _, 0%Z.

Lemma malloc_ok_fresh (b : blocks) (p : loc) : malloc_ok b = Some p → b !! p = None.
Proof. intros [= <-]. apply (not_elem_of_dom (D := gset loc)). exact (is_fresh (dom b : gset loc)). Qed.

Example createMutex_correct_witness : ∃ p b', createMutex malloc_ok init_ok ∅ = (Some p, b') /\ unlocked p b'.
Proof.
  pose proof (createMutex_correct malloc_ok init_ok ∅ (malloc_ok_fresh ∅)) as H.
  destruct (createMutex malloc_ok init_ok ∅) as [[p|] b'] eqn:Hc.
  - exists p, b'. split; [reflexivity|]. exact (proj1 (proj2 H)).
  - discriminate.
Defined.

Definition one_mutex (h : option tid) (n : nat) : blocks := {[ 1%positive := Some (mk_mutex PTHREAD_MUTEX_RECURSIVE h n) ]}.

Example mutex_nests_witness :
  ∃ b1 b2, lock_times 10 3 7 1%positive (one_mutex None 0) = Done (Some b1) /\
    unlock_times 2 7 1%positive b1 = Done b2 /\ holds 7 1%positive 1 b2.
Proof.
  destruct (mutex_nests 10 7 1%positive 2 0 (one_mutex None 0)) as (b1 & H1 & _ & b2 & H2 & H3 & _); [lia|reflexivity|].
  exists b1, b2. split; [exact H1|]. split; [exact H2|exact H3].
Defined.

(** Another thread tries to unlock the mutex and to destroy it. *)
Example mutex_excludes_witness : holds 7 1%positive 2 (one_mutex (Some 7%nat) 2).
Proof.
  refine (proj1 (mutex_excludes malloc_ok init_ok 10 7 1%positive 2 (one_mutex (Some 7%nat) 2) _ malloc_ok_fresh _ _)).
  - reflexivity.
  - eapply rtc_l; [exists 8%nat; split; [lia|]; apply (h_unlock _ _ _ _ _ (Some 1%positive)); reflexivity|].
    eapply rtc_l; [exists 8%nat; split; [lia|]; apply (h_destroy _ _ _ _ _ (Some 1%positive)); reflexivity|].
    apply rtc_refl.
Defined.

Definition create_ok : gmap tid routine → Z + tid := λ m, inr (fresh (dom m : gset tid)).

Example threads_started_and_joined_witness :
  ∃ t, vars (start_threads create_ok process_init) crud_tid = Some t /\
    started (start_threads create_ok process_init) !! t = Some r_CRUDHandlerTask.
Proof.
  destruct (threads_started_and_joined create_ok) as [(_ & m & err & H)|(_ & _ & _ & _ & _ & H & _)].
  - intros m t [= <-]. apply (not_elem_of_dom (D := gset tid)). exact (is_fresh (dom m : gset tid)).
  - discriminate H.
  - exact H.
Defined.
