(* ===== verification/StringHelpers.v ===== *)
(** * string_helpers.c

    [parStrncpy] on the bytes of its destination, and the C string that is read
    back from it. *)

From S2P Require Import Prelude.

(** [strncpy (destStr, srcStr, destSize-1); destStr[destSize-1] = 0] on the bytes
    of the destination array: at most [destSize-1] characters, the rest of those
    bytes filled with NUL, what lies behind them kept. *)
Definition parStrncpy_buf (destStr : list ascii) (srcStr : cstring) (destSize : nat) : list ascii :=
  let n := (destSize - 1)%nat in
  <[n := NUL]> (take n srcStr ++ replicate (n - length srcStr) NUL ++ drop n destStr).

(** The string read back from a destination of [destSize] bytes. *)
Definition parStrncpy (srcStr : cstring) (destSize : nat) : cstring := take (destSize - 1) srcStr.

(** ** Lemmas *)

Lemma before_app_found (c : ascii) (a b : list ascii) : c ∉ a → before c (a ++ c :: b) = a.
Proof.
  induction a as [|x a IH]; intros Hn; simpl.
  - by rewrite decide_True.
  - rewrite not_elem_of_cons in Hn. destruct Hn as [Hx Hn].
    rewrite decide_False by congruence. by rewrite IH.
Qed.

Lemma before_none (c : ascii) (a : list ascii) : c ∉ a → before c a = a.
Proof.
  induction a as [|x a IH]; intros Hn; [done|]. simpl.
  rewrite not_elem_of_cons in Hn. destruct Hn as [Hx Hn].
  rewrite decide_False by congruence. by rewrite IH.
Qed.

Lemma before_not_in (c : ascii) (a : list ascii) : c ∉ before c a.
Proof.
  induction a as [|x a IH]; simpl; [apply not_elem_of_nil|].
  case_decide; [apply not_elem_of_nil|]. rewrite not_elem_of_cons. done.
Qed.

Lemma before_subset (c d : ascii) (a : list ascii) : d ∈ before c a → d ∈ a.
Proof.
  induction a as [|x a IH]; simpl; [done|].
  case_decide; [by rewrite elem_of_nil|]. rewrite !elem_of_cons. naive_solver.
Qed.

Lemma before_length (c : ascii) (a : list ascii) : (length (before c a) <= length a)%nat.
Proof. induction a as [|x a IH]; simpl; [lia|]. case_decide; simpl; lia. Qed.

(** A list splits at the first occurrence of a character it has. *)
Lemma before_split (c : ascii) (a : list ascii) :
  c ∈ a → ∃ rest, a = before c a ++ c :: rest.
Proof.
  induction a as [|x a IH]; [by rewrite elem_of_nil|]. simpl. intros Hin.
  case_decide as Hx; [subst; by exists a|].
  apply elem_of_cons in Hin as [->|Hin]; [done|].
  destruct (IH Hin) as [rest Hr]. exists rest. simpl. by rewrite <-Hr.
Qed.

Lemma cstr_ok (buf : list ascii) : cstring_ok (cstr buf).
Proof. apply before_not_in. Qed.

Lemma cstr_app_nul (s : cstring) (rest : list ascii) :
  cstring_ok s → cstr (s ++ NUL :: rest) = s.
Proof. apply before_app_found. Qed.

Lemma strchr_None (s : cstring) (c : ascii) : strchr s c = None ↔ c ∉ s.
Proof.
  induction s as [|x s IH]; simpl; [split; [intros _; apply not_elem_of_nil|done]|].
  rewrite not_elem_of_cons. case_decide as Hx.
  - split; [done|]. intros [Hc _]. congruence.
  - rewrite fmap_None, IH. naive_solver.
Qed.

Lemma strchr_app_found (a b : cstring) (c : ascii) :
  c ∉ a → strchr (a ++ c :: b) c = Some (length a).
Proof.
  induction a as [|x a IH]; intros Hn; simpl; [by rewrite decide_True|].
  rewrite not_elem_of_cons in Hn. destruct Hn as [Hx Hn].
  rewrite decide_False by congruence. by rewrite IH.
Qed.

Lemma strchr_Some (s : cstring) (c : ascii) (k : nat) :
  strchr s c = Some k → s = take k s ++ c :: drop (S k) s /\ c ∉ take k s.
Proof.
  revert k. induction s as [|x s IH]; intros k; simpl; [done|].
  case_decide as Hx; [intros [= <-]; subst; split; [done|apply not_elem_of_nil]|].
  destruct (strchr s c) as [k'|]; [|done]. intros [= <-].
  destruct (IH k' eq_refl) as [He Hn]. split; [simpl; by rewrite <-He|].
  simpl. rewrite not_elem_of_cons. done.
Qed.

Lemma cstring_ok_app (a b : cstring) : cstring_ok (a ++ b) ↔ cstring_ok a /\ cstring_ok b.
Proof. unfold cstring_ok. rewrite not_elem_of_app. done. Qed.

Lemma cstring_ok_cons (x : ascii) (b : cstring) : cstring_ok (x :: b) ↔ x ≠ NUL /\ cstring_ok b.
Proof. unfold cstring_ok. rewrite not_elem_of_cons. naive_solver. Qed.

Lemma cstring_ok_take (n : nat) (s : cstring) : cstring_ok s → cstring_ok (take n s).
Proof. rewrite <-(take_drop n s) at 1. rewrite cstring_ok_app. by intros [? _]. Qed.

Lemma cstring_ok_drop (n : nat) (s : cstring) : cstring_ok s → cstring_ok (drop n s).
Proof. rewrite <-(take_drop n s) at 1. rewrite cstring_ok_app. by intros [_ ?]. Qed.

Create HintDb cstring.
#[export] Hint Resolve cstr_ok cstring_ok_take cstring_ok_drop : cstring.

Lemma parStrncpy_buf_length (destStr : list ascii) (srcStr : cstring) (destSize : nat) :
  (0 < destSize <= length destStr)%nat →
  length (parStrncpy_buf destStr srcStr destSize) = length destStr.
Proof.
  intros Hl. unfold parStrncpy_buf.
  rewrite length_insert, !length_app, length_take, length_replicate, length_drop. lia.
Qed.

Lemma parStrncpy_buf_app (destStr : list ascii) (srcStr : cstring) (destSize : nat) :
  (0 < destSize <= length destStr)%nat →
  ∃ pad, parStrncpy_buf destStr srcStr destSize = parStrncpy srcStr destSize ++ NUL :: pad.
Proof.
  intros Hl. unfold parStrncpy_buf, parStrncpy.
  set (n := (destSize - 1)%nat).
  destruct (decide (n <= length srcStr)%nat) as [Hle|Hgt].
  - replace (n - length srcStr)%nat with 0%nat by lia. simpl.
    destruct (drop n destStr) as [|x rest] eqn:Hd.
    { apply (f_equal length) in Hd. rewrite length_drop in Hd. simpl in Hd. lia. }
    exists rest. rewrite insert_app_r_alt by (rewrite length_take; lia).
    rewrite length_take. replace (n - n `min` length srcStr)%nat with 0%nat by lia. done.
  - rewrite take_ge by lia.
    destruct (n - length srcStr)%nat as [|k] eqn:Hk; [lia|].
    rewrite insert_app_r_alt by lia. rewrite Hk. simpl. eauto.
Qed.

(** ** Strings inside arrays

    [holds buf s]: the array [buf] holds the C string [s]. The lemmas say how the
    in-place edits the parsers make act on the strings held. *)

Definition holds (buf : list ascii) (s : cstring) : Prop :=
  cstring_ok s /\ ∃ pad, buf = s ++ NUL :: pad.

Lemma strchr_before (s : cstring) (c : ascii) (k : nat) :
  strchr s c = Some k → (k < length s)%nat /\ take k s = before c s /\ c ∈ s.
Proof.
  intros Hs. destruct (strchr_Some s c k Hs) as [He Hn].
  assert (Hk : (k < length s)%nat).
  { destruct (decide (k < length s)%nat) as [|Hge]; [done|].
    rewrite take_ge in Hn by lia. apply strchr_None in Hn. congruence. }
  split; [done|]. split.
  - rewrite He at 2. by rewrite before_app_found.
  - rewrite He. rewrite elem_of_app, elem_of_cons. auto.
Qed.

Lemma holds_cstr (buf : list ascii) (s : cstring) : holds buf s → cstr buf = s.
Proof. intros [Hs [pad ->]]. by apply cstr_app_nul. Qed.

Lemma holds_put_nul (buf : list ascii) (s : cstring) (k : nat) :
  holds buf s → (k <= length s)%nat → holds (<[k:=NUL]> buf) (take k s).
Proof.
  intros [Hs [pad ->]] Hk. split; [auto with cstring|].
  destruct (decide (k = length s)) as [->|Hne].
  - exists pad. rewrite take_ge by lia. rewrite insert_app_r_alt by lia.
    by rewrite Nat.sub_diag.
  - exists (drop (S k) s ++ NUL :: pad). rewrite insert_app_l by lia.
    rewrite insert_take_drop by lia. by rewrite <-app_assoc.
Qed.

Lemma holds_put_nul_behind (buf : list ascii) (s : cstring) (k : nat) :
  holds buf s → (length s < k)%nat → holds (<[k:=NUL]> buf) s.
Proof.
  intros [Hs [pad ->]] Hk. split; [done|].
  rewrite insert_app_r_alt by lia. destruct (k - length s)%nat as [|j] eqn:Hj; [lia|].
  simpl. eauto.
Qed.

Lemma holds_drop (buf : list ascii) (s : cstring) (k : nat) :
  holds buf s → (k <= length s)%nat → holds (drop k buf) (drop k s).
Proof.
  intros [Hs [pad ->]] Hk. split; [auto with cstring|].
  exists pad. rewrite drop_app_le by lia. done.
Qed.

Lemma holds_shift (buf : list ascii) (s : cstring) (x : ascii) :
  holds buf s → (1 <= length s)%nat → holds (drop 1 buf ++ [x]) (drop 1 s).
Proof.
  intros H Hl. destruct (holds_drop buf s 1 H Hl) as [Hs [pad Hp]].
  split; [done|]. rewrite Hp, <-app_assoc. simpl. eauto.
Qed.

Lemma holds_parStrncpy (buf : list ascii) (s : cstring) (n : nat) :
  cstring_ok s → (0 < n <= length buf)%nat → holds (parStrncpy_buf buf s n) (parStrncpy s n).
Proof.
  intros Hs Hl. split; [unfold parStrncpy; auto with cstring|].
  by apply parStrncpy_buf_app.
Qed.

(** Cutting at the first [c], as the code does with [strchr] and a NUL. *)
Lemma holds_cut (buf : list ascii) (s : cstring) (c : ascii) :
  holds buf s →
  holds (match strchr s c with Some k => <[k:=NUL]> buf | None => buf end) (before c s).
Proof.
  intros H. destruct (strchr s c) as [k|] eqn:Hc.
  - destruct (strchr_before s c k Hc) as (Hk & <- & _). apply holds_put_nul; [done|lia].
  - apply strchr_None in Hc. by rewrite before_none.
Qed.

(** ** Properties *)

(** What is read back from a destination array after [parStrncpy] is the
    source cut to [destSize-1] characters: the copy is always terminated inside the
    array and never changes its size. *)
Theorem parStrncpy_terminates_inside (destStr : list ascii) (srcStr : cstring) (destSize : nat)
    (Hs : cstring_ok srcStr) (Hl : (0 < destSize <= length destStr)%nat) :
  cstr (parStrncpy_buf destStr srcStr destSize) = parStrncpy srcStr destSize /\
  length (parStrncpy_buf destStr srcStr destSize) = length destStr /\
  (length (parStrncpy srcStr destSize) < destSize)%nat.
Proof.
  split; [|split; [by apply parStrncpy_buf_length|unfold parStrncpy; rewrite length_take; lia]].
  destruct (parStrncpy_buf_app destStr srcStr destSize Hl) as [pad ->].
  apply cstr_app_nul. unfold parStrncpy. auto with cstring.
Qed.

Example parStrncpy_terminates_inside_witness :
  cstring_ok "abcdef"%cs /\ (0 < 4 <= length "zzzzzz"%cs)%nat /\
  cstr (parStrncpy_buf "zzzzzz"%cs "abcdef"%cs 4) = "abc"%cs.
Proof.
  assert (H : cstring_ok "abcdef"%cs) by (unfold cstring_ok; apply (bool_decide_unpack _); reflexivity).
  split; [exact H|]. split; [simpl; lia|].
  apply (parStrncpy_terminates_inside "zzzzzz"%cs "abcdef"%cs 4 H). simpl. lia.
Defined.
