(* ===== verification/Timers.v ===== *)
(** * Time, back-off and heartbeat

    [time.c], [heartBeat.c], [close_retry.c], [timespec_diff] and the
    [interface_down_event] flag of [ParodusInternal.c], and the timers of
    [connection.c] ([expire_timer_t], [backoff_timer_t]). *)

From S2P Require Import Prelude.
Local Open Scope Z_scope.

(** ** time.c *)

Record timespec : Set := mk_timespec { tv_sec : Z; tv_nsec : Z }.
#[export] Instance timespec_settable : Settable timespec :=
  λ t, mk_timespec (tv_sec t) (tv_nsec t).

Definition getCurrentTimeInMicroSeconds (timer : timespec) : Z :=
  u64 (u64 (tv_sec timer) * 1000000 + Z.quot (tv_nsec timer) 1000).

Definition timeValDiff (starttime finishtime : timespec) : Z :=
  (tv_sec finishtime - tv_sec starttime) * 1000 +
  Z.quot (tv_nsec finishtime - tv_nsec starttime) 1000000.

(** ** ParodusInternal.c *)

Definition timespec_diff (start stop : timespec) : timespec :=
  if tv_nsec stop - tv_nsec start <? 0 then
    mk_timespec (tv_sec stop - tv_sec start - 1)
                (s64 (u64 (tv_nsec stop - tv_nsec start) + 1000000000))
  else
    mk_timespec (tv_sec stop - tv_sec start) (tv_nsec stop - tv_nsec start).

(** ** connection.c: the connect-error timer *)

Record expire_timer_t : Set := mk_expire_timer {
  running : bool;
  start_time : timespec;
  end_time : timespec
}.
#[export] Instance expire_timer_settable : Settable expire_timer_t :=
  λ t, mk_expire_timer (running t) (start_time t) (end_time t).

Definition init_expire_timer (timer : expire_timer_t) : expire_timer_t :=
  timer <| running := false |>.

(** [now] is what [getCurrentTime] stores. *)
Definition check_timer_expired (timer : expire_timer_t) (now : timespec)
    (timeout_ms : Z) : bool * expire_timer_t :=
  if negb (running timer) then
    (false, timer <| start_time := now |> <| running := true |>)
  else
    let timer' := timer <| end_time := now |> in
    let time_diff_ms := timeValDiff (start_time timer') (end_time timer') in
    (timeout_ms <=? time_diff_ms, timer').

(** ** connection.c: the back-off timer *)

Record backoff_timer_t : Set := mk_backoff_timer {
  bt_start_time : Z;
  bt_ts : timespec;
  count : Z;
  max_count : Z;
  delay : Z
}.
#[export] Instance backoff_timer_settable : Settable backoff_timer_t :=
  λ t, mk_backoff_timer (bt_start_time t) (bt_ts t) (count t) (max_count t) (delay t).

(** [ts] and [now_secs] are the answers of [clock_gettime] and [time]. *)
Definition init_backoff_timer (maxc : Z) (ts : timespec) (now_secs : Z) : backoff_timer_t :=
  mk_backoff_timer now_secs ts 1 maxc 1.

(** [delay + delay + 1] is signed: leaving the range of [int] is undefined. *)
Definition update_backoff_delay (timer : backoff_timer_t) : outcome (Z * backoff_timer_t) :=
  if count timer <? max_count timer then
    let d := delay timer + delay timer + 1 in
    if d <? 2 ^ 31 then
      let timer' := timer <| count := count timer + 1 |> <| delay := d |> in
      Done (u32 (delay timer'), timer')
    else Undef
  else Done (u32 (delay timer), timer).

Definition add_timespec (t1 t2 : timespec) : timespec :=
  let t := mk_timespec (tv_sec t2 + tv_sec t1) (tv_nsec t2 + tv_nsec t1) in
  if 1000000000 <=? tv_nsec t then
    mk_timespec (tv_sec t + 1) (tv_nsec t - 1000000000)
  else t.

Definition calc_random_secs (random_num max_secs : Z) : Z :=
  let delay_secs := Z.land (u32 random_num) max_secs in
  if delay_secs <? 3 then delay_secs + 3 else delay_secs.

Definition calc_random_nsecs (random_num : Z) : Z :=
  let n := Z.shiftr (u32 random_num) 1 in
  if n <? 1000000000 then n else n - 1000000000.

Definition calc_random_expiration (random_num1 random_num2 : Z)
    (timer : backoff_timer_t) (ts : timespec) : outcome (backoff_timer_t * timespec) :=
  '(max_secs, timer') ← update_backoff_delay timer;
  let ts_delay :=
    if 3 <? max_secs
    then mk_timespec (calc_random_secs random_num1 max_secs) (calc_random_nsecs random_num2)
    else mk_timespec 3 0 in
  Done (timer', add_timespec ts_delay ts).

(** ** heartBeat.c *)

Record heartBeat : Set := mk_heartBeat { heartBeatTimer : Z; paused : bool }.
#[export] Instance heartBeat_settable : Settable heartBeat :=
  λ h, mk_heartBeat (heartBeatTimer h) (paused h).

Definition heartBeat_init : heartBeat := mk_heartBeat 0 false.
Definition reset_heartBeatTimer (h : heartBeat) : heartBeat := h <| heartBeatTimer := 0 |>.
Definition increment_heartBeatTimer (inc_time_ms : Z) (h : heartBeat) : heartBeat :=
  if negb (paused h) then h <| heartBeatTimer := u32 (heartBeatTimer h + inc_time_ms) |> else h.
Definition pause_heartBeatTimer (h : heartBeat) : heartBeat :=
  h <| heartBeatTimer := 0 |> <| paused := true |>.
Definition resume_heartBeatTimer (h : heartBeat) : heartBeat := h <| paused := false |>.

(** ** Specification vocabulary *)

Definition normalized (t : timespec) : Prop := 0 <= tv_nsec t < 1000000000.
Definition total_ns (t : timespec) : Z := tv_sec t * 1000000000 + tv_nsec t.

(** The checks made with one timer, oldest first. *)
Definition run_checks (timeout_ms : Z) (times : list timespec) (timer : expire_timer_t)
    : expire_timer_t :=
  fold_left (λ tm t, snd (check_timer_expired tm t timeout_ms)) times timer.

(** [n] successive calls of [update_backoff_delay]. *)
Fixpoint backoff_updates (n : nat) (timer : backoff_timer_t) : outcome backoff_timer_t :=
  match n with
  | O => Done timer
  | S n => '(_, timer') ← update_backoff_delay timer; backoff_updates n timer'
  end.

(** The states a back-off timer goes through when [max_count] is at most 31. *)
Definition backoff_ok (t : backoff_timer_t) : Prop :=
  1 <= count t <= 31 /\ max_count t <= 31 /\ delay t = 2 ^ count t - 1.

(** ** Lemmas *)

Lemma s64_u64_add (d k : Z) : s64 (u64 d + k) = s64 (d + k).
Proof.
  unfold s64, u64. f_equal.
  rewrite <-Z.add_assoc, Zplus_mod_idemp_l. f_equal. lia.
Qed.

Lemma s64_id (z : Z) : long_range z → s64 z = z.
Proof. unfold long_range, s64. intros. rewrite Z.mod_small; lia. Qed.

Lemma timeValDiff_close (a b : timespec) :
  normalized a → normalized b →
  total_ns b - total_ns a - 1000000 < timeValDiff a b * 1000000 < total_ns b - total_ns a + 1000000.
Proof. unfold normalized, timeValDiff, total_ns. intros. Z.to_euclidean_division_equations. lia. Qed.

Lemma timeValDiff_reaches (a b : timespec) (ms : Z) :
  normalized a → normalized b →
  ms * 1000000 <= total_ns b - total_ns a → ms <= timeValDiff a b.
Proof. unfold normalized, timeValDiff, total_ns. intros. Z.to_euclidean_division_equations. lia. Qed.

Lemma check_timer_expired_running (timer : expire_timer_t) (now : timespec) (timeout_ms : Z) :
  running timer = true →
  check_timer_expired timer now timeout_ms =
    (timeout_ms <=? timeValDiff (start_time timer) now, timer <| end_time := now |>).
Proof. intros Hr. unfold check_timer_expired. by rewrite Hr. Qed.

Lemma run_checks_start (timeout_ms : Z) (times : list timespec) (timer : expire_timer_t) :
  running timer = true →
  running (run_checks timeout_ms times timer) = true /\
  start_time (run_checks timeout_ms times timer) = start_time timer.
Proof.
  revert timer. induction times as [|t times IH]; intros timer Hr; [done|].
  unfold run_checks in *; cbn [fold_left]. rewrite check_timer_expired_running by done.
  pose (timer' := timer <| end_time := t |>). exact (IH timer' Hr).
Qed.

Lemma backoff_update_ok (t : backoff_timer_t) :
  backoff_ok t →
  ∃ t', update_backoff_delay t = Done (delay t', t') /\ backoff_ok t' /\
        max_count t' = max_count t /\
        count t' = if count t <? max_count t then count t + 1 else count t.
Proof.
  intros (Hc & Hm & Hd). unfold update_backoff_delay.
  assert (2 ^ count t <= 2 ^ 31) by (apply Z.pow_le_mono_r; lia).
  assert (0 < 2 ^ count t) by (apply Z.pow_pos_nonneg; lia).
  destruct (Z.ltb_spec (count t) (max_count t)) as [Hlt|Hge].
  - assert (2 ^ (count t + 1) = 2 * 2 ^ count t) by (rewrite Z.pow_add_r; lia).
    assert (2 ^ (count t + 1) <= 2 ^ 31) by (apply Z.pow_le_mono_r; lia).
    destruct (Z.ltb_spec (delay t + delay t + 1) (2 ^ 31)); [|lia].
    exists (t <| count := count t + 1 |> <| delay := delay t + delay t + 1 |>).
    split; [|split; [|split; reflexivity]]; simpl.
    + rewrite u32_id; [done|]. unfold uint_range. lia.
    + unfold backoff_ok; simpl. lia.
  - exists t. rewrite u32_id by (unfold uint_range; lia). done.
Qed.

Lemma backoff_init_ok (maxc : Z) (ts : timespec) (now : Z) :
  maxc <= 31 → backoff_ok (init_backoff_timer maxc ts now).
Proof. intros. unfold backoff_ok; simpl. lia. Qed.

(** A property of every state the updates reach follows from one step. *)
Lemma backoff_updates_app (n m : nat) (t : backoff_timer_t) :
  backoff_updates (n + m) t = (t' ← backoff_updates n t; backoff_updates m t').
Proof.
  revert t. induction n as [|n IH]; intros t; [done|].
  cbn [Nat.add backoff_updates]. destruct (update_backoff_delay t) as [[d t']| |]; simpl; [apply IH|done|done].
Qed.

Lemma backoff_updates_below (n : nat) (t : backoff_timer_t) :
  count t = 1 → delay t = 1 → Z.of_nat n + 1 <= max_count t → Z.of_nat n <= 30 →
  ∃ t', backoff_updates n t = Done t' /\ max_count t' = max_count t /\
        count t' = Z.of_nat n + 1 /\ delay t' = 2 ^ (Z.of_nat n + 1) - 1.
Proof.
  intros Hc Hd. induction n as [|n IH]; intros Hm Hn.
  { exists t. rewrite Hc, Hd. done. }
  destruct IH as (t' & Hrun & Hmax & Hcnt & Hdel); [lia|lia|].
  replace (S n) with (n + 1)%nat by lia. rewrite backoff_updates_app, Hrun. simpl.
  unfold update_backoff_delay. rewrite Hcnt, Hmax, Hdel.
  destruct (Z.ltb_spec (Z.of_nat n + 1) (max_count t)); [|lia].
  assert (2 ^ (Z.of_nat n + 1) <= 2 ^ 30) by (apply Z.pow_le_mono_r; lia).
  assert (2 ^ (Z.of_nat (n + 1) + 1) = 2 * 2 ^ (Z.of_nat n + 1))
    by (rewrite <-Z.pow_succ_r by lia; f_equal; lia).
  destruct (Z.ltb_spec (2 ^ (Z.of_nat n + 1) - 1 + (2 ^ (Z.of_nat n + 1) - 1) + 1) (2 ^ 31)); [|lia].
  eexists; split; [reflexivity|]. simpl. lia.
Qed.

Lemma add_timespec_total (a b : timespec) :
  total_ns (add_timespec a b) = total_ns a + total_ns b.
Proof. unfold add_timespec, total_ns. simpl. case_match; simpl; lia. Qed.

Lemma add_timespec_normalized (a b : timespec) :
  normalized a → normalized b → normalized (add_timespec a b).
Proof.
  unfold add_timespec, normalized. simpl. intros.
  destruct (Z.leb_spec 1000000000 (tv_nsec b + tv_nsec a)); simpl; lia.
Qed.

Lemma calc_random_nsecs_range (r : Z) :
  0 <= r < 2 ^ 31 → 0 <= calc_random_nsecs r < 1000000000.
Proof.
  intros. unfold calc_random_nsecs. rewrite u32_id by (unfold uint_range; lia).
  rewrite Z.shiftr_div_pow2 by lia. change (2 ^ 1) with 2.
  destruct (Z.ltb_spec (r / 2) 1000000000); Z.to_euclidean_division_equations; lia.
Qed.

Lemma calc_random_secs_range (r k : Z) :
  3 <= k → 3 <= calc_random_secs r (2 ^ k - 1) <= 2 ^ k - 1.
Proof.
  intros Hk. unfold calc_random_secs.
  replace (2 ^ k - 1) with (Z.ones k) by (rewrite Z.ones_equiv; lia).
  rewrite Z.land_ones by lia. rewrite Z.ones_equiv.
  assert (2 ^ 3 <= 2 ^ k) by (apply Z.pow_le_mono_r; lia).
  pose proof (Z.mod_pos_bound (u32 r) (2 ^ k) ltac:(lia)).
  destruct (Z.ltb_spec (u32 r mod 2 ^ k) 3); lia.
Qed.

Create HintDb timers.
#[export] Hint Resolve add_timespec_normalized calc_random_nsecs_range backoff_init_ok : timers.

(** ** Properties *)

(** The connect-error timer starts at its first check, which never reports
    expiry, and any later check reports expiry when at least the timeout has
    elapsed since that first check, and only when more than the timeout less one
    millisecond has. *)
Theorem expire_timer_correct (timer : expire_timer_t) (t0 t : timespec)
    (mid : list timespec) (timeout_ms : Z)
    (H0 : normalized t0) (Ht : normalized t) :
  let first := check_timer_expired (init_expire_timer timer) t0 timeout_ms in
  let expired := fst (check_timer_expired (run_checks timeout_ms mid (snd first)) t timeout_ms) in
  let elapsed := total_ns t - total_ns t0 in
  fst first = false /\
  (timeout_ms * 1000000 <= elapsed → expired = true) /\
  (expired = true → (timeout_ms - 1) * 1000000 < elapsed).
Proof.
  cbn zeta. split; [done|].
  destruct (run_checks_start timeout_ms mid
    (snd (check_timer_expired (init_expire_timer timer) t0 timeout_ms))) as [Hr Hs]; [done|].
  rewrite check_timer_expired_running by done. rewrite Hs. cbn [fst].
  pose proof (timeValDiff_close t0 t H0 Ht).
  pose proof (timeValDiff_reaches t0 t timeout_ms H0 Ht).
  simpl. destruct (Z.leb_spec timeout_ms (timeValDiff t0 t)); split; intros; first [done|lia].
Qed.

Example expire_timer_correct_witness :
  let t0 := mk_timespec 100 900000000 in
  let t := mk_timespec 1000 900000000 in
  normalized t0 /\ normalized t /\
  fst (check_timer_expired
         (run_checks 900000 [mk_timespec 500 0]
            (snd (check_timer_expired (init_expire_timer (mk_expire_timer true t t)) t0 900000)))
         t 900000) = true.
Proof.
  assert (normalized (mk_timespec 100 900000000)) by (unfold normalized; simpl; lia).
  assert (normalized (mk_timespec 1000 900000000)) by (unfold normalized; simpl; lia).
  split; [done|split; [done|]].
  apply (expire_timer_correct
    (mk_expire_timer true (mk_timespec 1000 900000000) (mk_timespec 1000 900000000))
    (mk_timespec 100 900000000) (mk_timespec 1000 900000000) [mk_timespec 500 0] 900000); [done|done|].
  vm_compute. discriminate.
Defined.

(** With a maximum count of at most 31, [calc_random_expiration] never
    overflows, leaves the timer in the sequence delay = 2^count - 1, and moves the
    deadline by between 3 seconds and less than max (3, delay) + 1 seconds, keeping
    the nanosecond field normalized. *)
Theorem random_expiration_bounds (r1 r2 : Z) (t : backoff_timer_t) (ts : timespec)
    (Ht : backoff_ok t) (Hr : 0 <= r2 < 2 ^ 31) (Hts : normalized ts) :
  ∃ t' ts', calc_random_expiration r1 r2 t ts = Done (t', ts') /\
    backoff_ok t' /\ normalized ts' /\
    total_ns ts + 3 * 1000000000 <= total_ns ts' /\
    total_ns ts' < total_ns ts + (Z.max 3 (delay t') + 1) * 1000000000.
Proof.
  destruct (backoff_update_ok t Ht) as (t' & Hu & Hok & _).
  unfold calc_random_expiration. rewrite Hu. cbn [mbind outcome_bind].
  eexists _, _; split; [reflexivity|]. split; [done|].
  rewrite add_timespec_total. destruct Hok as (Hc & _ & Hd).
  pose proof (calc_random_nsecs_range r2 Hr).
  destruct (Z.ltb_spec 3 (delay t')) as [Hbig|Hsmall].
  - assert (3 <= count t').
    { destruct (Z_le_gt_dec 3 (count t')); [done|].
      assert (2 ^ count t' <= 2 ^ 2) by (apply Z.pow_le_mono_r; lia). lia. }
    pose proof (calc_random_secs_range r1 (count t') ltac:(lia)). rewrite <-Hd in *.
    split; [apply add_timespec_normalized; [done|done]|].
    unfold total_ns at 2 4; cbn [tv_sec tv_nsec]. lia.
  - split; [apply add_timespec_normalized; [unfold normalized; simpl; lia|done]|].
    unfold total_ns at 2 4; cbn [tv_sec tv_nsec]. lia.
Qed.

Example random_expiration_bounds_witness :
  let t := mk_backoff_timer 0 (mk_timespec 0 0) 2 9 3 in
  backoff_ok t /\
  ∃ t' ts', calc_random_expiration 12345 2147483647 t (mk_timespec 5 999999999) = Done (t', ts') /\
    normalized ts'.
Proof.
  assert (backoff_ok (mk_backoff_timer 0 (mk_timespec 0 0) 2 9 3)) by (unfold backoff_ok; simpl; lia).
  split; [done|].
  destruct (random_expiration_bounds 12345 2147483647
    (mk_backoff_timer 0 (mk_timespec 0 0) 2 9 3) (mk_timespec 5 999999999))
    as (t' & ts' & Hrun & _ & Hn & _); [done|lia|unfold normalized; simpl; lia|].
  exists t', ts'. done.
Defined.

(** Any nonnegative maximum of 32 or more lets the back-off delay overflow
    [int]: from a fresh timer the 31st update is undefined behaviour, while every
    earlier one is defined. *)
Theorem backoff_overflow (maxc : Z) (ts : timespec) (now : Z) (Hm : 32 <= maxc) :
  (∀ n, (n <= 30)%nat → ∃ t, backoff_updates n (init_backoff_timer maxc ts now) = Done t) /\
  backoff_updates 31 (init_backoff_timer maxc ts now) = Undef.
Proof.
  split.
  - intros n Hn. destruct (backoff_updates_below n (init_backoff_timer maxc ts now))
      as (t & Ht & _); [done|done|simpl; lia|lia|]. by exists t.
  - destruct (backoff_updates_below 30 (init_backoff_timer maxc ts now))
      as (t & Ht & Hmax & Hcnt & Hdel); [done|done|simpl; lia|lia|].
    change 31%nat with (30 + 1)%nat. rewrite backoff_updates_app, Ht. simpl.
    unfold update_backoff_delay. rewrite Hcnt, Hmax, Hdel. simpl.
    change (Z.of_nat 30 + 1) with 31. destruct (Z.ltb_spec 31 maxc); [reflexivity|lia].
Qed.

Example backoff_overflow_witness :
  32 <= 32 /\ backoff_updates 31 (init_backoff_timer 32 (mk_timespec 0 0) 0) = Undef.
Proof. split; [lia|]. apply (backoff_overflow 32 (mk_timespec 0 0) 0); lia. Defined.

(** For normalized times [timespec_diff] is exact subtraction with a
    normalized result, whichever order the times come in. *)
Theorem timespec_diff_correct (start stop : timespec)
    (Hs : normalized start) (Hp : normalized stop) :
  normalized (timespec_diff start stop) /\
  total_ns (timespec_diff start stop) = total_ns stop - total_ns start.
Proof.
  unfold timespec_diff, normalized, total_ns in *.
  destruct (Z.ltb_spec (tv_nsec stop - tv_nsec start) 0); simpl; [|lia].
  rewrite s64_u64_add, s64_id by (unfold long_range; lia). lia.
Qed.

Example timespec_diff_correct_witness :
  normalized (timespec_diff (mk_timespec 1 999999999) (mk_timespec 5 1)) /\
  total_ns (timespec_diff (mk_timespec 1 999999999) (mk_timespec 5 1)) =
    total_ns (mk_timespec 5 1) - total_ns (mk_timespec 1 999999999).
Proof. apply timespec_diff_correct; unfold normalized; simpl; lia. Defined.
