(* ===== verification/Config.v ===== *)
(** * config.c: configuration, command line and URL parsing

    [ParodusCfg] has one field per member of the C structure: a character array
    is the C string it holds, a [char *] is an optional string. [jwt_key], which
    is filled from a file without a terminator, is the sequence of bytes stored,
    the rest of its 4096 bytes being NUL. The structure is the one of a build with
    [ENABLE_SESHAT], less [token_acquisition_script] and [token_read_script], which
    no code reads or writes. *)

From S2P Require Import Prelude StringHelpers.
Local Open Scope cs_scope.
Local Open Scope Z_scope.

Record ParodusCfg : Set := mk_cfg {
  hw_model : cstring;
  hw_serial_number : cstring;
  hw_manufacturer : cstring;
  hw_mac : cstring;
  hw_last_reboot_reason : cstring;
  fw_name : cstring;
  boot_time : Z;
  webpa_ping_timeout : Z;
  webpa_url : cstring;
  webpa_path_url : cstring;
  webpa_backoff_max : Z;
  webpa_interface_used : cstring;
  webpa_protocol : cstring;
  webpa_uuid : cstring;
  flags : Z;
  local_url : cstring;
  partner_id : cstring;
  seshat_url : cstring;
  dns_txt_url : cstring;
  acquire_jwt : Z;
  jwt_algo : Z;
  jwt_key : list ascii;
  cert_path : cstring;
  webpa_auth_token : cstring;
  client_cert_path : option cstring;
  token_server_url : option cstring;
  connection_health_file : option cstring;
  close_reason_file : option cstring;
  mtls_client_key_path : option cstring;
  mtls_client_cert_path : option cstring;
  crud_config_file : option cstring;
  cloud_status : option cstring;
  cloud_disconnect : option cstring;
  boot_retry_wait : Z
}.

#[export] Instance ParodusCfg_settable : Settable ParodusCfg := λ c, mk_cfg
  (hw_model c) (hw_serial_number c) (hw_manufacturer c) (hw_mac c)
  (hw_last_reboot_reason c) (fw_name c) (boot_time c) (webpa_ping_timeout c)
  (webpa_url c) (webpa_path_url c) (webpa_backoff_max c) (webpa_interface_used c)
  (webpa_protocol c) (webpa_uuid c) (flags c) (local_url c) (partner_id c)
  (seshat_url c) (dns_txt_url c) (acquire_jwt c) (jwt_algo c) (jwt_key c)
  (cert_path c) (webpa_auth_token c) (client_cert_path c) (token_server_url c)
  (connection_health_file c) (close_reason_file c) (mtls_client_key_path c)
  (mtls_client_cert_path c) (crud_config_file c) (cloud_status c)
  (cloud_disconnect c) (boot_retry_wait c).

(** [memset (cfg, 0, sizeof (ParodusCfg))] of [main]. *)
Definition cfg_zero : ParodusCfg := mk_cfg
  "" "" "" "" "" "" 0 0 "" "" 0 "" "" "" 0 "" "" "" "" 0 0 [] "" ""
  None None None None None None None None None 0.

Definition CLOUD_STATUS_ONLINE : cstring := "online".
Definition CLOUD_STATUS_OFFLINE : cstring := "offline".
Definition PROTOCOL_VALUE : cstring := "PARODUS-2.0".
Definition WEBPA_PATH_URL : cstring := "/api/v2/device".
Definition DNS_TXT_URL : cstring := "fabric".
Definition PARODUS_UPSTREAM : cstring := "tcp://127.0.0.1:6666".
Definition FLAGS_IPV6_ONLY : Z := Z.shiftl 1 0.
Definition FLAGS_IPV4_ONLY : Z := Z.shiftl 1 1.

Definition set_cloud_disconnect_reason (disconn_reason : cstring) (cfg : ParodusCfg) : ParodusCfg :=
  cfg <| cloud_disconnect := Some disconn_reason |>.
Definition reset_cloud_disconnect_reason (cfg : ParodusCfg) : ParodusCfg :=
  cfg <| cloud_disconnect := None |>.

(** ** Algorithms

    The enumeration and the name lookup are those of the cjwt library. *)

Class Cjwt : Set := {
  cjwt_alg_str_to_enum : cstring → Z;
  alg_none : Z;
  alg_rs256 : Z;
  alg_rs384 : Z;
  alg_rs512 : Z;
  num_algorithms : Z
}.

(** Its enumerators are distinct and small enough to be bits of an [unsigned]. *)
Class CjwtLaws `{Cjwt} : Prop := {
  cjwt_num : num_algorithms <= 31;
  cjwt_none : 0 <= alg_none < num_algorithms;
  cjwt_rs256 : 0 <= alg_rs256 < num_algorithms;
  cjwt_rs384 : 0 <= alg_rs384 < num_algorithms;
  cjwt_rs512 : 0 <= alg_rs512 < num_algorithms
}.

(** The loop of [get_tok]: [result] holds the characters stored so far. *)
Fixpoint get_tok_loop (src : cstring) (delim : ascii) (endx i : Z) (result : cstring)
    : option cstring * cstring :=
  match src with
  | [] => (None, result)
  | c :: t =>
      if decide (c = delim) then (Some t, result)
      else get_tok_loop t delim endx (i + 1) (if i <? endx then result ++ [c] else result)
  end.

Definition get_tok (src : cstring) (delim : ascii) (resultsize : Z) : option cstring * cstring :=
  get_tok_loop src delim (resultsize - 1) 0 [].

Section algo.
Context `{Cjwt}.

Definition rsa_algorithms : Z :=
  Z.lor (Z.lor (Z.shiftl 1 alg_rs256) (Z.shiftl 1 alg_rs384)) (Z.shiftl 1 alg_rs512).

Definition UINT_ERR : Z := u32 (-1).

(** One turn of the loop per token; [fuel] bounds the number of tokens. *)
Fixpoint get_algo_mask_loop (fuel : nat) (algo_str : option cstring) (mask : Z) : outcome Z :=
  match fuel with
  | O => NoFuel
  | S fuel =>
      match algo_str with
      | None => Done mask
      | Some s =>
          let '(rest, tok) := get_tok s ":"%char 16 in
          let alg_val := cjwt_alg_str_to_enum tok in
          if (alg_val <? 0) || (num_algorithms <=? alg_val) then Done UINT_ERR
          else if alg_val =? alg_none then Done UINT_ERR
          else
            let mask_val := Z.shiftl 1 alg_val in
            if 0 =? Z.land mask_val rsa_algorithms then Done UINT_ERR
            else get_algo_mask_loop fuel rest (Z.lor mask mask_val)
      end
  end.

Definition get_algo_mask (algo_str : cstring) : outcome Z :=
  get_algo_mask_loop (S (S (length algo_str))) (Some algo_str) 0.
End algo.

(** [read (fd, buf, buflen)] of a file: the first bytes overwrite the buffer, which
    is not terminated. [None] is an open or read error, on which the code aborts. *)
Definition read_key_from_file (file : option (list ascii)) (buf : list ascii) (buflen : nat)
    : option (list ascii) :=
  match file with
  | None => None
  | Some bytes => let got := take buflen bytes in Some (got ++ drop (length got) buf)
  end.

(** ** Parsing helpers *)

(** The characters that are not [':'], if there are exactly 12 of them. *)
Fixpoint count_not_colon (arg : cstring) : Z :=
  match arg with
  | [] => 0
  | c :: t => (if decide (c = ":"%char) then 0 else 1) + count_not_colon t
  end.
Fixpoint copy_not_colon (arg : cstring) : cstring :=
  match arg with
  | [] => []
  | c :: t => if decide (c = ":"%char) then copy_not_colon t else c :: copy_not_colon t
  end.
Definition parse_mac_address (target arg : cstring) : Z * cstring :=
  if negb (count_not_colon arg =? 12) then (-1, target) else (0, copy_not_colon arg).

(** The match and the text after the scheme, or [None] for -1. *)
Definition server_is_http (full_url : cstring) : option (Z * cstring) :=
  if strneq 8 full_url "https://" then Some (0, drop 8 full_url)
  else if strneq 7 full_url "http://" then Some (1, drop 7 full_url)
  else None.

Fixpoint parse_num_loop (arg : cstring) (result : Z) : Z :=
  match arg with
  | [] => result
  | c :: t =>
      if (code c <? 48) || (57 <? code c) then UINT_ERR
      else parse_num_loop t (u32 (u32 (u32 (result * 10) + code c) - 48))
  end.
Definition parse_num_arg (arg : cstring) : Z :=
  match arg with [] => UINT_ERR | _ => parse_num_loop arg 0 end.

(** ** URL parsing

    [parse_webpa_url__] works in place on [server_addr], an array of
    [server_addr_buflen] bytes. Removing a ['['] shifts the whole array down by one
    and so reads the byte behind the array, here [oob]. *)

Definition put_nul (k : nat) (buf : list ascii) : list ascii := <[k := NUL]> buf.

Definition default_port (http_match : Z) : cstring :=
  if negb (http_match =? 0) then "80" else "443".

(** [end_port = strchr (port, '/'); if (end_port) *end_port = 0] for the port text that
    starts at offset [n]. *)
Definition cut_port (n : nat) (sa : list ascii) : list ascii :=
  match strchr (cstr (drop n sa)) "/"%char with
  | Some e => put_nul (n + e) sa
  | None => sa
  end.

(** The address in brackets, once the array has been shifted. *)
Definition parse_bracketed (http_match : Z) (sa port_buf : list ascii) (port_buflen : nat)
    : Z * list ascii * list ascii :=
  match strchr (cstr sa) "]"%char with
  | None => (-1, sa, port_buf)
  | Some closeBracket =>
      let sa := put_nul closeBracket sa in
      let closeBracket := S closeBracket in
      match strchr (cstr (drop closeBracket sa)) ":"%char with
      | None => (http_match, sa, parStrncpy_buf port_buf (default_port http_match) port_buflen)
      | Some k =>
          let checkPort := (closeBracket + S k)%nat in
          let sa := cut_port checkPort sa in
          (http_match, sa, parStrncpy_buf port_buf (cstr (drop checkPort sa)) port_buflen)
      end
  end.

(** The address without brackets. *)
Definition parse_unbracketed (http_match : Z) (sa port_buf : list ascii) (port_buflen : nat)
    : Z * list ascii * list ascii :=
  match strchr (cstr sa) ":"%char with
  | None =>
      let pb := parStrncpy_buf port_buf (default_port http_match) port_buflen in
      match strchr (cstr sa) "/"%char with
      | Some e => (http_match, put_nul e sa, pb)
      | None => (http_match, sa, pb)
      end
  | Some k =>
      let sa := put_nul k sa in
      let port_val := S k in
      let sa := cut_port port_val sa in
      (http_match, sa, parStrncpy_buf port_buf (cstr (drop port_val sa)) port_buflen)
  end.

Definition parse_webpa_url__ (oob : ascii) (full_url : cstring)
    (server_addr : list ascii) (server_addr_buflen : nat)
    (port_buf : list ascii) (port_buflen : nat) : Z * list ascii * list ascii :=
  match server_is_http full_url with
  | None => (-1, server_addr, port_buf)
  | Some (http_match, server_ptr) =>
      let sa := parStrncpy_buf server_addr server_ptr server_addr_buflen in
      let server_len := length (cstr sa) in
      let sa :=
        if (0 <? server_len)%nat && bool_decide (sa !! (server_len - 1)%nat = Some "/"%char)
        then put_nul (server_len - 1) sa else sa in
      match strchr (cstr sa) "["%char with
      | Some _ =>
          let sa := take (server_addr_buflen - 1) (drop 1 sa) ++ [oob] in
          parse_bracketed http_match sa port_buf port_buflen
      | None =>
          match strchr (cstr sa) "]"%char with
          | Some _ => (-1, sa, port_buf)
          | None => parse_unbracketed http_match sa port_buf port_buflen
          end
      end
  end.

(** What [malloc] and the stack give to one call of [parse_webpa_url]. *)
Record url_memory : Set := {
  heap_buf : option (list ascii);  (* the block of [strlen (full_url) + 1] bytes, [None]: no memory *)
  heap_next : ascii;               (* the byte behind it *)
  stack_buf : list ascii           (* [char port_buf[8]] *)
}.
Definition url_memory_ok (full_url : cstring) (m : url_memory) : Prop :=
  length (stack_buf m) = 8%nat /\
  match heap_buf m with Some b => length b = S (length full_url) | None => False end.

(** The return value, [*server_addr] and, when it is written, [*port]. *)
Definition parse_webpa_url (m : url_memory) (full_url : cstring) : Z * option cstring * option Z :=
  match heap_buf m with
  | None => (-1, None, None)
  | Some buf =>
      let buflen := S (length full_url) in
      let '(allow_insecure, url_buf, port_buf) :=
        parse_webpa_url__ (heap_next m) full_url buf buflen (stack_buf m) 8 in
      if allow_insecure <? 0 then (-1, None, None)
      else
        let port_val := parse_num_arg (cstr port_buf) in
        if port_val =? UINT_ERR then (-1, None, None)
        else if (port_val =? 0) || (65535 <? port_val) then (-1, None, None)
        else (allow_insecure, Some (cstr url_buf), Some port_val)
  end.

(** ** The command line

    [getopt_long] is replaced by the sequence of its results: the option character
    and [optarg]. *)

Definition opt_event : Set := ascii * option cstring.

Definition long_options : list (cstring * bool * ascii) := [
  ("hw-model", true, "m"%char); ("hw-serial-number", true, "s"%char);
  ("hw-manufacturer", true, "f"%char); ("hw-mac", true, "d"%char);
  ("hw-last-reboot-reason", true, "r"%char); ("fw-name", true, "n"%char);
  ("boot-time", true, "b"%char); ("webpa-url", true, "u"%char);
  ("webpa-ping-timeout", true, "t"%char); ("webpa-backoff-max", true, "o"%char);
  ("webpa-interface-used", true, "i"%char); ("parodus-local-url", true, "l"%char);
  ("partner-id", true, "p"%char); ("seshat-url", true, "e"%char);
  ("dns-txt-url", true, "D"%char); ("acquire-jwt", true, "j"%char);
  ("jwt-algo", true, "a"%char); ("jwt-public-key-file", true, "k"%char);
  ("ssl-cert-path", true, "c"%char); ("force-ipv4", false, "4"%char);
  ("force-ipv6", false, "6"%char); ("boot-time-retry-wait", true, "w"%char);
  ("client-cert-path", true, "P"%char); ("token-server-url", true, "U"%char);
  ("crud-config-file", true, "C"%char); ("connection-health-file", true, "S"%char);
  ("close-reason-file", true, "R"%char); ("mtls-client-key-path", true, "K"%char);
  ("mtls-client-cert-path", true, "M"%char)
].
Definition short_options : cstring :=
  "m:s:f:d:r:n:b:u:t:o:i:l:p:e:D:j:a:k:c:T:w:J:46:C:S:R:K:M".

(** How [getopt_long] reads the option string: a character followed by [':'] takes
    an argument. *)
Fixpoint short_option_has_arg (optstring : cstring) (c : ascii) : option bool :=
  match optstring with
  | [] => None
  | x :: t =>
      if decide (x = c) then Some (bool_decide (head t = Some ":"%char))
      else short_option_has_arg t c
  end.

(** The events [getopt_long] can return. *)
Definition long_event (e : opt_event) : Prop :=
  ∃ name has_arg, (name, has_arg, fst e) ∈ long_options /\
    if (has_arg : bool) then ∃ a, snd e = Some a else snd e = None.
Definition short_event (e : opt_event) : Prop :=
  match short_option_has_arg short_options (fst e) with
  | Some true => ∃ a, snd e = Some a
  | Some false => snd e = None
  | None => fst e = "?"%char
  end.

(** A step of the option loop goes on, makes [parseCommandLine] return, or aborts
    the process. *)
Inductive opt_flow : Set :=
| opt_next (cfg : ParodusCfg)
| opt_return (rv : Z) (cfg : ParodusCfg)
| opt_abort.

Section command_line.
Context `{Cjwt}.
(** The contents of the files [open] and [read] can read. *)
Context (file_bytes : cstring → option (list ascii)).

Definition handle_option_with (c : ascii) (a : cstring) (cfg : ParodusCfg) : outcome opt_flow :=
  let next cfg := Done (opt_next cfg) in
  let num (n : Z) cfg' := if n =? UINT_ERR then Done (opt_return (-1) cfg') else next cfg' in
  if decide (c = "m"%char) then next (cfg <| hw_model := parStrncpy a 64 |>)
  else if decide (c = "s"%char) then next (cfg <| hw_serial_number := parStrncpy a 64 |>)
  else if decide (c = "f"%char) then next (cfg <| hw_manufacturer := parStrncpy a 64 |>)
  else if decide (c = "d"%char) then
    let '(rv, mac) := parse_mac_address (hw_mac cfg) a in
    if rv =? 0 then next (cfg <| hw_mac := mac |>) else Done (opt_return (-1) cfg)
  else if decide (c = "e"%char) then next (cfg <| seshat_url := parStrncpy a 128 |>)
  else if decide (c = "r"%char) then next (cfg <| hw_last_reboot_reason := parStrncpy a 128 |>)
  else if decide (c = "n"%char) then next (cfg <| fw_name := parStrncpy a 64 |>)
  else if decide (c = "b"%char) then next (cfg <| boot_time := parse_num_arg a |>)
  else if decide (c = "u"%char) then
    let cfg := cfg <| webpa_url := parStrncpy a 124 |> in
    match server_is_http (webpa_url cfg) with
    | None => Done (opt_return (-1) cfg)
    | Some _ => next cfg
    end
  else if decide (c = "t"%char) then
    num (parse_num_arg a) (cfg <| webpa_ping_timeout := parse_num_arg a |>)
  else if decide (c = "o"%char) then
    num (parse_num_arg a) (cfg <| webpa_backoff_max := parse_num_arg a |>)
  else if decide (c = "i"%char) then next (cfg <| webpa_interface_used := parStrncpy a 16 |>)
  else if decide (c = "l"%char) then next (cfg <| local_url := parStrncpy a 124 |>)
  else if decide (c = "D"%char) then next (cfg <| dns_txt_url := parStrncpy a 64 |>)
  else if decide (c = "j"%char) then
    num (parse_num_arg a) (cfg <| acquire_jwt := parse_num_arg a |>)
  else if decide (c = "a"%char) then
    mask ← get_algo_mask a;
    num mask (cfg <| jwt_algo := mask |>)
  else if decide (c = "k"%char) then
    match read_key_from_file (file_bytes a) (jwt_key cfg) 4096 with
    | None => Done opt_abort
    | Some key => next (cfg <| jwt_key := key |>)
    end
  else if decide (c = "p"%char) then next (cfg <| partner_id := parStrncpy a 64 |>)
  else if decide (c = "c"%char) then next (cfg <| cert_path := parStrncpy a 64 |>)
  else if decide (c = "w"%char) then next (cfg <| boot_retry_wait := parse_num_arg a |>)
  else if decide (c = "S"%char) then next (cfg <| connection_health_file := Some a |>)
  else if decide (c = "R"%char) then next (cfg <| close_reason_file := Some a |>)
  else if decide (c = "C"%char) then next (cfg <| crud_config_file := Some a |>)
  else if decide (c = "P"%char) then next (cfg <| client_cert_path := Some a |>)
  else if decide (c = "U"%char) then next (cfg <| token_server_url := Some a |>)
  else if decide (c = "K"%char) then next (cfg <| mtls_client_key_path := Some a |>)
  else if decide (c = "M"%char) then next (cfg <| mtls_client_cert_path := Some a |>)
  else Done (opt_return (-1) cfg).

(** The [switch]: every option but the three without argument uses [optarg]. *)
Definition handle_option (e : opt_event) (cfg : ParodusCfg) : outcome opt_flow :=
  let '(c, optarg) := e in
  if decide (c = "4"%char) then Done (opt_next (cfg <| flags := Z.lor (flags cfg) FLAGS_IPV4_ONLY |>))
  else if decide (c = "6"%char) then Done (opt_next (cfg <| flags := Z.lor (flags cfg) FLAGS_IPV6_ONLY |>))
  else if decide (c = "?"%char) then Done (opt_next cfg)
  else
    match optarg with
    | Some a => handle_option_with c a cfg
    | None => if decide (c ∈ ("msfderbnutoilDjakpcwSRCPUKM"%cs : list ascii))
              then Undef else Done (opt_return (-1) cfg)
    end.

Fixpoint option_loop (events : list opt_event) (cfg : ParodusCfg) : outcome opt_flow :=
  match events with
  | [] => Done (opt_next cfg)
  | e :: events =>
      f ← handle_option e cfg;
      match f with
      | opt_next cfg => option_loop events cfg
      | other => Done other
      end
  end.

Definition clear_cmdline_cfg (cfg : ParodusCfg) : ParodusCfg :=
  cfg <| flags := 0 |> <| webpa_url := "" |> <| acquire_jwt := 0 |> <| jwt_algo := 0 |>
      <| jwt_key := [] |> <| crud_config_file := None |> <| connection_health_file := None |>
      <| close_reason_file := None |> <| client_cert_path := None |>
      <| token_server_url := None |> <| cloud_status := None |> <| cloud_disconnect := None |>.

(** [strlen] of the key, whose 4096 bytes need not hold a NUL. *)
Definition key_text (cfg : ParodusCfg) : outcome cstring :=
  if (length (cstr (jwt_key cfg)) <? 4096)%nat then Done (cstr (jwt_key cfg)) else Undef.

Definition check_required (cfg : ParodusCfg) : outcome Z :=
  if (length (webpa_url cfg) =? 0)%nat then Done (-1)
  else if negb (acquire_jwt cfg =? 0) then
    if 0 =? jwt_algo cfg then Done (-1)
    else if negb (0 =? Z.land (jwt_algo cfg) rsa_algorithms) then
      key ← key_text cfg;
      Done (if (length key =? 0)%nat then -1 else 0)
    else Done 0
  else Done 0.

(** The return value and the structure as it is left. *)
Definition parseCommandLine (events : list opt_event) (cfg : ParodusCfg) : outcome opt_flow :=
  f ← option_loop events (clear_cmdline_cfg cfg);
  match f with
  | opt_next cfg => rv ← check_required cfg; Done (opt_return rv cfg)
  | other => Done other
  end.
End command_line.

(** ** Defaults and copying *)

Section defaults.
Context (GIT_COMMIT_TAG : cstring).

Definition protocol_string : cstring := take 31 (PROTOCOL_VALUE ++ "-" ++ GIT_COMMIT_TAG)%list.

Definition setDefaultValuesToCfg (cfg : ParodusCfg) : ParodusCfg :=
  cfg <| local_url := parStrncpy PARODUS_UPSTREAM 124 |>
      <| acquire_jwt := 0 |>
      <| dns_txt_url := parStrncpy DNS_TXT_URL 64 |>
      <| jwt_key := [] |>
      <| jwt_algo := 0 |>
      <| cert_path := "" |>
      <| flags := 0 |>
      <| webpa_path_url := parStrncpy WEBPA_PATH_URL 124 |>
      <| webpa_protocol := protocol_string |>
      <| webpa_uuid := parStrncpy "1234567-345456546" 64 |>
      <| crud_config_file := None |>
      <| connection_health_file := None |>
      <| close_reason_file := None |>
      <| client_cert_path := None |>
      <| token_server_url := None |>
      <| cloud_status := Some CLOUD_STATUS_OFFLINE |>.

(** A non-empty member of [config] replaces the one of [cfg]. *)
Definition copy_if (src dst : cstring) (size : nat) : cstring :=
  if negb (length src =? 0)%nat then parStrncpy src size else dst.
Definition dup_if (src dst : option cstring) : option cstring :=
  match src with Some s => Some s | None => dst end.

Definition loadParodusCfg (config : option ParodusCfg) (cfg : ParodusCfg) : ParodusCfg :=
  match config with
  | None => cfg
  | Some config =>
      cfg <| hw_model := copy_if (hw_model config) (hw_model cfg) 64 |>
          <| hw_serial_number := copy_if (hw_serial_number config) (hw_serial_number cfg) 64 |>
          <| hw_manufacturer := copy_if (hw_manufacturer config) (hw_manufacturer cfg) 64 |>
          <| hw_mac := copy_if (hw_mac config) (hw_mac cfg) 64 |>
          <| hw_last_reboot_reason :=
               copy_if (hw_last_reboot_reason config) (hw_last_reboot_reason cfg) 128 |>
          <| fw_name := copy_if (fw_name config) (fw_name cfg) 64 |>
          <| webpa_url := copy_if (webpa_url config) (webpa_url cfg) 124 |>
          <| webpa_interface_used :=
               copy_if (webpa_interface_used config) (webpa_interface_used cfg) 16 |>
          <| local_url := copy_if (local_url config) (parStrncpy PARODUS_UPSTREAM 124) 124 |>
          <| partner_id := copy_if (partner_id config) (partner_id cfg) 64 |>
          <| seshat_url := copy_if (seshat_url config) (seshat_url cfg) 128 |>
          <| acquire_jwt := acquire_jwt config |>
          <| dns_txt_url := copy_if (dns_txt_url config) (parStrncpy DNS_TXT_URL 64) 64 |>
          <| jwt_key := parStrncpy (cstr (jwt_key config)) 4096 |>
          <| jwt_algo := jwt_algo config |>
          <| cert_path := copy_if (cert_path config) "" 64 |>
          <| boot_time := boot_time config |>
          <| webpa_ping_timeout := webpa_ping_timeout config |>
          <| webpa_backoff_max := webpa_backoff_max config |>
          <| webpa_path_url := parStrncpy WEBPA_PATH_URL 124 |>
          <| webpa_protocol := protocol_string |>
          <| webpa_uuid := parStrncpy "1234567-345456546" 64 |>
          <| connection_health_file :=
               dup_if (connection_health_file config) (connection_health_file cfg) |>
          <| close_reason_file := dup_if (close_reason_file config) (close_reason_file cfg) |>
          <| crud_config_file := dup_if (crud_config_file config) (crud_config_file cfg) |>
          <| client_cert_path := dup_if (client_cert_path config) (client_cert_path cfg) |>
          <| token_server_url := dup_if (token_server_url config) (token_server_url cfg) |>
  end.
End defaults.

(** ** Specifications *)

(** The value of a string of decimal digits. *)
Definition dec_value_from (v : Z) (s : cstring) : Z :=
  fold_left (λ acc c, acc * 10 + (code c - 48)) s v.
Definition dec_value (s : cstring) : Z := dec_value_from 0 s.

(** What follows the first [c]. *)
Definition after (c : ascii) (s : cstring) : cstring := drop (S (length (before c s))) s.

Definition strip_slash (s : cstring) : cstring :=
  if bool_decide (last s = Some "/"%char) then take (length s - 1) s else s.

(** The port that follows the address in the text [tail]. *)
Definition port_of (http : Z) (tail : cstring) : cstring :=
  if bool_decide (":"%char ∈ (tail : list ascii)) then before "/" (after ":" tail)
  else default_port http.

(** URL parsing on strings alone: the scheme, the server and the port text. *)
Definition split_url (full_url : cstring) : option (Z * cstring * cstring) :=
  match server_is_http full_url with
  | None => None
  | Some (http, rest) =>
      let body := strip_slash rest in
      if bool_decide ("["%char ∈ (body : list ascii)) then
        let inner := drop 1 body in
        if bool_decide ("]"%char ∈ (inner : list ascii))
        then Some (http, before "]" inner, port_of http (after "]" inner))
        else None
      else if bool_decide ("]"%char ∈ (body : list ascii)) then None
      else if bool_decide (":"%char ∈ (body : list ascii)) then Some (http, before ":" body, port_of http body)
      else Some (http, before "/" body, default_port http)
  end.

Definition url_spec (full_url : cstring) : Z * option cstring * option Z :=
  match split_url full_url with
  | None => (-1, None, None)
  | Some (http, host, port) =>
      let p := parse_num_arg (parStrncpy port 8) in
      if (p =? UINT_ERR) || (p =? 0) || (65535 <? p) then (-1, None, None)
      else (http, Some host, Some p)
  end.

(** ** Lemmas on numbers *)

Lemma code_range (c : ascii) : 0 <= code c < 256.
Proof. unfold code. pose proof (nat_ascii_bounded c). lia. Qed.

Lemma parse_num_loop_spec (s : cstring) (v : Z) :
  parse_num_loop s (u32 v) = if forallb isdigit s then u32 (dec_value_from v s) else UINT_ERR.
Proof.
  revert v. induction s as [|c s IH]; intros v; [done|].
  cbn [parse_num_loop forallb]. unfold isdigit at 1, char_between.
  destruct (Z.ltb_spec (code c) 48), (Z.leb_spec 48 (code c)); try lia; [done|].
  destruct (Z.ltb_spec 57 (code c)), (Z.leb_spec (code c) 57); try lia; [done|].
  simpl orb. cbn [andb].
  replace (u32 (u32 (u32 (u32 v * 10) + code c) - 48)) with (u32 (v * 10 + (code c - 48))).
  - apply IH.
  - rewrite u32_mul_l, u32_add_l, u32_sub_l. f_equal. lia.
Qed.

Lemma parse_num_arg_value (s : cstring) :
  parse_num_arg s =
    if negb (length s =? 0)%nat && forallb isdigit s then u32 (dec_value s) else UINT_ERR.
Proof.
  destruct s as [|c s]; [done|]. unfold parse_num_arg.
  change 0 with (u32 0) at 1. rewrite parse_num_loop_spec. done.
Qed.

Lemma code_digit (d : Z) : 0 <= d < 10 → code (digit_char d) = 48 + d.
Proof.
  intros. unfold code, digit_char. rewrite nat_ascii_embedding by lia. lia.
Qed.

Lemma print_dec_aux_spec (fuel : nat) (n : Z) (acc : cstring) :
  0 <= n < 2 ^ Z.of_nat fuel →
  forallb isdigit acc = true →
  forallb isdigit (print_dec_aux fuel n acc) = true /\
  dec_value (print_dec_aux fuel n acc) = dec_value_from n acc /\
  (∀ k, (0 < k)%nat → n < 10 ^ Z.of_nat k →
        (length (print_dec_aux fuel n acc) <= k + length acc)%nat).
Proof.
  revert n acc. induction fuel as [|fuel IH]; intros n acc Hn Hacc.
  { simpl in Hn. assert (n = 0) as -> by lia. split; [done|]. split; [done|].
    intros; simpl; lia. }
  cbn [print_dec_aux].
  pose proof (Z.mod_pos_bound n 10 ltac:(lia)) as Hmod.
  assert (Hd : isdigit (digit_char (n mod 10)) = true).
  { unfold isdigit, char_between. rewrite code_digit by lia. lia. }
  assert (Hacc' : forallb isdigit (digit_char (n mod 10) :: acc) = true) by (simpl; by rewrite Hd, Hacc).
  destruct (Z.ltb_spec n 10).
  - split; [done|]. split.
    + unfold dec_value, dec_value_from. simpl. rewrite code_digit by lia.
      rewrite Z.mod_small by lia. f_equal. lia.
    + intros k Hk _. simpl. lia.
  - assert (Hdiv : 0 <= n / 10 < 2 ^ Z.of_nat fuel).
    { rewrite Nat2Z.inj_succ, Z.pow_succ_r in Hn by lia. Z.to_euclidean_division_equations. lia. }
    destruct (IH (n / 10) _ Hdiv Hacc') as (H1 & H2 & H3).
    split; [done|]. split.
    + rewrite H2. unfold dec_value_from. simpl. rewrite code_digit by lia. f_equal.
      rewrite (Z_div_mod_eq_full n 10) at 3. lia.
    + intros k Hk Hlt. destruct k as [|[|k]]; [lia|simpl in Hlt; lia|].
      specialize (H3 (S k) ltac:(lia)). simpl length in H3. simpl. etransitivity; [apply H3|lia].
      rewrite Nat2Z.inj_succ, Z.pow_succ_r in Hlt by lia.
      apply Z.div_lt_upper_bound; lia.
Qed.

Lemma print_dec_facts (n : Z) :
  0 <= n →
  forallb isdigit (print_dec n) = true /\ dec_value (print_dec n) = n /\
  (∀ k, (0 < k)%nat → n < 10 ^ Z.of_nat k → (length (print_dec n) <= k)%nat).
Proof.
  intros Hn. unfold print_dec.
  destruct (print_dec_aux_spec (S (Z.to_nat (Z.log2 n))) n []) as (H1 & H2 & H3); [|done|].
  - rewrite Nat2Z.inj_succ, Z2Nat.id by apply Z.log2_nonneg.
    destruct (decide (n = 0)) as [->|]; [simpl; lia|]. pose proof (Z.log2_spec n). lia.
  - split; [done|]. split; [done|]. intros k Hk Hlt. specialize (H3 k Hk Hlt). cbn [length] in H3. lia.
Qed.

Lemma print_dec_nonempty (n : Z) : 0 <= n → print_dec n ≠ [].
Proof.
  intros Hn Hnil. unfold print_dec in Hnil.
  assert (Hgen : ∀ fuel m (acc : cstring), print_dec_aux (S fuel) m acc ≠ []).
  { intros fuel. induction fuel as [|fuel IH]; intros m acc; cbn [print_dec_aux].
    - by destruct (m <? 10).
    - destruct (m <? 10); [done|]. apply IH. }
  by apply Hgen in Hnil.
Qed.

(** Printing then parsing a number is the identity. *)
Lemma parse_print_dec (n : Z) : uint_range n → parse_num_arg (print_dec n) = n.
Proof.
  intros Hn. assert (H0 : 0 <= n) by (unfold uint_range in Hn; lia).
  destruct (print_dec_facts n H0) as (H1 & H2 & _).
  pose proof (print_dec_nonempty n H0) as Hne.
  rewrite parse_num_arg_value, H1, H2, u32_id by done.
  by destruct (print_dec n).
Qed.

(** ** Lemmas on the URL parser *)

Lemma strip_slash_holds (sa : list ascii) (s : cstring) :
  holds sa s →
  holds (if (0 <? length s)%nat && bool_decide (sa !! (length s - 1)%nat = Some "/"%char)
         then put_nul (length s - 1) sa else sa) (strip_slash s).
Proof.
  intros H. unfold strip_slash.
  assert (Hlast : (0 <? length s)%nat && bool_decide (sa !! (length s - 1)%nat = Some "/"%char)
                  = bool_decide (last s = Some "/"%char)).
  { destruct H as [_ [pad ->]]. rewrite last_lookup.
    destruct s as [|x s]; [symmetry; by apply bool_decide_eq_false_2|].
    rewrite lookup_app_l by (simpl; lia).
    replace (pred (length (x :: s))) with (length (x :: s) - 1)%nat by (simpl; lia). done. }
  rewrite Hlast. destruct (bool_decide (last s = _)). 2:{ exact H. }
  apply holds_put_nul; [done|lia].
Qed.

Lemma cut_port_holds (sa : list ascii) (host tail : cstring) (n : nat) :
  holds sa host → (length host < n)%nat → holds (drop n sa) tail →
  holds (cut_port n sa) host /\ cstr (drop n (cut_port n sa)) = before "/" tail.
Proof.
  intros Hh Hn Ht. unfold cut_port. rewrite (holds_cstr _ _ Ht).
  pose proof (holds_cut _ _ "/"%char Ht) as Hcut.
  destruct (strchr tail "/"%char) as [e|] eqn:He.
  - split; [apply holds_put_nul_behind; [done|lia]|].
    unfold put_nul. rewrite drop_insert_ge by lia.
    replace (n + e - n)%nat with e by lia. by apply holds_cstr.
  - split; [done|]. by apply holds_cstr.
Qed.

Lemma strchr_mem (s : cstring) (c : ascii) :
  match strchr s c with
  | Some k => bool_decide (c ∈ (s : list ascii)) = true /\ k = length (before c s)
              /\ (k < length s)%nat /\ take k s = before c s
  | None => bool_decide (c ∈ (s : list ascii)) = false
  end.
Proof.
  destruct (strchr s c) as [k|] eqn:Hc.
  - destruct (strchr_before s c k Hc) as (Hk & Ht & Hin).
    split; [by apply bool_decide_eq_true|]. rewrite <-Ht, length_take. split; [lia|done].
  - apply strchr_None in Hc. by apply bool_decide_eq_false.
Qed.

Lemma server_is_http_rest (full_url rest : cstring) (http : Z) :
  server_is_http full_url = Some (http, rest) → cstring_ok full_url →
  cstring_ok rest /\ (length rest <= length full_url)%nat /\ (http = 0 \/ http = 1).
Proof.
  unfold server_is_http. intros H Hok.
  destruct (strneq 8 _ _); [|destruct (strneq 7 _ _)]; simplify_eq;
    (split; [by apply cstring_ok_drop|]; rewrite length_drop; split; [lia|auto]).
Qed.

Lemma default_port_ok (http : Z) : cstring_ok (default_port http).
Proof. unfold default_port. destruct (http =? 0); by_eval. Qed.

Lemma before_ok (c : ascii) (s : cstring) : cstring_ok s → cstring_ok (before c s).
Proof. intros H Hn. by apply H, (before_subset c). Qed.

Lemma holds_ok (buf : list ascii) (s : cstring) : holds buf s → cstring_ok s.
Proof. by intros [? _]. Qed.

#[local] Hint Resolve default_port_ok before_ok holds_ok : cstring.

Lemma port_copy (port_buf : list ascii) (port : cstring) :
  length port_buf = 8%nat → cstring_ok port →
  cstr (parStrncpy_buf port_buf port 8) = parStrncpy port 8.
Proof. intros Hl Hp. apply holds_cstr, holds_parStrncpy; [done|lia]. Qed.

(** A run of the parser agrees with what [split_url] says. *)
Definition url_result (r : Z * list ascii * list ascii) (e : option (Z * cstring * cstring)) : Prop :=
  match e with
  | None => fst (fst r) = -1
  | Some (http, host, port) =>
      fst (fst r) = http /\ cstr (snd (fst r)) = host /\ cstr (snd r) = parStrncpy port 8
  end.

(** After the terminator put at the first [c], the array holds what followed [c]. *)
Lemma holds_after (sa : list ascii) (s : cstring) (c : ascii) (k : nat) :
  holds sa s → strchr s c = Some k →
  holds (put_nul k sa) (before c s) /\ length (before c s) = k /\
  holds (drop (S k) (put_nul k sa)) (after c s).
Proof.
  intros H Hc. destruct (strchr_before s c k Hc) as (Hk & Ht & _).
  assert (Hl : length (before c s) = k) by (rewrite <-Ht, length_take; lia).
  split; [rewrite <-Ht; apply holds_put_nul; [done|lia]|]. split; [done|].
  unfold put_nul, after. rewrite drop_insert_lt by lia. rewrite Hl.
  apply holds_drop; [done|lia].
Qed.

Lemma parse_bracketed_spec (http : Z) (sa port_buf : list ascii) (inner : cstring) :
  holds sa inner → length port_buf = 8%nat →
  url_result (parse_bracketed http sa port_buf 8)
    (if bool_decide ("]"%char ∈ (inner : list ascii))
     then Some (http, before "]" inner, port_of http (after "]" inner)) else None).
Proof.
  intros H Hpb. unfold parse_bracketed, port_of. rewrite (holds_cstr _ _ H).
  pose proof (strchr_mem inner "]"%char) as Hmem.
  destruct (strchr inner "]"%char) as [k|] eqn:Hk; [|by rewrite Hmem].
  destruct Hmem as (-> & _).
  destruct (holds_after sa inner "]"%char k H Hk) as (Hhost & Hlen & Htail).
  rewrite (holds_cstr _ _ Htail).
  pose proof (strchr_mem (after "]" inner) ":"%char) as Hcolon.
  destruct (strchr (after "]" inner) ":"%char) as [kc|].
  - destruct Hcolon as (-> & -> & Hkc & _). set (n := (S k + _)%nat).
    assert (Hport : holds (drop n (put_nul k sa)) (after ":" (after "]" inner))).
    { subst n. rewrite <-drop_drop. unfold after at 1. apply holds_drop; [done|lia]. }
    destruct (cut_port_holds _ _ _ n Hhost ltac:(subst n; lia) Hport) as [Hh Hp].
    simpl. rewrite Hp, port_copy by eauto with cstring.
    split; [done|]. split; [by apply holds_cstr|done].
  - rewrite Hcolon. simpl. rewrite port_copy by auto with cstring.
    split; [done|]. split; [by apply holds_cstr|done].
Qed.

Lemma parse_unbracketed_spec (http : Z) (sa port_buf : list ascii) (body : cstring) :
  holds sa body → length port_buf = 8%nat →
  url_result (parse_unbracketed http sa port_buf 8)
    (Some (http, if bool_decide (":"%char ∈ (body : list ascii)) then before ":" body
                 else before "/" body, port_of http body)).
Proof.
  intros H Hpb. unfold parse_unbracketed, port_of. rewrite (holds_cstr _ _ H).
  pose proof (strchr_mem body ":"%char) as Hmem.
  destruct (strchr body ":"%char) as [k|] eqn:Hk.
  - destruct Hmem as (-> & _).
    destruct (holds_after sa body ":"%char k H Hk) as (Hhost & Hlen & Htail).
    destruct (cut_port_holds _ _ _ (S k) Hhost ltac:(lia) Htail) as [Hh Hp].
    simpl. rewrite Hp, port_copy by eauto with cstring.
    split; [done|]. split; [by apply holds_cstr|done].
  - rewrite Hmem. pose proof (holds_cut _ _ "/"%char H) as Hcut.
    destruct (strchr body "/"%char) as [e|]; simpl;
      (rewrite port_copy by auto with cstring; split; [done|];
       split; [by apply holds_cstr|done]).
Qed.

Lemma parse_webpa_url_buf (oob : ascii) (full_url : cstring) (buf port_buf : list ascii) :
  cstring_ok full_url → length buf = S (length full_url) → length port_buf = 8%nat →
  url_result (parse_webpa_url__ oob full_url buf (S (length full_url)) port_buf 8)
    (split_url full_url).
Proof.
  intros Hok Hbuf Hpb. unfold split_url, parse_webpa_url__.
  destruct (server_is_http full_url) as [[http rest]|] eqn:Hhttp; [|done].
  destruct (server_is_http_rest _ _ _ Hhttp Hok) as (Hrest & Hlen & _).
  assert (Hcopy : holds (parStrncpy_buf buf rest (S (length full_url))) rest).
  { replace rest with (parStrncpy rest (S (length full_url))) at 2
      by (unfold parStrncpy; apply take_ge; lia).
    apply holds_parStrncpy; [done|lia]. }
  cbn zeta. rewrite (holds_cstr _ _ Hcopy).
  pose proof (strip_slash_holds _ rest Hcopy) as Hbody.
  match type of Hbody with
  | holds ?b _ =>
      assert (Hsize : length b = S (length full_url))
        by (unfold put_nul; case_match; rewrite ?length_insert, parStrncpy_buf_length; lia);
      set (sb := b) in *
  end.
  clearbody sb.
  set (body := strip_slash rest) in *. clearbody body. clear Hcopy.
  rewrite (holds_cstr _ _ Hbody).
  pose proof (strchr_mem body "["%char) as Hopen.
  destruct (strchr body "["%char) as [k|].
  - destruct Hopen as (-> & _ & Hk & _).
    rewrite take_ge by (rewrite length_drop; lia).
    apply (parse_bracketed_spec http _ port_buf (drop 1 body)); [|done].
    by apply holds_shift; [|lia].
  - rewrite Hopen. pose proof (strchr_mem body "]"%char) as Hclose.
    destruct (strchr body "]"%char) as [kc|]; [by destruct Hclose as (-> & _)|]. rewrite Hclose.
    pose proof (parse_unbracketed_spec http sb port_buf body Hbody Hpb) as Hspec.
    unfold port_of in *. revert Hspec. by destruct (bool_decide (":"%char ∈ (body : list ascii))) .
Qed.

Lemma split_url_http (full_url host port : cstring) (http : Z) :
  split_url full_url = Some (http, host, port) → cstring_ok full_url → http = 0 \/ http = 1.
Proof.
  unfold split_url. intros H Hok.
  destruct (server_is_http full_url) as [[http' rest]|] eqn:Hhttp; [|done].
  destruct (server_is_http_rest _ _ _ Hhttp Hok) as (_ & _ & Hh).
  repeat case_bool_decide; by simplify_eq.
Qed.

(** [parse_webpa_url] computes [url_spec], whatever the memory it works in holds. *)
Lemma parse_webpa_url_spec (m : url_memory) (full_url : cstring) :
  cstring_ok full_url → url_memory_ok full_url m →
  parse_webpa_url m full_url = url_spec full_url.
Proof.
  intros Hok [Hst Hheap]. unfold parse_webpa_url, url_spec.
  destruct (heap_buf m) as [buf|]; [|done].
  pose proof (parse_webpa_url_buf (heap_next m) full_url buf (stack_buf m) Hok Hheap Hst) as Hres.
  destruct (parse_webpa_url__ _ _ _ _ _ _) as [[rv sa] pb]. unfold url_result in Hres. simpl in Hres.
  destruct (split_url full_url) as [[[http host] port]|] eqn:Hsplit.
  - destruct Hres as (-> & -> & ->).
    destruct (split_url_http _ _ _ _ Hsplit Hok) as [-> | ->]; simpl;
      destruct (_ =? UINT_ERR), (_ =? 0), (65535 <? _); done.
  - by rewrite Hres.
Qed.

(** ** Building URLs *)

Definition scheme_of (http : bool) : cstring := if http then "http://" else "https://".
Definition authority (bracketed : bool) (host : cstring) : cstring :=
  if bracketed then "["%char :: host ++ ["]"%char] else host.
Definition port_text (port : option Z) : cstring :=
  match port with Some p => ":"%char :: print_dec p | None => [] end.
Definition build_url (http bracketed : bool) (host : cstring) (port : option Z) (path : cstring)
    : cstring :=
  (scheme_of http ++ authority bracketed host ++ port_text port ++ path)%list.

Definition host_ok (bracketed : bool) (host : cstring) : Prop :=
  ("["%char ∉ (host : list ascii)) /\ ("]"%char ∉ (host : list ascii)) /\
  (bracketed = false →
   (":"%char ∉ (host : list ascii)) /\ ("/"%char ∉ (host : list ascii))).
Definition path_ok (path : cstring) : Prop :=
  (path = [] \/ head path = Some "/"%char) /\
  ("["%char ∉ (path : list ascii)) /\ ("]"%char ∉ (path : list ascii)) /\
  (":"%char ∉ (path : list ascii)).
Definition port_ok (port : option Z) : Prop :=
  match port with Some p => 0 < p <= 65535 | None => True end.

Lemma path_ok_take (n : nat) (path : cstring) : path_ok path → path_ok (take n path).
Proof.
  intros [Hh Hc]. split.
  - destruct n as [|n]; [by left|]. destruct path; [by left|]. right. by destruct Hh.
  - rewrite <-(take_drop n path) in Hc at 1 2 3. rewrite !not_elem_of_app in Hc. tauto.
Qed.

Lemma strip_slash_path (auth path : cstring) :
  last auth ≠ Some "/"%char → path_ok path →
  ∃ path', strip_slash (auth ++ path) = (auth ++ path')%list /\ path_ok path'.
Proof.
  intros Hl Hp. unfold strip_slash. rewrite last_app.
  destruct (last path) as [y|] eqn:Hlast.
  - assert (0 < length path)%nat by (destruct path; [done|simpl; lia]).
    case_bool_decide; [|by exists path].
    exists (take (length path - 1) path). split; [|by apply path_ok_take].
    rewrite length_app, take_app_ge by lia. do 2 f_equal. lia.
  - apply last_None in Hlast as ->. exists []. rewrite app_nil_r. simpl.
    case_bool_decide; done.
Qed.

Lemma server_is_http_scheme (http : bool) (rest : cstring) :
  server_is_http (scheme_of http ++ rest) = Some (Z.b2z http, rest).
Proof.
  unfold server_is_http, strneq, scheme_of. destruct http; simpl;
    repeat case_bool_decide; done.
Qed.

Lemma digits_no (c : ascii) (s : cstring) :
  isdigit c = false → forallb isdigit s = true → c ∉ (s : list ascii).
Proof.
  intros Hc Hs Hin. rewrite forallb_forall in Hs.
  apply list_elem_of_In, Hs in Hin. congruence.
Qed.

Lemma before_slash_path (s path : cstring) :
  "/"%char ∉ (s : list ascii) → path_ok path → before "/" (s ++ path) = s.
Proof.
  intros Hs [[->|Hh] _]; [rewrite app_nil_r; by apply before_none|].
  destruct path as [|x path]; simplify_eq/=. by apply before_app_found.
Qed.

Lemma after_found (c : ascii) (a b : cstring) :
  c ∉ (a : list ascii) → after c (a ++ c :: b) = b.
Proof.
  intros Hn. unfold after. rewrite before_app_found by done.
  rewrite drop_app_ge by lia. by replace (S (length a) - length a)%nat with 1%nat by lia.
Qed.

Lemma print_port (p : Z) :
  0 < p <= 65535 →
  forallb isdigit (print_dec p) = true /\ (length (print_dec p) <= 7)%nat /\
  parse_num_arg (print_dec p) = p.
Proof.
  intros Hp. destruct (print_dec_facts p) as (H1 & _ & H3); [lia|].
  split; [done|]. split; [|apply parse_print_dec; unfold uint_range; lia].
  transitivity 5%nat; [apply H3; lia|lia].
Qed.

(** The port text found behind an authority. *)
Lemma port_of_tail (http : bool) (port : option Z) (path : cstring) :
  port_ok port → path_ok path →
  let text := port_of (Z.b2z http) (port_text port ++ path) in
  parse_num_arg (parStrncpy text 8) = default (if http then 80 else 443) port.
Proof.
  intros Hp Hpath. cbn zeta. unfold port_of. destruct port as [p|]; simpl.
  - destruct (print_port p Hp) as (Hd & Hl & Hv).
    change (":"%char :: print_dec p ++ path)%list with ([] ++ ":"%char :: (print_dec p ++ path))%list.
    rewrite after_found by apply not_elem_of_nil.
    rewrite before_slash_path by (done || by apply digits_no).
    unfold parStrncpy. rewrite take_ge by (simpl; lia). done.
  - destruct Hpath as (_ & _ & _ & Hc). rewrite bool_decide_eq_false_2 by done. by destruct http.
Qed.

(** The port text of an address whose host has no [':'] is the one of what follows
    the host. *)
Lemma port_of_host (http : Z) (host tail : cstring) :
  ":"%char ∉ (host : list ascii) → port_of http (host ++ tail) = port_of http tail.
Proof.
  intros Hh. unfold port_of.
  destruct (decide (":"%char ∈ (tail : list ascii))) as [Hin|Hout].
  - rewrite !bool_decide_eq_true_2 by (rewrite ?elem_of_app; auto). f_equal.
    destruct (before_split ":"%char tail Hin) as [r Hr]. rewrite Hr, app_assoc.
    rewrite !after_found; [done|apply before_not_in|].
    rewrite not_elem_of_app. split; [done|apply before_not_in].
  - rewrite !bool_decide_eq_false_2; [done|done|]. by rewrite elem_of_app; intros [?|?].
Qed.

Lemma split_url_build (http bracketed : bool) (host path : cstring) (port : option Z) :
  host_ok bracketed host → path_ok path → port_ok port →
  ∃ path', path_ok path' /\
    split_url (build_url http bracketed host port path) =
      Some (Z.b2z http, host, port_of (Z.b2z http) (port_text port ++ path')).
Proof.
  intros (Hopen & Hclose & Hrest) Hpath Hport. unfold build_url, split_url.
  rewrite server_is_http_scheme, app_assoc.
  destruct (strip_slash_path (authority bracketed host ++ port_text port) path) as (path' & -> & Hp');
    [|done|].
  { rewrite last_app. destruct port as [p|]; simpl port_text.
    - destruct (print_port p Hport) as (Hd & _). 
      destruct (last (":"%char :: print_dec p)) as [y|] eqn:Hl; [|by apply last_None in Hl].
      intros [= ->]. apply last_Some in Hl as [l' Hl].
      assert (Hin : "/"%char ∈ (":"%char :: print_dec p : list ascii))
        by (rewrite Hl, elem_of_app, elem_of_cons; auto).
      apply elem_of_cons in Hin as [?|Hin]; [done|]. by apply digits_no in Hin.
    - simpl. destruct bracketed; simpl authority.
      + change ("["%char :: host ++ ["]"%char])%list with (("["%char :: host) ++ ["]"%char])%list.
        by rewrite last_snoc.
      + destruct (Hrest eq_refl) as [_ Hs]. intros Hl. apply last_Some in Hl as [l' ->].
        apply Hs. rewrite elem_of_app, elem_of_cons. auto. }
  exists path'. split; [done|]. rewrite <-app_assoc.
  assert (Hno : ∀ c, isdigit c = false → c ≠ ":"%char → c ∉ (path' : list ascii) →
                c ∉ (port_text port ++ path' : list ascii)).
  { intros c Hc Hne Hcp. rewrite not_elem_of_app. split; [|done].
    destruct port as [p|]; simpl; [|apply not_elem_of_nil].
    rewrite not_elem_of_cons. split; [done|]. apply digits_no; [done|]. by destruct (print_port p Hport). }
  pose proof Hp' as (_ & Hpo & Hpc & _).
  destruct bracketed; simpl authority.
  - rewrite bool_decide_eq_true_2 by (simpl; rewrite elem_of_cons; auto).
    simpl drop. rewrite drop_0, <-app_assoc. cbn [app].
    assert (Hin : "]"%char ∈ (host ++ "]"%char :: port_text port ++ path' : list ascii))
      by (rewrite elem_of_app, elem_of_cons; auto).
    rewrite bool_decide_eq_true_2 by done.
    by rewrite before_app_found, after_found.
  - destruct (Hrest eq_refl) as [Hcol Hsl].
    assert (Hnb : ∀ c, isdigit c = false → c ≠ ":"%char → c ∉ (path' : list ascii) →
                  c ∉ (host : list ascii) → c ∉ (host ++ port_text port ++ path' : list ascii))
      by (intros; rewrite not_elem_of_app; auto).
    rewrite !bool_decide_eq_false_2 by (apply Hnb; done).
    case_bool_decide as Hin.
    + rewrite port_of_host by done. do 3 f_equal.
      destruct port as [p|]; [by apply before_app_found|].
      simpl in Hin. apply elem_of_app in Hin as [?|?]; [done|]. by destruct Hp' as (_ & _ & _ & []).
    + destruct port as [p|]; [destruct Hin; rewrite elem_of_app; simpl; rewrite elem_of_cons; auto|].
      simpl. rewrite before_slash_path by done.
      unfold port_of. rewrite bool_decide_eq_false_2 by (by destruct Hp' as (_ & _ & _ & ?)). done.
Qed.

(** ** Algorithm masks *)

Section algo_spec.
Context `{CjwtLaws}.

(** The tokens of an algorithm list: the texts between colons, cut to 15
    characters. *)
Definition algo_tokens (algo_str : cstring) : list cstring :=
  map (take 15) (strsep_all ":" algo_str).
Definition rsa_name (tok : cstring) : bool :=
  bool_decide (0 <= cjwt_alg_str_to_enum tok < num_algorithms) &&
  negb (cjwt_alg_str_to_enum tok =? alg_none) &&
  Z.testbit rsa_algorithms (cjwt_alg_str_to_enum tok).
Definition algo_bit (tok : cstring) : Z := Z.shiftl 1 (cjwt_alg_str_to_enum tok).
Definition algo_mask_from (mask : Z) (toks : list cstring) : Z :=
  if forallb rsa_name toks then fold_left Z.lor (map algo_bit toks) mask else UINT_ERR.

(** A set of RSA algorithms, as a mask. *)
Definition rsa_mask (mask : Z) : Prop := 0 < mask < 2 ^ 31 /\ Z.land mask rsa_algorithms = mask.

Lemma shiftl_one_testbit (a k : Z) : 0 <= a → Z.testbit (Z.shiftl 1 a) k = (k =? a).
Proof.
  intros Ha. rewrite Z.shiftl_1_l, Z.pow2_bits_eqb by done. apply Z.eqb_sym.
Qed.

Lemma land_one_bit (a r : Z) :
  0 <= a → Z.land (Z.shiftl 1 a) r = if Z.testbit r a then Z.shiftl 1 a else 0.
Proof.
  intros Ha. apply Z.bits_inj'. intros n Hn.
  rewrite Z.land_spec, shiftl_one_testbit by done.
  destruct (Z.eqb_spec n a) as [->|Hne]; destruct (Z.testbit r a) eqn:Hr;
    rewrite ?Z.bits_0, ?shiftl_one_testbit by done; simpl; try done;
    [by rewrite Z.eqb_refl|symmetry; by apply Z.eqb_neq].
Qed.

Lemma shiftl_one_pos (a : Z) : 0 <= a → 0 < Z.shiftl 1 a.
Proof. intros. rewrite Z.shiftl_1_l. apply Z.pow_pos_nonneg; lia. Qed.

Lemma get_tok_loop_spec (s tok : cstring) (i : Z) :
  0 <= i → length tok = Z.to_nat (Z.min i 15) →
  get_tok_loop s ":" 15 i tok =
    (match strchr s ":" with Some _ => Some (after ":" s) | None => None end,
     tok ++ take (15 - length tok) (before ":" s))%list.
Proof.
  revert tok i. induction s as [|c s IH]; intros tok i Hi Hl; cbn [get_tok_loop].
  - simpl. by rewrite take_nil, app_nil_r.
  - cbn [strchr before]. case_decide as Hc.
    + unfold after. cbn [before]. rewrite decide_True by done. cbn [length drop].
      by rewrite take_nil, app_nil_r.
    + rewrite IH; [|lia|destruct (Z.ltb_spec i 15); [rewrite length_app; simpl; lia|lia]].
      unfold after. cbn [before]. rewrite decide_False by done. cbn [length drop].
      f_equal; [by destruct (strchr s ":")|].
      destruct (Z.ltb_spec i 15).
      * rewrite length_app. cbn [length].
        replace (15 - length tok)%nat with (S (15 - (length tok + 1))) by lia.
        cbn [take]. by rewrite <-app_assoc.
      * by replace (15 - length tok)%nat with 0%nat by lia.
Qed.

Lemma get_tok_spec (s : cstring) :
  get_tok s ":" 16 =
    (match strchr s ":" with Some _ => Some (after ":" s) | None => None end,
     take 15 (before ":" s)).
Proof. unfold get_tok. change (16 - 1) with 15. by rewrite get_tok_loop_spec. Qed.

Lemma strsep_all_before (c : ascii) (s : cstring) :
  strsep_all c s =
    before c s :: match strchr s c with Some _ => strsep_all c (after c s) | None => [] end.
Proof.
  induction s as [|x s IH]; [done|]. cbn [strsep_all strchr before]. unfold after.
  cbn [before]. case_decide as Hx; [done|]. rewrite IH. cbn [length drop]. unfold after.
  by destruct (strchr s c).
Qed.

Lemma after_length (c : ascii) (s : cstring) (k : nat) :
  strchr s c = Some k → (length (after c s) < length s)%nat.
Proof.
  intros Hc. destruct (strchr_before s c k Hc) as (Hk & _). unfold after.
  rewrite length_drop. lia.
Qed.

(** One turn of the loop accepts exactly the names of RSA algorithms. *)
Lemma get_algo_mask_loop_spec (fuel : nat) (s : cstring) (mask : Z) :
  (length s + 1 < fuel)%nat →
  get_algo_mask_loop fuel (Some s) mask = Done (algo_mask_from mask (algo_tokens s)).
Proof.
  revert s mask. induction fuel as [|fuel IH]; intros s mask Hf; [lia|].
  cbn [get_algo_mask_loop]. rewrite get_tok_spec. unfold algo_tokens.
  rewrite strsep_all_before. cbn [map]. set (tok := take 15 (before ":" s)).
  unfold algo_mask_from. cbn [forallb fold_left map]. unfold rsa_name at 1.
  destruct (Z.ltb_spec (cjwt_alg_str_to_enum tok) 0);
    [by rewrite bool_decide_eq_false_2 by lia|].
  destruct (Z.leb_spec num_algorithms (cjwt_alg_str_to_enum tok));
    [by rewrite bool_decide_eq_false_2 by lia|].
  rewrite bool_decide_eq_true_2 by lia. cbn [orb andb].
  destruct (cjwt_alg_str_to_enum tok =? alg_none); [done|]. cbn [negb andb].
  rewrite land_one_bit by done.
  destruct (Z.testbit rsa_algorithms (cjwt_alg_str_to_enum tok)); [|done].
  pose proof (shiftl_one_pos (cjwt_alg_str_to_enum tok)).
  destruct (Z.eqb_spec 0 (Z.shiftl 1 (cjwt_alg_str_to_enum tok))); [lia|]. cbn [andb].
  destruct (strchr s ":") as [k|] eqn:Hk.
  - rewrite IH by (pose proof (after_length _ _ _ Hk); lia). done.
  - destruct fuel; [lia|done].
Qed.

Lemma rsa_algorithms_log2 : Z.log2 rsa_algorithms <= 30 /\ 0 <= rsa_algorithms.
Proof.
  pose proof cjwt_num. pose proof cjwt_rs256. pose proof cjwt_rs384. pose proof cjwt_rs512.
  unfold rsa_algorithms. rewrite !Z.shiftl_1_l.
  rewrite !Z.lor_nonneg. rewrite !Z.log2_lor, !Z.log2_pow2 by
    (rewrite ?Z.lor_nonneg; repeat split; try apply Z.pow_nonneg; lia).
  repeat split; try apply Z.pow_nonneg; lia.
Qed.

Lemma rsa_mask_lor (mask a : Z) :
  mask = 0 \/ rsa_mask mask → 0 <= a → Z.testbit rsa_algorithms a = true →
  rsa_mask (Z.lor mask (Z.shiftl 1 a)).
Proof.
  intros Hm Ha Hbit.
  assert (Hnn : 0 <= mask) by (unfold rsa_mask in Hm; lia).
  assert (Hsub : Z.land (Z.lor mask (Z.shiftl 1 a)) rsa_algorithms = Z.lor mask (Z.shiftl 1 a)).
  { rewrite Z.land_lor_distr_l, land_one_bit, Hbit by done. f_equal.
    destruct Hm as [->|[_ ?]]; [apply Z.land_0_l|done]. }
  pose proof (shiftl_one_pos a Ha). destruct rsa_algorithms_log2 as [Hlog Hr].
  assert (Hpos : 0 < Z.lor mask (Z.shiftl 1 a)).
  { assert (0 <= Z.lor mask (Z.shiftl 1 a)) by (apply Z.lor_nonneg; lia).
    destruct (Z.eq_dec (Z.lor mask (Z.shiftl 1 a)) 0) as [He|]; [|lia].
    apply Z.lor_eq_0_iff in He. lia. }
  split; [|done]. split; [done|]. apply Z.log2_lt_cancel. rewrite Z.log2_pow2 by lia.
  rewrite <-Hsub. pose proof (Z.log2_land (Z.lor mask (Z.shiftl 1 a)) rsa_algorithms). lia.
Qed.

Lemma algo_mask_from_rsa (toks : list cstring) (mask : Z) :
  toks ≠ [] \/ rsa_mask mask → mask = 0 \/ rsa_mask mask →
  forallb rsa_name toks = true → rsa_mask (fold_left Z.lor (map algo_bit toks) mask).
Proof.
  revert mask. induction toks as [|tok toks IH]; intros mask Hne Hm; [by destruct Hne|].
  cbn [forallb map fold_left]. rewrite andb_true_iff. intros [Ht Hts].
  unfold rsa_name in Ht. rewrite !andb_true_iff, bool_decide_eq_true in Ht.
  destruct Ht as [[Hr _] Hbit].
  assert (rsa_mask (Z.lor mask (algo_bit tok))) by (apply rsa_mask_lor; [done|lia|done]).
  apply IH; auto.
Qed.

Lemma get_algo_mask_cases (s : cstring) :
  get_algo_mask s = Done (algo_mask_from 0 (algo_tokens s)) /\
  (algo_mask_from 0 (algo_tokens s) = UINT_ERR \/ rsa_mask (algo_mask_from 0 (algo_tokens s))).
Proof.
  split; [unfold get_algo_mask; apply get_algo_mask_loop_spec; lia|].
  unfold algo_mask_from. destruct (forallb _ _) eqn:Hall; [right|by left].
  apply algo_mask_from_rsa; [left|by left|done].
  unfold algo_tokens. by rewrite strsep_all_before.
Qed.
End algo_spec.

(** ** Well-formed configurations *)

(** The character arrays of the structure with their sizes. *)
Definition cfg_arrays (cfg : ParodusCfg) : list (cstring * nat) := [
  (hw_model cfg, 64); (hw_serial_number cfg, 64); (hw_manufacturer cfg, 64);
  (hw_mac cfg, 64); (hw_last_reboot_reason cfg, 128); (fw_name cfg, 64);
  (webpa_url cfg, 124); (webpa_path_url cfg, 124); (webpa_interface_used cfg, 16);
  (webpa_protocol cfg, 32); (webpa_uuid cfg, 64); (local_url cfg, 124);
  (partner_id cfg, 64); (seshat_url cfg, 128); (dns_txt_url cfg, 64);
  (cert_path cfg, 64); (webpa_auth_token cfg, 4096)]%nat.

Definition fits (a : cstring * nat) : Prop := cstring_ok (fst a) /\ (length (fst a) < snd a)%nat.
Definition cfg_wf (cfg : ParodusCfg) : Prop :=
  Forall fits (cfg_arrays cfg) /\ (length (jwt_key cfg) <= 4096)%nat.

#[export] Instance fits_dec (a : cstring * nat) : Decision (fits a).
Proof. unfold fits. apply _. Defined.
#[export] Instance cfg_wf_dec (cfg : ParodusCfg) : Decision (cfg_wf cfg).
Proof. unfold cfg_wf. apply _. Defined.

Lemma fits_copy (s : cstring) (n : nat) :
  cstring_ok s → (0 < n)%nat → fits (parStrncpy s n, n).
Proof.
  intros. split; [by apply cstring_ok_take|]. simpl. unfold parStrncpy. rewrite length_take. lia.
Qed.

Lemma fits_nil (n : nat) : (0 < n)%nat → fits ([], n).
Proof. intros. split; [apply not_elem_of_nil|done]. Qed.

Lemma fits_copy_if (src dst : cstring) (n : nat) :
  fits (src, n) → fits (dst, n) → fits (copy_if src dst n, n).
Proof.
  intros [Hs Hl] Hd. unfold copy_if. destruct (negb _); [|done].
  simpl in *. apply fits_copy; [done|lia].
Qed.

Lemma copy_not_colon_facts (s : cstring) :
  Z.of_nat (length (copy_not_colon s)) = count_not_colon s /\
  copy_not_colon s = @filter ascii (list ascii) _ (λ c, c ≠ ":"%char) _ s.
Proof.
  induction s as [|c s [IH1 IH2]]; [done|]. cbn [copy_not_colon count_not_colon].
  rewrite filter_cons. case_decide as Hc; case_decide; simpl length; try done;
    (split; [lia|congruence]).
Qed.

Lemma copy_not_colon_ok (s : cstring) : cstring_ok s → cstring_ok (copy_not_colon s).
Proof.
  destruct (copy_not_colon_facts s) as [_ ->]. unfold cstring_ok.
  rewrite list_elem_of_filter. tauto.
Qed.

Create HintDb config.
#[export] Hint Resolve fits_copy fits_nil fits_copy_if copy_not_colon_ok : config.
#[export] Hint Extern 1 (_ < _)%nat => lia : config.

(** The state of the option loop: sizes, and what has been checked already. *)
Definition option_inv `{Cjwt} (cfg : ParodusCfg) : Prop :=
  cfg_wf cfg /\
  (webpa_url cfg = [] \/ server_is_http (webpa_url cfg) ≠ None) /\
  (jwt_algo cfg = 0 \/ rsa_mask (jwt_algo cfg)).

Definition event_ok (e : opt_event) : Prop :=
  match snd e with Some a => cstring_ok a | None => True end.

Ltac cfg_wf_split H :=
  let Hk := fresh "Hkey" in
  destruct H as [H Hk]; cbv beta iota delta [cfg_arrays] in H;
  repeat (apply Forall_cons in H as [? H]).
Ltac cfg_cbv :=
  cbv [cfg_arrays over hw_model hw_serial_number hw_manufacturer hw_mac
       hw_last_reboot_reason fw_name boot_time webpa_ping_timeout webpa_url webpa_path_url
       webpa_backoff_max webpa_interface_used webpa_protocol webpa_uuid flags local_url
       partner_id seshat_url dns_txt_url acquire_jwt jwt_algo jwt_key cert_path
       webpa_auth_token client_cert_path token_server_url connection_health_file
       close_reason_file mtls_client_key_path mtls_client_cert_path crud_config_file
       cloud_status cloud_disconnect boot_retry_wait].
Ltac cfg_wf_solve :=
  unfold cfg_wf; cfg_cbv; split; [repeat apply Forall_cons_2|]; try assumption;
  try apply Forall_nil_2; try (auto with config; fail); try (simpl; lia).

Lemma cfg_wf_zero : cfg_wf cfg_zero.
Proof. by_eval. Qed.

Lemma clear_cmdline_cfg_inv `{Cjwt} (cfg : ParodusCfg) :
  cfg_wf cfg → option_inv (clear_cmdline_cfg cfg).
Proof.
  intros Hw. split; [|split; by left]. destruct cfg. unfold clear_cmdline_cfg.
  cfg_wf_split Hw. cfg_wf_solve.
Qed.

Section command_line_facts.
Context `{CjwtLaws} (file_bytes : cstring → option (list ascii)).

Lemma read_key_bound (file : option (list ascii)) (buf key : list ascii) :
  (length buf <= 4096)%nat → read_key_from_file file buf 4096 = Some key →
  (length key <= 4096)%nat.
Proof.
  unfold read_key_from_file. destruct file as [bytes|]; [|done]. intros Hb [= <-].
  rewrite length_app, length_drop, length_take. lia.
Qed.

(** Every option but [-u] and [-a] leaves the checked fields alone. *)
Lemma option_inv_same (cfg cfg' : ParodusCfg) :
  option_inv cfg → cfg_wf cfg' →
  webpa_url cfg' = webpa_url cfg → jwt_algo cfg' = jwt_algo cfg → option_inv cfg'.
Proof. intros (_ & Hu & Hj) Hw E1 E2. unfold option_inv. by rewrite E1, E2. Qed.

Lemma handle_option_with_ok (c : ascii) (a : cstring) (cfg : ParodusCfg) :
  cstring_ok a → option_inv cfg →
  match handle_option_with file_bytes c a cfg with
  | Done (opt_next cfg') => option_inv cfg'
  | Done (opt_return rv cfg') => rv = -1 /\ cfg_wf cfg'
  | Done opt_abort => True
  | _ => False
  end.
Proof.
  intros Ha Hi. pose proof Hi as (Hw & Hu & Hj). pose proof (proj2 Hw) as Hkey.
  unfold handle_option_with.
  assert (Hmac : fits (copy_not_colon a, 64%nat) \/ fst (parse_mac_address (hw_mac cfg) a) ≠ 0).
  { unfold parse_mac_address. destruct (Z.eqb_spec (count_not_colon a) 12); [left|by right].
    pose proof (proj1 (copy_not_colon_facts a)). split; [by apply copy_not_colon_ok|simpl; lia]. }
  destruct (get_algo_mask_cases a) as [Hmask Hrsa].
  cfg_wf_split Hw.
  repeat match goal with |- context [decide (c = ?x)] => destruct (decide (c = x)) as [_|_] end;
    cbn [mbind outcome_bind]; try rewrite Hmask; cbn [mbind outcome_bind];
    repeat match goal with
           | |- context [parse_mac_address _ _] =>
               unfold parse_mac_address in *; destruct (negb (count_not_colon a =? 12)); cbn
           | |- context [read_key_from_file ?f ?k ?n] =>
               let E := fresh "E" in destruct (read_key_from_file f k n) eqn:E;
               [apply read_key_bound in E; [|done]|done]
           | |- context [server_is_http ?u] => let E := fresh "E" in destruct (server_is_http u) eqn:E
           | |- context [?n =? UINT_ERR] => destruct (Z.eqb_spec n UINT_ERR)
           end;
    try (split; [done|]); try (eapply option_inv_same; [done| |done|done]);
    try (cfg_wf_solve; fail).
  - destruct Hmac as [Hmac|Hmac]; [cfg_wf_solve|done].
  - split; [cfg_wf_solve|]. split; [right|exact Hj].
    match goal with E : server_is_http _ = Some _ |- _ =>
      change (server_is_http (parStrncpy a 124) ≠ None);
      rewrite (E : server_is_http (parStrncpy a 124) = _) end. done.
  - split; [cfg_wf_solve|]. split; [exact Hu|]. right. by destruct Hrsa.
Qed.

Lemma long_event_arg (e : opt_event) :
  long_event e → (∃ a, snd e = Some a) \/ fst e = "4"%char \/ fst e = "6"%char.
Proof.
  assert (Hall : Forall (λ o, snd (fst o) = true \/ snd o = "4"%char \/ snd o = "6"%char) long_options)
    by by_eval.
  intros (name & has_arg & Hin & Harg). rewrite Forall_forall in Hall. apply Hall in Hin.
  destruct has_arg; [by left|]. right. by destruct Hin.
Qed.

Lemma handle_option_ok (e : opt_event) (cfg : ParodusCfg) :
  long_event e → event_ok e → option_inv cfg →
  match handle_option file_bytes e cfg with
  | Done (opt_next cfg') => option_inv cfg'
  | Done (opt_return rv cfg') => rv = -1 /\ cfg_wf cfg'
  | Done opt_abort => True
  | _ => False
  end.
Proof.
  intros Hl Ha Hi. pose proof Hi as (Hw & Hu & Hj). pose proof (long_event_arg e Hl) as Harg.
  destruct e as [c optarg]. unfold handle_option. simpl in *.
  case_decide; [|case_decide; [|case_decide; [done|]]];
    try (eapply option_inv_same; [done| |done|done]; cfg_wf_split Hw; cfg_wf_solve).
  destruct Harg as [[a ->]|[|]]; [|done|done]. by apply handle_option_with_ok.
Qed.

Lemma option_loop_ok (events : list opt_event) (cfg : ParodusCfg) :
  Forall (λ e, long_event e /\ event_ok e) events → option_inv cfg →
  match option_loop file_bytes events cfg with
  | Done (opt_next cfg') => option_inv cfg'
  | Done (opt_return rv cfg') => rv = -1 /\ cfg_wf cfg'
  | Done opt_abort => True
  | _ => False
  end.
Proof.
  intros Hev. revert cfg. induction Hev as [|e events [He Ha] _ IH]; intros cfg Hi; [done|].
  cbn [option_loop]. pose proof (handle_option_ok e cfg He Ha Hi) as Hstep.
  destruct (handle_option file_bytes e cfg) as [[cfg'|rv cfg'|]| |]; try done. by apply IH.
Qed.

(** The whole array is the key, without a NUL. *)
Definition key_unterminated (cfg : ParodusCfg) : Prop := length (cstr (jwt_key cfg)) = 4096%nat.

Lemma key_text_cases (cfg : ParodusCfg) :
  cfg_wf cfg →
  (key_text cfg = Undef /\ key_unterminated cfg) \/ (key_text cfg = Done (cstr (jwt_key cfg)) /\ ~ key_unterminated cfg).
Proof.
  intros [_ Hk]. unfold key_text, key_unterminated.
  destruct (Nat.ltb_spec (length (cstr (jwt_key cfg))) 4096); [right; split; [done|lia]|left].
  split; [done|]. pose proof (before_length NUL (jwt_key cfg)) as Hl. unfold cstr in *. lia.
Qed.

Lemma check_required_ok (cfg : ParodusCfg) :
  option_inv cfg →
  match check_required cfg with
  | Done rv => rv = -1 \/ rv = 0 /\ server_is_http (webpa_url cfg) ≠ None /\
      (acquire_jwt cfg ≠ 0 → rsa_mask (jwt_algo cfg) /\ cstr (jwt_key cfg) ≠ [] /\ ~ key_unterminated cfg)
  | Undef => acquire_jwt cfg ≠ 0 /\ key_unterminated cfg
  | NoFuel => False
  end.
Proof.
  intros (Hw & Hu & Hj). unfold check_required.
  destruct (Nat.eqb_spec (length (webpa_url cfg)) 0) as [|Hne]; [by left|].
  destruct Hu as [Hu|Hu]; [by rewrite Hu in Hne|].
  destruct (Z.eqb_spec (acquire_jwt cfg) 0); cbn [negb]; [right; naive_solver|].
  destruct (Z.eqb_spec 0 (jwt_algo cfg)); [by left|].
  destruct Hj as [Hj|Hj]; [congruence|]. pose proof Hj as [Hpos Hsub]. rewrite Hsub.
  destruct (Z.eqb_spec 0 (jwt_algo cfg)); [lia|]. cbn [negb].
  destruct (key_text_cases cfg Hw) as [[-> Hk]|[-> Hk]]; cbn [mbind outcome_bind]; [done|].
  destruct (Nat.eqb_spec (length (cstr (jwt_key cfg))) 0) as [|Hkey]; [by left|].
  right. split; [done|]. split; [done|]. intros _. split; [done|]. split; [|done].
  intros Hnil. by rewrite Hnil in Hkey.
Qed.
End command_line_facts.

(** ** Copying a configuration *)

Lemma protocol_string_fits (tag : cstring) : cstring_ok tag → fits (protocol_string tag, 32%nat).
Proof.
  intros Ht. split; [|simpl; unfold protocol_string; rewrite length_take; lia].
  unfold protocol_string. apply cstring_ok_take. rewrite !cstring_ok_app.
  split; [by_eval|]. by split; [by_eval|].
Qed.

Lemma loadParodusCfg_sizes (tag : cstring) (config cfg : ParodusCfg) :
  cstring_ok tag → cfg_wf config → cfg_wf cfg → cfg_wf (loadParodusCfg tag (Some config) cfg).
Proof.
  intros Ht Hw Hw'. pose proof (protocol_string_fits tag Ht).
  pose proof (fits_copy PARODUS_UPSTREAM 124 ltac:(by_eval) ltac:(lia)).
  pose proof (fits_copy DNS_TXT_URL 64 ltac:(by_eval) ltac:(lia)).
  pose proof (fits_copy WEBPA_PATH_URL 124 ltac:(by_eval) ltac:(lia)).
  pose proof (fits_copy "1234567-345456546" 64 ltac:(by_eval) ltac:(lia)).
  pose proof (fits_nil 64 ltac:(lia)).
  assert (length (parStrncpy (cstr (jwt_key config)) 4096) <= 4096)%nat
    by (unfold parStrncpy; rewrite length_take; lia).
  destruct config, cfg. unfold loadParodusCfg. cfg_wf_split Hw. cfg_wf_split Hw'. 
  cfg_wf_solve.
Qed.

(** ** Concrete inputs for the witnesses *)

Definition url_memory_filled (n : nat) (c : ascii) : url_memory := {|
  heap_buf := Some (replicate (S n) c); heap_next := c; stack_buf := replicate 8 c |}.

Definition cjwt_example : Cjwt := {|
  cjwt_alg_str_to_enum := λ s,
    if streq s "none" then 0 else if streq s "RS256" then 8
    else if streq s "RS384" then 9 else if streq s "RS512" then 10 else -1;
  alg_none := 0; alg_rs256 := 8; alg_rs384 := 9; alg_rs512 := 10; num_algorithms := 11 |}.
Lemma cjwt_example_laws : @CjwtLaws cjwt_example.
Proof. split; simpl; lia. Qed.

(** ** Properties *)

(** C23. Parsing a URL is a function of the URL alone: whatever the freshly
    allocated block, the byte behind it and the stack buffer hold, the result is the
    one of the specification on strings; it is either a failure that leaves no server
    address, or a scheme flag 0 or 1 with a port between 1 and 65535. *)
Theorem parse_webpa_url_refines (m : url_memory) (full_url : cstring)
    (Hok : cstring_ok full_url) (Hm : url_memory_ok full_url m) :
  parse_webpa_url m full_url = url_spec full_url /\
  (parse_webpa_url m full_url = (-1, None, None) \/
   ∃ rv server port, parse_webpa_url m full_url = (rv, Some server, Some port) /\
     (rv = 0 \/ rv = 1) /\ 0 < port <= 65535).
Proof.
  rewrite parse_webpa_url_spec by done. split; [done|]. unfold url_spec.
  destruct (split_url full_url) as [[[http host] port]|] eqn:Hsplit; [|by left].
  set (p := parse_num_arg _).
  assert (0 <= p) by (unfold p; rewrite parse_num_arg_value; case_match; apply u32_range).
  destruct (Z.eqb_spec p UINT_ERR), (Z.eqb_spec p 0), (Z.ltb_spec 65535 p); simpl; try by left.
  right. exists http, host, p. split; [done|]. split; [by eapply split_url_http|lia].
Qed.

Example parse_webpa_url_refines_witness :
  parse_webpa_url (url_memory_filled 30 "x"%char) "https://[::ffff:10.0.0.1]:8080" =
    (0, Some ("::ffff:10.0.0.1"%cs), Some 8080).
Proof.
  rewrite (proj1 (parse_webpa_url_refines (url_memory_filled 30 "x"%char)
    "https://[::ffff:10.0.0.1]:8080" ltac:(by_eval) ltac:(split; reflexivity))).
  vm_compute. reflexivity.
Defined.

(** A URL built from a scheme, a host (in brackets or not), an optional port
    and a path is parsed back to that scheme, host and port; without a port the
    port is the scheme's default. *)
Theorem parse_build_url (m : url_memory) (http bracketed : bool) (host path : cstring)
    (port : option Z)
    (Hhost : host_ok bracketed host) (Hpath : path_ok path) (Hport : port_ok port)
    (Hok : cstring_ok (build_url http bracketed host port path))
    (Hm : url_memory_ok (build_url http bracketed host port path) m) :
  parse_webpa_url m (build_url http bracketed host port path) =
    (Z.b2z http, Some host, Some (default (if http then 80 else 443) port)).
Proof.
  rewrite parse_webpa_url_spec by done. unfold url_spec.
  destruct (split_url_build http bracketed host path port Hhost Hpath Hport) as (path' & Hp' & ->).
  rewrite (port_of_tail http port path' Hport Hp').
  destruct port as [p|]; simpl in *.
  - assert (UINT_ERR = 4294967295) by reflexivity.
    destruct (Z.eqb_spec p UINT_ERR), (Z.eqb_spec p 0), (Z.ltb_spec 65535 p); done || lia.
  - by destruct http.
Qed.

Example parse_build_url_witness :
  parse_webpa_url (url_memory_filled 31 "x"%char)
    (build_url true true "2001:db8::1" (Some 65535) "/api/") =
    (1, Some ("2001:db8::1"%cs), Some 65535).
Proof.
  apply (parse_build_url (url_memory_filled 31 "x"%char) true true "2001:db8::1" "/api/" (Some 65535)).
  - split; [by_eval|]. split; [by_eval|done].
  - split; [by right|]. split; [by_eval|]. split; by_eval.
  - simpl. lia.
  - by_eval.
  - split; reflexivity.
Defined.

(** [parse_num_arg] accepts exactly the non-empty strings of decimal digits,
    and its value is the number modulo 2^32; printing an [unsigned int] and parsing
    it back is the identity. *)
Theorem parse_num_arg_wraps (s : cstring) :
  (s ≠ [] → forallb isdigit s = true → parse_num_arg s = dec_value s mod 2 ^ 32) /\
  (s = [] \/ forallb isdigit s = false → parse_num_arg s = UINT_ERR) /\
  (∀ n, uint_range n → parse_num_arg (print_dec n) = n).
Proof.
  split; [|split].
  - intros Hne Hd. rewrite parse_num_arg_value, Hd. by destruct s.
  - intros [->|Hd]; [done|]. rewrite parse_num_arg_value, Hd. by rewrite andb_false_r.
  - apply parse_print_dec.
Qed.

(** A MAC address is accepted exactly when it has twelve characters other than
    colons; the target then holds those twelve in order, which fit its 64 bytes, and
    otherwise it is left alone. *)
Theorem parse_mac_address_correct (target arg : cstring) :
  let digits := @filter ascii (list ascii) _ (λ c, c ≠ ":"%char) _ arg in
  parse_mac_address target arg =
    if bool_decide (length digits = 12%nat) then (0, digits) else (-1, target).
Proof.
  cbn zeta. unfold parse_mac_address. destruct (copy_not_colon_facts arg) as [Hc <-].
  destruct (Z.eqb_spec (count_not_colon arg) 12).
  - by rewrite bool_decide_eq_true_2 by lia.
  - by rewrite bool_decide_eq_false_2 by lia.
Qed.

(** [get_algo_mask] terminates on every list; its result is [UINT_ERR] unless
    every name, cut to 15 characters, is the one of an RSA algorithm, and is then the
    union of their bits, a non-empty subset of [rsa_algorithms]. *)
Theorem get_algo_mask_correct `{CjwtLaws} (algo_str : cstring) :
  get_algo_mask algo_str = Done (algo_mask_from 0 (algo_tokens algo_str)) /\
  (forallb rsa_name (algo_tokens algo_str) = true →
     rsa_mask (algo_mask_from 0 (algo_tokens algo_str)) /\
     algo_mask_from 0 (algo_tokens algo_str) =
       fold_left Z.lor (map algo_bit (algo_tokens algo_str)) 0) /\
  (forallb rsa_name (algo_tokens algo_str) = false →
     algo_mask_from 0 (algo_tokens algo_str) = UINT_ERR).
Proof.
  destruct (get_algo_mask_cases algo_str) as [-> Hr]. split; [done|].
  split; intros Hall; unfold algo_mask_from in *; rewrite Hall in *; [|done].
  split; [|done]. apply algo_mask_from_rsa; [left|by left|done].
  unfold algo_tokens. by rewrite strsep_all_before.
Qed.

Example get_algo_mask_correct_witness :
  @get_algo_mask cjwt_example "RS256:RS512" = Done 1280 /\ @rsa_mask cjwt_example 1280.
Proof.
  pose proof (@get_algo_mask_correct cjwt_example cjwt_example_laws "RS256:RS512") as (H1 & H2 & _).
  split; [exact H1|]. exact (proj1 (H2 ltac:(vm_compute; reflexivity))).
Defined.



(** A key file of 4096 bytes: the length of the key is taken beyond its array. *)
Example key_overread :
  let key_file := λ _ : cstring, Some (replicate (Z.to_nat 4096) "k"%char) in
  @parseCommandLine cjwt_example key_file [("u"%char, Some ("https://a.example"%cs)); ("j"%char, Some ("1"%cs));
      ("a"%char, Some ("RS256"%cs)); ("k"%char, Some ("key.pem"%cs))] cfg_zero = Undef.
Proof. vm_compute. reflexivity. Qed.

(** The short option string gives [-M] no argument, so that using it
    duplicates a null pointer. *)
Theorem short_option_M_undefined `{Cjwt} (file_bytes : cstring → option (list ascii))
    (arg : option cstring) (cfg : ParodusCfg) (He : short_event ("M"%char, arg)) :
  parseCommandLine file_bytes [("M"%char, arg)] cfg = Undef.
Proof. unfold short_event in He. simpl in He. by rewrite He. Qed.

Example short_option_M_undefined_witness :
  short_event ("M"%char, None) /\
  @parseCommandLine cjwt_example (λ _, None) [("M"%char, None)] cfg_zero = Undef.
Proof.
  assert (short_event ("M"%char, None)) by reflexivity.
  split; [done|]. by apply short_option_M_undefined.
Defined.

(** Copying a configuration keeps every string within its array; every
    non-empty string and the numbers the copy covers come from the source, while
    [boot_retry_wait], the flags and the mTLS paths keep their old values. *)
Theorem loadParodusCfg_copies (tag : cstring) (config cfg : ParodusCfg)
    (Ht : cstring_ok tag) (Hc : cfg_wf config) (Hw : cfg_wf cfg) :
  let cfg' := loadParodusCfg tag (Some config) cfg in
  cfg_wf cfg' /\
  (∀ src dst, (src, dst) ∈ [(hw_model config, hw_model cfg'); (hw_mac config, hw_mac cfg');
      (hw_serial_number config, hw_serial_number cfg');
      (hw_manufacturer config, hw_manufacturer cfg'); (fw_name config, fw_name cfg');
      (hw_last_reboot_reason config, hw_last_reboot_reason cfg');
      (webpa_url config, webpa_url cfg'); (local_url config, local_url cfg');
      (webpa_interface_used config, webpa_interface_used cfg');
      (partner_id config, partner_id cfg'); (seshat_url config, seshat_url cfg');
      (dns_txt_url config, dns_txt_url cfg'); (cert_path config, cert_path cfg')] →
   src ≠ [] → dst = src) /\
  boot_time cfg' = boot_time config /\ webpa_ping_timeout cfg' = webpa_ping_timeout config /\
  webpa_backoff_max cfg' = webpa_backoff_max config /\ acquire_jwt cfg' = acquire_jwt config /\
  jwt_algo cfg' = jwt_algo config /\
  boot_retry_wait cfg' = boot_retry_wait cfg /\ flags cfg' = flags cfg /\
  mtls_client_key_path cfg' = mtls_client_key_path cfg /\
  mtls_client_cert_path cfg' = mtls_client_cert_path cfg.
Proof.
  cbn zeta. split; [by apply loadParodusCfg_sizes|]. split; [|repeat split].
  assert (Hcopy : ∀ src dst n, fits (src, n) → src ≠ [] → copy_if src dst n = src).
  { intros src dst n [_ Hl] Hne. unfold copy_if, parStrncpy. destruct src; [done|].
    cbn [length Nat.eqb negb]. apply take_ge. simpl in *. lia. }
  cfg_wf_split Hc. intros src dst Hin Hne.
  repeat (apply elem_of_cons in Hin as [[= -> ->]|Hin]; [by apply Hcopy|]).
  by apply elem_of_nil in Hin.
Qed.

Example loadParodusCfg_copies_witness :
  let config := cfg_zero <| hw_mac := "14cfe2142xxx"%cs |> <| boot_time := 77 |> in
  cfg_wf (loadParodusCfg "v1" (Some config) cfg_zero) /\
  boot_time (loadParodusCfg "v1" (Some config) cfg_zero) = 77.
Proof.
  destruct (loadParodusCfg_copies "v1" (cfg_zero <| hw_mac := "14cfe2142xxx"%cs |> <| boot_time := 77 |>)
    cfg_zero) as (Hwf & _ & Hb & _); [by_eval|by_eval|by_eval|].
  split; [exact Hwf|exact Hb].
Defined.
