(* ===== verification/Wrp.v ===== *)
(** * WRP messages and the libraries that encode them

    The message type of wrp-c as the code uses it: the union is an inductive type
    whose constructor is the [msg_type], so that [u.crud] of a message of another
    type, which the code does read, is a view the library's layout gives
    ([crud_view]). Encoding, decoding and the questions the code asks the library are
    the members of the class [WrpLib]; strings are never NULL inside the lists of
    partner ids, headers and metadata. *)

From S2P Require Import Prelude.

Definition bytes : Set := list ascii.

Record data_item : Set := mk_data { data_name : option cstring; data_value : option cstring }.

(** [struct wrp_req_msg] *)
Record wrp_req : Set := mk_req {
  req_transaction_uuid : option cstring;
  req_content_type : option cstring;
  req_source : option cstring;
  req_dest : option cstring;
  req_partner_ids : option (list cstring);
  req_payload : option bytes;
  req_payload_size : Z
}.
#[export] Instance wrp_req_settable : Settable wrp_req := λ r, mk_req
  (req_transaction_uuid r) (req_content_type r) (req_source r) (req_dest r)
  (req_partner_ids r) (req_payload r) (req_payload_size r).

(** [struct wrp_event_msg] *)
Record wrp_event : Set := mk_event {
  ev_content_type : option cstring;
  ev_source : option cstring;
  ev_dest : option cstring;
  ev_partner_ids : option (list cstring);
  ev_headers : option (list cstring);
  ev_metadata : option (list data_item);
  ev_payload : option bytes;
  ev_payload_size : Z
}.
#[export] Instance wrp_event_settable : Settable wrp_event := λ r, mk_event
  (ev_content_type r) (ev_source r) (ev_dest r) (ev_partner_ids r) (ev_headers r)
  (ev_metadata r) (ev_payload r) (ev_payload_size r).

(** [struct wrp_crud_msg]; the time spans are not supported by the code. *)
Record wrp_crud : Set := mk_crud {
  crud_transaction_uuid : option cstring;
  crud_content_type : option cstring;
  crud_source : option cstring;
  crud_dest : option cstring;
  crud_partner_ids : option (list cstring);
  crud_headers : option (list cstring);
  crud_metadata : option (list data_item);
  crud_include_spans : bool;
  crud_status : Z;
  crud_rdr : Z;
  crud_payload : option bytes;
  crud_payload_size : Z;
  crud_path : option cstring
}.
#[export] Instance wrp_crud_settable : Settable wrp_crud := λ r, mk_crud
  (crud_transaction_uuid r) (crud_content_type r) (crud_source r) (crud_dest r)
  (crud_partner_ids r) (crud_headers r) (crud_metadata r) (crud_include_spans r)
  (crud_status r) (crud_rdr r) (crud_payload r) (crud_payload_size r) (crud_path r).

(** [memset (msg, 0, sizeof (wrp_msg_t))] *)
Definition crud_zero : wrp_crud :=
  mk_crud None None None None None None None false 0 0 None 0 None.
Definition req_zero : wrp_req := mk_req None None None None None None 0.

Record wrp_reg : Set := mk_reg { reg_service_name : cstring; reg_url : cstring }.

Inductive crud_op : Set := CREATE | RETREIVE | UPDATE | DELETE.
#[export] Instance crud_op_eq_dec : EqDecision crud_op.
Proof. solve_decision. Defined.

Inductive wrp_msg_t : Set :=
| WRP_AUTH (status : Z)
| WRP_REQ (r : wrp_req)
| WRP_EVENT (e : wrp_event)
| WRP_CRUD (op : crud_op) (c : wrp_crud)
| WRP_SVC_REGISTRATION (r : wrp_reg)
| WRP_SVC_ALIVE
| WRP_UNKNOWN.

(** The library: decoding gives [None] when it returns 0 or less, encoding gives
    [None] when it returns a negative size. *)
Class WrpLib : Set := {
  wrp_to_struct : bytes → option wrp_msg_t;
  wrp_struct_to : wrp_msg_t → option bytes;
  (* [u.crud] of any message, as the union is laid out *)
  crud_view : wrp_msg_t → wrp_crud;
  (* a zeroed message of the same [msg_type] after its [u.crud] has been filled *)
  set_crud : wrp_msg_t → wrp_crud → wrp_msg_t;
  (* the elements of an id, in their order *)
  WRP_ID_ELEMENT__SERVICE : nat;
  WRP_ID_ELEMENT__APPLICATION : nat;
  (* [wrp_get_msg_element (element, msg, DEST)] *)
  wrp_get_msg_element : nat → wrp_msg_t → option cstring;
  (* [wrp_does_service_match (service, id) == 0] *)
  wrp_does_service_match : cstring → cstring → bool;
  (* the result, as a [size_t], and the block it stores *)
  wrp_pack_metadata : list (cstring * option cstring) → Z * option bytes;
  appendEncodedData : bytes → option bytes → Z → bytes
}.

Class WrpLaws `{WrpLib} : Prop := {
  element_service : WRP_ID_ELEMENT__SERVICE = 2%nat;
  element_application : WRP_ID_ELEMENT__APPLICATION = 3%nat;
  set_crud_crud : ∀ op c c', set_crud (WRP_CRUD op c) c' = WRP_CRUD op c';
  crud_view_set : ∀ m c, crud_view (set_crud m c) = c;
  crud_view_crud : ∀ op c, crud_view (WRP_CRUD op c) = c
}.

Definition wrp_service_of_dest `{WrpLib} (msg : wrp_msg_t) : option cstring :=
  wrp_get_msg_element WRP_ID_ELEMENT__SERVICE msg.
