(* ===== verification/Partners.v ===== *)
(** * partners_check.c

    [validate_partner_id] on the configured [partner_id] string. The out parameter
    is [None] when the caller passes NULL; writing through it is then undefined. *)

From S2P Require Import Prelude StringHelpers Wrp.
Local Open Scope cs_scope.
Local Open Scope Z_scope.

(** [parse_partner_id]: the texts between commas. *)
Definition parse_partner_id (partnerId : cstring) : list cstring := strsep_all ","%char partnerId.

(** The two nested loops: does an id of the message match a configured one? *)
Fixpoint match_one (partnersList : list cstring) (id : cstring) : bool :=
  match partnersList with
  | [] => false
  | p :: rest => if strcaseeq p id then true else match_one rest id
  end.
Fixpoint match_event (partnersList ids : list cstring) : bool :=
  match ids with
  | [] => false
  | id :: rest => if match_one partnersList id then true else match_event partnersList rest
  end.
(** The loop of the request branch goes on after a match. *)
Fixpoint match_req (partnersList ids : list cstring) (matchFlag : bool) : bool :=
  match ids with
  | [] => matchFlag
  | id :: rest => match_req partnersList rest (matchFlag || match_one partnersList id)
  end.

(** Storing a list through the out parameter. *)
Definition store_partners (out : option (option (list cstring))) (ids : list cstring)
    : outcome (Z * option (option (list cstring))) :=
  match out with
  | None => Undef
  | Some _ => Done (1, Some (Some ids))
  end.

Definition validate_partner_id (partner_id : cstring) (msg : wrp_msg_t)
    (partnerIds : option (option (list cstring)))
    : outcome (Z * option (option (list cstring))) :=
  match partner_id with
  | [] => Done (0, partnerIds)
  | _ =>
      let partnersList := parse_partner_id partner_id in
      let own := map (λ p, parStrncpy p 64) partnersList in
      match msg with
      | WRP_EVENT e =>
          match ev_partner_ids e with
          | Some ids =>
              if match_event partnersList ids then Done (1, partnerIds)
              else store_partners partnerIds (ids ++ own)%list
          | None => store_partners partnerIds own
          end
      | WRP_REQ r =>
          match req_partner_ids r with
          | Some ids => if match_req partnersList ids false then Done (1, partnerIds)
                        else Done (-1, partnerIds)
          | None => Done (1, partnerIds)
          end
      | _ => Done (1, partnerIds)
      end
  end.

(** ** Specification *)

(** Some id of the message is a configured one, up to case. *)
Definition partner_match (partner_id : cstring) (ids : list cstring) : Prop :=
  ∃ p id, p ∈ parse_partner_id partner_id /\ id ∈ ids /\ map to_lower p = map to_lower id.

(** ** Lemmas *)

Lemma match_one_spec (ps : list cstring) (id : cstring) :
  match_one ps id = true ↔ ∃ p, p ∈ ps /\ map to_lower p = map to_lower id.
Proof.
  induction ps as [|p ps IH]; cbn [match_one].
  - split; [done|]. intros (p & Hp & _). by apply elem_of_nil in Hp.
  - unfold strcaseeq. case_bool_decide as Hc.
    + split; [|done]. intros _. exists p. rewrite elem_of_cons. auto.
    + rewrite IH. split.
      * intros (q & Hq & He). exists q. rewrite elem_of_cons. auto.
      * intros (q & Hq & He). apply elem_of_cons in Hq as [->|Hq]; [done|]. by exists q.
Qed.

Lemma match_event_spec (partner_id : cstring) (ids : list cstring) :
  match_event (parse_partner_id partner_id) ids = true ↔ partner_match partner_id ids.
Proof.
  unfold partner_match. induction ids as [|id ids IH]; cbn [match_event].
  - split; [done|]. intros (p & id & _ & Hid & _). by apply elem_of_nil in Hid.
  - destruct (match_one _ id) eqn:Hm.
    + apply match_one_spec in Hm as (p & Hp & He). split; [|done]. intros _.
      exists p, id. rewrite elem_of_cons. auto.
    + rewrite IH. split.
      * intros (p & i & Hp & Hi & He). exists p, i. rewrite elem_of_cons. auto.
      * intros (p & i & Hp & Hi & He). apply elem_of_cons in Hi as [->|Hi]; [|by exists p, i].
        assert (match_one (parse_partner_id partner_id) id = true); [|congruence].
        apply match_one_spec. by exists p.
Qed.

Lemma match_req_event (ps ids : list cstring) (b : bool) :
  match_req ps ids b = b || match_event ps ids.
Proof.
  revert b. induction ids as [|id ids IH]; intros b; cbn [match_req match_event].
  - by rewrite orb_false_r.
  - rewrite IH. destruct (match_one ps id); by destruct b.
Qed.

#[export] Instance partner_match_dec (partner_id : cstring) (ids : list cstring) :
  Decision (partner_match partner_id ids).
Proof.
  destruct (match_event (parse_partner_id partner_id) ids) eqn:Hm.
  - left. by apply match_event_spec.
  - right. intros Hp. apply match_event_spec in Hp. congruence.
Defined.

Lemma match_event_false (partner_id : cstring) (ids : list cstring) :
  match_event (parse_partner_id partner_id) ids = false ↔ ~ partner_match partner_id ids.
Proof. rewrite <-match_event_spec. by rewrite not_true_iff_false. Qed.

(** ** Properties *)

(** C37. With a configured partner id and an out parameter, a request is rejected
    exactly when it has partner ids and none of them is a configured one; an event is
    always accepted, and its list is replaced exactly when none of its ids matches, by
    its own ids followed by every configured one cut to 63 characters; other messages
    pass unchanged. Without a configured partner id nothing is checked. *)
Theorem validate_partner_id_correct (partner_id : cstring) (msg : wrp_msg_t)
    (old : option (list cstring)) :
  let own := map (λ p, parStrncpy p 64) (parse_partner_id partner_id) in
  let accepted := Done (1, Some old) in
  match partner_id, msg with
  | [], _ => validate_partner_id partner_id msg (Some old) = Done (0, Some old)
  | _, WRP_REQ r =>
      ((∃ ids, req_partner_ids r = Some ids /\ ~ partner_match partner_id ids) ↔
         validate_partner_id partner_id msg (Some old) = Done (-1, Some old)) /\
      (validate_partner_id partner_id msg (Some old) = Done (-1, Some old) \/
       validate_partner_id partner_id msg (Some old) = accepted)
  | _, WRP_EVENT e =>
      match ev_partner_ids e with
      | None => validate_partner_id partner_id msg (Some old) = Done (1, Some (Some own))
      | Some ids =>
          validate_partner_id partner_id msg (Some old) =
            if decide (partner_match partner_id ids) then accepted
            else Done (1, Some (Some (ids ++ own)%list))
      end
  | _, _ => validate_partner_id partner_id msg (Some old) = accepted
  end.
Proof.
  cbn zeta. destruct partner_id as [|c partner_id]; [done|].
  set (pid := c :: partner_id). destruct msg as [|r|e|op cr|r| |]; try done; simpl; fold pid.
  - destruct (req_partner_ids r) as [ids|].
    + rewrite match_req_event. simpl. destruct (match_event _ ids) eqn:Hm.
      * apply match_event_spec in Hm. split; [|by right]. split; [|done].
        intros (ids' & [= <-] & Hn). done.
      * apply match_event_false in Hm. split; [|by left]. split; [done|]. intros _. by exists ids.
    + split; [|by right]. split; [|done]. by intros (ids & ? & _).
  - destruct (ev_partner_ids e) as [ids|]; [|done]. destruct (match_event _ ids) eqn:Hm.
    + apply match_event_spec in Hm. by rewrite decide_True.
    + apply match_event_false in Hm. by rewrite decide_False.
Qed.

(** Downstream calls [validate_partner_id] with a NULL out parameter: an event
    whose partner ids do not match a configured one makes it write through NULL,
    while requests and CRUD messages never do. *)
Theorem validate_partner_id_null (partner_id : cstring) (msg : wrp_msg_t)
    (Hp : partner_id ≠ []) :
  validate_partner_id partner_id msg None = Undef ↔
  ∃ e, msg = WRP_EVENT e /\
       match ev_partner_ids e with Some ids => ~ partner_match partner_id ids | None => True end.
Proof.
  destruct partner_id as [|c partner_id]; [done|]. set (pid := c :: partner_id).
  destruct msg as [|r|e|op cr|r| |]; simpl; fold pid;
    try (split; [done|by intros (e & [=] & _)]).
  - destruct (req_partner_ids r); [destruct (match_req _ _ _)|]; (split; [done|by intros (e & [=] & _)]).
  - destruct (ev_partner_ids e) as [ids|] eqn:He; simpl.
    + destruct (match_event _ ids) eqn:Hm.
      * apply match_event_spec in Hm. split; [done|]. intros (e' & [= <-] & Hn). by rewrite He in Hn.
      * apply match_event_false in Hm. split; [|done]. intros _. exists e. by rewrite He.
    + split; [|done]. intros _. exists e. by rewrite He.
Qed.

Example validate_partner_id_null_witness :
  let e := mk_event None None None (Some [ "other"%cs ]) None None None 0 in
  validate_partner_id "comcast" (WRP_EVENT e) None = Undef.
Proof.
  apply (validate_partner_id_null "comcast"); [discriminate|].
  eexists; split; [reflexivity|]. cbn [ev_partner_ids]. by_eval.
Defined.
