(* ===== verification/World.v ===== *)
(** * The state of the process and its calls to the outside

    [World] has one field per file-scoped variable the components share. What leaves
    the process (nanomsg, noPoll, the clock, the resolver, files that others read) is
    a value of [ext]; the answer comes from an oracle that sees the calls made before
    it, and every call is appended to [trace] with its answer. [g_shutdown] and
    [interface_down_event] are set by other threads, so reading them is a call too;
    [g_shutdown] stays set once it has been read as set. *)

From S2P Require Import Prelude Timers Config Wrp.
Local Open Scope cs_scope.

(** ** Names of the values of the device (config.h) *)

Definition HW_MODELNAME : cstring := "hw-model".
Definition HW_SERIALNUMBER : cstring := "hw-serial-number".
Definition HW_MANUFACTURER : cstring := "hw-manufacturer".
Definition HW_DEVICEMAC : cstring := "hw-mac".
Definition HW_LAST_REBOOT_REASON : cstring := "hw-last-reboot-reason".
Definition FIRMWARE_NAME : cstring := "fw-name".
Definition BOOT_TIME : cstring := "boot-time".
Definition WEBPA_PROTOCOL : cstring := "webpa-protocol".
Definition WEBPA_INTERFACE : cstring := "webpa-interface-used".
Definition WEBPA_UUID : cstring := "webpa-uuid".
Definition WEBPA_URL : cstring := "webpa-url".
Definition WEBPA_PING_TIMEOUT : cstring := "webpa-ping-timeout".
Definition WEBPA_BACKOFF_MAX : cstring := "webpa-backoff-max".
Definition CLOUD_STATUS : cstring := "cloud-status".
Definition LAST_RECONNECT_REASON : cstring := "webpa-last-reconnect-reason".
Definition BOOT_RETRY_WAIT : cstring := "boot-time-retry-wait".

Definition noPollConn : Set := Z.

(** A received noPoll message: the frame's payload with its fragment flags. *)
Record noPollMsg : Set := mk_msg {
  msg_payload : option bytes;
  msg_is_fragment : bool;
  msg_is_final : bool;
  msg_opcode : Z
}.

Inductive noPollOpCode : Set := NOPOLL_CONTINUATION_FRAME | NOPOLL_BINARY_FRAME.
#[export] Instance noPollOpCode_eq_dec : EqDecision noPollOpCode.
Proof. solve_decision. Defined.

(** What [createConnOpts] puts into the options of a connection. *)
Record conn_opts : Set := mk_opts {
  opt_secure : bool;
  opt_certs : option (option cstring * option cstring * cstring);
  opt_interface : cstring;
  opt_extra_headers : cstring
}.

Inductive conn_mode : Set := conn_plain | conn_tls4 | conn_tls6.
#[export] Instance conn_mode_eq_dec : EqDecision conn_mode.
Proof. solve_decision. Defined.

(** The callbacks noPoll makes while [nopoll_loop_wait] runs. *)
Inductive conn_event : Set :=
| on_msg (m : noPollMsg)
| on_ping (m : noPollMsg)
| on_close.

(** What [requestNewAuthToken] asks of libcurl: the options that depend on the
    configuration and on the try. *)
Inductive curl_ipresolve : Set := CURL_IPRESOLVE_WHATEVER | CURL_IPRESOLVE_V4 | CURL_IPRESOLVE_V6.
Record curl_opts : Set := mk_curl {
  curl_url : option cstring;
  curl_interface : option cstring;
  curl_resolve : curl_ipresolve;
  curl_sslcert : option cstring;
  curl_cainfo : cstring;
  curl_headers : list cstring
}.

Inductive ext : Set :=
(* nanomsg *)
| nn_socket_push
| nn_setsockopt (sock : Z)
| nn_connect (sock : Z) (url : cstring)
| nn_send (sock : Z) (b : bytes)
| nn_shutdown (sock endpoint : Z)
| nn_close (sock : Z)
| nn_socket_pull
| nn_bind (sock : Z) (url : cstring)
| nn_recv (sock : Z)
(* noPoll *)
| nopoll_new (mode : conn_mode) (opts : conn_opts) (server : option cstring)
    (port url : cstring)
| nopoll_conn_is_ok (conn : option noPollConn)
| nopoll_wait_ready (conn : option noPollConn) (secs : Z)
| nopoll_conn_close_ext (conn : noPollConn) (code : Z) (reason : cstring)
| nopoll_get_close_status (conn : noPollConn)
| nopoll_send_common (conn : option noPollConn) (b : bytes) (fin : bool) (op : noPollOpCode)
| nopoll_flush_writes (conn : option noPollConn) (timeout pending : Z)
| nopoll_loop_wait (usecs : Z)
| nopoll_set_handlers (conn : option noPollConn)
(* the system *)
| sys_g_shutdown
| sys_interface_down
| sys_cloud_disconnect
| sys_clock
| sys_time
| sys_random
| sys_cond_timedwait (deadline : timespec)
| sys_cond_wait
| sys_sleep (secs : Z)
| sys_getaddrinfo (host : option cstring)
| sys_kill_self
| sys_read_file (name : cstring)
| sys_fopen_write (name : cstring)
| on_ping_status_change (status : cstring)
(* seshat *)
| init_lib_seshat (url : cstring)
| seshat_register (service url : cstring)
| seshat_discover (service : cstring)
| shutdown_seshat_lib
(* the resolver: the length of the answer and its bytes *)
| res_ninit
| res_nquery (name : cstring)
(* libcurl: the result, the response code and the data as it comes in *)
| curl_easy_init
| curl_easy_perform (opts : curl_opts)
| uuid_generate_random.

Definition ans (c : ext) : Set :=
  match c with
  | nn_socket_push | nn_setsockopt _ | nn_connect _ _ | nn_send _ _ | nn_shutdown _ _
  | nn_close _ | nn_socket_pull | nn_bind _ _ | nopoll_get_close_status _ | nopoll_send_common _ _ _ _
  | nopoll_flush_writes _ _ _ | sys_time | sys_random | sys_cond_timedwait _ | sys_cond_wait
  | init_lib_seshat _ | seshat_register _ _ | res_ninit => Z
  | res_nquery _ => Z * bytes
  | curl_easy_init => bool
  | curl_easy_perform _ => Z * Z * list bytes
  | uuid_generate_random => cstring
  | nopoll_new _ _ _ _ _ => option noPollConn
  | nopoll_conn_is_ok _ | sys_g_shutdown | sys_interface_down | sys_fopen_write _ => bool
  | nopoll_wait_ready _ _ => bool * Z * option cstring
  | nopoll_loop_wait _ => list conn_event
  | sys_clock => timespec
  | sys_getaddrinfo _ => option (list cstring)
  | sys_read_file _ | nn_recv _ | sys_cloud_disconnect => option cstring
  | seshat_discover _ => option cstring
  | nopoll_conn_close_ext _ _ _ | nopoll_set_handlers _ | sys_sleep _ | sys_kill_self
  | on_ping_status_change _ | shutdown_seshat_lib => unit
  end.

Definition event : Set := { c : ext & ans c }.
Definition ev (c : ext) (a : ans c) : event := existT c a.
Definition oracle : Type := list event → ∀ c : ext, ans c.

(** [reg_list_item_t] without its link: the list is [g_head]. *)
Record reg_list_item_t : Set := mk_item {
  sock : Z;
  endpoint : Z;
  service_name : cstring;
  url : cstring
}.
#[export] Instance reg_list_item_settable : Settable reg_list_item_t :=
  λ r, mk_item (sock r) (endpoint r) (service_name r) (url r).

(** The global variables, the files and the history of calls. Of the callback
    [on_ping_status_change] only whether one is registered is kept: it is foreign code. *)
Record World : Type := mk_world {
  parodusCfg : ParodusCfg;
  g_head : list reg_list_item_t;
  numOfClients : Z;
  UpStreamMsgQ : list bytes;
  ParodusMsgQ : list (option bytes);
  previous_msg : option noPollMsg;
  crudMsgQ : list wrp_msg_t;
  metadataPack : option bytes;
  metaPackSize : Z;
  close_retry : bool;
  heart : heartBeat;
  ping_handler : bool;
  g_conn : option noPollConn;
  reconnect_reason : option cstring;
  LastReasonStatus : bool;
  shutdown_reason : option cstring;
  cloud_disconnect_max_time : Z;
  g_shutdown : bool;
  encodedData : cstring;
  files : cstring → option cstring;
  trace : list event
}.
#[export] Instance World_settable : Settable World := λ w, mk_world
  (parodusCfg w) (g_head w) (numOfClients w) (UpStreamMsgQ w) (ParodusMsgQ w)
  (previous_msg w) (crudMsgQ w) (metadataPack w) (metaPackSize w) (close_retry w)
  (heart w) (ping_handler w) (g_conn w) (reconnect_reason w) (LastReasonStatus w) (shutdown_reason w)
  (cloud_disconnect_max_time w) (g_shutdown w) (encodedData w) (files w) (trace w).

(** The values the C initialisers give; [metaPackSize] is [(size_t) -1]. *)
Definition world_init (fs : cstring → option cstring) : World := mk_world
  cfg_zero [] 0 [] [] None [] None (2 ^ 64 - 1)%Z false heartBeat_init false None
  (Some "webpa_process_starts"%cs) false (Some "parodus_stopping"%cs) 5 false ""%cs fs [].

Section calls.
Context (env : oracle).

Definition call (c : ext) : M World (ans c) := λ w,
  let a := env (trace w) c in
  Done (a, w <| trace := trace w ++ [ev c a] |>).

Definition read_g_shutdown : M World bool :=
  s ← gets g_shutdown;
  if (s : bool) then mret true
  else
    b ← call sys_g_shutdown;
    modify (λ w, w <| g_shutdown := b |>);;
    mret b.

Definition get_interface_down_event : M World bool := call sys_interface_down.

Definition with_cfg (f : ParodusCfg → ParodusCfg) : M World unit :=
  modify (λ w, w <| parodusCfg := f (parodusCfg w) |>).
End calls.

(** ** Runs

    [runs m w a w']: the computation is defined on [w] and ends in [w'] with [a]. *)
Definition runs {A} (m : M World A) (w : World) (a : A) (w' : World) : Prop := m w = Done (a, w').

(** Everything but the trace is as before. *)
Definition same_but_trace (w w' : World) : Prop := w' = w <| trace := trace w' |>.

Lemma runs_bind {A B} (m : M World A) (f : A → M World B) (w w1 w2 : World) (a : A) (b : B) :
  runs m w a w1 → runs (f a) w1 b w2 → runs (x ← m; f x) w b w2.
Proof. unfold runs, mbind, M_bind. by intros ->. Qed.

Lemma bind_Done {St A B} (m : M St A) (f : A → M St B) (s s1 : St) (a : A) :
  m s = Done (a, s1) → (x ← m; f x) s = f a s1.
Proof. unfold mbind, M_bind. by intros ->. Qed.

Lemma bind_inv {St A B} (m : M St A) (f : A → M St B) (s : St) (r : B * St) :
  (x ← m; f x) s = Done r → ∃ a s1, m s = Done (a, s1) /\ f a s1 = Done r.
Proof.
  unfold mbind, M_bind. destruct (m s) as [[a s1]| |]; [|done|done]. intros Hf. by exists a, s1.
Qed.

(** Symbolic execution: unfolds the monad and its primitives. *)
Ltac run_m :=
  cbv [mbind M_bind mret M_ret gets modify call undef nofuel when deref with_cfg
       read_g_shutdown get_interface_down_event]; cbn beta iota zeta.

Lemma lift_inv {St A} (o : outcome A) (s s1 : St) (a : A) : lift o s = Done (a, s1) → o = Done a /\ s1 = s.
Proof. unfold lift. destruct o; [|done..]. by intros [= <- <-]. Qed.

(** Takes a run apart at its first bind. *)
Ltac inv_bind H a w Ha :=
  apply bind_inv in H as (a & w & Ha & H).

(** ** What a computation keeps

    [keeps P m]: a run of [m] that starts in [P] and comes to its end, ends in [P]. The
    tactic [keeps] goes through a computation written with the primitives above and
    looks the operations it calls up in the hint database of the same name. *)

Definition keeps (P : World → Prop) {A} (m : M World A) : Prop :=
  ∀ w a w', P w → m w = Done (a, w') → P w'.

Create HintDb keeps.

Section keeps.
Context (P : World → Prop).

Lemma keeps_run {A} (m : M World A) (w w' : World) (a : A) : P w → m w = Done (a, w') → keeps P m → P w'.
Proof. intros Hp Hr Hm. by apply (Hm w a w'). Qed.
Lemma keeps_ret {A} (a : A) : keeps P (mret a).
Proof. intros w b w' Hp [= _ <-]. done. Qed.
Lemma keeps_bind {A B} (m : M World A) (f : A → M World B) :
  keeps P m → (∀ a, keeps P (f a)) → keeps P (x ← m; f x).
Proof. intros Hm Hf w b w' Hp (a & w1 & H1 & H2)%bind_inv. by apply (Hf a w1 b w'), H2; apply (Hm w a w1). Qed.
Lemma keeps_bind_value {A B} (R : A → Prop) (m : M World A) (f : A → M World B) :
  keeps P m → (∀ w a w', m w = Done (a, w') → R a) → (∀ a, R a → keeps P (f a)) → keeps P (x ← m; f x).
Proof.
  intros Hm HR Hf w b w' Hp (a & w1 & H1 & H2)%bind_inv.
  by apply (Hf a (HR _ _ _ H1) w1 b w'), H2; apply (Hm w a w1).
Qed.
Lemma keeps_gets {A} (f : World → A) : keeps P (gets f).
Proof. intros w b w' Hp [= _ <-]. done. Qed.
Lemma keeps_modify (f : World → World) : (∀ w, P w → P (f w)) → keeps P (modify f).
Proof. intros Hf w b w' Hp [= _ <-]. by apply Hf. Qed.
Lemma keeps_undef {A} : keeps P (undef : M World A).
Proof. by intros w b w' _. Qed.
Lemma keeps_nofuel {A} : keeps P (nofuel : M World A).
Proof. by intros w b w' _. Qed.
Lemma keeps_deref {A} (o : option A) : keeps P (deref o).
Proof. destruct o; [apply keeps_ret|apply keeps_undef]. Qed.
Lemma keeps_lift {A} (o : outcome A) : keeps P (lift o).
Proof. intros w b w' Hp. unfold lift. destruct o; [|done..]. by intros [= _ <-]. Qed.
Lemma keeps_when (b : bool) (m : M World unit) : keeps P m → keeps P (when b m).
Proof. destruct b; [done|]. intros _. apply keeps_ret. Qed.
End keeps.

(** What the main thread shares with the tasks of the other threads, the flag that ends
    the process apart: the clients with their count and the queues between the tasks. *)
Definition framed (Q : bool → list reg_list_item_t → Z → list bytes → list wrp_msg_t → Prop)
    (w : World) : Prop :=
  Q (g_shutdown w) (g_head w) (numOfClients w) (UpStreamMsgQ w) (crudMsgQ w).

(** A property that survives the flag being raised. *)
Definition flag_free (Q : bool → list reg_list_item_t → Z → list bytes → list wrp_msg_t → Prop) : Prop :=
  ∀ s b l n u c, (s = true → b = true) → Q s l n u c → Q b l n u c.

(** The process has been asked to end. *)
Definition flag_set (s : bool) (_ : list reg_list_item_t) (_ : Z) (_ : list bytes) (_ : list wrp_msg_t) : Prop :=
  s = true.
Abbreviation shut := (framed flag_set).

Section framed.
Context (Q : bool → list reg_list_item_t → Z → list bytes → list wrp_msg_t → Prop).

Lemma framed_call (env : oracle) (c : ext) : keeps (framed Q) (call env c).
Proof. intros w b w' Hp [= _ <-]. exact Hp. Qed.
Lemma framed_with_cfg (f : ParodusCfg → ParodusCfg) : keeps (framed Q) (with_cfg f).
Proof. intros w b w' Hp [= _ <-]. exact Hp. Qed.
Lemma framed_interface (env : oracle) : keeps (framed Q) (get_interface_down_event env).
Proof. exact (framed_call env sys_interface_down). Qed.
Lemma framed_read (env : oracle) : flag_free Q → keeps (framed Q) (read_g_shutdown env).
Proof.
  intros HQ w b w' Hp. run_m. destruct (g_shutdown w) eqn:Hs; intros [= _ <-]; [done|].
  unfold framed in *. rewrite Hs in Hp. by apply (HQ false).
Qed.
End framed.

Lemma flag_set_free : flag_free flag_set.
Proof. intros s b l n u c Hb Hs. by apply Hb. Qed.

Ltac keeps :=
  repeat first
    [ solve [eauto with keeps]
    | match goal with
      | |- keeps _ (mbind _ _) => apply keeps_bind; [|intros ?]
      | |- ∀ _, keeps _ _ => intros ?
      | |- keeps _ (mret _) => apply keeps_ret
      | |- keeps _ (gets _) => apply keeps_gets
      | |- keeps _ undef => apply keeps_undef
      | |- keeps _ nofuel => apply keeps_nofuel
      | |- keeps _ (deref _) => apply keeps_deref
      | |- keeps _ (lift _) => apply keeps_lift
      | |- keeps _ (when _ _) => apply keeps_when
      | |- keeps _ (modify _) => apply keeps_modify; intros ? ?; assumption
      | |- keeps _ (match ?x with _ => _ end) => destruct x
      end
    | progress cbn beta iota zeta ].
#[export] Hint Resolve framed_call framed_read framed_with_cfg framed_interface flag_set_free : keeps.
#[export] Hint Extern 1 (keeps (framed ?Q) (call ?env ?c)) => exact (framed_call Q env c) : keeps.

(** The configuration. *)
Definition cfg_is (c : ParodusCfg) (w : World) : Prop := parodusCfg w = c.
#[export] Hint Extern 1 (keeps (cfg_is _) (call _ _)) => intros ? ? ? ? [= _ <-]; assumption : keeps.

(** ** An example *)

Local Open Scope Z_scope.
(** An environment in which every call succeeds. *)
Definition env_ok : oracle := λ h c,
  match c as c return ans c with
  | nopoll_new _ _ _ _ _ => Some 1
  | nopoll_conn_is_ok _ => true
  | sys_g_shutdown | sys_interface_down => false
  | sys_fopen_write _ => true
  | nopoll_wait_ready _ _ => (true, 0, None)
  | nopoll_loop_wait _ => []
  | sys_clock => Timers.mk_timespec 0 0
  | sys_getaddrinfo _ => None
  | sys_read_file _ | nn_recv _ | sys_cloud_disconnect => None
  | seshat_discover _ => None
  | nn_send _ b => Z.of_nat (length b)
  | nn_socket_push => Z.of_nat (length h)
  | nn_setsockopt _ | nn_socket_pull | nn_bind _ _ | nn_connect _ _ | nn_shutdown _ _ | nn_close _
  | nopoll_get_close_status _ | sys_time | sys_random | sys_cond_timedwait _ | sys_cond_wait
  | init_lib_seshat _ | seshat_register _ _ | res_ninit => 0
  | res_nquery _ => (0, [])
  | curl_easy_init => true
  | curl_easy_perform _ => (0, 200, [])
  | uuid_generate_random => "00000000-0000-0000-0000-000000000000"%cs
  | nopoll_send_common _ b _ _ => Z.of_nat (length b)
  | nopoll_flush_writes _ _ n => n
  | nopoll_conn_close_ext _ _ _ | nopoll_set_handlers _ | sys_sleep _ | sys_kill_self
  | on_ping_status_change _ | shutdown_seshat_lib => tt
  end.
