(* ===== verification/ClientList.v ===== *)
(** * client_list.c: the registered clients

    The linked list is [g_head w], oldest first. Deleting unlinks the first node of
    that name; an operation is one step of one thread. The nodes behind the list and the
    mutex are in ClientHeap. *)

From S2P Require Import Prelude StringHelpers Wrp World.
Local Open Scope cs_scope.
Local Open Scope Z_scope.

Section client_list.
Context `{WrpLib} (env : oracle).

Definition get_numOfClients : M World Z := gets numOfClients.

(** A failed encoding leaves [auth_bytes] uninitialised when it is freed. *)
Definition sendAuthStatus (new_node : reg_list_item_t) : M World Z :=
  match wrp_struct_to (WRP_AUTH 200) with
  | None => undef
  | Some auth_bytes =>
      byte ← call env (nn_send (sock new_node) auth_bytes);
      mret (if 0 <=? byte then 0 else -1)
  end.

Definition addToList (reg : wrp_reg) : M World Z :=
  s ← call env nn_socket_push;
  if 0 <=? s then
    _ ← call env (nn_setsockopt s);
    rc ← call env (nn_connect s (reg_url reg));
    if rc <? 0 then
      _ ← call env (nn_close s);
      mret (-1)
    else
      let new_node := mk_item s rc (parStrncpy (reg_service_name reg) 32)
                              (parStrncpy (reg_url reg) 100) in
      modify (λ w, w <| g_head := g_head w ++ [new_node] |>);;
      if streq (service_name new_node) (reg_service_name reg)
         && streq (url new_node) (reg_url reg) then
        modify (λ w, w <| numOfClients := numOfClients w + 1 |>);;
        sendAuthStatus new_node
      else mret (-1)
  else mret (-1).

(** The node with that name that is nearest to the head, and the list without it. *)
Fixpoint unlink (name : cstring) (l : list reg_list_item_t)
    : option (reg_list_item_t * list reg_list_item_t) :=
  match l with
  | [] => None
  | node :: rest =>
      if streq (service_name node) name then Some (node, rest)
      else match unlink name rest with
           | Some (found, rest') => Some (found, node :: rest')
           | None => None
           end
  end.

Definition deleteFromList (name : option cstring) : M World Z :=
  match name with
  | None => mret (-1)
  | Some name =>
      l ← gets g_head;
      match unlink name l with
      | Some (node, l') =>
          modify (λ w, w <| g_head := l' |>);;
          _ ← call env (nn_shutdown (sock node) (endpoint node));
          _ ← call env (nn_close (sock node));
          modify (λ w, w <| numOfClients := numOfClients w - 1 |>);;
          mret 0
      | None => mret (-1)
      end
  end.

Definition deleteAllClients : M World unit :=
  modify (λ w, w <| g_head := [] |>
                 <| numOfClients := if 0 <? numOfClients w then 0 else numOfClients w |>).

(** The first node of that name. *)
Fixpoint find_client (dest : cstring) (l : list reg_list_item_t) : option reg_list_item_t :=
  match l with
  | [] => None
  | node :: rest => if streq dest (service_name node) then Some node else find_client dest rest
  end.

Definition sendMsgtoRegisteredClients (dest : cstring) (Msg : bytes) : M World Z :=
  l ← gets g_head;
  match find_client dest l with
  | Some node => _ ← call env (nn_send (sock node) Msg); mret 1
  | None => mret 0
  end.

Definition checkClientStatus (serviceName : cstring) : M World Z :=
  l ← gets g_head;
  mret (match find_client serviceName l with Some _ => 1 | None => 0 end).
End client_list.

(** ** Invariant *)

Definition client_fits (c : reg_list_item_t) : Prop :=
  (length (service_name c) <= 31)%nat /\ (length (url c) <= 99)%nat.
Definition clients_inv (w : World) : Prop :=
  Forall client_fits (g_head w) /\ numOfClients w = Z.of_nat (length (g_head w)).

#[export] Instance client_fits_dec (c : reg_list_item_t) : Decision (client_fits c).
Proof. unfold client_fits. apply _. Defined.
#[export] Instance clients_inv_dec (w : World) : Decision (clients_inv w).
Proof. unfold clients_inv. apply _. Defined.

(** A registration whose strings fit the node. *)
Definition reg_fits (r : wrp_reg) : Prop :=
  (length (reg_service_name r) <= 31)%nat /\ (length (reg_url r) <= 99)%nat.

(** ** Lemmas *)

Lemma parStrncpy_id (s : cstring) (n : nat) : (length s < n)%nat → parStrncpy s n = s.
Proof. intros. unfold parStrncpy. apply take_ge. lia. Qed.

Lemma parStrncpy_length (s : cstring) (n : nat) : (length (parStrncpy s n) <= n - 1)%nat.
Proof. unfold parStrncpy. rewrite length_take. lia. Qed.

Lemma parStrncpy_cut (s : cstring) (n : nat) :
  (0 < n)%nat → (n <= length s)%nat → parStrncpy s n ≠ s.
Proof.
  intros Hn Hl He. apply (f_equal length) in He. pose proof (parStrncpy_length s n). lia.
Qed.

Lemma unlink_spec (name : cstring) (l : list reg_list_item_t) :
  match unlink name l with
  | Some (node, l') =>
      ∃ a b, l = a ++ node :: b /\ l' = a ++ b /\ service_name node = name /\
             Forall (λ c, service_name c ≠ name) a
  | None => Forall (λ c, service_name c ≠ name) l
  end.
Proof.
  induction l as [|c l IH]; cbn [unlink]; [constructor|].
  destruct (streq (service_name c) name) eqn:Hs.
  - apply streq_true in Hs. exists [], l. by repeat split.
  - apply streq_false in Hs. destruct (unlink name l) as [[node l']|].
    + destruct IH as (a & b & -> & -> & Hn & Ha). exists (c :: a), b.
      repeat split; [done|]. by constructor.
    + by constructor.
Qed.

Lemma find_client_spec (dest : cstring) (l : list reg_list_item_t) :
  match find_client dest l with
  | Some node =>
      ∃ a b, l = a ++ node :: b /\ service_name node = dest /\
             Forall (λ c, service_name c ≠ dest) a
  | None => Forall (λ c, service_name c ≠ dest) l
  end.
Proof.
  induction l as [|c l IH]; cbn [find_client]; [constructor|].
  destruct (streq dest (service_name c)) eqn:Hs.
  - apply streq_true in Hs as ->. exists [], l. by repeat split.
  - apply streq_false in Hs. destruct (find_client dest l) as [node|].
    + destruct IH as (a & b & -> & Hn & Ha). exists (c :: a), b.
      repeat split; [done|]. by constructor.
    + by constructor.
Qed.

(** Without a second client of the name, a client is found under its name. *)
Lemma find_client_unique (l : list reg_list_item_t) (node : reg_list_item_t) :
  NoDup (map service_name l) → node ∈ l → find_client (service_name node) l = Some node.
Proof.
  induction l as [|c l IH]; cbn [find_client map]; [by intros _ ?%elem_of_nil|].
  intros [Hc Hl]%NoDup_cons. rewrite elem_of_cons. intros [->|Hin]; [by rewrite streq_refl|].
  rewrite (proj2 (streq_false _ _)); [by apply IH|]. intros He. apply Hc. rewrite <-He.
  by apply (list_elem_of_fmap_2 service_name).
Qed.

Lemma unlink_in (name : cstring) (l : list reg_list_item_t) (c : reg_list_item_t) :
  c ∈ l → service_name c = name → ∃ node l', unlink name l = Some (node, l').
Proof.
  intros Hin Hn. pose proof (unlink_spec name l) as Hu.
  destruct (unlink name l) as [[node l']|]; [by exists node, l'|].
  rewrite Forall_forall in Hu. by apply Hu in Hin.
Qed.

Lemma unlink_length (name : cstring) (l l' : list reg_list_item_t) (node : reg_list_item_t) :
  unlink name l = Some (node, l') → length l = S (length l').
Proof.
  intros Hu. pose proof (unlink_spec name l) as Hs. rewrite Hu in Hs.
  destruct Hs as (a & b & -> & -> & _). rewrite !length_app. simpl. lia.
Qed.

Section client_list_facts.
Context `{WrpLib} (env : oracle).

Lemma sendAuthStatus_run (c : reg_list_item_t) (ack : bytes) (w : World) :
  wrp_struct_to (WRP_AUTH 200) = Some ack →
  let byte := env (trace w) (nn_send (sock c) ack) in
  sendAuthStatus env c w =
    Done (if 0 <=? byte then 0 else -1,
          w <| trace := trace w ++ [ev (nn_send (sock c) ack) byte] |>).
Proof. intros Ha. unfold sendAuthStatus. by rewrite Ha. Qed.

Lemma deleteFromList_run (name : cstring) (w : World) :
  deleteFromList env (Some name) w =
    match unlink name (g_head w) with
    | Some (node, l') =>
        let sd := nn_shutdown (sock node) (endpoint node) in
        let a1 := env (trace w) sd in
        let a2 := env (trace w ++ [ev sd a1]) (nn_close (sock node)) in
        Done (0, w <| g_head := l' |> <| numOfClients := numOfClients w - 1 |>
                   <| trace := (trace w ++ [ev sd a1]) ++ [ev (nn_close (sock node)) a2] |>)
    | None => Done (-1, w)
    end.
Proof.
  unfold deleteFromList. run_m. by destruct (unlink name (g_head w)) as [[node l']|].
Qed.
End client_list_facts.

(** ** Properties *)

(** A registration whose strings fit keeps the list and its count in step. It
    appends one node exactly when a socket is created and connected, and then sends
    the authorization status on it, returning 0 when that send succeeds; when the
    connect fails the socket is closed and nothing else changes. *)
Theorem addToList_correct `{WrpLib} (env : oracle) (reg : wrp_reg) (ack : bytes) (w : World)
    (Hack : wrp_struct_to (WRP_AUTH 200) = Some ack)
    (Hreg : reg_fits reg) (Hinv : clients_inv w) :
  ∃ rc w', addToList env reg w = Done (rc, w') /\ clients_inv w' /\
    ((∃ s e byte pre, w' = w <| g_head := g_head w ++ [mk_item s e (reg_service_name reg) (reg_url reg)] |>
            <| numOfClients := numOfClients w + 1 |> <| trace := trace w' |> /\
        0 <= s /\ 0 <= e /\
        trace w' = trace w ++ pre ++ [ev (nn_connect s (reg_url reg)) e; ev (nn_send s ack) byte] /\
        rc = if 0 <=? byte then 0 else -1) \/
     (same_but_trace w w' /\ rc = -1 /\
        ∃ last, trace w' = trace w ++ last /\
          (∃ s, s < 0 /\ last = [ev nn_socket_push s] \/
           0 <= s /\ ∃ o e a, e < 0 /\ last = [ev nn_socket_push s; ev (nn_setsockopt s) o;
             ev (nn_connect s (reg_url reg)) e; ev (nn_close s) a]))).
Proof.
  destruct Hreg as [Hn Hu]. destruct Hinv as [Hall Hcount]. unfold addToList. run_m.
  set (s := env (trace w) nn_socket_push). destruct (Z.leb_spec 0 s) as [Hs|Hs]; cbn beta iota.
  2:{ eexists _, _; split; [reflexivity|]. split; [done|]. right. split; [done|]. split; [done|].
      eexists; split; [reflexivity|]. exists s. left. by split. }
  set (o := env _ (nn_setsockopt s)). set (e := env _ (nn_connect s (reg_url reg))).
  destruct (Z.ltb_spec e 0) as [He|He]; cbn beta iota.
  { eexists _, _; split; [reflexivity|]. split; [done|]. right. split; [done|]. split; [done|].
    eexists; split; [cbn; rewrite <-!app_assoc; reflexivity|]. exists s. right.
    split; [done|]. eexists o, e, _. by split. }
  rewrite !parStrncpy_id by lia. cbn [service_name url]. rewrite !streq_refl. cbn [andb].
  rewrite (sendAuthStatus_run env _ ack) by done. cbn zeta. cbn [sock].
  match goal with |- context [env ?h (nn_send s ack)] => set (byte := env h (nn_send s ack)) end.
  eexists _, _; split; [reflexivity|]. split.
  { split; cbn; [apply Forall_app; split; [done|constructor; [by split|constructor]]|].
    rewrite Hcount, length_app. simpl. lia. }
  left. eexists s, e, byte, [_; _]. split; [reflexivity|].
  split; [done|]. split; [done|]. split; [cbn; rewrite <-!app_assoc; reflexivity|].
  reflexivity.
Qed.

(** A service name of 32 characters or more (or a URL of 100 or more) is cut: the
    node stays in the list under the cut name without being counted or acknowledged,
    so that the count no longer is the length of the list. *)
Theorem addToList_truncated `{WrpLib} (env : oracle) (reg : wrp_reg) (w : World)
    (Hlong : (32 <= length (reg_service_name reg))%nat \/ (100 <= length (reg_url reg))%nat)
    (Hsock : ∀ h, 0 <= env h nn_socket_push)
    (Hconn : ∀ h s u, 0 <= env h (nn_connect s u))
    (Hinv : clients_inv w) :
  ∃ w', addToList env reg w = Done (-1, w') /\
    (∃ node, g_head w' = g_head w ++ [node] /\ client_fits node) /\
    numOfClients w' = numOfClients w /\ ~ clients_inv w' /\
    Forall (λ e, ∀ s b, projT1 e ≠ nn_send s b) (drop (length (trace w)) (trace w')).
Proof.
  destruct Hinv as [Hall Hcount]. unfold addToList. run_m.
  pose proof (Hsock (trace w)) as Hs. destruct (Z.leb_spec 0 (env (trace w) nn_socket_push)); [|lia].
  set (s := env (trace w) nn_socket_push) in *. cbn beta iota.
  match goal with |- context [env ?h (nn_connect s ?u)] => pose proof (Hconn h s u) as He end.
  rewrite (proj2 (Z.ltb_ge _ _) He). cbn beta iota.
  match goal with |- context [streq ?a ?b && streq ?c ?d] =>
    assert (Hcut : streq a b && streq c d = false) end.
  { cbn [service_name url]. destruct Hlong as [Hl|Hl].
    - apply andb_false_intro1, streq_false, parStrncpy_cut; lia.
    - apply andb_false_intro2, streq_false, parStrncpy_cut; lia. }
  rewrite Hcut. eexists; split; [reflexivity|].
  split; [eexists; split; [reflexivity|]; split; cbn; unfold parStrncpy; rewrite length_take; lia|].
  split; [done|]. split.
  - intros [_ Hc]. cbn in Hc. rewrite length_app in Hc. simpl in Hc. lia.
  - cbn. rewrite <-!app_assoc, drop_app_length. by repeat constructor.
Qed.

(** Deleting by name unlinks exactly the node of that name nearest to the head,
    after which the count is still the length of the list, shutting its socket down;
    it fails without any effect exactly when no node has the name. *)
Theorem deleteFromList_correct (env : oracle) (name : cstring) (w : World)
    (Hinv : clients_inv w) :
  (∃ a node b w', g_head w = a ++ node :: b /\ service_name node = name /\
     Forall (λ c, service_name c ≠ name) a /\
     deleteFromList env (Some name) w = Done (0, w') /\ clients_inv w' /\
     w' = w <| g_head := a ++ b |> <| numOfClients := numOfClients w - 1 |> <| trace := trace w' |> /\
     ∃ r1 r2, trace w' = trace w ++ [ev (nn_shutdown (sock node) (endpoint node)) r1;
                                     ev (nn_close (sock node)) r2]) \/
  (Forall (λ c, service_name c ≠ name) (g_head w) /\
   deleteFromList env (Some name) w = Done (-1, w)).
Proof.
  rewrite deleteFromList_run. pose proof (unlink_spec name (g_head w)) as Hu.
  destruct (unlink name (g_head w)) as [[node l']|]; [left|by right].
  destruct Hu as (a & b & Hl & -> & Hn & Ha). destruct Hinv as [Hall Hc].
  exists a, node, b. eexists; split; [done|]. split; [done|]. split; [done|].
  split; [reflexivity|]. split.
  - rewrite Hl in *. apply Forall_app in Hall as [H1 H2]. apply Forall_cons in H2 as [_ H2].
    split; cbn; [by apply Forall_app|]. rewrite length_app in *. simpl in *. lia.
  - split; [reflexivity|]. eexists _, _. cbn. by rewrite <-app_assoc.
Qed.

(** A message for a client is sent once, to the socket of the first node of that
    name, and to nobody when there is none; the result says which. *)
Theorem sendMsgtoRegisteredClients_correct (env : oracle) (dest : cstring) (Msg : bytes) (w : World) :
  (∃ a node b r, g_head w = a ++ node :: b /\ service_name node = dest /\
     Forall (λ c, service_name c ≠ dest) a /\
     sendMsgtoRegisteredClients env dest Msg w =
       Done (1, w <| trace := trace w ++ [ev (nn_send (sock node) Msg) r] |>)) \/
  (Forall (λ c, service_name c ≠ dest) (g_head w) /\
   sendMsgtoRegisteredClients env dest Msg w = Done (0, w)).
Proof.
  unfold sendMsgtoRegisteredClients. run_m. pose proof (find_client_spec dest (g_head w)) as Hf.
  destruct (find_client dest (g_head w)) as [node|]; [left|by right].
  destruct Hf as (a & b & Hl & Hn & Ha). exists a, node, b. eexists. split; [done|].
  split; [done|]. split; [done|]. run_m. reflexivity.
Qed.

(** ** Witnesses *)

(** The elements scheme:id/service/application. *)
Definition id_element (i : nat) (dest : cstring) : option cstring :=
  let after_slash s := match strchr s "/"%char with Some n => Some (drop (S n) s) | None => None end in
  match i with
  | 0%nat => option_map (λ n, take n dest) (strchr dest ":"%char)
  | 1%nat => option_map (λ n, before "/"%char (drop (S n) dest)) (strchr dest ":"%char)
  | 2%nat => option_map (before "/"%char) (after_slash dest)
  | 3%nat => match after_slash dest with Some s => after_slash s | None => None end
  | _ => None
  end.

Definition wrp_example : WrpLib := {|
  wrp_to_struct := λ b, match b with [] => None | c :: _ => Some (WRP_AUTH (code c)) end;
  wrp_struct_to := λ m, match m with WRP_AUTH s => Some [ascii_of_nat (Z.to_nat s)] | WRP_SVC_ALIVE => Some "alive" | _ => None end;
  crud_view := λ m, match m with WRP_CRUD _ c => c | _ => crud_zero end;
  set_crud := λ m c, match m with WRP_CRUD op _ => WRP_CRUD op c | _ => WRP_CRUD CREATE c end;
  WRP_ID_ELEMENT__SERVICE := 2;
  WRP_ID_ELEMENT__APPLICATION := 3;
  wrp_get_msg_element := λ i m,
    match m with WRP_CRUD _ c => match crud_dest c with Some d => id_element i d | None => None end | _ => None end;
  wrp_does_service_match := λ a b, streq a b;
  wrp_pack_metadata := λ _, (0, None);
  appendEncodedData := λ b _ _, b
|}.

Lemma wrp_example_laws : @WrpLaws wrp_example.
Proof. split; try done. by intros []. Qed.

Definition world_example : World :=
  (world_init (λ _, None)) <| g_head := [mk_item 5 1 "iot" "tcp://127.0.0.1:6667";
                                       mk_item 6 2 "config" "tcp://127.0.0.1:6668"] |>
                         <| numOfClients := 2 |>.

Example addToList_correct_witness :
  ∃ rc w', @addToList wrp_example env_ok (mk_reg "xmidt" "tcp://127.0.0.1:6669") world_example = Done (rc, w')
    /\ clients_inv w'.
Proof.
  destruct (@addToList_correct wrp_example env_ok (mk_reg "xmidt" "tcp://127.0.0.1:6669") [ascii_of_nat 200]
    world_example) as (rc & w' & Hrun & Hinv & _); [reflexivity|split; by_eval|by_eval|].
  exists rc, w'. split; [exact Hrun|exact Hinv].
Defined.

Example addToList_truncated_witness :
  ∃ w', @addToList wrp_example env_ok (mk_reg "a-service-name-of-over-32-characters" "tcp://a") world_example
    = Done (-1, w') /\ ~ clients_inv w'.
Proof.
  destruct (@addToList_truncated wrp_example env_ok
    (mk_reg "a-service-name-of-over-32-characters" "tcp://a") world_example)
    as (w' & Hrun & _ & _ & Hinv & _).
  - left. by_eval.
  - intros h. simpl. lia.
  - intros h s u. simpl. lia.
  - by_eval.
  - exists w'. split; [exact Hrun|exact Hinv].
Defined.

Example deleteFromList_correct_witness :
  clients_inv world_example /\
  ((∃ a node b, g_head world_example = a ++ node :: b /\ service_name node = "config"%cs) \/
   Forall (λ c, service_name c ≠ "config"%cs) (g_head world_example)).
Proof.
  assert (Hi : clients_inv world_example) by by_eval. split; [exact Hi|].
  destruct (deleteFromList_correct env_ok "config" world_example Hi)
    as [(a & node & b & w' & H1 & H2 & _)|[H1 _]].
  - left. exists a, node, b. split; [exact H1|exact H2].
  - right. exact H1.
Defined.
