(* ===== verification/ServiceAlive.v ===== *)
(** * service_alive.c: the keep-alive thread

    [temp] of the inner loop is a position in the client list; a deletion makes it
    the head again, as the resynchronisation in the code does. *)

From S2P Require Import Prelude StringHelpers Timers Wrp World ClientList.
Local Open Scope cs_scope.
Local Open Scope Z_scope.

Definition KEEPALIVE_INTERVAL_SEC : Z := 30.

Section service_alive.
Context `{WrpLib} (env : oracle).

(** [wait__]: a timed wait, then whether the process shuts down. *)
Definition wait__ (secs : Z) : M World bool :=
  t ← call env sys_clock;
  _ ← call env (sys_cond_timedwait (t <| tv_sec := tv_sec t + secs |>));
  read_g_shutdown env.

(** The loop over the clients. *)
Fixpoint sweep (fuel : nat) (svc_bytes : bytes) (temp : nat) : M World unit :=
  match fuel with
  | O => nofuel
  | S fuel =>
      l ← gets g_head;
      match l !! temp with
      | None => mret tt
      | Some node =>
          byte ← call env (nn_send (sock node) svc_bytes);
          if byte =? Z.of_nat (length svc_bytes) then sweep fuel svc_bytes (S temp)
          else
            ret ← deleteFromList env (Some (service_name node));
            if ret =? 0 then sweep fuel svc_bytes 0 else sweep fuel svc_bytes (S temp)
      end
  end.

(** Turns enough for a list of [n] clients. *)
Definition sweep_fuel (n : nat) : nat := S (n * (n + 1)).

(** One turn of the outer loop; the result says whether the thread ends. *)
Definition serviceAlive_turn (svc_bytes : bytes) : M World bool :=
  n ← get_numOfClients;
  if 0 <? n then
    l ← gets g_head;
    sweep (sweep_fuel (length l)) svc_bytes 0;;
    wait__ KEEPALIVE_INTERVAL_SEC
  else wait__ 50.

Fixpoint serviceAlive_loop (turns : nat) (svc_bytes : bytes) : M World unit :=
  match turns with
  | O => nofuel
  | S turns =>
      stop ← serviceAlive_turn svc_bytes;
      if (stop : bool) then mret tt else serviceAlive_loop turns svc_bytes
  end.

Definition serviceAliveTask (turns : nat) : M World unit :=
  match wrp_struct_to WRP_SVC_ALIVE with
  | None => mret tt
  | Some svc_bytes => serviceAlive_loop turns svc_bytes
  end.
End service_alive.

(** ** Lemmas *)

(** A message sent in full to each client of a list, in order. *)
Definition sent_to (b : bytes) (l : list reg_list_item_t) : list event :=
  map (λ c, ev (nn_send (sock c) b) (Z.of_nat (length b))) l.

Section service_alive_facts.
Context `{WrpLib} (env : oracle) (b : bytes).

(** What holds when a sweep is at position [i]. *)
Definition sweep_inv (w0 : World) (i : nat) (w : World) : Prop :=
  clients_inv w /\ sublist (g_head w) (g_head w0) /\
  (i <= length (g_head w))%nat /\
  (∃ pre, trace w = pre ++ sent_to b (take i (g_head w))) /\
  w = w0 <| g_head := g_head w |> <| numOfClients := numOfClients w |> <| trace := trace w |>.

Lemma sweep_step (w0 w : World) (i : nat) (node : reg_list_item_t) :
  sweep_inv w0 i w → g_head w !! i = Some node →
  env (trace w) (nn_send (sock node) b) = Z.of_nat (length b) →
  sweep_inv w0 (S i) (w <| trace := trace w ++ [ev (nn_send (sock node) b) (Z.of_nat (length b))] |>).
Proof.
  intros (Hi & Hsub & Hle & (pre & Htr) & Hw) Hl Hb.
  split; [done|]. split; [done|]. split; [cbn; apply lookup_lt_Some in Hl; lia|].
  split; [|cbn; by rewrite Hw].
  exists pre. cbn. rewrite Htr, <-app_assoc. f_equal.
  unfold sent_to. by rewrite (take_S_r _ _ _ Hl), map_app.
Qed.

Lemma sweep_delete (w0 w : World) (i : nat) (node : reg_list_item_t) (tr : list event) :
  sweep_inv w0 i w → g_head w !! i = Some node →
  ∃ w', deleteFromList env (Some (service_name node)) (w <| trace := tr |>) = Done (0, w') /\
    sweep_inv w0 0 w' /\ length (g_head w) = S (length (g_head w')).
Proof.
  intros ((Hfit & Hcnt) & Hsub & Hle & _ & Hw) Hl. rewrite deleteFromList_run. cbn [g_head over].
  change (g_head (w <| trace := tr |>)) with (g_head w).
  destruct (unlink_in (service_name node) (g_head w) node) as (n & l' & Hu);
    [by eapply list_elem_of_lookup_2|done|]. rewrite Hu.
  pose proof (unlink_spec (service_name node) (g_head w)) as Hs. rewrite Hu in Hs.
  destruct Hs as (x & y & Hx & -> & _ & _).
  eexists; split; [reflexivity|]. split; [|by apply unlink_length in Hu].
  split; [|split; [|split; [cbn; lia|split]]].
  - rewrite Hx in *. apply Forall_app in Hfit as [? Hy]. apply Forall_cons in Hy as [_ ?].
    split; cbn; [by apply Forall_app|]. rewrite length_app in *. simpl in *. lia.
  - cbn. etransitivity; [|exact Hsub]. rewrite Hx. apply sublist_app; [done|]. by constructor.
  - cbn. rewrite take_0. by eexists (_ ++ _); rewrite app_nil_r.
  - cbn. by rewrite Hw.
Qed.

Lemma sweep_run (w0 : World) (fuel i : nat) (w : World) :
  let n := length (g_head w) in
  sweep_inv w0 i w → (n * (n + 1) < fuel + i)%nat →
  ∃ w', sweep env fuel b i w = Done (tt, w') /\ sweep_inv w0 (length (g_head w')) w'.
Proof.
  cbn zeta. revert i w. induction fuel as [|fuel IH]; intros i w Hinv Hf.
  { pose proof Hinv as (_ & _ & Hle & _). exfalso. nia. }
  cbn [sweep]. run_m. destruct (g_head w !! i) as [node|] eqn:Hl.
  2:{ exists w. split; [done|]. apply lookup_ge_None in Hl.
      replace (length (g_head w)) with i; [done|]. destruct Hinv as (_ & _ & ? & _). lia. }
  run_m. set (byte := env (trace w) (nn_send (sock node) b)).
  destruct (Z.eqb_spec byte (Z.of_nat (length b))) as [Hb|Hb]; cbn beta iota.
  - rewrite Hb. apply (IH (S i)); [by apply sweep_step|]. cbn. lia.
  - destruct (sweep_delete w0 w i node (trace w ++ [ev (nn_send (sock node) b) byte]) Hinv Hl)
      as (w' & -> & Hinv' & Hlen). cbn beta iota. rewrite Z.eqb_refl. cbn beta iota.
    apply (IH 0%nat w' Hinv'). apply lookup_lt_Some in Hl. nia.
Qed.
End service_alive_facts.

(** A client whose name nobody else has is the one a deletion finds. *)
Lemma unlink_unique (l l' : list reg_list_item_t) (c node : reg_list_item_t) :
  NoDup (map service_name l) → c ∈ l → unlink (service_name c) l = Some (node, l') →
  node = c /\ ∃ x y, l = x ++ c :: y /\ l' = x ++ y.
Proof.
  intros Hd Hc Hu. pose proof (unlink_spec (service_name c) l) as Hs. rewrite Hu in Hs.
  destruct Hs as (x & y & Hl & -> & Hn & _).
  assert (node = c) as ->; [|split; [done|by exists x, y]].
  apply (find_client_unique l c Hd) in Hc. assert (node ∈ l) as Hin by (rewrite Hl; set_solver).
  apply (find_client_unique l node Hd) in Hin. rewrite Hn in Hin. congruence.
Qed.

Section answering.
Context (env : oracle) (b : bytes) (answers : Z → bool).
Context (Hanswers : ∀ h s, env h (nn_send s b) = Z.of_nat (length b) ↔ answers s = true).

Definition answering (l : list reg_list_item_t) : list reg_list_item_t :=
  filter (λ c, answers (sock c) = true) l.

Lemma answering_all (l : list reg_list_item_t) : Forall (λ c, answers (sock c) = true) l → answering l = l.
Proof. induction 1 as [|c l Hc _ IH]; [done|]. unfold answering in *. by rewrite filter_cons_True, IH. Qed.

Lemma answering_delete (x y : list reg_list_item_t) (c : reg_list_item_t) :
  answers (sock c) = false → answering (x ++ c :: y) = answering (x ++ y).
Proof. intros Hc. unfold answering. by rewrite !filter_app, filter_cons_False by congruence. Qed.

Lemma sweep_answering (fuel i : nat) (w : World) :
  let n := length (g_head w) in
  NoDup (map service_name (g_head w)) → (i <= n)%nat → (n * (n + 1) < fuel + i)%nat →
  Forall (λ c, answers (sock c) = true) (take i (g_head w)) →
  ∃ w', sweep env fuel b i w = Done (tt, w') /\ g_head w' = answering (g_head w) /\
        numOfClients w' - Z.of_nat (length (g_head w')) = numOfClients w - Z.of_nat (length (g_head w)).
Proof.
  cbn zeta. revert i w. induction fuel as [|fuel IH]; intros i w Hd Hi Hf Hok; [exfalso; nia|].
  cbn [sweep]. run_m. destruct (g_head w !! i) as [node|] eqn:Hl.
  2:{ apply lookup_ge_None in Hl. rewrite take_ge in Hok by lia. exists w. by rewrite answering_all. }
  run_m. set (byte := env (trace w) (nn_send (sock node) b)). set (w1 := w <| trace := _ |>).
  pose proof (Hanswers (trace w) (sock node)) as Ha. fold byte in Ha.
  destruct (Z.eqb_spec byte (Z.of_nat (length b))) as [Hb|Hb]; cbn beta iota.
  - apply (IH (S i) w1); [done|apply lookup_lt_Some in Hl; cbn; lia|cbn; lia|].
    change (g_head w1) with (g_head w). rewrite (take_S_r _ _ _ Hl). apply Forall_app_2; [done|].
    apply Forall_singleton. by apply Ha.
  - assert (answers (sock node) = false) as Hno by (apply not_true_iff_false; by rewrite <-Ha).
    assert (node ∈ g_head w) as Hin by (by eapply list_elem_of_lookup_2).
    rewrite deleteFromList_run. change (g_head w1) with (g_head w).
    destruct (unlink_in (service_name node) (g_head w) node Hin eq_refl) as (c & l' & Hu). rewrite Hu.
    apply (unlink_unique _ _ node) in Hu as (-> & x & y & Hx & ->); [|done..].
    cbn beta iota zeta. rewrite Z.eqb_refl. rewrite Hx, answering_delete by done. rewrite Hx in Hd, Hf, Hi.
    rewrite length_app in *. cbn [length] in *.
    match goal with |- context [sweep _ _ _ _ ?v] => destruct (IH 0%nat v) as (w' & Hr & Hh & Hn) end.
    + cbn. rewrite map_app in *. cbn in Hd. apply NoDup_app in Hd as (H1 & H2 & [_ H3]%NoDup_cons).
      apply NoDup_app. split_and!; [done| |done]. intros z Hz Hz'. apply (H2 z Hz). by right.
    + apply Nat.le_0_l.
    + change (g_head _) with (x ++ y). rewrite length_app. nia.
    + constructor.
    + exists w'. split; [exact Hr|]. split; [exact Hh|]. revert Hn.
      change (g_head (_ <| trace := _ |>)) with (x ++ y). cbn [numOfClients]. rewrite length_app. cbn. lia.
Qed.
End answering.

(** ** Properties *)

(** A keep-alive sweep always ends, whatever the sockets answer, within
    [n*(n+1)+1] steps for [n] clients. It leaves a sublist of the clients with the
    count still right and nothing else changed, and its last calls are one complete
    send to each remaining client, in order. *)
Theorem sweep_terminates (env : oracle) (svc_bytes : bytes) (w : World)
    (Hinv : clients_inv w) :
  ∃ w', sweep env (sweep_fuel (length (g_head w))) svc_bytes 0 w = Done (tt, w') /\
    clients_inv w' /\ sublist (g_head w') (g_head w) /\
    (∃ pre, trace w' = pre ++ sent_to svc_bytes (g_head w')) /\
    w' = w <| g_head := g_head w' |> <| numOfClients := numOfClients w' |> <| trace := trace w' |>.
Proof.
  destruct (sweep_run env svc_bytes w (sweep_fuel (length (g_head w))) 0 w)
    as (w' & Hrun & Hi & Hs & _ & (pre & Ht) & Hw).
  - split; [done|]. split; [done|]. split; [lia|]. split; [|by destruct w].
    exists (trace w). by rewrite take_0, app_nil_r.
  - unfold sweep_fuel. lia.
  - exists w'. split; [done|]. split; [done|]. split; [done|]. split; [|done].
    exists pre. by rewrite Ht, take_ge.
Qed.

(** For sockets that either always or never take the whole message, the sweep, with its
    restarts from the head, comes to the same as keeping the clients that answer, as long
    as no name is listed twice. *)
Theorem sweep_is_filter (env : oracle) (svc_bytes : bytes) (answers : Z → bool) (w : World)
    (Hanswers : ∀ h s, env h (nn_send s svc_bytes) = Z.of_nat (length svc_bytes) ↔ answers s = true)
    (Hnames : NoDup (map service_name (g_head w)))
    (Hcount : numOfClients w = Z.of_nat (length (g_head w))) :
  ∃ w', sweep env (sweep_fuel (length (g_head w))) svc_bytes 0 w = Done (tt, w') /\
    g_head w' = filter (λ c, answers (sock c) = true) (g_head w) /\
    numOfClients w' = Z.of_nat (length (g_head w')).
Proof.
  destruct (sweep_answering env svc_bytes answers Hanswers (sweep_fuel (length (g_head w))) 0 w)
    as (w' & Hr & Hh & Hn); [done|lia|unfold sweep_fuel; lia|constructor|].
  exists w'. split; [done|]. split; [exact Hh|lia].
Qed.

Example sweep_terminates_witness :
  ∃ w', sweep env_ok (sweep_fuel (length (g_head world_example))) "alive" 0 world_example
    = Done (tt, w') /\ clients_inv w'.
Proof.
  destruct (sweep_terminates env_ok "alive" world_example) as (w' & Hrun & Hi & _); [by_eval|].
  exists w'. split; [exact Hrun|exact Hi].
Defined.

(** The socket 5 is dead. *)
Definition env_dead : oracle := λ h c,
  match c as c return ans c with
  | nn_send s b => if s =? 5 then -1 else Z.of_nat (length b)
  | c => env_ok h c
  end.

Example sweep_is_filter_witness :
  ∃ w', sweep env_dead (sweep_fuel (length (g_head world_example))) "alive" 0 world_example = Done (tt, w') /\
    map service_name (g_head w') = ["config"%cs] /\ numOfClients w' = 1.
Proof.
  destruct (sweep_is_filter env_dead "alive" (λ s, negb (s =? 5)) world_example) as (w' & Hr & Hh & Hn).
  - intros h s. cbn. destruct (s =? 5); cbn; [by split|done].
  - by_eval.
  - reflexivity.
  - exists w'. split; [exact Hr|]. rewrite Hn, Hh. by vm_compute.
Defined.
