(* ===== verification/Queue.v ===== *)
(** * The message queues between threads

    [UpStreamMsgQ] (producers [handle_upstream] and [addCRUDresponseToUpstreamQ],
    consumer [processUpstreamMessage]), [ParodusMsgQ] ([listenerOnMessage_queue],
    [messageHandlerTask]) and [crudMsgQ] ([addCRUDmsgToQueue], [CRUDHandlerTask]) are
    three copies of one protocol: a list, a mutex and a condition variable that is
    signalled when a message is put into the empty list, and once more by the main
    thread when the process shuts down. The step relation interleaves any number of
    producers, the consumer and the main thread; locking, waiting, signalling and the
    critical sections are separate steps, and waiting may end spuriously. *)

From S2P Require Import Prelude.

Section queue.
Context {A : Type}.

Inductive thread : Type := t_consumer | t_main | t_producer (p : nat).

(** The consumer's program points. *)
Inductive consumer_pc : Type :=
| c_lock                 (* before pthread_mutex_lock *)
| c_test                 (* holds the mutex *)
| c_process (m : A)      (* has unlinked [m] and unlocked *)
| c_before_wait          (* the list was empty, no shutdown; holds the mutex *)
| c_wait                 (* in pthread_cond_wait, asleep *)
| c_woken                (* signalled, has to get the mutex again *)
| c_unlock               (* returned from the wait; holds the mutex *)
| c_end.

Inductive producer_pc : Type :=
| p_idle
| p_lock (m : A)
| p_put (m : A)          (* holds the mutex *)
| p_signal               (* has put the first message; holds the mutex *)
| p_unlock.              (* holds the mutex *)

(** The main thread: [shutdownSocketConnection] sets the flag, the end of
    [createSocketConnection] signals. *)
Inductive main_pc : Type :=
| m_run
| m_lock                 (* the flag is set *)
| m_signal               (* holds the mutex *)
| m_unlock               (* holds the mutex *)
| m_done.

Record qstate : Type := mk_q {
  queue : list A;
  owner : option thread;
  shutdown : bool;
  consumer : consumer_pc;
  producers : nat → producer_pc;
  main : main_pc;
  produced : list A;     (* ghost: every message put, in order *)
  consumed : list A      (* ghost: every message unlinked, in order *)
}.
#[export] Instance qstate_settable : Settable qstate := λ s, mk_q
  (queue s) (owner s) (shutdown s) (consumer s) (producers s) (main s) (produced s) (consumed s).

Definition q_init : qstate := mk_q [] None false c_lock (λ _, p_idle) m_run [] [].

Definition set_producer (p : nat) (x : producer_pc) (s : qstate) : qstate :=
  s <| producers := λ i, if decide (i = p) then x else producers s i |>.

(** [pthread_cond_signal]: wakes the consumer if it is asleep. *)
Definition cond_signal (s : qstate) : qstate :=
  match consumer s with
  | c_wait => s <| consumer := c_woken |>
  | _ => s
  end.

(** The producer's critical section: set the head, to signal then, or append. *)
Definition put (m : A) (s : qstate) : qstate :=
  match queue s with
  | [] => s <| queue := [m] |> <| produced := produced s ++ [m] |>
  | _ :: _ => s <| queue := queue s ++ [m] |> <| produced := produced s ++ [m] |>
  end.
Definition after_put (s : qstate) : producer_pc :=
  match queue s with [] => p_signal | _ :: _ => p_unlock end.

(** The consumer's critical section. *)
Definition take_or_wait (s : qstate) : qstate :=
  match queue s with
  | m :: rest => s <| queue := rest |> <| consumed := consumed s ++ [m] |>
                   <| owner := None |> <| consumer := c_process m |>
  | [] => if shutdown s then s <| owner := None |> <| consumer := c_end |>
          else s <| consumer := c_before_wait |>
  end.

Inductive qstep : qstate → qstate → Prop :=
| s_consumer_lock s :
    consumer s = c_lock → owner s = None →
    qstep s (s <| owner := Some t_consumer |> <| consumer := c_test |>)
| s_consumer_test s :
    consumer s = c_test → qstep s (take_or_wait s)
| s_consumer_processed s m :
    consumer s = c_process m → qstep s (s <| consumer := c_lock |>)
| s_consumer_wait s :
    consumer s = c_before_wait → qstep s (s <| owner := None |> <| consumer := c_wait |>)
| s_consumer_spurious s :
    consumer s = c_wait → qstep s (s <| consumer := c_woken |>)
| s_consumer_reacquire s :
    consumer s = c_woken → owner s = None →
    qstep s (s <| owner := Some t_consumer |> <| consumer := c_unlock |>)
| s_consumer_unlock s :
    consumer s = c_unlock → qstep s (s <| owner := None |> <| consumer := c_lock |>)
| s_producer_message s p m :
    producers s p = p_idle → qstep s (set_producer p (p_lock m) s)
| s_producer_lock s p m :
    producers s p = p_lock m → owner s = None →
    qstep s (set_producer p (p_put m) (s <| owner := Some (t_producer p) |>))
| s_producer_put s p m :
    producers s p = p_put m → qstep s (set_producer p (after_put s) (put m s))
| s_producer_signal s p :
    producers s p = p_signal → qstep s (set_producer p p_unlock (cond_signal s))
| s_producer_unlock s p :
    producers s p = p_unlock → qstep s (set_producer p p_idle (s <| owner := None |>))
| s_main_shutdown s :
    main s = m_run → qstep s (s <| shutdown := true |> <| main := m_lock |>)
| s_main_lock s :
    main s = m_lock → owner s = None →
    qstep s (s <| owner := Some t_main |> <| main := m_signal |>)
| s_main_signal s :
    main s = m_signal → qstep s ((cond_signal s) <| main := m_unlock |>)
| s_main_unlock s :
    main s = m_unlock → qstep s (s <| owner := None |> <| main := m_done |>).

Inductive qsteps : qstate → qstate → Prop :=
| qs_refl s : qsteps s s
| qs_step s s' s'' : qstep s s' → qsteps s' s'' → qsteps s s''.

Definition reachable (s : qstate) : Prop := qsteps q_init s.

(** ** The abstract queue *)

(** What a queue promises its users: messages leave in the order they came. *)
Record abs_queue : Type := mk_abs { contents : list A; delivered : list A }.
Inductive abs_step : abs_queue → abs_queue → Prop :=
| a_put q d m : abs_step (mk_abs q d) (mk_abs (q ++ [m]) d)
| a_get q d m : abs_step (mk_abs (m :: q) d) (mk_abs q (d ++ [m])).

Definition abstraction (s : qstate) : abs_queue := mk_abs (queue s) (consumed s).

(** ** Invariant *)

(** Who holds the mutex, from the program points. *)
Definition holds_mutex (s : qstate) (t : thread) : Prop :=
  match t with
  | t_consumer => consumer s = c_test \/ consumer s = c_before_wait \/ consumer s = c_unlock
  | t_main => main s = m_signal \/ main s = m_unlock
  | t_producer p => (∃ m, producers s p = p_put m) \/ producers s p = p_signal \/ producers s p = p_unlock
  end.

(** A producer is about to signal. *)
Definition signal_pending (s : qstate) : Prop := ∃ p, producers s p = p_signal.

Record q_inv (s : qstate) : Prop := {
  inv_mutex : ∀ t, holds_mutex s t ↔ owner s = Some t;
  inv_seen : consumer s = c_before_wait → queue s = [];
  inv_asleep : consumer s = c_wait → queue s = [] \/ signal_pending s;
  inv_fifo : produced s = consumed s ++ queue s;
  inv_flag : shutdown s = true ↔ main s ≠ m_run;
  inv_signalled : main s = m_unlock \/ main s = m_done → consumer s ≠ c_wait;
  inv_before : consumer s = c_before_wait → main s ≠ m_unlock /\ main s ≠ m_done;
  inv_end : consumer s = c_end → shutdown s = true
}.
End queue.

(** ** Lemmas *)

Section queue_facts.
Context {A : Type}.
Implicit Types s : @qstate A.

Lemma q_init_inv : q_inv (@q_init A).
Proof.
  split; cbn; try done; try (by intros [?|?]).
  intros [| |p]; cbn; (split; [|done]); [by intros [?|[?|?]]|by intros [?|?]|by intros [[? ?]|[?|?]]].
Qed.

Lemma cond_signal_frame s :
  queue (cond_signal s) = queue s /\ owner (cond_signal s) = owner s /\
  shutdown (cond_signal s) = shutdown s /\ producers (cond_signal s) = producers s /\
  main (cond_signal s) = main s /\ produced (cond_signal s) = produced s /\
  consumed (cond_signal s) = consumed s /\
  consumer (cond_signal s) = match consumer s with c_wait => c_woken | c => c end.
Proof. unfold cond_signal. by destruct (consumer s) eqn:Hc; rewrite ?Hc. Qed.

Lemma put_frame m s :
  queue (put m s) = queue s ++ [m] /\ owner (put m s) = owner s /\
  shutdown (put m s) = shutdown s /\ producers (put m s) = producers s /\
  main (put m s) = main s /\ produced (put m s) = produced s ++ [m] /\
  consumed (put m s) = consumed s /\ consumer (put m s) = consumer s.
Proof. unfold put. by destruct (queue s). Qed.

Lemma after_put_cases s : after_put s = p_signal \/ (after_put s = p_unlock /\ queue s ≠ []).
Proof. unfold after_put. destruct (queue s); [by left|by right]. Qed.


(** *** The mutex *)

Definition mutex_ok s : Prop := ∀ t, holds_mutex s t ↔ owner s = Some t.
Definition others_same (t : thread) s s' : Prop :=
  ∀ t', t' ≠ t → holds_mutex s' t' ↔ holds_mutex s t'.

#[local] Instance thread_eq_dec : EqDecision thread.
Proof. solve_decision. Defined.

Lemma mutex_acquire t s s' :
  mutex_ok s → others_same t s s' → owner s = None → holds_mutex s' t → owner s' = Some t →
  mutex_ok s'.
Proof.
  intros Hm Ho Hn Hh Hs t'. destruct (decide (t' = t)) as [->|Hne]; [done|].
  rewrite (Ho t' Hne), (Hm t'). split; congruence.
Qed.

Lemma mutex_release t s s' :
  mutex_ok s → others_same t s s' → holds_mutex s t → ~ holds_mutex s' t → owner s' = None →
  mutex_ok s'.
Proof.
  intros Hm Ho Hh Hn Hs t'. apply Hm in Hh. destruct (decide (t' = t)) as [->|Hne].
  - split; [done|congruence].
  - rewrite (Ho t' Hne), (Hm t'). split; congruence.
Qed.

Lemma mutex_keep t s s' :
  mutex_ok s → others_same t s s' → (holds_mutex s' t ↔ holds_mutex s t) → owner s' = owner s →
  mutex_ok s'.
Proof.
  intros Hm Ho Hh Hs t'. rewrite Hs. destruct (decide (t' = t)) as [->|Hne].
  - rewrite Hh. apply Hm.
  - rewrite (Ho t' Hne). apply Hm.
Qed.

Lemma mutex_unique s t t' : mutex_ok s → holds_mutex s t → holds_mutex s t' → t = t'.
Proof. intros Hm H1 H2. apply Hm in H1, H2. congruence. Qed.

Lemma set_producer_other p x s p' :
  p' ≠ p → producers (set_producer p x s) p' = producers s p'.
Proof. intros. cbn. by rewrite decide_False. Qed.
Lemma set_producer_same p x s : producers (set_producer p x s) p = x.
Proof. cbn. by rewrite decide_True. Qed.

Lemma others_producer p x s s' :
  owner s' = owner s → consumer s' = consumer s \/ consumer s = c_wait /\ consumer s' = c_woken →
  producers s' = producers s → main s' = main s →
  others_same (t_producer p) s (set_producer p x s').
Proof.
  intros _ Hc Hp Hm [| |p'] Hne; cbn.
  - destruct Hc as [->|[-> ->]]; [done|]. split; intros [|[|]]; done.
  - by rewrite Hm.
  - rewrite decide_False by congruence. by rewrite Hp.
Qed.

Lemma pending_other p x s s' :
  producers s' = producers s → producers s p ≠ p_signal → signal_pending s → signal_pending (set_producer p x s').
Proof.
  intros Hs Hp [p' Hp']. exists p'. rewrite set_producer_other; [by rewrite Hs|]. by intros ->.
Qed.

(** *** Preservation *)

Ltac others := intros [| |?]; cbn; first [done|solve [intuition congruence]].
Ltac fields :=
  unfold signal_pending in *; cbn in *;
  first [done|solve [intros; congruence]|solve [intuition congruence]].

Lemma consumer_step_inv s s' :
  q_inv s → consumer s = c_test → s' = take_or_wait s → q_inv s'.
Proof.
  intros [Hmu He Hw Hf Hfl Hs Hb Hend] Hc ->.
  assert (Hhold : holds_mutex s t_consumer) by (cbn; auto).
  assert (Hmain : main s ≠ m_signal /\ main s ≠ m_unlock).
  { split; intros Hm; assert (H : holds_mutex s t_main) by (cbn; auto);
      by pose proof (mutex_unique s _ _ Hmu Hhold H). }
  unfold take_or_wait. destruct (queue s) as [|m q] eqn:Hq; [destruct (shutdown s) eqn:Hsh|].
  - split; try (clear Hmu; fields).
    apply (mutex_release t_consumer s); [done|others|done| |done]. cbn. by intros [|[|]].
  - assert (main s = m_run).
    { destruct (main s) eqn:Hms; [done|..];
        (assert (false = true) by (apply Hfl; congruence)); done. }
    split; try (clear Hmu; fields).
    apply (mutex_keep t_consumer s); [done|others| |done]. cbn. split; auto.
  - split; try (clear Hmu; fields).
    + apply (mutex_release t_consumer s); [done|others|done| |done]. cbn. by intros [|[|]].
    + cbn. by rewrite Hf, <-app_assoc.
Qed.

(** What a producer with the mutex knows of the others. *)
Lemma producer_alone s p :
  mutex_ok s → holds_mutex s (t_producer p) →
  consumer s ≠ c_before_wait /\ ∀ p', producers s p' = p_signal → p' = p.
Proof.
  intros Hmu Hhold. split.
  - intros Hc. assert (H : holds_mutex s t_consumer) by (cbn; auto).
    by pose proof (mutex_unique s _ _ Hmu Hhold H).
  - intros p' Hp. assert (H : holds_mutex s (t_producer p')) by (cbn; auto).
    pose proof (mutex_unique s _ _ Hmu Hhold H). congruence.
Qed.

Lemma producer_put_inv s p m :
  q_inv s → producers s p = p_put m → q_inv (set_producer p (after_put s) (put m s)).
Proof.
  intros [Hmu He Hw Hf Hfl Hs Hb Hend] Hp.
  assert (Hhold : holds_mutex s (t_producer p)) by (left; by exists m).
  destruct (producer_alone s p Hmu Hhold) as [Hnb Hone].
  destruct (put_frame m s) as (Hq' & Ho' & Hs' & Hp' & Hm' & Hpr' & Hco' & Hc').
  split; [|unfold signal_pending; cbn; rewrite ?Hq', ?Ho', ?Hs', ?Hm', ?Hpr', ?Hco', ?Hc'; try done..].
  - apply (mutex_keep (t_producer p) s); [done|by apply others_producer; auto| |exact Ho'].
    cbn. rewrite decide_True by done. rewrite Hp. split; [by left; exists m|].
    intros _. right. destruct (after_put_cases s) as [->|[-> _]]; auto.
  - intros Hc. right. exists p. rewrite decide_True by done.
    destruct (after_put_cases s) as [->|[_ Hne]]; [done|].
    destruct (Hw Hc) as [?|[p' Hp2]]; [done|]. pose proof (Hone p' Hp2) as ->. congruence.
  - by rewrite Hf, app_assoc.
Qed.

Lemma producer_signal_inv s p :
  q_inv s → producers s p = p_signal → q_inv (set_producer p p_unlock (cond_signal s)).
Proof.
  intros [Hmu He Hw Hf Hfl Hs Hb Hend] Hp.
  assert (Hhold : holds_mutex s (t_producer p)) by (right; by left).
  destruct (producer_alone s p Hmu Hhold) as [Hnb _].
  destruct (cond_signal_frame s) as (Hq' & Ho' & Hs' & Hp' & Hm' & Hpr' & Hco' & Hc').
  assert (Hcons : consumer (cond_signal s) = consumer s \/ consumer s = c_wait /\ consumer (cond_signal s) = c_woken)
    by (rewrite Hc'; destruct (consumer s); auto).
  assert (Hnw : consumer (cond_signal s) ≠ c_wait /\ consumer (cond_signal s) ≠ c_before_wait)
    by (rewrite Hc'; destruct (consumer s); split; congruence).
  split; [|unfold signal_pending; cbn; rewrite ?Hq', ?Ho', ?Hs', ?Hm', ?Hpr', ?Hco'; try done..].
  - apply (mutex_keep (t_producer p) s); [done|by apply others_producer| |exact Ho'].
    cbn. rewrite decide_True by done. rewrite Hp. split; [intros [[? ?]|[?|_]]; [done..|]; by right; left|].
    intros _. by right; right.
  - intros; by destruct Hnw.
  - intros; by destruct Hnw.
  - intros; by destruct Hnw.
  - intros; by destruct Hnw.
  - destruct Hcons as [->|[_ ->]]; done.
Qed.

Lemma main_signal_inv s :
  q_inv s → main s = m_signal → q_inv ((cond_signal s) <| main := m_unlock |>).
Proof.
  intros [Hmu He Hw Hf Hfl Hs Hb Hend] Hm.
  assert (Hhold : holds_mutex s t_main) by (cbn; auto).
  assert (Hnb : consumer s ≠ c_before_wait).
  { intros Hc. assert (H : holds_mutex s t_consumer) by (cbn; auto).
    by pose proof (mutex_unique s _ _ Hmu Hhold H). }
  destruct (cond_signal_frame s) as (Hq' & Ho' & Hs' & Hp' & Hm' & Hpr' & Hco' & Hc').
  assert (Hnw : consumer (cond_signal s) ≠ c_wait /\ consumer (cond_signal s) ≠ c_before_wait).
  { rewrite Hc'. destruct (consumer s); split; congruence. }
  split.
  - apply (mutex_keep t_main s); [done| | |exact Ho'].
    + intros [| |p'] Hne; cbn; [|done|by rewrite Hp'].
      rewrite Hc'. destruct (consumer s); try done. split; intros [|[|]]; done.
    + cbn. rewrite Hm. split; auto.
  - cbn. intros; by destruct Hnw.
  - cbn. intros; by destruct Hnw.
  - cbn. by rewrite Hpr', Hco', Hq', Hf.
  - cbn. rewrite Hs', Hfl, Hm. split; done.
  - cbn. intros _. by destruct Hnw.
  - cbn. intros. by destruct Hnw.
  - cbn. rewrite Hs', Hc'. by destruct (consumer s).
Qed.

Lemma step_inv s s' : q_inv s → qstep s s' → q_inv s'.
Proof.
  intros Hinv Hstep. pose proof Hinv as [Hmu He Hw Hf Hfl Hs Hb Hend].
  destruct Hstep as [s Hc Ho|s Hc|s m Hc|s Hc|s Hc|s Hc Ho|s Hc|s p m Hp|s p m Hp Ho|s p m Hp|s p Hp|s p Hp
                    |s Hm|s Hm Ho|s Hm|s Hm].
  - split; try (clear Hmu; fields). apply (mutex_acquire t_consumer s); [done|others|done|cbn; auto|done].
  - by eapply consumer_step_inv.
  - split; try (clear Hmu; fields). apply (mutex_keep t_consumer s); [done|others| |done].
    cbn. rewrite Hc. split; intros [|[|]]; done.
  - split; try (clear Hmu; fields).
    apply (mutex_release t_consumer s); [done|others|cbn; auto| |done]. cbn. by intros [|[|]].
  - split; try (clear Hmu; fields). apply (mutex_keep t_consumer s); [done|others| |done].
    cbn. rewrite Hc. split; intros [|[|]]; done.
  - split; try (clear Hmu; fields). apply (mutex_acquire t_consumer s); [done|others|done|cbn; auto|done].
  - split; try (clear Hmu; fields).
    apply (mutex_release t_consumer s); [done|others|cbn; auto| |done]. cbn. by intros [|[|]].
  - split; try (clear Hmu; fields).
    + apply (mutex_keep (t_producer p) s); [done|by apply others_producer; auto| |done].
      cbn. rewrite decide_True, Hp by done. split; intros [[? ?]|[|]]; done.
    + intros Hc. destruct (Hw Hc); [by left|right]. by apply (pending_other p _ s); [|congruence|].
  - split; try (clear Hmu; fields).
    + apply (mutex_acquire (t_producer p) s); [done| |done| |done].
      * intros [| |p'] Hne; cbn; [done|done|]. by rewrite decide_False by congruence.
      * cbn. rewrite decide_True by done. left. by eexists.
    + intros Hc. destruct (Hw Hc); [by left|right]. by apply (pending_other p _ s); [|congruence|].
  - by apply producer_put_inv.
  - by apply producer_signal_inv.
  - split; try (clear Hmu; fields).
    + apply (mutex_release (t_producer p) s); [done| |by right; right| |done].
      * intros [| |p'] Hne; cbn; [done|done|]. by rewrite decide_False by congruence.
      * cbn. rewrite decide_True by done. by intros [[? ?]|[|]].
    + intros Hc. destruct (Hw Hc); [by left|right]. by apply (pending_other p _ s); [|congruence|].
  - split; try (clear Hmu; fields).
    apply (mutex_keep t_main s); [done|others| |done]. cbn. rewrite Hm. split; intros [|]; done.
  - split; try (clear Hmu; fields).
    apply (mutex_acquire t_main s); [done|others|done|cbn; auto|done].
  - by apply main_signal_inv.
  - split; try (clear Hmu; fields).
    apply (mutex_release t_main s); [done|others|cbn; auto| |done]. cbn. by intros [|].
Qed.

Lemma steps_inv s s' : qsteps s s' → q_inv s → q_inv s'.
Proof. induction 1; [done|]. intros. by apply IHqsteps, (step_inv s). Qed.

Lemma reachable_inv s : reachable s → q_inv s.
Proof. intros H. by eapply steps_inv, q_init_inv. Qed.
End queue_facts.

(** *** Progress *)

Section queue_progress.
Context {A : Type}.
Implicit Types s : @qstate A.

Lemma qsteps_trans s s' s'' : qsteps s s' → qsteps s' s'' → qsteps s s''.
Proof. induction 1; [done|]. intros. econstructor; [done|]. by apply IHqsteps. Qed.

Lemma qsteps_one s s' : qstep s s' → qsteps s s'.
Proof. intros. by econstructor; [|constructor]. Qed.

(** The mutex is free for the consumer. *)
Definition mutex_free s : Prop := owner s = None \/ owner s = Some t_consumer.

Lemma free_mutex s :
  q_inv s → consumer s ≠ c_end →
  ∃ s', qsteps s s' /\ mutex_free s' /\ consumer s' ≠ c_end /\ consumed s' = consumed s /\
    (main s = m_done → main s' = m_done) /\ ∃ more, queue s' = queue s ++ more.
Proof.
  intros Hi Hc. pose proof (inv_mutex s Hi) as Hm.
  assert (Hnil : ∃ more, queue s = queue s ++ more) by (exists []; by rewrite app_nil_r).
  destruct (owner s) as [[| |p]|] eqn:Ho.
  - exists s. split; [constructor|]. split; [by right|]. done.
  - destruct (proj2 (Hm t_main) eq_refl) as [Hs|Hs].
    + destruct (cond_signal_frame s) as (Hq' & _ & _ & _ & _ & _ & Hco' & Hc').
      eexists; split; [eapply qs_step; [by apply s_main_signal|by apply qsteps_one, s_main_unlock]|].
      split; [by left|]. cbn. rewrite Hc', Hq', Hco', Hs. split; [by destruct (consumer s)|]. done.
    + eexists; split; [by apply qsteps_one, s_main_unlock|].
      split; [by left|]. cbn. done.
  - assert (Hunlock : ∀ s1, producers s1 p = p_unlock →
      qsteps s1 (set_producer p p_idle (s1 <| owner := None |>))) by (intros; by apply qsteps_one, s_producer_unlock).
    assert (Hsignal : ∀ s1, producers s1 p = p_signal →
      ∃ s2, qsteps s1 s2 /\ owner s2 = None /\ queue s2 = queue s1 /\ consumed s2 = consumed s1 /\ main s2 = main s1 /\
        (consumer s2 = c_end → consumer s1 = c_end)).
    { intros s1 Hp1. destruct (cond_signal_frame s1) as (Hq' & _ & _ & _ & Hm' & _ & Hco' & Hc').
      eexists; split; [eapply qs_step; [by apply s_producer_signal|apply Hunlock, set_producer_same]|].
      cbn. rewrite Hq', Hco', Hm', Hc'. split_and!; try done. by destruct (consumer s1). }
    destruct (proj2 (Hm (t_producer p)) eq_refl) as [[m Hp]|[Hp|Hp]].
    + destruct (put_frame m s) as (Hq' & _ & _ & _ & Hm' & _ & Hco' & Hc').
      pose proof (s_producer_put s p m Hp) as Hput. destruct (after_put_cases s) as [Ha|[Ha _]]; rewrite Ha in Hput.
      * destruct (Hsignal (set_producer p p_signal (put m s))) as (s2 & Hs2 & Ho2 & Hq2 & Hc2 & Hm2 & He2);
          [apply set_producer_same|]. cbn in Hq2, Hc2, Hm2, He2. rewrite Hq', Hco', Hm', Hc' in *.
        exists s2. split; [by econstructor|]. split; [by left|]. split; [auto|]. split; [done|].
        split; [congruence|]. by exists [m].
      * eexists; split; [eapply qs_step; [exact Hput|apply Hunlock, set_producer_same]|].
        split; [by left|]. cbn. rewrite Hc', Hq', Hco', Hm'. split; [done|]. split; [done|]. split; [done|]. by exists [m].
    + destruct (Hsignal s Hp) as (s2 & Hs2 & Ho2 & Hq2 & Hc2 & Hm2 & He2). exists s2. split; [done|].
      split; [by left|]. split; [auto|]. split; [done|]. split; [congruence|]. by rewrite Hq2.
    + eexists; split; [by apply Hunlock|]. split; [by left|]. cbn. done.
  - exists s. split; [constructor|]. split; [by left|]. done.
Qed.

(** What the consumer does next when nobody else holds the mutex and it has a
    reason not to sleep. *)
Definition advanced s s' : Prop :=
  qsteps s s' /\ owner s' = None /\ main s' = main s /\
  ((∃ m, consumed s' = consumed s ++ [m] /\ queue s = m :: queue s' /\ consumer s' ≠ c_end) \/
   (consumed s' = consumed s /\ queue s = [] /\ queue s' = [] /\ consumer s' = c_end)).

Lemma advance_test s :
  q_inv s → consumer s = c_test → queue s ≠ [] \/ main s = m_done → ∃ s', advanced s s'.
Proof.
  intros Hi Hc Hr. exists (take_or_wait s). split; [by apply qsteps_one, s_consumer_test|].
  unfold take_or_wait. destruct (queue s) as [|m q] eqn:Hq.
  - destruct Hr as [|Hd]; [done|].
    assert (shutdown s = true) as -> by (apply (inv_flag s Hi); congruence).
    split; [done|]. split; [done|]. right. by cbn.
  - split; [done|]. split; [done|]. left. by exists m.
Qed.

Lemma advance_lock s :
  q_inv s → consumer s = c_lock → owner s = None → queue s ≠ [] \/ main s = m_done →
  ∃ s', advanced s s'.
Proof.
  intros Hi Hc Ho Hr. pose proof (s_consumer_lock s Hc Ho) as Hstep.
  destruct (advance_test _ (step_inv _ _ Hi Hstep)) as (s' & Hs & Ho' & Hm & Hres); [done|done|].
  exists s'. split; [by econstructor|]. done.
Qed.

Lemma advance s :
  q_inv s → mutex_free s → consumer s ≠ c_end → queue s ≠ [] \/ main s = m_done →
  ∃ s', advanced s s'.
Proof.
  intros Hi Hf Hc Hr.
  assert (Hown : ∀ P : Prop, holds_mutex s t_consumer ↔ owner s = Some t_consumer)
    by (intros; apply (inv_mutex s Hi)). specialize (Hown True). cbn in Hown.
  assert (Hfree : ~ holds_mutex s t_consumer → owner s = None).
  { intros Hn. destruct Hf as [|Ho]; [done|]. by apply (inv_mutex s Hi) in Ho. }
  assert (Hsleep : ~ (consumer s = c_before_wait \/ consumer s = c_wait)).
  { intros [Hw|Hw]; destruct Hr as [Hq|Hd].
    - by apply Hq, (inv_seen s Hi).
    - by destruct (inv_before s Hi Hw).
    - destruct (inv_asleep s Hi Hw) as [?|[p Hp]]; [done|].
      assert (owner s = Some (t_producer p)) as Ho by (apply (inv_mutex s Hi); cbn; auto).
      destruct Hf; congruence.
    - by apply (inv_signalled s Hi); [right|]. }
  assert (Hgo : ∀ s1, qstep s s1 → consumer s1 = c_lock → owner s1 = None → queue s1 = queue s →
                main s1 = main s → consumed s1 = consumed s → ∃ s', advanced s s').
  { intros s1 Hstep H1 H2 H3 H4 H5.
    destruct (advance_lock s1 (step_inv _ _ Hi Hstep)) as (s' & Hs & Ho' & Hm & Hres);
      [done|done|by rewrite H3, H4|].
    exists s'. split; [by econstructor|]. split; [done|]. split; [congruence|]. by rewrite <-H3, <-H5. }
  destruct (consumer s) as [| |m| | | | |] eqn:Hcs; try (exfalso; by auto).
  - apply advance_lock; [done|done| |done]. apply Hfree. cbn. rewrite Hcs. intros [|[|]]; done.
  - by apply advance_test.
  - apply (Hgo _ (s_consumer_processed s m Hcs)); try done. apply Hfree. cbn. rewrite Hcs. intros [|[|]]; done.
  - assert (Ho : owner s = None) by (apply Hfree; cbn; rewrite Hcs; intros [|[|]]; done).
    pose proof (s_consumer_reacquire s Hcs Ho) as Hstep. pose proof (step_inv _ _ Hi Hstep) as Hi1.
    set (s1 := s <| owner := Some t_consumer |> <| consumer := c_unlock |>) in *.
    pose proof (s_consumer_unlock s1 eq_refl) as Hstep2.
    destruct (advance_lock _ (step_inv _ _ Hi1 Hstep2)) as (s' & Hs & Ho' & Hm & Hres); [done|done|done|].
    exists s'. split; [by do 2 (econstructor; [done|])|]. done.
  - by apply (Hgo _ (s_consumer_unlock s Hcs)).
Qed.

(** Draining a list of known length. *)
Lemma drain n s :
  q_inv s → mutex_free s → consumer s ≠ c_end → main s = m_done → length (queue s) = n →
  ∃ s', qsteps s s' /\ consumer s' = c_end /\ queue s' = [] /\ consumed s' = consumed s ++ queue s.
Proof.
  revert s. induction n as [|n IH]; intros s Hi Hf Hc Hd Hl;
    (destruct (advance s) as (s1 & Hs & Ho & Hm & [(m & Hcon & Hq & Hne)|(Hcon & Hq & Hq' & He)]);
      [done|done|done|by right| |]).
  - rewrite Hq in Hl. done.
  - exists s1. rewrite Hq, app_nil_r. done.
  - destruct (IH s1) as (s' & Hs' & He & Hq' & Hcon'); [by eapply steps_inv|by left|done|congruence| |].
    + rewrite Hq in Hl. simpl in Hl. lia.
    + exists s'. split; [by eapply qsteps_trans|]. split; [done|]. split; [done|].
      rewrite Hcon', Hcon, Hq, <-app_assoc. done.
  - by rewrite Hq in Hl.
Qed.
End queue_progress.

(** ** Properties *)

(** C11. The queue refines a FIFO: in every reachable state, whatever the
    interleaving of producers, consumer and shutdown, every step either leaves the
    abstract queue alone or is one abstract put or get, and the messages put so far
    are, in order, those unlinked followed by those in the list. *)
Theorem queue_refines_fifo {A : Type} (s s' : @qstate A)
    (Hr : reachable s) (Hstep : qstep s s') :
  (abstraction s' = abstraction s \/ abs_step (abstraction s) (abstraction s')) /\
  produced s' = consumed s' ++ queue s'.
Proof.
  split; [|exact (inv_fifo s' (step_inv s s' (reachable_inv s Hr) Hstep))].
  destruct Hstep as [s|s Hc|s|s|s|s|s|s|s|s p m|s p|s|s|s|s|s]; try (by left).
  - unfold abstraction, take_or_wait. destruct (queue s) as [|m q] eqn:Hq; [left|right; cbn; constructor].
    destruct (shutdown s); cbn; by rewrite Hq.
  - right. unfold abstraction. cbn. destruct (put_frame m s) as (-> & _ & _ & _ & _ & _ & -> & _).
    constructor.
  - left. unfold abstraction. cbn.
    by destruct (cond_signal_frame s) as (-> & _ & _ & _ & _ & _ & -> & _).
  - left. unfold abstraction. cbn.
    by destruct (cond_signal_frame s) as (-> & _ & _ & _ & _ & _ & -> & _).
Qed.

Example queue_refines_fifo_witness :
  let s := set_producer 0 (p_put 7%Z) ((set_producer 0 (p_lock 7%Z) q_init) <| owner := Some (t_producer 0) |>) in
  reachable s /\ produced (set_producer 0 p_signal (put 7%Z s)) = [7%Z].
Proof.
  cbn zeta.
  set (s := set_producer 0 (p_put 7%Z) ((set_producer 0 (p_lock 7%Z) q_init) <| owner := Some (t_producer 0) |>)).
  assert (Hr : reachable s).
  { eapply qs_step; [exact (s_producer_message q_init 0 7%Z eq_refl)|].
    eapply qs_step; [exact (s_producer_lock (set_producer 0 (p_lock 7%Z) q_init) 0 7%Z eq_refl eq_refl)|].
    apply qs_refl. }
  split; [exact Hr|].
  exact (proj2 (queue_refines_fifo s _ Hr (s_producer_put s 0 7%Z eq_refl))).
Defined.




