(* ===== verification/QueueHeap.v ===== *)
(** * The message queues in memory

    The three queues keep their messages in malloc'ed nodes: a producer links its node
    behind the last one, the consumer unlinks the first one, works on it without the mutex
    and frees it. Here a step of Queue is accompanied by what it does to the nodes. *)

From S2P Require Import Prelude Heap Queue.

Section queue_memory.
Context {A : Type}.

(** The nodes, the global that points to the first one, and [message] of the consumer. *)
Record qmem : Type := mk_qmem {
  cells : heap A;
  front : option loc;
  message : option loc
}.
#[export] Instance qmem_settable : Settable qmem := λ s, mk_qmem (cells s) (front s) (message s).

Definition qmem_init : qmem := mk_qmem ∅ None None.

Context (malloc : heap A → loc).

(** A producer: [message->msg = buf; message->next = NULL;], then it is linked. *)
Definition put_mem (m : A) (h : qmem) : outcome qmem :=
  '(c, f) ← append_node (cells h) (front h) (malloc (cells h)) m;
  Done (h <| cells := c |> <| front := f |>).

(** The consumer: [message = Q; Q = Q->next;] when the queue is not empty. *)
Definition take_mem (h : qmem) : outcome qmem :=
  match front h with
  | None => Done h
  | Some x => n ← load (cells h) x; Done (h <| front := next n |> <| message := Some x |>)
  end.

(** What the consumer works on. *)
Definition message_mem (h : qmem) : outcome A :=
  x ← deref_o (message h); n ← load (cells h) x; Done (data n).

(** [free (message); message = NULL;] *)
Definition free_mem (h : qmem) : outcome qmem :=
  x ← deref_o (message h);
  _ ← load (cells h) x;
  Done (h <| cells := delete x (cells h) |> <| message := None |>).

(** The message the consumer has unlinked and not yet freed. *)
Definition in_hand (s : @qstate A) : option A :=
  match consumer s with c_process m => Some m | _ => None end.

(** A step of the threads with its effect on the memory. *)
Inductive mstep : qstate → qmem → qstate → outcome qmem → Prop :=
| m_put s h p m :
    producers s p = p_put m → mstep s h (set_producer p (after_put s) (put m s)) (put_mem m h)
| m_take s h :
    consumer s = c_test → mstep s h (take_or_wait s) (take_mem h)
| m_processed s h m :
    consumer s = c_process m → mstep s h (s <| consumer := c_lock |>) (free_mem h)
| m_other s h s' :
    qstep s s' → queue s' = queue s → in_hand s' = in_hand s → mstep s h s' (Done h).

Inductive mreach : qstate → outcome qmem → Prop :=
| mr_init : mreach q_init (Done qmem_init)
| mr_step s h s' o : mreach s (Done h) → mstep s h s' o → mreach s' o.

(** What is allocated: the node the consumer works on and those of the queue, each once. *)
Definition cells_ok (s : @qstate A) (h : qmem) : Prop :=
  ∃ ps, seg (cells h) (front h) ps (queue s) None /\
    NoDup (option_list (message h) ++ ps) /\
    dom (cells h) = list_to_set (option_list (message h) ++ ps) /\
    match message h with
    | Some x => ∃ m n, in_hand s = Some m /\ cells h !! x = Some (mk_node m n)
    | None => in_hand s = None
    end.
End queue_memory.

(** ** Lemmas *)

Section queue_memory_facts.
Context {A : Type} (malloc : heap A → loc).
Implicit Types (s : @qstate A) (h : @qmem A).

Lemma mstep_qstep s h s' o : mstep malloc s h s' o → qstep s s'.
Proof.
  intros [s1 h1 p m Hp|s1 h1 Hc|s1 h1 m Hc|s1 h1 s2 Hq _ _]; [by constructor|by constructor|by econstructor|done].
Qed.

Lemma in_hand_put s p m : in_hand (set_producer p (after_put s) (put m s)) = in_hand s.
Proof.
  unfold in_hand. change (consumer (set_producer p (after_put s) (put m s))) with (consumer (put m s)).
  destruct (put_frame m s) as (_ & _ & _ & _ & _ & _ & _ & ->). done.
Qed.

Lemma put_ok s h p m :
  cells h !! malloc (cells h) = None → cells_ok s h →
  ∃ h', put_mem malloc m h = Done h' /\ cells_ok (set_producer p (after_put s) (put m s)) h'.
Proof.
  intros Hnew (ps & Hs & Hd & Hdom & Hm). pose proof Hd as (_ & Hx & Hps)%NoDup_app.
  destruct (append_node_seg _ _ ps _ (malloc (cells h)) m Hs Hps Hnew) as (c & f & Hr & Hs' & Hdom' & Hf).
  unfold put_mem. rewrite Hr. eexists. split; [done|].
  assert (malloc (cells h) ∉ option_list (message h) ++ ps) as Hfresh.
  { rewrite <-(elem_of_list_to_set (C := gset loc)), <-Hdom. by apply not_elem_of_dom. }
  exists (ps ++ [malloc (cells h)]). cbn. split; [|split; [|split]].
  - change (queue (set_producer p (after_put s) (put m s))) with (queue (put m s)).
    by destruct (put_frame m s) as (-> & _).
  - rewrite app_assoc. apply NoDup_app. split_and!; [done| |apply NoDup_singleton].
    by intros y Hy ->%list_elem_of_singleton.
  - rewrite Hdom', Hdom, app_assoc, (list_to_set_app_L (_ ++ ps)). set_solver.
  - rewrite in_hand_put. destruct (message h) as [x|]; [|done].
    rewrite Hf; [done|set_solver|apply Hx; by left].
Qed.

Lemma take_ok s h :
  consumer s = c_test → cells_ok s h → ∃ h', take_mem h = Done h' /\ cells_ok (take_or_wait s) h'.
Proof.
  intros Hc (ps & Hs & Hd & Hdom & Hm). assert (in_hand s = None) as Hhand by (unfold in_hand; by rewrite Hc).
  destruct (message h) as [x|] eqn:Hmsg; [destruct Hm as (? & ? & ? & _); congruence|]. cbn in Hd, Hdom.
  unfold take_mem, take_or_wait. rewrite (seg_head _ _ _ _ _ Hs).
  destruct ps as [|x ps], (queue s) as [|m q] eqn:Hq; try done.
  - exists h. split; [done|]. exists []. rewrite Hmsg. cbn.
    destruct (shutdown s); cbn; (split; [by rewrite Hq|]); by split_and!.
  - cbn in Hs. destruct Hs as (Hfront & n & Hx & Hs). rewrite (load_some _ _ _ Hx). eexists. split; [done|].
    exists ps. cbn. split; [done|]. split; [done|]. split; [done|]. by exists m, n.
Qed.

Lemma message_ok s h m : consumer s = c_process m → cells_ok s h → message_mem h = Done m.
Proof.
  intros Hc (ps & _ & _ & _ & Hm). assert (in_hand s = Some m) as Hhand by (unfold in_hand; by rewrite Hc).
  unfold message_mem. destruct (message h) as [x|]; [|congruence]. destruct Hm as (m' & n & Hm & Hx).
  cbn. rewrite (load_some _ _ _ Hx). cbn. congruence.
Qed.

Lemma free_ok s h m :
  consumer s = c_process m → cells_ok s h → ∃ h', free_mem h = Done h' /\ cells_ok (s <| consumer := c_lock |>) h'.
Proof.
  intros Hc (ps & Hs & Hd & Hdom & Hm). assert (in_hand s = Some m) as Hhand by (unfold in_hand; by rewrite Hc).
  unfold free_mem. destruct (message h) as [x|]; [|congruence]. destruct Hm as (m' & n & Hm & Hx).
  cbn. rewrite (load_some _ _ _ Hx). eexists. split; [done|]. cbn in Hd, Hdom.
  apply NoDup_cons in Hd as [Hxp Hps]. exists ps. cbn. split; [by apply seg_delete|]. split; [done|]. split; [|done].
  rewrite dom_delete_L, Hdom. set_solver.
Qed.

Context (Hmalloc : ∀ c, c !! malloc c = None).

Lemma mstep_ok s h s' o : mstep malloc s h s' o → cells_ok s h → ∃ h', o = Done h' /\ cells_ok s' h'.
Proof using Hmalloc.
  intros [s1 h1 p m Hp|s1 h1 Hc|s1 h1 m Hc|s1 h1 s2 Hq Hqueue Hhand] Hok.
  - destruct (put_ok s1 h1 p m (Hmalloc _) Hok) as (h' & -> & Hok'). by exists h'.
  - destruct (take_ok s1 h1 Hc Hok) as (h' & -> & Hok'). by exists h'.
  - destruct (free_ok s1 h1 m Hc Hok) as (h' & -> & Hok'). by exists h'.
  - exists h1. split; [done|]. destruct Hok as (ps & Hok). exists ps. by rewrite Hqueue, Hhand.
Qed.

(** A signal moves no message. *)
Lemma signal_queue (s : @qstate A) : queue (cond_signal s) = queue s.
Proof. apply cond_signal_frame. Qed.

Lemma signal_hand (s : @qstate A) : in_hand (cond_signal s) = in_hand s.
Proof. unfold in_hand, cond_signal. destruct (consumer s) eqn:Hc; cbn; by rewrite ?Hc. Qed.

(** Every step of the threads has its effect on the memory. *)
Lemma qstep_mstep s h s' : qstep s s' → ∃ o, mstep malloc s h s' o.
Proof.
  intros Hq. pose proof Hq as Hq'. destruct Hq'; try (eexists; apply m_other; [exact Hq|done|];
    unfold in_hand; cbn; match goal with Hc : consumer _ = _ |- _ => by rewrite Hc | _ => done end).
  - eexists. by apply m_take.
  - eexists. by eapply m_processed.
  - eexists. by eapply m_put.
  - eexists. apply m_other; [exact Hq| |]; [apply signal_queue|apply signal_hand].
  - eexists. apply m_other; [exact Hq| |]; [apply signal_queue|apply signal_hand].
Qed.
End queue_memory_facts.

(** ** Properties *)

(** C31. In every interleaving of the producers, the consumer and the main thread: no step
    touches a node that is not allocated, the nodes from the global are the messages of the
    queue in their order, the consumer's node carries the message it works on, and nothing
    else is allocated, so that nothing is when the consumer has ended and the queue is
    empty. Every state of the threads is reached with such a memory. *)
Theorem queue_memory_safe {A : Type} (malloc : heap A → loc) (Hmalloc : ∀ h, h !! malloc h = None) :
  (∀ s o, mreach malloc s o → ∃ h, o = Done h /\ cells_ok s h /\
     (∀ m, consumer s = c_process m → message_mem h = Done m) /\
     (consumer s = c_end → queue s = [] → cells h = ∅)) /\
  (∀ s, reachable s → ∃ h, mreach malloc s (Done h)).
Proof.
  assert (∀ s o, mreach malloc s o → ∃ h, o = Done h /\ cells_ok s h) as Hreach.
  { intros s o. induction 1 as [|s h s' o _ IH Hs].
    - eexists. split; [done|]. exists []. cbn. split; [done|]. split; [constructor|]. split; [by rewrite dom_empty_L|done].
    - destruct IH as (h' & [= <-] & Hok). by apply (mstep_ok malloc Hmalloc s h). }
  split.
  - intros s o Hr. destruct (Hreach s o Hr) as (h & -> & Hok). exists h. split; [done|]. split; [done|].
    split; [intros m Hc; by apply (message_ok s h)|]. intros Hc Hq. destruct Hok as (ps & Hs & _ & Hdom & Hm).
    rewrite Hq in Hs. destruct ps; [|done]. destruct (message h) as [x|]; [|by apply dom_empty_inv_L].
    destruct Hm as (m & n & Hm & _). unfold in_hand in Hm. by rewrite Hc in Hm.
  - intros s Hr. assert (∀ s s', qsteps s s' → ∀ h, mreach malloc s (Done h) → ∃ h', mreach malloc s' (Done h')) as Hs.
    { clear s Hr. intros s s'. induction 1 as [s|s s1 s' Hq _ IH]; intros h Hr; [by exists h|].
      destruct (qstep_mstep malloc s h s1 Hq) as [o Ho]. pose proof (mr_step _ _ _ _ _ Hr Ho) as Hr1.
      destruct (Hreach s1 o Hr1) as (h1 & -> & _). by apply (IH h1). }
    apply (Hs q_init s Hr qmem_init). constructor.
Qed.

(** ** Witness *)

Definition malloc_next : heap nat → loc := λ h, fresh (dom h : gset loc).

(** One message, put by producer 0 and taken. *)
Lemma one_message : ∃ s, reachable s /\ consumer s = c_process 7%nat.
Proof.
  eexists. split.
  - eapply qs_step; [apply (s_producer_message q_init 0 7); done|].
    eapply qs_step; [apply (s_producer_lock _ 0 7); done|].
    eapply qs_step; [apply (s_producer_put _ 0 7); done|].
    eapply qs_step; [apply (s_producer_signal _ 0); done|].
    eapply qs_step; [apply (s_producer_unlock _ 0); done|].
    eapply qs_step; [apply s_consumer_lock; done|].
    eapply qs_step; [apply s_consumer_test; done|]. apply qs_refl.
  - done.
Qed.

Example queue_memory_safe_witness :
  ∃ s h, mreach malloc_next s (Done h) /\ consumer s = c_process 7%nat /\ message_mem h = Done 7%nat.
Proof.
  destruct (queue_memory_safe malloc_next) as [H1 H2].
  - intros h. apply (not_elem_of_dom (D := gset loc)). exact (is_fresh (dom h : gset loc)).
  - destruct one_message as (s & Hs & Hc). destruct (H2 s Hs) as [h Hr]. exists s, h.
    destruct (H1 s _ Hr) as (h' & [= <-] & _ & Hm & _). split; [exact Hr|]. split; [exact Hc|]. exact (Hm 7%nat Hc).
Defined.
