(* ===== verification/Nopoll.v ===== *)
(** * nopoll_helpers.c and nopoll_handlers.c

    Sending a message as WebSocket frames of at most 60 KiB, and the callbacks noPoll
    makes: received messages are queued (fragments joined first), a ping resets the
    heartbeat, a close records a reason and asks for a reconnection. *)

From S2P Require Import Prelude StringHelpers Timers Config Wrp World.
Local Open Scope cs_scope.
Local Open Scope Z_scope.

(** The library's message operations: [nopoll_msg_join] makes the message that
    continues an earlier one. *)
Class NopollLib : Set := {
  nopoll_msg_join : option noPollMsg → noPollMsg → option noPollMsg;
  NOPOLL_PING_FRAME : Z;
  nopoll_base64_encode : cstring → Z → option cstring
}.
Class NopollLaws `{NopollLib} : Prop := {
  join_first : ∀ m, nopoll_msg_join None m = Some m;
  join_next : ∀ p m a b, msg_payload p = Some a → msg_payload m = Some b →
    ∃ j, nopoll_msg_join (Some p) m = Some j /\ msg_payload j = Some (a ++ b)%list
}.

Definition MAX_SEND_SIZE : nat := Z.to_nat (60 * 1024).
Definition FLUSH_WAIT_TIME : Z := 2000000.

Section helpers.
Context (env : oracle).

(** [get_global_conn] is read when a handler is installed. *)
Definition setMessageHandlers : M World unit :=
  c ← gets g_conn; call env (nopoll_set_handlers c).

Definition cloud_status_is_online (cfg : ParodusCfg) : bool :=
  match cloud_status cfg with
  | None => false
  | Some status => streq status CLOUD_STATUS_ONLINE
  end.

(** The loop of [sendResponse]: [cp] is what is left to send. *)
Fixpoint sendResponse_loop (fuel : nat) (conn : option noPollConn) (cp : bytes)
    (final_len_sent : Z) (frame_type : noPollOpCode) : M World Z :=
  match cp with
  | [] => mret final_len_sent
  | _ :: _ =>
      match fuel with
      | O => nofuel
      | S fuel =>
          let len_to_send := if (MAX_SEND_SIZE <? length cp)%nat then MAX_SEND_SIZE else length cp in
          let rest := drop len_to_send cp in
          let fin := negb (0 <? length rest)%nat in
          bytes_sent ← call env (nopoll_send_common conn (take len_to_send cp) fin frame_type);
          let next := sendResponse_loop fuel conn rest (final_len_sent + Z.of_nat len_to_send)
                        NOPOLL_CONTINUATION_FRAME in
          if bytes_sent =? Z.of_nat len_to_send then next
          else if bytes_sent =? -1 then mret final_len_sent
          else
            flushed ← call env (nopoll_flush_writes conn FLUSH_WAIT_TIME bytes_sent);
            if flushed =? Z.of_nat len_to_send then next else mret final_len_sent
      end
  end.

Definition sendResponse (conn : option noPollConn) (buffer : bytes) : M World Z :=
  sendResponse_loop (length buffer) conn buffer 0 NOPOLL_BINARY_FRAME.

Definition sendMessage (conn : option noPollConn) (msg : bytes) : M World unit :=
  cfg ← gets parodusCfg;
  if negb (cloud_status_is_online cfg) then mret tt
  else _ ← sendResponse conn msg; mret tt.
End helpers.

Section handlers.
Context `{NopollLib} (env : oracle).

(** The producer of [ParodusMsgQ]. *)
Definition enqueue_parodus (payload : option bytes) : M World unit :=
  modify (λ w, w <| ParodusMsgQ := ParodusMsgQ w ++ [payload] |> <| previous_msg := None |>).

Definition listenerOnMessage_queue (msg : noPollMsg) : M World unit :=
  when (msg_is_fragment msg)
    (modify (λ w, w <| previous_msg := nopoll_msg_join (previous_msg w) msg |>));;
  if msg_is_fragment msg && negb (msg_is_final msg) then mret tt
  else
    p ← gets previous_msg;
    match p with
    | Some prev => enqueue_parodus (msg_payload prev)
    | None => enqueue_parodus (msg_payload msg)
    end.

Definition listenerOnPingMessage (msg : noPollMsg) : M World unit :=
  match msg_payload msg with
  | None => mret tt
  | Some _ =>
      when (msg_opcode msg =? NOPOLL_PING_FRAME)
        (modify (λ w, w <| heart := reset_heartBeatTimer (heart w) |>))
  end.

Definition set_close_retry : M World unit := modify (λ w, w <| close_retry := true |>).
Definition reset_close_retry : M World unit := modify (λ w, w <| close_retry := false |>).

Definition listenerOnCloseMessage (conn : noPollConn) : M World unit :=
  closeStatus ← call env (nopoll_get_close_status conn);
  reconnect_status ← gets LastReasonStatus;
  (if (closeStatus =? 1006) && negb reconnect_status then
     modify (λ w, w <| reconnect_reason := Some ("SSL_Socket_Close"%cs) |> <| LastReasonStatus := true |>)
   else if negb reconnect_status then
     modify (λ w, w <| reconnect_reason := Some ("Unknown"%cs) |>)
   else mret tt);;
  down ← get_interface_down_event env;
  when (negb down) set_close_retry.

(** The callbacks of one [nopoll_loop_wait]. *)
Definition conn_callback (conn : noPollConn) (e : conn_event) : M World unit :=
  match e with
  | on_msg m => listenerOnMessage_queue m
  | on_ping m => listenerOnPingMessage m
  | on_close => listenerOnCloseMessage conn
  end.
End handlers.

(** ** Specification *)

(** The frames a message is cut into: payload, FIN bit, opcode. *)
Definition frame : Set := bytes * bool * noPollOpCode.

Fixpoint frames_from (fuel : nat) (b : bytes) (op : noPollOpCode) : list frame :=
  match b, fuel with
  | [], _ | _, O => []
  | _, S fuel =>
      let rest := drop MAX_SEND_SIZE b in
      (take MAX_SEND_SIZE b, bool_decide (rest = []), op)
        :: frames_from fuel rest NOPOLL_CONTINUATION_FRAME
  end.
Definition frames (b : bytes) : list frame := frames_from (length b) b NOPOLL_BINARY_FRAME.

Definition frame_payload (f : frame) : bytes := fst (fst f).
Definition frame_fin (f : frame) : bool := snd (fst f).
Definition frame_op (f : frame) : noPollOpCode := snd f.

(** The frames handed to noPoll in a trace, whatever noPoll makes of them. *)
Fixpoint frames_sent (l : list event) : list frame :=
  match l with
  | [] => []
  | existT (nopoll_send_common _ b fin op) _ :: rest => (b, fin, op) :: frames_sent rest
  | _ :: rest => frames_sent rest
  end.

(** Those of them noPoll has taken, at once or when it was told to flush. *)
Fixpoint frames_taken (l : list event) : list frame :=
  match l with
  | [] => []
  | existT (nopoll_send_common _ b fin op) sent :: rest =>
      let flushed := match rest with
                     | existT (nopoll_flush_writes _ _ _) n :: _ => n =? Z.of_nat (length b)
                     | _ => false
                     end in
      if (sent =? Z.of_nat (length b)) || (negb (sent =? -1) && flushed) then (b, fin, op) :: frames_taken rest else frames_taken rest
  | _ :: rest => frames_taken rest
  end.

Definition payload_length (fs : list frame) : nat := sum_list (map (λ f, length (frame_payload f)) fs).

(** ** Lemmas *)

Lemma max_send_pos : (0 < MAX_SEND_SIZE)%nat.
Proof. unfold MAX_SEND_SIZE. lia. Qed.
#[local] Opaque MAX_SEND_SIZE.

Lemma frames_sent_app (a b : list event) : frames_sent (a ++ b) = frames_sent a ++ frames_sent b.
Proof.
  induction a as [|[c x] a IH]; [done|]. simpl. destruct c; try exact IH. simpl. by rewrite IH.
Qed.

Lemma frames_from_payload (fuel : nat) (b : bytes) (op : noPollOpCode) :
  (length b <= fuel)%nat →
  concat (map frame_payload (frames_from fuel b op)) = b /\
  Forall (λ f, 0 < length (frame_payload f) <= MAX_SEND_SIZE)%nat (frames_from fuel b op).
Proof.
  pose proof max_send_pos. revert b op.
  induction fuel as [|fuel IH]; intros [|x b] op Hl; simpl in Hl; try (by split); try lia.
  cbn [frames_from map concat].
  destruct (IH (drop MAX_SEND_SIZE (x :: b)) NOPOLL_CONTINUATION_FRAME) as [H1 H2].
  { rewrite length_drop. simpl. lia. }
  split.
  - rewrite H1. apply take_drop.
  - constructor; [|done]. unfold frame_payload; simpl fst. rewrite length_take. simpl. lia.
Qed.

Lemma frames_from_flags (fuel : nat) (b : bytes) (op : noPollOpCode) (i : nat) (f : frame) :
  (length b <= fuel)%nat → frames_from fuel b op !! i = Some f →
  frame_op f = (if decide (i = 0%nat) then op else NOPOLL_CONTINUATION_FRAME) /\
  (frame_fin f = true ↔ S i = length (frames_from fuel b op)).
Proof.
  pose proof max_send_pos. revert b op i.
  induction fuel as [|fuel IH]; intros [|x b] op i Hl; simpl in Hl; try done; try lia.
  cbn [frames_from].
  assert (Hd : (length (drop MAX_SEND_SIZE (x :: b)) <= fuel)%nat)
    by (rewrite length_drop; simpl; lia).
  destruct i as [|i]; cbn [lookup list_lookup length].
  - intros [= <-]. split; [done|]. unfold frame_fin; simpl snd; simpl fst.
    rewrite bool_decide_eq_true. split.
    + intros ->. by destruct fuel.
    + intros Hlen. destruct (frames_from_payload fuel (drop MAX_SEND_SIZE (x :: b))
        NOPOLL_CONTINUATION_FRAME Hd) as [<- _].
      by destruct (frames_from _ _ _).
  - intros Hi. destruct (IH _ _ _ Hd Hi) as [H1 H2]. split.
    + rewrite H1. by repeat case_decide.
    + rewrite H2. lia.
Qed.
Lemma len_to_send_take (cp : bytes) :
  let n := if (MAX_SEND_SIZE <? length cp)%nat then MAX_SEND_SIZE else length cp in
  take n cp = take MAX_SEND_SIZE cp /\ drop n cp = drop MAX_SEND_SIZE cp /\
  n = length (take MAX_SEND_SIZE cp).
Proof.
  cbn zeta. destruct (Nat.ltb_spec MAX_SEND_SIZE (length cp)).
  - rewrite length_take. repeat split. lia.
  - rewrite !take_ge, !drop_ge by lia. done.
Qed.

Lemma fin_flag (l : bytes) : negb (0 <? length l)%nat = bool_decide (l = []).
Proof. destruct l; [done|]. symmetry. by apply bool_decide_eq_false. Qed.

(** One run of the loop: the frames handed over are the first ones of the message,
    and the result counts those accepted. *)
Definition loop_result (fs : list frame) (acc : Z) (w : World) (r : outcome (Z * World)) : Prop :=
  ∃ k new, r = Done (acc + Z.of_nat (payload_length (take k fs)), w <| trace := trace w ++ new |>) /\
    ((k = length fs /\ frames_sent new = fs) \/
     ((k < length fs)%nat /\ frames_sent new = take (S k) fs)).

Lemma loop_result_cons (fs : list frame) (f : frame) (acc : Z) (w : World) (es : list event)
    (r : outcome (Z * World)) :
  frames_sent es = [f] →
  loop_result fs (acc + Z.of_nat (length (frame_payload f))) (w <| trace := trace w ++ es |>) r →
  loop_result (f :: fs) acc w r.
Proof.
  intros Hes (k & new & -> & Hk). exists (S k), (es ++ new). split.
  - assert (E : acc + Z.of_nat (length (frame_payload f)) + Z.of_nat (payload_length (take k fs)) =
                acc + Z.of_nat (payload_length (take (S k) (f :: fs))))
      by (unfold payload_length; simpl; lia).
    rewrite E. cbn. by rewrite app_assoc.
  - rewrite frames_sent_app, Hes. cbn. destruct Hk as [[-> ->]|[? ->]]; [left|right]; split; [done|done|lia|done].
Qed.

Lemma loop_result_stop (fs : list frame) (f : frame) (acc : Z) (w : World) (es : list event) :
  frames_sent es = [f] →
  loop_result (f :: fs) acc w (Done (acc, w <| trace := trace w ++ es |>)).
Proof.
  intros Hes. exists 0%nat, es. split; [|right; simpl; split; [lia|done]].
  unfold payload_length. simpl. by rewrite Z.add_0_r.
Qed.

Section send_facts.
Context (env : oracle) (conn : option noPollConn).

Lemma sendResponse_loop_run (fuel : nat) (cp : bytes) (acc : Z) (op : noPollOpCode) (w : World) :
  (length cp <= fuel)%nat →
  loop_result (frames_from fuel cp op) acc w (sendResponse_loop env fuel conn cp acc op w).
Proof.
  pose proof max_send_pos. revert cp acc op w.
  induction fuel as [|fuel IH]; intros [|x cp] acc op w Hl; simpl in Hl; try lia.
  1, 2: exists 0%nat, []; cbn; rewrite app_nil_r, Z.add_0_r; split; [by destruct w|by left].
  cbn [sendResponse_loop frames_from].
  destruct (len_to_send_take (x :: cp)) as (Ht & Hd & Hn). cbn zeta in *. rewrite Ht, Hd, fin_flag.
  set (n := if (_ <? _)%nat then _ else _) in *. clearbody n. rewrite Hn.
  set (f := (take MAX_SEND_SIZE (x :: cp), bool_decide (drop MAX_SEND_SIZE (x :: cp) = []), op)).
  assert (Hrest : (length (drop MAX_SEND_SIZE (x :: cp)) <= fuel)%nat)
    by (rewrite length_drop; simpl; lia).
  run_m. set (sent := env _ _).
  set (e1 := ev _ sent). assert (He1 : frames_sent [e1] = [f]) by done. clearbody e1.
  destruct (sent =? _); cbn beta iota.
  { apply (loop_result_cons _ f acc w [e1] _ He1). by apply IH. }
  destruct (sent =? -1); cbn beta iota; [by apply loop_result_stop|].
  set (fl := env _ (nopoll_flush_writes _ _ _)). set (e2 := ev _ fl).
  assert (He2 : frames_sent ([e1] ++ [e2]) = [f]) by (rewrite frames_sent_app, He1; done). clearbody e2.
  match goal with |- context [trace ?w1 ++ [e2]] =>
    change (trace w1 ++ [e2]) with ((trace w ++ [e1]) ++ [e2]) end.
  rewrite <-app_assoc.
  destruct (fl =? _); cbn beta iota.
  - apply (loop_result_cons _ f acc w ([e1] ++ [e2]) _ He2). by apply IH.
  - by apply (loop_result_stop _ f acc w ([e1] ++ [e2])).
Qed.

Lemma sendResponse_run (buffer : bytes) (w : World) :
  loop_result (frames buffer) 0 w (sendResponse env conn buffer w).
Proof. by apply sendResponse_loop_run. Qed.
End send_facts.

Lemma payload_length_app (a b : list frame) :
  payload_length (a ++ b) = (payload_length a + payload_length b)%nat.
Proof. unfold payload_length. by rewrite map_app, sum_list_with_app || (induction a; simpl; lia). Qed.

Lemma payload_length_concat (fs : list frame) :
  payload_length fs = length (concat (map frame_payload fs)).
Proof. unfold payload_length. induction fs; simpl; [done|]. rewrite length_app. lia. Qed.

Lemma payload_length_take (fs : list frame) (k : nat) :
  Forall (λ f, 0 < length (frame_payload f))%nat fs → (k < length fs)%nat →
  (payload_length (take k fs) < payload_length fs)%nat.
Proof.
  intros Hf Hk. rewrite <-(take_drop k fs) at 2. rewrite payload_length_app.
  destruct (drop k fs) as [|f rest] eqn:Hd.
  - apply (f_equal length) in Hd. rewrite length_drop in Hd. simpl in Hd. lia.
  - assert (f ∈ fs) by (rewrite <-(take_drop k fs), Hd, elem_of_app, elem_of_cons; auto).
    rewrite Forall_forall in Hf. specialize (Hf f ltac:(done)). unfold payload_length. simpl. lia.
Qed.

Lemma listenerOnMessage_queue_run `{NopollLib} (m : noPollMsg) (w : World) :
  listenerOnMessage_queue m w =
    Done (tt,
      if msg_is_fragment m && negb (msg_is_final m)
      then w <| previous_msg := nopoll_msg_join (previous_msg w) m |>
      else
        let prev := if msg_is_fragment m then nopoll_msg_join (previous_msg w) m else previous_msg w in
        w <| ParodusMsgQ := ParodusMsgQ w ++ [msg_payload (default m prev)] |>
          <| previous_msg := None |>).
Proof.
  unfold listenerOnMessage_queue, enqueue_parodus. run_m.
  destruct (msg_is_fragment m); cbn [andb].
  - destruct (msg_is_final m); [|done]. cbn [negb]. cbn beta iota.
    change (previous_msg (w <| previous_msg := nopoll_msg_join (previous_msg w) m |>))
      with (nopoll_msg_join (previous_msg w) m).
    by destruct (nopoll_msg_join (previous_msg w) m).
  - by destruct (previous_msg w).
Qed.

(** Several messages, one callback each. *)
Fixpoint receive_all `{NopollLib} (ms : list noPollMsg) : M World unit :=
  match ms with
  | [] => mret tt
  | m :: rest => listenerOnMessage_queue m;; receive_all rest
  end.

Lemma join_payload `{NopollLaws} (m : noPollMsg) (b p0 : bytes) (prev : option noPollMsg) :
  msg_payload m = Some b →
  match prev with Some p => msg_payload p = Some p0 | None => p0 = [] end →
  ∃ j, nopoll_msg_join prev m = Some j /\ msg_payload j = Some (p0 ++ b)%list.
Proof.
  intros Hm Hp. destruct prev as [p|]; [by apply join_next|]. subst p0. exists m. by rewrite join_first.
Qed.

Abbreviation partial := (Forall2 (λ m b, msg_is_fragment m = true /\ msg_is_final m = false /\ msg_payload m = Some b)).

(** Fragments without a final one are kept aside. *)
Lemma receive_partial `{NopollLaws} (ms : list noPollMsg) (bs : list bytes) (prev : option noPollMsg)
    (p0 : bytes) (w : World) :
  previous_msg w = prev →
  match prev with Some p => msg_payload p = Some p0 | None => p0 = [] end → partial ms bs →
  ∃ prev', receive_all ms w = Done (tt, w <| previous_msg := prev' |>) /\
    match prev' with
    | Some p => msg_payload p = Some (p0 ++ concat bs)%list
    | None => ms = [] /\ prev = None /\ p0 = []
    end.
Proof.
  intros Hprev Hp0 Hms. revert prev p0 w Hprev Hp0.
  induction Hms as [|m b ms bs (Hmf & Hmn & Hmb) _ IH]; intros prev p0 w Hprev Hp0; cbn [receive_all concat].
  - exists prev. rewrite app_nil_r. split; [by destruct w; cbn in *; subst|]. by destruct prev.
  - rewrite (bind_Done _ _ _ _ _ (listenerOnMessage_queue_run m w)). rewrite Hmf, Hmn.
    cbn [andb negb]. rewrite Hprev. destruct (join_payload m b p0 prev Hmb Hp0) as (j & -> & Hj).
    destruct (IH (Some j) (p0 ++ b)%list (w <| previous_msg := Some j |>)) as (prev' & -> & Hp'); [done|done|].
    exists prev'. split; [done|]. destruct prev' as [p|]; [by rewrite <-app_assoc in Hp'|]. by destruct Hp' as (_ & [=] & _).
Qed.

Lemma receive_fragments `{NopollLaws} (ms : list noPollMsg) (prev : option noPollMsg)
    (p0 : bytes) (last : noPollMsg) (bl : bytes) (bs : list bytes) (w : World) :
  previous_msg w = prev →
  match prev with Some p => msg_payload p = Some p0 | None => p0 = [] end →
  Forall2 (λ m b, msg_is_fragment m = true /\ msg_is_final m = false /\ msg_payload m = Some b) ms bs →
  msg_is_fragment last = true → msg_is_final last = true → msg_payload last = Some bl →
  receive_all (ms ++ [last]) w =
    Done (tt, w <| ParodusMsgQ := ParodusMsgQ w ++ [Some (p0 ++ concat bs ++ bl)%list] |>
                <| previous_msg := None |>).
Proof.
  intros Hprev Hp0 Hms Hf Hfin Hbl.
  assert (∀ v, receive_all (ms ++ [last]) v = (receive_all ms;; listenerOnMessage_queue last) v) as Happ.
  { clear. induction ms as [|m ms IH]; intros v; cbn [app receive_all].
    - rewrite (bind_Done _ _ _ _ _ (listenerOnMessage_queue_run last v)).
      symmetry. exact (listenerOnMessage_queue_run last v).
    - rewrite (bind_Done _ _ _ _ _ (listenerOnMessage_queue_run m v)), IH. unfold mbind, M_bind.
      by rewrite (listenerOnMessage_queue_run m v). }
  rewrite (Happ w). destruct (receive_partial ms bs prev p0 w Hprev Hp0 Hms) as (prev' & Hr & Hp').
  rewrite (bind_Done _ _ _ _ _ Hr), listenerOnMessage_queue_run, Hf, Hfin. cbn [andb negb].
  change (previous_msg (w <| previous_msg := prev' |>)) with prev'.
  destruct (join_payload last bl (p0 ++ concat bs)%list prev' Hbl) as (j & -> & Hj).
  { destruct prev' as [p|]; [exact Hp'|]. destruct Hp' as (Hnil & _ & ->). rewrite Hnil in Hms. by inversion_clear Hms. }
  cbn. by rewrite Hj, <-app_assoc.
Qed.

(** ** Properties *)

(** [sendResponse] cuts a message into frames of 1 to 61440 bytes whose payloads
    concatenate to it, the first a binary frame and the others continuation frames,
    with FIN on the last one only. Whatever noPoll answers, the frames handed over are
    the first ones of that sequence, in order, and nothing else of the state changes;
    the result is the length of those that went out, which is the length of the
    message exactly when all did. *)
Theorem sendResponse_fragments (env : oracle) (conn : option noPollConn) (buffer : bytes) (w : World) :
  let fs := frames buffer in
  (concat (map frame_payload fs) = buffer /\
   Forall (λ f, 0 < length (frame_payload f) <= MAX_SEND_SIZE)%nat fs /\
   ∀ i f, fs !! i = Some f →
     frame_op f = (if decide (i = 0%nat) then NOPOLL_BINARY_FRAME else NOPOLL_CONTINUATION_FRAME) /\
     (frame_fin f = true ↔ S i = length fs)) /\
  ∃ k new, let result := Z.of_nat (payload_length (take k fs)) in
    sendResponse env conn buffer w = Done (result, w <| trace := trace w ++ new |>) /\
    ((k = length fs /\ frames_sent new = fs /\ result = Z.of_nat (length buffer)) \/
     ((k < length fs)%nat /\ frames_sent new = take (S k) fs /\ result < Z.of_nat (length buffer))).
Proof.
  cbn zeta. destruct (frames_from_payload (length buffer) buffer NOPOLL_BINARY_FRAME) as [Hc Hf]; [lia|].
  fold (frames buffer) in Hc, Hf. split.
  { split; [done|]. split; [done|]. intros i f Hi. by apply (frames_from_flags (length buffer) buffer). }
  assert (Hlen : payload_length (frames buffer) = length buffer)
    by (by rewrite payload_length_concat, Hc).
  destruct (sendResponse_run env conn buffer w) as (k & new & -> & Hk). exists k, new.
  split; [done|]. destruct Hk as [[Hk Hs]|[Hk Hs]]; [left|right]; (split; [done|]; split; [done|]).
  - rewrite Hk, take_ge by lia. lia.
  - assert (Forall (λ f, 0 < length (frame_payload f))%nat (frames buffer))
      by (eapply Forall_impl; [exact Hf|]; intros; simpl in *; lia).
    pose proof (payload_length_take (frames buffer) k ltac:(done) Hk). lia.
Qed.

(** C40. A message that arrives as fragments is queued once, when its final fragment
    arrives, with the concatenation of the fragments as payload; nothing is left over
    for the next message. *)
Theorem fragments_joined `{NopollLaws} (ms : list noPollMsg) (bs : list bytes)
    (last : noPollMsg) (bl : bytes) (w : World)
    (Hprev : previous_msg w = None)
    (Hms : Forall2 (λ m b, msg_is_fragment m = true /\ msg_is_final m = false /\
                           msg_payload m = Some b) ms bs)
    (Hf : msg_is_fragment last = true) (Hfin : msg_is_final last = true)
    (Hbl : msg_payload last = Some bl) :
  receive_all (ms ++ [last]) w =
    Done (tt, w <| ParodusMsgQ := ParodusMsgQ w ++ [Some (concat bs ++ bl)%list] |>
                <| previous_msg := None |>).
Proof. by rewrite (receive_fragments ms None [] last bl bs w). Qed.

(** A connection that is lost between the fragments of a message leaves them behind: the
    close handler does not drop [previous_msg], so that the next message that comes whole
    (over the next connection) is thrown away and the fragments are queued in its place. *)
Theorem message_lost_after_fragments `{NopollLaws} (env : oracle) (conn : noPollConn) (ms : list noPollMsg)
    (bs : list bytes) (m : noPollMsg) (w : World)
    (Hprev : previous_msg w = None) (Hne : ms ≠ [])
    (Hms : partial ms bs) (Hm : msg_is_fragment m = false) :
  ∃ w', (receive_all ms;; listenerOnCloseMessage env conn;; listenerOnMessage_queue m) w = Done (tt, w') /\
    ParodusMsgQ w' = ParodusMsgQ w ++ [Some (concat bs)] /\ previous_msg w' = None.
Proof.
  destruct (receive_partial ms bs None [] w Hprev eq_refl Hms) as (prev & Hr & Hp).
  destruct prev as [p|]; [|by destruct Hp as (? & _)]. rewrite (bind_Done _ _ _ _ _ Hr).
  assert (∃ v, listenerOnCloseMessage env conn (w <| previous_msg := Some p |>) = Done (tt, v) /\
    previous_msg v = Some p /\ ParodusMsgQ v = ParodusMsgQ w) as (v & Hc & Hv & Hq).
  { unfold listenerOnCloseMessage, set_close_retry. run_m.
    repeat match goal with |- context [if ?b then _ else _] => destruct b end; by eexists. }
  rewrite (bind_Done _ _ _ _ _ Hc), listenerOnMessage_queue_run, Hm, Hv. cbn [andb]. eexists. split; [done|].
  cbn. by rewrite Hq, Hp.
Qed.

Definition nopoll_example : NopollLib := {|
  nopoll_msg_join := λ p m, match p with
    | None => Some m
    | Some p => match msg_payload p, msg_payload m with
                | Some a, Some b => Some (mk_msg (Some (a ++ b)%list) false true 0)
                | _, _ => Some m end
    end;
  NOPOLL_PING_FRAME := 9;
  nopoll_base64_encode := λ s _, Some s
|}.
Lemma nopoll_example_laws : @NopollLaws nopoll_example.
Proof.
  split; [done|]. intros p m a b Ha Hb. simpl. rewrite Ha, Hb. by eexists.
Qed.

Example fragments_joined_witness :
  let frag := mk_msg (Some ("ab"%cs)) true false 1 in
  let last := mk_msg (Some ("cd"%cs)) true true 0 in
  ∃ w', @receive_all nopoll_example [frag; last] (world_init (λ _, None)) = Done (tt, w') /\
        ParodusMsgQ w' = [Some ("abcd"%cs)].
Proof.
  cbn zeta. eexists. split.
  - apply (@fragments_joined nopoll_example nopoll_example_laws
      [mk_msg (Some ("ab"%cs)) true false 1] ["ab"%cs] (mk_msg (Some ("cd"%cs)) true true 0) "cd"%cs).
    + reflexivity.
    + repeat constructor.
    + reflexivity.
    + reflexivity.
    + reflexivity.
  - reflexivity.
Defined.

Example message_lost_after_fragments_witness :
  let frag := mk_msg (Some ("ab"%cs)) true false 1 in
  let whole := mk_msg (Some ("cd"%cs)) false true 2 in
  ∃ w', (@receive_all nopoll_example [frag];; listenerOnCloseMessage env_ok 1;;
         @listenerOnMessage_queue nopoll_example whole) (world_init (λ _, None)) = Done (tt, w') /\
    ParodusMsgQ w' = [Some ("ab"%cs)] /\ previous_msg w' = None.
Proof.
  apply (@message_lost_after_fragments nopoll_example nopoll_example_laws env_ok 1
    [mk_msg (Some ("ab"%cs)) true false 1] ["ab"%cs] (mk_msg (Some ("cd"%cs)) false true 2)).
  - reflexivity.
  - discriminate.
  - repeat constructor.
  - reflexivity.
Defined.

(** When noPoll reports the connection closed, a reconnection is requested
    exactly when the interface is up; a reason already recorded is kept, and otherwise
    an abnormal closure (1006) is recorded as such and any other as unknown. *)
Theorem listenerOnCloseMessage_correct (env : oracle) (conn : noPollConn) (w : World) :
  ∃ w' down, listenerOnCloseMessage env conn w = Done (tt, w') /\
    let status := env (trace w) (nopoll_get_close_status conn) in
    trace w' = trace w ++ [ev (nopoll_get_close_status conn) status; ev sys_interface_down down] /\
    close_retry w' = close_retry w || negb down /\
    (LastReasonStatus w = true → reconnect_reason w' = reconnect_reason w /\ LastReasonStatus w' = true) /\
    (LastReasonStatus w = false →
       if status =? 1006
       then reconnect_reason w' = Some ("SSL_Socket_Close"%cs) /\ LastReasonStatus w' = true
       else reconnect_reason w' = Some ("Unknown"%cs) /\ LastReasonStatus w' = false) /\
    w' = w <| close_retry := close_retry w' |> <| reconnect_reason := reconnect_reason w' |>
           <| LastReasonStatus := LastReasonStatus w' |> <| trace := trace w' |>.
Proof.
  unfold listenerOnCloseMessage, set_close_retry. run_m.
  destruct w as [cfg gh nc uq pq pm cq mp ms cr he ph gc rr lr sr ct gs ed fs tr]. cbn.
  set (status := env tr (nopoll_get_close_status conn)).
  destruct (Z.eqb_spec status 1006) as [Hst|Hst], lr; cbn [negb andb]; cbn beta iota;
    match goal with |- context [env ?h sys_interface_down] => set (down := env h sys_interface_down) end;
    clearbody down; destruct down; (eexists _, _; split; [reflexivity|]); cbn;
    rewrite <-?app_assoc, ?orb_false_r, ?orb_true_r; repeat split; try done; by destruct cr.
Qed.
