(* ===== verification/Upstream.v ===== *)
(** * upstream.c: messages from the local clients

    [processUpstreamMessage] is split into one definition per branch. A client
    message is the bytes received on the nanomsg socket. Memory management is left out
    here (ClientHeap, QueueHeap and Payloads have it), but reads of uninitialised or
    out-of-bounds memory are [Undef]. *)

From S2P Require Import Prelude StringHelpers Timers Config Wrp Partners World ClientList Nopoll.
Local Open Scope cs_scope.
Local Open Scope Z_scope.

Definition PARODUS_SERVICE_NAME : cstring := "parodus".

(** ** The queues, as one thread sees them *)

Definition enqueue_upstream (b : bytes) : M World unit :=
  modify (λ w, w <| UpStreamMsgQ := UpStreamMsgQ w ++ [b] |>).

(** crud_interface.c *)
Definition addCRUDmsgToQueue (crudMsg : wrp_msg_t) : M World unit :=
  modify (λ w, w <| crudMsgQ := crudMsgQ w ++ [crudMsg] |>).
Definition addCRUDresponseToUpstreamQ (response_bytes : bytes) : M World unit :=
  enqueue_upstream response_bytes.

Section upstream.
Context `{WrpLib} (env : oracle).

Definition packMetaData : M World unit :=
  cfg ← gets parodusCfg;
  reason ← gets reconnect_reason;
  let '(size, pack) := wrp_pack_metadata [
    ("hw-model"%cs, Some (hw_model cfg));
    ("hw-serial-number"%cs, Some (hw_serial_number cfg));
    ("hw-manufacturer"%cs, Some (hw_manufacturer cfg));
    ("hw-mac"%cs, Some (hw_mac cfg));
    ("hw-last-reboot-reason"%cs, Some (hw_last_reboot_reason cfg));
    ("fw-name"%cs, Some (fw_name cfg));
    ("boot-time"%cs, Some (print_int (s32 (boot_time cfg))));
    ("webpa-last-reconnect-reason"%cs, reason);
    ("webpa-protocol"%cs, Some (webpa_protocol cfg));
    ("webpa-uuid"%cs, Some (webpa_uuid cfg));
    ("webpa-interface-used"%cs, Some (webpa_interface_used cfg));
    ("partner-id"%cs, Some (partner_id cfg))] in
  modify (λ w, w <| metaPackSize := u64 size |> <| metadataPack := pack |>).

Definition sendUpstreamMsgToServer (resp_bytes : bytes) : M World unit :=
  size ← gets metaPackSize;
  if 0 <? size then
    pack ← gets metadataPack;
    let appendData := appendEncodedData resp_bytes pack size in
    retry ← gets close_retry;
    cfg ← gets parodusCfg;
    if negb retry || bool_decide (cloud_disconnect cfg ≠ None) then
      conn ← gets g_conn;
      sendMessage env conn appendData
    else mret tt
  else mret tt.

(** ** Receiving from the clients *)

(** One turn of the receive loop; the result says whether the loop ends. *)
Definition handle_upstream_turn (s : Z) : M World bool :=
  buf ← call env (nn_recv s);
  stop ← read_g_shutdown env;
  if (stop : bool) then mret true
  else match buf with
       | None => mret false
       | Some b => enqueue_upstream b;; mret false
       end.

Fixpoint handle_upstream_loop (turns : nat) (s : Z) : M World unit :=
  match turns with
  | O => nofuel
  | S turns =>
      stop ← handle_upstream_turn s;
      if (stop : bool) then mret tt else handle_upstream_loop turns s
  end.

(** What is done before the loop: the socket and its endpoint, or the thread ends here. *)
Definition handle_upstream_start : M World (option (Z * Z)) :=
  s ← call env nn_socket_pull;
  if 0 <=? s then
    _ ← call env (nn_setsockopt s);
    cfg ← gets parodusCfg;
    bind ← call env (nn_bind s (local_url cfg));
    mret (if bind <? 0 then None else Some (s, bind))
  else mret None.

Definition handle_upstream (turns : nat) : M World unit :=
  bound ← handle_upstream_start;
  match bound with
  | Some (s, bind) =>
      handle_upstream_loop turns s;;
      _ ← call env (nn_shutdown s bind);
      _ ← call env (nn_close s);
      mret tt
  | None => mret tt
  end.

(** ** Registration *)

(** The body of the loop for a node of the registered name: reconnect it. The result
    says whether the loop stops with [matchFlag] set. *)
Definition reconnect_node (temp : reg_list_item_t) (reg : wrp_reg)
    : M World (reg_list_item_t * bool) :=
  let temp := temp <| url := parStrncpy (reg_url reg) 100 |> in
  _ ← call env (nn_shutdown (sock temp) (endpoint temp));
  _ ← call env (nn_close (sock temp));
  s ← call env nn_socket_push;
  let temp := temp <| sock := s |> in
  if 0 <=? s then
    _ ← call env (nn_setsockopt s);
    rc ← call env (nn_connect s (reg_url reg));
    if rc <? 0 then mret (temp, false)
    else
      let temp := temp <| endpoint := rc |> in
      _ ← sendAuthStatus env temp;
      mret (temp, true)
  else mret (temp, false).

(** The loop over the list: the list as it is left and [matchFlag]. *)
Fixpoint reconnect_loop (l : list reg_list_item_t) (reg : wrp_reg)
    : M World (list reg_list_item_t * bool) :=
  match l with
  | [] => mret ([], false)
  | temp :: rest =>
      if streq (service_name temp) (reg_service_name reg) then
        '(temp', stop) ← reconnect_node temp reg;
        if (stop : bool) then mret (temp' :: rest, true)
        else
          '(rest', flag) ← reconnect_loop rest reg;
          mret (temp' :: rest', flag)
      else
        '(rest', flag) ← reconnect_loop rest reg;
        mret (temp :: rest', flag)
  end.

Definition process_registration (reg : wrp_reg) : M World unit :=
  n ← get_numOfClients;
  l ← gets g_head;
  matchFlag ←
    (if negb (n =? 0) then
       '(l', flag) ← reconnect_loop l reg;
       modify (λ w, w <| g_head := l' |>);;
       mret flag
     else mret false);
  if negb matchFlag || (n =? 0) then _ ← addToList env reg; mret tt
  else mret tt.

(** ** Events

    [bytes] is a variable of the thread: nothing has been stored in it before the first
    event is encoded, and from then on it is NULL when a message is taken up. It is freed
    behind every encoding, the failed ones included, which leave it as it is. The result
    says whether it is still not initialised. *)

Definition process_event (bytes_unset : bool) (e : wrp_event) (raw : bytes) : M World bool :=
  cfg ← gets parodusCfg;
  match validate_partner_id (partner_id cfg) (WRP_EVENT e) (Some None) with
  | Done (ret, out) =>
      if ret =? 1 then
        let partnersList := match out with Some p => p | None => None end in
        let eventMsg := WRP_EVENT (e <| ev_partner_ids := partnersList |>) in
        match wrp_struct_to eventMsg with
        | Some (c :: b) => sendUpstreamMsgToServer (c :: b);; mret false
        | Some [] => mret false
        | None => if bytes_unset then undef else mret false
        end
      else sendUpstreamMsgToServer raw;; mret bytes_unset
  | Undef => undef
  | NoFuel => nofuel
  end.

(** ** CRUD messages between clients, this device and the server *)

(** The device id and its size with the NUL. [snprintf] may write [len] bytes into a
    block of 64. *)
Definition getDeviceId : M World (option (cstring * nat)) :=
  cfg ← gets parodusCfg;
  match hw_mac cfg with
  | [] => mret None
  | mac =>
      let len := (length mac + 5)%nat in
      if (64 <? len)%nat then undef
      else mret (Some (("mac:"%cs ++ mac)%list, len))
  end.

Definition createUpstreamRetrieveMsg (op : crud_op) (message : wrp_crud) : wrp_msg_t :=
  WRP_CRUD op (crud_zero
    <| crud_transaction_uuid := crud_transaction_uuid message |>
    <| crud_source := crud_source message |>
    <| crud_dest := crud_dest message |>).

Definition getServiceNameAndSendResponse (msg : wrp_msg_t) (raw : bytes) : M World unit :=
  match wrp_service_of_dest msg with
  | Some serviceName => _ ← sendMsgtoRegisteredClients env serviceName raw; mret tt
  | None => mret tt
  end.

(** [strncmp (PARODUS_SERVICE_NAME, &dest[device_id_len], parodus_len-1) == 0]: the
    text starts two characters behind the device id, outside the string when nothing
    follows the id. *)
Definition dest_is_parodus (dest : cstring) (device_id_len : nat) : M World bool :=
  if (length dest <? device_id_len)%nat then undef
  else mret (strneq (length PARODUS_SERVICE_NAME - 1) PARODUS_SERVICE_NAME (drop device_id_len dest)).

Definition process_crud (op : crud_op) (c : wrp_crud) (raw : bytes) : M World unit :=
  match op with
  | CREATE => sendUpstreamMsgToServer raw
  | RETREIVE | UPDATE | DELETE =>
      id ← getDeviceId;
      match id with
      | None => mret tt
      | Some (device_id, device_id_len) =>
          dest ← deref (crud_dest c);
          if strncaseeq (device_id_len - 1) device_id dest then
            if decide (op = RETREIVE) then
              for_parodus ← dest_is_parodus dest device_id_len;
              if (for_parodus : bool) then addCRUDmsgToQueue (createUpstreamRetrieveMsg op c)
              else getServiceNameAndSendResponse (WRP_CRUD op c) raw
            else getServiceNameAndSendResponse (WRP_CRUD op c) raw
          else sendUpstreamMsgToServer raw
      end
  end.

(** The variables of the thread that are not initialised when it starts: before the first
    decoded message [msg], which is read after a failed decoding too, and [bytes]. *)
Record upstream_locals : Set := mk_locals { msg_unset : bool; bytes_unset : bool }.

Definition locals_start : upstream_locals := mk_locals true true.

(** What becomes of a decoded message, by its type. *)
Definition process_message (bytes_unset : bool) (msg : wrp_msg_t) (raw : bytes) : M World bool :=
  match msg with
  | WRP_SVC_REGISTRATION reg => process_registration reg;; mret bytes_unset
  | WRP_EVENT e => process_event bytes_unset e raw
  | WRP_REQ _ => sendUpstreamMsgToServer raw;; mret bytes_unset
  | WRP_CRUD op c => process_crud op c raw;; mret bytes_unset
  | WRP_SVC_ALIVE => mret bytes_unset
  | WRP_AUTH _ | WRP_UNKNOWN => sendUpstreamMsgToServer raw;; mret bytes_unset
  end.

(** One message of the queue. *)
Definition process_upstream (v : upstream_locals) (raw : bytes) : M World upstream_locals :=
  match wrp_to_struct raw with
  | Some msg =>
      unset ← process_message (bytes_unset v) msg raw;
      mret (mk_locals false unset)
  | None => if msg_unset v then undef else mret v
  end.

(** The consumer: one turn handles a message, waits, or ends the thread. *)
Definition processUpstreamMessage_turn (v : upstream_locals) : M World (bool * upstream_locals) :=
  q ← gets UpStreamMsgQ;
  match q with
  | raw :: rest =>
      modify (λ w, w <| UpStreamMsgQ := rest |>);;
      v ← process_upstream v raw;
      mret (false, v)
  | [] =>
      stop ← read_g_shutdown env;
      if (stop : bool) then mret (true, v)
      else _ ← call env sys_cond_wait; mret (false, v)
  end.

Fixpoint processUpstreamMessage_loop (turns : nat) (v : upstream_locals) : M World unit :=
  match turns with
  | O => nofuel
  | S turns =>
      '(stop, v) ← processUpstreamMessage_turn v;
      if (stop : bool) then mret tt else processUpstreamMessage_loop turns v
  end.

Definition processUpstreamMessage (turns : nat) : M World unit :=
  processUpstreamMessage_loop turns locals_start.
End upstream.

(** ** Lemmas *)

Definition upstream_open (w : World) : bool :=
  (0 <? metaPackSize w) &&
  (negb (close_retry w) || bool_decide (cloud_disconnect (parodusCfg w) ≠ None)) &&
  cloud_status_is_online (parodusCfg w).

Definition names (w : World) : list cstring := map service_name (g_head w).

Section upstream_facts.
Context `{WrpLib} (env : oracle).

Lemma sendUpstream_cases (b : bytes) (w : World) :
  sendUpstreamMsgToServer env b w =
    if upstream_open w
    then (_ ← sendResponse env (g_conn w) (appendEncodedData b (metadataPack w) (metaPackSize w)); mret tt) w
    else Done (tt, w).
Proof.
  unfold sendUpstreamMsgToServer, sendMessage, upstream_open. run_m.
  destruct (0 <? metaPackSize w); [|done]. cbn [andb].
  destruct (negb (close_retry w) || _); [|done]. cbn [andb].
  by destruct (cloud_status_is_online (parodusCfg w)).
Qed.

(** Sending never fails and only touches the trace. *)
Lemma sendUpstream_total (b : bytes) (w : World) :
  ∃ w', sendUpstreamMsgToServer env b w = Done (tt, w') /\ same_but_trace w w'.
Proof.
  rewrite sendUpstream_cases. destruct (upstream_open w).
  - destruct (sendResponse_run env (g_conn w) (appendEncodedData b (metadataPack w) (metaPackSize w)) w)
      as (k & new & Hrun & _).
    rewrite (bind_Done _ _ _ _ _ Hrun). by eexists; split; [reflexivity|].
  - exists w. split; [done|]. unfold same_but_trace. by destruct w.
Qed.

Lemma reconnect_node_run (ack : bytes) (temp : reg_list_item_t) (reg : wrp_reg) (w : World) :
  wrp_struct_to (WRP_AUTH 200) = Some ack →
  ∃ temp' stop w', reconnect_node env temp reg w = Done ((temp', stop), w') /\
    same_but_trace w w' /\ service_name temp' = service_name temp /\
    url temp' = parStrncpy (reg_url reg) 100 /\
    ((∀ h, 0 <= env h nn_socket_push) → (∀ h s u, 0 <= env h (nn_connect s u)) → stop = true).
Proof.
  intros Hack. unfold reconnect_node. run_m.
  match goal with |- context [env ?h nn_socket_push] =>
    set (s := env h nn_socket_push); assert (Hs : s = env h nn_socket_push) by done end.
  destruct (Z.leb_spec 0 s) as [H0|H0]; cbn beta iota.
  2:{ eexists _, _, _. split; [reflexivity|]. split; [done|]. split; [done|]. split; [done|].
      intros Hall _. rewrite Hs in H0. match goal with H : env ?h _ < 0 |- _ => specialize (Hall h) end. lia. }
  match goal with |- context [env ?h (nn_connect s ?u)] =>
    set (rc := env h (nn_connect s u)); assert (Hrc : rc = env h (nn_connect s u)) by done end.
  destruct (Z.ltb_spec rc 0) as [H1|H1]; cbn beta iota.
  { eexists _, _, _. split; [reflexivity|]. split; [done|]. split; [done|]. split; [done|].
    intros _ Hall. rewrite Hrc in H1.
    match goal with H : env ?h (nn_connect ?x ?y) < 0 |- _ => specialize (Hall h x y) end. lia. }
  rewrite (sendAuthStatus_run env _ ack) by done. cbn beta iota zeta.
  eexists _, _, _. split; [reflexivity|]. done.
Qed.

(** The loop keeps the names; it stops at the first node of the name when the
    sockets work. *)
Lemma reconnect_loop_run (ack : bytes) (reg : wrp_reg) (l : list reg_list_item_t) (w : World) :
  wrp_struct_to (WRP_AUTH 200) = Some ack →
  ∃ l' flag w', reconnect_loop env l reg w = Done ((l', flag), w') /\
    same_but_trace w w' /\ map service_name l' = map service_name l /\
    (Forall client_fits l → Forall client_fits l') /\
    (flag = true → reg_service_name reg ∈ map service_name l) /\
    ((∀ h, 0 <= env h nn_socket_push) → (∀ h s u, 0 <= env h (nn_connect s u)) →
       reg_service_name reg ∈ map service_name l → flag = true).
Proof.
  intros Hack. revert w. induction l as [|temp l IH]; intros w; cbn [reconnect_loop].
  { exists [], false, w. split; [done|]. split; [unfold same_but_trace; by destruct w|].
    split; [done|]. split; [done|]. split; [done|]. intros _ _ Hin. by apply elem_of_nil in Hin. }
  assert (Hfit : ∀ t : reg_list_item_t, client_fits temp → service_name t = service_name temp →
            url t = parStrncpy (reg_url reg) 100 → client_fits t).
  { intros t [Hn _] E1 E2. split; [by rewrite E1|]. rewrite E2. apply (parStrncpy_length _ 100). }
  destruct (streq (service_name temp) (reg_service_name reg)) eqn:Hs.
  - apply streq_true in Hs.
    destruct (reconnect_node_run ack temp reg w Hack) as (t & stop & w1 & Hrun & Hw1 & Hn & Hu & Hok).
    rewrite (bind_Done _ _ _ _ _ Hrun). cbn beta iota. destruct stop.
    + exists (t :: l), true, w1. split; [done|]. split; [done|]. split; [simpl; by rewrite Hn|].
      split; [intros [? ?]%Forall_cons; constructor; auto|].
      split; [|done]. intros _. simpl. rewrite elem_of_cons. auto.
    + destruct (IH w1) as (l' & flag & w2 & Hrun2 & Hw2 & Hnames & Hf & Hin & Hall).
      rewrite (bind_Done _ _ _ _ _ Hrun2). exists (t :: l'), flag, w2. split; [done|].
      split; [unfold same_but_trace in *; by rewrite Hw2, Hw1|].
      split; [simpl; by rewrite Hn, Hnames|].
      split; [intros [? ?]%Forall_cons; constructor; auto|].
      split; [intros; simpl; rewrite elem_of_cons; auto|].
      intros H1 H2 _. by specialize (Hok H1 H2).
  - apply streq_false in Hs.
    destruct (IH w) as (l' & flag & w2 & Hrun2 & Hw2 & Hnames & Hf & Hin & Hall).
    rewrite (bind_Done _ _ _ _ _ Hrun2). exists (temp :: l'), flag, w2. split; [done|].
    split; [done|]. split; [simpl; by rewrite Hnames|].
    split; [intros [? ?]%Forall_cons; constructor; auto|].
    split; [intros; simpl; rewrite elem_of_cons; auto|].
    intros H1 H2. simpl. rewrite elem_of_cons. intros [Heq|?]; [congruence|by apply Hall].
Qed.

(** [addToList] of a fitting registration, as far as the list goes. *)
Lemma addToList_list (ack : bytes) (reg : wrp_reg) (w : World) :
  wrp_struct_to (WRP_AUTH 200) = Some ack → reg_fits reg → clients_inv w →
  ∃ rc w', addToList env reg w = Done (rc, w') /\ clients_inv w' /\
    (names w' = names w \/ names w' = names w ++ [reg_service_name reg]) /\
    ((∀ h, 0 <= env h nn_socket_push) → (∀ h s u, 0 <= env h (nn_connect s u)) →
       names w' = names w ++ [reg_service_name reg]).
Proof.
  intros Hack [Hn Hu] [Hall Hcount]. unfold addToList. run_m.
  set (s := env (trace w) nn_socket_push). destruct (Z.leb_spec 0 s) as [Hs|Hs]; cbn beta iota.
  2:{ eexists _, _. split; [reflexivity|]. split; [done|]. split; [by left|].
      intros H1 _. specialize (H1 (trace w)). unfold s in Hs. lia. }
  match goal with |- context [env ?h (nn_connect s ?u)] =>
    set (e := env h (nn_connect s u)); assert (He : e = env h (nn_connect s u)) by done end.
  destruct (Z.ltb_spec e 0) as [H0|H0]; cbn beta iota.
  { eexists _, _. split; [reflexivity|]. split; [done|]. split; [by left|].
    intros _ H2. rewrite He in H0.
    match goal with H : env ?h (nn_connect ?x ?y) < 0 |- _ => specialize (H2 h x y) end. lia. }
  rewrite !parStrncpy_id by lia. cbn [service_name url]. rewrite !streq_refl. cbn [andb].
  rewrite (sendAuthStatus_run env _ ack) by done. cbn zeta.
  assert (Hnames : names (w <| g_head := g_head w ++ [mk_item s e (reg_service_name reg) (reg_url reg)] |>)
                   = names w ++ [reg_service_name reg]) by (unfold names; cbn; by rewrite map_app).
  eexists _, _. split; [reflexivity|]. split; [|split; [by right|done]].
  split; cbn; [apply Forall_app; split; [done|constructor; [by split|constructor]]|].
  rewrite Hcount, length_app. simpl. lia.
Qed.
End upstream_facts.

Lemma NoDup_registered (l : list cstring) (x : cstring) :
  NoDup l → NoDup (l ++ (if decide (x ∈ l) then [] else [x])).
Proof.
  intros Hl. case_decide as Hx; [by rewrite app_nil_r|]. apply NoDup_app. split; [done|].
  split; [|apply NoDup_singleton]. intros y Hy ->%list_elem_of_singleton. done.
Qed.

Lemma process_registration_run `{WrpLib} (env : oracle) (ack : bytes) (reg : wrp_reg) (w : World) :
  wrp_struct_to (WRP_AUTH 200) = Some ack → reg_fits reg → clients_inv w →
  ∃ w', process_registration env reg w = Done (tt, w') /\ clients_inv w' /\
    (names w' = names w \/ names w' = names w ++ [reg_service_name reg]) /\
    ((∀ h, 0 <= env h nn_socket_push) → (∀ h s u, 0 <= env h (nn_connect s u)) →
       names w' = names w ++ (if decide (reg_service_name reg ∈ names w) then [] else [reg_service_name reg])).
Proof.
  intros Hack Hreg [Hfit Hcount]. unfold process_registration, get_numOfClients. run_m.
  destruct (Z.eqb_spec (numOfClients w) 0) as [H0|H0]; cbn [negb orb]; cbn beta iota.
  - destruct (addToList_list env ack reg w Hack Hreg (conj Hfit Hcount)) as (rc & w' & -> & Hi & Hn & Hok).
    exists w'. split; [done|]. split; [done|]. split; [done|]. intros H1 H2. specialize (Hok H1 H2).
    assert (Hnil : names w = []) by (unfold names; destruct (g_head w); [done|simpl in Hcount; lia]).
    rewrite decide_False by (rewrite Hnil; apply not_elem_of_nil).
    done.
  - destruct (reconnect_loop_run env ack reg (g_head w) w Hack)
      as (l' & flag & w1 & -> & Hw1 & Hnames & Hf & Hin & Hall). cbn beta iota.
    set (w2 := w1 <| g_head := l' |>).
    assert (Hn2 : names w2 = names w) by done.
    assert (Hi2 : clients_inv w2).
    { split; cbn; [by apply Hf|]. rewrite Hw1. cbn.
      by rewrite Hcount, <-(length_map service_name l'), Hnames, length_map. }
    destruct flag; cbn [negb orb]; cbn beta iota.
    + exists w2. split; [done|]. split; [done|]. split; [by left|]. intros _ _.
      rewrite decide_True by (by apply Hin). by rewrite app_nil_r, Hn2.
    + destruct (addToList_list env ack reg w2 Hack Hreg Hi2) as (rc & w' & -> & Hi & Hn & Hok).
      exists w'. rewrite Hn2 in *. split; [done|]. split; [done|]. split; [done|]. intros H1 H2.
      specialize (Hok H1 H2). specialize (Hall H1 H2).
      assert (Hout : reg_service_name reg ∉ names w) by (intros Hy; by specialize (Hall Hy)).
      by rewrite decide_False by done.
Qed.

(** The partner ids an event goes out with. *)
Definition forwarded_ids (pid : cstring) (e : wrp_event) : option (list cstring) :=
  let own := map (λ p, parStrncpy p 64) (parse_partner_id pid) in
  match ev_partner_ids e with
  | Some ids => if decide (partner_match pid ids) then None else Some (ids ++ own)%list
  | None => Some own
  end.

Lemma process_event_cases `{WrpLib} (env : oracle) (unset : bool) (e : wrp_event) (raw : bytes) (w : World) :
  process_event env unset e raw w =
    match partner_id (parodusCfg w) with
    | [] => (sendUpstreamMsgToServer env raw;; mret unset) w
    | pid =>
        match wrp_struct_to (WRP_EVENT (e <| ev_partner_ids := forwarded_ids pid e |>)) with
        | Some (c :: b) => (sendUpstreamMsgToServer env (c :: b);; mret false) w
        | Some [] => Done (false, w)
        | None => if unset then Undef else Done (false, w)
        end
    end.
Proof.
  unfold process_event. run_m. destruct (partner_id (parodusCfg w)) as [|c pid]; [done|].
  cbn [validate_partner_id]. unfold forwarded_ids.
  destruct (ev_partner_ids e) as [ids|]; cbn [store_partners].
  - destruct (match_event (parse_partner_id (c :: pid)) ids) eqn:Hm.
    + apply match_event_spec in Hm. rewrite decide_True by done. cbn beta iota.
      destruct (wrp_struct_to _) as [[|? ?]|]; [done..|by destruct unset].
    + apply match_event_false in Hm. rewrite decide_False by done. cbn [store_partners].
      destruct (wrp_struct_to _) as [[|? ?]|]; [done..|by destruct unset].
  - destruct (wrp_struct_to _) as [[|? ?]|]; [done..|by destruct unset].
Qed.

(** ** Properties *)

(** A message for the server reaches noPoll only when the metadata has been
    packed, no reconnection is in progress (or the server was asked to be left) and the
    connection is online; it is then sent with the metadata appended, and otherwise
    nothing at all happens. *)
Theorem sendUpstream_gated `{WrpLib} (env : oracle) (b : bytes) (w : World) :
  let open := (0 <? metaPackSize w) &&
    (negb (close_retry w) || bool_decide (cloud_disconnect (parodusCfg w) ≠ None)) &&
    bool_decide (cloud_status (parodusCfg w) = Some CLOUD_STATUS_ONLINE) in
  let data := appendEncodedData b (metadataPack w) (metaPackSize w) in
  if open
  then ∃ r w', sendResponse env (g_conn w) data w = Done (r, w') /\
               sendUpstreamMsgToServer env b w = Done (tt, w')
  else sendUpstreamMsgToServer env b w = Done (tt, w).
Proof.
  cbn zeta.
  assert (Ho : bool_decide (cloud_status (parodusCfg w) = Some CLOUD_STATUS_ONLINE) =
               cloud_status_is_online (parodusCfg w)).
  { unfold cloud_status_is_online, streq.
    destruct (cloud_status (parodusCfg w)) as [s|]; [|by apply bool_decide_eq_false].
    repeat case_bool_decide; congruence. }
  rewrite Ho. fold (upstream_open w). rewrite sendUpstream_cases. destruct (upstream_open w); [|done].
  destruct (sendResponse_run env (g_conn w) (appendEncodedData b (metadataPack w) (metaPackSize w)) w)
    as (k & new & Hrun & _).
  eexists _, _. split; [exact Hrun|]. by rewrite (bind_Done _ _ _ _ _ Hrun).
Qed.

(** Registering a service whose strings fit keeps the list and its count in
    step and at most appends its name; when the sockets work the name is appended
    exactly when it was not registered yet, so that no name is ever listed twice. *)
Theorem registration_correct `{WrpLib} (env : oracle) (ack : bytes) (reg : wrp_reg) (w : World)
    (Hack : wrp_struct_to (WRP_AUTH 200) = Some ack)
    (Hreg : reg_fits reg) (Hinv : clients_inv w) :
  ∃ w', process_registration env reg w = Done (tt, w') /\ clients_inv w' /\
    (names w' = names w \/ names w' = names w ++ [reg_service_name reg]) /\
    ((∀ h, 0 <= env h nn_socket_push) → (∀ h s u, 0 <= env h (nn_connect s u)) →
       names w' = names w ++ (if decide (reg_service_name reg ∈ names w) then [] else [reg_service_name reg]) /\
       (NoDup (names w) → NoDup (names w'))).
Proof.
  destruct (process_registration_run env ack reg w) as (w' & Hr & Hi & Hn & Hok); [done..|].
  exists w'. split_and!; [done..|]. intros H1 H2. specialize (Hok H1 H2). split; [done|].
  rewrite Hok. apply NoDup_registered.
Qed.

(** A socket layer in which connecting fails while the trace is short. *)
Definition env_connect_fails (until : nat) : oracle := λ h c,
  match c as c return ans c with
  | nn_connect _ _ => if (length h <? until)%nat then -1 else 7
  | other => env_ok h other
  end.

(** When reconnecting a registered service fails and adding it anew succeeds, the
    old node stays: the name is listed twice, and messages for the service keep going
    to the old node, whose socket was never connected. *)
Theorem failed_reconnect_duplicates :
  let reg := mk_reg "config" "tcp://127.0.0.1:7000" in
  let env := env_connect_fails 6 in
  clients_inv world_example /\ NoDup (names world_example) /\
  ∃ w' old new, @process_registration wrp_example env reg world_example = Done (tt, w') /\
    names w' = ["iot"%cs; "config"%cs; "config"%cs] /\ ~ NoDup (names w') /\
    g_head w' !! 1%nat = Some old /\ g_head w' !! 2%nat = Some new /\
    ev (nn_connect (sock old) (reg_url reg)) (-1) ∈ trace w' /\
    ev (nn_connect (sock new) (reg_url reg)) 7 ∈ trace w' /\
    ∀ m, ∃ r w'', sendMsgtoRegisteredClients env (reg_service_name reg) m w' = Done (1, w'') /\
                  trace w'' = trace w' ++ [ev (nn_send (sock old) m) r].
Proof.
  cbn zeta. split; [by_eval|]. split; [by_eval|].
  eexists _, _, _. split; [vm_compute; reflexivity|]. split; [vm_compute; reflexivity|].
  split; [by_eval|]. split; [vm_compute; reflexivity|]. split; [vm_compute; reflexivity|].
  split; [|split].
  - cbn. do 4 right. left.
  - cbn. do 7 right. left.
  - intros m. eexists _, _. split; reflexivity.
Qed.

(** With a configured partner id an event is forwarded re-encoded: when none of
    its partner ids is a configured one the configured ids are added to its own, but
    when one matches it goes out without any partner id at all. Without a configured
    partner id it is forwarded as received. When it cannot be encoded nothing is sent, and the
    behaviour is undefined if no event has been encoded before. *)
Theorem event_partner_ids `{WrpLib} (env : oracle) (unset : bool) (e : wrp_event) (raw : bytes) (w : World) :
  let pid := partner_id (parodusCfg w) in
  let own := map (λ p, parStrncpy p 64) (parse_partner_id pid) in
  let sent ids := wrp_struct_to (WRP_EVENT (e <| ev_partner_ids := ids |>)) in
  let forwards ids :=
    (∀ c b, sent ids = Some (c :: b) →
       process_event env unset e raw w = (sendUpstreamMsgToServer env (c :: b);; mret false) w) /\
    (sent ids = None → process_event env unset e raw w = if unset then Undef else Done (false, w)) in
  (pid = [] → process_event env unset e raw w = (sendUpstreamMsgToServer env raw;; mret unset) w) /\
  (pid ≠ [] →
     match ev_partner_ids e with
     | None => forwards (Some own)
     | Some ids => (partner_match pid ids → forwards None) /\
                   (~ partner_match pid ids → forwards (Some (ids ++ own)%list))
     end).
Proof.
  cbn zeta. rewrite process_event_cases. unfold forwarded_ids.
  destruct (partner_id (parodusCfg w)) as [|c0 pid]; [done|]. split; [done|]. intros _.
  destruct (ev_partner_ids e) as [ids|].
  - split; intros Hm; [rewrite decide_True by done|rewrite decide_False by done];
      (split; [intros c b Hs|intros Hs]; by rewrite Hs).
  - split; [intros c b Hs|intros Hs]; by rewrite Hs.
Qed.

(** What a CRUD message of a device with a hardware address comes to. *)
Lemma process_crud_step `{WrpLib} (env : oracle) (op : crud_op) (c : wrp_crud) (raw : bytes)
    (w : World) (dest : cstring) :
  crud_dest c = Some dest → op ≠ CREATE → hw_mac (parodusCfg w) ≠ [] →
  (length (hw_mac (parodusCfg w)) <= 59)%nat →
  let id := ("mac:" ++ hw_mac (parodusCfg w))%list in
  process_crud env op c raw w =
    (if bool_decide (map to_lower (take (length id) dest) = map to_lower id) then
       if decide (op = RETREIVE) then
         (for_parodus ← dest_is_parodus dest (S (length id));
          if (for_parodus : bool) then addCRUDmsgToQueue (createUpstreamRetrieveMsg op c)
          else getServiceNameAndSendResponse env (WRP_CRUD op c) raw)
       else getServiceNameAndSendResponse env (WRP_CRUD op c) raw
     else sendUpstreamMsgToServer env raw) w.
Proof.
  intros Hdest Hop Hne Hmac. cbn zeta. set (id := ("mac:" ++ hw_mac (parodusCfg w))%list).
  assert (Hid : getDeviceId w = Done (Some (id, S (length id)), w)).
  { unfold getDeviceId. run_m. unfold id. destruct (hw_mac (parodusCfg w)) as [|m0 mac]; [done|].
    destruct (Nat.ltb_spec 64 (length (m0 :: mac) + 5)) as [Hlt|_]; [simpl in *; lia|].
    rewrite length_app. simpl. do 4 f_equal. lia. }
  assert (Hmine : strncaseeq (length id) id dest =
                  bool_decide (map to_lower (take (length id) dest) = map to_lower id)).
  { unfold strncaseeq. rewrite (take_ge id) by done. apply bool_decide_ext. done. }
  rewrite <-Hmine.
  destruct op; [done|..]; cbn [process_crud]; rewrite (bind_Done _ _ _ _ _ Hid); cbn beta iota;
    rewrite Hdest; cbn [deref]; run_m; rewrite Nat.sub_succ, Nat.sub_0_r; done.
Qed.

(** A RETRIEVE, UPDATE or DELETE whose destination starts with this device's id
    (up to case) stays on the device: a RETRIEVE whose text behind the id and one more
    character starts with "parodu" becomes a copy in the CRUD queue, every other one
    goes to the registered client the library names. A RETRIEVE addressed to the bare
    device id reads behind the end of its destination. Other destinations are sent to
    the server, and without a hardware address nothing is done. *)
Theorem crud_addressing `{WrpLib} (env : oracle) (op : crud_op) (c : wrp_crud) (raw : bytes)
    (w : World) (dest : cstring)
    (Hdest : crud_dest c = Some dest) (Hop : op ≠ CREATE)
    (Hmac : (length (hw_mac (parodusCfg w)) <= 59)%nat) :
  let id := ("mac:" ++ hw_mac (parodusCfg w))%list in
  let mine := map to_lower (take (length id) dest) = map to_lower id in
  let local := match wrp_service_of_dest (WRP_CRUD op c) with
               | Some s => ∃ r w', sendMsgtoRegisteredClients env s raw w = Done (r, w') /\
                                   process_crud env op c raw w = Done (tt, w')
               | None => process_crud env op c raw w = Done (tt, w)
               end in
  (hw_mac (parodusCfg w) = [] → process_crud env op c raw w = Done (tt, w)) /\
  (hw_mac (parodusCfg w) ≠ [] → ~ mine →
     process_crud env op c raw w = sendUpstreamMsgToServer env raw w) /\
  (hw_mac (parodusCfg w) ≠ [] → mine → op ≠ RETREIVE → local) /\
  (hw_mac (parodusCfg w) ≠ [] → mine → op = RETREIVE →
     (length dest = length id → process_crud env op c raw w = Undef) /\
     (∀ rest, drop (S (length id)) dest = rest → (length id < length dest)%nat →
        (take 6 rest = "parodu"%cs →
           process_crud env op c raw w =
             Done (tt, w <| crudMsgQ := crudMsgQ w ++ [createUpstreamRetrieveMsg op c] |>)) /\
        (take 6 rest ≠ "parodu"%cs → local))).
Proof.
  cbn zeta. destruct (hw_mac (parodusCfg w)) as [|m0 mac] eqn:Hm.
  { split; [|split; [done|split; done]]. intros _. unfold process_crud, getDeviceId. run_m.
    by destruct op; [done|..]; rewrite Hm. }
  pose proof (process_crud_step env op c raw w dest Hdest Hop) as Hstep. rewrite Hm in Hstep.
  specialize (Hstep ltac:(done) Hmac). cbn zeta in Hstep. set (id := ("mac:" ++ m0 :: mac)%list) in *.
  assert (Hlocal : ∀ P : Prop,
    process_crud env op c raw w = getServiceNameAndSendResponse env (WRP_CRUD op c) raw w →
    match wrp_service_of_dest (WRP_CRUD op c) with
    | Some s => ∃ r w', sendMsgtoRegisteredClients env s raw w = Done (r, w') /\
                        process_crud env op c raw w = Done (tt, w')
    | None => process_crud env op c raw w = Done (tt, w)
    end).
  { intros _ E. unfold getServiceNameAndSendResponse in E.
    destruct (wrp_service_of_dest (WRP_CRUD op c)) as [s|]; [|done].
    unfold sendMsgtoRegisteredClients in *. revert E. run_m. intros E.
    destruct (find_client s (g_head w)); eexists _, _; (split; [reflexivity|exact E]). }
  split; [done|]. split; [|split].
  - intros _ Hn. by rewrite Hstep, bool_decide_eq_false_2.
  - intros _ Hy Hne. apply (Hlocal True). by rewrite Hstep, bool_decide_eq_true_2, decide_False.
  - intros _ Hy ->. rewrite bool_decide_eq_true_2, decide_True in Hstep by done.
    unfold dest_is_parodus in Hstep. split.
    + intros Hl. rewrite Hstep. run_m. by rewrite (proj2 (Nat.ltb_lt _ _)) by lia.
    + intros rest Hr Hl. revert Hstep. rewrite (proj2 (Nat.ltb_ge _ _)) by lia. rewrite Hr.
      unfold strneq. change (length PARODUS_SERVICE_NAME - 1)%nat with 6%nat.
      change (take 6 PARODUS_SERVICE_NAME) with ("parodu"%cs). run_m. intros Hstep.
      split; intros Ht.
      * rewrite bool_decide_eq_true_2 in Hstep by done. exact Hstep.
      * rewrite bool_decide_eq_false_2 in Hstep by congruence. by apply (Hlocal True).
Qed.

Example registration_correct_witness :
  ∃ w', @process_registration wrp_example env_ok (mk_reg "iot" "tcp://127.0.0.1:7001") world_example
    = Done (tt, w') /\ names w' = ["iot"%cs; "config"%cs].
Proof.
  destruct (@registration_correct wrp_example env_ok [ascii_of_nat 200]
    (mk_reg "iot" "tcp://127.0.0.1:7001") world_example) as (w' & Hrun & _ & _ & Hok);
    [reflexivity|split; by_eval|by_eval|].
  exists w'. split; [exact Hrun|].
  destruct Hok as [Hn _]; [intros h; simpl; lia|intros; simpl; lia|]. rewrite Hn. vm_compute. reflexivity.
Defined.

Example crud_addressing_witness :
  let c := crud_zero <| crud_dest := Some ("MAC:14cfe2142xxx/parodus/tags"%cs) |> in
  let w := (world_init (λ _, None)) <| parodusCfg := cfg_zero <| hw_mac := "14cfe2142xxx"%cs |> |> in
  @process_crud wrp_example env_ok RETREIVE c "raw" w =
    Done (tt, w <| crudMsgQ := [createUpstreamRetrieveMsg RETREIVE c] |>).
Proof.
  cbn zeta.
  set (c := crud_zero <| crud_dest := Some ("MAC:14cfe2142xxx/parodus/tags"%cs) |>).
  set (w := (world_init (λ _, None)) <| parodusCfg := cfg_zero <| hw_mac := "14cfe2142xxx"%cs |> |>).
  destruct (@crud_addressing wrp_example env_ok RETREIVE c "raw" w "MAC:14cfe2142xxx/parodus/tags")
    as (_ & _ & _ & H); [reflexivity|discriminate|by_eval|].
  destruct H as [_ H]; [discriminate|reflexivity|reflexivity|].
  apply (H "parodus/tags"%cs); [reflexivity|by_eval|reflexivity].
Defined.
