(* ===== verification/ClientHeap.v ===== *)
(** * The registered clients in memory

    client_list.c keeps the clients as malloc'ed nodes behind [g_head], protected by
    [client_mut]. Here the code that walks, links, unlinks, frees and rewrites the nodes
    is translated with its pointers: the handlers of client_list.c, and the parts of
    service_alive.c, upstream.c and downstream.c between [get_global_node] and
    [release_global_node]. ClientList, ServiceAlive, Upstream and Downstream have the same
    operations on a list of clients; [refines] relates the two. *)

From S2P Require Import Prelude StringHelpers Wrp World Heap ClientList ServiceAlive Upstream.
Local Open Scope cs_scope.
Local Open Scope Z_scope.

(** ** The memory *)

Record Mem : Type := mk_mem {
  nodes : heap reg_list_item_t;
  head_ptr : option loc;
  clients : Z;
  client_mut : bool;      (* locked *)
  calls : list event
}.
#[export] Instance Mem_settable : Settable Mem :=
  λ s, mk_mem (nodes s) (head_ptr s) (clients s) (client_mut s) (calls s).

Definition mem_init : Mem := mk_mem ∅ None 0 false [].

Section memory.
Context `{WrpLib} (env : oracle) (malloc : heap reg_list_item_t → loc).

(** *** Access *)

Definition read (x : loc) : M Mem (node reg_list_item_t) :=
  h ← gets nodes; lift (load h x).

Definition write (x : loc) (n : node reg_list_item_t) : M Mem unit :=
  _ ← read x; modify (λ s, s <| nodes := <[x := n]> (nodes s) |>).

(** An assignment to a field of the client at [x]. *)
Definition assign (x : loc) (f : reg_list_item_t → reg_list_item_t) : M Mem unit :=
  n ← read x; write x (mk_node (f (data n)) (next n)).

Definition free (x : loc) : M Mem unit :=
  _ ← read x; modify (λ s, s <| nodes := delete x (nodes s) |>).

Definition call_mem (c : ext) : M Mem (ans c) := λ s,
  let a := env (calls s) c in Done (a, s <| calls := calls s ++ [ev c a] |>).

(** Turns enough to walk the list. *)
Definition walk_fuel : M Mem nat := h ← gets nodes; mret (S (size h)).

(** Locking a default mutex twice in a thread, or unlocking one that is not locked, is
    undefined. *)
Definition get_global_node : M Mem (option loc) :=
  l ← gets client_mut;
  if (l : bool) then undef
  else modify (λ s, s <| client_mut := true |>);; gets head_ptr.

Definition release_global_node : M Mem unit :=
  l ← gets client_mut;
  if (l : bool) then modify (λ s, s <| client_mut := false |>) else undef.

(** *** client_list.c *)

Definition sendAuthStatus_mem (new_node : loc) : M Mem Z :=
  match wrp_struct_to (WRP_AUTH 200) with
  | None => undef
  | Some auth_bytes =>
      n ← read new_node;
      byte ← call_mem (nn_send (sock (data n)) auth_bytes);
      mret (if 0 <=? byte then 0 else -1)
  end.

Definition addToList_mem (reg : wrp_reg) : M Mem Z :=
  s ← call_mem nn_socket_push;
  if 0 <=? s then
    _ ← call_mem (nn_setsockopt s);
    rc ← call_mem (nn_connect s (reg_url reg));
    if rc <? 0 then
      _ ← call_mem (nn_close s);
      mret (-1)
    else
      h ← gets nodes;
      p ← gets head_ptr;
      let new_node := malloc h in
      '(h', p') ← lift (append_node h p new_node
        (mk_item s rc (parStrncpy (reg_service_name reg) 32) (parStrncpy (reg_url reg) 100)));
      modify (λ m, m <| nodes := h' |> <| head_ptr := p' |>);;
      n ← read new_node;
      if streq (service_name (data n)) (reg_service_name reg) && streq (url (data n)) (reg_url reg) then
        modify (λ m, m <| clients := clients m + 1 |>);;
        sendAuthStatus_mem new_node
      else mret (-1)
  else mret (-1).

(** The loop of [deleteFromList]. The name may be the one in the node that is freed: it
    is not read behind that point. *)
Fixpoint delete_loop (fuel : nat) (name : cstring) (prev_node curr_node : option loc) : M Mem Z :=
  match fuel with
  | O => nofuel
  | S fuel =>
      match curr_node with
      | None => mret (-1)
      | Some x =>
          n ← read x;
          if streq (service_name (data n)) name then
            match prev_node with
            | None => modify (λ s, s <| head_ptr := next n |>)
            | Some z => p ← read z; write z (mk_node (data p) (next n))
            end;;
            n ← read x;
            _ ← call_mem (nn_shutdown (sock (data n)) (endpoint (data n)));
            _ ← call_mem (nn_close (sock (data n)));
            free x;;
            modify (λ s, s <| clients := clients s - 1 |>);;
            mret 0
          else delete_loop fuel name (Some x) (next n)
      end
  end.

Definition deleteFromList_mem (name : option cstring) : M Mem Z :=
  match name with
  | None => mret (-1)
  | Some name =>
      fuel ← walk_fuel;
      p ← gets head_ptr;
      delete_loop fuel name None p
  end.

Definition deleteAllClients_mem : M Mem unit :=
  fuel ← walk_fuel;
  h ← gets nodes;
  p ← gets head_ptr;
  h' ← lift (free_all fuel h p);
  modify (λ s, s <| nodes := h' |> <| head_ptr := None |>
                 <| clients := if 0 <? clients s then 0 else clients s |>).

(** The first node of that name. *)
Definition find_mem (dest : cstring) (temp : option loc) : M Mem (option loc) :=
  fuel ← walk_fuel;
  h ← gets nodes;
  lift (find_node fuel h (λ c, streq dest (service_name c)) temp).

(** The part under the mutex; the result is [temp], whose [url] the log message behind
    it reads. *)
Definition send_section (dest : cstring) (Msg : bytes) : M Mem (option loc) :=
  temp ← get_global_node;
  r ← find_mem dest temp;
  match r with
  | Some x =>
      n ← read x;
      _ ← call_mem (nn_send (sock (data n)) Msg);
      release_global_node;;
      mret (Some x)
  | None => release_global_node;; mret None
  end.

Definition sendMsgtoRegisteredClients_mem (dest : cstring) (Msg : bytes) : M Mem Z :=
  r ← send_section dest Msg;
  match r with
  | Some x => _ ← read x; mret 1
  | None => mret 0
  end.

Definition checkClientStatus_mem (serviceName : cstring) : M Mem Z :=
  temp ← get_global_node;
  r ← find_mem serviceName temp;
  release_global_node;;
  mret (match r with Some _ => 1 | None => 0 end).

(** *** downstream.c: the search for the client; the result is [destFlag] *)

Definition route_mem (dest : cstring) (recivedMsg : bytes) : M Mem Z :=
  temp ← get_global_node;
  r ← find_mem dest temp;
  match r with
  | Some x =>
      n ← read x;
      _ ← call_mem (nn_send (sock (data n)) recivedMsg);
      _ ← read x;
      release_global_node;;
      mret 1
  | None => release_global_node;; mret 0
  end.

(** *** upstream.c: the registration *)

Definition reconnect_mem (temp : loc) (reg : wrp_reg) : M Mem bool :=
  assign temp (λ c, c <| url := parStrncpy (reg_url reg) 100 |>);;
  n ← read temp;
  _ ← call_mem (nn_shutdown (sock (data n)) (endpoint (data n)));
  n ← read temp;
  _ ← call_mem (nn_close (sock (data n)));
  s ← call_mem nn_socket_push;
  assign temp (λ c, c <| sock := s |>);;
  n ← read temp;
  if 0 <=? sock (data n) then
    _ ← call_mem (nn_setsockopt (sock (data n)));
    rc ← call_mem (nn_connect (sock (data n)) (reg_url reg));
    if rc <? 0 then mret false
    else
      assign temp (λ c, c <| endpoint := rc |>);;
      _ ← sendAuthStatus_mem temp;
      mret true
  else mret false.

Fixpoint reconnect_walk (fuel : nat) (temp : option loc) (reg : wrp_reg) : M Mem bool :=
  match fuel with
  | O => nofuel
  | S fuel =>
      match temp with
      | None => mret false
      | Some x =>
          n ← read x;
          matchFlag ← (if streq (service_name (data n)) (reg_service_name reg) then reconnect_mem x reg
                       else mret false);
          if (matchFlag : bool) then mret true
          else n ← read x; reconnect_walk fuel (next n) reg
      end
  end.

Definition process_registration_mem (reg : wrp_reg) : M Mem unit :=
  temp ← get_global_node;
  n ← gets clients;
  fuel ← walk_fuel;
  matchFlag ← (if negb (n =? 0) then reconnect_walk fuel temp reg else mret false);
  (if negb matchFlag || (n =? 0) then _ ← addToList_mem reg; mret tt else mret tt);;
  release_global_node.

(** *** service_alive.c: the sweep *)

(** The inner loop up to the point where the mutex is released: because a client was
    deleted ([true]), or at the end of the list. *)
Fixpoint alive_walk (fuel : nat) (svc_bytes : bytes) (temp : option loc) : M Mem bool :=
  match fuel with
  | O => nofuel
  | S fuel =>
      match temp with
      | None => mret false
      | Some x =>
          n ← read x;
          byte ← call_mem (nn_send (sock (data n)) svc_bytes);
          ret ← (if byte =? Z.of_nat (length svc_bytes) then mret (-1)
                 else n ← read x; deleteFromList_mem (Some (service_name (data n))));
          if ret =? 0 then mret true
          else n ← read x; alive_walk fuel svc_bytes (next n)
      end
  end.

(** From taking the mutex to releasing it. The count is looked at when the thread wakes
    up, not when it starts again from the head. *)
Definition alive_section (resync : bool) (svc_bytes : bytes) : M Mem bool :=
  temp ← get_global_node;
  n ← gets clients;
  again ← (if resync || (0 <? n) then
             fuel ← walk_fuel;
             alive_walk fuel svc_bytes temp
           else mret false);
  release_global_node;;
  mret again.

Fixpoint alive_sweep (turns : nat) (resync : bool) (svc_bytes : bytes) : M Mem unit :=
  match turns with
  | O => nofuel
  | S turns =>
      again ← alive_section resync svc_bytes;
      if (again : bool) then alive_sweep turns true svc_bytes else mret tt
  end.
End memory.

(** ** Critical sections *)

(** What the threads do to the clients between taking the mutex and releasing it; the
    main thread deletes what is left when the others have ended. *)
Inductive client_op : Type :=
| op_register (reg : wrp_reg)
| op_send (dest : cstring) (Msg : bytes)
| op_check (serviceName : cstring)
| op_route (dest : cstring) (recivedMsg : bytes)
| op_alive (resync : bool) (svc_bytes : bytes)
| op_delete_all.

Section sections.
Context `{WrpLib} (env : oracle) (malloc : heap reg_list_item_t → loc).

Definition mem_op (op : client_op) : M Mem Z :=
  match op with
  | op_register reg => process_registration_mem env malloc reg;; mret 0
  | op_send dest Msg => r ← send_section env dest Msg; mret (match r with Some _ => 1 | None => 0 end)
  | op_check serviceName => checkClientStatus_mem serviceName
  | op_route dest recivedMsg => route_mem env dest recivedMsg
  | op_alive resync svc_bytes => again ← alive_section env resync svc_bytes; mret (if (again : bool) then 1 else 0)
  | op_delete_all => deleteAllClients_mem;; mret 0
  end.

(** A sweep up to its first deletion, on the list of clients. *)
Fixpoint alive_list (l : list reg_list_item_t) (svc_bytes : bytes) : M World bool :=
  match l with
  | [] => mret false
  | node :: rest =>
      byte ← call env (nn_send (sock node) svc_bytes);
      if byte =? Z.of_nat (length svc_bytes) then alive_list rest svc_bytes
      else
        ret ← deleteFromList env (Some (service_name node));
        if ret =? 0 then mret true else alive_list rest svc_bytes
  end.

Definition alive_turn_list (resync : bool) (svc_bytes : bytes) : M World bool :=
  n ← get_numOfClients;
  l ← gets g_head;
  if resync || (0 <? n) then alive_list l svc_bytes else mret false.

Definition list_op (op : client_op) : M World Z :=
  match op with
  | op_register reg => process_registration env reg;; mret 0
  | op_send dest Msg | op_route dest Msg => sendMsgtoRegisteredClients env dest Msg
  | op_check serviceName => checkClientStatus serviceName
  | op_alive resync svc_bytes =>
      again ← alive_turn_list resync svc_bytes; mret (if (again : bool) then 1 else 0)
  | op_delete_all => deleteAllClients;; mret 0
  end.

Fixpoint run_ops {St} (step : client_op → M St Z) (ops : list client_op) : M St (list Z) :=
  match ops with
  | [] => mret []
  | op :: rest => r ← step op; rs ← run_ops step rest; mret (r :: rs)
  end.
End sections.

(** [s] holds the clients of [w], in nodes of their own, and nothing else. *)
Record refines (locked : bool) (s : Mem) (w : World) : Prop := mk_refines {
  r_list : ∃ ps, owns (nodes s) (head_ptr s) ps (g_head w);
  r_count : clients s = numOfClients w;
  r_mutex : client_mut s = locked;
  r_calls : calls s = trace w
}.

(** ** Lemmas *)

Section runs.
Context `{WrpLib} (env : oracle).
Implicit Types s : Mem.

Lemma read_run s x n : nodes s !! x = Some n → read x s = Done (n, s).
Proof. intros Hx. unfold read. run_m. unfold lift. by rewrite (load_some _ _ _ Hx). Qed.

Lemma read_freed s x : nodes s !! x = None → read x s = Undef.
Proof. intros Hx. unfold read, load. run_m. by rewrite Hx. Qed.

Lemma write_run s x n n' : nodes s !! x = Some n' → write x n s = Done (tt, s <| nodes := <[x := n]> (nodes s) |>).
Proof. intros Hx. unfold write. by rewrite (bind_Done _ _ _ _ _ (read_run _ _ _ Hx)). Qed.

Lemma assign_run s x f a n :
  nodes s !! x = Some (mk_node a n) → assign x f s = Done (tt, s <| nodes := <[x := mk_node (f a) n]> (nodes s) |>).
Proof.
  intros Hx. unfold assign. rewrite (bind_Done _ _ _ _ _ (read_run _ _ _ Hx)). by apply (write_run _ _ _ _ Hx).
Qed.

Lemma free_run s x n : nodes s !! x = Some n → free x s = Done (tt, s <| nodes := delete x (nodes s) |>).
Proof. intros Hx. unfold free. by rewrite (bind_Done _ _ _ _ _ (read_run _ _ _ Hx)). Qed.

Lemma find_mem_run s dest ps l :
  owns (nodes s) (head_ptr s) ps l →
  ∃ r, find_mem dest (head_ptr s) s = Done (r, s) /\
    match find_client dest l with
    | Some c => ∃ x n, r = Some x /\ nodes s !! x = Some (mk_node c n)
    | None => r = None
    end.
Proof.
  intros Ho. pose proof (owns_length _ _ _ _ Ho) as Hl. pose proof (seg_length _ _ _ _ _ (proj1 Ho)) as Hp.
  unfold find_mem, walk_fuel. run_m.
  destruct (find_node_run (S (size (nodes s))) (nodes s) (λ c, streq dest (service_name c)) _ _ _ (proj1 Ho))
    as (r & Hr & Hm); [lia|].
  exists r. unfold lift. rewrite Hr. split; [done|].
  replace (find_client dest l) with (List.find (λ c, streq dest (service_name c)) l); [exact Hm|].
  clear. induction l as [|c l IH]; [done|]. cbn. by rewrite IH.
Qed.
(** The step of a bind whose first half is known. *)
Ltac step H := rewrite (bind_Done _ _ _ _ _ H); cbn beta iota zeta.

Lemma call_mem_run s c :
  call_mem env c s = Done (env (calls s) c, s <| calls := calls s ++ [ev c (env (calls s) c)] |>).
Proof. done. Qed.

(** The state after the client [c], whose socket is closed, has left. *)
Definition deleted (s : Mem) (c : reg_list_item_t) (h : heap reg_list_item_t) (p : option loc) : Mem :=
  let sd := nn_shutdown (sock c) (endpoint c) in
  let a1 := env (calls s) sd in
  let a2 := env (calls s ++ [ev sd a1]) (nn_close (sock c)) in
  mk_mem h p (clients s - 1) (client_mut s) ((calls s ++ [ev sd a1]) ++ [ev (nn_close (sock c)) a2]).

Lemma delete_loop_run name s fuel ps1 ps2 l1 l2 :
  length ps1 = length l1 → owns (nodes s) (head_ptr s) (ps1 ++ ps2) (l1 ++ l2) → (length ps2 < fuel)%nat →
  match unlink name l2 with
  | Some (c, l2') => ∃ h p ps, delete_loop env fuel name (last ps1) (head ps2) s = Done (0, deleted s c h p) /\
      owns h p ps (l1 ++ l2')
  | None => delete_loop env fuel name (last ps1) (head ps2) s = Done (-1, s)
  end.
Proof.
  revert ps1 ps2 l1 l2. induction fuel as [|fuel IH]; intros ps1 ps2 l1 l2 Hl Ho Hf; [lia|].
  pose proof (seg_length _ _ _ _ _ (proj1 Ho)) as Hlen. rewrite !length_app in Hlen.
  destruct ps2 as [|x ps2], l2 as [|c l2]; try (cbn in Hlen; lia); [done|].
  destruct (owns_split _ _ _ _ _ _ _ _ Hl Ho) as (Hx1 & Hx2 & n & Hx & Hs1 & Hs2).
  cbn [delete_loop unlink head hd_error]. step (read_run _ _ _ Hx). cbn [data next].
  destruct (streq (service_name c) name) eqn:Hn.
  2:{ specialize (IH (ps1 ++ [x]) ps2 (l1 ++ [c]) l2). rewrite !length_app, <-!app_assoc, last_snoc in IH.
      rewrite (seg_head _ _ _ _ _ Hs2). cbn in IH, Hf.
      replace (match ps2 with [] => None | x0 :: _ => Some x0 end) with (head ps2) by (by destruct ps2).
      specialize (IH ltac:(lia) Ho ltac:(lia)). destruct (unlink name l2) as [[c' l2']|]; [|done].
      destruct IH as (h & p & ps & Hr & Ho'). exists h, p, ps. split; [done|]. by rewrite <-app_assoc in Ho'. }
  destruct ps1 as [|z ps1 _] using rev_ind; [|rewrite last_snoc].
  - destruct l1; [|done]. cbn [app] in *. eexists _, _, _. split; [|by apply (owns_tail _ _ _ _ _ _ _ Ho Hx)].
    cbn [last]. unfold mbind, M_bind. cbn.
    rewrite (read_run _ x (mk_node c n)) by done. cbn. by rewrite (free_run _ x (mk_node c n)).
  - destruct l1 as [|b l1 _] using rev_ind; [rewrite length_app in Hl; cbn in Hl; lia|].
    rewrite !length_app in Hl. cbn in Hl. rewrite <-!app_assoc in Ho. cbn [app] in Ho.
    destruct (owns_split (nodes s) (head_ptr s) ps1 z (x :: ps2) l1 b (c :: l2)) as (Hz1 & Hz2 & m & Hz & _);
      [lia|done|]. apply not_elem_of_cons in Hz2 as [Hzx _].
    exists (delete x (<[z := mk_node b n]> (nodes s))), (head_ptr s), (ps1 ++ z :: ps2).
    split; [|rewrite <-app_assoc; apply (owns_unlink _ _ ps1 z x ps2 l1 b c l2 n); [lia|done..]].
    unfold mbind, M_bind. rewrite (read_run _ z _ Hz). cbn [data]. rewrite (write_run _ z _ _ Hz).
    rewrite (read_run _ x (mk_node c n)) by (by cbn; rewrite lookup_insert_ne). cbn.
    by rewrite (free_run _ x (mk_node c n)) by (by cbn; rewrite lookup_insert_ne).
Qed.
End runs.

(** The step of a bind whose first half is known. *)
Ltac step H := rewrite (bind_Done _ _ _ _ _ H); cbn beta iota zeta.

(** Wherever the list of clients has a result, the memory has the same one; the mutex is
    in the states [lk] and [lk'] before and after. *)
Definition sim {A} (lk lk' : bool) (m : M Mem A) (m' : M World A) : Prop :=
  ∀ s w a w', refines lk s w → m' w = Done (a, w') → ∃ s', m s = Done (a, s') /\ refines lk' s' w'.

Section simulation.
Context `{WrpLib} (env : oracle).
Implicit Types malloc : heap reg_list_item_t → loc.

Lemma sim_ret {A} (lk : bool) (a : A) : sim lk lk (mret a) (mret a).
Proof. intros s w b w' Hr [= <- <-]. by exists s. Qed.

Lemma sim_bind {A B} (lk lk1 lk2 : bool) (m : M Mem A) (m' : M World A) (f : A → M Mem B) (f' : A → M World B) :
  sim lk lk1 m m' → (∀ a, sim lk1 lk2 (f a) (f' a)) → sim lk lk2 (x ← m; f x) (x ← m'; f' x).
Proof.
  intros Hm Hf s w b w' Hr (a & w1 & H1 & H2)%bind_inv.
  destruct (Hm s w a w1 Hr H1) as (s1 & Hs1 & Hr1). destruct (Hf a s1 w1 b w' Hr1 H2) as (s' & Hs' & Hr').
  exists s'. by rewrite (bind_Done _ _ _ _ _ Hs1).
Qed.

Lemma sim_call (lk : bool) (c : ext) : sim lk lk (call_mem env c) (call env c).
Proof.
  intros s w a w' [Ho Hn Hl Hc] [= <- <-]. unfold call_mem. rewrite Hc. eexists. split; [done|]. by split; cbn; rewrite ?Hc.
Qed.

Ltac sim_call :=
  eapply sim_bind; [match goal with |- sim _ ?lk (call_mem _ ?c) _ => exact (sim_call lk c) end|].

Lemma sim_count (lk : bool) : sim lk lk (gets clients) get_numOfClients.
Proof. intros s w a w' Hr [= <- <-]. exists s. split; [|done]. by rewrite <-(r_count _ _ _ Hr). Qed.

Lemma get_global_node_run s w : refines false s w → 
  get_global_node s = Done (head_ptr s, s <| client_mut := true |>) /\ refines true (s <| client_mut := true |>) w.
Proof. intros [Ho Hn Hl Hc]. unfold get_global_node. run_m. rewrite Hl. by split. Qed.

Lemma release_run s w : refines true s w → 
  release_global_node s = Done (tt, s <| client_mut := false |>) /\ refines false (s <| client_mut := false |>) w.
Proof. intros [Ho Hn Hl Hc]. unfold release_global_node. run_m. rewrite Hl. by split. Qed.

Lemma walk_fuel_run s : walk_fuel s = Done (S (size (nodes s)), s).
Proof. done. Qed.

Lemma sim_deleteFromList lk name : sim lk lk (deleteFromList_mem env name) (deleteFromList env name).
Proof.
  intros s w a w' Hr. destruct name as [name|]; [|by intros [= <- <-]; exists s].
  destruct Hr as [(ps & Ho) Hn Hl Hc]. rewrite deleteFromList_run.
  unfold deleteFromList_mem. step (walk_fuel_run s). cbv [mbind M_bind gets]. cbn beta iota.
  pose proof (owns_length _ _ _ _ Ho) as Hsz. pose proof (seg_length _ _ _ _ _ (proj1 Ho)) as Hlen.
  pose proof (delete_loop_run env name s (S (size (nodes s))) [] ps [] (g_head w) eq_refl Ho) as Hd.
  cbn [last] in Hd. rewrite (seg_head _ _ _ _ _ (proj1 Ho)).
  replace (match ps with [] => None | x :: _ => Some x end) with (head ps) by (by destruct ps).
  specialize (Hd ltac:(lia)). destruct (unlink name (g_head w)) as [[c l']|].
  - intros [= <- <-]. destruct Hd as (h & p & ps' & Hrun & Ho'). rewrite Hrun. eexists. split; [done|].
    unfold deleted. rewrite Hn, Hc. by split; cbn; eauto.
  - intros [= <- <-]. exists s. split; [done|]. split; eauto.
Qed.

(** An acknowledgement to a client, wherever its node is. *)
Lemma sendAuthStatus_mem_run s x c n ack :
  wrp_struct_to (WRP_AUTH 200) = Some ack → nodes s !! x = Some (mk_node c n) →
  let byte := env (calls s) (nn_send (sock c) ack) in
  sendAuthStatus_mem env x s =
    Done (if 0 <=? byte then 0 else -1, s <| calls := calls s ++ [ev (nn_send (sock c) ack) byte] |>).
Proof. intros Ha Hx. unfold sendAuthStatus_mem. rewrite Ha. by step (read_run _ _ _ Hx). Qed.

Lemma sim_addToList malloc lk reg :
  (∀ h, h !! malloc h = None) → sim lk lk (addToList_mem env malloc reg) (addToList env reg).
Proof.
  intros Hmalloc. unfold addToList_mem, addToList. sim_call. intros sk.
  destruct (0 <=? sk); [|apply sim_ret]. sim_call. intros _.
  sim_call. intros rc. cbn beta.
  destruct (rc <? 0); [sim_call; intros _; apply sim_ret|].
  set (c := mk_item _ _ _ _). intros s w a w' [(ps & Ho) Hn Hl Hc] Hw.
  destruct (append_node_run (nodes s) (head_ptr s) ps (g_head w) (malloc (nodes s)) c Ho (Hmalloc _))
    as (h' & p' & Happ & Ho').
  cbv [mbind M_bind gets]. cbn beta iota. rewrite Happ. cbn [lift]. cbn beta iota. unfold modify at 1. cbn beta iota.
  set (s1 := s <| nodes := h' |> <| head_ptr := p' |>).
  assert (nodes s1 !! malloc (nodes s) = Some (mk_node c None)) as Hnew.
  { pose proof (seg_length _ _ _ _ _ (proj1 Ho)) as Hlen.
    destruct (owns_split _ _ _ _ [] _ _ [] Hlen Ho') as (_ & _ & n & Hx & _ & Hs). by rewrite <-Hs. }
  rewrite (read_run _ _ _ Hnew). cbn [data].
  cbv [mbind M_bind modify] in Hw. cbn beta iota in Hw. revert Hw.
  destruct (streq _ _ && streq _ _).
  2:{ intros [= <- <-]. exists s1. split; [done|]. split; cbn; eauto. }
  unfold modify. cbn beta iota. unfold sendAuthStatus at 1.
  destruct (wrp_struct_to (WRP_AUTH 200)) as [ack|] eqn:Ha; [|done].
  rewrite (sendAuthStatus_mem_run _ _ c None ack Ha) by exact Hnew.
  cbv [mbind M_bind call mret M_ret]. cbn. rewrite Hc. intros [= <- <-]. eexists. split; [done|].
  split; cbn; try done; eauto. by rewrite Hn.
Qed.

(** A node is rewritten in place to what the list function computes. *)
Lemma reconnect_mem_run reg s w w' x c n c' stop :
  nodes s !! x = Some (mk_node c n) → calls s = trace w →
  reconnect_node env c reg w = Done ((c', stop), w') →
  reconnect_mem env x reg s = Done (stop, s <| nodes := <[x := mk_node c' n]> (nodes s) |> <| calls := trace w' |>) /\
  same_but_trace w w'.
Proof.
  destruct s as [h p k l t]. cbn. intros Hx -> Hw. unfold reconnect_mem, reconnect_node in *.
  cbv [mbind M_bind call_mem call mret M_ret] in *. cbn beta iota in *.
  rewrite (assign_run _ _ _ c n) by exact Hx. cbn in *.
  rewrite (read_run _ _ _ (lookup_insert_eq _ _ _)). cbn.
  rewrite (read_run _ _ _ (lookup_insert_eq _ _ _)). cbn.
  rewrite (assign_run _ _ _ _ _ (lookup_insert_eq _ _ _)). cbn. rewrite insert_insert_eq.
  rewrite (read_run _ _ _ (lookup_insert_eq _ _ _)). cbn.
  set (sk := env _ nn_socket_push) in *. destruct (0 <=? sk); [|by injection Hw as <- <- <-].
  set (rc := env _ (nn_connect sk _)) in *. destruct (rc <? 0); [by injection Hw as <- <- <-|].
  rewrite (assign_run _ _ _ _ _ (lookup_insert_eq _ _ _)). cbn. rewrite insert_insert_eq.
  unfold sendAuthStatus in Hw. destruct (wrp_struct_to (WRP_AUTH 200)) as [ack|] eqn:Ha; [|done].
  rewrite (sendAuthStatus_mem_run _ _ _ _ ack Ha (lookup_insert_eq _ _ _)).
  cbv [mbind M_bind call mret M_ret] in Hw. cbn in *. by injection Hw as <- <- <-.
Qed.

Lemma reconnect_walk_run reg fuel s w w' ps1 ps2 l1 l2 l2' flag :
  length ps1 = length l1 → owns (nodes s) (head_ptr s) (ps1 ++ ps2) (l1 ++ l2) → (length ps2 < fuel)%nat →
  calls s = trace w → reconnect_loop env l2 reg w = Done ((l2', flag), w') →
  ∃ h, reconnect_walk env fuel (head ps2) reg s = Done (flag, s <| nodes := h |> <| calls := trace w' |>) /\
    owns h (head_ptr s) (ps1 ++ ps2) (l1 ++ l2') /\ same_but_trace w w'.
Proof.
  revert s w ps1 ps2 l1 l2 l2'. induction fuel as [|fuel IH]; intros s w ps1 ps2 l1 l2 l2' Hl Ho Hf Hc Hw; [lia|].
  pose proof (seg_length _ _ _ _ _ (proj1 Ho)) as Hlen. rewrite !length_app in Hlen.
  destruct ps2 as [|x ps2], l2 as [|c l2]; try (cbn in Hlen; lia).
  { injection Hw as <- <- <-. exists (nodes s). rewrite <-Hc. by destruct s, w. }
  destruct (owns_split _ _ _ _ _ _ _ _ Hl Ho) as (Hx1 & Hx2 & n & Hx & Hs1 & Hs2).
  cbn [reconnect_walk head hd_error reconnect_loop] in *. step (read_run _ _ _ Hx). cbn [data].
  assert (∃ s1 w1 c1 stop, (if streq (service_name c) (reg_service_name reg) then reconnect_mem env x reg
                            else mret false) s = Done (stop, s1) /\
      s1 = s <| nodes := <[x := mk_node c1 n]> (nodes s) |> <| calls := trace w1 |> /\ same_but_trace w w1 /\
      (if (stop : bool) then mret (c1 :: l2, true)
       else '(rest', flag) ← reconnect_loop env l2 reg; mret (c1 :: rest', flag)) w1 = Done ((l2', flag), w'))
    as (s1 & w1 & c1 & stop & Hrun & -> & Hw1 & Hrest).
  { destruct (streq _ _).
    - apply bind_inv in Hw as ([c1 stop] & w1 & Hn & Hw).
      destruct (reconnect_mem_run reg s w w1 x c n c1 stop Hx Hc Hn) as [Hrun Hsame]. by eexists _, w1, c1, stop.
    - exists s, w, c, false. split; [done|]. rewrite (insert_id _ _ _ Hx), <-Hc. destruct s, w. by split. }
  step Hrun. set (s1 := s <| nodes := _ |> <| calls := _ |>).
  assert (owns (nodes s1) (head_ptr s1) (ps1 ++ x :: ps2) (l1 ++ c1 :: l2)) as Ho1
    by (by apply (owns_update _ _ _ _ _ _ c)).
  destruct stop.
  { injection Hrest as <- <- <-. by exists (nodes s1). }
  assert (nodes s1 !! x = Some (mk_node c1 n)) as Hx' by (apply lookup_insert_eq). step (read_run _ _ _ Hx').
  apply bind_inv in Hrest as ([rest' flag'] & w2 & Hloop & [= <- <- <-]).
  cbn [next]. rewrite (seg_head _ _ _ _ _ Hs2).
  replace (match ps2 with [] => None | y :: _ => Some y end) with (head ps2) by (by destruct ps2).
  destruct (IH s1 w1 (ps1 ++ [x]) ps2 (l1 ++ [c1]) l2 rest') as (h & Hr & Ho2 & Hw2);
    [rewrite !length_app; cbn; lia|by rewrite <-!app_assoc|cbn in Hf; lia|done|done|].
  rewrite <-!app_assoc in Ho2. exists h. split; [exact Hr|]. split; [exact Ho2|].
  unfold same_but_trace in *. rewrite Hw2, Hw1. by destruct w.
Qed.

Lemma sim_registration malloc reg :
  (∀ h, h !! malloc h = None) →
  sim false false (process_registration_mem env malloc reg) (process_registration env reg).
Proof.
  intros Hmalloc s w [] w' Hr Hw. destruct (get_global_node_run s w Hr) as [Hg Hr1].
  unfold process_registration_mem. step Hg. set (s1 := s <| client_mut := true |>) in *.
  destruct (sim_count true s1 w (numOfClients w) w Hr1 eq_refl) as (s1' & Hn & _).
  assert (s1' = s1) as -> by (by injection Hn). step Hn. step (walk_fuel_run s1).
  unfold process_registration in Hw. unfold mbind at 1, M_bind at 1 in Hw. cbn [get_numOfClients gets] in Hw.
  cbn beta iota in Hw. unfold mbind at 1, M_bind at 1 in Hw. cbn [gets] in Hw. cbn beta iota in Hw.
  apply bind_inv in Hw as (flag & w1 & Hflag & Hw).
  assert (∃ s2, (if negb (numOfClients w =? 0) then reconnect_walk env (S (size (nodes s1))) (head_ptr s) reg
                 else mret false) s1 = Done (flag, s2) /\ refines true s2 w1) as (s2 & Hrun & Hr2).
  { destruct (negb _); [|by injection Hflag as <- <-; exists s1].
    apply bind_inv in Hflag as ([l' flag'] & w2 & Hloop & [= <- <-]).
    destruct Hr1 as [(ps & Ho) Hcnt Hl Hc].
    pose proof (owns_length _ _ _ _ Ho). pose proof (seg_length _ _ _ _ _ (proj1 Ho)).
    destruct (reconnect_walk_run reg (S (size (nodes s1))) s1 w w2 [] ps [] (g_head w) l' flag' eq_refl Ho)
      as (h & Hrun & Ho' & Hsame); [lia|done|done|].
    rewrite (seg_head _ _ _ _ _ (proj1 Ho) : head_ptr s = _).
    replace (match ps with [] => None | y :: _ => Some y end) with (head ps) by (by destruct ps).
    rewrite Hrun. eexists. split; [done|]. rewrite Hsame. split; cbn; eauto. }
  step Hrun.
  assert (∃ s3, (if negb flag || (numOfClients w =? 0) then _ ← addToList_mem env malloc reg; mret tt else mret tt) s2
                = Done (tt, s3) /\ refines true s3 w') as (s3 & Hrun3 & Hr3).
  { destruct (negb flag || _); [|by injection Hw as <-; exists s2].
    refine (sim_bind _ _ _ _ _ _ _ (sim_addToList malloc true reg Hmalloc) _ s2 w1 tt w' Hr2 Hw). intros _. apply sim_ret. }
  step Hrun3. destruct (release_run s3 w' Hr3) as [Hrel Hr4]. eexists. split; [exact Hrel|done].
Qed.

(** The search in a section, with what comes of it. *)
Lemma section_find dest s w : refines false s w →
  ∃ r, get_global_node s = Done (head_ptr s, s <| client_mut := true |>) /\
    refines true (s <| client_mut := true |>) w /\
    find_mem dest (head_ptr s) (s <| client_mut := true |>) = Done (r, s <| client_mut := true |>) /\
    match find_client dest (g_head w) with
    | Some c => ∃ x n, r = Some x /\ nodes (s <| client_mut := true |>) !! x = Some (mk_node c n)
    | None => r = None
    end.
Proof.
  intros Hr. destruct (get_global_node_run s w Hr) as [Hg Hr1]. destruct (r_list _ _ _ Hr1) as (ps & Ho).
  destruct (find_mem_run _ dest _ _ Ho) as (r & Hf & Hm). by exists r.
Qed.

(** A message to the client that is found: the node is not touched. *)
Lemma found_send dest Msg s w x c n :
  refines true s w → nodes s !! x = Some (mk_node c n) → find_client dest (g_head w) = Some c →
  ∃ w', sendMsgtoRegisteredClients env dest Msg w = Done (1, w') /\
    refines false (s <| calls := trace w' |> <| client_mut := false |>) w' /\
    call_mem env (nn_send (sock c) Msg) s = Done (env (trace w) (nn_send (sock c) Msg), s <| calls := trace w' |>).
Proof.
  intros [Ho Hn Hl Hc] Hx Hf. unfold sendMsgtoRegisteredClients. run_m. rewrite Hf. run_m.
  eexists. split; [done|]. split; [by split|]. unfold call_mem. by rewrite Hc.
Qed.

Lemma sim_send malloc dest Msg :
  sim false false (mem_op env malloc (op_send dest Msg)) (list_op env (op_send dest Msg)).
Proof.
  intros s w a w' Hr Hw. destruct (section_find dest s w Hr) as (r & Hg & Hr1 & Hf & Hm).
  cbn [mem_op]. unfold send_section. cbn [list_op] in Hw.
  destruct (find_client dest (g_head w)) as [c|] eqn:Hfc.
  - destruct Hm as (x & n & -> & Hx). destruct (found_send dest Msg _ w x c n Hr1 Hx Hfc) as (w1 & Hw1 & Hr2 & Hcall).
    rewrite Hw1 in Hw. injection Hw as <- <-. eexists. split; [|exact Hr2].
    cbv [mbind M_bind mret M_ret]. rewrite Hg, Hf, (read_run _ _ _ Hx). cbn [data]. by rewrite Hcall.
  - subst r. destruct (release_run _ w Hr1) as [Hrel Hr2].
    unfold sendMsgtoRegisteredClients in Hw. cbv [mbind M_bind gets mret M_ret] in Hw. rewrite Hfc in Hw.
    injection Hw as <- <-. eexists. split; [|exact Hr2].
    cbv [mbind M_bind mret M_ret]. by rewrite Hg, Hf, Hrel.
Qed.

Lemma sim_route malloc dest Msg :
  sim false false (mem_op env malloc (op_route dest Msg)) (list_op env (op_route dest Msg)).
Proof.
  intros s w a w' Hr Hw. destruct (section_find dest s w Hr) as (r & Hg & Hr1 & Hf & Hm).
  cbn [mem_op]. unfold route_mem. cbn [list_op] in Hw.
  destruct (find_client dest (g_head w)) as [c|] eqn:Hfc.
  - destruct Hm as (x & n & -> & Hx). destruct (found_send dest Msg _ w x c n Hr1 Hx Hfc) as (w1 & Hw1 & Hr2 & Hcall).
    rewrite Hw1 in Hw. injection Hw as <- <-. eexists. split; [|exact Hr2].
    cbv [mbind M_bind mret M_ret]. rewrite Hg, Hf, (read_run _ _ _ Hx). cbn [data]. rewrite Hcall.
    by rewrite (read_run _ x (mk_node c n)) by exact Hx.
  - subst r. destruct (release_run _ w Hr1) as [Hrel Hr2].
    unfold sendMsgtoRegisteredClients in Hw. cbv [mbind M_bind gets mret M_ret] in Hw. rewrite Hfc in Hw.
    injection Hw as <- <-. eexists. split; [|exact Hr2].
    cbv [mbind M_bind mret M_ret]. by rewrite Hg, Hf, Hrel.
Qed.

Lemma sim_check name : sim false false (checkClientStatus_mem name) (checkClientStatus name).
Proof.
  intros s w a w' Hr [= <- <-]. destruct (section_find name s w Hr) as (r & Hg & Hr1 & Hf & Hm).
  destruct (release_run _ w Hr1) as [Hrel Hr2]. eexists. split; [|exact Hr2].
  unfold checkClientStatus_mem. cbv [mbind M_bind mret M_ret]. rewrite Hg, Hf, Hrel.
  destruct (find_client name (g_head w)); [by destruct Hm as (x & n & -> & _)|by subst r].
Qed.

Lemma sim_delete_all : sim false false deleteAllClients_mem deleteAllClients.
Proof.
  intros s w a w' [(ps & Ho) Hn Hl Hc] [= <- <-]. unfold deleteAllClients_mem. step (walk_fuel_run s).
  pose proof (owns_length _ _ _ _ Ho). pose proof (seg_length _ _ _ _ _ (proj1 Ho)).
  cbv [mbind M_bind gets]. cbn beta iota. rewrite (free_all_run _ _ _ _ _ Ho) by lia. eexists. split; [done|].
  split; cbn; [exists []; apply owns_empty|by rewrite Hn|done|done].
Qed.

(** The walk of a sweep on the part of the list behind [ps1]. *)
Lemma alive_walk_run b fuel s w ps1 ps2 l1 l2 :
  length ps1 = length l1 → owns (nodes s) (head_ptr s) (ps1 ++ ps2) (l1 ++ l2) → (length ps2 < fuel)%nat →
  g_head w = l1 ++ l2 → refines true s w → ∀ again w', alive_list env l2 b w = Done (again, w') →
  ∃ s', alive_walk env fuel b (head ps2) s = Done (again, s') /\ refines true s' w'.
Proof.
  revert s w ps1 ps2 l1 l2. induction fuel as [|fuel IH]; intros s w ps1 ps2 l1 l2 Hl Ho Hf Hw Hr again w' Hrun; [lia|].
  pose proof (seg_length _ _ _ _ _ (proj1 Ho)) as Hlen. rewrite !length_app in Hlen.
  destruct ps2 as [|x ps2], l2 as [|c l2]; try (cbn in Hlen; lia); [injection Hrun as <- <-; by exists s|].
  destruct (owns_split _ _ _ _ _ _ _ _ Hl Ho) as (Hx1 & Hx2 & n & Hx & Hs1 & Hs2).
  cbn [alive_walk head hd_error alive_list] in *. step (read_run _ _ _ Hx). cbn [data].
  apply bind_inv in Hrun as (byte & w1 & Hcall & Hrun).
  destruct (sim_call true (nn_send (sock c) b) s w byte w1 Hr Hcall) as (s1 & Hs & Hr1). step Hs.
  assert (nodes s1 = nodes s /\ head_ptr s1 = head_ptr s) as [Hn1 Hh1] by (by injection Hs as _ <-).
  assert (g_head w1 = g_head w) as Hw1 by (by injection Hcall as _ <-).
  destruct (byte =? _).
  - cbv [mbind M_bind mret M_ret]. change (-1 =? 0) with false. cbn beta iota.
    rewrite (read_run s1 x (mk_node c n)) by congruence. cbn [next]. rewrite (seg_head _ _ _ _ _ Hs2).
    replace (match ps2 with [] => None | y :: _ => Some y end) with (head ps2) by (by destruct ps2).
    apply (IH s1 w1 (ps1 ++ [x]) ps2 (l1 ++ [c]) l2); rewrite ?length_app, <-?app_assoc; cbn in *; try congruence; try lia.
  - apply bind_inv in Hrun as (ret & w2 & Hdel & Hrun).
    destruct (sim_deleteFromList true _ s1 w1 ret w2 Hr1 Hdel) as (s2 & Hd & Hr2).
    assert (ret = 0) as ->.
    { rewrite deleteFromList_run in Hdel. destruct (unlink_in (service_name c) (g_head w1) c) as (c' & l' & Hu);
        [rewrite Hw1, Hw; set_solver|done|]. rewrite Hu in Hdel. by injection Hdel as <- _. }
    rewrite Z.eqb_refl in Hrun. injection Hrun as <- <-. exists s2. split; [|done].
    cbv [mbind M_bind]. rewrite (read_run s1 x (mk_node c n)) by congruence. cbn [data]. by rewrite Hd.
Qed.

Lemma sim_alive resync b :
  sim false false (alive_section env resync b) (alive_turn_list env resync b).
Proof.
  intros s w again w1 Hr Hw. destruct (get_global_node_run s w Hr) as [Hg Hr1].
  apply bind_inv in Hw as (cnt & w2 & [= <- <-] & Hw). apply bind_inv in Hw as (l & w2 & [= <- <-] & Hwalk).
  unfold alive_section. set (s1 := s <| client_mut := true |>) in *.
  assert (∃ s2, (if resync || (0 <? clients s1) then fuel ← walk_fuel; alive_walk env fuel b (head_ptr s)
                 else mret false) s1 = Done (again, s2) /\ refines true s2 w1) as (s2 & Hrun & Hr2).
  { rewrite (r_count _ _ _ Hr1). destruct (resync || _); [|by injection Hwalk as <- <-; exists s1].
    step (walk_fuel_run s1). destruct (r_list _ _ _ Hr1) as (ps & Ho).
    pose proof (owns_length _ _ _ _ Ho). pose proof (seg_length _ _ _ _ _ (proj1 Ho)).
    rewrite (seg_head _ _ _ _ _ (proj1 Ho) : head_ptr s = _).
    replace (match ps with [] => None | y :: _ => Some y end) with (head ps) by (by destruct ps).
    apply (alive_walk_run b _ s1 w [] ps [] (g_head w)); try done; lia. }
  destruct (release_run s2 w1 Hr2) as [Hrel Hr3]. eexists. split; [|exact Hr3].
  cbv [mbind M_bind gets mret M_ret] in *. cbn beta iota in *. rewrite Hg. cbn beta iota. rewrite Hrun. by rewrite Hrel.
Qed.

Lemma sim_op malloc op :
  (∀ h, h !! malloc h = None) → sim false false (mem_op env malloc op) (list_op env op).
Proof.
  intros Hmalloc. destruct op; try apply sim_send; try apply sim_route; try apply sim_check; cbn [mem_op list_op].
  - eapply sim_bind; [by apply sim_registration|intros _; apply sim_ret].
  - eapply sim_bind; [apply sim_alive|intros again; apply sim_ret].
  - eapply sim_bind; [apply sim_delete_all|intros _; apply sim_ret].
Qed.

Lemma sim_ops malloc ops :
  (∀ h, h !! malloc h = None) → sim false false (run_ops (mem_op env malloc) ops) (run_ops (list_op env) ops).
Proof.
  intros Hmalloc. induction ops as [|op ops IH]; [apply sim_ret|]. cbn [run_ops].
  eapply sim_bind; [by apply sim_op|]. intros r. eapply sim_bind; [exact IH|]. intros rs. apply sim_ret.
Qed.
End simulation.

(** A walk stops at its first deletion, which takes one client out. *)
Lemma alive_list_run (env : oracle) (b : bytes) (l l1 : list reg_list_item_t) (w : World) :
  g_head w = l1 ++ l → ∃ again w', alive_list env l b w = Done (again, w') /\ sublist (g_head w') (g_head w) /\
    length (g_head w) = ((if (again : bool) then 1 else 0) + length (g_head w'))%nat /\
    ∀ fuel, (length l < fuel)%nat → ∃ fuel', (fuel <= fuel' + length l)%nat /\
      sweep env fuel b (length l1) w = if again then sweep env fuel' b 0 w' else Done (tt, w').
Proof.
  revert l1 w. induction l as [|c l IH]; intros l1 w Hw; cbn [alive_list].
  - exists false, w. split; [done|]. split; [done|]. split; [done|]. intros [|fuel] Hf; [lia|].
    exists (S fuel). split; [lia|]. cbn [sweep]. run_m. by rewrite Hw, app_nil_r, lookup_ge_None_2.
  - assert (g_head w !! length l1 = Some c) as Hc by (rewrite Hw; by apply list_lookup_middle).
    set (byte := env (trace w) (nn_send (sock c) b)).
    set (w1 := w <| trace := trace w ++ [ev (nn_send (sock c) b) byte] |>).
    assert (call env (nn_send (sock c) b) w = Done (byte, w1)) as Hcall by done. rewrite (bind_Done _ _ _ _ _ Hcall).
    assert (∀ fuel, sweep env (S fuel) b (length l1) w = (if byte =? Z.of_nat (length b) then sweep env fuel b (S (length l1))
        else ret ← deleteFromList env (Some (service_name c));
             if ret =? 0 then sweep env fuel b 0 else sweep env fuel b (S (length l1))) w1) as Hsweep.
    { intros fuel. cbn [sweep]. cbv [mbind M_bind gets]. cbn beta iota. by rewrite Hc. }
    destruct (byte =? _).
    + destruct (IH (l1 ++ [c]) w1) as (again & w' & Hr & Hs & Hlen & Hf); [by rewrite <-app_assoc|].
      exists again, w'. do 3 (split; [done|]). intros [|fuel] Hfuel; [lia|]. cbn in Hfuel.
      destruct (Hf fuel) as (fuel' & Hle & Hr'); [lia|]. exists fuel'. split; [cbn; lia|].
      rewrite Hsweep. rewrite length_app, Nat.add_1_r in Hr'. exact Hr'.
    + pose proof (unlink_spec (service_name c) (g_head w)) as Hu.
      destruct (unlink_in (service_name c) (g_head w) c) as (c' & l' & Hul); [rewrite Hw; set_solver|done|].
      rewrite Hul in Hu. destruct Hu as (x & y & Hx & -> & _).
      pose proof (deleteFromList_run env (service_name c) w1) as Hd. change (g_head w1) with (g_head w) in Hd.
      rewrite Hul in Hd. cbv zeta in Hd. rewrite (bind_Done _ _ _ _ _ Hd). rewrite Z.eqb_refl.
      eexists true, _. split; [done|]. split.
      { cbn. rewrite Hx. apply sublist_app; [done|]. by constructor. }
      split; [cbn; rewrite Hx, !length_app; cbn; lia|].
      intros [|fuel] Hfuel; [lia|]. exists fuel. split; [cbn; lia|].
      rewrite Hsweep, (bind_Done _ _ _ _ _ Hd). by rewrite Z.eqb_refl.
Qed.

(** *** The operations on the list have results *)

Abbreviation all_fit w := (Forall client_fits (g_head w)).

Section total.
Context `{WrpLib} (env : oracle) (ack : bytes) (Hack : wrp_struct_to (WRP_AUTH 200) = Some ack).

(** [m] has a result, and the strings still fit the nodes. *)
Definition has_result {A} (m : M World A) (w : World) : Prop :=
  all_fit w → ∃ a w', m w = Done (a, w') /\ all_fit w'.

Lemma has_result_bind {A B} (m : M World A) (f : A → M World B) w :
  has_result m w → (∀ a w', has_result (f a) w') → has_result (x ← m; f x) w.
Proof.
  intros Hm Hf Hw. destruct (Hm Hw) as (a & w1 & H1 & Hw1). destruct (Hf a w1 Hw1) as (b & w2 & H2 & Hw2).
  exists b, w2. by rewrite (bind_Done _ _ _ _ _ H1).
Qed.

Lemma has_result_ret {A} (a : A) w : has_result (mret a) w.
Proof. intros Hw. by exists a, w. Qed.

Lemma has_result_addToList reg w : has_result (addToList env reg) w.
Proof.
  intros Hw. unfold addToList. run_m. destruct (0 <=? _); [|by eexists _, _].
  destruct (_ <? 0); [by eexists _, _|].
  set (c := mk_item _ _ _ _). assert (client_fits c) as Hc.
  { split; cbn; unfold parStrncpy; rewrite length_take; lia. }
  destruct (_ && _); [rewrite (sendAuthStatus_run env c ack) by done|]; eexists _, _; (split; [done|]);
    (apply Forall_app_2; [done|by constructor]).
Qed.

Lemma has_result_registration reg w : has_result (process_registration env reg) w.
Proof.
  intros Hw. unfold process_registration, get_numOfClients. cbv [mbind M_bind gets]. cbn beta iota.
  assert (∃ flag w1, (if negb (numOfClients w =? 0) then '(l', flag) ← reconnect_loop env (g_head w) reg;
            modify (λ w, w <| g_head := l' |>);; mret flag else mret false) w = Done (flag, w1) /\ all_fit w1)
    as (flag & w1 & Hrun & Hw1).
  { destruct (negb _); [|by exists false, w].
    destruct (reconnect_loop_run env ack reg (g_head w) w Hack) as (l' & flag & w1 & Hl & _ & _ & Hf & _).
    rewrite (bind_Done _ _ _ _ _ Hl). eexists _, _. split; [done|]. cbn. by apply Hf. }
  cbv [mbind M_bind] in Hrun. rewrite Hrun. destruct (_ || _); [|by eexists _, _].
  destruct (has_result_addToList reg w1 Hw1) as (rc & w2 & -> & Hw2). by eexists _, _.
Qed.

Lemma has_result_op op w : has_result (list_op env op) w.
Proof using Hack.
  destruct op as [reg|dest Msg|name|dest Msg|resync b|]; cbn [list_op].
  - apply has_result_bind; [apply has_result_registration|intros; apply has_result_ret].
  - intros Hw. unfold sendMsgtoRegisteredClients. run_m. by destruct (find_client dest (g_head w)); eexists _, _.
  - intros Hw. by eexists _, _.
  - intros Hw. unfold sendMsgtoRegisteredClients. run_m. by destruct (find_client dest (g_head w)); eexists _, _.
  - apply has_result_bind; [|intros; apply has_result_ret].
    intros Hw. unfold alive_turn_list, get_numOfClients. cbv [mbind M_bind gets]. cbn beta iota.
    destruct (resync || _); [|by eexists _, _].
    destruct (alive_list_run env b (g_head w) [] w eq_refl) as (again & w' & -> & Hs & _). eexists _, _. split; [done|].
    rewrite Forall_forall in Hw. apply Forall_forall. intros c Hc. apply Hw. by eapply elem_of_sublist.
  - intros Hw. eexists _, _. split; [done|]. by constructor.
Qed.

Lemma has_result_ops ops w : has_result (run_ops (list_op env) ops) w.
Proof using Hack.
  revert w. induction ops as [|op ops IH]; intros w; [apply has_result_ret|].
  apply has_result_bind; [apply has_result_op|]. intros r w1. apply has_result_bind; [apply IH|].
  intros; apply has_result_ret.
Qed.
End total.

(** *** Sweeps *)

Section sweeps.
Context `{WrpLib} (env : oracle) (b : bytes).

(** Section after section, a sweep does what [sweep] does. *)
Lemma alive_sweep_run turns fuel resync s w :
  let n := length (g_head w) in
  refines false s w → (n < turns)%nat → (n * (n + 1) < fuel)%nat → resync || (0 <? numOfClients w) = true →
  ∃ s' w', alive_sweep env turns resync b s = Done (tt, s') /\ sweep env fuel b 0 w = Done (tt, w') /\
    refines false s' w'.
Proof.
  cbn zeta. revert fuel resync s w. induction turns as [|turns IH]; intros fuel resync s w Hr Hn Hf Hgo; [lia|].
  destruct (alive_list_run env b (g_head w) [] w eq_refl) as (again & w1 & Hl & _ & Hlen & Hsweep).
  assert (alive_turn_list env resync b w = Done (again, w1)) as Hsec.
  { unfold alive_turn_list, get_numOfClients. cbv [mbind M_bind gets]. cbn beta iota. by rewrite Hgo. }
  destruct (sim_alive env resync b s w again w1 Hr Hsec) as (s1 & Hs1 & Hr1).
  cbn [alive_sweep]. step Hs1. destruct (Hsweep fuel) as (fuel' & Hle & Hr'); [nia|]. cbn [length] in Hr'.
  rewrite Hr'. destruct again.
  - apply IH; [done|cbn in Hlen; lia|cbn in Hlen; nia|done].
  - by exists s1, w1.
Qed.
End sweeps.

(** ** Properties *)

(** What is allocated is the list from [g_head], each client once, and the mutex is free. *)
Definition mem_ok (s : Mem) : Prop :=
  client_mut s = false /\ ∃ ps l, owns (nodes s) (head_ptr s) ps l /\ Forall client_fits l.

Section properties.
Context `{WrpLib} (env : oracle) (malloc : heap reg_list_item_t → loc).

(** C6. Whatever critical sections the threads run, in any order: the memory stays
    well-formed, so no freed or foreign node is read, written or freed, no node is lost,
    the mutex is never taken twice nor released without being held; and deleting all
    clients in the end leaves nothing allocated. *)
Theorem client_memory_safe (ops : list client_op) (ack : bytes) (s : Mem)
    (Hmalloc : ∀ h, h !! malloc h = None) (Hack : wrp_struct_to (WRP_AUTH 200) = Some ack) (Hok : mem_ok s) :
  ∃ rs s', run_ops (mem_op env malloc) ops s = Done (rs, s') /\ mem_ok s' /\
    ∃ s'', deleteAllClients_mem s' = Done (tt, s'') /\ nodes s'' = ∅.
Proof.
  destruct Hok as (Hmut & ps & l & Ho & Hl).
  set (w := (world_init (λ _, None)) <| g_head := l |> <| numOfClients := clients s |> <| trace := calls s |>).
  assert (refines false s w) as Hr by (split; eauto).
  destruct (has_result_ops env ack Hack ops w Hl) as (rs & w1 & Hw1 & Hl1).
  destruct (sim_ops env malloc ops Hmalloc s w rs w1 Hr Hw1) as (s1 & Hs1 & Hr1).
  exists rs, s1. split; [done|]. split.
  { destruct Hr1 as [(ps1 & Ho1) _ Hm _]. split; [done|]. by exists ps1, (g_head w1). }
  destruct (sim_delete_all s1 w1 tt _ Hr1 eq_refl) as (s2 & Hs2 & [(ps2 & Ho2) _ _ _]).
  exists s2. split; [done|]. pose proof (owns_length _ _ _ _ Ho2) as Hz. by apply map_size_empty_inv in Hz.
Qed.

(** C7. In any order of the threads' critical sections, the nodes in memory and the list of
    clients give the same results, the same calls to the sockets and the same count. *)
Theorem client_memory_refines (ops : list client_op) (ack : bytes) (s : Mem) (w : World)
    (Hmalloc : ∀ h, h !! malloc h = None) (Hack : wrp_struct_to (WRP_AUTH 200) = Some ack)
    (Hfit : Forall client_fits (g_head w)) (Hr : refines false s w) :
  ∃ rs s' w', run_ops (mem_op env malloc) ops s = Done (rs, s') /\
    run_ops (list_op env) ops w = Done (rs, w') /\ refines false s' w'.
Proof.
  destruct (has_result_ops env ack Hack ops w Hfit) as (rs & w1 & Hw1 & _).
  destruct (sim_ops env malloc ops Hmalloc s w rs w1 Hr Hw1) as (s1 & Hs1 & Hr1). by exists rs, s1, w1.
Qed.

(** A keep-alive sweep in memory, which gives the mutex away after each deletion and
    starts again from the head, needs at most one section more than there are clients and
    ends as the sweep over the list does. *)
Theorem alive_sweep_refines (svc_bytes : bytes) (s : Mem) (w : World)
    (Hr : refines false s w) (Hn : 0 < numOfClients w) :
  let n := length (g_head w) in
  ∃ s' w', alive_sweep env (S n) false svc_bytes s = Done (tt, s') /\
    sweep env (sweep_fuel n) svc_bytes 0 w = Done (tt, w') /\ refines false s' w'.
Proof.
  apply alive_sweep_run; [done|lia|unfold sweep_fuel; lia|]. by apply Z.ltb_lt.
Qed.
End properties.

(** [sendMsgtoRegisteredClients] reads [temp->url] for its log message behind
    [release_global_node]. When the keep-alive thread gets the mutex in between and that
    client does not take its message, the node has been freed; without anything in between
    the function does what it does on the list. *)
Theorem url_logged_after_free (env : oracle) (s : Mem) (w : World) (c : reg_list_item_t)
    (l : list reg_list_item_t) (Msg svc_bytes : bytes)
    (Hr : refines false s w) (Hl : g_head w = c :: l)
    (Hdead : ∀ h, env h (nn_send (sock c) svc_bytes) ≠ Z.of_nat (length svc_bytes)) :
  (∃ x s1 s2, send_section env (service_name c) Msg s = Done (Some x, s1) /\
     alive_section env true svc_bytes s1 = Done (true, s2) /\ read x s2 = Undef) /\
  ∃ s' w', sendMsgtoRegisteredClients_mem env (service_name c) Msg s = Done (1, s') /\
    sendMsgtoRegisteredClients env (service_name c) Msg w = Done (1, w') /\ refines false s' w'.
Proof.
  destruct Hr as [(ps & Ho) Hn Hm Hc]. rewrite Hl in Ho. pose proof Ho as (Hs & _ & _).
  destruct s as [h p k m t]. cbn in Hn, Hm, Hc, Hs, Ho. subst k m t.
  destruct ps as [|x ps]; [done|]. cbn in Hs. destruct Hs as (-> & n & Hx & _).
  assert (∃ z, size h = S z) as [z Hz] by (rewrite (owns_length _ _ _ _ Ho); by exists (length l)).
  assert (∀ m, nodes m = h → find_mem (service_name c) (Some x) m = Done (Some x, m)) as Hf.
  { intros m <-. unfold find_mem, walk_fuel. run_m. rewrite Hz. cbn [find_node lift].
    rewrite (load_some _ _ _ Hx). cbn. by rewrite streq_refl. }
  assert (∀ m, nodes m = h → read x m = Done (mk_node c n, m)) as Hrd
    by (intros m <-; by apply (read_run m x)).
  assert (∀ m, nodes m = h → walk_fuel m = Done (S (S z), m)) as Hwf
    by (intros m <-; rewrite walk_fuel_run; by rewrite Hz).
  split.
  - unfold send_section, get_global_node. cbv [mbind M_bind gets modify mret M_ret]. cbn.
    rewrite Hf by done. rewrite Hrd by done. cbn.
    eexists x, _, _. split; [reflexivity|]. split.
    + unfold alive_section, get_global_node. cbv [mbind M_bind gets modify mret M_ret]. cbn -[walk_fuel alive_walk].
      rewrite Hwf by done. cbn [alive_walk]. cbv [mbind M_bind]. rewrite Hrd by done. cbn -[deleteFromList_mem].
      match goal with |- context [env ?t (nn_send (sock c) svc_bytes)] => pose proof (Hdead t) as Hd end.
      rewrite (proj2 (Z.eqb_neq _ _) Hd). cbv [mbind M_bind]. rewrite Hrd by done. cbn -[walk_fuel delete_loop].
      unfold deleteFromList_mem. cbv [mbind M_bind gets]. rewrite Hwf by done.
      cbn [delete_loop]. cbv [mbind M_bind]. cbn. rewrite Hrd by done. cbn.
      rewrite streq_refl. cbn. cbv [mbind M_bind]. cbn. rewrite Hrd by done. cbn.
      rewrite (free_run _ x (mk_node c n)) by exact Hx. reflexivity.
    + apply read_freed. apply lookup_delete_eq.
  - assert (refines false (mk_mem h (Some x) (numOfClients w) false (trace w)) w) as Hr
      by (split; try done; rewrite Hl; by exists (x :: ps)).
    unfold sendMsgtoRegisteredClients_mem, send_section, get_global_node, release_global_node. cbv [mbind M_bind gets modify mret M_ret]. cbn.
    rewrite Hf by done. rewrite Hrd by done. cbn. rewrite Hrd by done.
    unfold sendMsgtoRegisteredClients. run_m. rewrite Hl. cbn [find_client]. rewrite streq_refl.
    eexists _, _. split; [reflexivity|]. split; [reflexivity|]. split; try done. cbn. rewrite Hl. by exists (x :: ps).
Qed.

(** ** Witnesses *)

(** The nodes of [world_example], and an allocator that gives the first free location. *)
Definition mem_example : Mem := mk_mem
  {[ 1%positive := mk_node (mk_item 5 1 "iot" "tcp://127.0.0.1:6667") (Some 2%positive);
     2%positive := mk_node (mk_item 6 2 "config" "tcp://127.0.0.1:6668") None ]} (Some 1%positive) 2 false [].
Definition malloc_first : heap reg_list_item_t → loc := λ h, fresh (dom h : gset loc).

Lemma malloc_first_fresh (h : heap reg_list_item_t) : h !! malloc_first h = None.
Proof. apply (not_elem_of_dom (D := gset loc)). exact (is_fresh (dom h : gset loc)). Qed.

Lemma mem_example_refines : refines false mem_example world_example.
Proof.
  split; [|done..]. exists [1%positive; 2%positive]. split; [|split].
  - cbn. split; [done|]. exists (Some 2%positive). split; [done|]. split; [done|]. by exists None.
  - by_eval.
  - by_eval.
Qed.

Definition ops_example : list client_op :=
  [op_register (mk_reg "xmidt" "tcp://127.0.0.1:6669"); op_send "config" "m"; op_alive false "alive"; op_check "iot";
   op_register (mk_reg "config" "tcp://127.0.0.1:6670"); op_alive true "alive"; op_route "iot" "m"].

Example client_memory_safe_witness :
  ∃ rs s', run_ops (@mem_op wrp_example env_dead malloc_first) ops_example mem_example = Done (rs, s') /\ mem_ok s' /\
    rs = [0; 1; 1; 0; 0; 0; 0].
Proof.
  destruct (@client_memory_safe wrp_example env_dead malloc_first ops_example [ascii_of_nat 200] mem_example)
    as (rs & s' & Hrun & Hok & _); [exact malloc_first_fresh|reflexivity| |].
  - destruct (r_list _ _ _ mem_example_refines) as (ps & Ho). split; [done|]. exists ps, (g_head world_example).
    split; [exact Ho|by_eval].
  - exists rs, s'. split; [exact Hrun|]. split; [exact Hok|].
    apply (f_equal (λ o, match o with Done (r, _) => r | _ => [] end)) in Hrun. rewrite <-Hrun. by vm_compute.
Defined.

Example client_memory_refines_witness :
  ∃ rs s' w', run_ops (@mem_op wrp_example env_dead malloc_first) ops_example mem_example = Done (rs, s') /\
    run_ops (@list_op wrp_example env_dead) ops_example world_example = Done (rs, w') /\ refines false s' w'.
Proof.
  destruct (@client_memory_refines wrp_example env_dead malloc_first ops_example [ascii_of_nat 200] mem_example
    world_example) as (rs & s' & w' & H1 & H2 & H3);
    [exact malloc_first_fresh|reflexivity|by_eval|exact mem_example_refines|].
  exists rs, s', w'. split; [exact H1|]. split; [exact H2|exact H3].
Defined.

Example alive_sweep_refines_witness :
  ∃ s' w', alive_sweep env_dead 3 false "alive" mem_example = Done (tt, s') /\ refines false s' w' /\
    size (nodes s') = 1%nat.
Proof.
  destruct (alive_sweep_refines env_dead "alive" mem_example world_example mem_example_refines)
    as (s' & w' & Hrun & _ & Hr); [done|].
  exists s', w'. split; [exact Hrun|]. split; [exact Hr|].
  apply (f_equal (λ o, match o with Done (_, s) => size (nodes s) | _ => 0%nat end)) in Hrun. rewrite <-Hrun. by vm_compute.
Defined.

Example url_logged_after_free_witness :
  ∃ x s1 s2, send_section env_dead "iot" "m" mem_example = Done (Some x, s1) /\
    alive_section env_dead true "alive" s1 = Done (true, s2) /\ read x s2 = Undef.
Proof.
  destruct (url_logged_after_free env_dead mem_example world_example (mk_item 5 1 "iot" "tcp://127.0.0.1:6667")
    [mk_item 6 2 "config" "tcp://127.0.0.1:6668"] "m" "alive" mem_example_refines) as [H _].
  - reflexivity.
  - intros h. by vm_compute.
  - exact H.
Defined.
