(* ===== verification/Cjson.v ===== *)
(** * JSON values and the cJSON library

    A node has the members of [struct cJSON] the code reads: type, [valueint],
    [valuedouble], [valuestring], and the names and order of its children. The
    library's functions are the members of a class and its documented behaviour, as
    far as the code relies on it, is the class of laws; [cjson_example] is an
    implementation that satisfies them. *)

From Stdlib Require QArith_base.
From S2P Require Import Prelude StringHelpers.
Local Open Scope cs_scope.
Local Open Scope Z_scope.

Abbreviation Q := QArith_base.Q.
Abbreviation inject_Z := QArith_base.inject_Z.
#[export] Instance Q_eq_dec : EqDecision Q.
Proof. solve_decision. Defined.

#[warnings="-register-all"]
Inductive json : Set :=
| JNull
| JBool (b : bool)
| JNumber (valueint : Z) (valuedouble : Q)
| JString (valuestring : cstring)
| JArray (l : list json)
| JObject (l : list (cstring * json)).

(** A child as [cJSON_GetArrayItem] gives it: its [string], NULL in an array. *)
Definition item : Set := option cstring * json.

Definition valuestring_of (j : json) : option cstring :=
  match j with JString s => Some s | _ => None end.

Definition children (j : json) : list item :=
  match j with
  | JArray l => map (λ v, (None, v)) l
  | JObject l => map (λ '(k, v), (Some k, v)) l
  | _ => []
  end.

Definition cJSON_CreateObject : json := JObject [].

Class CjsonLib : Set := {
  (* NULL text, NULL result *)
  cJSON_Parse : option cstring → option json;
  cJSON_PrintUnformatted : json → cstring;
  (* [cJSON_GetArrayItem (j, i)] for [i] below [cJSON_GetArraySize (j)] *)
  cJSON_items : json → list item;
  (* the position of the child [cJSON_GetObjectItem] returns *)
  cJSON_item_index : json → cstring → option nat;
  (* NULL names and values are what the library makes of them *)
  cJSON_AddItemToObject : json → option cstring → option json → json;
  cJSON_DeleteItemFromArray : json → nat → json;
  cJSON_CreateNumber : Z → json;
  cJSON_CreateString : option cstring → option json;
  (* which of the later siblings of a child are still chained behind it when it is
     added to a second object while linked in a first *)
  cJSON_linked_tail : list (cstring * json) → list (cstring * json)
}.

(** Strings without NUL and numbers that are C [int]s, which printing preserves. *)
Fixpoint json_ok (j : json) : bool :=
  match j with
  | JNull | JBool _ => true
  | JNumber n d =>
      (- 2 ^ 31 <=? n) && (n <? 2 ^ 31) && bool_decide (d = inject_Z n)
  | JString s => bool_decide (cstring_ok s)
  | JArray l => forallb json_ok l
  | JObject l => forallb (λ '(k, v), bool_decide (cstring_ok k) && json_ok v) l
  end.

(** The position of the first member whose name is [name] up to case. *)
Fixpoint index_of (l : list (cstring * json)) (name : cstring) : option nat :=
  match l with
  | [] => None
  | (k, _) :: rest => if strcaseeq k name then Some 0%nat else S <$> index_of rest name
  end.

Class CjsonLaws `{CjsonLib} : Prop := {
  parse_null : cJSON_Parse None = None;
  parse_empty : cJSON_Parse (Some []) = None;
  parse_print : ∀ j, json_ok j = true → cJSON_Parse (Some (cJSON_PrintUnformatted j)) = Some j;
  print_ok : ∀ j, json_ok j = true → cstring_ok (cJSON_PrintUnformatted j) /\
                                     cJSON_PrintUnformatted j ≠ [];
  items_children : ∀ j, cJSON_items j = children j;
  index_object : ∀ l name, cJSON_item_index (JObject l) name = index_of l name;
  add_object : ∀ l k v, cJSON_AddItemToObject (JObject l) (Some k) (Some v) = JObject (l ++ [(k, v)])%list;
  delete_object : ∀ l i, cJSON_DeleteItemFromArray (JObject l) i = JObject (take i l ++ drop (S i) l)%list;
  create_number : ∀ n, int_range n → cJSON_CreateNumber n = JNumber n (inject_Z n);
  create_string : ∀ s, cJSON_CreateString (Some s) = Some (JString s);
  linked_tail_ok : ∀ l, forallb (λ '(k, v), bool_decide (cstring_ok k) && json_ok v) l = true →
    forallb (λ '(k, v), bool_decide (cstring_ok k) && json_ok v) (cJSON_linked_tail l) = true
}.

(** [cJSON_GetObjectItem], with the position of the child so that a change of the
    child is a change of the object. *)
Definition cJSON_GetObjectItem `{CjsonLib} (j : option json) (name : cstring)
    : option (nat * item) :=
  match j with
  | None => None
  | Some j =>
      match cJSON_item_index j name with
      | Some i => match children j !! i with Some c => Some (i, c) | None => None end
      | None => None
      end
  end.

(** The object after its child at [i] has been changed in place. *)
Definition update_child (j : json) (i : nat) (v : json) : json :=
  match j with
  | JObject l =>
      match l !! i with Some (k, _) => JObject (<[i := (k, v)]> l) | None => j end
  | JArray l => JArray (<[i := v]> l)
  | _ => j
  end.

(** The later siblings of the child at [i] of an object. *)
Definition later_members (j : json) (i : nat) : list (cstring * json) :=
  match j with JObject l => drop (S i) l | _ => [] end.

(** ** Lemmas *)

Section json_ind.
Context (P : json → Prop)
  (Hnull : P JNull) (Hbool : ∀ b, P (JBool b)) (Hnum : ∀ n d, P (JNumber n d))
  (Hstr : ∀ s, P (JString s)) (Harr : ∀ l, Forall P l → P (JArray l))
  (Hobj : ∀ l, Forall (λ p, P (snd p)) l → P (JObject l)).
Fixpoint json_ind' (j : json) : P j :=
  match j with
  | JNull => Hnull
  | JBool b => Hbool b
  | JNumber n d => Hnum n d
  | JString s => Hstr s
  | JArray l =>
      Harr l ((fix go (l : list json) : Forall P l :=
        match l with
        | [] => Forall_nil_2 _
        | x :: r => Forall_cons_2 _ _ _ (json_ind' x) (go r)
        end) l)
  | JObject l =>
      Hobj l ((fix go (l : list (cstring * json)) : Forall (λ p, P (snd p)) l :=
        match l with
        | [] => Forall_nil_2 _
        | x :: r => Forall_cons_2 _ _ _ (json_ind' (snd x)) (go r)
        end) l)
  end.
End json_ind.

Definition members_ok (l : list (cstring * json)) : Prop :=
  Forall (λ p, cstring_ok (fst p) /\ json_ok (snd p) = true) l.

Lemma members_ok_bool (l : list (cstring * json)) :
  forallb (λ '(k, v), bool_decide (cstring_ok k) && json_ok v) l = true ↔ members_ok l.
Proof.
  unfold members_ok. induction l as [|[k v] l IH]; simpl; [by split|].
  rewrite !andb_true_iff, bool_decide_eq_true, Forall_cons, IH. done.
Qed.

Lemma json_ok_object (l : list (cstring * json)) : json_ok (JObject l) = true ↔ members_ok l.
Proof. apply members_ok_bool. Qed.

Lemma strcaseeq_refl (s : cstring) : strcaseeq s s = true.
Proof. by apply bool_decide_eq_true. Qed.

Lemma index_of_lookup (l : list (cstring * json)) (name : cstring) (i : nat) :
  index_of l name = Some i →
  ∃ k v, l !! i = Some (k, v) /\ strcaseeq k name = true.
Proof.
  revert i. induction l as [|[k v] l IH]; intros i; [done|]. cbn [index_of].
  destruct (strcaseeq k name) eqn:Hk; [intros [= <-]; by exists k, v|].
  destruct (index_of l name) as [i'|]; [|done]. intros [= <-]. by apply IH.
Qed.

Lemma index_of_None (l : list (cstring * json)) (name : cstring) :
  index_of l name = None ↔ Forall (λ p, strcaseeq (fst p) name = false) l.
Proof.
  induction l as [|[k v] l IH]; cbn [index_of]; [by split|]. rewrite Forall_cons, <-IH. cbn.
  destruct (strcaseeq k name); [split; [done|by intros [? _]]|]. rewrite fmap_None. split; [intros Hn; by split|by intros [_ Hn]].
Qed.

Section lib.
Context `{CjsonLaws}.

Lemma get_object (l : list (cstring * json)) (name : cstring) :
  cJSON_GetObjectItem (Some (JObject l)) name =
    match index_of l name with
    | Some i => match l !! i with Some (k, v) => Some (i, (Some k, v)) | None => None end
    | None => None
    end.
Proof.
  unfold cJSON_GetObjectItem. rewrite index_object. destruct (index_of l name) as [i|]; [|done].
  unfold children. rewrite list_lookup_fmap. by destruct (l !! i) as [[k v]|].
Qed.
End lib.

(** ** An implementation that satisfies the laws

    The text of a value is a [#] and the binary digits of its code. *)

Abbreviation json_leaf := (bool + Z + list ascii)%type.

Fixpoint to_tree (j : json) : gen_tree json_leaf :=
  match j with
  | JNull => GenNode 0 []
  | JBool b => GenLeaf (inl (inl b))
  | JNumber n _ => GenLeaf (inl (inr n))
  | JString s => GenLeaf (inr s)
  | JArray l => GenNode 1 (map to_tree l)
  | JObject l => GenNode 2 (map (λ p, GenNode 3 [GenLeaf (inr (fst p)); to_tree (snd p)]) l)
  end.

Fixpoint of_tree (t : gen_tree json_leaf) : json :=
  match t with
  | GenLeaf (inl (inl b)) => JBool b
  | GenLeaf (inl (inr n)) => JNumber n (inject_Z n)
  | GenLeaf (inr s) => JString s
  | GenNode 1 l => JArray (map of_tree l)
  | GenNode 2 l =>
      JObject (map (λ t, match t with
                         | GenNode 3 [GenLeaf (inr k); v] => (k, of_tree v)
                         | _ => (""%cs, JNull)
                         end) l)
  | GenNode _ _ => JNull
  end.

Fixpoint bits (p : positive) : cstring :=
  match p with
  | xH => []
  | xO p => "0"%char :: bits p
  | xI p => "1"%char :: bits p
  end.
Fixpoint of_bits (s : cstring) : positive :=
  match s with
  | [] => xH
  | c :: s => if decide (c = "0"%char) then xO (of_bits s) else xI (of_bits s)
  end.

Definition cjson_example : CjsonLib := {|
  cJSON_Parse := λ s,
    match s with
    | Some (_ :: s) => of_tree <$> decode (of_bits s)
    | _ => None
    end;
  cJSON_PrintUnformatted := λ j, "#"%char :: bits (encode (to_tree j));
  cJSON_items := children;
  cJSON_item_index := λ j name, match j with JObject l => index_of l name | _ => None end;
  cJSON_AddItemToObject := λ j k v,
    match j, k, v with JObject l, Some k, Some v => JObject (l ++ [(k, v)]) | _, _, _ => j end;
  cJSON_DeleteItemFromArray := λ j i,
    match j with JObject l => JObject (take i l ++ drop (S i) l) | _ => j end;
  cJSON_CreateNumber := λ n, JNumber n (inject_Z n);
  cJSON_CreateString := λ s, JString <$> s;
  cJSON_linked_tail := λ _, []
|}.

Lemma of_to_tree (j : json) : json_ok j = true → of_tree (to_tree j) = j.
Proof.
  induction j as [|b|n d|s|l IH|l IH] using json_ind'; intros Hok; try done; cbn in Hok |- *.
  - apply andb_true_iff in Hok as [_ Hd]. apply bool_decide_eq_true in Hd. by rewrite Hd.
  - f_equal. rewrite map_map. induction IH as [|x l Hx _ IHl]; [done|].
    cbn in Hok |- *. apply andb_true_iff in Hok as [H1 H2]. by rewrite Hx, IHl.
  - f_equal. rewrite map_map. induction IH as [|[k x] l Hx _ IHl]; [done|].
    cbn in Hok, Hx |- *. apply andb_true_iff in Hok as [H1 H2].
    apply andb_true_iff in H1 as [_ H1]. by rewrite Hx, IHl.
Qed.

Lemma of_bits_bits (p : positive) : of_bits (bits p) = p.
Proof. induction p as [p IH|p IH|]; cbn; by rewrite ?IH. Qed.

Lemma bits_ok (p : positive) : cstring_ok (bits p).
Proof.
  unfold cstring_ok. induction p as [p IH|p IH|]; cbn; [| |apply not_elem_of_nil];
    by apply not_elem_of_cons.
Qed.

Lemma cjson_example_laws : @CjsonLaws cjson_example.
Proof.
  split; try done.
  - intros j Hj. cbn. by rewrite of_bits_bits, decode_encode; cbn; rewrite of_to_tree.
  - intros j _. split; [|done]. apply not_elem_of_cons. split; [done|apply bits_ok].
Qed.
