(* ===== verification/Crud.v ===== *)
(** * crud_internal.c, crud_tasks.c, crud_interface.c: the CRUD requests to parodus

    A request works on [u.crud] of the message and on the text of the CRUD
    configuration file; a handler returns its status and the response it filled in.
    The payload of a request is read as a C string, as the code does; the decoder
    puts a NUL behind it. Opening the file for writing may fail ([sys_fopen_write]); what is
    written into an opened file is taken to arrive, the result of [fwrite] not being
    looked at. *)

From S2P Require Import Prelude StringHelpers Timers Config Wrp World ClientList Nopoll Upstream Cjson.
Local Open Scope cs_scope.
Local Open Scope Z_scope.

Definition CLOUD_DISCONNECT_REASON : cstring := "disconnection-reason".
Definition SERVICE_STATUS : cstring := "service-status".

(** ** The destination *)

(** The slots of [obj] that have been written; reading another one is undefined. *)
Definition obj_array : Set := list (option cstring).
Definition obj_at (obj : obj_array) (i : nat) : outcome (option cstring) := deref_o (obj !! i).

(** A slot passed to [strcmp]. *)
Definition obj_str (obj : obj_array) (i : nat) : outcome cstring :=
  s ← obj_at obj i; deref_o s.

Definition strdupptr (s : cstring) (e : nat) : option cstring :=
  match e with O => None | _ => Some (take e s) end.

Section crud.
Context `{WrpLib} `{CjsonLib} (env : oracle).

(** The loop over the elements of the id, up to the first one that is missing. *)
Fixpoint dest_elements (todo : nat) (i : nat) (reqMsg : wrp_msg_t) : obj_array :=
  match todo with
  | O => []
  | S todo =>
      match wrp_get_msg_element i reqMsg with
      | None => [None]
      | Some s => Some s :: dest_elements todo (S i) reqMsg
      end
  end.

(** [rv + 1] after the loop. *)
Fixpoint filled (obj : obj_array) : nat :=
  match obj with Some _ :: rest => S (filled rest) | _ => O end.

(** [None] is the result -1. *)
Definition parse_dest_elements_to_string (reqMsg : wrp_msg_t) : outcome (option (nat * obj_array)) :=
  let obj := dest_elements (S WRP_ID_ELEMENT__APPLICATION) 0 reqMsg in
  match filled obj with
  | O => Undef
  | S rv =>
      start ← obj_str obj rv;
      match strchr start "/"%char with
      | None => Done (Some (rv, obj))
      | Some e =>
          let tagElem := strdupptr start e in
          let rest := drop (S e) start in
          match strchr rest "/"%char with
          | Some _ => Done None
          | None => Done (Some (S rv, take rv obj ++ [tagElem; Some rest])%list)
          end
      end
  end.

(** [obj[i] != NULL && strcmp (obj[i], s) == 0] *)
Definition obj_is (obj : obj_array) (i : nat) (s : cstring) : outcome bool :=
  o ← obj_at obj i; Done (match o with Some x => streq x s | None => false end).

Definition valid_tag_dest (objlevel : nat) (obj : obj_array) : outcome bool :=
  if (objlevel =? 4)%nat then
    a ← obj_is obj 2 "parodus";
    if (a : bool) then obj_is obj 3 "tag" else Done false
  else Done false.

(** ** The file *)

(** [None]: the file could not be opened, and the status is 0. *)
Definition readFromJSON : M World (option cstring) :=
  cfg ← gets parodusCfg;
  name ← deref (crud_config_file cfg);
  fs ← gets files;
  mret (cstr <$> fs name).

Definition writeToJSON (data : cstring) : M World Z :=
  cfg ← gets parodusCfg;
  name ← deref (crud_config_file cfg);
  ok ← call env (sys_fopen_write name);
  if (ok : bool) then
    modify (λ w, w <| files := λ n, if decide (n = name) then Some data else files w n |>);;
    mret 1
  else mret 0.

(** [tail] are the siblings that are still chained behind [objValue]. *)
Definition writeIntoCrudJson (res_obj : json) (object : cstring) (objValue : json)
    (tail : list (cstring * json)) : M World Z :=
  let res_obj := match cJSON_AddItemToObject res_obj (Some object) (Some objValue) with
                 | JObject l => JObject (l ++ tail)
                 | j => j
                 end in
  writeToJSON (cJSON_PrintUnformatted res_obj).

(** [strlen (s) == 0] *)
Definition is_empty (s : cstring) : bool := (length s =? 0)%nat.

(** The first part of [createObject] and [updateObject]: [None] is a text that is not
    JSON, which answers 500. *)
Definition load_json : M World (option (option json)) :=
  jsonData ← readFromJSON;
  match jsonData with
  | None => mret (Some (cJSON_Parse None))
  | Some text =>
      if is_empty text then mret (Some (cJSON_Parse (Some text)))
      else mret (match cJSON_Parse (Some text) with Some j => Some (Some j) | None => None end)
  end.

(** ** The payload *)

(** The loop for the mandatory key "expires": found with a value other than 0. *)
Fixpoint find_expires (items : list item) : bool :=
  match items with
  | [] => false
  | (Some key, JNumber value _) :: rest =>
      if streq key "expires" then negb (value =? 0) else find_expires rest
  | _ :: rest => find_expires rest
  end.

(** The loop for empty keys and string values. *)
Fixpoint check_strings (items : list item) : bool :=
  match items with
  | [] => true
  | (key, v) :: rest =>
      if (match key with Some [] => true | _ => false end) then false
      else if (match v with JString [] => true | _ => false end) then false
      else check_strings rest
  end.

(** The items of a payload that passes all checks; every failure answers 400. *)
Definition check_payload (payload : option bytes) : option (list item) :=
  match payload with
  | None => None
  | Some p =>
      match cJSON_Parse (Some (cstr p)) with
      | None => None
      | Some jsonPayload =>
          let items := cJSON_items jsonPayload in
          if (length items =? 0)%nat then None
          else if negb (find_expires items) then None
          else if negb (check_strings items) then None
          else Some items
      end
  end.

(** The copy loops: [None] is an item that is neither a number nor a string. *)
Fixpoint copy_items (items : list item) (obj : json) : option json :=
  match items with
  | [] => Some obj
  | (k, JNumber n _) :: rest =>
      copy_items rest (cJSON_AddItemToObject obj k (Some (cJSON_CreateNumber n)))
  | (k, JString s) :: rest =>
      copy_items rest (cJSON_AddItemToObject obj k (cJSON_CreateString (Some s)))
  | _ => None
  end.

(** The copy loops that take everything but a number for a string. *)
Fixpoint copy_any (items : list item) (obj : json) : json :=
  match items with
  | [] => obj
  | (k, JNumber n _) :: rest =>
      copy_any rest (cJSON_AddItemToObject obj k (Some (cJSON_CreateNumber n)))
  | (k, v) :: rest =>
      copy_any rest (cJSON_AddItemToObject obj k (cJSON_CreateString (valuestring_of v)))
  end.

(** The loops over the children of "tags": the position of the first of that name. *)
Fixpoint find_exact (items : list item) (name : cstring) : outcome (option nat) :=
  match items with
  | [] => Done None
  | (key, _) :: rest =>
      k ← deref_o key;
      if streq k name then Done (Some 0%nat)
      else r ← find_exact rest name; Done (option_map S r)
  end.

(** ** Create *)

Definition fail (status : Z) (response : wrp_crud) : M World (Z * wrp_crud) :=
  mret (-1, response <| crud_status := status |>).

Definition set_payload (j : json) (response : wrp_crud) : wrp_crud :=
  let text := cJSON_PrintUnformatted j in
  response <| crud_payload := Some text |> <| crud_payload_size := Z.of_nat (length text) |>.

(** The end of [createObject] and [updateObject]. *)
Definition finish_write (write_status : Z) (response : wrp_crud) : M World (Z * wrp_crud) :=
  if write_status =? 1 then mret (0, response) else fail 500 response.

(** The part behind the checks. *)
Definition create_tag (json : option json) (name : cstring) (items : list item)
    (response : wrp_crud) : M World (Z * wrp_crud) :=
  match cJSON_GetObjectItem json "tags" with
  | Some (i, (_, tagObj)) =>
      match cJSON_GetObjectItem (Some tagObj) name with
      | Some _ =>
          found ← lift (find_exact (cJSON_items tagObj) name);
          match found with
          | Some _ => fail 409 response
          | None => finish_write 0 response
          end
      | None =>
          match copy_items items cJSON_CreateObject with
          | None => fail 400 response
          | Some testObj =>
              let tagObj' := cJSON_AddItemToObject tagObj (Some name) (Some testObj) in
              let payloadObj := cJSON_AddItemToObject cJSON_CreateObject (Some name)
                                  (Some (copy_any items cJSON_CreateObject)) in
              let tail := match json with
                          | Some j => cJSON_linked_tail (later_members j i)
                          | None => []
                          end in
              create_status ← writeIntoCrudJson cJSON_CreateObject "tags" tagObj' tail;
              finish_write create_status
                ((set_payload payloadObj response) <| crud_status := 201 |>)
          end
      end
  | None =>
      match copy_items items cJSON_CreateObject with
      | None => fail 400 response
      | Some testObj =>
          let tagObj := cJSON_AddItemToObject cJSON_CreateObject (Some name) (Some testObj) in
          create_status ← writeIntoCrudJson cJSON_CreateObject "tags" tagObj [];
          finish_write create_status
            ((set_payload tagObj response) <| crud_status := 201 |>)
      end
  end.

Definition createObject (reqMsg : wrp_msg_t) (response : wrp_crud) : M World (Z * wrp_crud) :=
  loaded ← load_json;
  match loaded with
  | None => fail 500 response
  | Some json =>
      match crud_dest (crud_view reqMsg) with
      | None => fail 400 response
      | Some _ =>
          parsed ← lift (parse_dest_elements_to_string reqMsg);
          match parsed with
          | None => fail 400 response
          | Some (objlevel, obj) =>
              valid ← lift (valid_tag_dest objlevel obj);
              if (valid : bool) then
                match check_payload (crud_payload (crud_view reqMsg)) with
                | None => fail 400 response
                | Some items =>
                    name ← lift (obj_str obj objlevel);
                    create_tag json name items response
                end
              else fail 400 response
          end
      end
  end.

(** ** Retrieve *)

(** A member that is answered unless it is the empty string; only [cloud_status] may
    be NULL. *)
Definition mem_string (name value : cstring) (empty : bool) : option json :=
  if empty then None
  else Some (cJSON_AddItemToObject cJSON_CreateObject (Some name) (cJSON_CreateString (Some value))).
Definition mem_number (name : cstring) (value : Z) : option json :=
  Some (cJSON_AddItemToObject cJSON_CreateObject (Some name) (Some (cJSON_CreateNumber value))).

(** [None] is the result -1. *)
Definition retrieveFromMemory (keyName : cstring) (cfg : ParodusCfg) : option json :=
  let string name value := mem_string name value (is_empty value) in
  if streq HW_MODELNAME keyName then string HW_MODELNAME (hw_model cfg)
  else if streq HW_SERIALNUMBER keyName then string HW_SERIALNUMBER (hw_serial_number cfg)
  else if streq HW_MANUFACTURER keyName then string HW_MANUFACTURER (hw_manufacturer cfg)
  else if streq HW_DEVICEMAC keyName then string HW_DEVICEMAC (hw_mac cfg)
  else if streq HW_LAST_REBOOT_REASON keyName then
    string HW_LAST_REBOOT_REASON (hw_last_reboot_reason cfg)
  else if streq FIRMWARE_NAME keyName then string FIRMWARE_NAME (fw_name cfg)
  else if streq WEBPA_INTERFACE keyName then
    mem_string WEBPA_INTERFACE (webpa_interface_used cfg) (is_empty (fw_name cfg))
  else if streq WEBPA_URL keyName then string WEBPA_URL (webpa_url cfg)
  else if streq WEBPA_PROTOCOL keyName then string WEBPA_PROTOCOL (webpa_protocol cfg)
  else if streq WEBPA_UUID keyName then string WEBPA_UUID (webpa_uuid cfg)
  else if streq CLOUD_STATUS keyName then
    match cloud_status cfg with
    | None => None
    | Some s => string CLOUD_STATUS s
    end
  else if streq BOOT_TIME keyName then mem_number BOOT_TIME (boot_time cfg)
  else if streq WEBPA_PING_TIMEOUT keyName then mem_number WEBPA_PING_TIMEOUT (webpa_ping_timeout cfg)
  else if streq WEBPA_BACKOFF_MAX keyName then mem_number WEBPA_BACKOFF_MAX (webpa_backoff_max cfg)
  else None.

Definition getClientStatus (service : option cstring) : M World (option json) :=
  match service with
  | None => mret None
  | Some service =>
      online ← checkClientStatus service;
      let regstatus : cstring := if negb (online =? 0) then "online" else "offline" in
      mret (mem_string SERVICE_STATUS regstatus false)
  end.

(** The items of the response for "tags": one object per child. *)
Fixpoint copy_tags (items : list item) (childObj : json) : json :=
  match items with
  | [] => childObj
  | (k, subitem) :: rest =>
      let subitemObj := copy_any (cJSON_items subitem) cJSON_CreateObject in
      copy_tags rest (cJSON_AddItemToObject childObj k (Some subitemObj))
  end.

(** The part of [retrieveObject] that answers from the file. *)
Definition retrieve_external (objlevel : nat) (obj : obj_array) (response : wrp_crud)
    : M World (Z * wrp_crud) :=
  jsonData ← readFromJSON;
  match jsonData with
  | None => fail 500 response
  | Some text =>
      if is_empty text then fail 500 response
      else match cJSON_Parse (Some text) with
      | None => fail 500 response
      | Some json =>
          match cJSON_GetObjectItem (Some json) "tags" with
          | None => fail 400 response
          | Some (_, (key, paramArray)) =>
              let items := cJSON_items paramArray in
              if (length items =? 0)%nat then fail 400 response
              else
                tags_name ← lift (deref_o key);
                name ← lift (obj_str obj objlevel);
                if streq tags_name name then
                  let jsonresponse := cJSON_AddItemToObject cJSON_CreateObject (Some name)
                                        (Some (copy_tags items cJSON_CreateObject)) in
                  tagObj ← lift (deref_o (cJSON_GetObjectItem (Some jsonresponse) "tags"));
                  mret (0, (set_payload (snd (snd tagObj)) response) <| crud_status := 200 |>)
                else
                  tag ← lift (obj_is obj 3 "tag");
                  if (tag : bool) then
                    found ← lift (find_exact items name);
                    match found with
                    | None => fail 400 response
                    | Some i =>
                        subitem ← lift (deref_o (items !! i));
                        mret (0, (set_payload (copy_any (cJSON_items (snd subitem)) cJSON_CreateObject)
                                              response) <| crud_status := 200 |>)
                    end
                  else fail 400 response
          end
      end
  end.

(** The condition for the values in memory, and which of the two it is. *)
Definition in_memory (objlevel : nat) (obj : obj_array) : outcome bool :=
  if (objlevel =? 3)%nat then
    o ← obj_at obj 3;
    Done (match o with Some s => negb (strstr s "tags") | None => false end)
  else if (objlevel =? 4)%nat then
    o ← obj_at obj 3;
    Done (match o with Some s => strstr s "service-status" | None => false end)
  else Done false.

Definition retrieveObject (reqMsg : wrp_msg_t) (response : wrp_crud) : M World (Z * wrp_crud) :=
  match crud_dest (crud_view reqMsg) with
  | None => fail 400 response
  | Some _ =>
      parsed ← lift (parse_dest_elements_to_string reqMsg);
      match parsed with
      | None => fail 400 response
      | Some (objlevel, obj) =>
          mem ← lift (in_memory objlevel obj);
          if (mem : bool) then
            key ← lift (obj_str obj 3);
            inMemResponse ←
              (if strstr key "service-status" then
                 service ← lift (obj_at obj 4); getClientStatus service
               else cfg ← gets parodusCfg; mret (retrieveFromMemory key cfg));
            match inMemResponse with
            | Some j => mret (0, (set_payload j response) <| crud_status := 200 |>)
            | None => fail 400 response
            end
          else retrieve_external objlevel obj response
      end
  end.

(** ** Update *)

Definition validateDisconnectString (reason : option cstring) : bool :=
  match reason with
  | None | Some [] => false
  | Some s => forallb (λ c, isalpha c || isdigit c) s
  end.

Definition ConnDisconnectFromCloud (disconn_reason : cstring) : M World Z :=
  retry ← gets close_retry;
  if negb retry then
    modify (λ w, w <| reconnect_reason := Some disconn_reason |> <| LastReasonStatus := true |>);;
    set_close_retry;;
    mret 1
  else mret (-1).

(** The branch of [updateObject] for "cloud-disconnect". *)
Definition update_cloud_disconnect (payload : option bytes) (response : wrp_crud)
    : M World (Z * wrp_crud) :=
  match payload with
  | None => fail 400 response
  | Some p =>
      match cJSON_Parse (Some (cstr p)) with
      | None => fail 400 response
      | Some jsonPayload =>
          match cJSON_GetObjectItem (Some jsonPayload) CLOUD_DISCONNECT_REASON with
          | Some (_, (_, JString disconn_str)) =>
              if is_empty disconn_str then fail 400 response
              else if validateDisconnectString (Some disconn_str) then
                with_cfg (set_cloud_disconnect_reason disconn_str);;
                cfg ← gets parodusCfg;
                reason ← deref (cloud_disconnect cfg);
                disconnStatus ← ConnDisconnectFromCloud reason;
                if 0 <? disconnStatus then mret (0, response <| crud_status := 200 |>)
                else fail 500 response
              else fail 400 response
          | Some _ => fail 400 response
          | None => fail 400 response
          end
      end
  end.

(** The part behind the checks. *)
Definition update_tag (json : option json) (name : cstring) (items : list item)
    (response : wrp_crud) : M World (Z * wrp_crud) :=
  match cJSON_GetObjectItem json "tags" with
  | Some (i, (_, tagObj)) =>
      let tail := match json with
                  | Some j => cJSON_linked_tail (later_members j i)
                  | None => []
                  end in
      match cJSON_GetObjectItem (Some tagObj) name with
      | Some _ =>
          found ← lift (find_exact (cJSON_items tagObj) name);
          match found with
          | Some j =>
              match copy_items items cJSON_CreateObject with
              | None => fail 400 response
              | Some testObj2 =>
                  let tagObj' := cJSON_AddItemToObject (cJSON_DeleteItemFromArray tagObj j)
                                   (Some name) (Some testObj2) in
                  update_status ← writeIntoCrudJson cJSON_CreateObject "tags" tagObj' tail;
                  finish_write update_status (response <| crud_status := 200 |>)
              end
          | None => finish_write 0 response
          end
      | None =>
          match copy_items items cJSON_CreateObject with
          | None => fail 400 response
          | Some testObj1 =>
              let tagObj' := cJSON_AddItemToObject tagObj (Some name) (Some testObj1) in
              update_status ← writeIntoCrudJson cJSON_CreateObject "tags" tagObj' tail;
              finish_write update_status (response <| crud_status := 201 |>)
          end
      end
  | None =>
      match copy_items items cJSON_CreateObject with
      | None => fail 400 response
      | Some testObj1 =>
          let tagObj := cJSON_AddItemToObject cJSON_CreateObject (Some name) (Some testObj1) in
          update_status ← writeIntoCrudJson cJSON_CreateObject "tags" tagObj [];
          finish_write update_status (response <| crud_status := 201 |>)
      end
  end.

Definition updateObject (reqMsg : wrp_msg_t) (response : wrp_crud) : M World (Z * wrp_crud) :=
  loaded ← load_json;
  match loaded with
  | None => fail 500 response
  | Some json =>
      match crud_dest (crud_view reqMsg) with
      | None => fail 400 response
      | Some _ =>
          parsed ← lift (parse_dest_elements_to_string reqMsg);
          match parsed with
          | None => fail 400 response
          | Some (objlevel, obj) =>
              valid ← lift (valid_tag_dest objlevel obj);
              if (valid : bool) then
                match check_payload (crud_payload (crud_view reqMsg)) with
                | None => fail 400 response
                | Some items =>
                    name ← lift (obj_str obj objlevel);
                    update_tag json name items response
                end
              else
                disconnect ← (if (objlevel =? 3)%nat then lift (obj_is obj 3 "cloud-disconnect")
                              else mret false);
                if (disconnect : bool) then
                  update_cloud_disconnect (crud_payload (crud_view reqMsg)) response
                else fail 400 response
          end
      end
  end.

(** ** Delete *)

(** The part for a tag destination, up to the write. *)
Definition delete_tag (json : json) (objlevel : nat) (obj : obj_array)
    (response : wrp_crud) : M World (Z * wrp_crud) :=
  match cJSON_GetObjectItem (Some json) "tags" with
  | None => fail 400 response
  | Some (ti, (key, paramArray)) =>
      let items := cJSON_items paramArray in
      if (length items =? 0)%nat then fail 400 response
      else
        tags_name ← lift (deref_o key);
        name ← lift (obj_str obj objlevel);
        if streq tags_name name then fail 400 response
        else
          found ← lift (find_exact items name);
          match found with
          | None => fail 400 response
          | Some i =>
              let json' := update_child json ti (cJSON_DeleteItemFromArray paramArray i) in
              _ ← writeToJSON (cJSON_PrintUnformatted json');
              mret (0, response <| crud_status := 200 |>)
          end
  end.

Definition deleteObject (reqMsg : wrp_msg_t) (response : wrp_crud) : M World (Z * wrp_crud) :=
  jsonData ← readFromJSON;
  match jsonData with
  | None => fail 500 response
  | Some text =>
      if is_empty text then fail 500 response
      else match cJSON_Parse (Some text) with
      | None => fail 500 response
      | Some json =>
          match crud_dest (crud_view reqMsg) with
          | None => fail 400 response
          | Some _ =>
              parsed ← lift (parse_dest_elements_to_string reqMsg);
              match parsed with
              | None => fail 400 response
              | Some (objlevel, obj) =>
                  valid ← lift (valid_tag_dest objlevel obj);
                  if (valid : bool) then
                    delete_tag json objlevel obj response
                  else fail 400 response
              end
          end
      end
  end.

(** ** Requests *)

Definition no_payload (response : wrp_crud) : wrp_crud :=
  response <| crud_payload := None |> <| crud_payload_size := 0 |>.

Definition processCrudRequest (reqMsg : wrp_msg_t) : M World (Z * wrp_msg_t) :=
  let rq := crud_view reqMsg in
  uuid ← deref (crud_transaction_uuid rq);
  dest ← deref (crud_dest rq);
  source ← deref (crud_source rq);
  let resp_msg := crud_zero <| crud_transaction_uuid := Some uuid |>
                            <| crud_source := Some dest |> <| crud_dest := Some source |> in
  match reqMsg with
  | WRP_CRUD CREATE _ =>
      '(ret, resp) ← createObject reqMsg resp_msg;
      if negb (ret =? 0) then mret (-1, set_crud reqMsg (no_payload resp))
      else mret (0, set_crud reqMsg resp)
  | WRP_CRUD RETREIVE _ =>
      '(ret, resp) ← retrieveObject reqMsg resp_msg;
      if negb (ret =? 0) then mret (-1, set_crud reqMsg (no_payload resp))
      else mret (0, set_crud reqMsg resp)
  | WRP_CRUD UPDATE _ =>
      '(ret, resp) ← updateObject reqMsg resp_msg;
      if ret =? 0 then mret (0, set_crud reqMsg (no_payload resp))
      else mret (-1, set_crud reqMsg resp)
  | WRP_CRUD DELETE _ =>
      '(ret, resp) ← deleteObject reqMsg resp_msg;
      if ret =? 0 then mret (0, set_crud reqMsg (no_payload resp))
      else mret (-1, set_crud reqMsg resp)
  | _ => mret (0, set_crud reqMsg resp_msg)
  end.

(** One turn of the consumer; a failed encoding leaves the bytes uninitialised. *)
Definition CRUDHandlerTask_turn : M World bool :=
  q ← gets crudMsgQ;
  match q with
  | message :: rest =>
      modify (λ w, w <| crudMsgQ := rest |>);;
      '(_, crud_response) ← processCrudRequest message;
      match wrp_struct_to crud_response with
      | None => undef
      | Some resp_bytes => addCRUDresponseToUpstreamQ resp_bytes;; mret false
      end
  | [] =>
      stop ← read_g_shutdown env;
      if (stop : bool) then mret true
      else _ ← call env sys_cond_wait; mret false
  end.

Fixpoint CRUDHandlerTask (turns : nat) : M World unit :=
  match turns with
  | O => nofuel
  | S turns =>
      stop ← CRUDHandlerTask_turn;
      if (stop : bool) then mret tt else CRUDHandlerTask turns
  end.
End crud.

(** ** Properties *)

(** At most the cloud-disconnect reason and the trace differ. *)
Definition unchanged (w w' : World) : Prop :=
  ∃ d, w' = w <| parodusCfg := (parodusCfg w) <| cloud_disconnect := d |> |> <| trace := trace w' |>.

Lemma unchanged_refl (w : World) : unchanged w w.
Proof. exists (cloud_disconnect (parodusCfg w)). by destruct w as [[]]. Qed.

(** What every handler does with the response it was given: the status tells success
    from failure, a failure leaves the world alone, and without [fills] the payload
    stays what it was. *)
Definition answers (fills : bool) (response : wrp_crud) (w : World)
    (result : outcome (Z * wrp_crud * World)) : Prop :=
  match result with
  | Done ((ret, r), w') =>
      ((ret = 0 /\ (crud_status r = 200 \/ crud_status r = 201)) \/
       (ret = -1 /\ (crud_status r = 400 \/ crud_status r = 409 \/ crud_status r = 500) /\
        unchanged w w')) /\
      crud_transaction_uuid r = crud_transaction_uuid response /\
      crud_source r = crud_source response /\ crud_dest r = crud_dest response /\
      (fills = false → crud_payload r = crud_payload response)
  | _ => True
  end.

Section answers.
Context `{WrpLib} `{CjsonLib} (env : oracle).

Lemma answers_fail (fills : bool) (response : wrp_crud) (status : Z) (w : World) :
  status = 400 \/ status = 409 \/ status = 500 →
  answers fills response w (fail status response w).
Proof. intros Hs. split; [right|done]. split; [done|]. split; [done|apply unchanged_refl]. Qed.

Lemma answers_ok (response : wrp_crud) (status : Z) (w w' : World) :
  status = 200 \/ status = 201 → 
  answers false response w (Done ((0, response <| crud_status := status |>), w')).
Proof. intros Hs. split; [by left|done]. Qed.

Lemma answers_filled (response : wrp_crud) (j : json) (status : Z) (w w' : World) :
  status = 200 \/ status = 201 →
  answers true response w (Done ((0, (set_payload j response) <| crud_status := status |>), w')).
Proof. intros Hs. split; [by left|done]. Qed.

Lemma answers_lift {A} (fills : bool) (response : wrp_crud) (o : outcome A)
    (f : A → M World (Z * wrp_crud)) (w : World) :
  (∀ a, answers fills response w (f a w)) → answers fills response w ((a ← lift o; f a) w).
Proof. intros Hf. destruct o; run_m; cbn [lift]; [apply Hf|done|done]. Qed.

Lemma answers_read {A} (fills : bool) (response : wrp_crud) (m : M World A)
    (f : A → M World (Z * wrp_crud)) (w : World) :
  (∀ a w', m w = Done (a, w') → w' = w) → (∀ a, answers fills response w (f a w)) →
  answers fills response w ((a ← m; f a) w).
Proof.
  intros Hm Hf. run_m. destruct (m w) as [[a w']| |] eqn:Hr; [|done|done].
  rewrite (Hm a w' eq_refl). apply Hf.
Qed.

Lemma readFromJSON_pure (data : option cstring) (w w' : World) :
  readFromJSON w = Done (data, w') → w' = w.
Proof. unfold readFromJSON. run_m. by destruct (crud_config_file _) as [f|]; [intros [= <- <-]|]. Qed.

Lemma load_json_pure (r : option (option json)) (w w' : World) : load_json w = Done (r, w') → w' = w.
Proof.
  unfold load_json. run_m. destruct (readFromJSON w) as [[data w1]| |] eqn:Hr; [|done|done].
  apply readFromJSON_pure in Hr as ->. destruct data as [t|]; [|by intros [= _ <-]].
  by destruct (is_empty t); intros [= _ <-].
Qed.

Lemma getClientStatus_pure (service : option cstring) (r : option json) (w w' : World) :
  getClientStatus service w = Done (r, w') → w' = w.
Proof. unfold getClientStatus, checkClientStatus. destruct service; run_m; by intros [= _ <-]. Qed.

Lemma memory_pure (b : bool) (obj : obj_array) (key : cstring) (r : option json) (w w' : World) :
  (if b then service ← lift (obj_at obj 4); getClientStatus service
   else cfg ← gets parodusCfg; mret (retrieveFromMemory key cfg)) w = Done (r, w') → w' = w.
Proof.
  destruct b; run_m; [|by intros [= _ <-]].
  destruct (obj_at obj 4); cbn [lift]; [apply getClientStatus_pure|done|done].
Qed.

(** Writing fails without having changed anything. *)
Lemma answers_write (fills : bool) (response response' : wrp_crud) (res_obj objValue : json)
    (object : cstring) (tail : list (cstring * json)) (w : World) :
  crud_status response' = 200 \/ crud_status response' = 201 →
  crud_transaction_uuid response' = crud_transaction_uuid response →
  crud_source response' = crud_source response → crud_dest response' = crud_dest response →
  (fills = false → crud_payload response' = crud_payload response) →
  answers fills response w
    ((status ← writeIntoCrudJson env res_obj object objValue tail; finish_write status response') w).
Proof.
  intros Hs Hu Hsrc Hd Hp. unfold writeIntoCrudJson, writeToJSON. run_m.
  destruct (crud_config_file _) as [f|]; [|done]. run_m.
  destruct (env (trace w) (sys_fopen_write f)); cbn.
  - split; [left|]; by auto.
  - split; [right|by auto]. split; [done|]. split; [by auto|].
    exists (cloud_disconnect (parodusCfg w)). by destruct w as [[]].
Qed.

(** A success may follow any change of the world. *)
Lemma answers_then {A} (response : wrp_crud) (m : M World A) (status : Z) (w : World) :
  status = 200 \/ status = 201 →
  answers false response w ((_ ← m; mret (0, response <| crud_status := status |>)) w).
Proof. intros Hs. run_m. destruct (m w) as [[a w']| |]; [|done|done]. by apply answers_ok. Qed.

Lemma answers_cloud (response : wrp_crud) (payload : option bytes) (w : World) :
  answers false response w (update_cloud_disconnect payload response w).
Proof.
  assert (H400 : answers false response w (fail 400 response w)) by (apply answers_fail; by left).
  unfold update_cloud_disconnect. repeat case_match; try exact H400.
  unfold ConnDisconnectFromCloud. run_m. cbn. destruct (close_retry w); cbn.
  - split; [right|done]. split; [done|]. split; [by auto|]. by eexists.
  - split; [by left; auto|done].
Qed.
End answers.

Ltac solve_answers :=
  repeat first
    [ progress intros
    | apply answers_fail; lia
    | apply answers_then; lia
    | apply answers_write; cbn; auto; done
    | apply answers_ok; lia
    | apply answers_filled; lia
    | apply answers_cloud
    | apply answers_lift
    | apply answers_read;
        [intros ? ?; first [apply load_json_pure | apply readFromJSON_pure | apply memory_pure
                           | by intros [= _ <-]]|]
    | case_match ].

Section handlers.
Context `{WrpLib} `{CjsonLib} (env : oracle).

Lemma createObject_answers (reqMsg : wrp_msg_t) (response : wrp_crud) (w : World) :
  answers true response w (createObject env reqMsg response w).
Proof. unfold createObject, create_tag. solve_answers. Qed.

Lemma retrieveObject_only_answers (reqMsg : wrp_msg_t) (response : wrp_crud) (w : World) :
  answers true response w (retrieveObject reqMsg response w).
Proof. unfold retrieveObject, retrieve_external. solve_answers. Qed.

Lemma updateObject_answers (reqMsg : wrp_msg_t) (response : wrp_crud) (w : World) :
  answers false response w (updateObject env reqMsg response w).
Proof. unfold updateObject, update_tag. solve_answers. Qed.

Lemma deleteObject_answers (reqMsg : wrp_msg_t) (response : wrp_crud) (w : World) :
  answers false response w (deleteObject env reqMsg response w).
Proof. unfold deleteObject, delete_tag. solve_answers. Qed.
End handlers.

Section requests.
Context `{WrpLaws} `{CjsonLib} (env : oracle).

(** The response [processCrudRequest] starts with. *)
Definition response_of (uuid source dest : cstring) : wrp_crud :=
  crud_zero <| crud_transaction_uuid := Some uuid |> <| crud_source := Some source |>
            <| crud_dest := Some dest |>.

Definition handler (op : crud_op) : wrp_msg_t → wrp_crud → M World (Z * wrp_crud) :=
  match op with
  | CREATE => createObject env
  | RETREIVE => retrieveObject
  | UPDATE => updateObject env
  | DELETE => deleteObject env
  end.

Lemma process_run (op : crud_op) (c : wrp_crud) (uuid source dest : cstring) (w : World) :
  crud_transaction_uuid c = Some uuid → crud_source c = Some source → crud_dest c = Some dest →
  let kept := bool_decide (op = CREATE \/ op = RETREIVE) in
  processCrudRequest env (WRP_CRUD op c) w =
    match handler op (WRP_CRUD op c) (response_of uuid dest source) w with
    | Done ((ret, resp), w') =>
        Done ((if ret =? 0 then 0 else -1,
               WRP_CRUD op (if Bool.eqb (ret =? 0) kept then resp else no_payload resp)), w')
    | Undef => Undef
    | NoFuel => NoFuel
    end.
Proof.
  intros Hu Hs Hd. unfold processCrudRequest. rewrite crud_view_crud, Hu, Hs, Hd. run_m.
  fold (response_of uuid dest source). destruct op; cbn [handler]; rewrite ?set_crud_crud;
    (match goal with |- context [?h (WRP_CRUD ?op c) (response_of _ _ _) w] =>
       destruct (h (WRP_CRUD op c) (response_of uuid dest source) w) as [[[ret resp] w']| |] end;
     [|done|done]); rewrite !set_crud_crud; by destruct (ret =? 0).
Qed.

Lemma handler_answers (op : crud_op) (reqMsg : wrp_msg_t) (response : wrp_crud) (w : World) :
  answers (bool_decide (op = CREATE \/ op = RETREIVE)) response w (handler op reqMsg response w).
Proof.
  destruct op; cbn [handler].
  - apply createObject_answers.
  - apply retrieveObject_only_answers.
  - apply updateObject_answers.
  - apply deleteObject_answers.
Qed.
End requests.

(** C38. Every CRUD request that is processed is answered: by a message of the same
    kind that carries its transaction id back to its sender, with status 200 or 201
    for a success, and 400, 409 or 500 without a payload for a failure; a failure has
    changed nothing but, at most, the cloud-disconnect reason. *)
Theorem crud_request_answered `{WrpLaws} `{CjsonLib} (env : oracle) (op : crud_op) (c : wrp_crud)
    (w w' : World) (ret : Z) (resp : wrp_msg_t)
    (Hrun : processCrudRequest env (WRP_CRUD op c) w = Done ((ret, resp), w')) :
  ∃ r, resp = WRP_CRUD op r /\ crud_transaction_uuid r = crud_transaction_uuid c /\
    crud_source r = crud_dest c /\ crud_dest r = crud_source c /\
    ((ret = 0 /\ (crud_status r = 200 \/ crud_status r = 201)) \/
     (ret = -1 /\ (crud_status r = 400 \/ crud_status r = 409 \/ crud_status r = 500) /\
      crud_payload r = None /\ unchanged w w')).
Proof.
  destruct (crud_transaction_uuid c) as [uuid|] eqn:Hu;
    [destruct (crud_dest c) as [dest|] eqn:Hd; [destruct (crud_source c) as [source|] eqn:Hs|]|];
    try (revert Hrun; unfold processCrudRequest; rewrite crud_view_crud, Hu, ?Hd, ?Hs; run_m; by intros).
  rewrite (process_run env op c uuid source dest) in Hrun by done. cbn zeta in Hrun.
  pose proof (handler_answers env op (WRP_CRUD op c) (response_of uuid dest source) w) as Ha.
  destruct (handler env op _ _ w) as [[[ret0 r] w0]| |]; [|done|done].
  destruct Ha as (Hcase & Hu' & Hs' & Hd' & Hp'). injection Hrun as <- <- <-.
  eexists. split; [reflexivity|]. destruct Hcase as [[-> Hst]|(-> & Hst & Hw)]; cbn [Z.eqb].
  - destruct (Bool.eqb true _); split_and!; try done; by left.
  - destruct (bool_decide _) eqn:Hb; cbn [Bool.eqb]; split_and!; try done; right; split_and!; try done.
    by apply Hp'.
Qed.

Example crud_request_answered_witness :
  ∃ r, @processCrudRequest wrp_example cjson_example env_ok (WRP_CRUD DELETE (crud_zero
      <| crud_transaction_uuid := Some ("1234"%cs) |> <| crud_source := Some ("dns:tr1d1um"%cs) |>
      <| crud_dest := Some ("mac:14cfe2142xxx/parodus/tag/test1"%cs) |>))
    ((world_init (λ _, None)) <| parodusCfg := cfg_zero <| crud_config_file := Some ("crud.json"%cs) |> |>)
      = Done ((-1, WRP_CRUD DELETE r), (world_init (λ _, None))
          <| parodusCfg := cfg_zero <| crud_config_file := Some ("crud.json"%cs) |> |>) /\
    crud_status r = 500 /\ crud_dest r = Some ("dns:tr1d1um"%cs).
Proof.
  match goal with |- ∃ r, ?m = _ /\ _ => destruct m as [[[ret resp] w']| |] eqn:Hrun end;
    [|discriminate Hrun..].
  destruct (@crud_request_answered wrp_example wrp_example_laws cjson_example env_ok DELETE _ _ _ _ _ Hrun)
    as (r & -> & _ & _ & Hd & _).
  exists r. injection Hrun as <- <- <-. split; [reflexivity|]. split; [reflexivity|exact Hd].
Defined.

(** A cloud-disconnect request is accepted exactly when its reason is a non-empty
    text of letters and digits. An accepted one stores the reason and asks for a
    reconnect with it; while a reconnect is under way it answers 500, but has already
    overwritten the reason. One that is not accepted answers 400 and changes nothing. *)
Theorem cloud_disconnect_correct `{WrpLaws} `{CjsonLib} (env : oracle) (c : wrp_crud)
    (uuid source dest reason scheme id service : cstring) (text : bytes) (file : option json) (j : json)
    (pos : nat) (key : option cstring) (w : World)
    (Huuid : crud_transaction_uuid c = Some uuid) (Hsource : crud_source c = Some source)
    (Hdest : crud_dest c = Some dest) (Hfile : load_json w = Done (Some file, w))
    (He0 : wrp_get_msg_element 0 (WRP_CRUD UPDATE c) = Some scheme)
    (He1 : wrp_get_msg_element 1 (WRP_CRUD UPDATE c) = Some id)
    (He2 : wrp_get_msg_element 2 (WRP_CRUD UPDATE c) = Some service)
    (He3 : wrp_get_msg_element 3 (WRP_CRUD UPDATE c) = Some ("cloud-disconnect"%cs))
    (Hpayload : crud_payload c = Some text) (Hjson : cJSON_Parse (Some (cstr text)) = Some j)
    (Hreason : cJSON_GetObjectItem (Some j) CLOUD_DISCONNECT_REASON = Some (pos, (key, JString reason))) :
  let accepted := negb (is_empty reason) && forallb (λ x, isalpha x || isdigit x) reason in
  let stored := w <| parodusCfg := set_cloud_disconnect_reason reason (parodusCfg w) |> in
  ∃ r, crud_payload r = None /\ crud_dest r = Some source /\
  if accepted then
    if close_retry w then
      processCrudRequest env (WRP_CRUD UPDATE c) w = Done ((-1, WRP_CRUD UPDATE r), stored) /\
      crud_status r = 500
    else
      processCrudRequest env (WRP_CRUD UPDATE c) w = Done ((0, WRP_CRUD UPDATE r),
        stored <| reconnect_reason := Some reason |> <| LastReasonStatus := true |>
               <| close_retry := true |>) /\
      crud_status r = 200
  else
    processCrudRequest env (WRP_CRUD UPDATE c) w = Done ((-1, WRP_CRUD UPDATE r), w) /\
    crud_status r = 400.
Proof.
  cbn zeta. rewrite (process_run env UPDATE c uuid source dest) by done. cbn zeta. cbn [handler].
  unfold updateObject. rewrite (bind_Done _ _ _ _ _ Hfile). rewrite crud_view_crud, Hdest, Hpayload.
  assert (Hparse : parse_dest_elements_to_string (WRP_CRUD UPDATE c) =
    Done (Some (3%nat, [Some scheme; Some id; Some service; Some ("cloud-disconnect"%cs)]))).
  { unfold parse_dest_elements_to_string. rewrite element_application. cbn [dest_elements].
    by rewrite He0, He1, He2, He3. }
  rewrite Hparse. run_m. cbn [lift]. unfold update_cloud_disconnect.
  change (lift (valid_tag_dest 3 _) w) with (Done (false, w)). cbn beta iota. cbn [Nat.eqb].
  change (lift (obj_is _ 3 _) w) with (Done (true, w)). cbn beta iota.
  rewrite Hjson, Hreason. unfold validateDisconnectString. destruct (is_empty reason) eqn:He; cbn [negb andb].
  { eexists. split; [|split; [|split; [reflexivity|]]]; done. }
  destruct reason as [|x reason]; [done|]. destruct (forallb _ (x :: reason)) eqn:Hv.
  - unfold ConnDisconnectFromCloud, set_close_retry. run_m. cbn. destruct (close_retry w); cbn.
    + eexists. split; [|split; [|split; [reflexivity|]]]; done.
    + eexists. split; [|split; [|split; [reflexivity|]]]; done.
  - eexists. split; [|split; [|split; [reflexivity|]]]; done.
Qed.

Example cloud_disconnect_correct_witness :
  let payload := @cJSON_PrintUnformatted cjson_example
                   (JObject [(CLOUD_DISCONNECT_REASON, JString "maintenance")]) in
  let c := crud_zero <| crud_transaction_uuid := Some ("1234"%cs) |>
      <| crud_source := Some ("dns:tr1d1um"%cs) |>
      <| crud_dest := Some ("mac:14cfe2142xxx/parodus/cloud-disconnect"%cs) |>
      <| crud_payload := Some payload |> in
  let w := (world_init (λ _, None)) <| parodusCfg := cfg_zero <| crud_config_file := Some ("crud.json"%cs) |> |> in
  ∃ r w', @processCrudRequest wrp_example cjson_example env_ok (WRP_CRUD UPDATE c) w
            = Done ((0, WRP_CRUD UPDATE r), w') /\
    crud_status r = 200 /\ reconnect_reason w' = Some ("maintenance"%cs) /\ close_retry w' = true.
Proof.
  cbn zeta.
  match goal with |- ∃ r w', @processCrudRequest _ _ _ (WRP_CRUD UPDATE ?c) ?w = _ /\ _ =>
    destruct (@cloud_disconnect_correct wrp_example wrp_example_laws cjson_example env_ok c
      "1234" "dns:tr1d1um" "mac:14cfe2142xxx/parodus/cloud-disconnect" "maintenance"
      "mac" "14cfe2142xxx" "parodus"
      (@cJSON_PrintUnformatted cjson_example (JObject [(CLOUD_DISCONNECT_REASON, JString "maintenance")]))
      None (JObject [(CLOUD_DISCONNECT_REASON, JString "maintenance")])
      0%nat (Some CLOUD_DISCONNECT_REASON) w) as (r & _ & _ & H) end;
    [reflexivity|reflexivity|reflexivity|reflexivity|reflexivity|reflexivity|reflexivity|reflexivity
    |reflexivity|vm_compute; reflexivity|vm_compute; reflexivity|].
  destruct H as [Hrun Hst]. eexists r, _. split; [exact Hrun|]. split; [exact Hst|]. split; reflexivity.
Defined.
