(* ===== verification/CrudStore.v ===== *)
(** * The tags of the CRUD configuration file, as a store

    The abstract state is what the file holds: nothing, a text that is not JSON, an
    object without "tags", or the ordered list of named objects under "tags". Each
    request for one tag is a function on that state, and the handlers of Crud.v
    implement them through reading, parsing, changing, printing and writing. *)

From S2P Require Import Prelude StringHelpers Timers Config Wrp World ClientList Nopoll Upstream Cjson Crud.
Local Open Scope cs_scope.
Local Open Scope Z_scope.

(** ** Specification *)

Abbreviation members := (list (cstring * json)).


Inductive store : Set :=
| Unavailable
| Corrupt
| NoTags
| Tags (key : cstring) (l : members).

(** What a payload may hold: numbers and strings are stored, numbers as ints. *)
Definition is_scalar (v : json) : bool :=
  match v with JNumber _ _ | JString _ => true | _ => false end.
Definition stored (v : json) : json :=
  match v with JNumber n _ => JNumber n (inject_Z n) | _ => v end.
Definition stored_members (p : members) : members := map (λ '(k, v), (k, stored v)) p.

(** The position of the first entry of exactly that name. *)
Fixpoint exact_index (l : members) (name : cstring) : option nat :=
  match l with
  | [] => None
  | (k, _) :: rest => if streq k name then Some 0%nat else S <$> exact_index rest name
  end.

Definition without (i : nat) (l : members) : members := take i l ++ drop (S i) l.

Definition spec_create (st : store) (name : cstring) (p : members) : Z * store :=
  let ok := forallb (λ x, is_scalar (snd x)) p in
  let entry := (name, JObject (stored_members p)) in
  match st with
  | Corrupt => (500, st)
  | Unavailable | NoTags => if ok then (201, Tags "tags" [entry]) else (400, st)
  | Tags _ l =>
      match index_of l name with
      | Some _ => (if exact_index l name is Some _ then 409 else 500, st)
      | None => if ok then (201, Tags "tags" (l ++ [entry])) else (400, st)
      end
  end.

Definition spec_update (st : store) (name : cstring) (p : members) : Z * store :=
  let ok := forallb (λ x, is_scalar (snd x)) p in
  let entry := (name, JObject (stored_members p)) in
  match st with
  | Corrupt => (500, st)
  | Unavailable | NoTags => if ok then (201, Tags "tags" [entry]) else (400, st)
  | Tags _ l =>
      match index_of l name with
      | Some _ =>
          match exact_index l name with
          | Some i => if ok then (200, Tags "tags" (without i l ++ [entry])) else (400, st)
          | None => (500, st)
          end
      | None => if ok then (201, Tags "tags" (l ++ [entry])) else (400, st)
      end
  end.

Definition spec_delete (st : store) (name : cstring) : Z * store :=
  match st with
  | Unavailable | Corrupt => (500, st)
  | NoTags => (400, st)
  | Tags key l =>
      if streq key name then (400, st)
      else match exact_index l name with
           | Some i => (200, Tags key (without i l))
           | None => (400, st)
           end
  end.

(** The object a retrieval of one tag answers with, if it succeeds. *)
Definition spec_retrieve (st : store) (name : cstring) : Z * option json :=
  match st with
  | Unavailable | Corrupt => (500, None)
  | NoTags => (400, None)
  | Tags key l =>
      match exact_index l name with
      | Some i => (200, snd <$> l !! i)
      | None => (400, None)
      end
  end.

(** An object of numbers and strings, as creates and updates store them. *)
Definition flat (v : json) : bool :=
  match v with JObject m => forallb (λ x, is_scalar (snd x)) m | _ => false end.

(** ** What the file of a world holds *)

Section abstraction.
Context `{CjsonLib}.

Definition crud_text (w : World) : option cstring :=
  match crud_config_file (parodusCfg w) with
  | Some f => cstr <$> files w f
  | None => None
  end.

Definition the_store (w : World) : store :=
  match crud_text w with
  | None => Unavailable
  | Some t =>
      if is_empty t then Unavailable
      else match cJSON_Parse (Some t) with
      | None => Corrupt
      | j => match cJSON_GetObjectItem j "tags" with
             | Some (_, (Some key, JObject l)) => Tags key l
             | _ => NoTags
             end
      end
  end.

(** A file is configured, and when its text is JSON, it is an object of printable
    values in which "tags", when it is there, is an object. *)
Definition top_ok (j : json) : Prop :=
  match j with
  | JObject top =>
      members_ok top /\
      match index_of top "tags" with
      | Some i => ∃ k l, top !! i = Some (k, JObject l)
      | None => True
      end
  | _ => False
  end.
Definition store_wf (w : World) : Prop :=
  crud_config_file (parodusCfg w) ≠ None /\
  match crud_text w with
  | None => True
  | Some t =>
      if is_empty t then True
      else match cJSON_Parse (Some t) with Some j => top_ok j | None => True end
  end.
End abstraction.

(** A payload whose strings and ints C can hold. *)
Definition payload_ok (p : members) : Prop :=
  Forall (λ '(k, v), cstring_ok k /\
    match v with JNumber n _ => int_range n | JString s => cstring_ok s | _ => True end) p.

(** A request for the tag [name]: the destination is scheme:id/parodus/tag/name. *)
Record tag_request `{WrpLib} (reqMsg : wrp_msg_t) (name : cstring) : Prop := {
  tr_dest : crud_dest (crud_view reqMsg) ≠ None;
  tr_scheme : ∃ s, wrp_get_msg_element 0 reqMsg = Some s;
  tr_id : ∃ s, wrp_get_msg_element 1 reqMsg = Some s;
  tr_service : wrp_get_msg_element 2 reqMsg = Some ("parodus"%cs);
  tr_application : wrp_get_msg_element 3 reqMsg = Some (("tag/"%cs ++ name)%list);
  tr_name : "/"%char ∉ (name : list ascii);
  tr_name_ok : cstring_ok name
}.

(** ** Lemmas *)

Definition as_items (l : members) : list item := map (λ '(k, v), (Some k, v)) l.

Lemma length_as_items (l : members) : length (as_items l) = length l.
Proof. apply length_map. Qed.

Lemma find_exact_items (l : members) (name : cstring) :
  find_exact (as_items l) name = Done (exact_index l name).
Proof.
  induction l as [|[k v] l IH]; [done|]. cbn. unfold deref_o. cbn.
  destruct (streq k name); [done|]. fold (as_items l). rewrite IH. cbn. by destruct (exact_index l name).
Qed.

Lemma exact_index_of (l : members) (name : cstring) :
  exact_index l name ≠ None → index_of l name ≠ None.
Proof.
  induction l as [|[k v] l IH]; [done|]. cbn. destruct (streq k name) eqn:Hk.
  - apply streq_true in Hk as ->. by rewrite strcaseeq_refl.
  - destruct (strcaseeq k name); [done|]. destruct (exact_index l name) as [i|]; [|done].
    intros _. destruct (index_of l name); [done|]. by destruct IH.
Qed.

Lemma exact_index_lookup (l : members) (name : cstring) (i : nat) :
  exact_index l name = Some i → ∃ v, l !! i = Some (name, v).
Proof.
  revert i. induction l as [|[k v] l IH]; intros i; [done|]. cbn. destruct (streq k name) eqn:Hk.
  - apply streq_true in Hk as ->. intros [= <-]. by exists v.
  - destruct (exact_index l name); [|done]. intros [= <-]. by apply IH.
Qed.

Lemma exact_index_None (l : members) (name : cstring) :
  exact_index l name = None ↔ name ∉ map fst l.
Proof.
  induction l as [|[k v] l IH]; cbn; [split; [intros _; apply not_elem_of_nil|done]|].
  rewrite not_elem_of_cons. destruct (streq k name) eqn:Hk.
  - apply streq_true in Hk as ->. split; [done|by intros [? _]].
  - apply streq_false in Hk. rewrite <-IH, fmap_None. split; [intros Hn; split; [congruence|done]|by intros [_ Hn]].
Qed.

Lemma exact_index_snoc (l : members) (name : cstring) (v : json) :
  exact_index l name = None → exact_index (l ++ [(name, v)]) name = Some (length l).
Proof.
  induction l as [|[k x] l IH]; cbn; [by rewrite streq_refl|].
  destruct (streq k name); [done|]. destruct (exact_index l name); [done|]. intros _.
  by rewrite IH.
Qed.

Lemma without_middle (a b : members) (x : cstring * json) : without (length a) (a ++ x :: b) = (a ++ b)%list.
Proof.
  unfold without. rewrite take_app_length. f_equal.
  by rewrite <-(Nat.add_1_r (length a)), drop_app_add.
Qed.

Lemma without_Forall (P : cstring * json → Prop) (i : nat) (l : members) :
  Forall P l → Forall P (without i l).
Proof. intros Hl. apply Forall_app. split; [by apply Forall_take|by apply Forall_drop]. Qed.

(** A member changed in place keeps its position. *)
Lemma index_of_insert (l : members) (name k : cstring) (i : nat) (v v' : json) :
  l !! i = Some (k, v) → index_of (<[i := (k, v')]> l) name = index_of l name.
Proof.
  revert i. induction l as [|[k0 v0] l IH]; intros [|i] Hl; try done; cbn in *.
  - by injection Hl as -> ->.
  - destruct (strcaseeq k0 name); [done|]. f_equal. by apply (IH i).
Qed.

Lemma cstr_id (s : cstring) : cstring_ok s → cstr s = s.
Proof. apply before_none. Qed.

Lemma stored_ok (p : members) :
  payload_ok p → forallb (λ x, is_scalar (snd x)) p = true → members_ok (stored_members p).
Proof.
  unfold members_ok. induction 1 as [|[k v] p [Hk Hv] Hp IH]; cbn; [constructor|].
  intros [Hs Hr]%andb_true_iff. constructor; [|by apply IH]. split; [done|]. cbn.
  destruct v; try done; cbn.
  - destruct Hv as [H1 H2]. apply Z.leb_le in H1. apply Z.ltb_lt in H2. rewrite H1, H2. cbn.
    by apply bool_decide_eq_true.
  - by apply bool_decide_eq_true.
Qed.

Lemma ok_payload (l : members) : members_ok l → payload_ok l.
Proof.
  intros Hl. eapply Forall_impl; [exact Hl|]. intros [k v] [Hk Hv]. split; [done|].
  destruct v; try done; cbn in Hv.
  - apply andb_true_iff in Hv as [Hv _]. apply andb_true_iff in Hv as [H1 H2].
    unfold int_range. lia.
  - by apply bool_decide_eq_true in Hv.
Qed.

Lemma stored_id (l : members) : members_ok l → stored_members l = l.
Proof.
  induction 1 as [|[k v] l [_ Hv] Hl IH]; [done|]. cbn. f_equal; [|done].
  destruct v; try done. cbn in *. apply andb_true_iff in Hv as [_ Hv].
  apply bool_decide_eq_true in Hv. by rewrite <-Hv.
Qed.

Section lib.
Context `{CjsonLaws}.

Lemma copy_items_object (p acc : members) :
  payload_ok p →
  copy_items (as_items p) (JObject acc) =
    if forallb (λ x, is_scalar (snd x)) p then Some (JObject (acc ++ stored_members p)) else None.
Proof.
  intros Hp. revert acc. induction Hp as [|[k v] p [Hk Hv] Hp IH]; intros acc; cbn.
  - by rewrite app_nil_r.
  - fold (as_items p). destruct v; try done; cbn.
    + rewrite create_number by done. rewrite add_object, IH. by rewrite <-app_assoc.
    + rewrite create_string, add_object, IH. by rewrite <-app_assoc.
Qed.

Lemma copy_any_object (p acc : members) :
  payload_ok p → forallb (λ x, is_scalar (snd x)) p = true →
  copy_any (as_items p) (JObject acc) = JObject (acc ++ stored_members p).
Proof.
  intros Hp. revert acc. induction Hp as [|[k v] p [Hk Hv] Hp IH]; intros acc; cbn.
  - intros _. by rewrite app_nil_r.
  - fold (as_items p). intros [Hs Hr]%andb_true_iff. destruct v; try done; cbn.
    + rewrite create_number by done. rewrite add_object, IH by done. by rewrite <-app_assoc.
    + rewrite create_string, add_object, IH by done. by rewrite <-app_assoc.
Qed.

Lemma check_payload_object (payload : option bytes) (items : list item) :
  check_payload payload = Some items →
  ∃ p, items = as_items p /\ p ≠ [] /\ ∃ text, payload = Some text /\
       cJSON_Parse (Some (cstr text)) = Some (JObject p).
Proof.
  unfold check_payload. destruct payload as [text|]; [|done].
  destruct (cJSON_Parse _) as [j|] eqn:Hj; [|done]. rewrite items_children.
  destruct (length (children j) =? 0)%nat eqn:Hlen; [done|].
  destruct (find_expires (children j)) eqn:He; [|done]. cbn.
  destruct (check_strings (children j)); [|done]. intros [= <-].
  destruct j as [| | | |l|l]; cbn in Hlen, He |- *; try done.
  - exfalso. clear Hlen Hj. induction l as [|v l IH]; cbn in He; [done|]. by apply IH.
  - exists l. split; [done|]. split; [by intros ->|]. by exists text.
Qed.
End lib.

Lemma tag_dest `{WrpLaws} (reqMsg : wrp_msg_t) (name : cstring) :
  tag_request reqMsg name →
  ∃ s d, parse_dest_elements_to_string reqMsg =
    Done (Some (4%nat, [Some s; Some d; Some ("parodus"%cs); Some ("tag"%cs); Some name])).
Proof.
  intros [_ [s Hs] [d Hd] Hp Ht Hn _]. exists s, d.
  assert (Hc : strchr ("tag/" ++ name)%list "/"%char = Some 3%nat) by reflexivity.
  assert (H1 : take 3 ("tag/" ++ name)%list = "tag"%cs) by reflexivity.
  assert (H2 : drop 4 ("tag/" ++ name)%list = name) by reflexivity.
  revert Ht Hc H1 H2. generalize ("tag/" ++ name)%list. intros app Ht Hc H1 H2.
  unfold parse_dest_elements_to_string. rewrite element_application. cbn [dest_elements].
  rewrite Hs, Hd, Hp, Ht. cbn [filled]. unfold obj_str, obj_at, deref_o. cbn -[strchr drop].
  rewrite Hc. cbn [strdupptr]. by rewrite H1, H2, (proj2 (strchr_None name _) Hn).
Qed.

Section store.
Context `{WrpLaws} `{CjsonLaws} (env : oracle).

(** What [the_store] says about the text of a well-formed file. *)
Lemma store_cases (w : World) :
  store_wf w →
  readFromJSON w = Done (crud_text w, w) /\
  match the_store w with
  | Unavailable => crud_text w = None \/ ∃ t, crud_text w = Some t /\ is_empty t = true
  | Corrupt => ∃ t : cstring, crud_text w = Some t /\ is_empty t = false /\ cJSON_Parse (Some t) = None
  | NoTags => ∃ (t : cstring) j, crud_text w = Some t /\ is_empty t = false /\ cJSON_Parse (Some t) = Some j /\
                       cJSON_GetObjectItem (Some j) "tags" = None
  | Tags key l => ∃ (t : cstring) top i, crud_text w = Some t /\ is_empty t = false /\
      cJSON_Parse (Some t) = Some (JObject top) /\ members_ok top /\
      index_of top "tags" = Some i /\ top !! i = Some (key, JObject l)
  end.
Proof.
  intros [Hf Ht]. split.
  { unfold readFromJSON, crud_text. run_m.
    by destruct (crud_config_file (parodusCfg w)). }
  revert Ht. unfold the_store. destruct (crud_text w) as [t|]; [|by left].
  destruct (is_empty t) eqn:He; [right; by exists t|].
  destruct (cJSON_Parse (Some t)) as [j|] eqn:Hj; intros Ht; [|by exists t].
  destruct j as [| | | | |top]; try by destruct Ht. destruct Ht as [Hok Hi]. rewrite get_object.
  destruct (index_of top "tags") as [i|] eqn:Hidx.
  - destruct Hi as (k & l & Hl). rewrite Hl. by exists t, top, i.
  - exists t, (JObject top). by rewrite get_object, Hidx.
Qed.

Lemma load_json_run (w : World) :
  store_wf w →
  match the_store w with
  | Unavailable => load_json w = Done (Some None, w)
  | Corrupt => load_json w = Done (None, w)
  | NoTags => ∃ j, load_json w = Done (Some (Some j), w) /\ cJSON_GetObjectItem (Some j) "tags" = None
  | Tags key l => ∃ top i, load_json w = Done (Some (Some (JObject top)), w) /\ members_ok top /\
      index_of top "tags" = Some i /\ top !! i = Some (key, JObject l)
  end.
Proof.
  intros Hwf. destruct (store_cases w Hwf) as [Hr Hc]. unfold load_json.
  rewrite (bind_Done _ _ _ _ _ Hr). destruct (the_store w) as [| | |key l].
  - destruct Hc as [-> | (t & -> & He)]; run_m; [by rewrite parse_null|].
    rewrite He. destruct t; [|done]. run_m. by rewrite parse_empty.
  - destruct Hc as (t & -> & Hne & Hp). run_m. by rewrite Hne, Hp.
  - destruct Hc as (t & j & -> & Hne & Hp & Hg). exists j. run_m. by rewrite Hne, Hp.
  - destruct Hc as (t & top & i & -> & Hne & Hp & Hrest). 
    exists top, i. run_m. by rewrite Hne, Hp.
Qed.

(** ** Writing *)

Definition crud_file_opens (w : World) : bool :=
  match crud_config_file (parodusCfg w) with
  | Some f => env (trace w) (sys_fopen_write f)
  | None => false
  end.

(** Everything but the file's text and the trace is as before. *)
Definition only_file (w w' : World) : Prop :=
  w' = w <| files := files w' |> <| trace := trace w' |>.

Lemma only_file_trans (w1 w2 w3 : World) : only_file w1 w2 → only_file w2 w3 → only_file w1 w3.
Proof. unfold only_file. intros E1 E2. rewrite E2, E1. reflexivity. Qed.

Lemma writeToJSON_run (data : cstring) (w : World) :
  crud_config_file (parodusCfg w) ≠ None →
  ∃ w', writeToJSON env data w = Done (if crud_file_opens w then 1 else 0, w') /\ only_file w w' /\
        crud_text w' = if crud_file_opens w then Some (cstr data) else crud_text w.
Proof.
  intros Hf. unfold writeToJSON, crud_file_opens, crud_text. run_m.
  destruct (crud_config_file (parodusCfg w)) as [f|] eqn:Hcf; [|done]. cbn.
  destruct (env (trace w) (sys_fopen_write f)) eqn:Ho.
  - eexists. split; [reflexivity|]. split; [reflexivity|]. cbn. rewrite Hcf. cbn.
    by rewrite decide_True.
  - eexists. split; [reflexivity|]. split; [reflexivity|]. cbn. by rewrite Hcf.
Qed.

Lemma only_file_cfg (w w' : World) : only_file w w' → parodusCfg w' = parodusCfg w.
Proof. unfold only_file. by intros ->. Qed.

(** The file after a printable object has been written to it. *)
Lemma the_store_printed (top : members) (w : World) :
  crud_config_file (parodusCfg w) ≠ None →
  crud_text w = Some (cstr (cJSON_PrintUnformatted (JObject top))) →
  top_ok (JObject top) →
  store_wf w /\
  the_store w = match cJSON_GetObjectItem (Some (JObject top)) "tags" with
                | Some (_, (Some key, JObject l)) => Tags key l
                | _ => NoTags
                end.
Proof.
  intros Hf Ht Hok. pose proof (proj2 (json_ok_object top) (proj1 Hok)) as Hj.
  destruct (print_ok _ Hj) as [Hs Hne]. pose proof (parse_print _ Hj) as Hp.
  rewrite cstr_id in Ht by done. unfold store_wf, the_store. rewrite Ht.
  assert (is_empty (cJSON_PrintUnformatted (JObject top)) = false) as ->
    by (by destruct (cJSON_PrintUnformatted (JObject top))).
  by rewrite Hp.
Qed.

Lemma tags_only_ok (l tail : members) :
  members_ok l → members_ok tail → top_ok (JObject (("tags"%cs, JObject l) :: tail)).
Proof.
  intros Hl Ht. split; [|by exists "tags"%cs, l].
  constructor; [|done]. split; [by_eval|]. by apply json_ok_object.
Qed.

(** The end of a create or an update that has something to write. *)
Lemma write_tags_run (l tail : members) (response : wrp_crud) (w : World) :
  store_wf w → members_ok l → members_ok tail →
  ∃ w', (write_status ← writeIntoCrudJson env cJSON_CreateObject "tags" (JObject l) tail;
         finish_write write_status response) w =
          Done (if crud_file_opens w then (0, response)
                else (-1, response <| crud_status := 500 |>), w') /\
        only_file w w' /\ store_wf w' /\
        the_store w' = if crud_file_opens w then Tags "tags" l else the_store w.
Proof.
  intros Hwf Hl Ht. unfold writeIntoCrudJson, cJSON_CreateObject. rewrite add_object. cbn [app].
  destruct (writeToJSON_run (cJSON_PrintUnformatted (JObject (("tags"%cs, JObject l) :: tail)))
    w (proj1 Hwf)) as (w' & Hr & Hof & Htext).
  rewrite (bind_Done _ _ _ _ _ Hr). exists w'. pose proof (only_file_cfg _ _ Hof) as Hcfg.
  destruct (crud_file_opens w); split; [done| |done|]; (split; [done|]).
  - destruct (the_store_printed (("tags"%cs, JObject l) :: tail) w') as [Hw' Hs'];
      [by rewrite Hcfg; apply Hwf|done|by apply tags_only_ok|].
    split; [done|]. rewrite Hs', get_object. reflexivity.
  - split; [|unfold the_store; by rewrite Htext].
    unfold store_wf. rewrite Htext, Hcfg. exact Hwf.
Qed.

(** ** The handlers on a tag *)

(** What a request comes to when the file cannot be opened for writing. *)
Definition committed (opens : bool) (st : store) (r : Z * store) : Z * store :=
  if (fst r <? 300) && negb opens then (500, st) else r.

Definition created (name : cstring) (p : members) : json := JObject [(name, JObject (stored_members p))].

(** The result of a handler that leaves everything but the file alone; [Q] holds of the
    response of a success. *)
Definition handled (w : World) (response : wrp_crud) (Q : wrp_crud → Prop)
    (r : Z * store) (result : outcome (Z * wrp_crud * World)) : Prop :=
  ∃ response' w', result = Done (if fst r <? 300 then 0 else -1, response', w') /\
    only_file w w' /\ store_wf w' /\ (crud_status response', the_store w') = r /\
    (fst r < 300 → Q response') /\
    crud_transaction_uuid response' = crud_transaction_uuid response /\
    crud_source response' = crud_source response /\ crud_dest response' = crud_dest response.

Lemma handled_impl (w : World) (response : wrp_crud) (Q Q' : wrp_crud → Prop) (r : Z * store)
    (result : outcome (Z * wrp_crud * World)) :
  (∀ x, Q x → Q' x) → handled w response Q r result → handled w response Q' r result.
Proof.
  intros Himpl (x & w' & Hr & Hof & Hwf & He & HQ & Hid). exists x, w'. by auto 10.
Qed.

Lemma fail_handled (w : World) (response : wrp_crud) (Q : wrp_crud → Prop) (opens : bool)
    (st : store) (status : Z) :
  store_wf w → the_store w = st → 300 <= status →
  handled w response Q (committed opens st (status, st)) (fail status response w).
Proof.
  intros Hwf <- Hs. unfold handled, committed. cbn [fst]. rewrite !(proj2 (Z.ltb_ge _ _) Hs).
  cbn [andb fst]. rewrite !(proj2 (Z.ltb_ge _ _) Hs).
  exists (response <| crud_status := status |>), w. split; [reflexivity|].
  split; [by destruct w|]. split; [done|]. split; [done|]. split; [lia|done].
Qed.

(** A response that has been filled in for a status of success. *)
Definition filled_in (response response' : wrp_crud) (status : Z) : Prop :=
  crud_status response' = status /\
  crud_transaction_uuid response' = crud_transaction_uuid response /\
  crud_source response' = crud_source response /\ crud_dest response' = crud_dest response.

Lemma write_handled (l tail : members) (response response' : wrp_crud) (Q : wrp_crud → Prop)
    (status : Z) (w : World) :
  store_wf w → members_ok l → members_ok tail → filled_in response response' status → Q response' → status < 300 →
  handled w response Q (committed (crud_file_opens w) (the_store w) (status, Tags "tags" l))
    ((write_status ← writeIntoCrudJson env cJSON_CreateObject "tags" (JObject l) tail;
      finish_write write_status response') w).
Proof.
  intros Hwf Hl Ht (Hst & Hid) HQ Hs.
  destruct (write_tags_run l tail response' w Hwf Hl Ht) as (w' & Hr & Hof & Hwf' & Hstore).
  unfold handled. rewrite Hr. unfold committed. cbn [fst]. rewrite (proj2 (Z.ltb_lt _ _) Hs).
  destruct (crud_file_opens w); cbn.
  - exists response', w'. rewrite (proj2 (Z.ltb_lt _ _) Hs), Hstore, Hst. done.
  - exists (response' <| crud_status := 500 |>), w'. rewrite Hstore. done.
Qed.

Lemma members_ok_snoc (l : members) (name : cstring) (p : members) :
  members_ok l → cstring_ok name → payload_ok p → forallb (λ x, is_scalar (snd x)) p = true →
  members_ok (l ++ [(name, JObject (stored_members p))]).
Proof.
  intros Hl Hn Hp Hs. apply Forall_app. split; [done|]. constructor; [|constructor].
  split; [done|]. by apply json_ok_object, stored_ok.
Qed.

Lemma top_members_ok (top l : members) (key : cstring) (i : nat) :
  members_ok top → top !! i = Some (key, JObject l) → cstring_ok key /\ members_ok l.
Proof.
  intros Ht Hl. destruct (Forall_lookup_1 _ _ _ _ Ht Hl) as [Hk Hv]. split; [done|].
  by apply json_ok_object.
Qed.

Lemma tail_ok (top : members) (i : nat) :
  members_ok top → members_ok (cJSON_linked_tail (later_members (JObject top) i)).
Proof.
  intros Ht. apply members_ok_bool, linked_tail_ok, members_ok_bool. by apply Forall_drop.
Qed.

Lemma filled_refl (response : wrp_crud) (status : Z) :
  filled_in response (response <| crud_status := status |>) status.
Proof. done. Qed.
Lemma filled_payload (response : wrp_crud) (j : json) (status : Z) :
  filled_in response ((set_payload j response) <| crud_status := status |>) status.
Proof. done. Qed.
(** A write behind checks that the payload holds scalars only. *)
Lemma copy_write (p l tail : members) (name : cstring) (w : World)
    (response : wrp_crud) (response' : json → wrp_crud) (Q : wrp_crud → Prop) (status : Z) :
  store_wf w → payload_ok p → cstring_ok name → members_ok l → members_ok tail →
  let testObj := JObject (stored_members p) in
  filled_in response (response' testObj) status →
  (forallb (λ x, is_scalar (snd x)) p = true → Q (response' testObj)) → status < 300 →
  handled w response Q
    (committed (crud_file_opens w) (the_store w)
      (if forallb (λ x, is_scalar (snd x)) p then (status, Tags "tags" (l ++ [(name, testObj)]))
       else (400, the_store w)))
    (match copy_items (as_items p) cJSON_CreateObject with
     | None => fail 400 response
     | Some testObj =>
         write_status ← writeIntoCrudJson env cJSON_CreateObject "tags"
                          (cJSON_AddItemToObject (JObject l) (Some name) (Some testObj)) tail;
         finish_write write_status (response' testObj)
     end w).
Proof.
  intros Hwf Hp Hn Hl Ht testObj Hf HQ Hs. unfold cJSON_CreateObject at 1.
  rewrite copy_items_object by done.
  destruct (forallb _ p) eqn:Hok; [|by apply fail_handled].
  rewrite add_object. cbn [app]. apply write_handled; try done; [by apply members_ok_snoc|by apply HQ].
Qed.

(** ** Create and update *)

Lemma tag_object_case (top l : members) (key name : cstring) (i : nat) :
  index_of top "tags" = Some i → top !! i = Some (key, JObject l) →
  cJSON_GetObjectItem (Some (JObject top)) "tags" = Some (i, (Some key, JObject l)) /\
  (cJSON_GetObjectItem (Some (JObject l)) name = None ↔ index_of l name = None).
Proof.
  intros Hi Hl. split; [rewrite get_object, Hi; cbn beta iota; by rewrite Hl|]. rewrite get_object.
  destruct (index_of l name) as [j|] eqn:Hj; [|done].
  apply index_of_lookup in Hj as (k & v & -> & _). done.
Qed.

Section tag.
Context (reqMsg : wrp_msg_t) (name : cstring) (response : wrp_crud) (w : World).
Context (Hwf : store_wf w) (Hreq : tag_request reqMsg name).

(** The checks that come before the payload's items are used. *)
Lemma tag_checks :
  crud_dest (crud_view reqMsg) ≠ None /\
  ∃ obj, parse_dest_elements_to_string reqMsg = Done (Some (4%nat, obj)) /\
         valid_tag_dest 4 obj = Done true /\ obj_str obj 4 = Done name.
Proof.
  split; [apply Hreq|]. destruct (tag_dest reqMsg name Hreq) as (s & d & Hd).
  eexists. split; [exact Hd|]. done.
Qed.

Context (p : members).
Context (Hpay : check_payload (crud_payload (crud_view reqMsg)) = Some (as_items p)).
Context (Hp : payload_ok p).

Lemma createObject_prefix (json : option json) :
  load_json w = Done (Some json, w) →
  createObject env reqMsg response w = create_tag env json name (as_items p) response w.
Proof.
  intros Hload. destruct tag_checks as (Hd & obj & Hparse & Hvalid & Hname). unfold createObject.
  rewrite (bind_Done _ _ _ _ _ Hload). destruct (crud_dest (crud_view reqMsg)); [|done].
  rewrite Hparse. run_m. cbn [lift]. rewrite Hvalid. cbn [lift]. rewrite Hpay, Hname. done.
Qed.

Lemma createObject_handled :
  handled w response (λ r, crud_payload r = Some (cJSON_PrintUnformatted (created name p)))
    (committed (crud_file_opens w) (the_store w) (spec_create (the_store w) name p))
    (createObject env reqMsg response w).
Proof.
  pose proof (load_json_run w Hwf) as Hload.
  assert (Hn : cstring_ok name) by apply Hreq.
  assert (Hnil : members_ok []) by constructor.
  assert (Hnew : handled w response (λ r, crud_payload r = Some (cJSON_PrintUnformatted (created name p)))
    (committed (crud_file_opens w) (the_store w)
      (if forallb (λ x, is_scalar (snd x)) p
       then (201, Tags "tags" [(name, JObject (stored_members p))]) else (400, the_store w)))
    (create_tag env None name (as_items p) response w)).
  { apply (copy_write p [] [] name w response
      (λ o, (set_payload (cJSON_AddItemToObject cJSON_CreateObject (Some name) (Some o)) response)
              <| crud_status := 201 |>)); try done.
    intros _. by unfold cJSON_CreateObject; rewrite add_object. }
  destruct (the_store w) as [| | |key l] eqn:Hst.
  - by rewrite (createObject_prefix _ Hload).
  - unfold createObject. rewrite (bind_Done _ _ _ _ _ Hload). by apply fail_handled.
  - destruct Hload as (j & Hload & Hg). rewrite (createObject_prefix _ Hload). unfold create_tag.
    by rewrite Hg.
  - destruct Hload as (top & i & Hload & Htop & Hi & Hl). rewrite (createObject_prefix _ Hload).
    destruct (tag_object_case top l key name i Hi Hl) as [Hg Hname].
    destruct (top_members_ok top l key i Htop Hl) as [_ Hlok]. unfold create_tag. rewrite Hg.
    destruct (cJSON_GetObjectItem (Some (JObject l)) name) as [found|] eqn:Hf; cbn [spec_create].
    + destruct (index_of l name) as [ix|]; [|by destruct Hname as [_ Hname]; discriminate Hname].
      rewrite items_children. change (children (JObject l)) with (as_items l).
      rewrite find_exact_items. run_m. cbn [lift].
      destruct (exact_index l name); by apply fail_handled.
    + rewrite (proj1 Hname eq_refl), <-Hst.
      apply (copy_write p l _ name w response (λ _, (set_payload (cJSON_AddItemToObject cJSON_CreateObject
        (Some name) (Some (copy_any (as_items p) cJSON_CreateObject))) response) <| crud_status := 201 |>));
        try done; [by apply tail_ok|].
      intros Hok. unfold cJSON_CreateObject. by rewrite (copy_any_object p []), add_object.
Qed.

Lemma updateObject_prefix (json : option json) :
  load_json w = Done (Some json, w) →
  updateObject env reqMsg response w = update_tag env json name (as_items p) response w.
Proof.
  intros Hload. destruct tag_checks as (Hd & obj & Hparse & Hvalid & Hname). unfold updateObject.
  rewrite (bind_Done _ _ _ _ _ Hload). destruct (crud_dest (crud_view reqMsg)); [|done].
  rewrite Hparse. run_m. cbn [lift]. rewrite Hvalid. cbn [lift]. rewrite Hpay, Hname. done.
Qed.

Lemma updateObject_handled :
  handled w response (λ _, True)
    (committed (crud_file_opens w) (the_store w) (spec_update (the_store w) name p))
    (updateObject env reqMsg response w).
Proof.
  pose proof (load_json_run w Hwf) as Hload.
  assert (Hn : cstring_ok name) by apply Hreq.
  assert (Hnil : members_ok []) by constructor.
  assert (Hnew : handled w response (λ _, True)
    (committed (crud_file_opens w) (the_store w)
      (if forallb (λ x, is_scalar (snd x)) p
       then (201, Tags "tags" [(name, JObject (stored_members p))]) else (400, the_store w)))
    (update_tag env None name (as_items p) response w))
    by (by apply (copy_write p [] [] name w response (λ _, response <| crud_status := 201 |>))).
  destruct (the_store w) as [| | |key l] eqn:Hst.
  - by rewrite (updateObject_prefix _ Hload).
  - unfold updateObject. rewrite (bind_Done _ _ _ _ _ Hload). by apply fail_handled.
  - destruct Hload as (j & Hload & Hg). rewrite (updateObject_prefix _ Hload). unfold update_tag.
    by rewrite Hg.
  - destruct Hload as (top & i & Hload & Htop & Hi & Hl). rewrite (updateObject_prefix _ Hload).
    destruct (tag_object_case top l key name i Hi Hl) as [Hg Hname].
    destruct (top_members_ok top l key i Htop Hl) as [_ Hlok]. unfold update_tag. rewrite Hg.
    destruct (cJSON_GetObjectItem (Some (JObject l)) name) as [found|] eqn:Hf; cbn [spec_update].
    + destruct (index_of l name) as [ix|]; [|by destruct Hname as [_ Hname]; discriminate Hname].
      rewrite items_children. change (children (JObject l)) with (as_items l).
      rewrite find_exact_items. rewrite (bind_Done (lift (Done (exact_index l name))) _ w w _ eq_refl).
      destruct (exact_index l name) as [j|]; [|by apply fail_handled].
      rewrite delete_object. rewrite <-Hst.
      apply (copy_write p (without j l) _ name w response (λ _, response <| crud_status := 200 |>));
        try done; [by apply without_Forall|by apply tail_ok].
    + rewrite (proj1 Hname eq_refl), <-Hst.
      apply (copy_write p l _ name w response (λ _, response <| crud_status := 201 |>));
        try done. by apply tail_ok.
Qed.
End tag.

(** ** Delete and retrieve *)

(** A delete answers 200 even when it cannot write. *)
Definition deleted (opens : bool) (st : store) (r : Z * store) : Z * store :=
  (fst r, if opens then snd r else st).

Lemma deleted_same (opens : bool) (st : store) (status : Z) :
  300 <= status → deleted opens st (status, st) = committed opens st (status, st).
Proof.
  intros Hs. unfold deleted, committed. cbn [fst snd]. rewrite (proj2 (Z.ltb_ge _ _) Hs).
  by destruct opens.
Qed.

Lemma readFromJSON_text (w : World) : store_wf w → readFromJSON w = Done (crud_text w, w).
Proof. intros Hwf. apply (store_cases w Hwf). Qed.

Lemma exact_index_lt (l : members) (name : cstring) (i : nat) :
  exact_index l name = Some i → (length l =? 0)%nat = false.
Proof. by destruct l. Qed.

Section delete.
Context (reqMsg : wrp_msg_t) (name : cstring) (response : wrp_crud) (w : World).
Context (Hwf : store_wf w) (Hreq : tag_request reqMsg name).

Lemma delete_write (top l : members) (key : cstring) (i j : nat) :
  the_store w = Tags key l → members_ok top → index_of top "tags" = Some i →
  top !! i = Some (key, JObject l) →
  handled w response (λ _, True) (deleted (crud_file_opens w) (Tags key l) (200, Tags key (without j l)))
    ((_ ← writeToJSON env (cJSON_PrintUnformatted
        (update_child (JObject top) i (cJSON_DeleteItemFromArray (JObject l) j)));
      mret (0, response <| crud_status := 200 |>)) w).
Proof.
  intros Hst Htop Hi Hl. rewrite delete_object. cbn [update_child]. rewrite Hl.
  fold (without j l). destruct (top_members_ok top l key i Htop Hl) as [Hk Hlok].
  set (top' := <[i := (key, JObject (without j l))]> top).
  assert (Htop' : members_ok top').
  { apply Forall_insert; [done|]. split; [done|]. by apply json_ok_object, without_Forall. }
  assert (Hi' : index_of top' "tags" = Some i) by (unfold top'; by rewrite (index_of_insert _ _ _ _ _ _ Hl)).
  assert (Hl' : top' !! i = Some (key, JObject (without j l)))
    by (apply list_lookup_insert_eq; by eapply lookup_lt_Some).
  destruct (writeToJSON_run (cJSON_PrintUnformatted (JObject top')) w (proj1 Hwf)) as (w' & Hr & Hof & Htext).
  rewrite (bind_Done _ _ _ _ _ Hr). pose proof (only_file_cfg _ _ Hof) as Hcfg.
  exists (response <| crud_status := 200 |>), w'. unfold deleted. cbn [fst snd].
  split; [done|]. split; [done|]. destruct (crud_file_opens w).
  - destruct (the_store_printed top' w') as [Hw' Hs']; [by rewrite Hcfg; apply Hwf|done| |].
    { split; [done|]. rewrite Hi'. by eexists _, _. }
    split; [done|]. rewrite Hs'. by rewrite (proj1 (tag_object_case _ _ _ name _ Hi' Hl')).
  - split; [unfold store_wf; rewrite Htext, Hcfg; exact Hwf|].
    unfold the_store. rewrite Htext. fold (the_store w). by rewrite Hst.
Qed.

Lemma deleteObject_prefix (text : cstring) (j : json) :
  crud_text w = Some text → is_empty text = false → cJSON_Parse (Some text) = Some j →
  ∃ obj, deleteObject env reqMsg response w = delete_tag env j 4 obj response w /\ obj_str obj 4 = Done name.
Proof.
  intros Ht He Hj. destruct (tag_checks reqMsg name Hreq) as (Hd & obj & Hparse & Hvalid & Hname).
  exists obj. split; [|done]. unfold deleteObject.
  rewrite (bind_Done _ _ _ _ _ (readFromJSON_text w Hwf)), Ht, He, Hj.
  destruct (crud_dest (crud_view reqMsg)); [|done].
  rewrite Hparse. run_m. cbn [lift]. rewrite Hvalid. cbn [lift]. done.
Qed.

Lemma deleteObject_handled :
  handled w response (λ _, True)
    (deleted (crud_file_opens w) (the_store w) (spec_delete (the_store w) name))
    (deleteObject env reqMsg response w).
Proof.
  destruct (store_cases w Hwf) as [Hread Hc]. destruct (the_store w) as [| | |key l] eqn:Hst; cbn [spec_delete].
  - rewrite deleted_same by done. unfold deleteObject. rewrite (bind_Done _ _ _ _ _ Hread).
    destruct Hc as [-> | (t & -> & ->)]; by apply fail_handled.
  - destruct Hc as (t & Ht & He & Hp). rewrite deleted_same by done. unfold deleteObject.
    rewrite (bind_Done _ _ _ _ _ Hread), Ht, He, Hp. by apply fail_handled.
  - destruct Hc as (t & j & Ht & He & Hp & Hg). rewrite deleted_same by done.
    destruct (deleteObject_prefix t j Ht He Hp) as (obj & -> & Hname). unfold delete_tag. rewrite Hg.
    by apply fail_handled.
  - destruct Hc as (t & top & i & Ht & He & Hp & Htop & Hi & Hl).
    destruct (deleteObject_prefix t _ Ht He Hp) as (obj & -> & Hname). unfold delete_tag.
    destruct (tag_object_case top l key name i Hi Hl) as [-> _]. rewrite items_children.
    change (children (JObject l)) with (as_items l). rewrite length_as_items, Hname.
    destruct (length l =? 0)%nat eqn:Hlen.
    { apply Nat.eqb_eq, nil_length_inv in Hlen as ->. cbn [exact_index].
      destruct (streq key name); rewrite deleted_same by done; by apply fail_handled. }
    rewrite (bind_Done (lift (deref_o (Some key))) _ w w _ eq_refl).
    rewrite (bind_Done (lift (Done name)) _ w w _ eq_refl).
    destruct (streq key name); [rewrite deleted_same by done; by apply fail_handled|].
    rewrite find_exact_items, (bind_Done (lift (Done (exact_index l name))) _ w w _ eq_refl).
    destruct (exact_index l name) as [j|]; [|rewrite deleted_same by done; by apply fail_handled].
    by apply (delete_write top).
Qed.
End delete.

(** A retrieval changes nothing, whatever the file holds. *)
Definition retrieve_answers (response : wrp_crud) (r : Z * option json)
    (w : World) (result : outcome (Z * wrp_crud * World)) : Prop :=
  match r with
  | (_, Some v) => result = Done (0, (set_payload v response) <| crud_status := 200 |>, w)
  | (status, None) => result = Done (-1, response <| crud_status := status |>, w)
  end.

Lemma retrieveObject_answers (reqMsg : wrp_msg_t) (name : cstring) (response : wrp_crud) (w : World) :
  store_wf w → tag_request reqMsg name →
  (∀ key l, the_store w = Tags key l → key ≠ name /\ Forall (λ x, flat (snd x) = true) l) →
  retrieve_answers response (spec_retrieve (the_store w) name) w (retrieveObject reqMsg response w).
Proof.
  intros Hwf Hreq Hkey. destruct (tag_dest reqMsg name Hreq) as (s & d & Hparse).
  unfold retrieveObject. destruct (crud_dest (crud_view reqMsg)) eqn:Hd; [|by destruct (tr_dest _ _ Hreq)].
  rewrite Hparse. run_m. cbn [lift]. unfold in_memory. cbn [Nat.eqb]. run_m.
  change (lift _ w) with (Done (false, w)). cbn beta iota. unfold retrieve_external.
  destruct (store_cases w Hwf) as [Hread Hc]. rewrite (bind_Done _ _ _ _ _ Hread).
  destruct (the_store w) as [| | |key l] eqn:Hst.
  - by destruct Hc as [-> | (t & -> & ->)].
  - by destruct Hc as (t & -> & -> & ->).
  - by destruct Hc as (t & j & -> & -> & -> & ->).
  - destruct Hc as (t & top & i & -> & -> & -> & Htop & Hi & Hl).
    destruct (tag_object_case top l key name i Hi Hl) as [-> _]. rewrite items_children.
    destruct (Hkey key l eq_refl) as [Hne Hflat].
    destruct (top_members_ok top l key i Htop Hl) as [_ Hlok].
    change (children (JObject l)) with (as_items l). rewrite length_as_items.
    cbn [spec_retrieve]. destruct (length l =? 0)%nat eqn:Hlen.
    { by apply Nat.eqb_eq, nil_length_inv in Hlen as ->. }
    rewrite (bind_Done (lift (deref_o (Some key))) _ w w _ eq_refl).
    set (obj := [Some s; Some d; Some ("parodus"%cs); Some ("tag"%cs); Some name]).
    rewrite (bind_Done (lift (obj_str obj 4)) _ w w name eq_refl).
    rewrite (proj2 (streq_false key name) Hne).
    rewrite (bind_Done (lift (obj_is obj 3 "tag")) _ w w true eq_refl).
    rewrite find_exact_items, (bind_Done (lift (Done (exact_index l name))) _ w w _ eq_refl).
    destruct (exact_index l name) as [ix|] eqn:Hix; [|done].
    destruct (exact_index_lookup l name ix Hix) as (v & Hv). rewrite Hv. cbn [fmap option_fmap option_map snd].
    unfold as_items. rewrite list_lookup_fmap, Hv. cbn [fmap option_fmap option_map deref_o].
    pose proof (Forall_lookup_1 _ _ _ _ Hflat Hv) as Hf. pose proof (Forall_lookup_1 _ _ _ _ Hlok Hv) as [_ Hvok].
    destruct v as [| | | | |m]; try done. cbn in Hf.
    assert (Hm : members_ok m) by (by apply json_ok_object).
    run_m. cbn [lift snd]. rewrite items_children. change (children (JObject m)) with (as_items m).
    unfold cJSON_CreateObject. rewrite copy_any_object by (done || by apply ok_payload).
    cbn [app]. rewrite stored_id by done. reflexivity.
Qed.
End store.

(** ** Properties *)

(** The status and the store a tag request comes to. *)
Definition spec_request (op : crud_op) (opens : bool) (st : store) (name : cstring) (p : members)
    : Z * store :=
  match op with
  | CREATE => committed opens st (spec_create st name p)
  | UPDATE => committed opens st (spec_update st name p)
  | DELETE => deleted opens st (spec_delete st name)
  | RETREIVE => (fst (spec_retrieve st name), st)
  end.

Lemma tag_handled `{WrpLaws} `{CjsonLaws} (env : oracle) (op : crud_op) (c : wrp_crud) (name : cstring)
    (response : wrp_crud) (p : members) (w : World) :
  op ≠ RETREIVE → store_wf w → tag_request (WRP_CRUD op c) name →
  (op ≠ DELETE → check_payload (crud_payload c) = Some (as_items p)) → payload_ok p →
  handled w response
    (λ r, op = CREATE → crud_payload r = Some (cJSON_PrintUnformatted (created name p)))
    (spec_request op (crud_file_opens env w) (the_store w) name p)
    (handler env op (WRP_CRUD op c) response w).
Proof.
  intros Hop Hwf Hreq Hpay Hp.
  assert (Hv : crud_view (WRP_CRUD op c) = c) by apply crud_view_crud.
  destruct op; [|done| |].
  - eapply handled_impl; [|apply createObject_handled]; [intros x Hx _; exact Hx|done|done| |done].
    rewrite Hv. by apply Hpay.
  - eapply handled_impl; [|apply updateObject_handled]; try done. rewrite Hv. by apply Hpay.
  - eapply handled_impl; [|by apply deleteObject_handled]. done.
Qed.

(** C1. A create, update or delete of a tag implements the operation of the same name
    on the store the file holds, when the payload passes the checks: the status and
    the tags in the rewritten file are the specification's, a file that cannot be
    opened for writing keeps its text and answers 500 (200 for a delete), nothing but
    the file changes, and the response goes back to the sender with the request's
    transaction id, carrying the stored object exactly when it was created. *)
Theorem crud_refines_store `{WrpLaws} `{CjsonLaws} (env : oracle) (op : crud_op) (c : wrp_crud)
    (name uuid source dest : cstring) (p : members) (w : World)
    (Hop : op ≠ RETREIVE) (Hwf : store_wf w) (Hreq : tag_request (WRP_CRUD op c) name)
    (Huuid : crud_transaction_uuid c = Some uuid) (Hsource : crud_source c = Some source)
    (Hdest : crud_dest c = Some dest)
    (Hpay : op ≠ DELETE → check_payload (crud_payload c) = Some (as_items p)) (Hp : payload_ok p) :
  let r := spec_request op (crud_file_opens env w) (the_store w) name p in
  let ret := if fst r <? 300 then 0 else -1 in
  ∃ resp w', processCrudRequest env (WRP_CRUD op c) w = Done ((ret, WRP_CRUD op resp), w') /\
    (crud_status resp, the_store w') = r /\ store_wf w' /\ only_file w w' /\
    crud_transaction_uuid resp = Some uuid /\ crud_source resp = Some dest /\
    crud_dest resp = Some source /\
    (ret = 0 → crud_payload resp =
       if decide (op = CREATE) then Some (cJSON_PrintUnformatted (created name p)) else None).
Proof.
  cbn zeta. rewrite (process_run env op c uuid source dest) by done. cbn zeta.
  set (resp0 := response_of uuid dest source).
  destruct (tag_handled env op c name resp0 p w) as (resp & w' & -> & Hof & Hwf' & Hr & HQ & Hu & Hs & Hd);
    [done..|]. rewrite <-Hr in *. cbn [fst].
  exists (if Bool.eqb ((if crud_status resp <? 300 then 0 else -1) =? 0)
            (bool_decide (op = CREATE \/ op = RETREIVE)) then resp else no_payload resp), w'.
  split; [by destruct (crud_status resp <? 300)|].
  destruct (Z.ltb_spec (crud_status resp) 300) as [Hlt|Hge]; cbn [Z.eqb Bool.eqb].
  - specialize (HQ Hlt). destruct op; [|done| |]; cbn; split_and!; try done.
    intros _. rewrite bool_decide_eq_true_2 by (by left). rewrite decide_True by done. by apply HQ.
  - destruct op; done.
Qed.

(** ** Round trip *)

(** Distinct names, each with an object of numbers and strings. *)
Definition store_inv (st : store) : Prop :=
  match st with
  | Tags _ l => NoDup (map fst l) /\ Forall (λ x, flat (snd x) = true) l
  | _ => True
  end.

Lemma stored_flat (p : members) :
  forallb (λ x, is_scalar (snd x)) p = true → flat (JObject (stored_members p)) = true.
Proof.
  cbn. induction p as [|[k v] p IH]; [done|]. cbn. intros [Hv Hp]%andb_true_iff.
  destruct v; try done; by apply IH.
Qed.

Lemma index_of_exact_None (l : members) (name : cstring) :
  index_of l name = None → name ∉ map fst l.
Proof.
  intros Hi. apply exact_index_None. destruct (exact_index l name) eqn:He; [|done].
  exfalso. by apply (exact_index_of l name); [rewrite He|].
Qed.

Lemma without_names (l : members) (name : cstring) (i : nat) :
  exact_index l name = Some i → NoDup (map fst l) →
  NoDup (map fst (without i l)) /\ name ∉ map fst (without i l).
Proof.
  intros Hi Hd. destruct (exact_index_lookup l name i Hi) as (v & Hv).
  apply take_drop_middle in Hv as Hl. unfold without. rewrite <-Hl, map_app in Hd. cbn in Hd.
  rewrite map_app. apply NoDup_app in Hd as (Ha & Hab & Hb). apply NoDup_cons in Hb as [Hn Hb].
  split.
  - apply NoDup_app. split; [done|]. split; [|done]. intros x Hx Hx'. apply (Hab x Hx). by right.
  - rewrite elem_of_app. intros [Hx|Hx]; [|done]. apply (Hab name Hx). by left.
Qed.

Lemma store_inv_snoc (key : cstring) (l : members) (name : cstring) (v : json) :
  store_inv (Tags key l) → name ∉ map fst l → flat v = true → store_inv (Tags key (l ++ [(name, v)])).
Proof.
  intros [Hd Hf] Hn Hv. cbn. rewrite map_app. split; [|apply Forall_app; by auto].
  apply NoDup_app. split; [done|]. split; [|apply NoDup_singleton].
  intros x Hx ->%list_elem_of_singleton. done.
Qed.

(** The store after a create or an update that succeeds. *)
Lemma spec_write_result (op : crud_op) (opens : bool) (st : store) (name : cstring) (p : members) :
  op = CREATE \/ op = UPDATE → store_inv st → fst (spec_request op opens st name p) < 300 →
  ∃ l, snd (spec_request op opens st name p) = Tags "tags" (l ++ [(name, JObject (stored_members p))]) /\
       (name ∉ map fst l) /\ store_inv (Tags "tags" (l ++ [(name, JObject (stored_members p))])).
Proof.
  intros Hop Hinv. assert (Hc : spec_request op opens st name p = committed opens st
    ((match op with CREATE => spec_create | _ => spec_update end) st name p)) by (by destruct Hop as [-> | ->]).
  rewrite Hc. unfold committed. set (r := (match op with CREATE => spec_create | _ => spec_update end) st name p).
  destruct (Z.ltb_spec (fst r) 300) as [Hlt|]; [|cbn [andb]; intros; lia].
  destruct opens; cbn [andb negb fst]; [intros _|intros Hb; lia].
  assert (Hnew : ∀ l, store_inv (Tags "tags" l) → name ∉ map fst l →
    forallb (λ x, is_scalar (snd x)) p = true →
    ∃ l', Tags "tags" (l ++ [(name, JObject (stored_members p))]) =
            Tags "tags" (l' ++ [(name, JObject (stored_members p))]) /\ (name ∉ map fst l') /\
          store_inv (Tags "tags" (l' ++ [(name, JObject (stored_members p))]))).
  { intros l Hl Hn Hs. exists l. split; [done|]. split; [done|].
    apply store_inv_snoc; [done|done|by apply stored_flat]. }
  assert (Hnil : store_inv (Tags "tags" [])) by (split; constructor).
  assert (Hn0 : name ∉ map fst ([] : members)) by apply not_elem_of_nil.
  subst r. revert Hlt. destruct Hop as [-> | ->]; unfold spec_create, spec_update;
    destruct st as [| | |key l]; try (intros; cbn in *; lia);
    try (destruct (forallb _ p) eqn:Hs; cbn; intros; [by apply (Hnew [])|lia]).
  - destruct (index_of l name) eqn:Hi; [destruct (exact_index l name); cbn; intros; lia|].
    destruct (forallb _ p) eqn:Hs; cbn [fst snd]; intros; [|lia].
    apply Hnew; [by destruct Hinv|by apply index_of_exact_None|done].
  - destruct (index_of l name) eqn:Hi.
    + destruct (exact_index l name) as [j|] eqn:He; [|cbn; intros; lia].
      destruct (forallb _ p) eqn:Hs; cbn [fst snd]; intros; [|lia].
      destruct Hinv as [Hd Hf]. destruct (without_names l name j He Hd) as [Hd' Hn'].
      apply Hnew; [|done|done]. split; [done|by apply without_Forall].
    + destruct (forallb _ p) eqn:Hs; cbn [fst snd]; intros; [|lia].
      apply Hnew; [by destruct Hinv|by apply index_of_exact_None|done].
Qed.

(** C25. What a create or an update stored is what a retrieval of the same tag gives:
    after a success, when the names in the file were distinct, it answers 200 with the
    members of the payload, numbers as ints, and the file is as it was. *)
Theorem write_then_retrieve `{WrpLaws} `{CjsonLaws} (env : oracle) (op : crud_op) (c c' : wrp_crud)
    (name uuid source dest uuid' source' dest' : cstring) (p : members) (w w' : World)
    (resp : wrp_msg_t)
    (Hop : op = CREATE \/ op = UPDATE) (Hwf : store_wf w) (Hinv : store_inv (the_store w))
    (Hreq : tag_request (WRP_CRUD op c) name) (Hreq' : tag_request (WRP_CRUD RETREIVE c') name)
    (Huuid : crud_transaction_uuid c = Some uuid) (Hsource : crud_source c = Some source)
    (Hdest : crud_dest c = Some dest)
    (Huuid' : crud_transaction_uuid c' = Some uuid') (Hsource' : crud_source c' = Some source')
    (Hdest' : crud_dest c' = Some dest')
    (Hpay : check_payload (crud_payload c) = Some (as_items p)) (Hp : payload_ok p)
    (Hname : name ≠ "tags"%cs)
    (Hrun : processCrudRequest env (WRP_CRUD op c) w = Done ((0, resp), w')) :
  store_inv (the_store w') /\
  ∃ answer, processCrudRequest env (WRP_CRUD RETREIVE c') w' = Done ((0, WRP_CRUD RETREIVE answer), w') /\
    crud_status answer = 200 /\ crud_dest answer = Some source' /\
    crud_transaction_uuid answer = Some uuid' /\
    crud_payload answer = Some (cJSON_PrintUnformatted (JObject (stored_members p))).
Proof.
  destruct (crud_refines_store env op c name uuid source dest p w) as
    (r & w1 & Hrun' & Hstore & Hwf' & _); try done; [by destruct Hop as [-> | ->]|].
  rewrite Hrun' in Hrun. injection Hrun as Hret _ <-.
  assert (Hlt : fst (spec_request op (crud_file_opens env w) (the_store w) name p) < 300).
  { destruct (Z.ltb_spec (fst (spec_request op (crud_file_opens env w) (the_store w) name p)) 300);
      [done|discriminate]. }
  destruct (spec_write_result op _ _ name p Hop Hinv Hlt) as (l & Hsnd & Hn & Hinv').
  rewrite <-Hstore in Hsnd. cbn [snd] in Hsnd. rewrite Hsnd. split; [done|].
  rewrite (process_run env RETREIVE c' uuid' source' dest') by done. cbn zeta. cbn [handler].
  pose proof (retrieveObject_answers (WRP_CRUD RETREIVE c') name (response_of uuid' dest' source') w1
    Hwf' Hreq') as Hret'. rewrite Hsnd in Hret'. cbn [spec_retrieve] in Hret'.
  rewrite (exact_index_snoc l name), list_lookup_middle in Hret' by (done || by apply exact_index_None).
  cbn in Hret'. rewrite Hret'; [|intros key l0 [= <- <-]; split; [done|apply Hinv']].
  eexists. split; [reflexivity|]. done.
Qed.

(** ** Witnesses *)

Definition crud_example (op : crud_op) (payload : option bytes) : wrp_crud :=
  crud_zero <| crud_transaction_uuid := Some ("1234"%cs) |>
            <| crud_source := Some ("dns:tr1d1um.example.com"%cs) |>
            <| crud_dest := Some ("mac:14cfe2142xxx/parodus/tag/test1"%cs) |>
            <| crud_payload := payload |>.

Definition payload_example : members :=
  [("expires"%cs, JNumber 1522451870 (inject_Z 1522451870)); ("key"%cs, JString "value")].
Definition payload_text : bytes := @cJSON_PrintUnformatted cjson_example (JObject payload_example).

(** A device with an existing, other tag. *)
Definition tags_example : members :=
  [("tags"%cs, JObject [("test0"%cs, JObject [("expires"%cs, JNumber 7 (inject_Z 7))])])].
Definition crud_world : World :=
  (world_init (λ f, if decide (f = "crud.json"%cs)
                    then Some (@cJSON_PrintUnformatted cjson_example (JObject tags_example)) else None))
    <| parodusCfg := cfg_zero <| crud_config_file := Some ("crud.json"%cs) |> |>.

Lemma crud_example_request (op : crud_op) (payload : option bytes) :
  @tag_request wrp_example (WRP_CRUD op (crud_example op payload)) "test1".
Proof. split; [done|by eexists|by eexists|done|done|by_eval|by_eval]. Qed.

Lemma tags_example_ok : top_ok (JObject tags_example).
Proof.
  split; [apply members_ok_bool; vm_compute; reflexivity|]. by eexists _, _.
Qed.

Lemma crud_world_wf : @store_wf cjson_example crud_world.
Proof.
  destruct (@the_store_printed cjson_example cjson_example_laws tags_example crud_world) as [Hwf _];
    [done|vm_compute; reflexivity|exact tags_example_ok|exact Hwf].
Qed.

Lemma payload_example_ok : payload_ok payload_example.
Proof. repeat constructor; by_eval. Qed.

Example crud_refines_store_witness :
  ∃ resp w', @processCrudRequest wrp_example cjson_example env_ok
      (WRP_CRUD CREATE (crud_example CREATE (Some payload_text))) crud_world =
      Done ((0, WRP_CRUD CREATE resp), w') /\
    crud_status resp = 201 /\
    @the_store cjson_example w' = Tags "tags"
      [("test0"%cs, JObject [("expires"%cs, JNumber 7 (inject_Z 7))]);
       ("test1"%cs, JObject payload_example)].
Proof.
  destruct (@crud_refines_store wrp_example wrp_example_laws cjson_example cjson_example_laws env_ok
    CREATE (crud_example CREATE (Some payload_text)) "test1" "1234" "dns:tr1d1um.example.com"
    "mac:14cfe2142xxx/parodus/tag/test1" payload_example crud_world) as (resp & w' & Hrun & Hr & _);
    [done|exact crud_world_wf|apply crud_example_request|reflexivity|reflexivity|reflexivity
    |intros _; vm_compute; reflexivity|exact payload_example_ok|].
  cbn zeta in Hrun, Hr.
  assert (Hspec : spec_request CREATE (@crud_file_opens env_ok crud_world)
      (@the_store cjson_example crud_world) "test1" payload_example =
    (201, Tags "tags" [("test0"%cs, JObject [("expires"%cs, JNumber 7 (inject_Z 7))]);
                       ("test1"%cs, JObject payload_example)])) by (vm_compute; reflexivity).
  rewrite Hspec in Hrun, Hr. injection Hr as Hst Hs. exists resp, w'. by split.
Defined.

Example write_then_retrieve_witness :
  ∃ resp w' answer,
    @processCrudRequest wrp_example cjson_example env_ok
      (WRP_CRUD UPDATE (crud_example UPDATE (Some payload_text))) crud_world = Done ((0, resp), w') /\
    @processCrudRequest wrp_example cjson_example env_ok
      (WRP_CRUD RETREIVE (crud_example RETREIVE None)) w' = Done ((0, WRP_CRUD RETREIVE answer), w') /\
    crud_payload answer = Some payload_text.
Proof.
  destruct (@processCrudRequest wrp_example cjson_example env_ok
      (WRP_CRUD UPDATE (crud_example UPDATE (Some payload_text))) crud_world) as [[[ret resp] w']| |] eqn:Hrun;
    [|vm_compute in Hrun; discriminate Hrun..].
  assert (ret = 0) as -> by (apply (f_equal (λ o, match o with Done ((r, _), _) => r | _ => 0 end)) in Hrun;
    vm_compute in Hrun; by symmetry).
  assert (Hinv : store_inv (@the_store cjson_example crud_world)).
  { assert (@the_store cjson_example crud_world =
      Tags "tags" [("test0"%cs, JObject [("expires"%cs, JNumber 7 (inject_Z 7))])]) as ->
      by (vm_compute; reflexivity).
    split; by_eval. }
  destruct (@write_then_retrieve wrp_example wrp_example_laws cjson_example cjson_example_laws env_ok
    UPDATE (crud_example UPDATE (Some payload_text)) (crud_example RETREIVE None) "test1"
    "1234" "dns:tr1d1um.example.com" "mac:14cfe2142xxx/parodus/tag/test1"
    "1234" "dns:tr1d1um.example.com" "mac:14cfe2142xxx/parodus/tag/test1"
    payload_example crud_world w' resp) as (_ & answer & Ha & _ & _ & _ & Hp);
    [by right|exact crud_world_wf|exact Hinv|apply crud_example_request|apply crud_example_request
    |reflexivity|reflexivity|reflexivity|reflexivity|reflexivity|reflexivity
    |vm_compute; reflexivity|exact payload_example_ok|discriminate|exact Hrun|].
  exists resp, w', answer. by split.
Defined.
