(* ===== verification/Downstream.v ===== *)
(** * downstream.c and thread_tasks.c: messages from the server

    [listenerOnMessage] handles one message of the queue. [strtok] works on a copy of
    the destination; its effect on the copy shows only in what is left when there is
    no second token. *)

From S2P Require Import Prelude StringHelpers Timers Config Wrp Partners World ClientList Nopoll Upstream Cjson Crud.
Local Open Scope cs_scope.
Local Open Scope Z_scope.

(** ** The destination *)

Fixpoint skip_slashes (s : cstring) : cstring :=
  match s with
  | [] => []
  | c :: rest => if decide (c = "/"%char) then skip_slashes rest else s
  end.

(** [strtok (s, "/")]: the token and what is behind its delimiter. *)
Definition strtok (s : cstring) : option (cstring * cstring) :=
  match skip_slashes s with
  | [] => None
  | s' => let tok := before "/"%char s' in Some (tok, drop (S (length tok)) s')
  end.

(** [destVal] after the first [strtok]: it ends behind the first token. *)
Definition cut_by_strtok (destVal : cstring) : cstring :=
  match strtok destVal with
  | None => destVal
  | Some (tok, _) => take (length destVal - length (skip_slashes destVal) + length tok) destVal
  end.

Definition dest_service (destVal : cstring) : cstring :=
  let newDest := match strtok destVal with
                 | Some (_, rest) => match strtok rest with Some (t, _) => Some t | None => None end
                 | None => None
                 end in
  match newDest with
  | Some t => parStrncpy t 32
  | None => parStrncpy (cut_by_strtok destVal) 32
  end.

Section downstream.
Context `{WrpLib} `{CjsonLib} (env : oracle).

(** ** CRUD requests *)

(** A list with a count of 0 is not copied. *)
Definition copy_counted {A} (l : option (list A)) : option (list A) :=
  match l with Some (x :: rest) => Some (x :: rest) | _ => None end.

(** The copy of an item without a name or a value keeps an uninitialised pointer,
    which is freed with the message. *)
Definition copy_metadata (l : option (list data_item)) : outcome (option (list data_item)) :=
  match copy_counted l with
  | Some items =>
      if forallb (λ d, bool_decide (data_name d ≠ None) && bool_decide (data_value d ≠ None)) items
      then Done (Some items) else Undef
  | None => Done None
  end.

Definition createNewMsgForCRUD (message : wrp_msg_t) : outcome wrp_msg_t :=
  let c := crud_view message in
  metadata ← copy_metadata (crud_metadata c);
  Done (set_crud message {|
    crud_transaction_uuid := crud_transaction_uuid c;
    crud_content_type := crud_content_type c;
    crud_source := crud_source c;
    crud_dest := crud_dest c;
    crud_partner_ids := copy_counted (crud_partner_ids c);
    crud_headers := copy_counted (crud_headers c);
    crud_metadata := metadata;
    crud_include_spans := crud_include_spans c;
    crud_status := crud_status c;
    crud_rdr := crud_rdr c;
    crud_payload := cstr <$> crud_payload c;
    crud_payload_size := crud_payload_size c;
    crud_path := crud_path c
  |}).

(** ** Error responses *)

Definition error_json (statusCode : Z) (message : cstring) : json :=
  let response := cJSON_AddItemToObject cJSON_CreateObject (Some ("statusCode"%cs))
                    (Some (cJSON_CreateNumber statusCode)) in
  cJSON_AddItemToObject response (Some ("message"%cs)) (cJSON_CreateString (Some message)).

Definition error_response (message : wrp_msg_t) (response : json) : wrp_msg_t :=
  let str := cJSON_PrintUnformatted response in
  match message with
  | WRP_REQ r =>
      WRP_REQ (req_zero <| req_source := req_dest r |> <| req_dest := req_source r |>
                        <| req_transaction_uuid := req_transaction_uuid r |>
                        <| req_payload := Some str |>
                        <| req_payload_size := Z.of_nat (length str) |>)
  | _ =>
      let c := crud_view message in
      set_crud message
        (crud_zero <| crud_source := crud_dest c |>
                   <| crud_dest := match crud_source c with Some s => Some s | None => Some ("unknown"%cs) end |>
                   <| crud_transaction_uuid := crud_transaction_uuid c |>
                   <| crud_path := crud_path c |>
                   <| crud_payload := Some str |>
                   <| crud_payload_size := Z.of_nat (length str) |>)
  end.

(** A failed encoding leaves [resp_bytes] uninitialised when it is freed. *)
Definition send_error (message : wrp_msg_t) (response : json) : M World unit :=
  match wrp_struct_to (error_response message response) with
  | None => undef
  | Some [] => mret tt
  | Some resp_bytes => sendUpstreamMsgToServer env resp_bytes
  end.

(** ** A message *)

Definition message_dest (message : wrp_msg_t) : option cstring :=
  match message with
  | WRP_EVENT e => ev_dest e
  | WRP_REQ r => req_dest r
  | _ => crud_dest (crud_view message)
  end.

(** The part behind a positive partner check: [destFlag], and the response if there
    is one; a response with [destFlag] set makes [ret] negative. *)
Definition route (message : wrp_msg_t) (recivedMsg : bytes) (destVal : cstring)
    : M World (option json) :=
  let dest := dest_service destVal in
  l ← gets g_head;
  match find_client dest l with
  | Some temp => _ ← call env (nn_send (sock temp) recivedMsg); mret None
  | None =>
      if streq "parodus" dest then
        let c := crud_view message in
        match crud_source c, crud_transaction_uuid c with
        | Some _, Some _ =>
            crudMessage ← lift (createNewMsgForCRUD message);
            addCRUDmsgToQueue crudMessage;;
            mret None
        | _, _ => mret (Some (error_json 400 "Invalid Request"))
        end
      else mret (Some (error_json 531 "Service Unavailable"))
  end.

(** The case of events, requests and CRUD messages. *)
Definition deliver (message : wrp_msg_t) (recivedMsg : bytes) : M World unit :=
  cfg ← gets parodusCfg;
  '(ret, _) ← lift (validate_partner_id (partner_id cfg) message None);
  destVal ← deref (message_dest message);
  response ← (if ret <? 0 then mret (Some (error_json 403 "Invalid partner_id"))
              else route message recivedMsg destVal);
  match message, response with
  | WRP_EVENT _, _ => mret tt
  | _, Some response => send_error message response
  | _, None => mret tt
  end.

Definition listenerOnMessage (msg : option bytes) : M World unit :=
  match msg with
  | None => mret tt
  | Some recivedMsg =>
      match wrp_to_struct recivedMsg with
      | None => mret tt
      | Some message =>
          match message with
          | WRP_EVENT _ | WRP_REQ _ | WRP_CRUD _ _ => deliver message recivedMsg
          | WRP_AUTH _ | WRP_SVC_REGISTRATION _ | WRP_SVC_ALIVE | WRP_UNKNOWN => mret tt
          end
      end
  end.

(** ** The consumer (thread_tasks.c) *)

Definition messageHandlerTask_turn : M World bool :=
  q ← gets ParodusMsgQ;
  match q with
  | message :: rest =>
      modify (λ w, w <| ParodusMsgQ := rest |>);;
      listenerOnMessage message;;
      mret false
  | [] =>
      stop ← read_g_shutdown env;
      if (stop : bool) then mret true
      else _ ← call env sys_cond_wait; mret false
  end.

Fixpoint messageHandlerTask (turns : nat) : M World unit :=
  match turns with
  | O => nofuel
  | S turns =>
      stop ← messageHandlerTask_turn;
      if (stop : bool) then mret tt else messageHandlerTask turns
  end.
End downstream.

(** ** Specification *)

(** The non-empty texts between slashes. *)
Definition parts (d : cstring) : list cstring := filter (λ s, s ≠ []) (strsep_all "/"%char d).

(** Whether the partner check lets a message pass. *)
Definition partner_allows (partner_id : cstring) (message : wrp_msg_t) : Prop :=
  match partner_id, message with
  | [], _ => True
  | _, WRP_REQ r => match req_partner_ids r with Some ids => partner_match partner_id ids | None => True end
  | _, WRP_EVENT e => match ev_partner_ids e with Some ids => partner_match partner_id ids | None => False end
  | _, _ => True
  end.

(** ** Lemmas *)

Lemma parts_slash (s : cstring) : parts ("/"%char :: s) = parts s.
Proof. unfold parts. cbn [strsep_all]. by rewrite decide_True by done. Qed.

Lemma parts_skip (s : cstring) : parts (skip_slashes s) = parts s.
Proof.
  induction s as [|c s IH]; [done|]. cbn [skip_slashes]. destruct (decide (c = "/"%char)) as [->|]; [|done].
  by rewrite parts_slash.
Qed.

Lemma skip_slashes_head (s : cstring) (c : ascii) (t : cstring) :
  skip_slashes s = c :: t → c ≠ "/"%char.
Proof.
  induction s as [|x s IH]; [done|]. cbn [skip_slashes].
  destruct (decide (x = "/"%char)); [done|]. by intros [= -> _].
Qed.

Lemma strtok_parts (s : cstring) :
  match strtok s with
  | Some (tok, rest) => parts s = tok :: parts rest
  | None => parts s = []
  end.
Proof.
  unfold strtok. rewrite <-parts_skip. destruct (skip_slashes s) as [|c t] eqn:Hs; [done|].
  apply skip_slashes_head in Hs. set (s' := c :: t). unfold parts at 1.
  rewrite strsep_all_before. unfold after. fold (parts (drop (S (length (before "/"%char s'))) s')).
  rewrite filter_cons_True by (unfold s'; cbn; by rewrite decide_False by done).
  f_equal. destruct (strchr s' "/"%char) eqn:Hc; [done|].
  apply strchr_None in Hc. rewrite before_none, drop_ge by (done || lia). done.
Qed.

Lemma dest_service_parts (d scheme service : cstring) (rest : list cstring) :
  parts d = scheme :: service :: rest → dest_service d = take 31 service.
Proof.
  intros Hp. unfold dest_service. pose proof (strtok_parts d) as H1.
  destruct (strtok d) as [[tok r]|]; [|by rewrite Hp in H1].
  rewrite Hp in H1. injection H1 as <- Hr. pose proof (strtok_parts r) as H2.
  destruct (strtok r) as [[tok' r']|]; [|by rewrite <-Hr in H2].
  rewrite <-Hr in H2. by injection H2 as -> _.
Qed.

Lemma validate_allows (pid : cstring) (message : wrp_msg_t) :
  partner_allows pid message →
  ∃ ret out, validate_partner_id pid message None = Done (ret, out) /\ 0 <= ret.
Proof.
  destruct pid as [|c pid]; [intros _; by eexists _, _|]. set (p := c :: pid).
  destruct message as [|r|e|op cr|r| |]; simpl; fold p; try (intros _; by eexists _, _).
  - destruct (req_partner_ids r) as [ids|]; [|intros _; by eexists _, _].
    rewrite match_req_event. intros Hm%match_event_spec. rewrite Hm. by eexists _, _.
  - destruct (ev_partner_ids e) as [ids|]; [|done]. intros Hm%match_event_spec. rewrite Hm.
    by eexists _, _.
Qed.

Lemma validate_refuses (pid : cstring) (r : wrp_req) :
  ~ partner_allows pid (WRP_REQ r) → validate_partner_id pid (WRP_REQ r) None = Done (-1, None).
Proof.
  destruct pid as [|c pid]; [by intros []|]. set (p := c :: pid). simpl. fold p.
  destruct (req_partner_ids r) as [ids|]; [|by intros []]. intros Hm%match_event_false.
  by rewrite match_req_event, Hm.
Qed.

Definition metadata_complete (c : wrp_crud) : Prop :=
  match crud_metadata c with
  | Some l => Forall (λ d, data_name d ≠ None /\ data_value d ≠ None) l
  | None => True
  end.

Lemma copy_metadata_complete (c : wrp_crud) :
  metadata_complete c → copy_metadata (crud_metadata c) = Done (copy_counted (crud_metadata c)).
Proof.
  unfold metadata_complete, copy_metadata. destruct (crud_metadata c) as [[|x l]|]; [done| |done].
  intros Hl. cbn [copy_counted]. replace (forallb _ (x :: l)) with true; [done|]. symmetry.
  apply forallb_forall. intros d Hd%list_elem_of_In. rewrite Forall_forall in Hl.
  destruct (Hl d Hd). by rewrite !bool_decide_eq_true_2.
Qed.

Section facts.
Context `{WrpLib} `{CjsonLib} (env : oracle).

(** The error a message is answered with; events get none. *)
Definition answer_error (message : wrp_msg_t) (status : Z) (text : cstring) : M World unit :=
  match message with
  | WRP_EVENT _ => mret tt
  | _ => send_error env message (error_json status text)
  end.

Definition deliverable (message : wrp_msg_t) : Prop :=
  match message with WRP_EVENT _ | WRP_REQ _ | WRP_CRUD _ _ => True | _ => False end.

Lemma deliver_run (message : wrp_msg_t) (raw : bytes) (d : cstring) (w : World) :
  deliverable message → message_dest message = Some d →
  partner_allows (partner_id (parodusCfg w)) message →
  deliver env message raw w =
    (response ← route env message raw d;
     match response with
     | Some j => match message with WRP_EVENT _ => mret tt | _ => send_error env message j end
     | None => mret tt
     end) w.
Proof.
  intros Hk Hd Ha. destruct (validate_allows _ _ Ha) as (ret & out & Hv & Hret).
  unfold deliver. run_m. rewrite Hv. cbn [lift]. rewrite Hd, (proj2 (Z.ltb_ge _ _) Hret). run_m.
  destruct (route env message raw d w) as [[[j|] w']| |]; try done; by destruct message.
Qed.
End facts.

(** ** Properties *)

(** C15. A message from the server that the partner check lets pass goes to exactly one
    place. It is sent, as it came, to the first client registered under the service of
    its destination (the second text between slashes, cut to 31 characters); without
    such a client, a message for "parodus" that names its source and transaction goes
    behind the queued CRUD requests with its fields copied; everything else is
    answered with an error, unless it is an event. *)
Theorem downstream_routing `{WrpLaws} `{CjsonLib} (env : oracle) (raw : bytes) (message : wrp_msg_t)
    (d scheme service : cstring) (rest : list cstring) (w : World)
    (Hdecode : wrp_to_struct raw = Some message) (Hkind : deliverable message)
    (Hdest : message_dest message = Some d) (Hparts : parts d = scheme :: service :: rest)
    (Hpartner : partner_allows (partner_id (parodusCfg w)) message) :
  let dest := take 31 service in
  let c := crud_view message in
  let run := listenerOnMessage env (Some raw) w in
  (∃ a node b n, g_head w = a ++ node :: b /\ service_name node = dest /\
     Forall (λ x, service_name x ≠ dest) a /\
     run = Done (tt, w <| trace := trace w ++ [ev (nn_send (sock node) raw) n] |>)) \/
  (Forall (λ x, service_name x ≠ dest) (g_head w) /\
   if decide (dest = "parodus"%cs) then
     if decide (crud_source c = None \/ crud_transaction_uuid c = None) then
       run = answer_error env message 400 "Invalid Request" w
     else
       metadata_complete c →
       ∃ m, run = Done (tt, w <| crudMsgQ := crudMsgQ w ++ [m] |>) /\
         crud_source (crud_view m) = crud_source c /\ crud_dest (crud_view m) = crud_dest c /\
         crud_transaction_uuid (crud_view m) = crud_transaction_uuid c /\
         crud_path (crud_view m) = crud_path c /\
         crud_payload (crud_view m) = cstr <$> crud_payload c /\
         crud_metadata (crud_view m) = copy_counted (crud_metadata c)
   else run = answer_error env message 531 "Service Unavailable" w).
Proof.
  cbn zeta. unfold listenerOnMessage. rewrite Hdecode.
  replace (match message with WRP_EVENT _ => _ | _ => _ end) with (deliver env message raw)
    by (by destruct message).
  rewrite (deliver_run env message raw d w) by done. unfold route.
  rewrite (dest_service_parts d scheme service rest Hparts). run_m.
  pose proof (find_client_spec (take 31 service) (g_head w)) as Hf.
  destruct (find_client (take 31 service) (g_head w)) as [node|].
  { left. destruct Hf as (a & b & Hl & Hn & Ha). exists a, node, b. eexists. by split_and!. }
  right. split; [done|]. unfold answer_error.
  destruct (streq "parodus" (take 31 service)) eqn:He.
  - apply streq_true in He. rewrite decide_True by done. run_m.
    destruct (crud_source (crud_view message)) as [s|] eqn:Hs; [|rewrite decide_True by (by left)];
      [|by destruct message].
    destruct (crud_transaction_uuid (crud_view message)) as [u|] eqn:Hu;
      [rewrite decide_False by (by intros [])|rewrite decide_True by (by right); by destruct message].
    intros Hmd. unfold createNewMsgForCRUD. rewrite (copy_metadata_complete _ Hmd). run_m. cbn [lift].
    eexists. split; [reflexivity|]. rewrite crud_view_set. cbn. by rewrite Hs, Hu.
  - apply streq_false in He. rewrite decide_False by congruence. by destruct message.
Qed.

Lemma error_json_object `{CjsonLaws} (status : Z) (text : cstring) :
  int_range status →
  error_json status text =
    JObject [("statusCode"%cs, JNumber status (inject_Z status)); ("message"%cs, JString text)].
Proof.
  intros Hs. unfold error_json, cJSON_CreateObject. rewrite create_number, create_string by done.
  by rewrite !add_object.
Qed.

(** A request whose partner ids name no configured partner reaches nobody: its
    source gets one message back, with its transaction id and a payload that says 403,
    through the gate that every message to the server passes. *)
Theorem downstream_partner_refused `{WrpLib} `{CjsonLaws} (env : oracle) (raw b : bytes) (r : wrp_req)
    (w : World) (Hdecode : wrp_to_struct raw = Some (WRP_REQ r)) (Hdest : req_dest r ≠ None)
    (Hpartner : ~ partner_allows (partner_id (parodusCfg w)) (WRP_REQ r)) :
  let refused := JObject [("statusCode"%cs, JNumber 403 (inject_Z 403));
                          ("message"%cs, JString "Invalid partner_id")] in
  let text := cJSON_PrintUnformatted refused in
  let answer := mk_req (req_transaction_uuid r) None (req_dest r) (req_source r) None (Some text)
                       (Z.of_nat (length text)) in
  cJSON_Parse (Some text) = Some refused /\
  (wrp_struct_to (WRP_REQ answer) = Some b → b ≠ [] →
   listenerOnMessage env (Some raw) w = sendUpstreamMsgToServer env b w).
Proof.
  cbn zeta. split; [by apply parse_print|]. intros Hb Hne. unfold listenerOnMessage. rewrite Hdecode.
  unfold deliver. run_m. rewrite (validate_refuses _ _ Hpartner). cbn [lift message_dest].
  destruct (req_dest r) as [d|] eqn:Hd; [|done]. run_m. unfold send_error.
  change (-1 <? 0) with true. cbn beta iota.
  rewrite error_json_object by done. rewrite <-Hd in Hb.
  match goal with |- context [wrp_struct_to ?m] => assert (wrp_struct_to m = Some b) as -> by exact Hb end.
  by destruct b.
Qed.

(** ** Witnesses *)

(** A library to which every text is the encoding of [m]. *)
Definition wrp_only (m : wrp_msg_t) : WrpLib := {|
  wrp_to_struct := λ _, Some m;
  wrp_struct_to := λ _, Some "encoded"%cs;
  crud_view := @crud_view wrp_example;
  set_crud := @set_crud wrp_example;
  WRP_ID_ELEMENT__SERVICE := 2;
  WRP_ID_ELEMENT__APPLICATION := 3;
  wrp_get_msg_element := @wrp_get_msg_element wrp_example;
  wrp_does_service_match := @wrp_does_service_match wrp_example;
  wrp_pack_metadata := @wrp_pack_metadata wrp_example;
  appendEncodedData := @appendEncodedData wrp_example
|}.

Lemma wrp_only_laws (m : wrp_msg_t) : @WrpLaws (wrp_only m).
Proof. split; try done. by intros []. Qed.

Definition req_example : wrp_req :=
  mk_req (Some "1234"%cs) None (Some "dns:tr1d1um"%cs) (Some "mac:14cfe2142xxx/config"%cs)
         (Some ["other"%cs]) None 0.

Definition raw_example : bytes := "raw"%cs.

Example downstream_routing_witness :
  ∃ n, @listenerOnMessage (wrp_only (WRP_REQ req_example)) cjson_example env_ok (Some raw_example) world_example =
    Done (tt, world_example <| trace := [ev (nn_send 6 raw_example) n] |>).
Proof.
  destruct (@downstream_routing (wrp_only (WRP_REQ req_example)) (wrp_only_laws _) cjson_example env_ok raw_example
    (WRP_REQ req_example) "mac:14cfe2142xxx/config" "mac:14cfe2142xxx" "config" [] world_example)
    as [(a & node & b & n & Hl & Hn & Ha & Hrun)|[Hno _]];
    [reflexivity|exact I|reflexivity|vm_compute; reflexivity|exact I| |].
  - exists n. rewrite Hrun. assert (sock node = 6) as ->; [|reflexivity].
    cbn in Hl. destruct a as [|x [|y a]]; injection Hl; [intros _ <-; discriminate Hn|by intros _ <- _|].
    intros Hl' _ _. by destruct a.
  - exfalso. apply (Forall_lookup_1 _ _ 1%nat _ Hno eq_refl). reflexivity.
Defined.

Example downstream_partner_refused_witness :
  let w := world_example <| parodusCfg := cfg_zero <| partner_id := "comcast" |> |> in
  @listenerOnMessage (wrp_only (WRP_REQ req_example)) cjson_example env_ok (Some raw_example) w =
    @sendUpstreamMsgToServer (wrp_only (WRP_REQ req_example)) env_ok "encoded" w.
Proof.
  cbn zeta.
  apply (@downstream_partner_refused (wrp_only (WRP_REQ req_example)) cjson_example cjson_example_laws env_ok
    raw_example "encoded" req_example (world_example <| parodusCfg := cfg_zero <| partner_id := "comcast" |> |>));
    [reflexivity|discriminate| |reflexivity|discriminate].
  change (¬ partner_match "comcast" ["other"%cs]). by_eval.
Defined.
