(* ===== verification/Connection.v ===== *)
(** * connection.c: the connection to the server

    One definition per function. The server the context points at is one of the three
    of the list ([server_ref]); the list belongs to the caller and is passed through.
    Loops that may go on for ever take a number of turns. [mem] is the memory
    [parse_webpa_url] is given. The token of auth_token.c and the server of token.c come
    through the class [Credentials]; [dns_query] is the build option
    FEATURE_DNS_QUERY. *)

From S2P Require Import Prelude StringHelpers Timers Config Wrp World ClientList Cjson Nopoll.
Local Open Scope cs_scope.
Local Open Scope Z_scope.

(** ** Servers *)

Record server_t : Set := mk_server {
  server_addr : option cstring;
  port : Z;
  allow_insecure : Z
}.
#[export] Instance server_settable : Settable server_t :=
  λ s, mk_server (server_addr s) (port s) (allow_insecure s).

Record server_list_t : Set := mk_servers { defaults : server_t; jwt : server_t; redirect : server_t }.
#[export] Instance servers_settable : Settable server_list_t :=
  λ l, mk_servers (defaults l) (jwt l) (redirect l).

Inductive server_ref : Set := defaults_ref | jwt_ref | redirect_ref.
#[export] Instance server_ref_eq_dec : EqDecision server_ref.
Proof. solve_decision. Defined.

Definition server_at (server_list : server_list_t) (r : server_ref) : server_t :=
  match r with
  | defaults_ref => defaults server_list
  | jwt_ref => jwt server_list
  | redirect_ref => redirect server_list
  end.

Definition set_server_null (server : server_t) : server_t := server <| server_addr := None |>.
Definition free_server (server : server_t) : server_t := server <| server_addr := None |>.
Definition server_is_null (server : server_t) : bool := bool_decide (server_addr server = None).
Definition set_server_list_null (l : server_list_t) : server_list_t :=
  mk_servers (set_server_null (defaults l)) (set_server_null (jwt l)) (set_server_null (redirect l)).
Definition free_server_list (l : server_list_t) : server_list_t :=
  mk_servers (free_server (defaults l)) (free_server (jwt l)) (free_server (redirect l)).

Definition get_current_server (l : server_list_t) : server_ref :=
  if negb (server_is_null (redirect l)) then redirect_ref
  else if negb (server_is_null (jwt l)) then jwt_ref
  else defaults_ref.

Record header_info_t : Set := mk_header {
  conveyHeader : option cstring;
  user_agent : option cstring;
  device_id : option cstring
}.

(** [create_connection_ctx_t] with the list it points to. *)
Record create_connection_ctx_t : Set := mk_ctx {
  server_list : server_list_t;
  current_server : option server_ref;
  header_info : header_info_t;
  extra_headers : option cstring;
  connect_timer : expire_timer_t
}.
#[export] Instance ctx_settable : Settable create_connection_ctx_t := λ c, mk_ctx
  (server_list c) (current_server c) (header_info c) (extra_headers c) (connect_timer c).

Definition current (ctx : create_connection_ctx_t) : option server_t :=
  server_at (server_list ctx) <$> current_server ctx.

Definition set_current_server (ctx : create_connection_ctx_t) : create_connection_ctx_t :=
  ctx <| current_server := Some (get_current_server (server_list ctx)) |>.

Definition FIND_SUCCESS : Z := 0.
Definition FIND_INVALID_DEFAULT : Z := -2.
Definition FIND_JWT_FAIL : Z := -1.
Definition WAIT_SUCCESS : Z := 0.
Definition WAIT_ACTION_RETRY : Z := 1.
Definition WAIT_FAIL : Z := 2.
Definition CONN_WAIT_SUCCESS : Z := 0.
Definition CONN_WAIT_ACTION_RETRY : Z := 1.
Definition CONN_WAIT_FAIL : Z := 2.
Definition BACKOFF_ERR : Z := -1.
Definition BACKOFF_SHUTDOWN : Z := 1.
Definition BACKOFF_DELAY_TAKEN : Z := 0.
Definition ETIMEDOUT : Z := 110.
Definition UPDATE_HEALTH_FILE_INTERVAL_SECS : Z := 240.
Definition CloseNormalClosure : Z := 1000.

(** What the connection asks of auth_token.c and token.c. *)
Class Credentials : Type := {
  getAuthToken : M World unit;
  (* the result, [*server_addr] and, when it is written, [*port] *)
  allow_insecure_conn : M World (Z * option cstring * option Z)
}.
(** Neither takes a shutdown back or touches the clients and the queues. *)
Class CredentialsLaws `{Credentials} : Prop := {
  auth_framed : ∀ Q, flag_free Q → keeps (framed Q) getAuthToken;
  token_framed : ∀ Q, flag_free Q → keeps (framed Q) allow_insecure_conn
}.

Section connection.
Context `{CjsonLib} `{NopollLib} `{Credentials} (env : oracle).
Context (mem : list event → cstring → url_memory) (dns_query : bool).

Definition parse_server_url (full_url : cstring) (server : server_t) : M World (Z * server_t) :=
  h ← gets trace;
  let '(rv, addr, p) := parse_webpa_url (mem h full_url) full_url in
  mret (rv, mk_server addr (match p with Some p => p | None => port server end) rv).

(** ** Headers *)

(** ParodusInternal.c: the header that describes the device. *)
Definition add_string (name value : cstring) (response : json) : json :=
  cJSON_AddItemToObject response (Some name) (cJSON_CreateString (Some value)).
Definition add_number (name : cstring) (value : Z) (response : json) : json :=
  cJSON_AddItemToObject response (Some name) (Some (cJSON_CreateNumber value)).
Definition add_if (name value : cstring) (response : json) : json :=
  if negb (length value =? 0)%nat then add_string name value response else response.

Definition convey_json (cfg : ParodusCfg) (reconnect_reason : option cstring) : json :=
  let response := add_if HW_MODELNAME (hw_model cfg) cJSON_CreateObject in
  let response := add_if HW_SERIALNUMBER (hw_serial_number cfg) response in
  let response := add_if HW_MANUFACTURER (hw_manufacturer cfg) response in
  let response := add_if FIRMWARE_NAME (fw_name cfg) response in
  let response := add_number BOOT_TIME (boot_time cfg) response in
  let response := add_if WEBPA_PROTOCOL (webpa_protocol cfg) response in
  let response := add_if WEBPA_INTERFACE (webpa_interface_used cfg) response in
  let response := add_if HW_LAST_REBOOT_REASON (hw_last_reboot_reason cfg) response in
  let response := match reconnect_reason with
                  | Some reason => add_string LAST_RECONNECT_REASON reason response
                  | None => response
                  end in
  if 0 <? boot_retry_wait cfg then add_number BOOT_RETRY_WAIT (boot_retry_wait cfg) response
  else response.

(** The loop that takes the newlines out of the encoded text. *)
Fixpoint without_newlines (s : cstring) : cstring :=
  match s with
  | [] => []
  | c :: rest => if decide (c = chr 10) then without_newlines rest else c :: without_newlines rest
  end.

(** [encodedData] is static: a failed encoding leaves the text of an earlier call. *)
Definition getWebpaConveyHeader : M World (option cstring) :=
  cfg ← gets parodusCfg;
  reason ← gets reconnect_reason;
  let buffer := cJSON_PrintUnformatted (convey_json cfg reason) in
  match nopoll_base64_encode buffer 1024 with
  | Some text => modify (λ w, w <| encodedData := without_newlines text |>)
  | None => mret tt
  end;;
  encoded ← gets encodedData;
  mret (if (0 <? length encoded)%nat then Some encoded else None).

Definition cfg_param (value : cstring) : cstring :=
  if negb (length value =? 0)%nat then value else "unknown".

(** The result and the header information; without a convey header all is freed. *)
Definition init_header_info : M World (Z * header_info_t) :=
  cfg ← gets parodusCfg;
  let agent := (cfg_param (webpa_protocol cfg) ++ " (" ++ cfg_param (fw_name cfg) ++ "; " ++
                cfg_param (hw_model cfg) ++ "/" ++ cfg_param (hw_manufacturer cfg) ++ ";)")%cs%list in
  let id := ("mac:" ++ hw_mac cfg)%cs%list in
  convey ← getWebpaConveyHeader;
  match convey with
  | None => mret (-1, mk_header None None None)
  | Some c => mret (0, mk_header (Some c) (Some agent) (Some id))
  end.

(** "%s" of a NULL pointer is undefined. *)
Definition build_extra_headers (auth device_id user_agent convey : option cstring) : outcome cstring :=
  id ← deref_o device_id;
  agent ← deref_o user_agent;
  let crlf : cstring := [chr 13; chr 10] in
  Done (match auth with Some a => crlf ++ "Authorization: Bearer " ++ a | None => [] end ++
        crlf ++ "X-WebPA-Device-Name: " ++ id ++
        crlf ++ "X-WebPA-Device-Protocols: wrp-0.11,getset-0.1" ++
        crlf ++ "User-Agent: " ++ agent ++
        match convey with Some c => crlf ++ "X-WebPA-Convey: " ++ c | None => [] end)%cs%list.

Definition build_extra_hdrs (h : header_info_t) : M World cstring :=
  cfg ← gets parodusCfg;
  let auth_token := webpa_auth_token cfg in
  lift (build_extra_headers (if (0 <? length auth_token)%nat then Some auth_token else None)
          (device_id h) (user_agent h) (conveyHeader h)).

Definition set_extra_headers (ctx : create_connection_ctx_t) : M World create_connection_ctx_t :=
  cfg ← gets parodusCfg;
  when ((length (webpa_auth_token cfg) =? 0)%nat &&
        match client_cert_path cfg with Some p => (0 <? length p)%nat | None => false end)
    getAuthToken;;
  headers ← build_extra_hdrs (header_info ctx);
  mret (ctx <| extra_headers := Some headers |>).

(** ** Finding servers *)

Definition find_servers (l : server_list_t) : M World (Z * server_list_t) :=
  let l := free_server_list l in
  cfg ← gets parodusCfg;
  '(rv, server) ← parse_server_url (webpa_url cfg) (defaults l);
  let l := l <| defaults := server |> in
  if rv <? 0 then mret (FIND_INVALID_DEFAULT, l)
  else if dns_query && negb (acquire_jwt cfg =? 0) then
    '(rv, addr, p) ← allow_insecure_conn;
    let l := l <| jwt := mk_server addr (match p with Some p => p | None => port (jwt l) end) rv |> in
    if rv <? 0 then mret (FIND_JWT_FAIL, l) else mret (FIND_SUCCESS, l)
  else mret (FIND_SUCCESS, l).

(** networking.c *)
Fixpoint check_addresses (addrs : list cstring) (status : Z) : Z :=
  match addrs with
  | [] => status
  | a :: rest => if streq "10.0.0.1" a then check_addresses rest (-2) else 0
  end.
Definition checkHostIp (serverIP : option cstring) : M World Z :=
  result ← call env (sys_getaddrinfo serverIP);
  mret (match result with None => -1 | Some addrs => check_addresses addrs (-1) end).

(** ** One connection *)

Definition createConnOpts (extra_headers : cstring) (secure : bool) : M World conn_opts :=
  cfg ← gets parodusCfg;
  let nonempty p := match p with Some s => (0 <? length s)%nat | None => false end in
  let certs :=
    if secure && (0 <? length (cert_path cfg))%nat then
      if nonempty (mtls_client_cert_path cfg) && nonempty (mtls_client_key_path cfg)
      then Some (mtls_client_cert_path cfg, mtls_client_key_path cfg, cert_path cfg)
      else Some (None, None, cert_path cfg)
    else None in
  mret (mk_opts secure certs (webpa_interface_used cfg) extra_headers).

Definition set_global_conn (conn : option noPollConn) : M World unit :=
  modify (λ w, w <| g_conn := conn |>).
Definition set_reconnect (reason : cstring) (status : bool) : M World unit :=
  modify (λ w, w <| reconnect_reason := Some reason |> <| LastReasonStatus := status |>).

(** The crash when the host has resolved to 10.0.0.1 for 15 minutes. *)
Definition check_resolved (server : server_t) (timer : expire_timer_t) : M World expire_timer_t :=
  status ← checkHostIp (server_addr server);
  if status =? -2 then
    now ← call env sys_clock;
    let '(expired, timer) := check_timer_expired timer now (15 * 60 * 1000) in
    if (expired : bool) then
      down ← get_interface_down_event env;
      if negb down then
        set_reconnect "Dns_Res_webpa_reconnect" true;;
        _ ← call env sys_kill_self;
        mret timer
      else mret timer
    else mret timer
  else mret timer.

Definition nopoll_connect (ctx : create_connection_ctx_t) (is_ipv6 : bool)
    : M World (bool * create_connection_ctx_t) :=
  server ← deref (current ctx);
  headers ← deref (extra_headers ctx);
  cfg ← gets parodusCfg;
  let port_buf := print_dec (port server) in
  let insecure := 0 <? allow_insecure server in
  opts ← createConnOpts headers (negb insecure);
  let mode := if insecure then conn_plain else if is_ipv6 then conn_tls6 else conn_tls4 in
  connection ← call env (nopoll_new mode opts (server_addr server) port_buf (webpa_path_url cfg));
  timer ← (match connection with
           | None => if negb is_ipv6 then check_resolved server (connect_timer ctx)
                     else mret (connect_timer ctx)
           | Some _ => mret (connect_timer ctx)
           end);
  set_global_conn connection;;
  mret (bool_decide (connection ≠ None), ctx <| connect_timer := timer |>).

Definition wait_connection_ready (ctx : create_connection_ctx_t)
    : M World (Z * create_connection_ctx_t) :=
  conn ← gets g_conn;
  '(ready, wait_status, redirectURL) ← call env (nopoll_wait_ready conn 10);
  if (ready : bool) then mret (WAIT_SUCCESS, ctx)
  else if (wait_status =? 307) || (wait_status =? 302) || (wait_status =? 303) then
    url ← deref redirectURL;
    let redirect_ptr := if strneq 9 url "Redirect:" then drop 9 url else url in
    '(rv, server) ← parse_server_url redirect_ptr (free_server (redirect (server_list ctx)));
    let ctx := ctx <| server_list := (server_list ctx) <| redirect := server |> |> in
    if rv <? 0 then mret (WAIT_FAIL, ctx)
    else mret (WAIT_ACTION_RETRY, set_current_server ctx)
  else if wait_status =? 403 then
    with_cfg (λ cfg, cfg <| webpa_auth_token := [] |>);;
    mret (WAIT_ACTION_RETRY, ctx)
  else mret (WAIT_FAIL, ctx).

(** ** Closing *)

Definition close_conn (conn : noPollConn) (is_shutting_down : bool) : M World unit :=
  reason ← gets shutdown_reason;
  cfg ← gets parodusCfg;
  effective_reason ←
    (match reason with
     | None => mret ("system_restarting"%cs)
     | Some r =>
         if streq r "SIGTERM" then
           match close_reason_file cfg with
           | None => mret ("system_restarting"%cs)
           | Some reason_file =>
               data ← call env (sys_read_file reason_file);
               match data with
               | Some text => mret (if (length (cstr text) =? 0)%nat then "system_restarting"%cs
                                    else cstr text)
               | None => mret ("system_restarting"%cs)
               end
           end
         else mret r
     end);
  call env (nopoll_conn_close_ext conn CloseNormalClosure effective_reason).

Definition close_and_unref_connection (conn : option noPollConn) (is_shutting_down : bool)
    : M World unit :=
  match conn with
  | Some c =>
      close_conn c is_shutting_down;;
      with_cfg (λ cfg, cfg <| cloud_status := Some CLOUD_STATUS_OFFLINE |>)
  | None => mret tt
  end.

Definition close_global_conn : M World unit :=
  conn ← gets g_conn;
  close_and_unref_connection conn false;;
  set_global_conn None.

(** One turn of the loop below up to its exits: [wait_rtn], with the connection closed
    unless it is [WAIT_SUCCESS], which only a ready connection gives. *)
Definition try_connect (ctx : create_connection_ctx_t) (is_ipv6 : bool)
    : M World (Z * create_connection_ctx_t) :=
  '(connected, ctx) ← nopoll_connect ctx is_ipv6;
  if (connected : bool) then
    conn ← gets g_conn;
    ok ← call env (nopoll_conn_is_ok conn);
    '(wait_rtn, ctx) ← (if (ok : bool) then wait_connection_ready ctx else mret (WAIT_FAIL, ctx));
    if wait_rtn =? WAIT_SUCCESS then mret (WAIT_SUCCESS, ctx)
    else close_global_conn;; mret (wait_rtn, ctx)
  else mret (WAIT_FAIL, ctx).

(** The loop over IPv6 and IPv4. *)
Fixpoint connect_loop (attempts : nat) (force_flags : Z) (ctx : create_connection_ctx_t)
    (is_ipv6 : bool) : M World (Z * create_connection_ctx_t) :=
  match attempts with
  | O => nofuel
  | S attempts =>
      '(wait_rtn, ctx) ← try_connect ctx is_ipv6;
      if wait_rtn =? WAIT_SUCCESS then mret (CONN_WAIT_SUCCESS, ctx)
      else if wait_rtn =? WAIT_ACTION_RETRY then mret (CONN_WAIT_ACTION_RETRY, ctx)
      else
        server ← deref (current ctx);
        if (force_flags =? 0) && (allow_insecure server =? 0) && is_ipv6
        then connect_loop attempts force_flags ctx false
        else mret (CONN_WAIT_FAIL, ctx)
  end.

Definition connect_and_wait (ctx : create_connection_ctx_t) : M World (Z * create_connection_ctx_t) :=
  cfg ← gets parodusCfg;
  let force_flags := flags cfg in
  let is_ipv6 := negb (FLAGS_IPV4_ONLY =? Z.land FLAGS_IPV4_ONLY force_flags) in
  connect_loop 2 force_flags ctx is_ipv6.

(** ** The health file *)

Definition write_conn_in_prog_file (is_starting : bool) (start_time : Z) : M World unit :=
  cfg ← gets parodusCfg;
  match connection_health_file cfg with
  | None => mret tt
  | Some f =>
      ok ← call env (sys_fopen_write f);
      if (ok : bool) then
        timestamp ← call env sys_time;
        let text := if is_starting
                    then ("{START=" ++ print_dec (u64 start_time) ++ "," ++ print_dec (u64 timestamp) ++
                          "}" ++ [chr 10])%cs%list
                    else ("{STOP=" ++ print_dec (u64 timestamp) ++ "}" ++ [chr 10])%cs%list in
        modify (λ w, w <| files := λ n, if decide (n = f) then Some text else files w n |>)
      else mret tt
  end.
Definition start_conn_in_progress (start_time : Z) : M World unit := write_conn_in_prog_file true start_time.
Definition stop_conn_in_progress : M World unit := write_conn_in_prog_file false 0.

(** ** Retrying *)

Definition backoff_delay (timer : backoff_timer_t) : M World (Z * backoff_timer_t) :=
  ts ← call env sys_clock;
  timer ← (if UPDATE_HEALTH_FILE_INTERVAL_SECS <=? tv_sec ts - tv_sec (bt_ts timer) then
             start_conn_in_progress (bt_start_time timer);;
             mret (timer <| bt_ts := (bt_ts timer) <| tv_sec :=
               tv_sec (bt_ts timer) + UPDATE_HEALTH_FILE_INTERVAL_SECS |> |>)
           else mret timer);
  random1 ← call env sys_random;
  random2 ← call env sys_random;
  '(timer, ts) ← lift (calc_random_expiration random1 random2 timer ts);
  rtn ← call env (sys_cond_timedwait ts);
  stop ← read_g_shutdown env;
  if (stop : bool) then mret (BACKOFF_SHUTDOWN, timer)
  else if negb (rtn =? 0) && negb (rtn =? ETIMEDOUT) then mret (BACKOFF_ERR, timer)
  else mret (BACKOFF_DELAY_TAKEN, timer).

Fixpoint interface_down_loop (turns : nat) : M World Z :=
  down ← get_interface_down_event env;
  if (down : bool) then
    match turns with
    | O => nofuel
    | S turns =>
        rtn ← call env sys_cond_wait;
        if negb (rtn =? 0) then mret (-1)
        else
          stop ← read_g_shutdown env;
          if (stop : bool) then mret (-1) else interface_down_loop turns
    end
  else mret 0.

Definition wait_while_interface_down (turns : nat) : M World Z :=
  close_global_conn;;
  interface_down_loop turns.

Fixpoint keep_trying_to_connect (turns : nat) (ctx : create_connection_ctx_t)
    (backoff_timer : backoff_timer_t) : M World (bool * create_connection_ctx_t * backoff_timer_t) :=
  stop ← read_g_shutdown env;
  if (stop : bool) then mret (false, ctx, backoff_timer)
  else
    match turns with
    | O => nofuel
    | S turns =>
        ctx ← set_extra_headers ctx;
        '(rtn, ctx) ← connect_and_wait ctx;
        if rtn =? CONN_WAIT_SUCCESS then mret (true, ctx, backoff_timer)
        else if rtn =? CONN_WAIT_ACTION_RETRY then keep_trying_to_connect turns ctx backoff_timer
        else
          down ← get_interface_down_event env;
          if (down : bool) then
            up ← wait_while_interface_down turns;
            if negb (up =? 0) then mret (false, ctx, backoff_timer)
            else
              start_conn_in_progress (bt_start_time backoff_timer);;
              convey ← getWebpaConveyHeader;
              let h := header_info ctx in
              let ctx := ctx <| header_info := mk_header convey (user_agent h) (device_id h) |> in
              if rtn =? CONN_WAIT_FAIL then mret (false, ctx, backoff_timer)
              else keep_trying_to_connect turns ctx backoff_timer
          else
            '(delayed, backoff_timer) ← backoff_delay backoff_timer;
            if negb (delayed =? BACKOFF_DELAY_TAKEN) then mret (false, ctx, backoff_timer)
            else if rtn =? CONN_WAIT_FAIL then mret (false, ctx, backoff_timer)
            else keep_trying_to_connect turns ctx backoff_timer
    end.

Definition free_redirect (ctx : create_connection_ctx_t) : create_connection_ctx_t :=
  ctx <| server_list := (server_list ctx) <| redirect := free_server (redirect (server_list ctx)) |> |>.

(** The outer loop, up to a connection or the shutdown. *)
Fixpoint connection_loop (turns : nat) (ctx : create_connection_ctx_t) (backoff_timer : backoff_timer_t)
    : M World create_connection_ctx_t :=
  stop ← read_g_shutdown env;
  if (stop : bool) then mret ctx
  else
    match turns with
    | O => nofuel
    | S turns =>
        let ctx := set_current_server ctx in
        '(connected, ctx, backoff_timer) ← keep_trying_to_connect turns ctx backoff_timer;
        let ctx := free_redirect ctx in
        if (connected : bool) then mret ctx
        else if dns_query && server_is_null (jwt (server_list ctx)) then
          '(rv, l) ← find_servers (server_list ctx);
          when (rv =? FIND_INVALID_DEFAULT) (modify (λ w, w <| g_shutdown := true |>));;
          connection_loop turns (ctx <| server_list := l |>) backoff_timer
        else connection_loop turns ctx backoff_timer
    end.

(** The callback for pings. Nothing in the program registers one; it is there for what the
    program is built into. *)
Definition registerParodusOnPingStatusChangeHandler (callback_func : bool) : M World unit :=
  modify (λ w, w <| ping_handler := callback_func |>).

Definition ping_status_changed (status : cstring) : M World unit :=
  registered ← gets ping_handler;
  when registered (call env (on_ping_status_change status)).

(** The part behind the loop; [current_server] is NULL when the process was shut down
    before the first turn. *)
Definition connected_to_server (ctx : create_connection_ctx_t) : M World unit :=
  server ← deref (current ctx);
  with_cfg (λ cfg, cfg <| cloud_status := Some CLOUD_STATUS_ONLINE |>);;
  ping_status_changed "received";;
  cfg ← gets parodusCfg;
  reset_close_retry;;
  modify (λ w, w <| heart := reset_heartBeatTimer (heart w) |>);;
  set_reconnect "webpa_process_starts" false;;
  setMessageHandlers env;;
  stop_conn_in_progress.

Definition createNopollConnection (turns : nat) (ctx_created : bool) (l : server_list_t)
    : M World (bool * server_list_t) :=
  if negb ctx_created then mret (false, l)
  else
    cfg ← gets parodusCfg;
    let max_retry_count := s32 (webpa_backoff_max cfg) in
    '(_, h) ← init_header_info;
    '(rv, l) ← (if server_is_null (defaults l) then find_servers l else mret (FIND_SUCCESS, l));
    if rv =? FIND_INVALID_DEFAULT then mret (false, l)
    else
      let ctx := mk_ctx l None h None
                   (init_expire_timer (mk_expire_timer false (mk_timespec 0 0) (mk_timespec 0 0))) in
      ts ← call env sys_clock;
      now ← call env sys_time;
      let backoff_timer := init_backoff_timer max_retry_count ts now in
      start_conn_in_progress (bt_start_time backoff_timer);;
      ctx ← connection_loop turns ctx backoff_timer;
      connected_to_server ctx;;
      mret (true, server_list ctx).
End connection.

(** ** Specification *)

(** The connections tried, in a part of the trace. *)
Fixpoint modes_tried (l : list event) : list conn_mode :=
  match l with
  | [] => []
  | existT (nopoll_new mode _ _ _ _) _ :: rest => mode :: modes_tried rest
  | _ :: rest => modes_tried rest
  end.

(** The ways to try a server: plain when its URL says http, and else IPv6 before IPv4
    unless the flags force one of them. *)
Definition planned_modes (force_flags : Z) (server : server_t) : list conn_mode :=
  if 0 <? allow_insecure server then [conn_plain]
  else if FLAGS_IPV4_ONLY =? Z.land FLAGS_IPV4_ONLY force_flags then [conn_tls4]
  else if (force_flags =? 0) && (allow_insecure server =? 0) then [conn_tls6; conn_tls4]
  else [conn_tls6].

(** ** Lemmas *)

Lemma modes_app (a b : list event) : modes_tried (a ++ b) = (modes_tried a ++ modes_tried b)%list.
Proof.
  induction a as [|[c x] a IH]; [done|]. cbn. destruct c; try done. cbn. by rewrite IH.
Qed.

(** [w'] follows [w]; the calls in between tried [modes]. *)
Definition follows (w w' : World) (modes : list conn_mode) : Prop :=
  ∃ new, trace w' = (trace w ++ new)%list /\ modes_tried new = modes.

Lemma follows_refl (w : World) : follows w w [].
Proof. exists []. by rewrite app_nil_r. Qed.

Lemma follows_trans (w1 w2 w3 : World) (m m' : list conn_mode) :
  follows w1 w2 m → follows w2 w3 m' → follows w1 w3 (m ++ m').
Proof.
  intros (a & Ha & <-) (b & Hb & <-). exists (a ++ b)%list. rewrite Hb, Ha, modes_app. by rewrite app_assoc.
Qed.

(** The calls in between, read off the worlds. *)
Ltac by_follows :=
  first [ apply follows_refl
        | exists []; split; [cbn; by rewrite app_nil_r|reflexivity]
        | eexists; split; [cbn; rewrite <-?app_assoc; reflexivity|reflexivity] ].

Lemma follows_trace (w w' : World) (new : list event) :
  trace w' = (trace w ++ new)%list → follows w w' (modes_tried new).
Proof. by exists new. Qed.

Section connection_facts.
Context `{CjsonLib} `{NopollLib} `{Credentials} (env : oracle).
Context (mem : list event → cstring → url_memory) (dns_query : bool).

(** What the functions below keep of a world. *)
Definition same_settings (w w' : World) : Prop :=
  flags (parodusCfg w') = flags (parodusCfg w) /\ close_retry w' = close_retry w.

Lemma same_settings_trans (w1 w2 w3 : World) :
  same_settings w1 w2 → same_settings w2 w3 → same_settings w1 w3.
Proof. intros [A B] [C D]. split; congruence. Qed.

Lemma check_resolved_run (server : server_t) (timer : expire_timer_t) (w : World) :
  ∃ timer' w', check_resolved env server timer w = Done (timer', w') /\ follows w w' [] /\
    same_settings w w' /\ g_conn w' = g_conn w.
Proof.
  unfold check_resolved, checkHostIp, set_reconnect. run_m.
  match goal with |- context [?s =? -2] => destruct (s =? -2) end; run_m.
  2:{ eexists _, _. split; [reflexivity|]. split; [|done]. by_follows. }
  destruct (check_timer_expired _ _ _) as [[] timer']; run_m.
  2:{ eexists _, _. split; [reflexivity|]. split; [|done]. by_follows. }
  match goal with |- context [negb ?b] => destruct b end; run_m; cbn [negb].
  - eexists _, _. split; [reflexivity|]. split; [|done]. by_follows.
  - eexists _, _. split; [reflexivity|]. split; [|done]. by_follows.
Qed.

Definition mode_of (server : server_t) (is_ipv6 : bool) : conn_mode :=
  if 0 <? allow_insecure server then conn_plain else if is_ipv6 then conn_tls6 else conn_tls4.

Lemma nopoll_connect_run (ctx : create_connection_ctx_t) (is_ipv6 : bool) (server : server_t)
    (w : World) :
  current ctx = Some server → extra_headers ctx ≠ None →
  ∃ timer w', nopoll_connect env ctx is_ipv6 w =
      Done ((bool_decide (g_conn w' ≠ None), ctx <| connect_timer := timer |>), w') /\
    follows w w' [mode_of server is_ipv6] /\ same_settings w w'.
Proof.
  intros Hc Hh. unfold nopoll_connect. rewrite Hc. destruct (extra_headers ctx) as [h|]; [|done].
  unfold createConnOpts, set_global_conn. run_m. fold (mode_of server is_ipv6).
  match goal with |- context [env ?hh (nopoll_new ?m ?o ?s ?p ?u)] =>
    set (c := nopoll_new m o s p u); set (conn := env hh c) end.
  set (w1 := w <| trace := _ |>).
  assert (Hf : follows w w1 [mode_of server is_ipv6]) by by_follows.
  assert (Hs : same_settings w w1) by done.
  destruct conn as [k|] eqn:Hk; [|destruct is_ipv6]; cbn [negb].
  - exists (connect_timer ctx), (w1 <| g_conn := Some k |>). by split_and!.
  - exists (connect_timer ctx), (w1 <| g_conn := None |>). by split_and!.
  - destruct (check_resolved_run server (connect_timer ctx) w1) as (t & w2 & Hr & Hf2 & Hs2 & _).
    rewrite Hr. exists t, (w2 <| g_conn := None |>). split; [reflexivity|]. split.
    + apply (follows_trans _ _ _ _ _ Hf Hf2).
    + destruct Hs2 as [E1 E2]. split; cbn; [by rewrite E1|by rewrite E2].
Qed.

(** A redirect comes with the URL it leads to. *)
Definition redirects_have_url : Prop :=
  ∀ h conn secs, match env h (nopoll_wait_ready conn secs) with
                 | (false, status, None) => status ≠ 307 /\ status ≠ 302 /\ status ≠ 303
                 | _ => True
                 end.
Context (Hurl : redirects_have_url).

(** A failure leaves the current server alone, unless it is a redirect server whose
    place a malformed URL has taken. *)
Lemma wait_connection_ready_run (ctx : create_connection_ctx_t) (server : server_t) (w : World) :
  current ctx = Some server →
  ∃ z ctx' server' w', wait_connection_ready env mem ctx w = Done ((z, ctx'), w') /\
    follows w w' [] /\ same_settings w w' /\ g_conn w' = g_conn w /\
    z ∈ [WAIT_SUCCESS; WAIT_ACTION_RETRY; WAIT_FAIL] /\
    current ctx' = Some server' /\ extra_headers ctx' = extra_headers ctx /\
    (z = WAIT_FAIL → server' = server \/ allow_insecure server' < 0).
Proof.
  intros Hc. unfold wait_connection_ready. run_m.
  match goal with |- context [env ?h ?c] => pose proof (Hurl h (g_conn w) 10) as Hu;
    destruct (env h c) as [[ready status] url] end.
  assert (Hin : ∀ z, z = 0 \/ z = 1 \/ z = 2 → z ∈ [WAIT_SUCCESS; WAIT_ACTION_RETRY; WAIT_FAIL]).
  { intros z [-> | [-> | ->]]; set_solver. }
  destruct ready.
  { exists 0, ctx, server. eexists. split; [reflexivity|]. split; [by_follows|]. split_and!; try done; auto. }
  destruct ((status =? 307) || (status =? 302) || (status =? 303)) eqn:Hst.
  - destruct url as [url|]; [|exfalso; destruct Hu as (? & ? & ?); lia]. unfold parse_server_url. run_m.
    match goal with |- context [parse_webpa_url ?m ?u] => destruct (parse_webpa_url m u) as [[rv addr] pt] end.
    set (srv := mk_server addr _ rv). destruct (Z.ltb_spec rv 0) as [Hrv|Hrv].
    + set (ctx' := ctx <| server_list := _ |>).
      exists 2, ctx', (if decide (current_server ctx = Some redirect_ref) then srv else server).
      eexists. split; [reflexivity|]. split; [by_follows|]. split_and!; try done; [by auto| |].
      * unfold current in *. cbn. destruct (current_server ctx) as [[]|]; try done; cbn in *; by simplify_eq.
      * intros _. destruct (decide _); [by right|by left].
    + set (ctx' := set_current_server _).
      eexists 1, ctx', (server_at (server_list ctx') (get_current_server (server_list ctx'))), _.
      split; [reflexivity|]. split; [by_follows|]. split_and!; try done. by auto.
  - destruct (status =? 403); run_m.
    + exists 1, ctx, server. eexists. split; [reflexivity|]. split; [by_follows|]. split_and!; try done; auto.
    + exists 2, ctx, server. eexists. split; [reflexivity|]. split; [by_follows|]. split_and!; try done; auto.
Qed.

Lemma close_global_conn_run (w : World) :
  ∃ w', close_global_conn env w = Done (tt, w') /\ follows w w' [] /\ g_conn w' = None /\
        same_settings w w'.
Proof.
  unfold close_global_conn, close_and_unref_connection, close_conn, set_global_conn. run_m.
  destruct (g_conn w) as [c|].
  2:{ eexists. split; [reflexivity|]. split; [by_follows|done]. }
  destruct (shutdown_reason w) as [r|]; [destruct (streq r "SIGTERM");
    [destruct (close_reason_file (parodusCfg w)) as [f|];
      [destruct (env (trace w) (sys_read_file f)) as [text|]|]|]|]; run_m;
    (eexists; split; [reflexivity|]; split; [by_follows|done]).
Qed.

Lemma try_connect_run (ctx : create_connection_ctx_t) (is_ipv6 : bool) (server : server_t) (w : World) :
  current ctx = Some server → extra_headers ctx ≠ None →
  ∃ z ctx' server' w', try_connect env mem ctx is_ipv6 w = Done ((z, ctx'), w') /\
    follows w w' [mode_of server is_ipv6] /\ same_settings w w' /\
    z ∈ [WAIT_SUCCESS; WAIT_ACTION_RETRY; WAIT_FAIL] /\ (z = WAIT_SUCCESS ↔ g_conn w' ≠ None) /\
    current ctx' = Some server' /\ extra_headers ctx' ≠ None /\
    (z = WAIT_FAIL → server' = server \/ allow_insecure server' < 0).
Proof.
  intros Hc Hh. unfold try_connect.
  destruct (nopoll_connect_run ctx is_ipv6 server w Hc Hh) as (t & w1 & Hr & Hf & Hs).
  rewrite (bind_Done _ _ _ _ _ Hr). set (ctx1 := ctx <| connect_timer := t |>).
  assert (Hc1 : current ctx1 = Some server) by done.
  assert (Hfail : WAIT_FAIL ∈ [WAIT_SUCCESS; WAIT_ACTION_RETRY; WAIT_FAIL]) by set_solver.
  case_bool_decide as Hconn.
  2:{ exists WAIT_FAIL, ctx1, server, w1. split_and!; try done; (intros _; by left). }
  run_m. destruct (env (trace w1) (nopoll_conn_is_ok (g_conn w1))).
  - set (w2 := w1 <| trace := _ |>).
    destruct (wait_connection_ready_run ctx1 server w2 Hc1)
      as (z & ctx' & server' & w3 & Hr3 & Hf3 & Hs3 & Hg3 & Hz & Hc3 & Hh3 & Hfl).
    rewrite Hr3. destruct (close_global_conn_run w3) as (w4 & Hr4 & Hf4 & Hg4 & Hs4).
    assert (Hf' : follows w w3 [mode_of server is_ipv6]).
    { apply (follows_trans _ _ _ _ _ Hf). apply (follows_trans w1 w2 w3 [] []); [by_follows|done]. }
    assert (Hs' : same_settings w w3) by (by apply (same_settings_trans _ w1); [|apply (same_settings_trans _ w2)]).
    destruct (Z.eqb_spec z WAIT_SUCCESS) as [->|Hne].
    + exists WAIT_SUCCESS, ctx', server', w3. by split_and!; rewrite ?Hg3, ?Hh3.
    + rewrite Hr4. exists z, ctx', server', w4.
      pose proof (follows_trans _ _ _ _ _ Hf' Hf4). pose proof (same_settings_trans _ _ _ Hs' Hs4).
      by split_and!; rewrite ?Hg4, ?Hh3.
  - set (w2 := w1 <| trace := _ |>). destruct (close_global_conn_run w2) as (w4 & Hr4 & Hf4 & Hg4 & Hs4).
    cbn [Z.eqb WAIT_FAIL WAIT_SUCCESS]. run_m. rewrite Hr4. exists WAIT_FAIL, ctx1, server, w4.
    assert (follows w w4 [mode_of server is_ipv6]).
    { apply (follows_trans _ _ _ _ _ Hf). apply (follows_trans w1 w2 w4 [] []); [by_follows|done]. }
    assert (same_settings w w4) by (by apply (same_settings_trans _ w1); [|apply (same_settings_trans _ w2)]).
    split_and!; rewrite ?Hg4; try done. intros _. by left.
Qed.
End connection_facts.

(** ** Properties *)

(** C27. A connection attempt ends after at most two tries: the modes tried are a
    non-empty beginning of the planned ones (IPv6 before IPv4 for a secure server
    when no flag forces one of them), and there is a connection afterwards exactly
    when it is reported as a success. *)
Theorem connect_and_wait_bounded (env : oracle)
    (mem : list event → cstring → url_memory) (ctx : create_connection_ctx_t) (server : server_t)
    (w : World) (Hurl : redirects_have_url env)
    (Hserver : current ctx = Some server) (Hheaders : extra_headers ctx ≠ None) :
  ∃ rtn ctx' w' tried rest, connect_and_wait env mem ctx w = Done ((rtn, ctx'), w') /\
    rtn ∈ [CONN_WAIT_SUCCESS; CONN_WAIT_ACTION_RETRY; CONN_WAIT_FAIL] /\
    (rtn = CONN_WAIT_SUCCESS ↔ g_conn w' ≠ None) /\
    follows w w' tried /\ tried ≠ [] /\
    planned_modes (flags (parodusCfg w)) server = (tried ++ rest)%list.
Proof.
  unfold connect_and_wait. run_m. set (F := flags (parodusCfg w)).
  set (v6 := negb (FLAGS_IPV4_ONLY =? Z.land FLAGS_IPV4_ONLY F)).
  destruct (try_connect_run env mem Hurl ctx v6 server w Hserver Hheaders)
    as (z & ctx1 & server1 & w1 & Hr & Hf & Hs & Hz & Hg & Hc1 & Hh1 & Hfl).
  assert (Hplan : planned_modes F server =
    mode_of server v6 :: (if (F =? 0) && (allow_insecure server =? 0) && v6 then [conn_tls4] else [])).
  { unfold planned_modes, mode_of. fold v6.
    replace (FLAGS_IPV4_ONLY =? Z.land FLAGS_IPV4_ONLY F) with (negb v6) by (by unfold v6; rewrite negb_involutive).
    destruct (Z.ltb_spec 0 (allow_insecure server)), v6; cbn [negb]; rewrite ?andb_false_r, ?andb_true_r; try done.
    - by rewrite (proj2 (Z.eqb_neq (allow_insecure server) 0)) by lia; rewrite andb_false_r.
    - by destruct ((F =? 0) && _). }
  rewrite Hplan. cbn [connect_loop]. run_m. rewrite Hr.
  destruct (Z.eqb_spec z WAIT_SUCCESS) as [->|Hns].
  { pose proof (proj1 Hg eq_refl) as Hsome. eexists CONN_WAIT_SUCCESS, ctx1, w1, [mode_of server v6], _.
    by split_and!. }
  assert (Hnone : g_conn w1 = None) by (destruct (g_conn w1); [|done]; by destruct Hns; apply Hg).
  destruct (Z.eqb_spec z WAIT_ACTION_RETRY) as [->|Hnr].
  { eexists CONN_WAIT_ACTION_RETRY, ctx1, w1, [mode_of server v6], _. by split_and!; rewrite ?Hnone. }
  assert (z = WAIT_FAIL) as -> by set_solver. rewrite Hc1. run_m.
  destruct ((F =? 0) && (allow_insecure server1 =? 0) && v6) eqn:Hagain.
  2:{ eexists CONN_WAIT_FAIL, ctx1, w1, [mode_of server v6], _. by split_and!; rewrite ?Hnone. }
  destruct (Hfl eq_refl) as [->|Hneg]; [|lia]. rewrite Hagain.
  destruct (try_connect_run env mem Hurl ctx1 false server w1 Hc1 Hh1)
    as (z2 & ctx2 & server2 & w2 & Hr2 & Hf2 & Hs2 & Hz2 & Hg2 & Hc2 & Hh2 & _).
  rewrite Hr2.
  assert (Hm : mode_of server false = conn_tls4).
  { unfold mode_of. by rewrite (proj2 (Z.ltb_ge _ _)) by lia. }
  rewrite Hm in Hf2. pose proof (follows_trans _ _ _ _ _ Hf Hf2) as Hf'.
  destruct (Z.eqb_spec z2 WAIT_SUCCESS) as [->|Hns2].
  { pose proof (proj1 Hg2 eq_refl) as Hsome.
    exists CONN_WAIT_SUCCESS, ctx2, w2, [mode_of server v6; conn_tls4], []. by split_and!. }
  assert (Hnone2 : g_conn w2 = None) by (destruct (g_conn w2); [|done]; by destruct Hns2; apply Hg2).
  exists (if z2 =? WAIT_ACTION_RETRY then CONN_WAIT_ACTION_RETRY else CONN_WAIT_FAIL), ctx2, w2,
    [mode_of server v6; conn_tls4], [].
  destruct (Z.eqb_spec z2 WAIT_ACTION_RETRY) as [->|Hnr2]; [by split_and!; rewrite ?Hnone2|].
  rewrite Hc2. run_m. rewrite andb_false_r. by split_and!; rewrite ?Hnone2.
Qed.

(** ** What a connection that is reported leaves behind *)

Section established.
Context `{CjsonLib} `{NopollLib} `{Credentials} (env : oracle).
Context (mem : list event → cstring → url_memory) (dns_query : bool).

Lemma nopoll_connect_inv (ctx ctx' : create_connection_ctx_t) (is_ipv6 b : bool) (w w' : World) :
  nopoll_connect env ctx is_ipv6 w = Done ((b, ctx'), w') → b = bool_decide (g_conn w' ≠ None).
Proof.
  unfold nopoll_connect. intros Hr. inv_bind Hr server w1 R1. inv_bind Hr headers w2 R2.
  inv_bind Hr cfg w3 R3. inv_bind Hr opts w4 R4. inv_bind Hr conn w5 R5. inv_bind Hr timer w6 R6.
  revert Hr. unfold set_global_conn. run_m. by intros [= <- _ <-].
Qed.

Lemma wait_connection_ready_inv (ctx ctx' : create_connection_ctx_t) (z : Z) (w w' : World) :
  wait_connection_ready env mem ctx w = Done ((z, ctx'), w') → g_conn w' = g_conn w.
Proof.
  unfold wait_connection_ready, parse_server_url. run_m.
  match goal with |- context [env ?h ?c] => destruct (env h c) as [[ready status] url] end.
  destruct ready; [by intros [= _ _ <-]|].
  destruct (_ || _ || _).
  - destruct url; [|done]. destruct (parse_webpa_url _ _) as [[rv addr] p]. run_m.
    destruct (rv <? 0); by intros [= _ _ <-].
  - destruct (status =? 403); run_m; by intros [= _ _ <-].
Qed.

Lemma try_connect_inv (ctx ctx' : create_connection_ctx_t) (is_ipv6 : bool) (z : Z) (w w' : World) :
  try_connect env mem ctx is_ipv6 w = Done ((z, ctx'), w') → z = WAIT_SUCCESS → g_conn w' ≠ None.
Proof.
  unfold try_connect. intros Hr. inv_bind Hr r w1 Hc. destruct r as [b ctx1].
  apply nopoll_connect_inv in Hc as Hb. destruct b; [|by injection Hr as <- _ _].
  symmetry in Hb. apply bool_decide_eq_true in Hb.
  inv_bind Hr conn w2 R2. injection R2 as _ <-. inv_bind Hr ok w3 R3. injection R3 as _ <-.
  inv_bind Hr r w4 R4. destruct r as [z1 ctx2].
  assert (Hg : g_conn w4 = g_conn w1).
  { destruct ok; [by apply wait_connection_ready_inv in R4|by injection R4 as _ _ <-]. }
  destruct (Z.eqb_spec z1 WAIT_SUCCESS) as [_|Hne].
  - injection Hr as _ _ <-. by rewrite Hg.
  - inv_bind Hr u w5 R5. injection Hr as -> _ _. done.
Qed.

Lemma connect_loop_inv (attempts : nat) (F : Z) (ctx ctx' : create_connection_ctx_t) (v6 : bool)
    (z : Z) (w w' : World) :
  connect_loop env mem attempts F ctx v6 w = Done ((z, ctx'), w') → z = CONN_WAIT_SUCCESS → g_conn w' ≠ None.
Proof.
  revert ctx v6 w. induction attempts as [|n IH]; intros ctx v6 w; cbn [connect_loop]; [done|].
  intros Hr Hz. inv_bind Hr r w1 R1. destruct r as [z1 ctx1].
  destruct (Z.eqb_spec z1 WAIT_SUCCESS) as [He|_].
  { injection Hr as _ _ <-. by apply (try_connect_inv _ _ _ _ _ _ R1). }
  destruct (z1 =? WAIT_ACTION_RETRY); [by injection Hr as <- _ _|].
  inv_bind Hr server w2 R2. destruct (_ && _ && _); [|by injection Hr as <- _ _].
  by apply (IH _ _ _ Hr).
Qed.

Lemma keep_trying_inv (turns : nat) (ctx ctx' : create_connection_ctx_t) (bt bt' : backoff_timer_t)
    (w w' : World) :
  keep_trying_to_connect env mem turns ctx bt w = Done ((true, ctx', bt'), w') → g_conn w' ≠ None.
Proof.
  revert ctx bt w. induction turns as [|n IH]; intros ctx bt w; cbn [keep_trying_to_connect];
    intros Hr; inv_bind Hr stop w1 R1; (destruct stop; [by injection Hr|]); [done|].
  inv_bind Hr ctx1 w2 R2. inv_bind Hr r w3 R3. destruct r as [z ctx2].
  destruct (Z.eqb_spec z CONN_WAIT_SUCCESS) as [He|_].
  { injection Hr as _ _ <-. unfold connect_and_wait in R3. inv_bind R3 cfg w4 R4.
    by apply (connect_loop_inv _ _ _ _ _ _ _ _ R3). }
  destruct (z =? CONN_WAIT_ACTION_RETRY); [by apply (IH _ _ _ Hr)|].
  inv_bind Hr down w4 R4. destruct down.
  - inv_bind Hr up w5 R5. destruct (negb _); [by injection Hr|].
    inv_bind Hr u w6 R6. inv_bind Hr convey w7 R7.
    destruct (z =? CONN_WAIT_FAIL); [by injection Hr|]. by apply (IH _ _ _ Hr).
  - inv_bind Hr r w5 R5. destruct r as [dl bt1]. destruct (negb _); [by injection Hr|].
    destruct (z =? CONN_WAIT_FAIL); [by injection Hr|]. by apply (IH _ _ _ Hr).
Qed.

Lemma read_g_shutdown_inv (w w' : World) : read_g_shutdown env w = Done (true, w') → g_shutdown w' = true.
Proof.
  run_m. destruct (g_shutdown w) eqn:Hg; [by intros [= <-]|].
  destruct (env (trace w) sys_g_shutdown); by intros [= <-].
Qed.

Lemma find_servers_inv (l l' : server_list_t) (rv : Z) (w w' : World) :
  find_servers mem dns_query l w = Done ((rv, l'), w') → server_addr (redirect l') = None.
Proof.
  unfold find_servers. intros Hr. inv_bind Hr cfg w1 R1. inv_bind Hr r w2 R2. destruct r as [rv1 srv].
  destruct (rv1 <? 0); [by injection Hr as _ <- _|]. destruct (dns_query && _); [|by injection Hr as _ <- _].
  inv_bind Hr r w3 R3. destruct r as [[rv2 addr] p].
  destruct (rv2 <? 0); by injection Hr as _ <- _.
Qed.

(** Once a server has been chosen, no redirect is kept between two turns. *)
Definition redirect_dropped (ctx : create_connection_ctx_t) : Prop :=
  current_server ctx ≠ None → server_addr (redirect (server_list ctx)) = None.

Lemma connection_loop_inv (turns : nat) (ctx ctx' : create_connection_ctx_t) (bt : backoff_timer_t)
    (w w' : World) :
  connection_loop env mem dns_query turns ctx bt w = Done (ctx', w') → redirect_dropped ctx →
  (g_conn w' ≠ None \/ g_shutdown w' = true) /\ redirect_dropped ctx'.
Proof.
  revert ctx bt w. induction turns as [|n IH]; intros ctx bt w; cbn [connection_loop];
    intros Hr Hd; inv_bind Hr stop w1 R1;
    (destruct stop; [injection Hr as <- <-; split; [right; by apply read_g_shutdown_inv in R1|done]|]);
    [done|].
  inv_bind Hr r w2 R2. destruct r as [[connected ctx2] bt2]. destruct connected.
  { injection Hr as <- <-. split; [|done]. left. by apply keep_trying_inv in R2. }
  destruct (dns_query && _); [|by apply (IH _ _ _ Hr)].
  inv_bind Hr r w3 R3. destruct r as [rv l]. inv_bind Hr u w4 R4.
  apply (IH _ _ _ Hr). intros _. by apply find_servers_inv in R3.
Qed.

(** *** The default server and the flag of the shutdown *)

Lemma parse_server_url_found (full_url : cstring) (server server' : server_t) (rv : Z) (w w' : World) :
  parse_server_url mem full_url server w = Done ((rv, server'), w') →
  (rv < 0 \/ server_addr server' ≠ None) /\ w' = w /\
  rv = (parse_webpa_url (mem (trace w) full_url) full_url).1.1.
Proof.
  unfold parse_server_url, parse_webpa_url. run_m.
  destruct (heap_buf (mem (trace w) full_url)) as [buf|]; [|intros [= <- _ <-]; split; [by left|done]].
  destruct (parse_webpa_url__ _ _ _ _ _ _) as [[insecure u] p].
  destruct (insecure <? 0); [intros [= <- _ <-]; split; [by left|done]|].
  destruct (_ =? UINT_ERR); [intros [= <- _ <-]; split; [by left|done]|].
  destruct (_ || _); [intros [= <- _ <-]; split; [by left|done]|].
  intros [= <- <- <-]. split; [by right|done].
Qed.

Lemma find_servers_found (l l' : server_list_t) (rv : Z) (w w' : World) :
  find_servers mem dns_query l w = Done ((rv, l'), w') →
  (rv = FIND_INVALID_DEFAULT /\ (parse_webpa_url (mem (trace w) (webpa_url (parodusCfg w)))
                                  (webpa_url (parodusCfg w))).1.1 < 0) \/
  (rv ≠ FIND_INVALID_DEFAULT /\ server_addr (defaults l') ≠ None).
Proof.
  unfold find_servers. intros Hr. inv_bind Hr cfg w1 R1. injection R1 as <- <-.
  inv_bind Hr r w2 R2. destruct r as [rv1 srv].
  apply parse_server_url_found in R2 as (Hsrv & -> & Hrv1).
  destruct (Z.ltb_spec rv1 0) as [Hlt|Hge].
  { injection Hr as <- <- <-. left. by rewrite <- Hrv1. }
  right. destruct Hsrv as [?|Hsrv]; [lia|].
  destruct (dns_query && _); [|by injection Hr as <- <- _].
  inv_bind Hr r w3 R3. destruct r as [[rv2 addr] p].
  destruct (rv2 <? 0); by injection Hr as <- <- _.
Qed.

Definition same_defaults (ctx ctx' : create_connection_ctx_t) : Prop :=
  defaults (server_list ctx') = defaults (server_list ctx).

Lemma try_connect_defaults (ctx ctx' : create_connection_ctx_t) (is_ipv6 : bool) (z : Z) (w w' : World) :
  try_connect env mem ctx is_ipv6 w = Done ((z, ctx'), w') → same_defaults ctx ctx'.
Proof.
  unfold try_connect. intros Hr. inv_bind Hr r w1 Hc. destruct r as [b ctx1].
  assert (same_defaults ctx ctx1) as D1.
  { unfold nopoll_connect in Hc. inv_bind Hc server w2 R1. inv_bind Hc headers w3 R2.
    inv_bind Hc cfg w4 R3. inv_bind Hc opts w5 R4. inv_bind Hc conn w6 R5. inv_bind Hc timer w7 R6.
    inv_bind Hc u w8 R7. by injection Hc as _ <- _. }
  destruct b; [|by injection Hr as _ <- _].
  inv_bind Hr conn w2 R2. inv_bind Hr ok w3 R3. inv_bind Hr r w4 R4. destruct r as [z1 ctx2].
  assert (same_defaults ctx1 ctx2) as D2.
  { destruct ok; [|by injection R4 as _ <- _]. revert R4. unfold wait_connection_ready, parse_server_url. run_m.
    match goal with |- context [env ?h ?c] => destruct (env h c) as [[ready status] url] end.
    destruct ready; [by intros [= _ <- _]|].
    destruct (_ || _ || _).
    - destruct url; [|done]. destruct (parse_webpa_url _ _) as [[rv addr] p]. run_m.
      destruct (rv <? 0); by intros [= _ <- _].
    - destruct (status =? 403); run_m; by intros [= _ <- _]. }
  assert (same_defaults ctx ctx2) as D3 by (unfold same_defaults in *; congruence).
  destruct (z1 =? WAIT_SUCCESS); [by injection Hr as _ <- _|].
  inv_bind Hr u w5 R5. by injection Hr as _ <- _.
Qed.

Lemma connect_and_wait_defaults (ctx ctx' : create_connection_ctx_t) (z : Z) (w w' : World) :
  connect_and_wait env mem ctx w = Done ((z, ctx'), w') → same_defaults ctx ctx'.
Proof.
  unfold connect_and_wait. intros Hr. inv_bind Hr cfg w1 R1. revert Hr.
  generalize (flags cfg) as F, (negb (FLAGS_IPV4_ONLY =? Z.land FLAGS_IPV4_ONLY (flags cfg))) as v6.
  generalize 2%nat as n. intros n F v6. clear cfg R1. revert ctx v6 w1.
  induction n as [|n IH]; intros ctx v6 w1; cbn [connect_loop]; [done|].
  intros Hr. inv_bind Hr r w2 R2. destruct r as [z1 ctx1]. apply try_connect_defaults in R2.
  destruct (z1 =? WAIT_SUCCESS); [by injection Hr as _ <- _|].
  destruct (z1 =? WAIT_ACTION_RETRY); [by injection Hr as _ <- _|].
  inv_bind Hr server w3 R3. destruct (_ && _ && _); [|by injection Hr as _ <- _].
  apply IH in Hr. unfold same_defaults in *. congruence.
Qed.

Lemma keep_trying_defaults (turns : nat) (ctx ctx' : create_connection_ctx_t) (bt bt' : backoff_timer_t)
    (b : bool) (w w' : World) :
  keep_trying_to_connect env mem turns ctx bt w = Done ((b, ctx', bt'), w') → same_defaults ctx ctx'.
Proof.
  revert ctx bt w. induction turns as [|n IH]; intros ctx bt w; cbn [keep_trying_to_connect];
    intros Hr; inv_bind Hr stop w1 R1; (destruct stop; [by injection Hr as _ <- _ _|]); [done|].
  inv_bind Hr ctx1 w2 R2.
  assert (same_defaults ctx ctx1) as D1.
  { unfold set_extra_headers in R2. inv_bind R2 cfg w3 R3. inv_bind R2 u w4 R4.
    inv_bind R2 headers w5 R5. by injection R2 as <- _. }
  inv_bind Hr r w3 R3. destruct r as [z ctx2]. apply connect_and_wait_defaults in R3.
  assert (same_defaults ctx ctx2) as D2 by (unfold same_defaults in *; congruence).
  destruct (z =? CONN_WAIT_SUCCESS); [by injection Hr as _ <- _ _|].
  destruct (z =? CONN_WAIT_ACTION_RETRY).
  { apply IH in Hr. unfold same_defaults in *. congruence. }
  inv_bind Hr down w4 R4. destruct down.
  - inv_bind Hr up w5 R5. destruct (negb _); [by injection Hr as _ <- _ _|].
    inv_bind Hr u w6 R6. inv_bind Hr convey w7 R7.
    destruct (z =? CONN_WAIT_FAIL); [by injection Hr as _ <- _ _|].
    apply IH in Hr. unfold same_defaults in *. cbn in *. congruence.
  - inv_bind Hr r w5 R5. destruct r as [dl bt1]. destruct (negb _); [by injection Hr as _ <- _ _|].
    destruct (z =? CONN_WAIT_FAIL); [by injection Hr as _ <- _ _|].
    apply IH in Hr. unfold same_defaults in *. congruence.
Qed.

(** There is a default server, or the process is being shut down. *)
Definition has_default (l : server_list_t) (w : World) : Prop :=
  server_addr (defaults l) ≠ None \/ shut w.

Lemma connection_loop_default (turns : nat) (ctx ctx' : create_connection_ctx_t) (bt : backoff_timer_t)
    (w w' : World) :
  connection_loop env mem dns_query turns ctx bt w = Done (ctx', w') →
  has_default (server_list ctx) w → has_default (server_list ctx') w'.
Proof.
  revert ctx bt w. induction turns as [|n IH]; intros ctx bt w; cbn [connection_loop];
    intros Hr Hd; inv_bind Hr stop w1 R1;
    (destruct stop; [injection Hr as <- <-; right; by apply read_g_shutdown_inv in R1|]); [done|].
  assert (server_addr (defaults (server_list ctx)) ≠ None) as Hd'.
  { destruct Hd as [Hd|Hd]; [done|]. revert R1. run_m. rewrite Hd. done. }
  inv_bind Hr r w2 R2. destruct r as [[connected ctx2] bt2]. apply keep_trying_defaults in R2.
  assert (server_addr (defaults (server_list (free_redirect ctx2))) ≠ None) as Hd2.
  { unfold same_defaults in R2. cbn in *. by rewrite R2. }
  destruct connected; [injection Hr as <- <-; by left|].
  destruct (dns_query && _); [|apply (IH _ _ _ Hr); by left].
  inv_bind Hr r w3 R3. destruct r as [rv l]. inv_bind Hr u w4 R4. apply (IH _ _ _ Hr).
  apply find_servers_found in R3 as [[-> _]|[Hrv Hl]]; [|by left].
  right. revert R4. run_m. by intros [= _ <-].
Qed.

(** What the part behind the loop leaves. *)
Lemma connected_to_server_inv (ctx : create_connection_ctx_t) (w w' : World) :
  connected_to_server env ctx w = Done (tt, w') →
  current_server ctx ≠ None /\ g_conn w' = g_conn w /\ g_shutdown w' = g_shutdown w /\
  cloud_status (parodusCfg w') = Some CLOUD_STATUS_ONLINE /\ close_retry w' = false /\
  heartBeatTimer (heart w') = 0 /\ reconnect_reason w' = Some ("webpa_process_starts"%cs) /\
  LastReasonStatus w' = false.
Proof.
  unfold connected_to_server. intros Hr. inv_bind Hr server w1 R1.
  assert (current_server ctx ≠ None) as Hc.
  { intros He. revert R1. unfold current. by rewrite He. }
  assert (w1 = w) as -> by (revert R1; unfold current; destruct (current_server ctx); [|done]; by intros [= _ <-]).
  revert Hr. unfold stop_conn_in_progress, write_conn_in_prog_file, setMessageHandlers, reset_close_retry,
    set_reconnect, ping_status_changed. run_m. destruct (ping_handler _); cbn beta iota zeta;
    match goal with |- context [connection_health_file ?c] => destruct (connection_health_file c) end;
    try match goal with |- context [env ?hh (sys_fopen_write ?ff)] => destruct (env hh (sys_fopen_write ff)) end;
    intros E; apply (f_equal (λ o, match o with Done (_, v) => v | _ => w end)) in E; cbv beta iota in E;
    subst w'; (split_and!; [exact Hc|reflexivity..]).
Qed.

(** A run of the whole: refused because there is no server to find, or with a server
    chosen by the loop. *)
Lemma createNopollConnection_inv (turns : nat) (b : bool) (l l' : server_list_t) (w w' : World) :
  createNopollConnection env mem dns_query turns true l w = Done ((b, l'), w') →
  (b = false /\ server_addr (defaults l) = None /\ ∃ h,
    (parse_webpa_url (mem h (webpa_url (parodusCfg w))) (webpa_url (parodusCfg w))).1.1 < 0) \/
  (b = true /\ ∃ ctx ctx' bt w1 w2, server_addr (defaults (server_list ctx)) ≠ None /\
    current_server ctx = None /\
    connection_loop env mem dns_query turns ctx bt w1 = Done (ctx', w2) /\
    connected_to_server env ctx' w2 = Done (tt, w') /\ l' = server_list ctx').
Proof.
  unfold createNopollConnection. cbn [negb]. intros Hr.
  inv_bind Hr cfg w1 R1. injection R1 as <- <-. inv_bind Hr r w2 R2. destruct r as [hz h].
  assert (parodusCfg w2 = parodusCfg w) as Hcfg.
  { revert R2. unfold init_header_info, getWebpaConveyHeader. run_m.
    destruct (nopoll_base64_encode _ _); run_m;
      match goal with |- context [(0 <? ?n)%nat] => destruct (0 <? n)%nat end; by intros [= _ _ <-]. }
  inv_bind Hr r w3 R3. destruct r as [rv l1]. unfold server_is_null in R3.
  assert ((rv = FIND_INVALID_DEFAULT /\ server_addr (defaults l) = None /\ ∃ h,
      (parse_webpa_url (mem h (webpa_url (parodusCfg w))) (webpa_url (parodusCfg w))).1.1 < 0) \/
    (rv ≠ FIND_INVALID_DEFAULT /\ server_addr (defaults l1) ≠ None)) as Hl.
  { case_bool_decide as Hnull; [|right; injection R3 as <- <- _; by split].
    apply find_servers_found in R3 as [[-> Hrv]|Hl]; [|by right].
    left. rewrite Hcfg in Hrv. split_and!; [done|done|by eexists]. }
  destruct Hl as [(-> & Hnull & Hp)|[Hrv Hl]].
  { left. by injection Hr as <- _ _. }
  right. rewrite (proj2 (Z.eqb_neq _ _) Hrv) in Hr.
  inv_bind Hr ts w4 R4. inv_bind Hr now w5 R5. inv_bind Hr u w6 R6. inv_bind Hr ctx w7 R7.
  inv_bind Hr u2 w8 R8. injection Hr as <- <- <-. destruct u2. split; [done|].
  eexists _, ctx, _, w6, w7. split_and!; [| |exact R7|exact R8|reflexivity]; [exact Hl|reflexivity].
Qed.
End established.

(** C36. A connection that is reported is in place: unless the process is being shut
    down there is one, the cloud status is online, no close is pending, the heartbeat
    starts anew, the next reconnect has the reason of a start and no redirect is kept
    for it. *)
Theorem connection_established `{CjsonLib} `{NopollLib} `{Credentials} (env : oracle)
    (mem : list event → cstring → url_memory) (dns_query : bool) (turns : nat)
    (l l' : server_list_t) (w w' : World)
    (Hrun : createNopollConnection env mem dns_query turns true l w = Done ((true, l'), w')) :
  (g_conn w' ≠ None \/ g_shutdown w' = true) /\
  cloud_status (parodusCfg w') = Some CLOUD_STATUS_ONLINE /\ close_retry w' = false /\
  heartBeatTimer (heart w') = 0 /\ reconnect_reason w' = Some ("webpa_process_starts"%cs) /\
  LastReasonStatus w' = false /\ server_addr (redirect l') = None.
Proof.
  apply createNopollConnection_inv in Hrun as [(? & _)|(_ & ctx & ctx' & bt & w1 & w2 & _ & Hc & R1 & R2 & ->)];
    [done|].
  apply connection_loop_inv in R1 as [Hconn Hd]; [|by unfold redirect_dropped; rewrite Hc].
  apply connected_to_server_inv in R2 as (Hc' & -> & -> & R2).
  split; [done|]. destruct R2 as (? & ? & ? & ? & ?). split_and!; auto.
Qed.

(** ** Witnesses *)

Definition nopoll_b64 : NopollLib := {|
  nopoll_msg_join := @nopoll_msg_join nopoll_example;
  NOPOLL_PING_FRAME := 9;
  nopoll_base64_encode := λ s _, Some s
|}.
Definition no_credentials : Credentials :=
  {| getAuthToken := mret tt; allow_insecure_conn := mret (-1, None, None) |}.
Lemma no_credentials_laws : @CredentialsLaws no_credentials.
Proof. split; intros; apply keeps_ret. Qed.
Definition mem_example : list event → cstring → url_memory := λ _ url, url_memory_filled (S (length url)) "x"%char.
Definition connect_world : World :=
  (world_init (λ _, None)) <| parodusCfg := cfg_zero <| webpa_url := "https://fabric.example.com:8080" |>
                                                     <| hw_mac := "14cfe2142xxx" |> |>
                           <| close_retry := true |>.

Example connection_established_witness :
  ∃ l' w', @createNopollConnection cjson_example nopoll_b64 no_credentials env_ok mem_example false 3 true
      (mk_servers (mk_server None 0 0) (mk_server None 0 0) (mk_server None 0 0)) connect_world
      = Done ((true, l'), w') /\
    cloud_status (parodusCfg w') = Some CLOUD_STATUS_ONLINE /\ close_retry w' = false /\
    server_addr (defaults l') = Some ("fabric.example.com"%cs).
Proof.
  destruct (@createNopollConnection cjson_example nopoll_b64 no_credentials env_ok mem_example false 3 true
      (mk_servers (mk_server None 0 0) (mk_server None 0 0) (mk_server None 0 0)) connect_world)
    as [[[[] l'] w']| |] eqn:Hrun; [|vm_compute in Hrun; discriminate Hrun..].
  destruct (connection_established _ _ _ _ _ _ _ _ Hrun) as (_ & Hs & Hc & _).
  exists l', w'. split; [reflexivity|]. split; [exact Hs|]. split; [exact Hc|].
  apply (f_equal (λ o, match o with Done ((_, l), _) => server_addr (defaults l) | _ => None end)) in Hrun.
  vm_compute in Hrun. by symmetry.
Defined.

Example connect_and_wait_bounded_witness :
  let ctx := mk_ctx (mk_servers (mk_server (Some ("fabric.example.com"%cs)) 8080 0) (mk_server None 0 0)
      (mk_server None 0 0)) (Some defaults_ref) (mk_header None None None) (Some ("headers"%cs))
      (mk_expire_timer false (mk_timespec 0 0) (mk_timespec 0 0)) in
  ∃ rtn ctx' w', connect_and_wait env_ok mem_example ctx connect_world = Done ((rtn, ctx'), w') /\
    rtn ∈ [CONN_WAIT_SUCCESS; CONN_WAIT_ACTION_RETRY; CONN_WAIT_FAIL].
Proof.
  cbn zeta. set (ctx := mk_ctx _ _ _ _ _).
  destruct (connect_and_wait_bounded env_ok mem_example ctx (mk_server (Some ("fabric.example.com"%cs)) 8080 0)
    connect_world) as (rtn & ctx' & w' & tried & rest & Hrun & Hin & _);
    [intros h conn secs; exact I|reflexivity|discriminate|].
  exists rtn, ctx', w'. by split.
Defined.

(** A shutdown that is asked for before the first turn of the loop leaves no current
    server for the part behind it. *)
Lemma shutdown_before_connecting :
  @createNopollConnection cjson_example nopoll_b64 no_credentials env_ok mem_example false 3 true
      (mk_servers (mk_server None 0 0) (mk_server None 0 0) (mk_server None 0 0))
      (connect_world <| g_shutdown := true |>) = Undef.
Proof. vm_compute. reflexivity. Qed.
