(* ===== verification/Token.v ===== *)
(** * token.c: the server named by a JSON web token from the DNS

    The token is published as TXT records; each may carry a sequence number. The
    records are put in order ([get_rr_seq_table]) and joined ([assemble_jwt_from_dns]);
    cjwt verifies the token, and its endpoint claim is the server to use
    ([analyze_jwt]). The messages of the resolver ([DnsLib]) and the verification
    ([CjwtDecode]) are the libraries'. *)

From S2P Require Import Prelude StringHelpers Timers Config Wrp World Cjson.
Local Open Scope cs_scope.
Local Open Scope Z_scope.

Definition NS_MAXBUF : nat := Z.to_nat 8192.
Definition TXT_REC_ID_MAXSIZE : nat := 128.
Definition MAX_RR_RECS : Z := 10.
Definition SEQ_TABLE_SIZE : nat := 11.
Definition ENDPOINT_NAME : cstring := "endpoint".
Definition TOKEN_ERR_QUERY_DNS_FAIL : Z := -101.
Definition TOKEN_ERR_JWT_DECODE_FAIL : Z := -102.
Definition TOKEN_ERR_ALGO_NOT_ALLOWED : Z := -103.
Definition TOKEN_ERR_INVALID_JWT_CONTENT : Z := -104.
Definition TOKEN_ERR_NO_EXPIRATION : Z := -105.
Definition TOKEN_ERR_JWT_EXPIRED : Z := -106.
Definition TOKEN_ERR_BAD_ENDPOINT : Z := -107.
Definition TOKEN_ERR_MEMORY_FAIL : Z := -999.

(** A record of a DNS message: its type and its data. *)
Record ns_rr : Set := mk_rr { ns_rr_type : Z; ns_rr_rdata : list ascii }.

Class DnsLib : Type := {
  ns_msg : Set;
  ns_t_txt : Z;
  (* the error, or what the call stores *)
  ns_initparse : bytes → Z → Z + ns_msg;
  ns_msg_count : ns_msg → Z;
  ns_parserr : ns_msg → Z → Z + ns_rr
}.

Record cjwt_t : Set := mk_jwt { jwt_alg : Z; jwt_exp : Z; private_claims : option json }.
Class CjwtDecode : Set := {
  (* the text and the key; the error, or the verified token *)
  cjwt_decode : cstring → cstring → Z + cjwt_t
}.

(** ** The records *)

Definition valid_b64_char (c : ascii) : bool :=
  isupper c || islower c || isdigit c ||
  bool_decide (c ∈ ["/"; "+"; "-"; "_"]%char%list).

(** Quotes and newlines are stripped: a first character that is not a digit, and up to
    two last ones. *)
Definition strip_last (rr : list ascii) : list ascii :=
  match last rr with
  | Some c => if valid_b64_char c then rr else removelast rr
  | None => rr
  end.
Definition strip_rr_data (rr : list ascii) : list ascii :=
  strip_last (strip_last
    (match rr with c :: rest => if isdigit c then rr else rest | [] => [] end)).

Fixpoint find_seq_num_from (rr : list ascii) (i digit_ct : Z) : Z :=
  match rr with
  | [] => -1
  | c :: rest =>
      if decide (c = ":"%char) then (if 2 <=? digit_ct then i - 2 else -2)
      else find_seq_num_from rest (i + 1) (if isdigit c then digit_ct + 1 else 0)
  end.
Definition find_seq_num (rr : list ascii) : Z := find_seq_num_from rr 0 0.

Definition get_rr_seq_num (rr : list ascii) : Z :=
  match rr with
  | hi :: lo :: colon :: _ =>
      if decide (colon = ":"%char) then
        if isdigit hi then if isdigit lo then 10 * (code hi - 48) + (code lo - 48) else -1
        else -1
      else -1
  | _ => -1
  end.

(** A slot holds the record's text, or NULL. *)
Abbreviation seq_table := (list (option (list ascii))).

(** The place of a TXT record and what is left of it; [None]: an error. *)
Definition place_record (num_rr_recs : Z) (table : seq_table) (data : list ascii) : option seq_table :=
  let rr := strip_rr_data data in
  let seq_pos := find_seq_num rr in
  if seq_pos =? -2 then None
  else
    let '(seq_num, rr) :=
      if seq_pos <? 0 then (0, rr)
      else let rr := drop (Z.to_nat seq_pos) rr in (get_rr_seq_num rr, rr) in
    if seq_num <? 0 then None
    else if num_rr_recs <? seq_num then None
    else
      match table !! Z.to_nat seq_num with
      | Some None => Some (<[Z.to_nat seq_num := Some (if seq_num =? 0 then rr else drop 3 rr)]> table)
      | _ => None
      end.

Section records.
Context `{DnsLib}.

(** The loop over the records: the error, or the number of TXT records, with the table. *)
Fixpoint rr_loop (n : nat) (msg_handle : ns_msg) (num_rr_recs i : Z) (table : seq_table)
    (num_txt_recs : Z) : Z * seq_table + Z * seq_table :=
  match n with
  | O => inr (num_txt_recs, table)
  | S n =>
      match ns_parserr msg_handle i with
      | inl ret => inl (ret, table)
      | inr rr =>
          if negb (ns_rr_type rr =? ns_t_txt)
          then rr_loop n msg_handle num_rr_recs (i + 1) table num_txt_recs
          else
            match place_record num_rr_recs table (ns_rr_rdata rr) with
            | None => inl (-1, table)
            | Some table => rr_loop n msg_handle num_rr_recs (i + 1) table (num_txt_recs + 1)
            end
      end
  end.

(** [true]: slots 1 to [n] - 1 are filled. *)
Definition slots_filled (table : seq_table) (n : nat) : bool :=
  forallb (λ i, match table !! i with Some (Some _) => true | _ => false end) (seq 1 (n - 1)).

(** The result and the table. *)
Definition get_rr_seq_table (msg_handle : ns_msg) (num_rr_recs : Z) : Z * seq_table :=
  let empty : seq_table := replicate SEQ_TABLE_SIZE None in
  if MAX_RR_RECS <? num_rr_recs then (-1, empty)
  else
    match rr_loop (Z.to_nat num_rr_recs) msg_handle num_rr_recs 0 empty 0 with
    | inl error => error
    | inr (num_txt_recs, table) =>
        match table !! 0%nat with
        | Some (Some rr) =>
            if 1 <? num_txt_recs then (-1, table)
            else (num_txt_recs, <[1%nat := Some rr]> table)
        | _ =>
            if slots_filled table (Z.to_nat num_txt_recs) then (num_txt_recs, table) else (-1, table)
        end
    end.

(** [strncat]: up to [length rr] characters; the buffer has [NS_MAXBUF] bytes. *)
Definition strncat (dest : cstring) (rr : list ascii) : outcome cstring :=
  let joined := (dest ++ cstr rr)%list in
  if (length joined <? NS_MAXBUF)%nat then Done joined else Undef.

(** The slots from [i] on, [n] of them. *)
Fixpoint join_records (n i : nat) (table : seq_table) (jwt_ans : cstring) : outcome cstring :=
  match n with
  | O => Done jwt_ans
  | S n =>
      match table !! i with
      | Some (Some rr) => jwt_ans ← strncat jwt_ans rr; join_records n (S i) table jwt_ans
      | _ => Undef
      end
  end.

(** The result and, when it is 0, the text. *)
Definition assemble_jwt_from_dns (msg_handle : ns_msg) (num_rr_recs : Z) : outcome (Z * cstring) :=
  let '(num_txt_recs, table) := get_rr_seq_table msg_handle num_rr_recs in
  if num_txt_recs <? 0 then Done (num_txt_recs, [])
  else
    jwt_ans ← join_records (Z.to_nat num_txt_recs) 1 table [];
    Done (0, jwt_ans).
End records.

(** ** The query and the token *)

Section token.
Context `{Cjwt} `{CjwtDecode} `{DnsLib} `{CjsonLib} (env : oracle).
Context (mem : list event → cstring → url_memory).

(** The length of the answer, negative on an error, and the answer. *)
Definition nquery (dns_txt_record_id : cstring) : M World (Z * bytes) :=
  ok ← call env res_ninit;
  if ok <? 0 then mret (-1, [])
  else
    '(len, nsbuf) ← call env (res_nquery dns_txt_record_id);
    if len <? 0 then mret (len, [])
    else if Z.of_nat NS_MAXBUF <=? len then mret (-1, [])
    else mret (len, nsbuf).

Definition query_dns (dns_txt_record_id : cstring) : M World (Z * cstring) :=
  '(l, nsbuf) ← nquery dns_txt_record_id;
  if l <? 0 then mret (l, [])
  else
    match ns_initparse nsbuf l with
    | inl ret => mret (ret, [])
    | inr msg_handle => lift (assemble_jwt_from_dns msg_handle (ns_msg_count msg_handle))
    end.

(** [sprintf] into an array of 128 bytes. *)
Definition get_dns_txt_record_id : M World cstring :=
  cfg ← gets parodusCfg;
  let buf := (hw_mac cfg ++ "." ++ dns_txt_url cfg)%cs%list in
  if (length buf <? TXT_REC_ID_MAXSIZE)%nat then mret buf else undef.

Definition validate_algo (jwt : cjwt_t) : M World bool :=
  cfg ← gets parodusCfg;
  mret (if (jwt_alg jwt <? 0) || (num_algorithms <=? jwt_alg jwt) then false
        else negb (Z.land (Z.shiftl 1 (jwt_alg jwt)) (jwt_algo cfg) =? 0)).

(** [parse_webpa_url] of a NULL text is undefined. *)
Definition analyze_jwt (jwt : cjwt_t) : M World (Z * option cstring * option Z) :=
  match private_claims jwt with
  | None => mret (TOKEN_ERR_INVALID_JWT_CONTENT, None, None)
  | Some claims =>
      match cJSON_GetObjectItem (Some claims) ENDPOINT_NAME with
      | None => mret (TOKEN_ERR_INVALID_JWT_CONTENT, None, None)
      | Some (_, (_, endpoint)) =>
          if jwt_exp jwt =? 0 then mret (TOKEN_ERR_NO_EXPIRATION, None, None)
          else
            cur_time ← call env sys_time;
            if jwt_exp jwt <? cur_time then mret (TOKEN_ERR_JWT_EXPIRED, None, None)
            else
              text ← deref (valuestring_of endpoint);
              h ← gets trace;
              let '(http_match, url_buf, port) := parse_webpa_url (mem h text) text in
              if http_match <? 0 then mret (TOKEN_ERR_BAD_ENDPOINT, url_buf, port)
              else mret (http_match, url_buf, port)
      end
  end.

(** token.c without FEATURE_DNS_QUERY is the model with [dns_query] false, which does
    not come here. *)
Definition allow_insecure_conn : M World (Z * option cstring * option Z) :=
  dns_txt_record_id ← get_dns_txt_record_id;
  '(ret, jwt_token) ← query_dns dns_txt_record_id;
  if negb (ret =? 0) then
    mret (if ret =? TOKEN_ERR_MEMORY_FAIL then ret else TOKEN_ERR_QUERY_DNS_FAIL, None, None)
  else
    cfg ← gets parodusCfg;
    key ← lift (key_text cfg);
    match cjwt_decode jwt_token key with
    | inl _ => mret (TOKEN_ERR_JWT_DECODE_FAIL, None, None)
    | inr jwt =>
        ok ← validate_algo jwt;
        if (ok : bool) then analyze_jwt jwt else mret (TOKEN_ERR_ALGO_NOT_ALLOWED, None, None)
    end.
End token.

(** ** Specification

    How a piece of a token is published: a record whose data are the length byte (any
    character), the two digits of its number, a colon, the piece and up to two
    characters of quoting, a quote or a newline. *)

Record chunk : Set := mk_chunk { text : list ascii; quotes : nat }.

Definition two_digits (i : nat) : cstring :=
  [digit_char (Z.of_nat i / 10); digit_char (Z.of_nat i mod 10)].
Definition quoting (tail : list ascii) : Prop :=
  (length tail <= 2)%nat /\ Forall (λ c, valid_b64_char c = false) tail.
Definition publishes (i : nat) (piece : chunk) (data : list ascii) : Prop :=
  ∃ c tail, data = (c :: two_digits i ++ ":"%char :: text piece ++ tail)%list /\
    quoting tail /\ quotes piece = length tail /\ Exists (λ c, valid_b64_char c = true) (text piece).

(** What the reader keeps of a piece: two characters are taken for quoting, so that
    where the record has fewer of them a character of the piece that is not of the
    base64 alphabet, a dot between the parts of the token, goes with them. *)
Definition as_read (piece : chunk) : list ascii :=
  match quotes piece with
  | O => strip_last (strip_last (text piece))
  | 1%nat => strip_last (text piece)
  | _ => text piece
  end.
Definition ends_ok (piece : list ascii) : Prop :=
  ∃ c, last piece = Some c /\ valid_b64_char c = true.
Definition read_whole (piece : chunk) : Prop := quotes piece = 2%nat \/ ends_ok (text piece).

(** The TXT records among the records of a message publish these numbered pieces, in
    this order. *)
Inductive published `{DnsLib} : list ns_rr → list (nat * chunk) → Prop :=
| published_nil : published [] []
| published_other (rr : ns_rr) (rrs : list ns_rr) (l : list (nat * chunk)) :
    ns_rr_type rr ≠ ns_t_txt → published rrs l → published (rr :: rrs) l
| published_txt (rr : ns_rr) (rrs : list ns_rr) (i : nat) (piece : chunk) (l : list (nat * chunk)) :
    ns_rr_type rr = ns_t_txt → publishes i piece (ns_rr_rdata rr) → published rrs l →
    published (rr :: rrs) ((i, piece) :: l).

(** ** Lemmas *)

Lemma strip_last_snoc (l : list ascii) (c : ascii) : valid_b64_char c = false → strip_last (l ++ [c]) = l.
Proof. intros Hc. unfold strip_last. by rewrite last_snoc, Hc, removelast_last. Qed.

Lemma strip_last_app (a b : list ascii) : b ≠ [] → strip_last (a ++ b) = (a ++ strip_last b)%list.
Proof.
  intros Hb. destruct b as [|x b _] using rev_ind; [done|]. unfold strip_last. rewrite app_assoc, !last_snoc.
  destruct (valid_b64_char x); [by rewrite app_assoc|]. by rewrite !removelast_last.
Qed.

(** A character of the alphabet stays. *)
Lemma strip_last_keeps (l : list ascii) :
  Exists (λ c, valid_b64_char c = true) l → Exists (λ c, valid_b64_char c = true) (strip_last l).
Proof.
  intros He. unfold strip_last. destruct l as [|x l _] using rev_ind; [done|]. rewrite last_snoc.
  destruct (valid_b64_char x) eqn:Hx; [done|]. rewrite removelast_last.
  apply Exists_app in He as [?|He]; [done|]. inversion He as [? ? Hc|? ? Hc]; [congruence|inversion Hc].
Qed.

Lemma exists_b64_nonempty (l : list ascii) : Exists (λ c, valid_b64_char c = true) l → l ≠ [].
Proof. by intros He ->; inversion He. Qed.

(** What is in front of the piece is not touched, and the piece is left as [as_read]
    says. *)
Lemma strip_tail (a tail : list ascii) (piece : chunk) :
  Exists (λ c, valid_b64_char c = true) (text piece) → quoting tail → quotes piece = length tail →
  strip_last (strip_last (a ++ text piece ++ tail)) = (a ++ as_read piece)%list.
Proof.
  intros He [Hlen Ht] Hq. pose proof (exists_b64_nonempty _ He) as Hp. unfold as_read.
  destruct tail as [|x [|y [|z tail]]]; [| | |cbn in Hlen; lia]; cbn in Hq; rewrite Hq.
  - rewrite app_nil_r, (strip_last_app a) by done. apply strip_last_app.
    apply exists_b64_nonempty. by apply strip_last_keeps.
  - inversion Ht; subst. rewrite app_assoc, strip_last_snoc by done. by apply strip_last_app.
  - inversion Ht as [|? ? Hx Ht']; subst. inversion Ht'; subst.
    change [x; y] with ([x] ++ [y])%list. rewrite !app_assoc, (strip_last_snoc _ y), strip_last_snoc by done. done.
Qed.

Lemma strip_last_prefix (l : list ascii) : ∃ rest, l = (strip_last l ++ rest)%list /\ (rest = [] ↔ l = [] \/ ends_ok l).
Proof.
  destruct l as [|x l _] using rev_ind; [exists []; split; [done|]; split; [by left|done]|].
  unfold strip_last, ends_ok. rewrite !last_snoc. destruct (valid_b64_char x) eqn:Hx.
  - exists []. rewrite app_nil_r. split; [done|]. split; [|done]. intros _. right. by exists x.
  - exists [x]. rewrite removelast_last. split; [done|]. split; [done|].
    intros [Hn|(c & [= <-] & Hc)]; [|congruence]. by destruct l.
Qed.

(** The reader keeps the beginning of a piece, and all of it exactly when nothing was
    taken for quoting. *)
Lemma as_read_prefix (piece : chunk) :
  (quotes piece <= 2)%nat → text piece ≠ [] →
  ∃ rest, text piece = (as_read piece ++ rest)%list /\ (rest = [] ↔ read_whole piece).
Proof.
  intros Hq Hne. unfold as_read, read_whole. destruct (strip_last_prefix (text piece)) as (r1 & H1 & Hr1).
  assert (r1 = [] ↔ ends_ok (text piece)) as Hr1' by (rewrite Hr1; split; [by intros [?|]|by right]).
  destruct (quotes piece) as [|[|[|n]]]; [| | |lia].
  - destruct (strip_last_prefix (strip_last (text piece))) as (r2 & H2 & Hr2). exists (r2 ++ r1)%list.
    split; [by rewrite app_assoc, <-H2|]. split.
    + intros [_ Hn]%app_eq_nil. right. by apply Hr1'.
    + intros [?|He]; [done|]. apply Hr1' in He as Hn. rewrite Hn, app_nil_r in *.
      apply Hr2. right. by rewrite <-H1.
  - exists r1. split; [done|]. rewrite Hr1'. split; [by right|by intros [?|]].
  - exists []. rewrite app_nil_r. split; [done|]. split; [by left|done].
Qed.

Lemma isdigit_digit (d : Z) : 0 <= d < 10 → isdigit (digit_char d) = true.
Proof. intros Hd. unfold isdigit, char_between. rewrite code_digit by done. lia. Qed.

Lemma digit_not_colon (d : Z) : 0 <= d < 10 → digit_char d ≠ ":"%char.
Proof. intros Hd He. pose proof (code_digit d Hd) as Hc. rewrite He in Hc. change (code ":"%char) with 58 in Hc. lia. Qed.

(** The number and the piece are found again, whatever the length byte is. *)
Lemma place_published (n : Z) (table : seq_table) (i : nat) (piece : chunk) (data : list ascii) :
  publishes i piece data → (1 <= i)%nat → Z.of_nat i <= n → (i < 100)%nat → table !! i = Some None →
  place_record n table data = Some (<[i := Some (as_read piece)]> table).
Proof.
  intros (c & tail & -> & Ht & Hq & Hp) Hi Hn Hi' Hslot.
  set (hi := Z.of_nat i / 10). set (lo := Z.of_nat i mod 10).
  assert (0 <= hi < 10 /\ 0 <= lo < 10 /\ 10 * hi + lo = Z.of_nat i) as (Hhi & Hlo & Hv).
  { unfold hi, lo. Z.to_euclidean_division_equations. lia. }
  set (body := digit_char hi :: digit_char lo :: ":"%char :: as_read piece).
  assert (Hnum : get_rr_seq_num body = Z.of_nat i).
  { unfold get_rr_seq_num, body. rewrite decide_True by done.
    rewrite !isdigit_digit, !code_digit by done. lia. }
  assert (Hstrip : strip_rr_data (c :: two_digits i ++ ":"%char :: text piece ++ tail)%list =
                   if isdigit c then c :: body else body).
  { unfold strip_rr_data. destruct (isdigit c).
    - by apply (strip_tail [c; digit_char hi; digit_char lo; ":"%char]).
    - by apply (strip_tail [digit_char hi; digit_char lo; ":"%char]). }
  unfold place_record. rewrite Hstrip.
  assert (Hfind : find_seq_num (if isdigit c then c :: body else body) = if isdigit c then 1 else 0).
  { unfold find_seq_num. destruct (isdigit c) eqn:Hc; unfold body; cbn [find_seq_num_from].
    - rewrite decide_False by (intros ->; by vm_compute in Hc). rewrite Hc.
      rewrite !decide_False by (by apply digit_not_colon). rewrite !isdigit_digit by done.
      by rewrite decide_True.
    - rewrite !decide_False by (by apply digit_not_colon). rewrite !isdigit_digit by done.
      by rewrite decide_True. }
  rewrite Hfind.
  assert (Hdrop : drop (Z.to_nat (if isdigit c then 1 else 0)) (if isdigit c then c :: body else body) = body)
    by (by destruct (isdigit c)).
  assert (0 <= (if isdigit c then 1 else 0)) as Hpos by (by destruct (isdigit c)).
  rewrite (proj2 (Z.eqb_neq (if isdigit c then 1 else 0) (-2))) by lia.
  rewrite (proj2 (Z.ltb_ge (if isdigit c then 1 else 0) 0)) by lia. rewrite Hdrop, Hnum.
  rewrite (proj2 (Z.ltb_ge (Z.of_nat i) 0)) by lia. rewrite (proj2 (Z.ltb_ge n (Z.of_nat i))) by lia.
  rewrite Nat2Z.id, Hslot, (proj2 (Z.eqb_neq (Z.of_nat i) 0)) by lia. done.
Qed.

Definition placed (table : seq_table) (l : list (nat * list ascii)) : seq_table :=
  foldl (λ t p, <[fst p := Some (snd p)]> t) table l.

Lemma placed_length (l : list (nat * list ascii)) (table : seq_table) : length (placed table l) = length table.
Proof. revert table. induction l as [|[i p] l IH]; intros table; [done|]. cbn. by rewrite IH, length_insert. Qed.

Lemma placed_other (l : list (nat * list ascii)) (table : seq_table) (j : nat) :
  j ∉ map fst l → placed table l !! j = table !! j.
Proof.
  revert table. induction l as [|[i p] l IH]; intros table Hj; [done|]. cbn in *.
  apply not_elem_of_cons in Hj as [Hne Hj]. rewrite IH by done. by apply list_lookup_insert_ne.
Qed.

Lemma placed_in (l : list (nat * list ascii)) (table : seq_table) (i : nat) (p : list ascii) :
  NoDup (map fst l) → (i, p) ∈ l → (i < length table)%nat → placed table l !! i = Some (Some p).
Proof.
  revert table. induction l as [|[j q] l IH]; intros table Hnd Hin Hlt; [by apply not_elem_of_nil in Hin|].
  cbn in *. apply NoDup_cons in Hnd as [Hj Hnd]. apply elem_of_cons in Hin as [[= <- <-]|Hin].
  - rewrite placed_other by done. by apply list_lookup_insert_eq.
  - apply IH; [done|done|]. by rewrite length_insert.
Qed.

(** The pieces as they are read make the token exactly when each was read whole. *)
Lemma concat_as_read_le (pieces : list chunk) :
  Forall (λ p, (quotes p <= 2)%nat /\ text p ≠ []) pieces →
  (length (concat (map as_read pieces)) <= length (concat (map text pieces)))%nat.
Proof.
  induction 1 as [|p pieces [Hq Hne] _ IH]; [done|]. cbn [map concat]. rewrite !length_app.
  destruct (as_read_prefix p Hq Hne) as (rest & -> & _). rewrite length_app. lia.
Qed.

Lemma concat_as_read (pieces : list chunk) :
  Forall (λ p, (quotes p <= 2)%nat /\ text p ≠ []) pieces →
  concat (map as_read pieces) = concat (map text pieces) ↔ Forall read_whole pieces.
Proof.
  induction 1 as [|p pieces [Hq Hne] Hps IH]; [done|]. cbn [map concat]. rewrite Forall_cons, <-IH.
  destruct (as_read_prefix p Hq Hne) as (rest & -> & Hrest). rewrite <-Hrest, <-app_assoc.
  pose proof (concat_as_read_le pieces Hps) as Hle. split.
  - intros He%app_inv_head. destruct rest; [done|]. rewrite He in Hle. cbn in Hle. rewrite length_app in Hle. lia.
  - intros [-> ->]. done.
Qed.

Lemma as_read_ok (pieces : list chunk) :
  Forall (λ p, (quotes p <= 2)%nat /\ text p ≠ []) pieces → Forall cstring_ok (map text pieces) →
  Forall cstring_ok (map as_read pieces).
Proof.
  induction 1 as [|p pieces [Hq Hne] _ IH]; [done|]. cbn [map]. rewrite !Forall_cons. intros [Hc Ht].
  split; [|by apply IH]. destruct (as_read_prefix p Hq Hne) as (rest & He & _). unfold cstring_ok in *.
  rewrite He in Hc. set_solver.
Qed.

Section record_facts.
Context `{DnsLib}.

(** The numbered pieces as they are read. *)
Definition numbered (l : list (nat * chunk)) : list (nat * list ascii) := map (λ p, (fst p, as_read (snd p))) l.

Lemma numbered_fst (l : list (nat * chunk)) : map fst (numbered l) = map fst l.
Proof. unfold numbered. by rewrite map_map. Qed.

Lemma published_length (rrs : list ns_rr) (l : list (nat * chunk)) :
  published rrs l → (length l <= length rrs)%nat.
Proof. induction 1; cbn; lia. Qed.

Lemma published_chunks (rrs : list ns_rr) (l : list (nat * chunk)) :
  published rrs l → Forall (λ p, (quotes (snd p) <= 2)%nat /\ text (snd p) ≠ []) l.
Proof.
  induction 1 as [|rr rrs l _ _ IH|rr rrs i piece l _ Hpub _ IH]; [done..|]. constructor; [|done].
  destruct Hpub as (c & tail & _ & [Hl _] & Hq & He). cbn. split; [lia|]. by apply exists_b64_nonempty.
Qed.

(** From record [i] on the message has the records [rrs]. *)
Definition reads (msg : ns_msg) (i : Z) (rrs : list ns_rr) : Prop :=
  ∀ j rr, rrs !! j = Some rr → ns_parserr msg (i + Z.of_nat j) = inr rr.

Lemma reads_cons (msg : ns_msg) (i : Z) (rr : ns_rr) (rrs : list ns_rr) :
  reads msg i (rr :: rrs) → ns_parserr msg i = inr rr /\ reads msg (i + 1) rrs.
Proof.
  intros Hr. split.
  - rewrite <-(Z.add_0_r i). by apply (Hr 0%nat).
  - intros j rr' Hj. replace (i + 1 + Z.of_nat j) with (i + Z.of_nat (S j)) by lia. by apply (Hr (S j)).
Qed.

(** The pieces have numbers of free slots. *)
Definition free_slots (num : Z) (table : seq_table) (l : list (nat * list ascii)) : Prop :=
  Forall (λ p, (1 <= fst p < 100)%nat /\ Z.of_nat (fst p) <= num /\ table !! fst p = Some None) l.

(** The loop over a message whose records are [rrs]. *)
Lemma rr_loop_published (msg : ns_msg) (num : Z) (rrs : list ns_rr) (l : list (nat * chunk))
    (i : Z) (table : seq_table) (k : Z) :
  published rrs l → NoDup (map fst l) → reads msg i rrs → free_slots num table (numbered l) →
  rr_loop (length rrs) msg num i table k = inr (k + Z.of_nat (length l), placed table (numbered l)).
Proof.
  intros Hp. revert i table k.
  induction Hp as [|rr rrs l Ht Hp IH|rr rrs j piece l Ht Hpub Hp IH]; intros i table k Hnd Hr Hl;
    cbn [rr_loop length].
  - by rewrite Z.add_0_r.
  - apply reads_cons in Hr as [-> Hr]. rewrite (proj2 (Z.eqb_neq _ _) Ht). by apply IH.
  - apply reads_cons in Hr as [-> Hr]. rewrite Ht, Z.eqb_refl. cbn [negb].
    cbn [numbered map] in Hl. apply Forall_cons in Hl as [(Hj & Hjn & Hslot) Hl]. cbn [fst] in Hj, Hjn, Hslot.
    cbn in Hnd. apply NoDup_cons in Hnd as [Hnew Hnd].
    rewrite (place_published num table j piece) by (done || lia). cbn [numbered map placed foldl fst snd].
    rewrite IH; [do 2 f_equal; lia|exact Hnd|exact Hr|].
    apply Forall_forall. intros [j' p'] Hin. unfold free_slots in Hl. rewrite Forall_forall in Hl.
    destruct (Hl _ Hin) as (? & ? & Hs). split_and!; [lia|lia|done|]. cbn [fst] in *.
    rewrite list_lookup_insert_ne; [done|]. intros <-. apply Hnew.
    rewrite <-(numbered_fst l). by apply (list_elem_of_fmap_2 fst) in Hin.
Qed.

Lemma join_records_concat (pieces : list (list ascii)) (table : seq_table) (i : nat) (text : cstring) :
  (∀ j p, pieces !! j = Some p → table !! (i + j)%nat = Some (Some p)) →
  Forall cstring_ok pieces → (length (text ++ concat pieces) < NS_MAXBUF)%nat →
  join_records (length pieces) i table text = Done (text ++ concat pieces)%list.
Proof.
  revert i text. induction pieces as [|p pieces IH]; intros i text Ht Hok Hlen; cbn [join_records length concat].
  - by rewrite app_nil_r.
  - pose proof (Ht 0%nat p eq_refl) as Hp. rewrite Nat.add_0_r in Hp. rewrite Hp.
    apply Forall_cons in Hok as [Hokp Hok]. cbn [concat] in Hlen.
    unfold strncat. rewrite (before_none NUL p Hokp : cstr p = p).
    rewrite (proj2 (Nat.ltb_lt _ _)) by (rewrite length_app in *; rewrite length_app in Hlen; lia).
    cbn [mbind outcome_bind]. rewrite IH.
    + by rewrite app_assoc.
    + intros j q Hj. replace (S i + j)%nat with (i + S j)%nat by lia. by apply Ht.
    + done.
    + by rewrite <-app_assoc.
Qed.

Lemma slots_filled_intro (table : seq_table) (n : nat) :
  (∀ i, (1 <= i < n)%nat → ∃ rr, table !! i = Some (Some rr)) → slots_filled table n = true.
Proof.
  intros Hs. apply forallb_forall. intros i Hi%in_seq. destruct (Hs i) as [rr ->]; [lia|done].
Qed.
Lemma zip_seq_elem {X} (pieces : list X) (j : nat) (p : X) :
  pieces !! j = Some p → (S j, p) ∈ zip (seq 1 (length pieces)) pieces.
Proof.
  intros Hj. apply list_elem_of_lookup. exists j.
  rewrite lookup_zip_with, Hj, lookup_seq_lt by (by apply lookup_lt_Some in Hj). done.
Qed.

(** The numbers of the published pieces are those from 1 on. *)
Lemma numbers_from_one (l : list (nat * chunk)) (pieces : list chunk) :
  l ≡ₚ zip (seq 1 (length pieces)) pieces → map fst l ≡ₚ seq 1 (length pieces).
Proof. intros ->. rewrite fst_zip; [done|]. by rewrite length_seq. Qed.

(** The records of a token fill the table, which is joined in its order. *)
Lemma table_joined (msg : ns_msg) (rrs : list ns_rr) (l : list (nat * chunk)) (pieces : list chunk) :
  Z.of_nat (length rrs) <= MAX_RR_RECS → reads msg 0 rrs → published rrs l →
  l ≡ₚ zip (seq 1 (length pieces)) pieces → Forall cstring_ok (map as_read pieces) →
  (length (concat (map as_read pieces)) < NS_MAXBUF)%nat →
  assemble_jwt_from_dns msg (Z.of_nat (length rrs)) = Done (0, concat (map as_read pieces)).
Proof.
  intros Hrrs Hreads Hpub Hperm Hok Hlen.
  set (n := length pieces). set (empty := replicate SEQ_TABLE_SIZE None : seq_table).
  pose proof (numbers_from_one l pieces Hperm) as Hfst. fold n in Hfst.
  assert (Hll : length l = n) by (rewrite <-(length_map fst l), Hfst; apply length_seq).
  assert (Hle : (length l <= length rrs)%nat) by (by apply published_length).
  assert (Hnd : NoDup (map fst l)) by (rewrite Hfst; apply NoDup_seq).
  unfold MAX_RR_RECS in Hrrs.
  assert (Hempty : ∀ i, (i < SEQ_TABLE_SIZE)%nat → empty !! i = Some None) by (intros; by apply lookup_replicate_2).
  assert (Hfree : free_slots (Z.of_nat (length rrs)) empty (numbered l)).
  { apply Forall_forall. intros p Hp. apply (list_elem_of_fmap_2 fst) in Hp as Hf.
    change (fst <$> numbered l) with (map fst (numbered l)) in Hf.
    rewrite numbered_fst, Hfst in Hf. apply elem_of_seq in Hf. split; [lia|]. split; [lia|].
    apply Hempty. unfold SEQ_TABLE_SIZE. lia. }
  assert (Hslot : ∀ j q, map as_read pieces !! j = Some q → placed empty (numbered l) !! (1 + j)%nat = Some (Some q)).
  { intros j q Hj. apply list_lookup_fmap_Some in Hj as (p & -> & Hj). apply placed_in; [by rewrite numbered_fst| |].
    - apply (list_elem_of_fmap_2 (λ p, (fst p, as_read (snd p))) l (S j, p)). rewrite Hperm. by apply zip_seq_elem.
    - apply lookup_lt_Some in Hj. unfold empty. rewrite length_replicate. unfold SEQ_TABLE_SIZE. lia. }
  unfold assemble_jwt_from_dns, get_rr_seq_table. unfold MAX_RR_RECS.
  rewrite (proj2 (Z.ltb_ge _ _)) by lia. rewrite Nat2Z.id. fold empty.
  rewrite (rr_loop_published msg _ rrs l) by done. rewrite Hll, Z.add_0_l.
  rewrite placed_other by (rewrite numbered_fst, Hfst, elem_of_seq; lia). rewrite Hempty by (unfold SEQ_TABLE_SIZE; lia).
  rewrite Nat2Z.id, slots_filled_intro.
  2:{ intros i Hi. destruct (lookup_lt_is_Some_2 (map as_read pieces) (i - 1)) as [p Hp]; [rewrite length_map; unfold n in *; lia|].
      exists p. apply Hslot in Hp. by replace i with (1 + (i - 1))%nat by lia. }
  rewrite (proj2 (Z.ltb_ge _ _)) by lia. rewrite Nat2Z.id. unfold n.
  rewrite <-(length_map as_read pieces).
  by rewrite (join_records_concat (map as_read pieces) (placed empty (numbered l)) 1 [] Hslot Hok Hlen).
Qed.
End record_facts.

Lemma parse_webpa_url_cases (m : url_memory) (url : cstring) :
  let '(rv, addr, port) := parse_webpa_url m url in
  (rv = -1 /\ addr = None /\ port = None) \/ (0 <= rv /\ addr ≠ None /\ port ≠ None).
Proof.
  unfold parse_webpa_url. destruct (heap_buf m) as [buf|]; [|by left].
  destruct (parse_webpa_url__ _ _ _ _ _ _) as [[insecure u] p].
  destruct (Z.ltb_spec insecure 0); [by left|].
  destruct (_ =? UINT_ERR); [by left|]. destruct (_ || _); [by left|]. by right.
Qed.

(** A bit of the mask of allowed algorithms. *)
Lemma algo_bit_allowed (alg mask : Z) :
  0 <= alg → negb (Z.land (Z.shiftl 1 alg) mask =? 0) = Z.testbit mask alg.
Proof.
  intros Ha. rewrite land_one_bit by done. destruct (Z.testbit mask alg); [|done].
  pose proof (shiftl_one_pos alg Ha). lia.
Qed.

Lemma rsa_mask_bit `{CjwtLaws} (mask alg : Z) :
  rsa_mask mask → Z.testbit mask alg = true → alg = alg_rs256 \/ alg = alg_rs384 \/ alg = alg_rs512.
Proof.
  intros [_ Hm] Hb. rewrite <-Hm, Z.land_spec in Hb. apply andb_true_iff in Hb as [_ Hb].
  pose proof cjwt_rs256. pose proof cjwt_rs384. pose proof cjwt_rs512.
  unfold rsa_algorithms in Hb. rewrite !Z.lor_spec, !shiftl_one_testbit in Hb by lia.
  apply orb_true_iff in Hb as [[Hb|Hb]%orb_true_iff|Hb]; lia.
Qed.

(** ** Properties *)

(** C26. A token is cut into pieces, published as TXT records with their numbers. The
    pieces are joined in the order of the numbers, in whatever order the records arrive,
    whatever length byte precedes them and whatever other records stand between them.
    What is joined of a piece is all of it when two characters of quoting follow it or
    it ends in a character of the base64 alphabet; otherwise the dot at its end is
    taken for quoting and lost. So the token comes back whole exactly when no piece is
    cut that way. *)
Theorem dns_token_joined `{DnsLib} (msg : ns_msg) (rrs : list ns_rr) (l : list (nat * chunk))
    (pieces : list chunk)
    (Hrrs : Z.of_nat (length rrs) <= MAX_RR_RECS) (Hreads : reads msg 0 rrs) (Hpub : published rrs l)
    (Hperm : l ≡ₚ zip (seq 1 (length pieces)) pieces) (Hok : Forall cstring_ok (map text pieces))
    (Hlen : (length (concat (map text pieces)) < NS_MAXBUF)%nat) :
  assemble_jwt_from_dns msg (Z.of_nat (length rrs)) = Done (0, concat (map as_read pieces)) /\
  (concat (map as_read pieces) = concat (map text pieces) ↔ Forall read_whole pieces).
Proof.
  assert (Hchunks : Forall (λ p, (quotes p <= 2)%nat /\ text p ≠ []) pieces).
  { pose proof (published_chunks rrs l Hpub) as Hc. rewrite Hperm in Hc. apply Forall_forall. intros p Hp.
    apply list_elem_of_lookup in Hp as [j Hj]. rewrite Forall_forall in Hc. apply (Hc (S j, p)).
    by apply zip_seq_elem. }
  split; [|by apply concat_as_read]. pose proof (concat_as_read_le pieces Hchunks) as Hle.
  pose proof (as_read_ok pieces Hchunks Hok) as Hok'.
  apply (table_joined msg rrs l pieces); try done. lia.
Qed.

(** What a token says, once it is verified: its endpoint claim. *)
Definition endpoint_of `{CjsonLib} (jwt : cjwt_t) : option cstring :=
  claims ← private_claims jwt;
  endpoint ← cJSON_GetObjectItem (Some claims) ENDPOINT_NAME;
  valuestring_of (snd (snd endpoint)).

Section token_facts.
Context `{Cjwt} `{CjwtDecode} `{DnsLib} `{CjsonLib} (env : oracle).
Context (mem : list event → cstring → url_memory).

Lemma record_id_cfg (c : ParodusCfg) : keeps (cfg_is c) get_dns_txt_record_id.
Proof. unfold get_dns_txt_record_id. keeps. Qed.

Lemma query_dns_cfg (c : ParodusCfg) (name : cstring) : keeps (cfg_is c) (query_dns env name).
Proof. unfold query_dns, nquery. keeps. Qed.

Lemma validate_algo_inv (jwt : cjwt_t) (ok : bool) (w w' : World) :
  validate_algo jwt w = Done (ok, w') → w' = w /\
  (ok = true → 0 <= jwt_alg jwt < num_algorithms /\ Z.testbit (jwt_algo (parodusCfg w)) (jwt_alg jwt) = true).
Proof.
  unfold validate_algo. run_m. intros [= <- <-]. split; [done|].
  destruct (Z.ltb_spec (jwt_alg jwt) 0); [done|]. destruct (Z.leb_spec num_algorithms (jwt_alg jwt)); [done|].
  cbn [orb]. rewrite algo_bit_allowed by lia. intros ->. split; [lia|done].
Qed.

Lemma analyze_jwt_inv (jwt : cjwt_t) (rv : Z) (addr : option cstring) (port : option Z) (w w' : World) :
  analyze_jwt env mem jwt w = Done ((rv, addr, port), w') →
  (rv < 0 /\ addr = None /\ port = None) \/
  (0 <= rv /\ ∃ url h (now : Z) before, trace w' = (before ++ [ev sys_time now])%list /\ jwt_exp jwt ≠ 0 /\
    now <= jwt_exp jwt /\ endpoint_of jwt = Some url /\ parse_webpa_url (mem h url) url = (rv, addr, port)).
Proof.
  unfold analyze_jwt, endpoint_of. destruct (private_claims jwt) as [claims|]; [|by intros [= <- <- <- _]; left].
  cbn [mbind option_bind].
  destruct (cJSON_GetObjectItem (Some claims) ENDPOINT_NAME) as [[i [k endpoint]]|];
    [|by intros [= <- <- <- _]; left].
  cbn [mbind option_bind snd].
  destruct (Z.eqb_spec (jwt_exp jwt) 0); [by intros [= <- <- <- _]; left|]. run_m.
  destruct (Z.ltb_spec (jwt_exp jwt) (env (trace w) sys_time)); [by intros [= <- <- <- _]; left|].
  destruct (valuestring_of endpoint) as [url|]; [|done]. cbv beta iota zeta.
  match goal with |- context [mem ?h url] => set (hist := h); pose proof (parse_webpa_url_cases (mem hist url) url) as Hc end.
  destruct (parse_webpa_url (mem hist url) url) as [[rv' addr'] port'] eqn:Hp.
  destruct Hc as [(-> & -> & ->)|(Hge & _)]; [by intros [= <- <- <- _]; left|].
  rewrite (proj2 (Z.ltb_ge _ _)) by done. intros [= <- <- <- <-]. right. split; [done|].
  exists url, hist, (env (trace w) sys_time), (trace w). by split_and!.
Qed.
End token_facts.

(** C24. A server is taken from a token only when the token can be trusted: the DNS gave
    a text that the library verified with the configured key, its algorithm is one of
    the allowed ones (and so an RSA algorithm, when the configuration was accepted), it
    has an expiration that is not past, and its endpoint parses to that server. In
    every other case the result is negative and there is no server. *)
Theorem token_server_trusted `{CjwtLaws} `{CjwtDecode} `{DnsLib} `{CjsonLib} (env : oracle)
    (mem : list event → cstring → url_memory) (rv : Z) (addr : option cstring) (port : option Z)
    (w w' : World) (Hrun : allow_insecure_conn env mem w = Done ((rv, addr, port), w')) :
  (rv < 0 /\ addr = None /\ port = None) \/
  (0 <= rv /\ ∃ text key jwt url h (now : Z) before,
    key_text (parodusCfg w) = Done key /\ cjwt_decode text key = inr jwt /\
    0 <= jwt_alg jwt < num_algorithms /\ Z.testbit (jwt_algo (parodusCfg w)) (jwt_alg jwt) = true /\
    (rsa_mask (jwt_algo (parodusCfg w)) →
       jwt_alg jwt = alg_rs256 \/ jwt_alg jwt = alg_rs384 \/ jwt_alg jwt = alg_rs512) /\
    trace w' = (before ++ [ev sys_time now])%list /\ jwt_exp jwt ≠ 0 /\ now <= jwt_exp jwt /\
    endpoint_of jwt = Some url /\ parse_webpa_url (mem h url) url = (rv, addr, port)).
Proof.
  unfold allow_insecure_conn in Hrun. inv_bind Hrun rec w1 R1. inv_bind Hrun r w2 R2.
  destruct r as [ret text].
  assert (parodusCfg w2 = parodusCfg w) as Hcfg.
  { apply (query_dns_cfg env (parodusCfg w) _ _ _ _) in R2; [done|].
    by apply (record_id_cfg (parodusCfg w)) in R1. }
  destruct (ret =? 0); cbn [negb] in Hrun.
  2:{ left. destruct (Z.eqb_spec ret TOKEN_ERR_MEMORY_FAIL) as [->|_]; by injection Hrun as <- <- <- _. }
  inv_bind Hrun cfg w3 R3. injection R3 as <- <-. rewrite Hcfg in Hrun.
  inv_bind Hrun key w4 R4. apply lift_inv in R4 as [Hkey ->].
  destruct (cjwt_decode text key) as [e|jwt] eqn:Hjwt; [left; by injection Hrun as <- <- <- _|].
  inv_bind Hrun ok w5 R5. apply validate_algo_inv in R5 as [-> Hok]. rewrite Hcfg in Hok.
  destruct ok; [|left; by injection Hrun as <- <- <- _].
  destruct (Hok eq_refl) as [Halg Hbit].
  apply analyze_jwt_inv in Hrun as [?|(? & url & h & now & before & ? & ? & ? & ? & ?)]; [by left|].
  right. split; [done|]. exists text, key, jwt, url, h, now, before. split_and!; try done; [lia..|].
  intros Hm. by apply (rsa_mask_bit _ _ Hm).
Qed.

(** ** Witnesses and examples *)

Definition dns_example (rrs : list ns_rr) : DnsLib := {|
  ns_msg := list ns_rr;
  ns_t_txt := 16;
  ns_initparse := λ _ _, inr rrs;
  ns_msg_count := λ m, Z.of_nat (length m);
  ns_parserr := λ m i, match m !! Z.to_nat i with Some rr => inr rr | None => inl (-1) end
|}.

Lemma dns_example_reads (rrs : list ns_rr) : @reads (dns_example rrs) rrs 0 rrs.
Proof. intros j rr Hj. cbn [ns_parserr dns_example]. by rewrite Z.add_0_l, Nat2Z.id, Hj. Qed.

(** An alias and the two halves of a token, the second one first; the length byte of
    the first half is the character 7. *)
Definition token_rrs : list ns_rr := [
  mk_rr 5 "alias.example.com";
  mk_rr 16 (chr 20 :: "02:XVCJ9.eyJl" ++ [chr 34; chr 10])%cs%list;
  mk_rr 16 "701:eyJhbGciOi"].

Example dns_token_joined_witness :
  @assemble_jwt_from_dns (dns_example token_rrs) token_rrs 3 = Done (0, "eyJhbGciOiXVCJ9.eyJl"%cs) /\
  Forall read_whole [mk_chunk "eyJhbGciOi" 0; mk_chunk "XVCJ9.eyJl" 2].
Proof.
  pose proof (@dns_token_joined (dns_example token_rrs) token_rrs token_rrs
    [(2%nat, mk_chunk "XVCJ9.eyJl" 2); (1%nat, mk_chunk "eyJhbGciOi" 0)]
    [mk_chunk "eyJhbGciOi" 0; mk_chunk "XVCJ9.eyJl" 2]) as T.
  destruct T as [Hjoined Hwhole].
  - vm_compute. discriminate.
  - apply dns_example_reads.
  - apply published_other; [discriminate|]. apply published_txt; [reflexivity| |apply published_txt; [reflexivity| |constructor]].
    + exists (chr 20), [chr 34; chr 10]. split; [reflexivity|]. split; [|split; [reflexivity|by constructor]].
      split; [cbn; lia|]. by repeat constructor.
    + exists "7"%char, []. split; [reflexivity|]. split; [|split; [reflexivity|by constructor]]. split; [cbn; lia|constructor].
  - apply Permutation_swap.
  - repeat constructor; unfold cstring_ok; apply (bool_decide_unpack _); vm_compute; exact I.
  - apply (proj1 (Nat.ltb_lt _ _)). vm_compute. reflexivity.
  - split; [exact Hjoined|apply Hwhole; reflexivity].
Defined.

(** A token cut just after its first dot, in records without quoting: the dot is lost. *)
Example dot_lost :
  let rrs := [mk_rr 16 "_01:eyJhbGciOi."; mk_rr 16 "_02:XVCJ9"] in
  as_read (mk_chunk "eyJhbGciOi." 0) = "eyJhbGciOi"%cs /\
  @assemble_jwt_from_dns (dns_example rrs) rrs 2 = Done (0, "eyJhbGciOiXVCJ9"%cs).
Proof. vm_compute. by split. Qed.

(** The check for missing records stops before the last one: with an alias, record 1
    and record 3 the missing second record is read all the same. *)
Lemma missing_last_record :
  let rrs := [mk_rr 5 "alias.example.com"; mk_rr 16 "_01:eyJhbGciOi"; mk_rr 16 "_03:XVCJ9"] in
  @assemble_jwt_from_dns (dns_example rrs) rrs 3 = Undef.
Proof. vm_compute. reflexivity. Qed.

(** A record without number whose length byte is a digit keeps it. *)
Lemma length_byte_kept :
  strip_rr_data "1eyJhbGciOiJSUzI1NiIsInR5cCI6IkpXVCJ9.eyJlbmRwb2lu" = "1eyJhbGciOiJSUzI1NiIsInR5cCI6IkpXVCJ9.eyJlbmRwb2lu"%cs.
Proof. vm_compute. reflexivity. Qed.

Definition decode_example : CjwtDecode := {|
  cjwt_decode := λ text key,
    if streq key "key" && streq text "eyJhbGciOiXVCJ9.eyJl"
    then inr (mk_jwt 8 100 (Some (JObject [("endpoint"%cs, JString "https://fabric.example.com:8080")])))
    else inl 22
|}.
Definition token_world : World :=
  (world_init (λ _, None)) <| parodusCfg := cfg_zero <| hw_mac := "14cfe2142xxx" |>
    <| dns_txt_url := "test.mydns.net" |> <| jwt_key := "key" |> <| jwt_algo := 256 |> |>.

Example token_server_trusted_witness :
  ∃ w', @allow_insecure_conn cjwt_example decode_example (dns_example token_rrs) cjson_example env_ok
      (λ _ url, url_memory_filled (length url) "x"%char) token_world
    = Done ((0, Some ("fabric.example.com"%cs), Some 8080), w') /\
    ∃ jwt, jwt_alg jwt = 8 \/ jwt_alg jwt = 9 \/ jwt_alg jwt = 10.
Proof.
  destruct (@allow_insecure_conn cjwt_example decode_example (dns_example token_rrs) cjson_example env_ok
      (λ _ url, url_memory_filled (length url) "x"%char) token_world) as [[[[rv addr] port] w']| |] eqn:Hrun;
    [|vm_compute in Hrun; discriminate Hrun..].
  pose proof (f_equal (λ o, match o with Done (r, _) => Some r | _ => None end) Hrun) as E.
  vm_compute in E. injection E as <- <- <-. exists w'. split; [reflexivity|].
  destruct (@token_server_trusted cjwt_example cjwt_example_laws decode_example (dns_example token_rrs)
    cjson_example _ _ _ _ _ _ _ Hrun) as [(Hneg & _)|(_ & text & key & jwt & url & h & now & before & _ & _ & _ & _ & Hr & _)];
    [by vm_compute in Hneg|].
  exists jwt. apply Hr. unfold rsa_mask. vm_compute. repeat split; reflexivity.
Defined.
