(* ===== verification/AuthToken.v ===== *)
(** * auth_token.c: the token of the authorization server

    [getAuthToken] fetches the token with libcurl in at most three tries. libcurl's
    transfer is one call of the oracle, which answers with the result, the response
    code and the data in the pieces [write_callback_fn] is given; a piece the callback
    refuses ends the transfer with an error, as the library documents. At the end the
    two sources of credentials are put together for Connection.v. *)

From S2P Require Import Prelude StringHelpers Timers Config Wrp World Cjson Connection Token.
Local Open Scope cs_scope.
Local Open Scope Z_scope.

Definition MAX_BUF_SIZE : nat := 256.
Definition MAX_CURL_RETRY_COUNT : nat := 3.
Definition CURLE_WRITE_ERROR : Z := 23.
(** [sizeof (cfg->webpa_auth_token)] *)
Definition max_data_size : nat := Z.to_nat 4096.

(** What has been stored; behind it there is a NUL. *)
Record token_data : Set := mk_token_data { token_size : nat; token_bytes : list ascii }.

(** The number of bytes taken and the data. *)
Definition write_callback_fn (buffer : list ascii) (data : token_data) : nat * token_data :=
  let index := token_size data in
  let n := length buffer in
  if (max_data_size <=? index + n)%nat then (0%nat, mk_token_data 0 (token_bytes data))
  else (n, mk_token_data (index + n) (take index (token_bytes data) ++ buffer)).

(** The transfer: whether every piece was taken. *)
Fixpoint receive (pieces : list (list ascii)) (data : token_data) : bool * token_data :=
  match pieces with
  | [] => (true, data)
  | buffer :: rest =>
      let '(n, data) := write_callback_fn buffer data in
      if (n =? length buffer)%nat then receive rest data else (false, data)
  end.

Section auth_token.
Context (env : oracle).

Definition generate_trans_uuid : M World cstring := call env uuid_generate_random.

(** [snprintf] into a buffer of [MAX_BUF_SIZE] bytes. *)
Definition header (name value : cstring) : cstring := take (MAX_BUF_SIZE - 1) (name ++ ": " ++ value)%cs%list.

Definition createCurlheader : M World (list cstring) :=
  cfg ← gets parodusCfg;
  uuid ← generate_trans_uuid;
  reason ← gets reconnect_reason;
  mret [header "X-Midt-Mac-Address" (hw_mac cfg);
        header "X-Midt-Serial-Number" (hw_serial_number cfg);
        header "X-Midt-Uuid" uuid;
        header "X-Midt-Partner-Id" (partner_id cfg);
        header "X-Midt-Hardware-Model" (hw_model cfg);
        header "X-Midt-Hardware-Manufacturer" (hw_manufacturer cfg);
        header "X-Midt-Firmware-Name" (fw_name cfg);
        header "X-Midt-Protocol" (webpa_protocol cfg);
        header "X-Midt-Interface-Used" (webpa_interface_used cfg);
        header "X-Midt-Last-Reboot-Reason" (hw_last_reboot_reason cfg);
        header "X-Midt-Last-Reconnect-Reason" (default "(null)"%cs reason);
        header "X-Midt-Boot-Retry-Wait" (print_int (s32 (boot_retry_wait cfg)))].

Definition set_token (token : cstring) : M World unit := with_cfg (λ cfg, cfg <| webpa_auth_token := token |>).

Definition requestNewAuthToken (r_count : nat) : M World Z :=
  curl ← call env curl_easy_init;
  if (curl : bool) then
    set_token [];;
    headers ← createCurlheader;
    cfg ← gets parodusCfg;
    let interface := webpa_interface_used cfg in
    let opts := mk_curl (token_server_url cfg)
      (if (0 <? length interface)%nat then Some interface else None)
      (if (r_count =? 1)%nat then CURL_IPRESOLVE_V4
       else if (r_count =? 2)%nat then CURL_IPRESOLVE_V6 else CURL_IPRESOLVE_WHATEVER)
      (client_cert_path cfg) (cert_path cfg) headers in
    '(res, response_code, pieces) ← call env (curl_easy_perform opts);
    let '(taken, data) := receive pieces (mk_token_data 0 []) in
    let res := if taken then res else CURLE_WRITE_ERROR in
    if negb (res =? 0) then set_token [];; mret (-1)
    else if response_code =? 200 then set_token (cstr (token_bytes data));; mret 0
    else set_token [];; mret (-1)
  else set_token [];; mret (-1).

Fixpoint token_loop (tries retry_count : nat) : M World unit :=
  match tries with
  | O => mret tt
  | S tries =>
      status ← requestNewAuthToken retry_count;
      if status =? 0 then mret tt else token_loop tries (S retry_count)
  end.

Definition getAuthToken : M World unit :=
  set_token [];;
  cfg ← gets parodusCfg;
  when (negb (length (hw_mac cfg) =? 0)%nat &&
        match client_cert_path cfg with Some p => negb (length p =? 0)%nat | None => false end)
    (token_loop MAX_CURL_RETRY_COUNT 0).
End auth_token.

(** ** The credentials of the connection *)

Section credentials.
Context `{Cjwt} `{CjwtDecode} `{DnsLib} `{CjsonLib} (env : oracle).
Context (mem : list event → cstring → url_memory).

Definition parodus_credentials : Credentials := {|
  Connection.getAuthToken := getAuthToken env;
  Connection.allow_insecure_conn := allow_insecure_conn env mem
|}.
End credentials.

(** ** Lemmas *)

(** The modes of the transfers in a part of the trace. *)
Fixpoint resolves (l : list event) : list curl_ipresolve :=
  match l with
  | [] => []
  | existT (curl_easy_perform opts) _ :: rest => curl_resolve opts :: resolves rest
  | _ :: rest => resolves rest
  end.

Lemma resolves_app (a b : list event) : resolves (a ++ b) = (resolves a ++ resolves b)%list.
Proof.
  induction a as [|[c x] a IH]; [done|]. cbn. destruct c; try done. cbn. by rewrite IH.
Qed.

(** What the callback has stored fits. *)
Lemma receive_spec (pieces : list (list ascii)) (data data' : token_data) :
  token_size data = length (token_bytes data) → (token_size data < max_data_size)%nat →
  receive pieces data = (true, data') →
  token_bytes data' = (token_bytes data ++ concat pieces)%list /\ (length (token_bytes data') < max_data_size)%nat.
Proof.
  revert data. induction pieces as [|b pieces IH]; intros data Hs Hlt; cbn [receive concat].
  - intros [= <-]. rewrite app_nil_r. split; [done|lia].
  - unfold write_callback_fn. destruct (Nat.leb_spec max_data_size (token_size data + length b)) as [Hle|Hgt].
    + destruct (Nat.eqb_spec 0 (length b)) as [He|_]; [|done]. lia.
    + rewrite Nat.eqb_refl. rewrite Hs, take_ge by lia. intros Hr.
      apply IH in Hr as [-> Hl]; cbn [token_size token_bytes]; [|rewrite length_app; lia|lia].
      rewrite app_assoc. split; [done|exact Hl].
Qed.

(** Only the token has changed, and calls have been made. *)
Definition only_token (w w' : World) (token : cstring) (new : list event) : Prop :=
  w' = w <| parodusCfg := (parodusCfg w) <| webpa_auth_token := token |> |> <| trace := (trace w ++ new)%list |>.

Lemma only_token_trans (w1 w2 w3 : World) (t t' : cstring) (new new' : list event) :
  only_token w1 w2 t new → only_token w2 w3 t' new' → only_token w1 w3 t' (new ++ new').
Proof. intros -> ->. unfold only_token. cbn. by rewrite app_assoc. Qed.

(** The token a try has stored is what its transfer brought. *)
Definition fetched (token : cstring) (new : list event) : Prop :=
  ∃ opts pieces before, new = (before ++ [ev (curl_easy_perform opts) (0, 200, pieces)])%list /\
    token = cstr (concat pieces) /\ (length (concat pieces) < max_data_size)%nat.

Definition mode_of_try (r_count : nat) : curl_ipresolve :=
  if (r_count =? 1)%nat then CURL_IPRESOLVE_V4
  else if (r_count =? 2)%nat then CURL_IPRESOLVE_V6 else CURL_IPRESOLVE_WHATEVER.

Lemma request_run (env : oracle) (r_count : nat) (w : World) :
  ∃ z w' token new, requestNewAuthToken env r_count w = Done (z, w') /\ only_token w w' token new /\
    (resolves new = [] \/ resolves new = [mode_of_try r_count]) /\
    ((z = 0 /\ fetched token new) \/ (z = -1 /\ token = [])).
Proof.
  unfold requestNewAuthToken, set_token, createCurlheader, generate_trans_uuid. run_m.
  destruct (env (trace w) curl_easy_init) eqn:Hinit.
  2:{ eexists _, _, [], _. split; [reflexivity|]. split; [reflexivity|]. split; [by left|by right]. }
  fold (mode_of_try r_count).
  match goal with |- context [env ?h (curl_easy_perform ?o)] =>
    set (hist := h); set (opts := o); destruct (env hist (curl_easy_perform opts)) as [[res code] pieces] eqn:Hp end.
  destruct (receive pieces (mk_token_data 0 [])) as [taken data] eqn:Hrec.
  set (res' := if taken then res else CURLE_WRITE_ERROR).
  set (w1 := w <| parodusCfg := (parodusCfg w) <| webpa_auth_token := [] |> |>
    <| trace := (hist ++ [ev (curl_easy_perform opts) (res, code, pieces)])%list |>).
  assert (∀ token, only_token w (w1 <| parodusCfg := (parodusCfg w) <| webpa_auth_token := token |> |>) token
      [ev curl_easy_init true; ev uuid_generate_random (env (trace w ++ [ev curl_easy_init true]) uuid_generate_random);
       ev (curl_easy_perform opts) (res, code, pieces)]) as Honly.
  { intros token. unfold only_token, w1, hist. cbn. by rewrite <-!app_assoc. }
  destruct (Z.eqb_spec res' 0) as [He|Hne]; cbn [negb].
  - destruct (Z.eqb_spec code 200) as [->|_].
    + eexists _, _, (cstr (token_bytes data)), _. split; [reflexivity|]. split; [apply Honly|].
      split; [by right|]. left. split; [done|].
      destruct taken; unfold res' in He; [|done]. subst res.
      apply receive_spec in Hrec as [E Hlen]; [|done|cbn [token_size]; unfold max_data_size; lia]. cbn in E. rewrite E in *.
      by eexists opts, pieces, [_; _].
    + eexists _, _, [], _. split; [reflexivity|]. split; [apply Honly|]. split; [by right|by right].
  - eexists _, _, [], _. split; [reflexivity|]. split; [apply Honly|]. split; [by right|by right].
Qed.

Lemma only_token_refl (w : World) : only_token w w (webpa_auth_token (parodusCfg w)) [].
Proof. unfold only_token. rewrite app_nil_r. by destruct w as [[] ? ? ? ? ? ? ? ? ? ? ? ? ? ? ? ? ? ? ? ?]. Qed.

Lemma token_loop_run (env : oracle) (tries r_count : nat) (w : World) :
  webpa_auth_token (parodusCfg w) = [] →
  ∃ w' token new, token_loop env tries r_count w = Done (tt, w') /\ only_token w w' token new /\
    resolves new `sublist_of` map mode_of_try (seq r_count tries) /\
    (token = [] \/ fetched token new).
Proof.
  revert r_count w. induction tries as [|n IH]; intros r_count w Hw; cbn [token_loop seq map].
  - exists w, [], []. split; [reflexivity|]. split; [rewrite <-Hw; apply only_token_refl|].
    split; [constructor|by left].
  - destruct (request_run env r_count w) as (z & w1 & token & new & Hr & Ho & Hm & Hz).
    rewrite (bind_Done _ _ _ _ _ Hr). destruct Hz as [[-> Hf]|[-> ->]]; cbn [Z.eqb].
    + exists w1, token, new. split; [reflexivity|]. split; [done|]. split; [|by right].
      destruct Hm as [-> | ->]; [apply sublist_nil_l|].
      apply sublist_skip, sublist_nil_l.
    + destruct (IH (S r_count) w1) as (w2 & token2 & new2 & Hr2 & Ho2 & Hs & Ht).
      { by rewrite Ho. }
      exists w2, token2, (new ++ new2)%list. split; [done|]. split; [by eapply only_token_trans|].
      split.
      * rewrite resolves_app. destruct Hm as [-> | ->]; cbn [app];
          [by apply sublist_cons|by apply sublist_skip].
      * destruct Ht as [->|(opts & pieces & before & -> & ? & ?)]; [by left|right].
        exists opts, pieces, (new ++ before)%list. by rewrite app_assoc.
Qed.

Lemma parodus_credentials_laws `{Cjwt} `{CjwtDecode} `{DnsLib} `{CjsonLib} (env : oracle)
    (mem : list event → cstring → url_memory) : @CredentialsLaws (parodus_credentials env mem).
Proof.
  split; intros Q HQ; cbn.
  - unfold getAuthToken, set_token. keeps.
    generalize 0%nat as r. generalize MAX_CURL_RETRY_COUNT as n.
    induction n as [|n IH]; intros r; cbn [token_loop]; keeps.
    unfold requestNewAuthToken, createCurlheader, generate_trans_uuid, set_token. keeps.
  - unfold allow_insecure_conn, get_dns_txt_record_id, query_dns, nquery, validate_algo, analyze_jwt. keeps.
Qed.

(** ** Properties *)

(** Fetching the token always ends, after at most three transfers that resolve the
    server by default, over IPv4 and over IPv6 in this order, and changes nothing but
    the token. It fits its array; it is empty unless the last transfer was answered
    200, and then it is the data that transfer brought, up to a NUL. Without a MAC
    address or a client certificate there is no transfer. *)
Theorem auth_token_fetched (env : oracle) (w : World) :
  ∃ w' token new, getAuthToken env w = Done (tt, w') /\ only_token w w' token new /\
    resolves new `sublist_of` [CURL_IPRESOLVE_WHATEVER; CURL_IPRESOLVE_V4; CURL_IPRESOLVE_V6] /\
    (length token < max_data_size)%nat /\ (token = [] \/ fetched token new) /\
    (hw_mac (parodusCfg w) = [] \/ client_cert_path (parodusCfg w) = None → new = [] /\ token = []).
Proof.
  unfold getAuthToken, set_token. run_m. set (w1 := w <| parodusCfg := _ |>).
  assert (only_token w w1 [] []) as Hw1.
  { unfold only_token. rewrite app_nil_r. by destruct w. }
  destruct (negb _ && _) eqn:Hcond.
  2:{ exists w1, [], []. split_and!; try done; [apply sublist_nil_l|unfold max_data_size; cbn; lia|by left]. }
  destruct (token_loop_run env MAX_CURL_RETRY_COUNT 0 w1 eq_refl) as (w' & token & new & Hr & Ho & Hs & Ht).
  exists w', token, new. split; [done|]. split; [by apply (only_token_trans _ _ _ _ _ _ _ Hw1)|].
  split; [done|]. split.
  - destruct Ht as [->|(? & pieces & ? & _ & -> & Hl)]; [unfold max_data_size; cbn; lia|].
    pose proof (before_length NUL (concat pieces)). unfold cstr. lia.
  - split; [done|]. intros [He|He]; apply andb_true_iff in Hcond as [Hm Hc].
    + change (hw_mac (parodusCfg w1)) with (hw_mac (parodusCfg w)) in Hm. by rewrite He in Hm.
    + change (client_cert_path (parodusCfg w1)) with (client_cert_path (parodusCfg w)) in Hc. by rewrite He in Hc.
Qed.
