(* ===== verification/InterfaceDown.v ===== *)
(** * The interface_down_event flag between threads

    ParodusInternal.c keeps the flag under [interface_down_mut] and signals
    [interface_down_con] when it is reset; [wait_while_interface_down] of connection.c
    waits until it is. Connection.v has the waiter on its own; here its program points
    are interleaved with the operations of the other threads. Each critical section
    does nothing that blocks while it holds the mutex, so it is one step; between the
    section that reads the flag and the one that goes to sleep the mutex is free. *)

From stdpp Require Import relations.
From S2P Require Import Prelude.
Local Open Scope Z_scope.

(** What the other threads do to the flag, and the shutdown. *)
Inductive flag_op : Set :=
| op_set                 (* set_interface_down_event *)
| op_reset               (* reset_interface_down_event *)
| op_shutdown.           (* g_shutdown = true *)
#[export] Instance flag_op_eq_dec : EqDecision flag_op.
Proof. solve_decision. Defined.

(** The points of [wait_while_interface_down]. *)
Inductive waiter_pc : Set :=
| w_test                 (* before get_interface_down_event *)
| w_lock                 (* the interface is down; before the mutex is locked to wait *)
| w_wait                 (* in pthread_cond_wait, asleep *)
| w_woken                (* signalled; the wait returns 0 *)
| w_check                (* the mutex is unlocked; before g_shutdown is read *)
| w_done (rtn : Z).
#[export] Instance waiter_pc_eq_dec : EqDecision waiter_pc.
Proof. solve_decision. Defined.

Record istate : Set := mk_i {
  interface_down_event : bool;
  i_shutdown : bool;
  waiter : waiter_pc
}.
#[export] Instance istate_settable : Settable istate := λ s, mk_i
  (interface_down_event s) (i_shutdown s) (waiter s).

Definition set_interface_down_event (s : istate) : istate := s <| interface_down_event := true |>.

Definition signal_interface_down_con (s : istate) : istate :=
  match waiter s with w_wait => s <| waiter := w_woken |> | _ => s end.
Definition reset_interface_down_event (s : istate) : istate :=
  signal_interface_down_con (s <| interface_down_event := false |>).

Definition flag_step (op : flag_op) (s : istate) : istate :=
  match op with
  | op_set => set_interface_down_event s
  | op_reset => reset_interface_down_event s
  | op_shutdown => s <| i_shutdown := true |>
  end.

(** The waiter's next step; it has none while it sleeps and when it is done. *)
Definition waiter_step (s : istate) : option istate :=
  match waiter s with
  | w_test => Some (s <| waiter := if interface_down_event s then w_lock else w_done 0 |>)
  | w_lock => Some (s <| waiter := w_wait |>)
  | w_wait => None
  | w_woken => Some (s <| waiter := w_check |>)
  | w_check => Some (s <| waiter := if i_shutdown s then w_done (-1) else w_test |>)
  | w_done _ => None
  end.

(** A step of another thread or of the waiter; a wait may also end spuriously. *)
Inductive istep : istate → istate → Prop :=
| i_other op s : istep s (flag_step op s)
| i_waiter s s' : waiter_step s = Some s' → istep s s'
| i_spurious s : waiter s = w_wait → istep s (s <| waiter := w_woken |>).

(** The waiter on its own. *)
Definition own_step (s s' : istate) : Prop := waiter_step s = Some s'.

(** [shutdownSocketConnection] as far as the waiter sees it. *)
Definition shutdown_ops : list flag_op := [op_shutdown; op_reset].

Definition after_ops (ops : list flag_op) (s : istate) : istate := foldl (λ s op, flag_step op s) s ops.

Definition i_init (down shut : bool) : istate := mk_i down shut w_test.

(** ** Lemmas *)

(** The result is that of the interface being up, or of a shutdown. *)
Definition result_ok (s : istate) : Prop :=
  ∀ r, waiter s = w_done r → r = 0 \/ (r = -1 /\ i_shutdown s = true).

Lemma flag_step_done (op : flag_op) (s : istate) (r : Z) :
  waiter (flag_step op s) = w_done r → waiter s = w_done r /\ (i_shutdown s = true → i_shutdown (flag_step op s) = true).
Proof.
  destruct s as [down sh wt], op; cbn; unfold reset_interface_down_event, signal_interface_down_con; cbn; try done.
  destruct wt; cbn; try done.
Qed.

Lemma istep_result_ok (s s' : istate) : result_ok s → istep s s' → result_ok s'.
Proof.
  intros Hs Hstep r Hr. destruct Hstep as [op s|s s' Hw|s Hw].
  - apply flag_step_done in Hr as [Hr Hsh]. destruct (Hs r Hr) as [?|[? ?]]; [by left|right; auto].
  - unfold waiter_step in Hw. destruct (waiter s) eqn:Hpc; try done; injection Hw as <-; cbn in Hr; try done.
    + destruct (interface_down_event s); [done|]. injection Hr as <-. by left.
    + destruct (i_shutdown s) eqn:Hsh; [|done]. injection Hr as <-. by right.
  - done.
Qed.

Lemma reachable_result_ok (down shut : bool) (s : istate) : rtc istep (i_init down shut) s → result_ok s.
Proof.
  intros Hr. refine (rtc_ind_r (R := istep) result_ok (i_init down shut) _ _ s Hr); [done|].
  intros s1 s2 _ Hstep Hs. by apply (istep_result_ok s1).
Qed.

Lemma own_step_istep (s s' : istate) : rtc own_step s s' → rtc istep s s'.
Proof.
  induction 1 as [|s1 s2 s3 H1 _ IH]; [constructor|]. eapply rtc_l; [by apply i_waiter|done].
Qed.

(** A waiter that is not going to sleep gets to its end when the interface is up. *)
Lemma awake_ends (s : istate) :
  interface_down_event s = false → waiter s ≠ w_lock → waiter s ≠ w_wait →
  ∃ r s', rtc own_step s s' /\ waiter s' = w_done r.
Proof.
  destruct s as [down sh wt]. cbn. intros -> Hl Hw. destruct wt; try done.
  - exists 0, (mk_i false sh (w_done 0)). split; [by apply rtc_once|done].
  - exists (if sh then -1 else 0), (mk_i false sh (w_done (if sh then -1 else 0))). split; [|done].
    destruct sh; repeat (eapply rtc_l; [reflexivity|cbn]); apply rtc_refl.
  - exists (if sh then -1 else 0), (mk_i false sh (w_done (if sh then -1 else 0))). split; [|done].
    destruct sh; repeat (eapply rtc_l; [reflexivity|cbn]); apply rtc_refl.
  - exists rtn, (mk_i false sh (w_done rtn)). split; [apply rtc_refl|done].
Qed.

(** One that is, sleeps, and nothing it does itself wakes it. *)
Definition stuck (s : istate) : Prop := waiter s = w_lock \/ waiter s = w_wait.

Lemma stuck_stays (s s' : istate) : stuck s → rtc own_step s s' → stuck s'.
Proof.
  intros Hs Hr. induction Hr as [|s1 s2 s3 H1 _ IH]; [done|]. apply IH.
  unfold own_step, waiter_step in H1. destruct Hs as [Hs|Hs]; rewrite Hs in H1; [|done].
  injection H1 as <-. by right.
Qed.

Lemma before_lock_stays (ops : list flag_op) (s : istate) : waiter s = w_lock → waiter (after_ops ops s) = w_lock.
Proof.
  revert s. induction ops as [|op ops IH]; intros s Hs; [done|]. apply IH.
  destruct s as [down sh wt], op; cbn in *; subst; done.
Qed.

(** ** Properties *)

(** What [wait_while_interface_down] promises: in every interleaving it ends with 0,
    or with -1 only when a shutdown has been asked for; and a reset of the flag that
    finds the waiter awake or asleep, but not on its way to sleep, lets it come to its
    end. *)
Theorem interface_wait_sound (down shut : bool) (s : istate) (Hr : rtc istep (i_init down shut) s) :
  (∀ r, waiter s = w_done r → r = 0 \/ (r = -1 /\ i_shutdown s = true)) /\
  (waiter s ≠ w_lock → ∃ r s', rtc own_step (reset_interface_down_event s) s' /\ waiter s' = w_done r /\
     (r = 0 \/ (r = -1 /\ i_shutdown s' = true))).
Proof.
  split; [by apply (reachable_result_ok down shut)|]. intros Hl.
  destruct (awake_ends (reset_interface_down_event s)) as (r & s' & Hrun & Hd);
    [by destruct s as [? ? []]|by destruct s as [? ? []]|by destruct s as [? ? []]|].
  exists r, s'. split_and!; [done..|]. apply (reachable_result_ok down shut s'); [|done].
  etrans; [exact Hr|]. eapply rtc_l; [apply (i_other op_reset)|]. by apply own_step_istep.
Qed.

(** The wake-up can be missed: the flag is read and the wait begun in two critical
    sections, so whatever happens to the flag in between, a shutdown included, the
    waiter goes to sleep all the same, and with no further operation it never ends. *)
Theorem interface_up_missed (shut : bool) (ops : list flag_op) :
  ∃ s, rtc istep (i_init true shut) s /\
    rtc istep (i_init true shut) (after_ops ops s) /\
    ∀ s', rtc own_step (after_ops ops s) s' → ∀ r, waiter s' ≠ w_done r.
Proof.
  set (s := mk_i true shut w_lock). exists s.
  assert (rtc istep (i_init true shut) s) as Hs by (apply rtc_once; by apply i_waiter).
  split; [done|]. split.
  - etrans; [exact Hs|]. generalize s. induction ops as [|op ops IH]; intros s0; [done|].
    eapply rtc_l; [apply (i_other op)|apply IH].
  - intros s' Hrun r Hd. apply stuck_stays in Hrun; [|left; by apply before_lock_stays].
    destruct Hrun as [Hw|Hw]; by rewrite Hd in Hw.
Qed.

(** ** Witnesses *)

(** The interface comes up between the two sections: it is up, and the waiter sleeps. *)
Lemma interface_up_asleep :
  ∃ s, rtc istep (i_init true false) s /\ interface_down_event s = false /\ waiter s = w_wait.
Proof.
  exists (mk_i false false w_wait). split; [|done].
  eapply rtc_l; [by apply i_waiter|]. cbn. eapply rtc_l; [apply (i_other op_reset)|]. cbn.
  eapply rtc_l; [by apply i_waiter|]. apply rtc_refl.
Qed.

Example interface_wait_sound_witness :
  rtc istep (i_init false false) (mk_i false false (w_done 0)) /\ ∃ r, r = 0 \/ (r = -1 /\ false = true).
Proof.
  assert (rtc istep (i_init false false) (mk_i false false (w_done 0))) as Hr by (apply rtc_once; by apply i_waiter).
  split; [exact Hr|]. exists 0. exact (proj1 (interface_wait_sound _ _ _ Hr) 0 eq_refl).
Defined.
