(* ===== verification/ConnInterface.v ===== *)
(** * conn_interface.c and seshat_interface.c: the main thread

    [createSocketConnection] connects, turns the event loop until it ends and takes the
    clients and the connection down. The other threads it starts are the tasks of
    Upstream.v, Downstream.v, ServiceAlive.v and Crud.v, whose queues Queue.v models
    with their locking; here a turn of the loop is the main thread's own steps. What the
    others do to [g_shutdown] and [close_retry] in the meantime is read from the oracle. *)

From S2P Require Import Prelude StringHelpers Timers Config Wrp World ClientList Nopoll Upstream Cjson Crud Connection.
Local Open Scope cs_scope.
Local Open Scope Z_scope.

(** ** seshat_interface.c *)

Definition SESHAT_SERVICE_NAME : cstring := "Parodus".

Section seshat.
Context (env : oracle).

Definition registerWithSeshat : M World bool :=
  cfg ← gets parodusCfg;
  rv ← (initialised ← call env (init_lib_seshat (seshat_url cfg));
        if initialised =? 0 then
          registered ← call env (seshat_register SESHAT_SERVICE_NAME (local_url cfg));
          if registered =? 0 then
            discover_url ← call env (seshat_discover SESHAT_SERVICE_NAME);
            mret (bool_decide (discover_url = Some (local_url cfg)))
          else mret false
        else mret false);
  call env shutdown_seshat_lib;;
  mret rv.
End seshat.

(** ** The event loop *)

Definition CLOUD_RECONNECT_TIME : Z := 5.

Section main_thread.
Context `{WrpLib} `{CjsonLib} `{NopollLib} `{Credentials} (env : oracle).
Context (mem : list event → cstring → url_memory) (dns_query seshat_enabled : bool).

(** seshat_interface_stub.c replaces the registration when seshat is not built in. *)
Definition __registerWithSeshat : M World bool :=
  if seshat_enabled then registerWithSeshat env else mret true.

(** [nopoll_loop_wait]: the callbacks for the connection that is open. *)
Fixpoint callbacks (conn : noPollConn) (events : list conn_event) : M World unit :=
  match events with
  | [] => mret tt
  | e :: rest => conn_callback env conn e;; callbacks conn rest
  end.
Definition loop_wait (usecs : Z) : M World unit :=
  events ← call env (nopoll_loop_wait usecs);
  conn ← gets g_conn;
  match conn with Some c => callbacks c events | None => mret tt end.

Definition timed_wait : M World Z :=
  start ← call env sys_clock;
  loop_wait 5000000;;
  stop ← call env sys_clock;
  let diff := timespec_diff start stop in
  mret (s32 (tv_sec diff * 1000 + Z.quot (tv_nsec diff) 1000000)).

(** Besides the main thread itself the CRUD task sets [close_retry], behind a request to
    disconnect from the cloud: the answer of the oracle is the reason in a request that
    has been carried out since the last look. *)
Definition read_close_retry : M World bool :=
  retry ← gets close_retry;
  if (retry : bool) then mret true
  else
    request ← call env sys_cloud_disconnect;
    match request with
    | Some reason =>
        with_cfg (set_cloud_disconnect_reason reason);;
        _ ← ConnDisconnectFromCloud reason;
        mret true
    | None => mret false
    end.

Definition check_heartBeat (webpa_ping_timeout_ms time_taken_ms : Z) : M World unit :=
  beat ← gets heart;
  if webpa_ping_timeout_ms <=? heartBeatTimer beat then
    retry ← read_close_retry;
    when (negb retry)
      (set_reconnect "Ping_Miss" true;;
       ping_status_changed env "missed";;
       set_close_retry);;
    modify (λ w, w <| heart := reset_heartBeatTimer (heart w) |>)
  else modify (λ w, w <| heart := increment_heartBeatTimer time_taken_ms (heart w) |>).

(** The reconnection, after the wait a cloud-disconnect request asks for. *)
Definition close_and_reconnect (turns : nat) (server_list : server_list_t) : M World server_list_t :=
  close_global_conn env;;
  cfg ← gets parodusCfg;
  match cloud_disconnect cfg with
  | Some _ =>
      modify (λ w, w <| cloud_disconnect_max_time := CLOUD_RECONNECT_TIME |>);;
      minutes ← gets cloud_disconnect_max_time;
      _ ← call env (sys_sleep (minutes * 60));
      with_cfg reset_cloud_disconnect_reason
  | None => mret tt
  end;;
  '(_, server_list) ← createNopollConnection env mem dns_query turns true server_list;
  mret server_list.

(** The condition of the loop. *)
Definition turn_end (seshat_registered : bool) (server_list : server_list_t)
    : M World (bool * bool * server_list_t) :=
  retry ← read_close_retry;
  if (retry : bool) then mret (false, seshat_registered, server_list)
  else
    stop ← read_g_shutdown env;
    mret (negb stop, seshat_registered, server_list).

(** One turn: whether the loop goes on, whether seshat knows us, the servers. *)
Definition event_loop_turn (turns : nat) (webpa_ping_timeout_ms : Z) (seshat_registered : bool)
    (server_list : server_list_t) : M World (bool * bool * server_list_t) :=
  time_taken_ms ← timed_wait;
  check_heartBeat webpa_ping_timeout_ms time_taken_ms;;
  seshat_registered ← (if seshat_registered then mret true else __registerWithSeshat);
  down ← get_interface_down_event env;
  up ← (if (down : bool) then wait_while_interface_down env turns else mret 0);
  if negb (up =? 0) then mret (false, seshat_registered, server_list)
  else
    retry ← read_close_retry;
    server_list ← (if (retry : bool) then close_and_reconnect turns server_list else mret server_list);
    turn_end seshat_registered server_list.

Fixpoint event_loop (turns : nat) (webpa_ping_timeout_ms : Z) (seshat_registered : bool)
    (server_list : server_list_t) : M World server_list_t :=
  match turns with
  | O => nofuel
  | S turns =>
      '(go_on, seshat_registered, server_list) ←
        event_loop_turn turns webpa_ping_timeout_ms seshat_registered server_list;
      if (go_on : bool) then event_loop turns webpa_ping_timeout_ms seshat_registered server_list
      else mret server_list
  end.

(** What is done before the loop: whether seshat knows us, and the servers. [None]: the
    process has been aborted. *)
Definition startup (turns : nat) (ctx_created : bool) : M World (option (bool * server_list_t)) :=
  let no_server := mk_server None 0 0 in
  '(create_conn_rtn, server_list) ← createNopollConnection env mem dns_query turns ctx_created
      (set_server_list_null (mk_servers no_server no_server no_server));
  if negb create_conn_rtn then mret None
  else
    packMetaData;;
    modify (λ w, w <| UpStreamMsgQ := [] |>);;
    modify (λ w, w <| ParodusMsgQ := [] |>);;
    seshat_registered ← __registerWithSeshat;
    _ ← call env sys_clock;
    mret (Some (seshat_registered, server_list)).

(** The main thread waits for the others. Their loops end behind [g_shutdown]
    (Shutdown.v): it is the flag that is waited for, and while nobody raises it the wait
    does not end. *)
Definition await_threads : M World unit :=
  stop ← read_g_shutdown env;
  if (stop : bool) then mret tt else nofuel.

(** What is done when the other threads have ended. *)
Definition take_down : M World unit :=
  deleteAllClients;;
  conn ← gets g_conn;
  close_and_unref_connection env conn true.

(** [false]: the process has been aborted. *)
Definition createSocketConnection (turns : nat) (ctx_created : bool) : M World bool :=
  cfg ← gets parodusCfg;
  let webpa_ping_timeout_ms := u32 (1000 * webpa_ping_timeout cfg) in
  started ← startup turns ctx_created;
  match started with
  | None => mret false
  | Some (seshat_registered, server_list) =>
      _ ← event_loop turns webpa_ping_timeout_ms seshat_registered server_list;
      await_threads;;
      take_down;;
      mret true
  end.

(** Called by the signal handlers of main.c; the flag of the interface is with the other
    threads, and the signal that ends a back-off is the answer of [sys_cond_timedwait]. *)
Definition shutdownSocketConnection (reason : option cstring) : M World unit :=
  modify (λ w, w <| shutdown_reason := reason |> <| g_shutdown := true |>).

(** ** main.c *)

Inductive signal : Set := SIGINT | SIGUSR1 | SIGUSR2 | SIGTERM | SIGCHLD | SIGPIPE | SIGALRM | other_signal.

Definition SHUTDOWN_REASON_PARODUS_STOP : cstring := "parodus_stopping".
Definition SHUTDOWN_REASON_SYSTEM_RESTART : cstring := "system_restarting".
Definition SHUTDOWN_REASON_SIGTERM : cstring := "SIGTERM".

Definition sig_handler (sig : signal) : M World unit :=
  match sig with
  | SIGINT => shutdownSocketConnection (Some SHUTDOWN_REASON_PARODUS_STOP)
  | SIGUSR1 => shutdownSocketConnection (Some SHUTDOWN_REASON_SYSTEM_RESTART)
  | SIGTERM => shutdownSocketConnection (Some SHUTDOWN_REASON_SIGTERM)
  | SIGUSR2 | SIGCHLD | SIGPIPE | SIGALRM => mret tt
  | other_signal => shutdownSocketConnection (Some SHUTDOWN_REASON_PARODUS_STOP)
  end.

(** [events] is the command line as [getopt_long] returns it. [None]: aborted. *)
Definition main `{Cjwt} (file_bytes : cstring → option (list ascii)) (GIT_COMMIT_TAG : cstring)
    (turns : nat) (ctx_created : bool) (events : list opt_event) : M World (option Z) :=
  modify (λ w, w <| shutdown_reason := Some SHUTDOWN_REASON_PARODUS_STOP |>);;
  with_cfg (λ _, cfg_zero);;
  with_cfg (setDefaultValuesToCfg GIT_COMMIT_TAG);;
  cfg ← gets parodusCfg;
  flow ← lift (parseCommandLine file_bytes events cfg);
  match flow with
  | opt_return rv cfg =>
      with_cfg (λ _, cfg);;
      if negb (rv =? 0) then mret None
      else
        started ← createSocketConnection turns ctx_created;
        mret (if (started : bool) then Some 0 else None)
  | _ => mret None
  end.
End main_thread.

(** ** Lemmas

    The main thread leaves the clients and the queues between the tasks alone, and a
    shutdown that has been asked for stays asked for. *)

Section main_framed.
Context `{WrpLib} `{CjsonLib} `{NopollLib} `{CredentialsLaws} (env : oracle).
Context (mem : list event → cstring → url_memory) (dns_query seshat_enabled : bool).
#[local] Hint Resolve auth_framed token_framed : keeps.

Section framed.
Context (Q : bool → list reg_list_item_t → Z → list bytes → list wrp_msg_t → Prop) (HQ : flag_free Q).

Lemma framed_conn_callback (conn : noPollConn) (e : conn_event) : keeps (framed Q) (conn_callback env conn e).
Proof.
  destruct e; cbn [conn_callback]; unfold listenerOnMessage_queue, listenerOnPingMessage, listenerOnCloseMessage,
    enqueue_parodus, set_close_retry; keeps.
Qed.

Lemma framed_loop_wait (usecs : Z) : keeps (framed Q) (loop_wait env usecs).
Proof.
  unfold loop_wait. keeps.
  match goal with |- keeps _ (callbacks _ _ ?l) => induction l; cbn [callbacks]; keeps end.
  all: apply framed_conn_callback.
Qed.

Lemma framed_close (conn : option noPollConn) (b : bool) : keeps (framed Q) (close_and_unref_connection env conn b).
Proof. unfold close_and_unref_connection, close_conn. keeps. Qed.

Lemma framed_close_global_conn : keeps (framed Q) (close_global_conn env).
Proof. unfold close_global_conn, set_global_conn. keeps. apply framed_close. Qed.

Lemma framed_wait_while_interface_down (turns : nat) : keeps (framed Q) (wait_while_interface_down env turns).
Proof.
  unfold wait_while_interface_down. apply keeps_bind; [apply framed_close_global_conn|intros _].
  induction turns as [|n IH]; cbn [interface_down_loop]; keeps.
Qed.

Lemma framed_conn_file (b : bool) (t : Z) : keeps (framed Q) (write_conn_in_prog_file env b t).
Proof. unfold write_conn_in_prog_file. keeps. Qed.

Lemma framed_convey : keeps (framed Q) getWebpaConveyHeader.
Proof. unfold getWebpaConveyHeader. keeps. Qed.

Lemma framed_find_servers (l : server_list_t) : keeps (framed Q) (find_servers mem dns_query l).
Proof. unfold find_servers, parse_server_url. keeps. Qed.

Lemma framed_nopoll_connect (ctx : create_connection_ctx_t) (v6 : bool) :
  keeps (framed Q) (nopoll_connect env ctx v6).
Proof.
  unfold nopoll_connect, createConnOpts, check_resolved, checkHostIp, set_global_conn, set_reconnect. keeps.
Qed.

Lemma framed_connect_and_wait (ctx : create_connection_ctx_t) :
  keeps (framed Q) (connect_and_wait env mem ctx).
Proof.
  unfold connect_and_wait. keeps.
  generalize (negb (FLAGS_IPV4_ONLY =? Z.land FLAGS_IPV4_ONLY (flags a))) as v6. revert ctx.
  generalize 2%nat as n. induction n as [|n IH]; intros ctx v6; cbn [connect_loop]; keeps.
  unfold try_connect, wait_connection_ready, parse_server_url. keeps;
    solve [apply framed_nopoll_connect|apply framed_close_global_conn].
Qed.

Lemma framed_keep_trying (turns : nat) (ctx : create_connection_ctx_t) (bt : backoff_timer_t) :
  keeps (framed Q) (keep_trying_to_connect env mem turns ctx bt).
Proof.
  revert ctx bt. induction turns as [|n IH]; intros ctx bt; cbn [keep_trying_to_connect]; keeps.
  - unfold set_extra_headers, build_extra_hdrs. keeps.
  - apply framed_connect_and_wait.
  - apply framed_wait_while_interface_down.
  - apply framed_conn_file.
  - apply framed_convey.
  - unfold backoff_delay, start_conn_in_progress. keeps. apply framed_conn_file.
Qed.

Lemma framed_connection_loop (turns : nat) (ctx : create_connection_ctx_t) (bt : backoff_timer_t) :
  keeps (framed Q) (connection_loop env mem dns_query turns ctx bt).
Proof.
  revert ctx bt. induction turns as [|n IH]; intros ctx bt; cbn [connection_loop]; keeps.
  all: try apply framed_keep_trying. all: try apply framed_find_servers.
  intros w b' w' Hp [= _ <-]. by apply (HQ (g_shutdown w)).
Qed.

Lemma framed_create (turns : nat) (l : server_list_t) :
  keeps (framed Q) (createNopollConnection env mem dns_query turns true l).
Proof.
  unfold createNopollConnection, init_header_info, connected_to_server, stop_conn_in_progress,
    start_conn_in_progress, reset_close_retry, set_reconnect, setMessageHandlers, ping_status_changed. cbn [negb]. keeps.
  all: first [apply framed_convey|apply framed_find_servers|apply framed_conn_file|apply framed_connection_loop].
Qed.

Lemma framed_close_and_reconnect (turns : nat) (l : server_list_t) :
  keeps (framed Q) (close_and_reconnect env mem dns_query turns l).
Proof.
  unfold close_and_reconnect. keeps; [apply framed_close_global_conn|apply framed_create..].
Qed.

Lemma framed_read_close_retry : keeps (framed Q) (read_close_retry env).
Proof. unfold read_close_retry, ConnDisconnectFromCloud, set_close_retry. keeps. Qed.

Lemma framed_event_loop_turn (turns : nat) (timeout : Z) (reg : bool) (l : server_list_t) :
  keeps (framed Q) (event_loop_turn env mem dns_query seshat_enabled turns timeout reg l).
Proof.
  unfold event_loop_turn, turn_end, timed_wait, check_heartBeat,
    set_reconnect, set_close_retry, ping_status_changed, __registerWithSeshat, registerWithSeshat. keeps.
  all: first [apply framed_loop_wait|apply framed_read_close_retry|apply framed_wait_while_interface_down
             |apply framed_close_and_reconnect].
Qed.
End framed.

(** ** The end of the loop *)

(** The wait for the interface has failed. *)
Definition wait_failed (w : World) : Prop :=
  ∃ h rc, trace w = (h ++ [ev sys_cond_wait rc])%list /\ rc ≠ 0.

(** The CRUD task has set [close_retry] behind the main thread's reconnection. *)
Definition disconnected_late (w : World) : Prop :=
  close_retry w = true /\ ∃ h reason, trace w = (h ++ [ev sys_cloud_disconnect (Some reason)])%list.

Lemma wait_while_interface_down_inv (turns : nat) (w w' : World) (r : Z) :
  wait_while_interface_down env turns w = Done (r, w') → r = 0 \/ shut w' \/ wait_failed w'.
Proof.
  unfold wait_while_interface_down. intros Hr. inv_bind Hr u w1 R1. clear R1.
  revert w1 Hr. induction turns as [|n IH]; intros w1; cbn [interface_down_loop]; intros Hr;
    inv_bind Hr down w2 R2; (destruct down; [|left; by injection Hr as <- _]); [done|].
  inv_bind Hr rtn w3 R3. injection R3 as Hrtn R3. destruct (Z.eqb_spec rtn 0) as [->|Hne]; cbn [negb] in Hr.
  - inv_bind Hr stop w4 R4. destruct stop; [|by apply IH in Hr].
    right. left. injection Hr as _ <-. by apply read_g_shutdown_inv in R4.
  - right. right. injection Hr as _ <-. rewrite <-R3, Hrtn. by eexists _, rtn.
Qed.

(** Reading [close_retry]: what was set stays set, and what was not set another one has. *)
Lemma read_close_retry_inv (w w' : World) (b : bool) :
  read_close_retry env w = Done (b, w') →
  b = close_retry w' /\ (b = true → close_retry w = true \/ disconnected_late w').
Proof.
  unfold read_close_retry, ConnDisconnectFromCloud, set_close_retry, disconnected_late. run_m.
  destruct (close_retry w) eqn:Hc; [intros [= <- <-]; rewrite Hc; by split; [|left]|].
  destruct (env (trace w) sys_cloud_disconnect) as [reason|] eqn:He; cbn;
    [|intros [= <- <-]; cbn; by rewrite Hc].
  match goal with |- context [close_retry ?v] => change (close_retry v) with (close_retry w) end. rewrite Hc. cbn.
  intros [= <- <-]. split; [done|]. intros _. right. split; [done|]. by eexists _, reason.
Qed.

Lemma close_and_reconnect_inv (turns : nat) (l l' : server_list_t) (w w' : World) :
  server_addr (defaults l) ≠ None →
  close_and_reconnect env mem dns_query turns l w = Done (l', w') →
  close_retry w' = false /\ has_default l' w'.
Proof.
  unfold close_and_reconnect. intros Hl Hr.
  inv_bind Hr u w1 R1. inv_bind Hr cfg w2 R2. inv_bind Hr u3 w3 R3. inv_bind Hr r w4 R4.
  destruct r as [b l2]. injection Hr as <- <-.
  apply createNopollConnection_inv in R4 as [(_ & ? & _)|(_ & ctx & ctx' & bt & v1 & v2 & Hd & _ & L1 & L2 & ->)];
    [done|].
  apply connection_loop_default in L1; [|by left].
  apply connected_to_server_inv in L2 as (_ & _ & Hs & _ & Hc & _).
  split; [done|]. destruct L1 as [?|?]; [by left|]. right. unfold framed, flag_set in *. congruence.
Qed.

(** How the loop ends. *)
Definition loop_ended (w : World) : Prop := shut w \/ wait_failed w \/ disconnected_late w.

Lemma event_loop_turn_inv (turns : nat) (timeout : Z) (reg reg' go_on : bool) (l l' : server_list_t)
    (w w' : World) :
  event_loop_turn env mem dns_query seshat_enabled turns timeout reg l w = Done ((go_on, reg', l'), w') →
  has_default l w → has_default l' w' /\ (go_on = false → loop_ended w').
Proof.
  unfold loop_ended. intros Hr [Hl|Hs].
  2:{ apply (framed_event_loop_turn _ flag_set_free) in Hr; [|done]. split; [by right|by left]. }
  unfold event_loop_turn, turn_end in Hr. inv_bind Hr ms w1 R1. inv_bind Hr u w2 R2. inv_bind Hr reg1 w3 R3.
  inv_bind Hr down w4 R4. inv_bind Hr up w5 R5.
  assert (up = 0 \/ shut w5 \/ wait_failed w5) as Hup.
  { destruct down; [by apply wait_while_interface_down_inv in R5|left; by injection R5 as <- _]. }
  destruct (Z.eqb_spec up 0) as [->|Hup0]; cbn [negb] in Hr.
  2:{ injection Hr as <- _ <- <-. split; [by left|]. intros _. destruct Hup as [?|[?|?]]; [done|by left|by right; left]. }
  inv_bind Hr retry w6 R6. apply read_close_retry_inv in R6 as [R6 _]. inv_bind Hr l1 w7 R7.
  inv_bind Hr retry' w8 R8. 
  assert (close_retry w7 = false /\ has_default l1 w7) as [Hc Hd].
  { destruct retry; [by apply close_and_reconnect_inv in R7|].
    injection R7 as <- <-. split; [done|by left]. }
  assert (has_default l1 w8) as Hd8.
  { destruct Hd as [?|?]; [by left|right]. exact (framed_read_close_retry _ _ _ _ ltac:(eassumption) R8). }
  apply read_close_retry_inv in R8 as [_ R8]. destruct retry'.
  { injection Hr as <- _ <- <-. split; [done|]. intros _. right. right. by destruct R8; [|congruence|]. }
  inv_bind Hr stop w9 R9. injection Hr as <- _ <- <-.
  pose proof (framed_read _ env flag_set_free w8 stop w9) as Hkeep.
  split; [destruct Hd8 as [?|?]; [by left|right; by apply Hkeep]|].
  destruct stop; [|done]. intros _. left. by apply read_g_shutdown_inv in R9.
Qed.

Lemma event_loop_inv (turns : nat) (timeout : Z) (reg : bool) (l l' : server_list_t) (w w' : World) :
  event_loop env mem dns_query seshat_enabled turns timeout reg l w = Done (l', w') →
  has_default l w → loop_ended w'.
Proof.
  revert reg l w. induction turns as [|n IH]; intros reg l w; cbn [event_loop]; [done|].
  intros Hr Hd. inv_bind Hr r w1 R1. destruct r as [[go_on reg1] l1].
  apply event_loop_turn_inv in R1 as [Hd1 Hend]; [|done].
  destruct go_on; [by apply (IH _ _ _ Hr)|]. injection Hr as <- <-. by apply Hend.
Qed.
End main_framed.

Lemma has_default_keeps {A} (m : M World A) (l : server_list_t) (w w' : World) (a : A) :
  m w = Done (a, w') → keeps shut m → has_default l w → has_default l w'.
Proof. intros Hr Hm [?|?]; [by left|]. right. by apply (Hm w a w'). Qed.

Lemma closed_down (env : oracle) (conn : option noPollConn) (w w' : World) :
  close_and_unref_connection env conn true w = Done (tt, w') →
  g_shutdown w' = g_shutdown w /\ g_head w' = g_head w /\ numOfClients w' = numOfClients w /\
  g_conn w' = g_conn w /\ (conn ≠ None → cloud_status (parodusCfg w') = Some CLOUD_STATUS_OFFLINE).
Proof.
  unfold close_and_unref_connection, close_conn. run_m. destruct conn as [c|]; [|by intros [= <-]].
  destruct (shutdown_reason w) as [r|]; [destruct (streq r "SIGTERM");
    [destruct (close_reason_file (parodusCfg w)) as [f|];
      [destruct (env (trace w) (sys_read_file f)) as [text|]|]|]|]; run_m;
    intros E; apply (f_equal (λ o, match o with Done (_, v) => v | _ => w end)) in E; cbv beta iota in E;
    by subst w'.
Qed.

Lemma taken_down (env : oracle) (w w' : World) :
  take_down env w = Done (tt, w') →
  g_shutdown w' = g_shutdown w /\ g_head w' = [] /\ numOfClients w' = Z.min 0 (numOfClients w) /\
  (g_conn w' ≠ None → cloud_status (parodusCfg w') = Some CLOUD_STATUS_OFFLINE).
Proof.
  unfold take_down, deleteAllClients. run_m. intros R.
  apply closed_down in R as (-> & -> & -> & -> & Hc). split_and!; [done|done| |exact Hc].
  cbn. destruct (Z.ltb_spec 0 (numOfClients w)); lia.
Qed.

Lemma startup_inv `{WrpLib} `{CjsonLib} `{NopollLib} `{CredentialsLaws} (env : oracle)
    (mem : list event → cstring → url_memory) (dns_query seshat_enabled : bool) (turns : nat)
    (ctx_created : bool) (w w' : World) (r : option (bool * server_list_t)) :
  startup env mem dns_query seshat_enabled turns ctx_created w = Done (r, w') →
  match r with
  | Some (_, l) => has_default l w'
  | None => ctx_created = false \/ ∃ h, (parse_webpa_url (mem h (webpa_url (parodusCfg w)))
                                           (webpa_url (parodusCfg w))).1.1 < 0
  end.
Proof.
  unfold startup. intros Hrun. inv_bind Hrun q w2 R2. destruct q as [rtn l]. destruct ctx_created.
  2:{ injection R2 as <- _ _. injection Hrun as <- _. by left. }
  apply createNopollConnection_inv in R2
    as [(-> & _ & Hp)|(-> & ctx & ctx' & bt & v1 & v2 & Hd & _ & L1 & L2 & ->)].
  { injection Hrun as <- _. by right. }
  cbn [negb] in Hrun. apply connection_loop_default in L1; [|by left].
  apply connected_to_server_inv in L2 as (_ & _ & Hs & _).
  assert (has_default (server_list ctx') w2) as Hdef.
  { destruct L1 as [?|?]; [by left|]. right. unfold framed, flag_set in *. congruence. }
  apply (has_default_keeps _ (server_list ctx')) in Hrun as Hend;
    [|unfold packMetaData, __registerWithSeshat, registerWithSeshat; keeps|done].
  inv_bind Hrun u3 w3 R3. inv_bind Hrun u4 w4 R4. inv_bind Hrun u5 w5 R5.
  inv_bind Hrun reg w6 R6. inv_bind Hrun t w7 R7. injection Hrun as <- _. exact Hend.
Qed.

(** ** A silent server *)

(** The milliseconds of a turn whose history is [h]. *)
Definition turn_msecs (env : oracle) (h : list event) : Z :=
  let start := env h sys_clock in
  let stop := env (h ++ [ev sys_clock start] ++ [ev (nopoll_loop_wait 5000000) []])%list sys_clock in
  tv_sec (timespec_diff start stop) * 1000 + Z.quot (tv_nsec (timespec_diff start stop)) 1000000.

(** Nothing is received and a turn takes [d] milliseconds, while the interface is up,
    no shutdown is asked for and nobody asks for a disconnect. *)
Record silent (env : oracle) (d : Z) : Prop := {
  silent_loop : ∀ h usecs, env h (nopoll_loop_wait usecs) = [];
  silent_up : ∀ h, env h sys_interface_down = false;
  silent_running : ∀ h, env h sys_g_shutdown = false;
  silent_kept : ∀ h, env h sys_cloud_disconnect = None;
  silent_clock : ∀ h, turn_msecs env h = d;
  silent_turn : 0 < d < 2 ^ 31
}.

(** How often the callback for pings has been told of a missing one. *)
Fixpoint pings_missed (l : list event) : nat :=
  match l with
  | [] => 0
  | existT (on_ping_status_change status) _ :: rest =>
      (if streq status "missed" then 1 else 0) + pings_missed rest
  | _ :: rest => pings_missed rest
  end.

Lemma pings_missed_app (a b : list event) : pings_missed (a ++ b) = (pings_missed a + pings_missed b)%nat.
Proof.
  induction a as [|[c x] a IH]; [done|]. cbn. destruct c; try done. cbn. rewrite IH. lia.
Qed.

(** [w'] follows [w]; in between no connection was tried and [n] pings were missed. *)
Definition follows_idle (w w' : World) (n : nat) : Prop :=
  ∃ new, trace w' = (trace w ++ new)%list /\ modes_tried new = [] /\ pings_missed new = n.

Lemma follows_idle_trans (w1 w2 w3 : World) (n n' : nat) :
  follows_idle w1 w2 n → follows_idle w2 w3 n' → follows_idle w1 w3 (n + n').
Proof.
  intros (a & Ha & Ma & <-) (b & Hb & Mb & <-). exists (a ++ b)%list.
  by rewrite Hb, Ha, modes_app, Ma, Mb, pings_missed_app, app_assoc.
Qed.

(** What a turn without an answer leaves. *)
Definition waited (w w' : World) (beat : Z) : Prop :=
  follows_idle w w' 0 /\ g_conn w' = g_conn w /\ close_retry w' = close_retry w /\ g_shutdown w' = false /\
  paused (heart w') = false /\ heartBeatTimer (heart w') = beat /\ reconnect_reason w' = reconnect_reason w /\
  ping_handler w' = ping_handler w.

Lemma waited_trans (w1 w2 w3 : World) (b b' : Z) : waited w1 w2 b → waited w2 w3 b' → waited w1 w3 b'.
Proof.
  intros (F1 & ? & ? & _ & _ & _ & ? & ?) (F2 & ? & ? & ? & ? & ? & ? & ?).
  split; [apply (follows_idle_trans _ _ _ 0 0 F1 F2)|]. split_and!; congruence.
Qed.

Section silence.
Context `{CjsonLib} `{NopollLib} `{Credentials} (env : oracle) (d : Z) (Hs : silent env d).
Context (mem : list event → cstring → url_memory) (dns_query seshat_enabled : bool).

Lemma timed_wait_silent (w : World) :
  ∃ new, timed_wait env w = Done (d, w <| trace := (trace w ++ new)%list |>) /\
    modes_tried new = [] /\ pings_missed new = 0%nat.
Proof.
  unfold timed_wait, loop_wait. run_m. rewrite !(silent_loop _ _ Hs).
  pose proof (silent_clock _ _ Hs (trace w)) as Hc. unfold turn_msecs in Hc. rewrite app_assoc in Hc.
  assert (s32 d = d) as Hd.
  { destruct (silent_turn _ _ Hs). unfold s32. rewrite Z.mod_small; lia. }
  cbn in Hc |- *. destruct (g_conn w); cbn; rewrite Hc, Hd;
    (eexists; split; [rewrite <-!app_assoc; reflexivity|split; reflexivity]).
Qed.

Lemma retry_silent (w : World) :
  close_retry w = false →
  read_close_retry env w = Done (false, w <| trace := (trace w ++ [ev sys_cloud_disconnect None])%list |>).
Proof using Hs. intros Hc. unfold read_close_retry. run_m. by rewrite Hc, (silent_kept _ _ Hs). Qed.

Lemma interface_silent (w : World) :
  get_interface_down_event env w = Done (false, w <| trace := (trace w ++ [ev sys_interface_down false])%list |>).
Proof using Hs. run_m. by rewrite (silent_up _ _ Hs). Qed.

Lemma flag_silent (w : World) :
  g_shutdown w = false →
  read_g_shutdown env w = Done (false, w <| trace := (trace w ++ [ev sys_g_shutdown false])%list |>
                                         <| g_shutdown := false |>).
Proof using Hs. intros Hg. run_m. by rewrite Hg, (silent_running _ _ Hs). Qed.

Lemma quiet_turn (turns : nat) (timeout : Z) (l : server_list_t) (w : World) :
  g_shutdown w = false → close_retry w = false → paused (heart w) = false →
  0 <= heartBeatTimer (heart w) < timeout → heartBeatTimer (heart w) + d < 2 ^ 32 →
  ∃ w', event_loop_turn env mem dns_query seshat_enabled turns timeout true l w = Done ((true, true, l), w') /\
    waited w w' (heartBeatTimer (heart w) + d).
Proof using Hs.
  intros Hsh Hc Hp Hlt Hmax. unfold event_loop_turn.
  destruct (timed_wait_silent w) as (new & Hw & Hm & Hp0). rewrite (bind_Done _ _ _ _ _ Hw).
  set (w1 := w <| trace := _ |>). set (w2 := w1 <| heart := (heart w) <| heartBeatTimer := heartBeatTimer (heart w) + d |> |>).
  assert (check_heartBeat env timeout d w1 = Done (tt, w2)) as Hbeat.
  { unfold check_heartBeat, increment_heartBeatTimer. run_m. change (heart w1) with (heart w).
    rewrite (proj2 (Z.leb_gt _ _)) by lia. change (heart w1) with (heart w). rewrite Hp. cbn [negb]. unfold w2.
    destruct (silent_turn _ _ Hs). by rewrite u32_id by (unfold uint_range; lia). }
  rewrite (bind_Done _ _ _ _ _ Hbeat). rewrite (bind_Done (mret true) _ w2 w2 true eq_refl), (bind_Done _ _ _ _ _ (interface_silent w2)).
  match goal with |- context [(_ ← mret 0; _) ?v] => rewrite (bind_Done (mret 0) _ v v 0 eq_refl) end.
  cbn [Z.eqb negb]. 
  match goal with |- context [(_ ← read_close_retry env; _) ?v] => rewrite (bind_Done _ _ _ _ _ (retry_silent v Hc)) end.
  match goal with |- context [(_ ← mret l; _) ?v] => rewrite (bind_Done (mret l) _ v v l eq_refl) end.
  unfold turn_end.
  match goal with |- context [(_ ← read_close_retry env; _) ?v] => rewrite (bind_Done _ _ _ _ _ (retry_silent v Hc)) end.
  match goal with |- context [(_ ← read_g_shutdown env; _) ?v] => rewrite (bind_Done _ _ _ _ _ (flag_silent v Hsh)) end.
  eexists. split; [reflexivity|]. split; [|cbn; split_and!; done].
  eexists. split; [cbn; rewrite <-!app_assoc; reflexivity|]. by rewrite modes_app, pings_missed_app, Hm, Hp0.
Qed.

(** The turn that finds the heartbeat overdue. *)
Lemma missed_turn (turns : nat) (timeout : Z) (l : server_list_t) (w : World) :
  close_retry w = false → timeout <= heartBeatTimer (heart w) →
  ∃ w2, event_loop_turn env mem dns_query seshat_enabled turns timeout true l w =
      (l' ← close_and_reconnect env mem dns_query turns l; turn_end env true l') w2 /\
    follows_idle w w2 (if ping_handler w then 1 else 0) /\ g_conn w2 = g_conn w /\ heartBeatTimer (heart w2) = 0 /\
    reconnect_reason w2 = Some ("Ping_Miss"%cs) /\ LastReasonStatus w2 = true.
Proof using Hs.
  intros Hc Hle. unfold event_loop_turn.
  destruct (timed_wait_silent w) as (new & Hw & Hm & Hp0). rewrite (bind_Done _ _ _ _ _ Hw).
  set (w1 := w <| trace := _ |>).
  assert (∃ told w2, check_heartBeat env timeout d w1 = Done (tt, w2) /\ trace w2 = (trace w1 ++ told)%list /\
    modes_tried told = [] /\ pings_missed told = (if ping_handler w then 1%nat else 0%nat) /\ close_retry w2 = true /\
    g_conn w2 = g_conn w /\ heartBeatTimer (heart w2) = 0 /\ reconnect_reason w2 = Some ("Ping_Miss"%cs) /\
    LastReasonStatus w2 = true) as (told & w2 & Hbeat & Ht & Hm2 & Hp2 & Hc2 & Hw2).
  { unfold check_heartBeat. run_m. change (heart w1) with (heart w). rewrite (proj2 (Z.leb_le _ _)) by lia.
    change (close_retry w1) with (close_retry w). rewrite (retry_silent w1 Hc). cbn [negb].
    unfold set_reconnect, ping_status_changed. run_m.
    match goal with |- context [ping_handler ?v] => change (ping_handler v) with (ping_handler w) end.
    destruct (ping_handler w); eexists _, _; (split; [reflexivity|]); cbn; rewrite <-?app_assoc;
      (split; [reflexivity|by split_and!]). }
  rewrite (bind_Done _ _ _ _ _ Hbeat), (bind_Done (mret true) _ w2 w2 true eq_refl),
    (bind_Done _ _ _ _ _ (interface_silent w2)).
  match goal with |- context [(_ ← mret 0; _) ?v] => rewrite (bind_Done (mret 0) _ v v 0 eq_refl); set (w3 := v) end.
  cbn [Z.eqb negb].
  assert (read_close_retry env w3 = Done (true, w3)) as Hretry.
  { unfold read_close_retry. run_m. change (close_retry w3) with (close_retry w2). by rewrite Hc2. }
  rewrite (bind_Done _ _ _ _ _ Hretry).
  exists w3. split; [reflexivity|]. split; [|exact Hw2]. eexists. split.
  - cbn. rewrite Ht. unfold w1. cbn. rewrite <-!app_assoc. reflexivity.
  - by rewrite !modes_app, !pings_missed_app, Hm, Hp0, Hm2, Hp2, Nat.add_0_r.
Qed.

(** [n] turns without an answer. *)
Lemma quiet_turns (n turns : nat) (timeout : Z) (l : server_list_t) (w : World) :
  g_shutdown w = false → close_retry w = false → paused (heart w) = false →
  0 <= heartBeatTimer (heart w) →
  (n = 0%nat \/ heartBeatTimer (heart w) + (Z.of_nat n - 1) * d < timeout) →
  heartBeatTimer (heart w) + Z.of_nat n * d < 2 ^ 32 →
  ∃ w', event_loop env mem dns_query seshat_enabled (n + turns) timeout true l w =
      event_loop env mem dns_query seshat_enabled turns timeout true l w' /\
    waited w w' (heartBeatTimer (heart w) + Z.of_nat n * d).
Proof.
  revert w. destruct (silent_turn _ _ Hs) as [Hd0 Hd1].
  induction n as [|n IH]; intros w Hsh Hc Hp Hb Hlt Hmax.
  - exists w. split; [done|]. split; [by exists []; rewrite app_nil_r|]. split_and!; try done. lia.
  - destruct Hlt as [?|Hlt]; [done|].
    destruct (quiet_turn (n + turns) timeout l w) as (w1 & Hr & Hw1); [done|done|done|nia|nia|].
    cbn [Nat.add event_loop]. rewrite (bind_Done _ _ _ _ _ Hr).
    pose proof Hw1 as (_ & _ & E1 & E2 & E3 & E4 & _).
    destruct (IH w1) as (w' & Hr' & Hw'); rewrite ?E4; [done|congruence|done|lia| |nia|].
    { destruct n; [by left|right; nia]. }
    exists w'. split; [done|]. rewrite E4 in Hw'.
    replace (heartBeatTimer (heart w) + Z.of_nat (S n) * d) with (heartBeatTimer (heart w) + d + Z.of_nat n * d) by lia.
    by eapply (waited_trans w w1 w').
Qed.
End silence.

(** ** Properties *)

(** C22. The process only ends by a shutdown: [createSocketConnection] refuses to start
    without a noPoll context or with a server URL that does not parse, and otherwise it
    outlives lost connections, failed pings, cloud-disconnect requests and interfaces that
    go down: it returns only when a shutdown has been asked for, and then no client is left
    and the cloud has been told. The event loop itself ends by a shutdown, when the wait for
    the interface fails, or when the CRUD task sets [close_retry] for a cloud-disconnect
    request between the main thread's reconnection and the condition of the loop; in
    the latter two cases the main thread then waits for the other threads, which go on
    until a shutdown is asked for. *)
Theorem process_ends_by_shutdown `{WrpLib} `{CjsonLib} `{NopollLib} `{CredentialsLaws} (env : oracle)
    (mem : list event → cstring → url_memory) (dns_query seshat_enabled : bool) (turns : nat)
    (ctx_created : bool) (w : World) :
  (∀ started w', createSocketConnection env mem dns_query seshat_enabled turns ctx_created w = Done (started, w') →
     if started then
       g_shutdown w' = true /\ g_head w' = [] /\ numOfClients w' <= 0 /\
       (g_conn w' ≠ None → cloud_status (parodusCfg w') = Some CLOUD_STATUS_OFFLINE)
     else
       ctx_created = false \/ ∃ h, (parse_webpa_url (mem h (webpa_url (parodusCfg w)))
                                     (webpa_url (parodusCfg w))).1.1 < 0) /\
  (∀ turns' timeout reg l l' w1 w2,
     startup env mem dns_query seshat_enabled turns ctx_created w = Done (Some (reg, l), w1) →
     event_loop env mem dns_query seshat_enabled turns' timeout reg l w1 = Done (l', w2) →
     g_shutdown w2 = true \/
     (∃ h rc, trace w2 = h ++ [ev sys_cond_wait rc] /\ rc ≠ 0) \/
     (close_retry w2 = true /\ ∃ h reason, trace w2 = h ++ [ev sys_cloud_disconnect (Some reason)])).
Proof.
  split.
  - unfold createSocketConnection. intros started w' Hrun. inv_bind Hrun cfg w1 R1. injection R1 as <- <-.
    inv_bind Hrun r w2 R2. apply startup_inv in R2. destruct r as [[reg l]|].
    2:{ injection Hrun as <- _. exact R2. }
    inv_bind Hrun l3 w3 R3. inv_bind Hrun u4 w4 R4. inv_bind Hrun u5 w5 R5. injection Hrun as <- <-. destruct u5.
    apply taken_down in R5 as (-> & -> & -> & Hc). split_and!; [|reflexivity|lia|exact Hc].
    unfold await_threads in R4. inv_bind R4 stop w6 R6. destruct stop; [|done].
    injection R4 as _ <-. by apply read_g_shutdown_inv in R6.
  - intros turns' timeout reg l l' w1 w2 Hs Hr. apply startup_inv in Hs.
    by apply (event_loop_inv env mem dns_query seshat_enabled) in Hr.
Qed.

(** C28. A silent server is dropped in time, and only then: when a turn takes [d]
    milliseconds and nothing is received, the loop waits exactly the turns after which
    the heartbeat reaches the ping timeout; until then no connection is tried. The next
    turn tells the callback once that the ping is missing if one is registered, which
    nothing in the program does, and closes the connection and connects again with the
    reason Ping_Miss. *)
Theorem silent_server_reconnected `{CjsonLib} `{NopollLib} `{Credentials} (env : oracle) (d : Z)
    (mem : list event → cstring → url_memory) (dns_query seshat_enabled : bool) (n turns : nat)
    (timeout : Z) (l : server_list_t) (w : World)
    (Hsilent : silent env d) (Hsh : g_shutdown w = false) (Hc : close_retry w = false)
    (Hp : paused (heart w) = false) (Hbeat : 0 <= heartBeatTimer (heart w))
    (Hn : timeout <= heartBeatTimer (heart w) + Z.of_nat n * d)
    (Hleast : n = 0%nat \/ heartBeatTimer (heart w) + (Z.of_nat n - 1) * d < timeout)
    (Hmax : heartBeatTimer (heart w) + Z.of_nat n * d < 2 ^ 32) :
  ∃ w', follows_idle w w' (if ping_handler w then 1 else 0) /\ g_conn w' = g_conn w /\
    reconnect_reason w' = Some ("Ping_Miss"%cs) /\ LastReasonStatus w' = true /\ heartBeatTimer (heart w') = 0 /\
    event_loop env mem dns_query seshat_enabled (n + S turns) timeout true l w =
      ('(go_on, reg, l') ← (l' ← close_and_reconnect env mem dns_query turns l; turn_end env true l');
       if (go_on : bool) then event_loop env mem dns_query seshat_enabled turns timeout reg l' else mret l') w'.
Proof.
  destruct (quiet_turns env d Hsilent mem dns_query seshat_enabled n (S turns) timeout l w)
    as (w1 & Hr1 & F1 & G1 & C1 & _ & _ & B1 & _ & P1); try done.
  destruct (missed_turn env d Hsilent mem dns_query seshat_enabled turns timeout l w1)
    as (w2 & Hr2 & F2 & G2 & B2 & R2 & L2); [congruence|lia|]. rewrite P1 in F2.
  exists w2. split; [apply (follows_idle_trans _ _ _ 0 _ F1 F2)|]. split; [congruence|]. split_and!; try done.
  rewrite Hr1. cbn [event_loop]. unfold mbind at 1, M_bind at 1. rewrite Hr2. reflexivity.
Qed.

(** ** Witnesses *)

(** The process is asked to shut down some time after it has connected; the server
    closes the connection once before. *)
Definition env_process : oracle := λ h c,
  match c as c return ans c with
  | sys_g_shutdown => (40 <=? length h)%nat
  | nopoll_loop_wait _ => if (length h <=? 20)%nat then [on_close] else []
  | c => env_ok h c
  end.

Definition process_world : World :=
  connect_world <| parodusCfg := (parodusCfg connect_world) <| webpa_ping_timeout := 180 |> |>.

(** The CRUD task answers a request for a disconnect between the main thread's two looks. *)
Definition env_disconnect : oracle := λ h c,
  match c as c return ans c with
  | sys_cloud_disconnect =>
      match last h with Some (existT sys_cloud_disconnect _) => Some ("maintenance"%cs) | _ => None end
  | c => env_ok h c
  end.

Example process_ends_by_shutdown_witness :
  (∃ w', @createSocketConnection wrp_example cjson_example nopoll_b64 no_credentials env_process mem_example
      false true 20 true process_world = Done (true, w') /\
    g_shutdown w' = true /\ g_head w' = [] /\ cloud_status (parodusCfg w') = Some CLOUD_STATUS_OFFLINE /\
    modes_tried (trace w') = [conn_tls6; conn_tls6]) /\
  (∃ reg l l' w1 w2, @startup wrp_example cjson_example nopoll_b64 no_credentials env_disconnect mem_example
      false true 20 true process_world = Done (Some (reg, l), w1) /\
    @event_loop cjson_example nopoll_b64 no_credentials env_disconnect mem_example
      false true 20 180000 reg l w1 = Done (l', w2) /\
    g_shutdown w2 = false /\ g_conn w2 = Some 1 /\ close_retry w2 = true).
Proof.
  split.
  - destruct (@createSocketConnection wrp_example cjson_example nopoll_b64 no_credentials env_process mem_example
        false true 20 true process_world) as [[[] w']| |] eqn:Hrun; [|vm_compute in Hrun; discriminate Hrun..].
    destruct (@process_ends_by_shutdown wrp_example cjson_example nopoll_b64 no_credentials no_credentials_laws
      env_process mem_example false true 20 true process_world) as [H _].
    destruct (H true w' Hrun) as (Hs & Hh & _ & Hc). clear H.
    pose proof (f_equal (λ o, match o with Done (_, w) => (g_conn w, modes_tried (trace w)) | _ => (None, []) end)
      Hrun) as E. vm_compute in E. injection E as E1 E2. change (Some 1 = g_conn w') in E1.
    exists w'. split; [reflexivity|]. split; [exact Hs|]. split; [exact Hh|]. split; [|by symmetry].
    apply Hc. rewrite <-E1. discriminate.
  - destruct (@startup wrp_example cjson_example nopoll_b64 no_credentials env_disconnect mem_example
        false true 20 true process_world) as [[[[reg l]|] w1]| |] eqn:Hs; [|vm_compute in Hs; discriminate Hs..].
    destruct (@event_loop cjson_example nopoll_b64 no_credentials env_disconnect mem_example
        false true 20 180000 reg l w1) as [[l' w2]| |] eqn:Hr.
    2,3: exfalso; revert Hr; vm_compute in Hs; injection Hs as <- <- <-; vm_compute; discriminate.
    assert (g_shutdown w2 = false /\ g_conn w2 = Some 1 /\ last (trace w2) ≠ Some (ev sys_cond_wait 1)) as (Hg & Hc & _).
    { revert Hr. vm_compute in Hs. injection Hs as <- <- <-. vm_compute. intros [= <- <-]. by split_and!. }
    assert (∀ h rc, trace w2 ≠ h ++ [ev sys_cond_wait rc]) as Hno.
    { intros h rc He. apply (f_equal last) in He. rewrite last_snoc in He. revert He.
      revert Hr. clear Hg Hc. vm_compute in Hs. injection Hs as <- <- <-. vm_compute. intros [= <- <-]. discriminate. }
    destruct (@process_ends_by_shutdown wrp_example cjson_example nopoll_b64 no_credentials no_credentials_laws
      env_disconnect mem_example false true 20 true process_world) as [_ H].
    destruct (H 20%nat 180000 reg l l' w1 w2 Hs Hr) as [?|[(h & rc & He & _)|[Hcr _]]];
      [congruence|by destruct (Hno h rc)|].
    exists reg, l, l', w1, w2. split; [reflexivity|]. split; [exact Hr|]. split; [exact Hg|]. split; [exact Hc|exact Hcr].
Defined.

(** Every call to the outside takes a second, and nothing is received. *)
Definition env_silent : oracle := λ h c,
  match c as c return ans c with
  | sys_clock => mk_timespec (Z.of_nat (length h)) 0
  | c => env_ok h c
  end.

Lemma env_silent_silent : silent env_silent 2000.
Proof.
  split; try done. intros h. unfold turn_msecs, env_silent, timespec_diff.
  rewrite !length_app. cbn [length tv_sec tv_nsec]. change (0 - 0 <? 0) with false.
  cbn [tv_sec tv_nsec]. change (Z.quot (0 - 0) 1000000) with 0. lia.
Qed.

(** With a callback and without one. *)
Example silent_server_reconnected_witness :
  let l := mk_servers (mk_server None 0 0) (mk_server None 0 0) (mk_server None 0 0) in
  let w registered := process_world <| g_conn := Some 1 |> <| close_retry := false |> <| ping_handler := registered |> in
  Forall (λ registered : bool, ∃ w', follows_idle (w registered) w' (if registered then 1 else 0) /\ reconnect_reason w' = Some ("Ping_Miss"%cs) /\
    @event_loop cjson_example nopoll_b64 no_credentials env_silent mem_example false true 94 180000 true l (w registered) =
      ('(go_on, reg, l') ←
         (l' ← @close_and_reconnect cjson_example nopoll_b64 no_credentials env_silent mem_example false 3 l;
          turn_end env_silent true l');
       if (go_on : bool) then
         @event_loop cjson_example nopoll_b64 no_credentials env_silent mem_example false true 3 180000 reg l'
       else mret l') w') [true; false].
Proof.
  intros l w. apply Forall_forall. intros registered _.
  destruct (@silent_server_reconnected cjson_example nopoll_b64 no_credentials env_silent 2000 mem_example
    false true 90 3 180000 l (w registered) env_silent_silent eq_refl eq_refl eq_refl)
    as (w' & Hf & _ & Hr & _ & _ & He);
    [vm_compute; discriminate|vm_compute; discriminate|right; reflexivity|reflexivity|].
  exists w'. split; [exact Hf|]. split; [exact Hr|exact He].
Defined.
