(* ===== verification/System.v ===== *)
(** * The process as a whole

    The threads [createSocketConnection] starts are tasks that share one [World]; a step
    of the system is one turn of a task that has not ended. Within a turn nobody else
    moves: the main thread leaves alone what the others share
    (ConnInterface.framed_event_loop_turn), and of the queues' locking, which Queue.v
    models, only the order of the messages is left. [close_retry], which the CRUD task
    sets too, is read from the oracle (ConnInterface.read_close_retry). *)

From S2P Require Import Prelude StringHelpers Timers Config Wrp World ClientList ServiceAlive Nopoll Upstream Cjson Crud CrudStore Downstream Connection ConnInterface.
Local Open Scope cs_scope.
Local Open Scope Z_scope.

(** ** The tasks *)

Inductive task : Set :=
| main_thread
| upstream_tid
| upstream_msg_tid
| downstream_tid
| svc_alive_tid
| crud_tid.
#[export] Instance task_eq_dec : EqDecision task.
Proof. solve_decision. Defined.

Definition tasks : list task :=
  [main_thread; upstream_tid; upstream_msg_tid; downstream_tid; svc_alive_tid; crud_tid].

(** What the threads share, the threads that have not ended, and the variables that live
    in the frames of the threads from one turn to the next. *)
Record system : Type := mk_system {
  world : World;
  live : list task;
  main_joins : bool;
  main_registered : bool;
  main_servers : server_list_t;
  msg_locals : upstream_locals
}.
#[export] Instance system_settable : Settable system := λ s, mk_system
  (world s) (live s) (main_joins s) (main_registered s) (main_servers s) (msg_locals s).

Definition ends (t : task) (s : system) : system := s <| live := filter (λ x, x ≠ t) (live s) |>.

Section system.
Context `{WrpLib} `{CjsonLib} `{NopollLib} `{Credentials} (env : oracle).
Context (mem : list event → cstring → url_memory) (dns_query seshat_enabled : bool).
(* the local of [createSocketConnection], the turns for its inner loops, the socket and
   the endpoint of [handle_upstream], the message of [serviceAliveTask] *)
Context (webpa_ping_timeout_ms : Z) (turns : nat) (rcv_sock rcv_bind : Z) (svc_bytes : bytes).

(** The main thread joins the others before it takes everything down. *)
Definition enabled (t : task) (s : system) : Prop :=
  match t with
  | main_thread => main_joins s = true → live s = [main_thread]
  | _ => True
  end.
#[export] Instance enabled_dec (t : task) (s : system) : Decision (enabled t s).
Proof. unfold enabled. destruct t; apply _. Defined.

Definition main_turn (s : system) : outcome system :=
  if main_joins s then
    '(_, w) ← take_down env (world s);
    Done (ends main_thread (s <| world := w |>))
  else
    '((go_on, registered, l), w) ←
      event_loop_turn env mem dns_query seshat_enabled turns webpa_ping_timeout_ms
        (main_registered s) (main_servers s) (world s);
    Done (s <| world := w |> <| main_joins := negb go_on |> <| main_registered := registered |>
            <| main_servers := l |>).

(** A turn whose result says whether the thread ends. *)
Definition task_turn (t : task) (m : M World bool) (s : system) : outcome system :=
  '(stop, w) ← m (world s);
  let s := s <| world := w |> in
  Done (if (stop : bool) then ends t s else s).

(** The end of [handle_upstream] belongs to its last turn. *)
Definition receiver_turn : M World bool :=
  stop ← handle_upstream_turn env rcv_sock;
  if (stop : bool) then
    _ ← call env (nn_shutdown rcv_sock rcv_bind);
    _ ← call env (nn_close rcv_sock);
    mret true
  else mret false.

Definition consumer_turn (s : system) : outcome system :=
  '((stop, v), w) ← processUpstreamMessage_turn env (msg_locals s) (world s);
  let s := s <| world := w |> <| msg_locals := v |> in
  Done (if (stop : bool) then ends upstream_msg_tid s else s).

Definition turn (t : task) (s : system) : outcome system :=
  match t with
  | main_thread => main_turn s
  | upstream_tid => task_turn t receiver_turn s
  | upstream_msg_tid => consumer_turn s
  | downstream_tid => task_turn t (messageHandlerTask_turn env) s
  | svc_alive_tid => task_turn t (serviceAlive_turn env svc_bytes) s
  | crud_tid => task_turn t (CRUDHandlerTask_turn env) s
  end.

Inductive sys_step (s s' : system) : Prop :=
| sys_turn (t : task) : t ∈ live s → enabled t s → turn t s = Done s' → sys_step s s'.

(** The threads are started when the main thread is connected. [handle_upstream] ends at
    once when it gets no socket or cannot bind it, and [serviceAliveTask] when its message
    cannot be encoded; these first steps, which touch nothing the others look at, are done
    here, and a turn is one of the loop behind them. *)
Definition gets_going (bound : option (Z * Z)) (alive : option bytes) (t : task) : Prop :=
  match t with
  | upstream_tid => bound ≠ None
  | svc_alive_tid => alive ≠ None
  | _ => True
  end.
#[export] Instance gets_going_dec bound alive t : Decision (gets_going bound alive t).
Proof. unfold gets_going. destruct t; apply _. Defined.

Definition running (bound : option (Z * Z)) (alive : option bytes) : list task :=
  filter (gets_going bound alive) tasks.

Definition started (w0 : World) (s : system) : Prop :=
  ∃ registered l w bound w',
    startup env mem dns_query seshat_enabled turns true w0 = Done (Some (registered, l), w) /\
    handle_upstream_start env w = Done (bound, w') /\
    (bound = None \/ bound = Some (rcv_sock, rcv_bind)) /\
    (wrp_struct_to WRP_SVC_ALIVE = None \/ wrp_struct_to WRP_SVC_ALIVE = Some svc_bytes) /\
    s = mk_system w' (running bound (wrp_struct_to WRP_SVC_ALIVE)) false registered l locals_start.

Lemma running_spec bound alive (t : task) : t ∈ running bound alive ↔ gets_going bound alive t.
Proof. unfold running. rewrite list_elem_of_filter. split; [by intros [? _]|]. intros Hg. split; [done|]. unfold tasks. destruct t; set_solver. Qed.

(** The turns of some tasks one after the other; undefined when one cannot move. *)
Fixpoint schedule (ts : list task) (s : system) : outcome system :=
  match ts with
  | [] => Done s
  | t :: ts =>
      if decide (t ∈ live s /\ enabled t s) then s ← turn t s; schedule ts s else Undef
  end.

Lemma schedule_turn (t : task) (ts : list task) (s s1 : system) :
  t ∈ live s → enabled t s → turn t s = Done s1 → schedule (t :: ts) s = schedule ts s1.
Proof. intros Hl He Hr. cbn [schedule]. rewrite decide_True by done. by rewrite Hr. Qed.

Lemma turn_task (t : task) (m : M World bool) (s : system) (w : World) :
  m (world s) = Done (false, w) → task_turn t m s = Done (s <| world := w |>).
Proof. unfold task_turn. by intros ->. Qed.

Lemma turn_consumer (s : system) (w : World) (v : upstream_locals) :
  processUpstreamMessage_turn env (msg_locals s) (world s) = Done ((false, v), w) →
  turn upstream_msg_tid s = Done (s <| world := w |> <| msg_locals := v |>).
Proof. cbn [turn]. unfold consumer_turn. by intros ->. Qed.

Lemma schedule_steps (ts : list task) (s s' : system) : schedule ts s = Done s' → rtc sys_step s s'.
Proof.
  revert s. induction ts as [|t ts IH]; intros s; cbn [schedule]; [by intros [= ->]|].
  case_decide as Ht; [|done]. destruct Ht as [Hl He].
  destruct (turn t s) as [s1| |] eqn:Hr; [|done|done]. intros Hs.
  eapply rtc_l; [by apply (sys_turn s s1 t)|by apply IH].
Qed.
End system.

(** ** What the turns keep *)

(** The clients, whatever becomes of the queues, and the other way round. *)
Abbreviation on_clients C := (framed (λ _ l n _ _, C l n)).
Abbreviation on_queues D := (framed (λ _ _ _ u c, D u c)).

Section turns_keep.
Context `{WrpLib} `{CjsonLib} (env : oracle).

Lemma framed_sendUpstream Q (b : bytes) : keeps (framed Q) (sendUpstreamMsgToServer env b).
Proof.
  intros w a w' Hp Hr. destruct (sendUpstream_total env b w) as (w1 & Hr1 & Hs). rewrite Hr1 in Hr.
  injection Hr as _ <-. rewrite Hs. exact Hp.
Qed.

Lemma framed_to_client Q (dest : cstring) (b : bytes) : keeps (framed Q) (sendMsgtoRegisteredClients env dest b).
Proof. unfold sendMsgtoRegisteredClients. keeps. Qed.

Lemma framed_event Q (unset : bool) (e : wrp_event) (raw : bytes) :
  keeps (framed Q) (process_event env unset e raw).
Proof. unfold process_event. keeps; apply framed_sendUpstream. Qed.

Lemma framed_send_error Q (m : wrp_msg_t) (j : json) : keeps (framed Q) (send_error env m j).
Proof. unfold send_error. keeps. apply framed_sendUpstream. Qed.

Lemma framed_wait Q (secs : Z) : flag_free Q → keeps (framed Q) (wait__ env secs).
Proof. intros HQ. unfold wait__. keeps. Qed.

Lemma framed_handler Q (op : crud_op) (m : wrp_msg_t) (r : wrp_crud) :
  keeps (framed Q) (handler env op m r).
Proof.
  destruct op; cbn [handler];
    unfold createObject, retrieveObject, updateObject, deleteObject, create_tag, update_tag, delete_tag,
      retrieve_external, update_cloud_disconnect, ConnDisconnectFromCloud, set_close_retry, getClientStatus,
      checkClientStatus, load_json, readFromJSON, writeIntoCrudJson, writeToJSON, finish_write, fail; keeps.
Qed.

Lemma framed_process Q (m : wrp_msg_t) : keeps (framed Q) (processCrudRequest env m).
Proof.
  unfold processCrudRequest. keeps;
    first [apply (framed_handler Q CREATE)|apply (framed_handler Q RETREIVE)
          |apply (framed_handler Q UPDATE)|apply (framed_handler Q DELETE)].
Qed.
End turns_keep.
#[export] Hint Resolve framed_sendUpstream framed_to_client framed_event framed_send_error framed_wait framed_process : keeps.

Section clients_kept.
Context `{WrpLib} `{CjsonLib} (env : oracle) (C : list reg_list_item_t → Z → Prop).

Lemma clients_free : flag_free (λ _ l n _ _, C l n).
Proof. by intros s b l n u c _ Hc. Qed.
#[local] Hint Resolve clients_free : keeps.

Lemma clients_receiver (s e : Z) : keeps (on_clients C) (receiver_turn env s e).
Proof. unfold receiver_turn, handle_upstream_turn, enqueue_upstream. keeps. Qed.

Lemma clients_crud_message (op : crud_op) (c : wrp_crud) (raw : bytes) :
  keeps (on_clients C) (process_crud env op c raw).
Proof.
  unfold process_crud, getDeviceId, getServiceNameAndSendResponse, dest_is_parodus, addCRUDmsgToQueue. keeps.
Qed.

Lemma clients_downstream : keeps (on_clients C) (messageHandlerTask_turn env).
Proof. unfold messageHandlerTask_turn, listenerOnMessage, deliver, route, addCRUDmsgToQueue. keeps. Qed.


Lemma clients_crud : keeps (on_clients C) (CRUDHandlerTask_turn env).
Proof. unfold CRUDHandlerTask_turn, addCRUDresponseToUpstreamQ, enqueue_upstream. keeps. Qed.
End clients_kept.

(** *** The queues *)

(** A received message that registers a client registers one whose strings fit, and a
    CRUD request is not a registration. *)
Definition fits `{WrpLib} (b : bytes) : Prop :=
  ∀ reg, wrp_to_struct b = Some (WRP_SVC_REGISTRATION reg) → reg_fits reg.
Definition plain (m : wrp_msg_t) : Prop := ∀ reg, m ≠ WRP_SVC_REGISTRATION reg.
Definition queues_ok `{WrpLib} (u : list bytes) (c : list wrp_msg_t) : Prop := Forall fits u /\ Forall plain c.

(** Encoding keeps the type of a message, and so does filling its [u.crud]. *)
Class WrpKinds `{WrpLib} : Prop := {
  kind_encoded : ∀ m b reg, wrp_struct_to m = Some b → wrp_to_struct b = Some (WRP_SVC_REGISTRATION reg) →
    m = WRP_SVC_REGISTRATION reg;
  kind_set_crud : ∀ m c, plain m → plain (set_crud m c)
}.

Section queues_kept.
Context `{WrpKinds} `{CjsonLib} (env : oracle).

Lemma queues_enqueue (b : bytes) : fits b → keeps (on_queues queues_ok) (enqueue_upstream b).
Proof. intros Hb w a w' [Hu Hc] [= _ <-]. split; [|done]. by apply Forall_app_2; [|apply Forall_singleton]. Qed.

Lemma queues_request (m : wrp_msg_t) : plain m → keeps (on_queues queues_ok) (addCRUDmsgToQueue m).
Proof. intros Hm w a w' [Hu Hc] [= _ <-]. split; [done|]. by apply Forall_app_2; [|apply Forall_singleton]. Qed.

Lemma queues_free : flag_free (λ _ _ _ u c, queues_ok u c).
Proof. by intros s b l n u c _ Hc. Qed.

Lemma processed_plain (m m' : wrp_msg_t) (r : Z) (w w' : World) :
  plain m → processCrudRequest env m w = Done ((r, m'), w') → plain m'.
Proof.
  intros Hm Hr. assert (∃ c, m' = set_crud m c) as [c ->]; [|by apply kind_set_crud].
  unfold processCrudRequest in Hr. inv_bind Hr a w1 R1. inv_bind Hr d w2 R2. inv_bind Hr x w3 R3.
  clear R1 R2 R3.
  destruct m as [| | |[] c|r'| |]; try (injection Hr as _ <- _; by eexists);
    inv_bind Hr y w4 R4; destruct y as [ret resp]; clear R4; destruct (ret =? 0); injection Hr as _ <- _; by eexists.
Qed.

Lemma queues_crud : keeps (on_queues queues_ok) (CRUDHandlerTask_turn env).
Proof.
  pose proof queues_free. intros w a w' Hp. unfold CRUDHandlerTask_turn. intros Hr.
  inv_bind Hr q w1 R1. injection R1 as <- <-. destruct (crudMsgQ w) as [|m rest] eqn:Hq.
  { apply (keeps_run _ _ _ _ _ Hp Hr). keeps. }
  inv_bind Hr u w2 R2. injection R2 as _ <-. destruct Hp as [Hu Hc]. rewrite Hq in Hc.
  apply Forall_cons in Hc as [Hm Hrest].
  eapply (keeps_run (on_queues queues_ok)); [|exact Hr|]; [by split|].
  apply (keeps_bind_value _ (λ x, plain x.2)); [keeps|by intros ? [] ? ?%processed_plain|].
  intros [r m'] Hm'. cbn in Hm' |- *. destruct (wrp_struct_to m') as [b|] eqn:Hb; [|keeps].
  apply keeps_bind; [|keeps]. apply queues_enqueue. intros reg Hd. exfalso.
  by apply (Hm' reg), (kind_encoded _ b).
Qed.

(** What is received on the socket of [handle_upstream] fits. *)
Context (rcv_sock : Z) (Hrecv : ∀ h b, env h (nn_recv rcv_sock) = Some b → fits b).

Lemma queues_receiver (rcv_bind : Z) : keeps (on_queues queues_ok) (receiver_turn env rcv_sock rcv_bind).
Proof.
  pose proof queues_free. unfold receiver_turn. apply keeps_bind; [|keeps]. unfold handle_upstream_turn.
  apply (keeps_bind_value _ (λ o, ∀ b, o = Some b → fits b)); [keeps|by intros w a w' [= <- _]; apply Hrecv|].
  intros o Ho. keeps. by apply queues_enqueue, Ho.
Qed.

Lemma queues_upstream (unset : bool) (m : wrp_msg_t) (raw : bytes) :
  plain m → keeps (on_queues queues_ok) (process_message env unset m raw).
Proof.
  intros Hm. unfold process_message. destruct m as [| | |op c|reg| |]; keeps; [|by destruct (Hm reg)].
  unfold process_crud, getDeviceId, getServiceNameAndSendResponse, dest_is_parodus. keeps.
  all: by apply queues_request.
Qed.

Lemma copy_plain (m : wrp_msg_t) (w w' : World) (m' : wrp_msg_t) :
  plain m → lift (createNewMsgForCRUD m) w = Done (m', w') → plain m'.
Proof.
  intros Hm [Hc _]%lift_inv. revert Hc. unfold createNewMsgForCRUD.
  destruct (copy_metadata _); [intros [= <-]|done|done]. by apply kind_set_crud.
Qed.

Lemma queues_route (m : wrp_msg_t) (raw : bytes) (d : cstring) :
  plain m → keeps (on_queues queues_ok) (route env m raw d).
Proof.
  intros Hm. unfold route. apply keeps_bind; [keeps|]. intros l.
  destruct (find_client _ l); [keeps|]. destruct (streq _ _); [|keeps].
  destruct (crud_source _); [|keeps]. destruct (crud_transaction_uuid _); [|keeps].
  apply (keeps_bind_value _ plain); [keeps|by intros w1 m1 w2; apply copy_plain|].
  intros m1 Hm1. apply keeps_bind; [by apply queues_request|keeps].
Qed.

Lemma queues_downstream : keeps (on_queues queues_ok) (messageHandlerTask_turn env).
Proof.
  pose proof queues_free. unfold messageHandlerTask_turn, listenerOnMessage, deliver. keeps.
  all: by apply queues_route.
Qed.
End queues_kept.

(** *** The clients *)

(** The sockets for the clients can be created and connected. *)
Definition sockets_work (env : oracle) : Prop :=
  (∀ h, 0 <= env h nn_socket_push) /\ (∀ h s u, 0 <= env h (nn_connect s u)).

(** [clients_inv], and no name twice as long as the sockets work. *)
Definition clients_ok (env : oracle) (l : list reg_list_item_t) (n : Z) : Prop :=
  Forall client_fits l /\ n = Z.of_nat (length l) /\ (sockets_work env → NoDup (map service_name l)).

Section clients_in_step.
Context `{WrpKinds} `{CjsonLib} (env : oracle).

Lemma clients_delete (name : option cstring) : keeps (on_clients (clients_ok env)) (deleteFromList env name).
Proof.
  intros w r w' (Hf & Hn & Hd). destruct name as [name|]; [|intros [= _ <-]; by split_and!].
  rewrite deleteFromList_run. pose proof (unlink_spec name (g_head w)) as Hu.
  destruct (unlink name (g_head w)) as [[node l]|]; intros [= _ <-]; [|by split_and!].
  destruct Hu as (a & b & Hl & -> & _ & _). rewrite Hl in *.
  apply Forall_app in Hf as [Ha [_ Hb]%Forall_cons]. split_and!; [by apply Forall_app_2| |].
  - cbn. rewrite length_app in *. cbn [length] in *. lia.
  - intros Hs. specialize (Hd Hs). cbn. rewrite map_app in *. cbn in Hd.
    apply NoDup_app in Hd as (Hda & Hab & [_ Hdb]%NoDup_cons). apply NoDup_app. split_and!; [done| |done].
    intros x Hx Hx'. apply (Hab x Hx). by right.
Qed.

Lemma clients_sweep (b : bytes) (fuel i : nat) : keeps (on_clients (clients_ok env)) (sweep env fuel b i).
Proof.
  revert i. induction fuel as [|n IH]; intros i; cbn [sweep]; keeps. apply clients_delete.
Qed.

Lemma clients_alive (b : bytes) : keeps (on_clients (clients_ok env)) (serviceAlive_turn env b).
Proof.
  pose proof (clients_free (clients_ok env)). unfold serviceAlive_turn, get_numOfClients. keeps.
  apply clients_sweep.
Qed.

Lemma queues_alive D (b : bytes) : flag_free (λ _ _ _ u c, D u c) → keeps (on_queues D) (serviceAlive_turn env b).
Proof.
  intros HD. unfold serviceAlive_turn, get_numOfClients. keeps.
  generalize (sweep_fuel (length a0)) as fuel. intros fuel. generalize 0%nat as i.
  induction fuel as [|n IH]; intros i; cbn [sweep]; keeps. unfold deleteFromList. keeps.
Qed.

Lemma queues_registration D (reg : wrp_reg) : keeps (on_queues D) (process_registration env reg).
Proof.
  unfold process_registration, get_numOfClients, addToList, sendAuthStatus. keeps.
  generalize a0 as l. induction l as [|x l IH]; cbn [reconnect_loop]; keeps.
  unfold reconnect_node, sendAuthStatus. keeps.
Qed.

Context (ack : bytes) (Hack : wrp_struct_to (WRP_AUTH 200) = Some ack).

Lemma clients_registration (reg : wrp_reg) :
  reg_fits reg → keeps (on_clients (clients_ok env)) (process_registration env reg).
Proof.
  intros Hreg w r w' (Hf & Hn & Hd) Hr.
  destruct (process_registration_run env ack reg w Hack Hreg (conj Hf Hn)) as (w1 & Hr1 & [Hf1 Hn1] & _ & Hok).
  rewrite Hr1 in Hr. injection Hr as _ <-. split_and!; [done..|]. intros Hs.
  change (NoDup (names w1)). rewrite (Hok (proj1 Hs) (proj2 Hs)). apply NoDup_registered. by apply Hd.
Qed.
End clients_in_step.

(** ** The invariant of the system *)

Abbreviation clients_kept env := (on_clients (clients_ok env)).
Abbreviation queues_kept := (on_queues queues_ok).

Section invariant.
Context `{WrpKinds} `{CjsonLib} `{NopollLib} `{CredentialsLaws} (env : oracle).
Context (mem : list event → cstring → url_memory) (dns_query seshat_enabled : bool).
Context (timeout : Z) (turns : nat) (rcv_sock rcv_bind : Z) (svc_bytes ack : bytes).
Context (Hack : wrp_struct_to (WRP_AUTH 200) = Some ack).
Context (Hrecv : ∀ h b, env h (nn_recv rcv_sock) = Some b → fits b).

Lemma queues_of_consumer (v : upstream_locals) : keeps queues_kept (processUpstreamMessage_turn env v).
Proof.
  pose proof queues_free. intros w a w' Hp. unfold processUpstreamMessage_turn. intros Hr.
  inv_bind Hr q w1 R1. injection R1 as <- <-. destruct (UpStreamMsgQ w) as [|raw rest] eqn:Hq.
  { apply (keeps_run (on_queues queues_ok) _ _ _ _ Hp Hr). keeps. }
  inv_bind Hr u w2 R2. injection R2 as _ <-. destruct Hp as [Hu Hc]. rewrite Hq in Hu.
  apply Forall_cons in Hu as [Hraw Hrest].
  eapply (keeps_run (on_queues queues_ok)); [|exact Hr|]; [by split|]. unfold process_upstream.
  apply keeps_bind; [|keeps]. destruct (wrp_to_struct raw) as [m|] eqn:Hm; [|keeps]. apply keeps_bind; [|keeps].
  destruct m as [| | | |reg| |]; try (by apply queues_upstream; intros reg).
  apply keeps_bind; [apply queues_registration|keeps].
Qed.

Lemma clients_of_consumer (v : upstream_locals) (w w' : World) (r : bool * upstream_locals) :
  clients_kept env w → queues_kept w → processUpstreamMessage_turn env v w = Done (r, w') →
  clients_kept env w'.
Proof.
  pose proof (clients_free (clients_ok env)). intros Hp Hqs. change (queues_ok (UpStreamMsgQ w) (crudMsgQ w)) in Hqs.
  destruct Hqs as [Hu _]. unfold processUpstreamMessage_turn. intros Hr.
  inv_bind Hr q w1 R1. injection R1 as <- <-. destruct (UpStreamMsgQ w) as [|raw rest] eqn:Hq.
  { apply (keeps_run (on_clients (clients_ok env)) _ _ _ _ Hp Hr). keeps. }
  inv_bind Hr u w2 R2. injection R2 as _ <-. apply Forall_cons in Hu as [Hraw _].
  eapply (keeps_run (on_clients (clients_ok env))); [|exact Hr|]; [done|]. unfold process_upstream.
  apply keeps_bind; [|keeps]. destruct (wrp_to_struct raw) as [m|] eqn:Hm; [|keeps]. apply keeps_bind; [|keeps].
  destruct m as [| | |op c|reg| |]; cbn [process_message]; try (by keeps); (apply keeps_bind; [|keeps]).
  - apply clients_crud_message.
  - apply (clients_registration env ack Hack). by apply Hraw.
Qed.

Lemma kept_task (P : World → Prop) (t : task) (m : M World bool) (s s' : system) :
  keeps P m → task_turn t m s = Done s' → P (world s) → P (world s').
Proof.
  unfold task_turn. intros Hm Hr Hp. destruct (m (world s)) as [[stop w]| |] eqn:Hw; [|done|done].
  injection Hr as <-. assert (P w) by (by eapply Hm). by destruct stop.
Qed.

Lemma kept_turn (t : task) (s s' : system) :
  turn env mem dns_query seshat_enabled timeout turns rcv_sock rcv_bind svc_bytes t s = Done s' →
  clients_kept env (world s) → queues_kept (world s) → clients_kept env (world s') /\ queues_kept (world s').
Proof.
  pose proof (clients_free (clients_ok env)) as HC. pose proof queues_free as HQ.
  destruct t; cbn [turn]; intros Hr Hc Hq.
  - revert Hr. unfold main_turn. destruct (main_joins s).
    + destruct (take_down env (world s)) as [[[] w]| |] eqn:Hw; [|done|done]. intros [= <-]. cbn.
      assert (queues_kept w) by (eapply (keeps_run queues_kept); [exact Hq|exact Hw|];
        unfold take_down, deleteAllClients, close_and_unref_connection, close_conn; keeps).
      apply taken_down in Hw as (_ & Hh & Hn & _). split; [|done].
      destruct Hc as (_ & Hl & _). unfold clients_kept, framed, clients_ok. rewrite Hh, Hn, Hl.
      split_and!; [constructor|cbn; lia|constructor].
    + destruct (event_loop_turn _ _ _ _ _ _ _ _ (world s)) as [[[[go reg] l] w]| |] eqn:Hw; [|done|done].
      intros [= <-]. cbn. split; [by eapply framed_event_loop_turn in Hw|by eapply framed_event_loop_turn in Hw].
  - split; eapply kept_task; [apply clients_receiver|exact Hr|done|by apply queues_receiver|exact Hr|done].
  - revert Hr. unfold consumer_turn.
    destruct (processUpstreamMessage_turn env (msg_locals s) (world s)) as [[[stop v] w]| |] eqn:Hw; [|done|done].
    intros [= <-]. assert (clients_kept env w) by (by eapply clients_of_consumer).
    assert (queues_kept w) by (by eapply queues_of_consumer). by destruct stop.
  - split; eapply kept_task; [apply clients_downstream|exact Hr|done|apply queues_downstream|exact Hr|done].
  - split; eapply kept_task; [apply clients_alive|exact Hr|done|by apply queues_alive|exact Hr|done].
  - split; eapply kept_task; [apply clients_crud|exact Hr|done|apply queues_crud|exact Hr|done].
Qed.

Lemma framed_receiver_start Q : keeps (framed Q) (handle_upstream_start env).
Proof. unfold handle_upstream_start. keeps. Qed.

Lemma kept_started (w0 : World) (s : system) :
  started env mem dns_query seshat_enabled turns rcv_sock rcv_bind svc_bytes w0 s →
  clients_kept env w0 → queues_kept w0 →
  clients_kept env (world s) /\ queues_kept (world s).
Proof.
  pose proof (clients_free (clients_ok env)). pose proof queues_free.
  intros (reg & l & w & bound & w' & Hr & Hb & _ & _ & ->) Hc Hq. cbn. split.
  - eapply keeps_run; [|exact Hb|apply framed_receiver_start].
    eapply keeps_run; [exact Hc|exact Hr|]. unfold startup, packMetaData, __registerWithSeshat, registerWithSeshat.
    keeps. by apply framed_create.
  - eapply keeps_run; [|exact Hb|apply framed_receiver_start].
    eapply keeps_run; [exact Hq|exact Hr|]. unfold startup, packMetaData, __registerWithSeshat, registerWithSeshat.
    keeps; [by apply framed_create|..]; apply keeps_modify; intros w1 [_ Hc1]; by split; [constructor|].
Qed.

Lemma kept_reachable (s0 s : system) :
  rtc (sys_step env mem dns_query seshat_enabled timeout turns rcv_sock rcv_bind svc_bytes) s0 s →
  clients_kept env (world s0) /\ queues_kept (world s0) → clients_kept env (world s) /\ queues_kept (world s).
Proof. induction 1 as [|s1 s2 s3 [t _ _ Ht] _ IH]; [done|]. intros [? ?]. apply IH. by eapply kept_turn. Qed.
End invariant.

(** ** Properties *)

(** C2. Whatever the order in which the threads take their turns, the list of the clients
    and its count stay in step with every name and URL within its array, from the start of
    the threads to the end of the process, provided that the clients register with names
    and URLs that fit. As long as the sockets work no two clients share a name, so that
    every client is the one that messages for its name go to. *)
Theorem clients_in_step `{WrpKinds} `{CjsonLib} `{NopollLib} `{CredentialsLaws} (env : oracle)
    (mem : list event → cstring → url_memory) (dns_query seshat_enabled : bool) (timeout : Z) (turns : nat)
    (rcv_sock rcv_bind : Z) (svc_bytes ack : bytes) (w0 : World) (s0 s : system)
    (Hack : wrp_struct_to (WRP_AUTH 200) = Some ack)
    (Hrecv : ∀ h b, env h (nn_recv rcv_sock) = Some b → fits b)
    (Hclients : g_head w0 = [] /\ numOfClients w0 = 0) (Hqueues : UpStreamMsgQ w0 = [] /\ crudMsgQ w0 = [])
    (Hstart : started env mem dns_query seshat_enabled turns rcv_sock rcv_bind svc_bytes w0 s0)
    (Hsteps : rtc (sys_step env mem dns_query seshat_enabled timeout turns rcv_sock rcv_bind svc_bytes) s0 s) :
  clients_inv (world s) /\
  (sockets_work env → NoDup (names (world s)) /\
     ∀ node, node ∈ g_head (world s) → find_client (service_name node) (g_head (world s)) = Some node).
Proof.
  destruct Hclients as [Hh Hn], Hqueues as [Hu Hc].
  apply kept_started in Hstart as Hkept;
    [|unfold framed, clients_ok; rewrite Hh, Hn; split_and!; [constructor|done|constructor]
     |unfold framed, queues_ok; by rewrite Hu, Hc].
  apply (kept_reachable _ _ _ _ _ _ _ _ _ ack Hack Hrecv s0 s Hsteps) in Hkept as [(Hf & Hl & Hd) _].
  split; [by split|]. intros Hs. specialize (Hd Hs). split; [done|].
  intros node Hin. by apply find_client_unique.
Qed.

(** ** Witnesses *)

(** A client registers once and again. *)
Definition reg_iot : wrp_reg := mk_reg "iot" "tcp://127.0.0.1:6667".
Definition wrp_registers : WrpLib := {|
  wrp_to_struct := λ b, if decide (b = "register"%cs) then Some (WRP_SVC_REGISTRATION reg_iot) else None;
  wrp_struct_to := λ m, match m with WRP_SVC_REGISTRATION _ => None | _ => Some "encoded"%cs end;
  crud_view := @crud_view wrp_example;
  set_crud := @set_crud wrp_example;
  WRP_ID_ELEMENT__SERVICE := 2;
  WRP_ID_ELEMENT__APPLICATION := 3;
  wrp_get_msg_element := @wrp_get_msg_element wrp_example;
  wrp_does_service_match := @wrp_does_service_match wrp_example;
  wrp_pack_metadata := @wrp_pack_metadata wrp_example;
  appendEncodedData := @appendEncodedData wrp_example
|}.
Lemma wrp_registers_kinds : @WrpKinds wrp_registers.
Proof.
  split; [|by intros []].
  intros m b reg Hb Hm. destruct m; try done; injection Hb as <-; by vm_compute in Hm.
Qed.

Definition env_registers : oracle := λ h c,
  match c as c return ans c with
  | nn_recv _ => Some "register"%cs
  | c => env_ok h c
  end.

Example clients_in_step_witness :
  ∃ s0 s, @started wrp_registers cjson_example nopoll_b64 no_credentials env_registers mem_example false true 20
      0 0 "encoded" process_world s0 /\
    rtc (@sys_step wrp_registers cjson_example nopoll_b64 no_credentials env_registers mem_example false true
      180000 20 0 0 "encoded") s0 s /\
    names (world s) = ["iot"%cs] /\ clients_inv (world s) /\ NoDup (names (world s)).
Proof.
  set (ts := [upstream_tid; upstream_tid; upstream_msg_tid; svc_alive_tid; main_thread; upstream_msg_tid]).
  destruct (@startup wrp_registers cjson_example nopoll_b64 no_credentials env_registers mem_example false true 20
    true process_world) as [[[[reg l]|] w]| |] eqn:Hs; [|vm_compute in Hs; discriminate Hs..].
  destruct (handle_upstream_start env_registers w) as [[bound w']| |] eqn:Hb.
  2,3: exfalso; revert Hb; vm_compute in Hs; injection Hs as <- <- <-; vm_compute; discriminate.
  assert (bound = Some (0, 0)) as ->.
  { revert Hb. vm_compute in Hs. injection Hs as <- <- <-. vm_compute. by intros [= <- _]. }
  set (s0 := mk_system w' tasks false reg l locals_start).
  destruct (@schedule wrp_registers cjson_example nopoll_b64 no_credentials env_registers mem_example false true
      180000 20 0 0 "encoded" ts s0) as [s| |] eqn:Hr.
  2,3: exfalso; revert Hr; unfold s0; clear s0; vm_compute in Hs; injection Hs as <- <- <-;
    vm_compute in Hb; injection Hb as <-; vm_compute; discriminate.
  assert (names (world s) = ["iot"%cs]) as Hn.
  { revert Hr. unfold s0. clear s0. vm_compute in Hs. injection Hs as <- <- <-. vm_compute in Hb. injection Hb as <-.
    vm_compute. by intros [= <-]. }
  apply schedule_steps in Hr.
  assert (@started wrp_registers cjson_example nopoll_b64 no_credentials env_registers mem_example false true 20
    0 0 "encoded" process_world s0) as Hst.
  { exists reg, l, w, (Some (0, 0)), w'. split; [exact Hs|]. split; [exact Hb|]. split; [by right|].
    split; [by right|reflexivity]. }
  destruct (@clients_in_step wrp_registers wrp_registers_kinds cjson_example nopoll_b64 no_credentials
    no_credentials_laws env_registers mem_example false true 180000 20 0 0 "encoded" "encoded" process_world s0 s)
    as [Hi Hd]; [reflexivity| |split; reflexivity|split; reflexivity|exact Hst|exact Hr|].
  - intros h b [= <-] reg1 [= <-]. split; by_eval.
  - exists s0, s. split; [exact Hst|]. split; [exact Hr|]. split; [exact Hn|]. split; [exact Hi|].
    apply Hd. split; [intros h; cbn; lia|intros; cbn; lia].
Defined.
