(* ===== verification/Requests.v ===== *)
(** * CRUD requests on their way through the tasks

    A request for this device passes three threads: downstream.c or upstream.c queue it
    for the CRUD task, whose answer goes through the queue of the local clients' messages
    to the server. The theorems here follow such a message from turn to turn. *)

From S2P Require Import Prelude StringHelpers Timers Config Wrp World ClientList ServiceAlive Nopoll Upstream Cjson Crud CrudStore Downstream Connection ConnInterface System.
Local Open Scope cs_scope.
Local Open Scope Z_scope.

(** A destination's elements depend on nothing else of the message. *)
Class WrpElements `{WrpLib} : Prop := {
  element_of_dest : ∀ i op c c', crud_dest c = crud_dest c' →
    wrp_get_msg_element i (WRP_CRUD op c) = wrp_get_msg_element i (WRP_CRUD op c')
}.

(** The library encodes the answers of this kind, and decodes the same addresses from
    them. *)
Definition addressed (uuid source dest : cstring) (r : wrp_crud) : Prop :=
  crud_transaction_uuid r = Some uuid /\ crud_source r = Some source /\ crud_dest r = Some dest.
Definition carries `{WrpLib} (op : crud_op) (uuid source dest : cstring) : Prop :=
  ∀ r, addressed uuid source dest r →
  ∃ b r', wrp_struct_to (WRP_CRUD op r) = Some b /\ b ≠ [] /\
          wrp_to_struct b = Some (WRP_CRUD op r') /\ addressed uuid source dest r'.

(** ** Lemmas *)

Section requests.
Context `{WrpLaws} `{CjsonLib} (env : oracle).

(** A retrieval changes nothing and makes no calls. *)
Lemma retrieve_pure (m : wrp_msg_t) (r r' : wrp_crud) (ret : Z) (w w' : World) :
  retrieveObject m r w = Done ((ret, r'), w') → w' = w.
Proof.
  intros Hr. refine (keeps_run (λ v, v = w) _ _ _ _ eq_refl Hr _).
  unfold retrieveObject, retrieve_external, getClientStatus, checkClientStatus, readFromJSON, fail. keeps.
Qed.

(** One turn of the CRUD task on the first request of its queue. *)
Lemma crud_turn_run (op : crud_op) (c resp : wrp_crud) (rest : list wrp_msg_t) (ret : Z) (b : bytes)
    (w w' : World) :
  crudMsgQ w = WRP_CRUD op c :: rest →
  processCrudRequest env (WRP_CRUD op c) (w <| crudMsgQ := rest |>) = Done ((ret, WRP_CRUD op resp), w') →
  wrp_struct_to (WRP_CRUD op resp) = Some b →
  CRUDHandlerTask_turn env w = Done (false, w' <| UpStreamMsgQ := UpStreamMsgQ w' ++ [b] |>).
Proof. intros Hq Hr Hb. unfold CRUDHandlerTask_turn. run_m. rewrite Hq. rewrite Hr. by rewrite Hb. Qed.

(** One turn of the consumer of the clients' messages on a CRUD message. *)
Lemma consumer_turn_run (v : upstream_locals) (op : crud_op) (c : wrp_crud) (b : bytes) (rest : list bytes)
    (w w' : World) :
  UpStreamMsgQ w = b :: rest → wrp_to_struct b = Some (WRP_CRUD op c) →
  process_crud env op c b (w <| UpStreamMsgQ := rest |>) = Done (tt, w') →
  processUpstreamMessage_turn env v w = Done ((false, mk_locals false (bytes_unset v)), w').
Proof.
  intros Hq Hb Hr. unfold processUpstreamMessage_turn, process_upstream, process_message. run_m. rewrite Hq, Hb. by rewrite Hr.
Qed.
End requests.

(** ** A request a client addresses to itself *)

Section echo.
Context `{WrpLaws} `{CjsonLib} (env : oracle).

(** The answer is a message of the same kind between the same two ends. *)
Lemma answer_addressed (op : crud_op) (c : wrp_crud) (uuid source dest : cstring) (w w' : World) (ret : Z)
    (m : wrp_msg_t) :
  addressed uuid source dest c → processCrudRequest env (WRP_CRUD op c) w = Done ((ret, m), w') →
  ∃ r, m = WRP_CRUD op r /\ addressed uuid dest source r.
Proof.
  intros (Eu & Es & Ed). rewrite (process_run env op c uuid source dest) by done. cbn zeta.
  pose proof (handler_answers env op (WRP_CRUD op c) (response_of uuid dest source) w) as Ha.
  destruct (handler env op _ _ w) as [[[ret0 r] w1]| |]; [|done|done].
  destruct Ha as (_ & Hu & Hs & Hd & _). intros [= _ <- _]. eexists. split; [reflexivity|]. unfold addressed.
  destruct (Bool.eqb _ _); cbn; by rewrite Hu, Hs, Hd.
Qed.

Lemma retrieve_answer (uuid source dest : cstring) (w w' : World) (ret : Z) (m : wrp_msg_t) :
  processCrudRequest env (WRP_CRUD RETREIVE (response_of uuid source dest)) w = Done ((ret, m), w') →
  w' = w /\ ∃ r, m = WRP_CRUD RETREIVE r /\ addressed uuid dest source r.
Proof.
  intros Hr. split; [|by apply (answer_addressed _ (response_of uuid source dest) _ _ _ w w' ret m)]. revert Hr.
  rewrite (process_run env RETREIVE _ uuid source dest) by done. cbn zeta. cbn [handler].
  destruct (retrieveObject _ _ w) as [[[ret0 r] w1]| |] eqn:Hr; [|done|done].
  apply retrieve_pure in Hr as ->. by intros [= _ _ <-].
Qed.

(** The address of this process, as [process_crud] tests it. *)
Definition addresses_parodus (mac self : cstring) : Prop :=
  let id := ("mac:" ++ mac)%list in
  map to_lower (take (length id) self) = map to_lower id /\ take 6 (drop (S (length id)) self) = "parodu"%cs.

Lemma addresses_long (mac self : cstring) :
  addresses_parodus mac self → (S (length ("mac:" ++ mac)%list) <= length self)%nat.
Proof.
  intros [_ Ht]. destruct (decide (S (length ("mac:" ++ mac)%list) <= length self)%nat) as [|Hl]; [done|].
  rewrite drop_ge in Ht by lia. discriminate Ht.
Qed.

Lemma own_retrieve_run (c : wrp_crud) (raw : bytes) (self : cstring) (w : World) :
  crud_dest c = Some self → hw_mac (parodusCfg w) ≠ [] → (length (hw_mac (parodusCfg w)) <= 59)%nat →
  addresses_parodus (hw_mac (parodusCfg w)) self →
  process_crud env RETREIVE c raw w =
    Done (tt, w <| crudMsgQ := crudMsgQ w ++ [createUpstreamRetrieveMsg RETREIVE c] |>).
Proof.
  intros Hd Hm Hl Ha. rewrite (process_crud_step env RETREIVE c raw w self Hd) by done. cbn zeta.
  pose proof (addresses_long _ _ Ha) as Hlong. destruct Ha as [Hid Hp].
  rewrite bool_decide_eq_true_2, decide_True by done. unfold dest_is_parodus.
  rewrite (proj2 (Nat.ltb_ge _ _) Hlong). unfold strneq. change (length PARODUS_SERVICE_NAME - 1)%nat with 6%nat.
  rewrite Hp. reflexivity.
Qed.
(** The two turns that take such a request around. *)
Lemma echo_round (uuid self : cstring) (w : World) (v : upstream_locals) :
  let req := WRP_CRUD RETREIVE (response_of uuid self self) in
  crudMsgQ w = [req] → UpStreamMsgQ w = [] →
  hw_mac (parodusCfg w) ≠ [] → (length (hw_mac (parodusCfg w)) <= 59)%nat →
  addresses_parodus (hw_mac (parodusCfg w)) self → carries RETREIVE uuid self self →
  (∃ r, processCrudRequest env req (w <| crudMsgQ := [] |>) = Done r) →
  ∃ w1, CRUDHandlerTask_turn env w = Done (false, w1) /\
        processUpstreamMessage_turn env v w1 = Done ((false, mk_locals false (bytes_unset v)), w).
Proof.
  cbn zeta. intros Hq Hup Hm Hl Ha Hc [[[ret m] w0] Hr].
  apply retrieve_answer in Hr as E. destruct E as (-> & r & -> & Hr').
  destruct (Hc r Hr') as (b & r' & Hb & _ & Hb' & Hu & Hs & Hd).
  eexists. split; [by eapply crud_turn_run|]. cbn. rewrite Hup. cbn [app].
  erewrite (consumer_turn_run env v RETREIVE r' b []); [|reflexivity|done|by apply (own_retrieve_run r' b self)].
  unfold createUpstreamRetrieveMsg. rewrite Hu, Hs, Hd. do 2 f_equal. destruct w; cbn in *. by subst.
Qed.
End echo.

(** A client's request for a value of parodus whose source is parodus too is never
    done with: the answer is addressed to this process, the consumer of the clients'
    messages takes it for the next request, and after the turns of the two threads the
    process is where it was, down to the last variable and with nothing sent. This goes
    on after a shutdown has been asked for, which the main thread then waits for. *)
Theorem self_addressed_retrieve `{WrpLaws} `{CjsonLib} `{NopollLib} `{Credentials} (env : oracle)
    (mem : list event → cstring → url_memory) (dns_query seshat_enabled : bool) (timeout : Z)
    (turns rounds : nat) (rcv_sock rcv_bind : Z) (svc_bytes : bytes) (uuid self : cstring) (s : system)
    (Hlive : crud_tid ∈ live s /\ upstream_msg_tid ∈ live s) (Hfirst : msg_unset (msg_locals s) = false)
    (Hqueue : crudMsgQ (world s) = [WRP_CRUD RETREIVE (response_of uuid self self)])
    (Hupstream : UpStreamMsgQ (world s) = [])
    (Hmac : hw_mac (parodusCfg (world s)) ≠ [] /\ (length (hw_mac (parodusCfg (world s))) <= 59)%nat)
    (Hself : addresses_parodus (hw_mac (parodusCfg (world s))) self)
    (Hcarries : carries RETREIVE uuid self self)
    (Hdefined : ∃ r, processCrudRequest env (WRP_CRUD RETREIVE (response_of uuid self self))
                       ((world s) <| crudMsgQ := [] |>) = Done r) :
  schedule env mem dns_query seshat_enabled timeout turns rcv_sock rcv_bind svc_bytes
    (concat (replicate rounds [crud_tid; upstream_msg_tid])) s = Done s.
Proof.
  destruct Hlive as [Hl1 Hl2], Hmac as [Hm Hl].
  destruct (echo_round env uuid self (world s) (msg_locals s)) as (w1 & Hr1 & Hr2); [done..|].
  induction rounds as [|n IH]; [done|]. cbn [replicate concat app].
  erewrite schedule_turn; [|done|done|by apply turn_task]. erewrite schedule_turn; [|done|done|by apply turn_consumer].
  rewrite <-IH. f_equal. destruct s as [? ? ? ? ? [mu bu]]; cbn in *. by subst.
Qed.

(** ** A request of the server for a tag *)

(** The message the CRUD task gets for a request. *)
Definition crud_copy (c : wrp_crud) : wrp_crud :=
  c <| crud_partner_ids := copy_counted (crud_partner_ids c) |> <| crud_headers := copy_counted (crud_headers c) |>
    <| crud_metadata := copy_counted (crud_metadata c) |> <| crud_payload := cstr <$> crud_payload c |>.

Section served.
Context `{WrpLaws} `{!WrpElements} `{CjsonLaws} (env : oracle).

Lemma copied (op : crud_op) (c : wrp_crud) :
  metadata_complete c → createNewMsgForCRUD (WRP_CRUD op c) = Done (WRP_CRUD op (crud_copy c)).
Proof.
  intros Hm. unfold createNewMsgForCRUD. rewrite crud_view_crud, (copy_metadata_complete _ Hm).
  cbn. by rewrite set_crud_crud.
Qed.

Lemma downstream_turn_run (raw : bytes) (rest : list (option bytes)) (op : crud_op) (c : wrp_crud)
    (d scheme : cstring) (more : list cstring) (w : World) :
  ParodusMsgQ w = Some raw :: rest → wrp_to_struct raw = Some (WRP_CRUD op c) →
  crud_dest c = Some d → parts d = scheme :: "parodus"%cs :: more →
  Forall (λ x, service_name x ≠ "parodus"%cs) (g_head w) →
  crud_source c ≠ None → crud_transaction_uuid c ≠ None → metadata_complete c →
  messageHandlerTask_turn env w =
    Done (false, w <| ParodusMsgQ := rest |> <| crudMsgQ := crudMsgQ w ++ [WRP_CRUD op (crud_copy c)] |>).
Proof.
  intros Hq Hraw Hd Hp Hno Hs Hu Hm. unfold messageHandlerTask_turn. run_m. rewrite Hq.
  unfold listenerOnMessage. rewrite Hraw.
  rewrite (deliver_run env (WRP_CRUD op c) raw d); [|done|by cbn; rewrite crud_view_crud|by cbn; destruct (partner_id _)].
  unfold route. rewrite (dest_service_parts d scheme "parodus" more Hp). run_m.
  change (take 31 "parodus"%cs) with ("parodus"%cs). cbn [g_head].
  pose proof (find_client_spec "parodus" (g_head w)) as Hf.
  change (g_head (w <| ParodusMsgQ := rest |>)) with (g_head w).
  destruct (find_client "parodus" (g_head w)) as [node|].
  { exfalso. destruct Hf as (a & b & Hl & Hn & _). rewrite Hl in Hno.
    by apply Forall_app in Hno as [_ [? _]%Forall_cons]. }
  rewrite streq_refl, crud_view_crud. destruct (crud_source c) eqn:E1, (crud_transaction_uuid c) eqn:E2; try done.
  rewrite (copied op c Hm). reflexivity.
Qed.

Lemma cstr_cstr (b : bytes) : cstr (cstr b) = cstr b.
Proof.
  unfold cstr. induction b as [|x b IH]; [done|]. cbn [before]. destruct (decide (x = NUL)) as [|Hx]; [done|].
  cbn [before]. by rewrite decide_False, IH.
Qed.

Lemma check_payload_cstr (payload : option bytes) : check_payload (cstr <$> payload) = check_payload payload.
Proof.
  destruct payload as [text|]; [|done]. unfold check_payload. cbn.
  by rewrite cstr_cstr.
Qed.

Lemma copied_tag_request (op : crud_op) (c : wrp_crud) (name : cstring) :
  tag_request (WRP_CRUD op c) name → tag_request (WRP_CRUD op (crud_copy c)) name.
Proof.
  assert (∀ i, wrp_get_msg_element i (WRP_CRUD op (crud_copy c)) = wrp_get_msg_element i (WRP_CRUD op c)) as Hi
    by (intros i; by apply element_of_dest).
  intros [Hd Hs Hid Hsv Ha Hn Hok]. split; rewrite ?Hi; try done.
  rewrite crud_view_crud in *. exact Hd.
Qed.

(** A request for a tag as the CRUD task processes it. *)
Lemma tag_processed (op : crud_op) (c : wrp_crud) (name uuid source dest : cstring) (p : members) (w : World) :
  op ≠ RETREIVE → store_wf w → tag_request (WRP_CRUD op c) name → addressed uuid source dest c →
  (op ≠ DELETE → check_payload (crud_payload c) = Some (as_items p)) → payload_ok p →
  ∃ ret resp w', processCrudRequest env (WRP_CRUD op c) w = Done ((ret, WRP_CRUD op resp), w') /\
    (crud_status resp, the_store w') = spec_request op (crud_file_opens env w) (the_store w) name p /\
    store_wf w' /\ only_file w w' /\ addressed uuid dest source resp.
Proof.
  intros Hop Hwf Hreq (Hu & Hs & Hd) Hpay Hp. rewrite (process_run env op c uuid source dest) by done. cbn zeta.
  destruct (tag_handled env op c name (response_of uuid dest source) p w)
    as (resp & w' & -> & Hof & Hwf' & Hr & _ & Hu' & Hs' & Hd'); [done..|].
  eexists _, _, w'. split; [reflexivity|]. unfold addressed. destruct (Bool.eqb _ _); cbn; by split_and!.
Qed.

(** Where an answer goes that is for somebody else. *)
Definition for_others (op : crud_op) (mac dest : cstring) : Prop :=
  op = CREATE \/
  mac ≠ [] /\ (length mac <= 59)%nat /\
    map to_lower (take (length ("mac:" ++ mac)%list) dest) ≠ map to_lower ("mac:" ++ mac)%list.

Lemma answer_sent (op : crud_op) (c : wrp_crud) (b : bytes) (dest : cstring) (w : World) :
  crud_dest c = Some dest → for_others op (hw_mac (parodusCfg w)) dest →
  process_crud env op c b w = sendUpstreamMsgToServer env b w.
Proof.
  intros Hd [->|(Hm & Hl & Hn)]; [done|]. destruct (decide (op = CREATE)) as [->|Hop]; [done|].
  rewrite (process_crud_step env op c b w dest Hd) by done. cbn zeta. by rewrite bool_decide_eq_false_2.
Qed.

Lemma sent_when_open (b : bytes) (w : World) :
  upstream_open w = true →
  ∃ w' k new, sendUpstreamMsgToServer env b w = Done (tt, w') /\ w' = w <| trace := trace w ++ new |> /\
    let fs := frames (appendEncodedData b (metadataPack w) (metaPackSize w)) in
    ((k = length fs /\ frames_sent new = fs) \/ ((k < length fs)%nat /\ frames_sent new = take (S k) fs)).
Proof.
  intros Ho. rewrite sendUpstream_cases, Ho.
  destruct (sendResponse_run env (g_conn w) (appendEncodedData b (metadataPack w) (metaPackSize w)) w)
    as (k & new & Hr & Hk). rewrite (bind_Done _ _ _ _ _ Hr). by eexists _, k, new.
Qed.
End served.

(** C5. A create, update or delete of a tag that the server sends is done with after one
    turn each of the thread for the server's messages, the CRUD task and the thread for
    the clients' messages, unless a client calls itself parodus: the file holds what the
    store's operation of that name says, and the answer with its status goes back to the
    sender under the request's transaction id, handed to noPoll frame by frame with the
    metadata appended when the way to the server is open. The queues are empty again. *)
Theorem tag_request_served `{WrpLaws} `{!WrpElements} `{CjsonLaws} `{NopollLib} `{Credentials} (env : oracle)
    (mem : list event → cstring → url_memory) (dns_query seshat_enabled : bool) (timeout : Z)
    (turns : nat) (rcv_sock rcv_bind : Z) (svc_bytes : bytes) (s : system)
    (raw : bytes) (op : crud_op) (c : wrp_crud) (name uuid source dest scheme : cstring) (more : list cstring)
    (p : members)
    (Hlive : downstream_tid ∈ live s /\ crud_tid ∈ live s /\ upstream_msg_tid ∈ live s)
    (Hqueues : ParodusMsgQ (world s) = [Some raw] /\ crudMsgQ (world s) = [] /\ UpStreamMsgQ (world s) = [])
    (Hdecode : wrp_to_struct raw = Some (WRP_CRUD op c)) (Hop : op ≠ RETREIVE)
    (Hc : addressed uuid source dest c) (Hparts : parts dest = scheme :: "parodus"%cs :: more)
    (Hno : Forall (λ x, service_name x ≠ "parodus"%cs) (g_head (world s))) (Hmeta : metadata_complete c)
    (Hreq : tag_request (WRP_CRUD op c) name)
    (Hpay : op ≠ DELETE → check_payload (crud_payload c) = Some (as_items p)) (Hp : payload_ok p)
    (Hwf : store_wf (world s)) (Hcarries : carries op uuid dest source)
    (Hothers : for_others op (hw_mac (parodusCfg (world s))) source)
    (Hopen : upstream_open (world s) = true) :
  let w := world s in
  let r := spec_request op (crud_file_opens env w) (the_store w) name p in
  let run ts := schedule env mem dns_query seshat_enabled timeout turns rcv_sock rcv_bind svc_bytes ts in
  ∃ s1 s2 resp b k new,
    run [downstream_tid; crud_tid] s = Done s1 /\ run [upstream_msg_tid] s1 = Done s2 /\
    (crud_status resp, the_store (world s1)) = r /\ store_wf (world s1) /\
    addressed uuid dest source resp /\ wrp_struct_to (WRP_CRUD op resp) = Some b /\
    UpStreamMsgQ (world s1) = [b] /\ ParodusMsgQ (world s2) = [] /\ crudMsgQ (world s2) = [] /\
    UpStreamMsgQ (world s2) = [] /\ files (world s2) = files (world s1) /\
    trace (world s2) = trace (world s1) ++ new /\
    let fs := frames (appendEncodedData b (metadataPack w) (metaPackSize w)) in
    ((k = length fs /\ frames_sent new = fs) \/ ((k < length fs)%nat /\ frames_sent new = take (S k) fs)).
Proof.
  destruct Hlive as (L1 & L2 & L3), Hqueues as (Q1 & Q2 & Q3). cbn zeta. set (w := world s) in *.
  pose proof Hc as (Hu & Hs & Hd).
  pose proof (downstream_turn_run env raw [] op c dest scheme more w Q1 Hdecode Hd Hparts Hno
    ltac:(by rewrite Hs) ltac:(by rewrite Hu) Hmeta) as R1. rewrite Q2 in R1. cbn [app] in R1.
  set (w1 := w <| ParodusMsgQ := [] |> <| crudMsgQ := [WRP_CRUD op (crud_copy c)] |>) in R1.
  destruct (tag_processed env op (crud_copy c) name uuid source dest p (w1 <| crudMsgQ := [] |>))
    as (ret & resp & w2 & R2 & Hr & Hwf2 & Hof & Ha);
    [done|exact Hwf|by apply copied_tag_request|by unfold addressed|
     intros Hdel; cbn; rewrite check_payload_cstr; by apply Hpay|done|].
  destruct (Hcarries resp Ha) as (b & resp' & Hb & _ & Hb' & _ & _ & Hd').
  pose proof (crud_turn_run env op (crud_copy c) resp [] ret b w1 w2 eq_refl R2 Hb) as R3.
  set (w3 := w2 <| UpStreamMsgQ := UpStreamMsgQ w2 ++ [b] |>) in R3.
  assert (UpStreamMsgQ w3 = [b]) as Q4 by (unfold w3; rewrite Hof; cbn; by rewrite Q3).
  destruct (sent_when_open env b (w3 <| UpStreamMsgQ := [] |>)) as (w4 & k & new & R4 & Hw4 & Hk).
  { unfold w3. rewrite Hof. exact Hopen. }
  rewrite <-(answer_sent env op resp' b source) in R4 by (done || (unfold w3; rewrite Hof; exact Hothers)).
  pose proof (consumer_turn_run env (msg_locals s) op resp' b [] w3 w4 Q4 Hb' R4) as R5.
  set (s1 := s <| world := w3 |>). set (s2 := s1 <| world := w4 |> <| msg_locals := mk_locals false (bytes_unset (msg_locals s)) |>).
  exists s1, s2, resp, b, k, new. split.
  { erewrite schedule_turn; [|done|done|by apply turn_task].
    erewrite schedule_turn; [|done|done|by apply turn_task]. reflexivity. }
  split; [by erewrite schedule_turn; [|done|done|by apply turn_consumer]|].
  assert (metadataPack w3 = metadataPack w /\ metaPackSize w3 = metaPackSize w /\ ParodusMsgQ w3 = [] /\
          crudMsgQ w3 = []) as (E1 & E2 & E3 & E4) by (unfold w3; rewrite Hof; by split_and!).
  cbn zeta in Hk.
  change (metadataPack (w3 <| UpStreamMsgQ := [] |>)) with (metadataPack w3) in Hk.
  change (metaPackSize (w3 <| UpStreamMsgQ := [] |>)) with (metaPackSize w3) in Hk. rewrite E1, E2 in Hk. unfold s2, s1. cbn [world over]. rewrite Hw4. by split_and!.
Qed.

(** ** Witnesses *)

(** A library that reads one text as the request and every other one as an answer to it,
    as far as the addresses go. *)
Definition wrp_answers (op : crud_op) (c : wrp_crud) (uuid source dest : cstring) : WrpLib := {|
  wrp_to_struct := λ b, Some (WRP_CRUD op (if decide (b = "raw"%cs) then c else response_of uuid source dest));
  wrp_struct_to := λ _, Some "encoded"%cs;
  crud_view := @crud_view wrp_example;
  set_crud := @set_crud wrp_example;
  WRP_ID_ELEMENT__SERVICE := 2;
  WRP_ID_ELEMENT__APPLICATION := 3;
  wrp_get_msg_element := @wrp_get_msg_element wrp_example;
  wrp_does_service_match := @wrp_does_service_match wrp_example;
  wrp_pack_metadata := @wrp_pack_metadata wrp_example;
  appendEncodedData := @appendEncodedData wrp_example
|}.

Lemma wrp_answers_laws (op : crud_op) (c : wrp_crud) (uuid source dest : cstring) :
  @WrpLaws (wrp_answers op c uuid source dest).
Proof. split; try done. by intros []. Qed.
Lemma wrp_answers_elements (op : crud_op) (c : wrp_crud) (uuid source dest : cstring) :
  @WrpElements (wrp_answers op c uuid source dest).
Proof. split. intros i op' c1 c2 Hd. cbn. by rewrite Hd. Qed.
Lemma wrp_answers_carries (op : crud_op) (c : wrp_crud) (uuid source dest : cstring) :
  @carries (wrp_answers op c uuid source dest) op uuid source dest.
Proof.
  intros r Hr. exists "encoded"%cs, (response_of uuid source dest). split; [done|]. split; [done|].
  split; [cbn; by rewrite decide_False by done|]. by split_and!.
Qed.

Definition own_world : World :=
  crud_world <| parodusCfg := (parodusCfg crud_world) <| hw_mac := "14cfe2142xxx" |>
                                                      <| cloud_status := Some CLOUD_STATUS_ONLINE |> |>.

Definition system_of (w : World) : system :=
  mk_system w tasks false true (mk_servers (mk_server None 0 0) (mk_server None 0 0) (mk_server None 0 0)) (mk_locals false true).

Example self_addressed_retrieve_witness :
  let self := "mac:14cfe2142xxx/parodus/hw-mac"%cs in
  let s := system_of (own_world <| crudMsgQ := [WRP_CRUD RETREIVE (response_of "1" self self)] |>
                                <| g_shutdown := true |>) in
  @schedule (wrp_answers RETREIVE crud_zero "1" self self) cjson_example nopoll_b64 no_credentials env_ok
    mem_example false true 180000 20 5 7 "alive" (concat (replicate 1000 [crud_tid; upstream_msg_tid])) s = Done s.
Proof.
  cbn zeta. set (self := "mac:14cfe2142xxx/parodus/hw-mac"%cs).
  apply (@self_addressed_retrieve (wrp_answers RETREIVE crud_zero "1" self self) (wrp_answers_laws _ _ _ _ _)
    cjson_example nopoll_b64 no_credentials env_ok mem_example false true 180000 20 1000 5 7 "alive" "1" self).
  - split; by_eval.
  - reflexivity.
  - reflexivity.
  - reflexivity.
  - split; [discriminate|by_eval].
  - split; vm_compute; reflexivity.
  - apply wrp_answers_carries.
  - eexists. vm_compute. reflexivity.
Defined.

Definition update_example : wrp_crud := crud_example UPDATE (Some payload_text).
Definition served_world : World := own_world <| ParodusMsgQ := [Some ("raw"%cs)] |>.

Lemma served_world_wf : @store_wf cjson_example served_world.
Proof.
  destruct (@the_store_printed cjson_example cjson_example_laws tags_example served_world) as [Hwf _];
    [done|vm_compute; reflexivity|exact tags_example_ok|exact Hwf].
Qed.

Lemma update_example_request (uuid source dest : cstring) :
  @tag_request (wrp_answers UPDATE update_example uuid source dest) (WRP_CRUD UPDATE update_example) "test1".
Proof. split; [done|by eexists|by eexists|done|done|by_eval|by_eval]. Qed.

Example tag_request_served_witness :
  let uuid := "1234"%cs in
  let server := "dns:tr1d1um.example.com"%cs in
  let tag := "mac:14cfe2142xxx/parodus/tag/test1"%cs in
  ∃ s1 s2 new,
    @schedule (wrp_answers UPDATE update_example uuid tag server) cjson_example nopoll_b64 no_credentials env_ok
      mem_example false true 180000 20 5 7 "alive" [downstream_tid; crud_tid] (system_of served_world) = Done s1 /\
    @schedule (wrp_answers UPDATE update_example uuid tag server) cjson_example nopoll_b64 no_credentials env_ok
      mem_example false true 180000 20 5 7 "alive" [upstream_msg_tid] s1 = Done s2 /\
    @the_store cjson_example (world s1) = Tags "tags"
      [("test0"%cs, JObject [("expires"%cs, JNumber 7 (inject_Z 7))]); ("test1"%cs, JObject payload_example)] /\
    trace (world s2) = (trace (world s1) ++ new)%list /\
    frames_sent new = [("encoded"%cs, true, NOPOLL_BINARY_FRAME)].
Proof.
  cbn zeta. set (uuid := "1234"%cs). set (server := "dns:tr1d1um.example.com"%cs).
  set (tag := "mac:14cfe2142xxx/parodus/tag/test1"%cs).
  destruct (@tag_request_served (wrp_answers UPDATE update_example uuid tag server) (wrp_answers_laws _ _ _ _ _)
    (wrp_answers_elements _ _ _ _ _) cjson_example cjson_example_laws nopoll_b64 no_credentials env_ok mem_example
    false true 180000 20 5 7 "alive" (system_of served_world) "raw" UPDATE update_example "test1" uuid server tag
    "mac:14cfe2142xxx" ["tag"; "test1"]%cs payload_example)
    as (s1 & s2 & resp & b & k & new & R1 & R2 & Hst & _ & _ & Hb & _ & _ & _ & _ & _ & Ht & Hf).
  - split; [|split]; by_eval.
  - split; [|split]; reflexivity.
  - reflexivity.
  - discriminate.
  - split; [|split]; reflexivity.
  - vm_compute. reflexivity.
  - by_eval.
  - exact I.
  - apply update_example_request.
  - intros _. vm_compute. reflexivity.
  - exact payload_example_ok.
  - exact served_world_wf.
  - apply wrp_answers_carries.
  - right. split; [discriminate|]. split; by_eval.
  - vm_compute. reflexivity.
  - exists s1, s2, new. split; [exact R1|]. split; [exact R2|].
    assert (Hspec : spec_request UPDATE (@crud_file_opens env_ok served_world)
        (@the_store cjson_example served_world) "test1" payload_example =
      (201, Tags "tags" [("test0"%cs, JObject [("expires"%cs, JNumber 7 (inject_Z 7))]);
                         ("test1"%cs, JObject payload_example)])) by (vm_compute; reflexivity).
    cbn zeta in Hst. change (world (system_of served_world)) with served_world in Hst. rewrite Hspec in Hst.
    injection Hst as _ Hs. split; [exact Hs|]. split; [exact Ht|].
    injection Hb as <-. cbn in Hf.
    assert (frames (@appendEncodedData (wrp_answers UPDATE update_example uuid tag server) "encoded" None (2 ^ 64 - 1))
            = [("encoded"%cs, true, NOPOLL_BINARY_FRAME)]) as Hfr by (vm_compute; reflexivity).
    cbn in Hfr. rewrite Hfr in Hf. destruct Hf as [[_ Hf]|[Hk Hf]]; [exact Hf|].
    destruct k; [exact Hf|cbn in Hk; inversion Hk as [|? Hk2]; inversion Hk2].
Defined.
