(* ===== verification/Payloads.v ===== *)
(** * upstream.c: who frees the payload of a message

    The queue of the clients' messages holds two kinds of payloads: what [nn_recv] has
    allocated for a client's message, and what the CRUD task has got from libc for an
    answer. Behind a message [processUpstreamMessage] frees its payload with [free] or
    with [nn_freemsg], and tells the two by the source of the message. *)

From S2P Require Import Prelude Config Wrp World ClientList Upstream Cjson Crud Downstream Connection ConnInterface System Requests.
Local Open Scope cs_scope.
Local Open Scope Z_scope.

Inductive allocator : Set := from_nanomsg | from_libc.
#[export] Instance allocator_eq_dec : EqDecision allocator. Proof. solve_decision. Defined.

Section payloads.
Context `{WrpLib}.

(** Whose function frees the payload. Before the first decoded message [msg] is not
    initialised; later it is NULL unless the message has been decoded. *)
Definition freed_by (first : bool) (raw : bytes) : outcome allocator :=
  match wrp_to_struct raw with
  | None => if first then Undef else Done from_nanomsg
  | Some msg =>
      match crud_source (crud_view msg) with
      | None => Done from_nanomsg
      | Some source => Done (if wrp_does_service_match PARODUS_SERVICE_NAME source then from_libc else from_nanomsg)
      end
  end.

(** A block goes back to where it came from; anything else is undefined. *)
Definition release (origin : allocator) (first : bool) (raw : bytes) : outcome unit :=
  f ← freed_by first raw; if decide (f = origin) then Done tt else Undef.
End payloads.

(** ** Lemmas *)

(** The answer to a request of the CRUD task: its source is the request's destination. *)
Lemma answer_freed_by `{WrpLaws} `{CjsonLib} (env : oracle) (op : crud_op) (c : wrp_crud)
    (uuid source dest : cstring) (first : bool) (w w' : World) (ret : Z) (m : wrp_msg_t) :
  addressed uuid source dest c → carries op uuid dest source →
  processCrudRequest env (WRP_CRUD op c) w = Done ((ret, m), w') →
  ∃ b, wrp_struct_to m = Some b /\
    freed_by first b = Done (if wrp_does_service_match PARODUS_SERVICE_NAME dest then from_libc else from_nanomsg).
Proof.
  intros Hc Hcarries Hr. destruct (answer_addressed env op c uuid source dest w w' ret m Hc Hr) as (r & -> & Ha).
  destruct (Hcarries r Ha) as (b & r' & Hb & _ & Hdec & _ & Hs & _). exists b. split; [done|].
  unfold freed_by. by rewrite Hdec, crud_view_crud, Hs.
Qed.

(** ** Properties *)

(** The payload of an answer is given back to libc, which it came from, exactly when the
    service in the request's destination is parodus for the library; the payload of a
    client's message is given back to nanomsg exactly when its source is not. *)
Theorem payload_released `{WrpLaws} `{CjsonLib} (env : oracle) (op : crud_op) (c : wrp_crud)
    (uuid source dest : cstring) (first : bool)
    (Hc : addressed uuid source dest c) (Hcarries : carries op uuid dest source) :
  (∀ w w' ret m, processCrudRequest env (WRP_CRUD op c) w = Done ((ret, m), w') →
     ∃ b, wrp_struct_to m = Some b /\
       release from_libc first b = if wrp_does_service_match PARODUS_SERVICE_NAME dest then Done tt else Undef) /\
  (∀ raw, wrp_to_struct raw = Some (WRP_CRUD op c) →
     release from_nanomsg first raw = if wrp_does_service_match PARODUS_SERVICE_NAME source then Undef else Done tt).
Proof.
  split.
  - intros w w' ret m Hr.
    destruct (answer_freed_by env op c uuid source dest first w w' ret m Hc Hcarries Hr) as (b & Hb & Hf).
    exists b. split; [done|]. unfold release. rewrite Hf. by destruct (wrp_does_service_match _ _).
  - intros raw Hraw. destruct Hc as (_ & Hs & _). unfold release, freed_by. rewrite Hraw, crud_view_crud, Hs.
    by destruct (wrp_does_service_match _ _).
Qed.

(** A client's retrieval for mac:.../parodux is taken for this process, since only the
    first six characters of the service are compared, and its answer is queued; behind the
    answer [nn_freemsg] gets a payload that libc has allocated. *)
Theorem prefix_answer_misfreed `{WrpLaws} `{CjsonLib} (env : oracle) (c : wrp_crud) (raw : bytes)
    (uuid source self : cstring) (w : World)
    (Hc : addressed uuid source self c)
    (Hmac : hw_mac (parodusCfg w) ≠ [] /\ (length (hw_mac (parodusCfg w)) <= 59)%nat)
    (Hself : addresses_parodus (hw_mac (parodusCfg w)) self)
    (Hservice : wrp_does_service_match PARODUS_SERVICE_NAME self = false)
    (Hqueues : crudMsgQ w = [] /\ UpStreamMsgQ w = []) (Hcarries : carries RETREIVE uuid self source)
    (Hdefined : ∃ r, processCrudRequest env (createUpstreamRetrieveMsg RETREIVE c) w = Done r) :
  ∃ w1 w2 b, process_crud env RETREIVE c raw w = Done (tt, w1) /\
    CRUDHandlerTask_turn env w1 = Done (false, w2) /\ UpStreamMsgQ w2 = [b] /\
    ∀ first, release from_libc first b = Undef.
Proof.
  destruct Hmac as [Hm Hl], Hqueues as [Hq Hup], Hdefined as [[[ret m] w0] Hr]. pose proof Hc as (Eu & Es & Ed).
  set (req := response_of uuid source self).
  assert (createUpstreamRetrieveMsg RETREIVE c = WRP_CRUD RETREIVE req) as Hreq
    by (unfold createUpstreamRetrieveMsg; by rewrite Eu, Es, Ed).
  rewrite Hreq in Hr. assert (addressed uuid source self req) as Hreq' by (by split_and!).
  destruct (retrieve_answer env uuid source self w w0 ret m Hr) as (-> & r & -> & Ha).
  destruct (Hcarries r Ha) as (b & _ & Hb & _).
  eexists _, _, b. split; [by apply (own_retrieve_run env c raw self w)|]. rewrite Hq, Hreq. split; [|split].
  - eapply (crud_turn_run env RETREIVE req r [] ret b); [done| |exact Hb].
    replace (_ <| crudMsgQ := [] |>) with w by (destruct w; cbn in *; by subst). exact Hr.
  - by rewrite Hup.
  - intros first. destruct (answer_freed_by env RETREIVE req uuid source self first w w ret _ Hreq' Hcarries Hr) as (b' & Hb' & Hf).
    rewrite Hb in Hb'. injection Hb' as <-. unfold release. by rewrite Hf, Hservice.
Qed.

(** ** Witnesses *)

Example payload_released_witness :
  let self := "mac:14cfe2142xxx/parodus/hw-mac"%cs in
  let c := response_of "1" "mac:14cfe2142xxx/iot" self in
  @release (wrp_answers RETREIVE c "1" self "mac:14cfe2142xxx/iot") from_nanomsg true "raw" = Done tt.
Proof.
  cbn zeta. set (self := "mac:14cfe2142xxx/parodus/hw-mac"%cs). set (c := response_of "1" "mac:14cfe2142xxx/iot" self).
  destruct (@payload_released (wrp_answers RETREIVE c "1" self "mac:14cfe2142xxx/iot") (wrp_answers_laws _ _ _ _ _)
    cjson_example env_ok RETREIVE c "1" "mac:14cfe2142xxx/iot" self true) as [_ H].
  - split; [|split]; reflexivity.
  - apply wrp_answers_carries.
  - exact (H "raw"%cs eq_refl).
Defined.

Example prefix_answer_misfreed_witness :
  let self := "mac:14cfe2142xxx/parodux/hw-mac"%cs in
  ∃ w2 b, UpStreamMsgQ w2 = [b] /\
    @release (wrp_answers RETREIVE crud_zero "1" self "mac:14cfe2142xxx/iot") from_libc false b = Undef.
Proof.
  cbn zeta. set (self := "mac:14cfe2142xxx/parodux/hw-mac"%cs).
  destruct (@prefix_answer_misfreed (wrp_answers RETREIVE crud_zero "1" self "mac:14cfe2142xxx/iot")
    (wrp_answers_laws _ _ _ _ _) cjson_example env_ok (response_of "1" "mac:14cfe2142xxx/iot" self) "raw" "1"
    "mac:14cfe2142xxx/iot" self own_world) as (w1 & w2 & b & _ & _ & Hq & Hr).
  - split; [|split]; reflexivity.
  - split; [discriminate|by_eval].
  - split; vm_compute; reflexivity.
  - reflexivity.
  - split; reflexivity.
  - apply wrp_answers_carries.
  - eexists. vm_compute. reflexivity.
  - exists w2, b. split; [exact Hq|exact (Hr false)].
Defined.
