(* ===== verification/Shutdown.v ===== *)
(** * The end of the process

    A thread ends its loop only when it has seen [g_shutdown]; the main thread takes the
    process down when the others have ended. *)

From S2P Require Import Prelude StringHelpers Timers Config Wrp World ClientList ServiceAlive Nopoll Upstream Cjson Crud Downstream Connection ConnInterface System Requests.
Local Open Scope cs_scope.
Local Open Scope Z_scope.

(** ** Lemmas *)

(** The thread has come to its end. *)
Definition ended (t : task) (s : system) : Prop := t ∉ live s.

(** A turn that ends its thread has read the flag as set. *)
Definition ends_by_flag (m : M World bool) : Prop := ∀ w w', m w = Done (true, w') → shut w'.

Section flags.
Context `{WrpLib} `{CjsonLib} (env : oracle).
#[local] Hint Resolve flag_set_free : keeps.

Lemma ends_bind {A} (m : M World A) (f : A → M World bool) :
  (∀ a, ends_by_flag (f a)) → ends_by_flag (x ← m; f x).
Proof. intros Hf w w' (a & w1 & _ & Hr)%bind_inv. by apply (Hf a w1 w'). Qed.

Lemma ends_false : ends_by_flag (mret false).
Proof. by intros w w' [=]. Qed.

Lemma flag_read (w w' : World) (b : bool) : read_g_shutdown env w = Done (b, w') → b = true → shut w'.
Proof.
  run_m. destruct (g_shutdown w) eqn:Hs; intros [= <- <-]; [done|]. done.
Qed.

(** The test at the end of the consumers' turns. *)
Lemma ends_test (m : M World bool) :
  ends_by_flag m → ends_by_flag (stop ← read_g_shutdown env; if (stop : bool) then mret true else m).
Proof.
  intros Hm w w' ([] & w1 & H1 & H2)%bind_inv; [|by apply (Hm w1 w')].
  injection H2 as <-. by apply (flag_read w w1 true).
Qed.

Lemma ends_wait (secs : Z) : ends_by_flag (wait__ env secs).
Proof.
  unfold wait__. apply ends_bind; intros t. apply ends_bind; intros r. intros w w' Hr. by apply (flag_read w w' true).
Qed.

Lemma receiver_ends (s e : Z) : ends_by_flag (receiver_turn env s e).
Proof.
  intros w w' (stop & w1 & H1 & H2)%bind_inv. unfold handle_upstream_turn in H1.
  apply bind_inv in H1 as (buf & w2 & _ & H1). apply bind_inv in H1 as (flag & w3 & Hf & H1).
  destruct flag; [|destruct buf; [apply bind_inv in H1 as (u & w4 & _ & H1)|]; by injection H1 as <- <-].
  injection H1 as <- <-. pose proof (flag_read w2 w3 true Hf eq_refl) as Hs.
  refine (keeps_run shut _ _ _ _ Hs H2 _). keeps.
Qed.

Lemma downstream_ends : ends_by_flag (messageHandlerTask_turn env).
Proof.
  apply ends_bind; intros [|m q].
  - apply ends_test, ends_bind. intros r. apply ends_false.
  - apply ends_bind; intros u. apply ends_bind; intros u'. apply ends_false.
Qed.

Lemma crud_ends : ends_by_flag (CRUDHandlerTask_turn env).
Proof.
  apply ends_bind; intros [|m q].
  - apply ends_test, ends_bind. intros r. apply ends_false.
  - apply ends_bind; intros u. apply ends_bind; intros [ret resp]. destruct (wrp_struct_to resp); [|by intros w w' [=]].
    apply ends_bind; intros u'. apply ends_false.
Qed.

Lemma alive_ends (b : bytes) : ends_by_flag (serviceAlive_turn env b).
Proof.
  apply ends_bind; intros n. destruct (0 <? n); [|apply ends_wait].
  apply ends_bind; intros l. apply ends_bind; intros u. apply ends_wait.
Qed.

Lemma consumer_ends (v v' : upstream_locals) (w w' : World) :
  processUpstreamMessage_turn env v w = Done ((true, v'), w') → shut w'.
Proof.
  intros (q & w1 & _ & Hr)%bind_inv. destruct q as [|raw rest].
  - apply bind_inv in Hr as (stop & w2 & Hf & Hr). destruct stop.
    + injection Hr as _ <-. by apply (flag_read w1 w2 true).
    + apply bind_inv in Hr as (u & w3 & _ & [=]).
  - apply bind_inv in Hr as (u & w2 & _ & Hr). apply bind_inv in Hr as (u' & w3 & _ & [=]).
Qed.

(** No thread takes the flag back. *)
Lemma shut_receiver (s e : Z) : keeps shut (receiver_turn env s e).
Proof. unfold receiver_turn, handle_upstream_turn, enqueue_upstream. keeps. Qed.

Lemma shut_downstream : keeps shut (messageHandlerTask_turn env).
Proof. unfold messageHandlerTask_turn, listenerOnMessage, deliver, route, addCRUDmsgToQueue. keeps. Qed.

Lemma shut_crud : keeps shut (CRUDHandlerTask_turn env).
Proof. unfold CRUDHandlerTask_turn, addCRUDresponseToUpstreamQ, enqueue_upstream. keeps. Qed.

Lemma shut_alive (b : bytes) : keeps shut (serviceAlive_turn env b).
Proof.
  unfold serviceAlive_turn, get_numOfClients. keeps. generalize (sweep_fuel (length a0)) as fuel. intros fuel.
  generalize 0%nat as i. induction fuel as [|n IH]; intros i; cbn [sweep]; keeps. unfold deleteFromList. keeps.
Qed.

Lemma shut_consumer (v : upstream_locals) : keeps shut (processUpstreamMessage_turn env v).
Proof.
  unfold processUpstreamMessage_turn, process_upstream, process_message. keeps.
  - unfold process_crud, getDeviceId, getServiceNameAndSendResponse, dest_is_parodus, addCRUDmsgToQueue. keeps.
  - unfold process_registration, get_numOfClients, addToList, sendAuthStatus. keeps.
    match goal with |- context [reconnect_loop _ ?l _] => generalize l as k; intros k end. induction k as [|x k IH]; cbn [reconnect_loop]; keeps.
    unfold reconnect_node, sendAuthStatus. keeps.
Qed.
End flags.

(** ** The system *)

Section process_end.
Context `{WrpLib} `{CjsonLib} `{NopollLib} `{CredentialsLaws} (env : oracle).
Context (mem : list event → cstring → url_memory) (dns_query seshat_enabled : bool).
Context (timeout : Z) (turns : nat) (rcv_sock rcv_bind : Z) (svc_bytes : bytes).

(* the threads that have not got as far as their loops *)
Context (failed : task → Prop) (Hmsg : ~ failed upstream_msg_tid).

(** Which threads have ended, and what that says. *)
Definition ended_ok (s : system) : Prop :=
  (∀ t, t ∉ live s → failed t \/ shut (world s)) /\
  (main_thread ∉ live s → live s = [] /\ g_head (world s) = [] /\ numOfClients (world s) <= 0).

Lemma ended_task (t : task) (m : M World bool) (s s' : system) :
  t ≠ main_thread → main_thread ∈ live s → keeps shut m → ends_by_flag m →
  task_turn t m s = Done s' → ended_ok s → ended_ok s'.
Proof.
  intros Ht Hmain Hm He Hr [Hs _]. unfold task_turn in Hr.
  destruct (m (world s)) as [[stop w]| |] eqn:Hw; [|done|done]. destruct stop; injection Hr as <-; split; cbn.
  - intros ? _. right. by apply (He (world s) w).
  - intros Hno. destruct Hno. apply list_elem_of_filter. by split.
  - intros t' Ht'. destruct (Hs t' Ht') as [Hfd|Hsh]; [by left|right]. by apply (Hm (world s) false w).
  - done.
Qed.

Lemma ended_step (s s' : system) :
  sys_step env mem dns_query seshat_enabled timeout turns rcv_sock rcv_bind svc_bytes s s' → ended_ok s → ended_ok s'.
Proof.
  intros [t Ht Hen Hr] Hok.
  assert (main_thread ∈ live s) as Hmain.
  { destruct (decide (main_thread ∈ live s)) as [|Hno]; [done|]. apply Hok in Hno as [Hl _]. rewrite Hl in Ht.
    by apply elem_of_nil in Ht. }
  destruct t; cbn [turn] in Hr.
  - destruct Hok as [Hs _]. unfold main_turn in Hr. cbn in Hen. destruct (main_joins s) eqn:Hj.
    + specialize (Hen eq_refl). destruct (take_down env (world s)) as [[[] w]| |] eqn:Hw; [|done|done].
      injection Hr as <-. apply taken_down in Hw as (Hg & Hh & Hn & _). split; cbn.
      * intros ? _. right. unfold framed, flag_set. rewrite Hg.
        destruct (Hs upstream_msg_tid) as [|Hsh]; [rewrite Hen; by apply (bool_decide_unpack _)|done|exact Hsh].
      * intros _. rewrite Hen. split; [done|]. split; [done|lia].
    + destruct (event_loop_turn _ _ _ _ _ _ _ _ (world s)) as [[[[go reg] l] w]| |] eqn:Hw; [|done|done].
      injection Hr as <-. split; cbn; [|done]. intros t Hno. destruct (Hs t Hno) as [Hfd|Hsh]; [by left|right].
      eapply framed_event_loop_turn; [apply flag_set_free|exact Hsh|exact Hw].
  - by eapply ended_task; [..|exact Hr|exact Hok]; [done|done|apply shut_receiver|apply receiver_ends].
  - destruct Hok as [Hs _]. unfold consumer_turn in Hr.
    destruct (processUpstreamMessage_turn env (msg_locals s) (world s)) as [[[stop v] w]| |] eqn:Hw; [|done|done].
    destruct stop; injection Hr as <-; split; cbn.
    + intros ? _. right. by apply (consumer_ends env (msg_locals s) v (world s) w).
    + intros Hno. destruct Hno. apply list_elem_of_filter. by split.
    + intros t Hno. destruct (Hs t Hno) as [Hfd|Hsh]; [by left|right].
      eapply (shut_consumer env); [exact Hsh|exact Hw].
    + done.
  - by eapply ended_task; [..|exact Hr|exact Hok]; [done|done|apply shut_downstream|apply downstream_ends].
  - by eapply ended_task; [..|exact Hr|exact Hok]; [done|done|apply shut_alive|apply alive_ends].
  - by eapply ended_task; [..|exact Hr|exact Hok]; [done|done|apply shut_crud|apply crud_ends].
Qed.
End process_end.

(** ** Properties *)

(** C34. Whatever the order of the threads' turns: a thread has ended only after the process
    has been asked to shut down, which is not taken back, or it has never got as far as its
    loop: the receiver without a socket that is bound, and the keep-alive thread without
    an encoded message. When the main thread has ended the process has been asked to shut
    down, all the others have ended, and no client is left in the list. *)
Theorem threads_end_by_shutdown `{WrpLib} `{CjsonLib} `{NopollLib} `{CredentialsLaws} (env : oracle)
    (mem : list event → cstring → url_memory) (dns_query seshat_enabled : bool) (timeout : Z) (turns : nat)
    (rcv_sock rcv_bind : Z) (svc_bytes : bytes) (w0 : World) (s0 s : system)
    (Hstart : started env mem dns_query seshat_enabled turns rcv_sock rcv_bind svc_bytes w0 s0)
    (Hsteps : rtc (sys_step env mem dns_query seshat_enabled timeout turns rcv_sock rcv_bind svc_bytes) s0 s) :
  (∀ t, ended t s → g_shutdown (world s) = true \/
     (t = upstream_tid /\ ∃ w w', handle_upstream_start env w = Done (None, w')) \/
     (t = svc_alive_tid /\ wrp_struct_to WRP_SVC_ALIVE = None)) /\
  (ended main_thread s →
     g_shutdown (world s) = true /\ (∀ t, ended t s) /\ g_head (world s) = [] /\ numOfClients (world s) <= 0).
Proof.
  set (failed := λ t, (t = upstream_tid /\ ∃ w w', handle_upstream_start env w = Done (None, w')) \/
     (t = svc_alive_tid /\ wrp_struct_to WRP_SVC_ALIVE = None)).
  assert (~ failed upstream_msg_tid) as Hmsg by (by intros [[? _]|[? _]]).
  assert (ended_ok failed s0) as Hok.
  { destruct Hstart as (reg & l & w & bound & w' & _ & Hb & _ & _ & ->). split; cbn [live world].
    - intros t Hno. left. destruct (decide (gets_going bound (wrp_struct_to WRP_SVC_ALIVE) t)) as [Hg|Hg].
      + destruct Hno. by apply running_spec.
      + unfold failed. destruct t; cbn in Hg; try tauto; [left|right]; (split; [done|]).
        * destruct bound; [by destruct Hg|by eexists _, _].
        * by destruct (wrp_struct_to WRP_SVC_ALIVE); [destruct Hg|].
    - intros Hno. destruct Hno. by apply running_spec. }
  clear Hstart. enough (ended_ok failed s) as [E1 E2].
  { split; [intros t Ht; destruct (E1 t Ht); [by right|by left]|]. intros Hm. destruct (E2 Hm) as (Hl & Hrest).
    split; [destruct (E1 main_thread Hm) as [[[? _]|[? _]]|Hs]; [done..|exact Hs]|]. split; [|exact Hrest].
    intros t. unfold ended. rewrite Hl. apply not_elem_of_nil. }
  induction Hsteps as [|s1 s2 s3 Hs _ IH]; [done|]. apply IH. by eapply ended_step.
Qed.

(** ** Witness *)

(** The flag is raised once the upstream thread receives. *)
Definition receives (e : event) : bool := match projT1 e with nn_recv _ => true | _ => false end.
Definition env_stops : oracle := λ h c,
  match c as c return ans c with
  | sys_g_shutdown => existsb receives h
  | c => env_ok h c
  end.

Definition last_turns : list task :=
  [upstream_tid; upstream_msg_tid; downstream_tid; svc_alive_tid; main_thread; crud_tid; main_thread].

Example threads_end_by_shutdown_witness :
  ∃ s0 s, @started wrp_example cjson_example nopoll_b64 no_credentials env_stops mem_example false true 20
      0 0 "alive" process_world s0 /\
    rtc (@sys_step wrp_example cjson_example nopoll_b64 no_credentials env_stops mem_example false true
      180000 20 0 0 "alive") s0 s /\
    live s = [] /\ g_head (world s) = [].
Proof.
  destruct (@startup wrp_example cjson_example nopoll_b64 no_credentials env_stops mem_example false true 20
    true process_world) as [[[[reg l]|] w]| |] eqn:Hs; [|vm_compute in Hs; discriminate Hs..].
  destruct (handle_upstream_start env_stops w) as [[bound w']| |] eqn:Hb.
  2,3: exfalso; revert Hb; vm_compute in Hs; injection Hs as <- <- <-; vm_compute; discriminate.
  assert (bound = Some (0, 0)) as ->.
  { revert Hb. vm_compute in Hs. injection Hs as <- <- <-. vm_compute. by intros [= <- _]. }
  set (s0 := mk_system w' tasks false reg l locals_start).
  destruct (@schedule wrp_example cjson_example nopoll_b64 no_credentials env_stops mem_example false true
      180000 20 0 0 "alive" last_turns s0) as [s| |] eqn:Hr.
  2,3: exfalso; revert Hr; unfold s0; clear s0; vm_compute in Hs; injection Hs as <- <- <-;
    vm_compute in Hb; injection Hb as <-; vm_compute; discriminate.
  assert (live s = []) as Hl.
  { revert Hr. unfold s0. clear s0. vm_compute in Hs. injection Hs as <- <- <-. vm_compute in Hb. injection Hb as <-.
    vm_compute. by intros [= <-]. }
  apply schedule_steps in Hr.
  assert (@started wrp_example cjson_example nopoll_b64 no_credentials env_stops mem_example false true 20
    0 0 "alive" process_world s0) as Hst.
  { exists reg, l, w, (Some (0, 0)), w'. split; [exact Hs|]. split; [exact Hb|]. split; [by right|].
    split; [by right|reflexivity]. }
  destruct (@threads_end_by_shutdown wrp_example cjson_example nopoll_b64 no_credentials no_credentials_laws env_stops mem_example
    false true 180000 20 0 0 "alive" process_world s0 s Hst Hr) as [_ H].
  exists s0, s. split; [exact Hst|]. split; [exact Hr|]. split; [exact Hl|].
  assert (main_thread ∉ live s) as Hno by (rewrite Hl; apply not_elem_of_nil). exact (proj1 (proj2 (proj2 (H Hno)))).
Defined.

(** A request to disconnect that the CRUD task carries out between the main thread's look at
    [close_retry] behind the wait and the one at the end of the loop ends the loop of a
    process that nobody shuts down: the main thread waits for the others, which go on, and
    the connection is left open with nobody who reads from it. *)
Example disconnect_strands_process :
  let s := system_of (own_world <| g_conn := Some 1 |>) in
  ∃ s', @schedule wrp_example cjson_example nopoll_b64 no_credentials env_disconnect
      mem_example false true 180000 20 5 7 "alive" [main_thread] s = Done s' /\
    main_joins s' = true /\ live s' = tasks /\ ~ enabled main_thread s' /\
    g_shutdown (world s') = false /\ g_conn (world s') = Some 1.
Proof.
  eexists. split; [vm_compute; reflexivity|]. repeat (split; [reflexivity|]). split; [|by split].
  intros Hl. specialize (Hl eq_refl). discriminate Hl.
Qed.

(** The upstream thread ends when its queue is empty, although the CRUD task may still be
    working on a request: the answer is queued behind the thread's end and never sent. *)
Example answer_lost_at_shutdown :
  let req := WRP_CRUD RETREIVE (response_of "1" "mac:14cfe2142xxx/iot" "mac:14cfe2142xxx/parodus/hw-mac") in
  let s := system_of (own_world <| crudMsgQ := [req] |> <| g_shutdown := true |>) in
  ∃ s', @schedule (wrp_answers RETREIVE crud_zero "1" "" "") cjson_example nopoll_b64 no_credentials env_ok
      mem_example false true 180000 20 5 7 "alive"
      [upstream_tid; upstream_msg_tid; downstream_tid; svc_alive_tid; crud_tid; crud_tid; main_thread; main_thread] s
      = Done s' /\ live s' = [] /\ UpStreamMsgQ (world s') = ["encoded"%cs].
Proof. eexists. split; [vm_compute; reflexivity|]. by split. Qed.
