(* ===== verification/Service.v ===== *)
(** * What the process does for a registered client

    A client in the list gets the server's messages for its service, and it stays in the
    list until it does not take a keep-alive message or the process ends. *)

From S2P Require Import Prelude StringHelpers Timers Config Wrp Partners World ClientList ServiceAlive Nopoll Upstream Cjson Crud Downstream Connection ConnInterface System.
Local Open Scope cs_scope.
Local Open Scope Z_scope.

(** ** Specification *)

(** No client and no message yet. *)
Definition starts_empty (w : World) : Prop :=
  g_head w = [] /\ numOfClients w = 0 /\ UpStreamMsgQ w = [] /\ crudMsgQ w = [].

(** A send of the message that has not taken it whole, to a client of the list. *)
Definition refused (b : bytes) (n : cstring) (l : list reg_list_item_t) (tr : list event) : Prop :=
  ∃ c a, c ∈ l /\ service_name c = n /\ a ≠ Z.of_nat (length b) /\ ev (nn_send (sock c) b) a ∈ tr.

(** ** Lemmas *)

(** A client of this name is in the list. *)
Abbreviation listed n := (on_clients (λ l _, n ∈ map service_name l)).

Section listed.
Context `{WrpLib} `{CjsonLib} (env : oracle) (n : cstring).

Lemma listed_free : flag_free (λ _ l _ _ _, n ∈ map service_name l).
Proof. by intros s b l k u c _ Hc. Qed.
#[local] Hint Resolve listed_free : keeps.

Lemma listed_addToList (reg : wrp_reg) : keeps (listed n) (addToList env reg).
Proof.
  unfold addToList, sendAuthStatus. keeps. apply keeps_modify. intros w Hn.
  change (n ∈ map service_name (g_head w ++ [mk_item a a1 (parStrncpy (reg_service_name reg) 32)
    (parStrncpy (reg_url reg) 100)])).
  rewrite map_app. apply elem_of_app. by left.
Qed.

Lemma listed_registration (ack : bytes) (reg : wrp_reg) :
  wrp_struct_to (WRP_AUTH 200) = Some ack → keeps (listed n) (process_registration env reg).
Proof.
  intros Hack. unfold process_registration, get_numOfClients. apply keeps_bind; [keeps|intros k].
  intros w u w' Hn Hr. inv_bind Hr l w1 R1. injection R1 as <- <-. inv_bind Hr flag w2 R2.
  assert (listed n w2) as Hn2.
  { destruct (negb (k =? 0)); [|by injection R2 as _ <-].
    destruct (reconnect_loop_run env ack reg (g_head w) w Hack) as (l' & flag' & w3 & Hl & _ & Hnames & _).
    rewrite (bind_Done _ _ _ _ _ Hl) in R2. injection R2 as _ <-.
    change (n ∈ map service_name l'). rewrite Hnames. exact Hn. }
  refine (keeps_run _ _ _ _ _ Hn2 Hr _). keeps; apply listed_addToList.
Qed.

Lemma listed_consumer (ack : bytes) (v : upstream_locals) :
  wrp_struct_to (WRP_AUTH 200) = Some ack → keeps (listed n) (processUpstreamMessage_turn env v).
Proof.
  intros Hack. unfold processUpstreamMessage_turn, process_upstream, process_message. keeps.
  - apply (clients_crud_message env (λ l _, n ∈ map service_name l)).
  - by apply (listed_registration ack).
Qed.
End listed.

Section sweeps.
Context (env : oracle) (b : bytes) (n : cstring).

Lemma refused_more (l l' : list reg_list_item_t) (tr tr' : list event) :
  sublist l l' → (∀ e, e ∈ tr → e ∈ tr') → refused b n l tr → refused b n l' tr'.
Proof.
  intros Hl Ht (c & a & Hc & Hn & Ha & He). exists c, a. split; [by eapply elem_of_sublist|]. split_and!; [done..|by apply Ht].
Qed.

(** A sweep lets nobody go who has not refused. *)
Lemma sweep_refused (fuel i : nat) (w w' : World) :
  sweep env fuel b i w = Done (tt, w') →
  ∃ tr, trace w' = trace w ++ tr /\ sublist (g_head w') (g_head w) /\
    (n ∈ names w → n ∉ names w' → refused b n (g_head w) tr).
Proof.
  revert i w. induction fuel as [|fuel IH]; intros i w; [done|]. cbn [sweep]. intros Hr.
  inv_bind Hr l w1 R1. injection R1 as <- <-. destruct (g_head w !! i) as [c|] eqn:Hc.
  2:{ injection Hr as <-. exists []. rewrite app_nil_r. by split_and!. }
  inv_bind Hr byte w1 R1. assert (g_head w1 = g_head w) as Hh by (by injection R1 as _ <-).
  assert (trace w1 = trace w ++ [ev (nn_send (sock c) b) byte]) as Ht by (by injection R1 as <- <-). clear R1.
  destruct (Z.eqb_spec byte (Z.of_nat (length b))) as [Hb|Hb].
  { apply IH in Hr as (tr & Htr & Hs & Hn). rewrite Hh in Hs. eexists. split; [by rewrite Htr, Ht, <-app_assoc|]. split; [done|].
    unfold names in *. rewrite Hh in Hn. intros H1 H2. apply (refused_more (g_head w) _ tr); [done|intros e He; apply elem_of_app; by right|by apply Hn]. }
  inv_bind Hr ret w2 R2. rewrite deleteFromList_run, Hh in R2.
  destruct (unlink_in (service_name c) (g_head w) c) as (c' & l' & Hu); [by eapply list_elem_of_lookup_2|done|].
  pose proof (unlink_spec (service_name c) (g_head w)) as Hspec. rewrite Hu in R2, Hspec.
  destruct Hspec as (x & y & Hl & -> & Hc' & _). cbv zeta in R2. injection R2 as <- <-. rewrite Z.eqb_refl in Hr.
  apply IH in Hr as (tr & Htr & Hs & Hn). unfold names in *.
  match type of Htr with _ = trace ?v ++ _ => change (g_head v) with (x ++ y) in *; set (tr1 := trace v) in Htr end.
  unfold tr1 in Htr. cbn [trace over] in Htr. rewrite Ht in Htr. eexists. split; [rewrite Htr, <-!app_assoc; reflexivity|].
  assert (sublist (x ++ y) (g_head w)) as Hsub by (rewrite Hl; apply sublist_app; [done|by constructor]).
  split; [by etransitivity|]. intros H1 H2. destruct (decide (n = service_name c)) as [Hnc|Hnc].
  - exists c, byte. split; [by eapply list_elem_of_lookup_2|]. split; [done|]. split; [done|].
    apply elem_of_app. left. by left.
  - apply (refused_more (x ++ y) _ tr); [done|intros e He; rewrite !elem_of_app; by do 3 right|]. apply Hn; [|done].
    rewrite Hl, map_app, elem_of_app in H1. rewrite map_app, elem_of_app.
    destruct H1 as [H1|[H1|H1]%elem_of_cons]; [by left|congruence|by right].
Qed.

Lemma alive_refused (stop : bool) (w w' : World) :
  serviceAlive_turn env b w = Done (stop, w') →
  ∃ tr, trace w' = trace w ++ tr /\ (n ∈ names w → n ∉ names w' → refused b n (g_head w) tr).
Proof.
  assert (∀ secs w w' r, wait__ env secs w = Done (r, w') → names w' = names w /\ ∃ tr, trace w' = trace w ++ tr) as Hwait.
  { intros secs v v' r. unfold wait__. run_m. destruct (g_shutdown _); intros [= _ <-];
      (split; [done|]); eexists; cbn; rewrite <-!app_assoc; reflexivity. }
  unfold serviceAlive_turn, get_numOfClients. intros Hr. inv_bind Hr k w1 R1. injection R1 as <- <-.
  destruct (0 <? numOfClients w).
  - inv_bind Hr l w1 R1. injection R1 as <- <-. inv_bind Hr u w1 R1. destruct u.
    destruct (sweep_refused _ _ _ _ R1) as (tr & Ht & _ & Hn). destruct (Hwait _ _ _ _ Hr) as [Hnm (tr' & Ht')].
    exists (tr ++ tr'). split; [by rewrite Ht', Ht, app_assoc|]. rewrite Hnm. intros H1 H2.
    apply (refused_more (g_head w) _ tr); [done|intros e He; apply elem_of_app; by left|by apply Hn].
  - destruct (Hwait _ _ _ _ Hr) as [Hnm (tr & Ht)]. exists tr. split; [done|]. by rewrite Hnm.
Qed.
End sweeps.

Section system.
Context `{WrpLib} `{CjsonLib} `{NopollLib} `{CredentialsLaws} (env : oracle).
Context (mem : list event → cstring → url_memory) (dns_query seshat_enabled : bool).
Context (timeout : Z) (turns : nat) (rcv_sock rcv_bind : Z) (svc_bytes ack : bytes).
Context (Hack : wrp_struct_to (WRP_AUTH 200) = Some ack).

(** A turn after which a client is gone that was there. *)
Lemma turn_loses (t : task) (n : cstring) (s s' : system) :
  turn env mem dns_query seshat_enabled timeout turns rcv_sock rcv_bind svc_bytes t s = Done s' →
  n ∈ names (world s) → n ∉ names (world s') →
  (t = main_thread /\ main_joins s = true) \/
  (t = svc_alive_tid /\ ∃ tr, trace (world s') = trace (world s) ++ tr /\ refused svc_bytes n (g_head (world s)) tr).
Proof.
  intros Hr Hn Hno. assert (listed n (world s)) as Hl by exact Hn.
  assert (∀ m, keeps (listed n) m → task_turn t m s = Done s' → False) as Hkeeps
    by (intros m Hm Hrun; apply Hno; exact (kept_task (listed n) t m s s' Hm Hrun Hl)).
  destruct t; cbn [turn] in Hr.
  - left. split; [done|]. unfold main_turn in Hr. destruct (main_joins s); [done|]. destruct Hno.
    destruct (event_loop_turn _ _ _ _ _ _ _ _ (world s)) as [[[[go reg] l] w]| |] eqn:Hw; [|done|done].
    injection Hr as <-. change (listed n w).
    eapply framed_event_loop_turn; [apply (listed_free n)|exact Hl|exact Hw].
  - by destruct (Hkeeps _ (clients_receiver env (λ l _, n ∈ map service_name l) _ _) Hr).
  - unfold consumer_turn in Hr.
    destruct (processUpstreamMessage_turn env (msg_locals s) (world s)) as [[[stop v] w]| |] eqn:Hw; [|done|done].
    destruct Hno. assert (listed n w) by (exact (listed_consumer env n ack _ Hack _ _ _ Hl Hw)).
    by destruct stop; injection Hr as <-.
  - by destruct (Hkeeps _ (clients_downstream env (λ l _, n ∈ map service_name l)) Hr).
  - right. split; [done|]. unfold task_turn in Hr.
    destruct (serviceAlive_turn env svc_bytes (world s)) as [[stop w]| |] eqn:Hw; [|done|done].
    assert (world s' = w) as Hw' by (by destruct stop; injection Hr as <-). rewrite Hw' in *.
    destruct (alive_refused env svc_bytes n stop _ _ Hw) as (tr & Ht & Href). exists tr. split; [done|]. by apply Href.
  - by destruct (Hkeeps _ (clients_crud env (λ l _, n ∈ map service_name l)) Hr).
Qed.
End system.

(** ** Properties *)

(** C4. No client is lost by accident: when a name that was in the list is gone after a turn of
    some thread, then the keep-alive thread has sent its message to a client of that name
    and the socket has not taken it whole, or the main thread has taken the process down
    behind all the others. *)
Theorem client_lost_only_if_silent `{WrpLib} `{CjsonLib} `{NopollLib} `{CredentialsLaws} (env : oracle)
    (mem : list event → cstring → url_memory) (dns_query seshat_enabled : bool) (timeout : Z) (turns : nat)
    (rcv_sock rcv_bind : Z) (svc_bytes ack n : bytes) (s s' : system)
    (Hack : wrp_struct_to (WRP_AUTH 200) = Some ack)
    (Hstep : sys_step env mem dns_query seshat_enabled timeout turns rcv_sock rcv_bind svc_bytes s s')
    (Hbefore : n ∈ names (world s)) (Hafter : n ∉ names (world s')) :
  live s = [main_thread] \/
  ∃ tr, trace (world s') = trace (world s) ++ tr /\ refused svc_bytes n (g_head (world s)) tr.
Proof.
  destruct Hstep as [t Ht Hen Hr].
  destruct (turn_loses env mem dns_query seshat_enabled timeout turns rcv_sock rcv_bind svc_bytes ack Hack t n s s'
    Hr Hbefore Hafter) as [[-> Hj]|(-> & tr & Htr & Hre)].
  - left. by apply Hen.
  - right. by exists tr.
Qed.

(** C3. A registered client is served: in every state the threads can reach, as long as the
    sockets work, a message of the server for the service of a client in the list is sent
    by the next turn of the downstream thread to that client's socket, as it came, once,
    and nothing else happens. *)
Theorem registered_client_served `{WrpKinds} `{!WrpLaws} `{CjsonLib} `{NopollLib} `{CredentialsLaws} (env : oracle)
    (mem : list event → cstring → url_memory) (dns_query seshat_enabled : bool) (timeout : Z) (turns : nat)
    (rcv_sock rcv_bind : Z) (svc_bytes ack : bytes) (w0 : World) (s0 s : system)
    (node : reg_list_item_t) (raw : bytes) (q : list (option bytes)) (message : wrp_msg_t)
    (d scheme service : cstring) (rest : list cstring)
    (Hack : wrp_struct_to (WRP_AUTH 200) = Some ack)
    (Hrecv : ∀ h b, env h (nn_recv rcv_sock) = Some b → fits b) (Hsockets : sockets_work env)
    (Hempty : starts_empty w0)
    (Hstart : started env mem dns_query seshat_enabled turns rcv_sock rcv_bind svc_bytes w0 s0)
    (Hsteps : rtc (sys_step env mem dns_query seshat_enabled timeout turns rcv_sock rcv_bind svc_bytes) s0 s)
    (Hnode : node ∈ g_head (world s)) (Hqueue : ParodusMsgQ (world s) = Some raw :: q)
    (Hdecode : wrp_to_struct raw = Some message) (Hkind : deliverable message)
    (Hdest : message_dest message = Some d) (Hparts : parts d = scheme :: service :: rest)
    (Hname : take 31 service = service_name node)
    (Hpartner : partner_allows (partner_id (parodusCfg (world s))) message) :
  ∃ a, turn env mem dns_query seshat_enabled timeout turns rcv_sock rcv_bind svc_bytes downstream_tid s =
    Done (s <| world := (world s) <| ParodusMsgQ := q |>
                                  <| trace := trace (world s) ++ [ev (nn_send (sock node) raw) a] |> |>).
Proof.
  destruct Hempty as (Hh & Hn & Hu & Hc).
  apply kept_started in Hstart as Hkept;
    [|unfold framed, clients_ok; rewrite Hh, Hn; split_and!; [constructor|done|constructor]
     |unfold framed, queues_ok; by rewrite Hu, Hc].
  apply (kept_reachable _ _ _ _ _ _ _ _ _ ack Hack Hrecv s0 s Hsteps) in Hkept as [(_ & _ & Hd) _].
  apply (find_client_unique _ _ (Hd Hsockets)) in Hnode.
  assert (∃ a, messageHandlerTask_turn env (world s) = Done (false, (world s) <| ParodusMsgQ := q |>
     <| trace := trace (world s) ++ [ev (nn_send (sock node) raw) a] |>)) as [a Hrun].
  { unfold messageHandlerTask_turn. run_m. rewrite Hqueue. unfold listenerOnMessage. rewrite Hdecode.
    replace (match message with WRP_EVENT _ => _ | _ => _ end) with (deliver env message raw) by (by destruct message).
    rewrite (deliver_run env message raw d) by done. unfold route.
    rewrite (dest_service_parts d scheme service rest Hparts), Hname. run_m.
    change (g_head ((world s) <| ParodusMsgQ := q |>)) with (g_head (world s)). rewrite Hnode. by eexists. }
  exists a. cbn [turn]. by apply turn_task.
Qed.

(** ** Witnesses *)

(** Two clients; the socket of the first one is dead. *)
Definition system_clients : system :=
  mk_system world_example tasks false true (mk_servers (mk_server None 0 0) (mk_server None 0 0) (mk_server None 0 0)) (mk_locals false true).

Example client_lost_only_if_silent_witness :
  ∃ s', @sys_step wrp_example cjson_example nopoll_b64 no_credentials env_dead mem_example false true 180000 20 5 7
      "alive" system_clients s' /\ ("iot"%cs ∉ names (world s')) /\
    ∃ c a, c ∈ g_head world_example /\ service_name c = "iot"%cs /\ a ≠ 5.
Proof.
  destruct (@turn wrp_example cjson_example nopoll_b64 no_credentials env_dead mem_example false true 180000 20 5 7
    "alive" svc_alive_tid system_clients) as [s'| |] eqn:Hr; [|vm_compute in Hr; discriminate Hr..].
  assert (names (world s') = ["config"%cs]) as Hn by (revert Hr; vm_compute; by intros [= <-]).
  assert (@sys_step wrp_example cjson_example nopoll_b64 no_credentials env_dead mem_example false true 180000 20 5 7
    "alive" system_clients s') as Hs by (apply (sys_turn _ _ _ _ _ _ _ _ _ _ _ svc_alive_tid); [by_eval|exact I|exact Hr]).
  assert ("iot"%cs ∉ names (world s')) as Hno by (rewrite Hn; by_eval).
  destruct (@client_lost_only_if_silent wrp_example cjson_example nopoll_b64 no_credentials no_credentials_laws env_dead
    mem_example false true 180000 20 5 7 "alive" [ascii_of_nat 200] "iot" system_clients s')
    as [H|(tr & _ & c & a & Hc & Hcn & Ha & _)]; [reflexivity|exact Hs|by_eval|exact Hno|discriminate H|].
  exists s'. split; [exact Hs|]. split; [exact Hno|]. exists c, a. split; [exact Hc|]. split; [exact Hcn|exact Ha].
Defined.

(** A client registers, and the server sends it a request. *)
Definition request_iot : wrp_msg_t := WRP_REQ (req_zero <| req_dest := Some "mac:14cfe2142xxx/iot"%cs |>).
Definition wrp_serves : WrpLib := {|
  wrp_to_struct := λ b, if decide (b = "register"%cs) then Some (WRP_SVC_REGISTRATION reg_iot)
                        else if decide (b = "request"%cs) then Some request_iot else None;
  wrp_struct_to := λ m, match m with WRP_SVC_REGISTRATION _ => None | _ => Some "encoded"%cs end;
  crud_view := @crud_view wrp_example;
  set_crud := @set_crud wrp_example;
  WRP_ID_ELEMENT__SERVICE := 2;
  WRP_ID_ELEMENT__APPLICATION := 3;
  wrp_get_msg_element := @wrp_get_msg_element wrp_example;
  wrp_does_service_match := @wrp_does_service_match wrp_example;
  wrp_pack_metadata := @wrp_pack_metadata wrp_example;
  appendEncodedData := @appendEncodedData wrp_example
|}.
Lemma wrp_serves_kinds : @WrpKinds wrp_serves.
Proof.
  split; [|by intros []].
  intros m b reg Hb Hm. destruct m; try done; injection Hb as <-; by vm_compute in Hm.
Qed.
Lemma wrp_serves_laws : @WrpLaws wrp_serves.
Proof. split; try done. by intros []. Qed.

Definition env_serves : oracle := λ h c,
  match c as c return ans c with
  | nn_recv _ => Some "register"%cs
  | nopoll_loop_wait _ => [on_msg (mk_msg (Some "request"%cs) false true 2)]
  | c => env_ok h c
  end.

Example registered_client_served_witness :
  ∃ s0 s node a, @started wrp_serves cjson_example nopoll_b64 no_credentials env_serves mem_example false true 20
      0 0 "encoded" process_world s0 /\
    names (world s) = ["iot"%cs] /\ node ∈ g_head (world s) /\
    @turn wrp_serves cjson_example nopoll_b64 no_credentials env_serves mem_example false true 180000 20 0 0 "encoded"
      downstream_tid s = Done (s <| world := (world s) <| ParodusMsgQ := [] |>
                                  <| trace := trace (world s) ++ [ev (nn_send (sock node) "request") a] |> |>).
Proof.
  destruct (@startup wrp_serves cjson_example nopoll_b64 no_credentials env_serves mem_example false true 20
    true process_world) as [[[[reg l]|] w]| |] eqn:Hs; [|vm_compute in Hs; discriminate Hs..].
  destruct (handle_upstream_start env_serves w) as [[bound w']| |] eqn:Hb.
  2,3: exfalso; revert Hb; vm_compute in Hs; injection Hs as <- <- <-; vm_compute; discriminate.
  assert (bound = Some (0, 0)) as ->.
  { revert Hb. vm_compute in Hs. injection Hs as <- <- <-. vm_compute. by intros [= <- _]. }
  set (s0 := mk_system w' tasks false reg l locals_start).
  destruct (@schedule wrp_serves cjson_example nopoll_b64 no_credentials env_serves mem_example false true
      180000 20 0 0 "encoded" [upstream_tid; upstream_msg_tid; main_thread] s0) as [s| |] eqn:Hr.
  2,3: exfalso; revert Hr; unfold s0; clear s0; vm_compute in Hs; injection Hs as <- <- <-;
    vm_compute in Hb; injection Hb as <-; vm_compute; discriminate.
  assert (names (world s) = ["iot"%cs] /\ ParodusMsgQ (world s) = [Some ("request"%cs)] /\
    partner_id (parodusCfg (world s)) = []) as (Hn & Hq & Hp).
  { revert Hr. unfold s0. clear s0. vm_compute in Hs. injection Hs as <- <- <-. vm_compute in Hb. injection Hb as <-.
    vm_compute. by intros [= <-]. }
  apply schedule_steps in Hr.
  assert (@started wrp_serves cjson_example nopoll_b64 no_credentials env_serves mem_example false true 20
    0 0 "encoded" process_world s0) as Hst.
  { exists reg, l, w, (Some (0, 0)), w'. split; [exact Hs|]. split; [exact Hb|]. split; [by right|].
    split; [by right|reflexivity]. }
  destruct (g_head (world s)) as [|node rest] eqn:Hg; [unfold names in Hn; rewrite Hg in Hn; discriminate Hn|].
  assert (node ∈ g_head (world s)) as Hin by (rewrite Hg; by left).
  destruct (@registered_client_served wrp_serves wrp_serves_kinds wrp_serves_laws cjson_example nopoll_b64 no_credentials
    no_credentials_laws env_serves mem_example false true 180000 20 0 0 "encoded" "encoded" process_world s0 s node
    "request" [] request_iot "mac:14cfe2142xxx/iot" "mac:14cfe2142xxx" "iot" []) as [a Ha].
  - reflexivity.
  - intros h b [= <-] r. vm_compute. intros [= <-]. split; by_eval.
  - split; [intros h; cbn; lia|intros h x u; cbn; lia].
  - repeat split; reflexivity.
  - exact Hst.
  - exact Hr.
  - exact Hin.
  - exact Hq.
  - reflexivity.
  - exact I.
  - reflexivity.
  - by_eval.
  - unfold names in Hn. rewrite Hg in Hn. injection Hn as Hn _. rewrite Hn. by_eval.
  - rewrite Hp. exact I.
  - exists s0, s, node, a. split; [exact Hst|]. split; [exact Hn|]. split; [rewrite Hg; by left|exact Ha].
Defined.
