(* ===== verification/Signals.v ===== *)
(** * The handlers of the signals between the threads

    [shutdownSocketConnection] runs inside a signal handler and locks two mutexes, so what
    becomes of it depends on what the interrupted thread was doing. Here every thread is the
    list of the operations it has before it; a signal puts those of the handler in front.
    The critical sections under these mutexes, and the timed wait of service_alive.c, are
    written out operation by operation; what else a thread does holds none of them. *)

From stdpp Require Import relations functions.
From S2P Require Import Prelude StringHelpers Timers Config Wrp World Nopoll Upstream Cjson Connection ConnInterface.
Local Open Scope Z_scope.

(** ** Threads, mutexes and condition variables *)

Inductive mutex : Set := interface_down_mut | backoff_delay_mut | svc_mut.
Inductive cond : Set := interface_down_con | backoff_delay_con | svc_con.
#[export] Instance mutex_eq_dec : EqDecision mutex.
Proof. solve_decision. Defined.
#[export] Instance cond_eq_dec : EqDecision cond.
Proof. solve_decision. Defined.

(** The mutexes are default ones: who locks one twice waits for himself. *)
Inductive op : Set :=
| o_lock (m : mutex)
| o_unlock (m : mutex)
| o_wait (c : cond) (m : mutex)       (* pthread_cond_wait, pthread_cond_timedwait *)
| o_asleep (c : cond) (m : mutex)     (* inside it, [m] released *)
| o_signal (c : cond)
| o_set_down (b : bool)
| o_get_down
| o_stop
| o_get_stop
| o_reason (r : cstring).
#[export] Instance op_eq_dec : EqDecision op.
Proof. solve_decision. Defined.

Record tstate : Set := mk_t {
  owner : mutex → option nat;
  down : bool;               (* interface_down_event *)
  stop : bool;               (* g_shutdown *)
  reason : option cstring;   (* shutdown_reason *)
  prog : list (list op)      (* of each thread, what it has before it *)
}.
#[export] Instance tstate_settable : Settable tstate := λ s, mk_t
  (owner s) (down s) (stop s) (reason s) (prog s).

(** ** The critical sections *)

Definition get_interface_down_event_ops : list op :=
  [o_lock interface_down_mut; o_get_down; o_unlock interface_down_mut].
Definition set_interface_down_event_ops : list op :=
  [o_lock interface_down_mut; o_set_down true; o_unlock interface_down_mut].
Definition reset_interface_down_event_ops : list op :=
  [o_lock interface_down_mut; o_set_down false; o_signal interface_down_con; o_unlock interface_down_mut].
Definition interface_wait_ops : list op :=
  [o_lock interface_down_mut; o_wait interface_down_con interface_down_mut; o_unlock interface_down_mut; o_get_stop].
Definition backoff_delay_ops : list op :=
  [o_lock backoff_delay_mut; o_wait backoff_delay_con backoff_delay_mut; o_unlock backoff_delay_mut; o_get_stop].
Definition terminate_backoff_delay_ops : list op :=
  [o_lock backoff_delay_mut; o_signal backoff_delay_con; o_unlock backoff_delay_mut].
Definition wait_ops : list op :=
  [o_lock svc_mut; o_wait svc_con svc_mut; o_get_stop; o_unlock svc_mut].
Definition wake_service_alive_ops : list op :=
  [o_lock svc_mut; o_signal svc_con; o_unlock svc_mut].

Definition shutdownSocketConnection_ops (r : cstring) : list op :=
  [o_reason r; o_stop] ++ reset_interface_down_event_ops ++ terminate_backoff_delay_ops.

Definition sig_handler_ops (sig : signal) : list op :=
  match sig with
  | SIGINT => shutdownSocketConnection_ops SHUTDOWN_REASON_PARODUS_STOP
  | SIGUSR1 => shutdownSocketConnection_ops SHUTDOWN_REASON_SYSTEM_RESTART
  | SIGTERM => shutdownSocketConnection_ops SHUTDOWN_REASON_SIGTERM
  | SIGUSR2 | SIGCHLD | SIGPIPE | SIGALRM => []
  | other_signal => shutdownSocketConnection_ops SHUTDOWN_REASON_PARODUS_STOP
  end.

(** What a thread may call at any time. *)
Definition calls : list (list op) :=
  [get_interface_down_event_ops; set_interface_down_event_ops; reset_interface_down_event_ops; interface_wait_ops;
   backoff_delay_ops; terminate_backoff_delay_ops; wait_ops; wake_service_alive_ops].

(** ** Steps *)

Definition go_on (t : nat) (rest : list op) (s : tstate) : tstate := s <| prog := <[t := rest]> (prog s) |>.

(** The first operation of thread [t], if it does not wait and does not wake anybody. *)
Definition op_step (t : nat) (o : op) (rest : list op) (s : tstate) : option tstate :=
  let next := go_on t rest s in
  match o with
  | o_lock m => match owner s m with None => Some (next <| owner := <[m := Some t]> (owner s) |>) | Some _ => None end
  | o_unlock m => if decide (owner s m = Some t) then Some (next <| owner := <[m := None]> (owner s) |>) else None
  | o_wait c m =>
      if decide (owner s m = Some t) then Some (go_on t (o_asleep c m :: rest) s <| owner := <[m := None]> (owner s) |>)
      else None
  | o_asleep _ _ | o_signal _ => None
  | o_set_down b => Some (next <| down := b |>)
  | o_get_down | o_get_stop => Some next
  | o_stop => Some (next <| stop := true |>)
  | o_reason r => Some (next <| reason := Some r |>)
  end.

(** A sleeper at [c], however deep under handlers, gets up and wants its mutex back. *)
Fixpoint wake (c : cond) (p : list op) : option (list op) :=
  match p with
  | [] => None
  | o_asleep c' m as o :: q => if decide (c' = c) then Some (o_lock m :: q) else cons o <$> wake c q
  | o :: q => cons o <$> wake c q
  end.

(** What the threads do of their own. A signal of a condition variable wakes one sleeper, if there is any. *)
Inductive run_step : tstate → tstate → Prop :=
| r_op t o rest s s' :
    prog s !! t = Some (o :: rest) → op_step t o rest s = Some s' → run_step s s'
| r_signal t c rest s :
    prog s !! t = Some (o_signal c :: rest) → Forall (λ p, wake c p = None) (prog (go_on t rest s)) →
    run_step s (go_on t rest s)
| r_wake t c rest t' p p' s :
    prog s !! t = Some (o_signal c :: rest) → prog (go_on t rest s) !! t' = Some p → wake c p = Some p' →
    run_step s (go_on t' p' (go_on t rest s)).

Definition deliver_signal (t : nat) (sig : signal) (p : list op) (s : tstate) : tstate :=
  go_on t (sig_handler_ops sig ++ p) s.

(** With what comes from outside: timeouts and spurious wake-ups, new calls, and signals for a
    thread that [safe] admits. *)
Inductive step (safe : nat → tstate → Prop) : tstate → tstate → Prop :=
| s_run s s' : run_step s s' → step safe s s'
| s_up t c m rest s : prog s !! t = Some (o_asleep c m :: rest) → step safe s (go_on t (o_lock m :: rest) s)
| s_call t call s : prog s !! t = Some [] → call ∈ calls → step safe s (go_on t call s)
| s_deliver t sig p s : prog s !! t = Some p → safe t s → step safe s (deliver_signal t sig p s).

(** The thread holds none of the mutexes. *)
Definition unheld (t : nat) (s : tstate) : Prop := ∀ m, owner s m ≠ Some t.
Definition anytime (t : nat) (s : tstate) : Prop := True.

Definition t_init (threads : nat) (isdown : bool) (r : option cstring) : tstate :=
  mk_t (λ _, None) isdown false r (replicate threads []).

(** ** Specification *)

(** A thread that holds [h] and has [p] before it: it holds at most one mutex at a time, unlocks
    it or waits with it, changes the flag of the interface only under its mutex, and asks for the
    shutdown with none. *)
Fixpoint sections (h : option mutex) (p : list op) : bool :=
  match p with
  | [] => bool_decide (h = None)
  | o_lock m :: q | o_asleep _ m :: q => bool_decide (h = None) && sections (Some m) q
  | o_unlock m :: q => bool_decide (h = Some m) && sections None q
  | o_wait _ m :: q => bool_decide (h = Some m) && sections h q
  | o_set_down _ :: q => bool_decide (h = Some interface_down_mut) && sections h q
  | o_stop :: q | o_reason _ :: q => bool_decide (h = None) && sections h q
  | o_signal _ :: q | o_get_down :: q | o_get_stop :: q => sections h q
  end.

Definition before (s : tstate) (t : nat) : list op := default [] (prog s !! t).

(** Every thread is in such a state, and the owners are as their programs say. *)
Definition calm (s : tstate) : Prop :=
  ∀ t, ∃ h, sections h (before s t) = true /\ ∀ m, owner s m = Some t ↔ h = Some m.

(** The same operations, some sleepers having got up. *)
Definition resumed : list op → list op → Prop :=
  Forall2 (λ o o', o' = o \/ ∃ c m, o = o_asleep c m /\ o' = o_lock m).

(** What the operations do to the flags. *)
Definition op_stop (o : op) (b : bool) : bool := match o with o_stop => true | _ => b end.
Definition op_reason (o : op) (r : option cstring) : option cstring :=
  match o with o_reason r' => Some r' | _ => r end.
Definition op_down (o : op) (b : bool) : bool := match o with o_set_down b' => b' | _ => b end.
Definition op_owner (t : nat) (o : op) (f : mutex → option nat) : mutex → option nat :=
  match o with
  | o_lock m => <[m := Some t]> f
  | o_unlock m | o_wait _ m => <[m := None]> f
  | _ => f
  end.
Definition after_op (o : op) (rest : list op) : list op :=
  match o with o_wait c m => o_asleep c m :: rest | _ => rest end.

(** Nobody sleeps at [c]; and how many threads sleep there or are to. *)
Definition no_sleeper (c : cond) (s : tstate) : Prop := ∀ t, wake c (before s t) = None.
Fixpoint pending (c : cond) (p : list op) : nat :=
  match p with
  | [] => 0
  | o_wait c' _ :: q | o_asleep c' _ :: q => (if decide (c' = c) then 1 else 0) + pending c q
  | _ :: q => pending c q
  end%nat.
Definition waiters (c : cond) (s : tstate) : nat := sum_list_with (pending c) (prog s).

(** ** Lemmas *)

#[local] Instance resumed_refl : Reflexive resumed.
Proof. intros p. apply Forall2_same_length_lookup_2; [done|]. intros i x y Hx Hy. left. congruence. Qed.

#[local] Instance resumed_trans : Transitive resumed.
Proof.
  intros p q r Hpq. revert r. induction Hpq as [|o o' p q Ho _ IH]; intros r Hr; inversion_clear Hr as [|? o'' ? r' Ho' Hqr].
  - constructor.
  - constructor; [|by apply IH]. destruct Ho as [->|(c & m & -> & ->)]; [done|].
    destruct Ho' as [->|(? & ? & [=] & _)]. right. by exists c, m.
Qed.

Lemma sections_resumed (p p' : list op) (h : option mutex) : resumed p p' → sections h p' = sections h p.
Proof.
  intros Hp. revert h. induction Hp as [|o o' p p' Ho _ IH]; intros h; [done|].
  destruct Ho as [->|(c & m & -> & ->)]; [destruct o|]; cbn [sections]; by rewrite ?IH.
Qed.

Lemma wake_resumed (c : cond) (p p' : list op) : wake c p = Some p' → resumed p p'.
Proof.
  revert p'. induction p as [|o p IH]; intros p'; [done|].
  assert (∀ x, cons o <$> wake c p = Some x → resumed (o :: p) x) as Hcons.
  { intros x. destruct (wake c p) as [q|]; [|done]. intros [= <-]. constructor; [by left|by apply IH]. }
  destruct o; cbn [wake]; try apply Hcons. case_decide as Hc; [|apply Hcons].
  intros [= <-]. constructor; [right; by eexists _, _|reflexivity].
Qed.

Lemma before_go_on (t t' : nat) (p r : list op) (s : tstate) :
  prog s !! t = Some p → before (go_on t r s) t' = if decide (t' = t) then r else before s t'.
Proof.
  intros Hp. unfold before. change (prog (go_on t r s)) with (<[t := r]> (prog s)). case_decide as Ht.
  - subst. by rewrite list_lookup_insert_eq by (by eapply lookup_lt_Some).
  - by rewrite list_lookup_insert_ne.
Qed.

Lemma prog_go_on (t : nat) (p r : list op) (s : tstate) : prog s !! t = Some p → prog (go_on t r s) !! t = Some r.
Proof. intros Hp. apply list_lookup_insert_eq. by eapply lookup_lt_Some. Qed.

Lemma before_prog (s : tstate) (t : nat) (p : list op) : prog s !! t = Some p → before s t = p.
Proof. unfold before. by intros ->. Qed.

Lemma calm_held (s : tstate) (t : nat) (p : list op) :
  calm s → prog s !! t = Some p → ∃ h, sections h p = true /\ ∀ m, owner s m = Some t ↔ h = Some m.
Proof. intros Hs Hp. destruct (Hs t) as (h & Hh). rewrite (before_prog _ _ _ Hp) in Hh. by exists h. Qed.

(** A change to one thread and to what it holds. *)
Lemma calm_update (s s' : tstate) (t : nat) (h : option mutex) :
  calm s → sections h (before s' t) = true → (∀ m, owner s' m = Some t ↔ h = Some m) →
  (∀ t', t' ≠ t → resumed (before s t') (before s' t') /\ ∀ m, owner s' m = Some t' ↔ owner s m = Some t') →
  calm s'.
Proof.
  intros Hs Hsec Hown Hothers t'. destruct (decide (t' = t)) as [->|Ht]; [by exists h|].
  destruct (Hothers t' Ht) as [Hr Ho]. destruct (Hs t') as (h' & Hh & Hm). exists h'.
  split; [by rewrite (sections_resumed _ _ _ Hr)|]. intros m. by rewrite Ho.
Qed.

Lemma go_on_calm (s : tstate) (t : nat) (p r : list op) :
  calm s → prog s !! t = Some p →
  (∀ h, (∀ m, owner s m = Some t ↔ h = Some m) → sections h p = true → sections h r = true) → calm (go_on t r s).
Proof.
  intros Hs Hp Hpr. destruct (calm_held s t p Hs Hp) as (h & Hh & Hm). apply (calm_update s _ t h Hs).
  - rewrite (before_go_on _ _ _ _ _ Hp), decide_True by done. by apply Hpr.
  - exact Hm.
  - intros t' Ht. by rewrite (before_go_on _ _ _ _ _ Hp), decide_False.
Qed.

Lemma wake_calm (s : tstate) (t : nat) (c : cond) (p p' : list op) :
  calm s → prog s !! t = Some p → wake c p = Some p' → calm (go_on t p' s).
Proof.
  intros Hs Hp Hw%wake_resumed. apply (go_on_calm s t p); [done|done|]. intros h _. by rewrite (sections_resumed _ _ _ Hw).
Qed.

Lemma wake_none (c : cond) (p : list op) : pending c p = 0%nat → wake c p = None.
Proof.
  induction p as [|o p IH]; [done|]. destruct o; cbn [pending wake]; try (intros Hp; by rewrite IH);
    case_decide; try lia; intros Hp; by rewrite IH.
Qed.

Lemma wake_pending (c c' : cond) (p p' : list op) :
  wake c' p = Some p' → (pending c p' + (if decide (c' = c) then 1 else 0) = pending c p)%nat.
Proof.
  revert p'. induction p as [|o p IH]; intros p'; [done|].
  assert (∀ x, cons o <$> wake c' p = Some x → ∃ q, wake c' p = Some q /\ x = o :: q) as Hcons.
  { intros x. destruct (wake c' p) as [q|]; [|done]. intros [= <-]. by exists q. }
  destruct o; cbn [wake]; try (intros (q & Hq & ->)%Hcons; specialize (IH q Hq); cbn [pending]; lia).
  destruct (decide (c0 = c')) as [->|Hne]; [intros [= <-]; cbn [pending]; lia|].
  intros (q & Hq & ->)%Hcons. specialize (IH q Hq). cbn [pending]. lia.
Qed.

Lemma wake_none_resumed (c : cond) (p p' : list op) : resumed p p' → wake c p = None → wake c p' = None.
Proof.
  intros Hp. induction Hp as [|o o' p p' Ho _ IH]; [done|].
  assert (∀ x y, cons x <$> wake c p = None → cons y <$> wake c p' = None) as Hcons.
  { intros x y. destruct (wake c p); [done|]. by rewrite IH. }
  destruct Ho as [->|(c' & m & -> & ->)]; [destruct o|]; cbn [wake]; try apply Hcons;
    (case_decide; [done|apply Hcons]).
Qed.

Lemma waiters_go_on (c : cond) (t : nat) (p r : list op) (s : tstate) :
  prog s !! t = Some p → (waiters c (go_on t r s) + pending c p = waiters c s + pending c r)%nat.
Proof.
  intros Hp. unfold waiters. change (prog (go_on t r s)) with (<[t := r]> (prog s)).
  rewrite insert_take_drop by (by eapply lookup_lt_Some). rewrite <-(take_drop_middle _ _ _ Hp) at 3.
  rewrite !sum_list_with_app. cbn [sum_list_with]. lia.
Qed.

Lemma no_waiters (c : cond) (s : tstate) : waiters c s = 0%nat → no_sleeper c s.
Proof.
  intros Hw t. unfold before. destruct (prog s !! t) as [p|] eqn:Hp; [|done]. apply wake_none.
  pose proof (waiters_go_on c t p [] s Hp) as Hgo. cbn [pending] in Hgo. change (pending c p = 0%nat). lia.
Qed.

Lemma run_step_waiters (c : cond) (s s' : tstate) : run_step s s' → (waiters c s' ≤ waiters c s)%nat.
Proof.
  intros Hstep. destruct Hstep as [t o rest s s' Hp Ho|t c' rest s Hp _|t c' rest t' p p' s Hp Hp' Hw].
  - assert (∃ r, prog s' = prog (go_on t r s) /\ (pending c r ≤ pending c (o :: rest))%nat) as (r & Hr & Hle).
    { destruct o; cbn [op_step] in Ho; repeat case_match; try done; injection Ho as <-; eexists;
        (split; [reflexivity|]); cbn [pending]; lia. }
    pose proof (waiters_go_on c t _ r s Hp). assert (waiters c s' = waiters c (go_on t r s)) as -> by (by unfold waiters; rewrite Hr).
    lia.
  - pose proof (waiters_go_on c t _ rest s Hp) as Hgo. cbn [pending] in Hgo. lia.
  - pose proof (waiters_go_on c t _ rest s Hp) as Hgo. pose proof (waiters_go_on c t' _ p' _ Hp').
    pose proof (wake_pending c c' p p' Hw). cbn [pending] in Hgo. lia.
Qed.

Lemma run_waiters (c : cond) (s s' : tstate) : rtc run_step s s' → (waiters c s' ≤ waiters c s)%nat.
Proof. induction 1 as [|s1 s2 s3 Hs _ IH]; [done|]. apply (run_step_waiters c) in Hs. lia. Qed.

Ltac upd := intros; unfold op_owner, insert, fn_insert in *; repeat case_decide; subst; naive_solver.

Lemma op_step_calm (s s' : tstate) (t : nat) (o : op) (rest : list op) :
  calm s → prog s !! t = Some (o :: rest) → op_step t o rest s = Some s' → calm s'.
Proof.
  intros Hs Hp Ho. destruct (calm_held s t _ Hs Hp) as (h & Hh & Hm).
  assert (∀ r f, (∀ t', t' ≠ t → ∀ m, f m = Some t' ↔ owner s m = Some t') → ∀ s1, prog s1 = <[t := r]> (prog s) →
    owner s1 = f → (∃ h', sections h' r = true /\ ∀ m, f m = Some t ↔ h' = Some m) → calm s1) as Hgo.
  { intros r f Hf s1 Hp1 Ho1 (h' & Hh' & Hm'). assert (∀ t', before s1 t' = before (go_on t r s) t') as Hb
      by (intros t'; unfold before; by rewrite Hp1).
    apply (calm_update s s1 t h' Hs).
    - by rewrite Hb, (before_go_on _ _ _ _ _ Hp), decide_True.
    - by rewrite Ho1.
    - intros t' Ht. rewrite Hb, (before_go_on _ _ _ _ _ Hp), decide_False, Ho1 by done. split; [done|by apply Hf]. }
  destruct o; cbn [op_step sections] in Ho, Hh; try case_decide; try done;
    try (apply andb_true_iff in Hh as [Hh1%bool_decide_eq_true Hh2]);
    try (injection Ho as <-; eapply (Hgo _ (owner s)); [done|reflexivity|reflexivity|by exists h]).
  - destruct (owner s m) eqn:Hown; [done|]. injection Ho as <-. eapply (Hgo rest (<[m := Some t]> (owner s))); [|reflexivity|reflexivity|].
    + upd.
    + exists (Some m). split; [done|]. subst h. upd.
  - injection Ho as <-. eapply (Hgo rest (<[m := None]> (owner s))); [|reflexivity|reflexivity|].
    + upd.
    + exists None. split; [done|]. subst h. upd.
  - injection Ho as <-. eapply (Hgo (o_asleep c m :: rest) (<[m := None]> (owner s))); [|reflexivity|reflexivity|].
    + upd.
    + exists None. cbn [sections]. rewrite bool_decide_true by done. subst h. split; [done|]. upd.
Qed.

(** A thread that is not asleep and whose mutex is free goes on, and leaves the others alone but for
    the sleeper it wakes. *)
Lemma go_ahead (s : tstate) (t : nat) (o : op) (rest : list op) :
  calm s → prog s !! t = Some (o :: rest) →
  match o with o_lock m => owner s m = None | o_asleep _ _ => False | _ => True end →
  ∃ s', run_step s s' /\ calm s' /\ (∃ rest', prog s' !! t = Some rest' /\ resumed (after_op o rest) rest') /\
    (∀ t', t' ≠ t → resumed (before s t') (before s' t')) /\ owner s' = op_owner t o (owner s) /\
    stop s' = op_stop o (stop s) /\ reason s' = op_reason o (reason s) /\ down s' = op_down o (down s) /\
    match o with o_signal c => no_sleeper c s' \/ (waiters c s' < waiters c s)%nat | _ => True end.
Proof.
  intros Hs Hp Hfree. destruct (calm_held s t _ Hs Hp) as (h & Hh & Hm).
  assert (∀ t', t' ≠ t → ∀ r, before (go_on t r s) t' = before s t') as Hb
    by (intros t' Ht r; by rewrite (before_go_on _ _ _ _ _ Hp), decide_False).
  assert (∀ s', op_step t o rest s = Some s' → owner s' = op_owner t o (owner s) →
    prog s' = prog (go_on t (after_op o rest) s) → stop s' = op_stop o (stop s) → reason s' = op_reason o (reason s) →
    down s' = op_down o (down s) → match o with o_signal _ => False | _ => True end → ∃ s', run_step s s' /\ calm s' /\
    (∃ rest', prog s' !! t = Some rest' /\ resumed (after_op o rest) rest') /\
    (∀ t', t' ≠ t → resumed (before s t') (before s' t')) /\ owner s' = op_owner t o (owner s) /\
    stop s' = op_stop o (stop s) /\ reason s' = op_reason o (reason s) /\ down s' = op_down o (down s) /\
    match o with o_signal c => no_sleeper c s' \/ (waiters c s' < waiters c s)%nat | _ => True end) as Hop.
  { intros s' Hstep Hown Hprog Hstop Hreason Hdown Hno. exists s'. split; [by eapply r_op|]. split; [by eapply op_step_calm|].
    split; [exists (after_op o rest); rewrite Hprog; split; [by eapply prog_go_on|reflexivity]|]. split; [|by destruct o].
    intros t' Ht. unfold before at 2. rewrite Hprog. fold (before (go_on t (after_op o rest) s) t'). by rewrite Hb. }
  destruct o; try (by eapply Hop); cbn [sections] in Hh.
  - eapply Hop; [cbn [op_step]; by rewrite Hfree|done..].
  - apply andb_true_iff in Hh as [Hh%bool_decide_eq_true _]. apply Hm in Hh.
    eapply Hop; [cbn [op_step]; by rewrite decide_True|done..].
  - apply andb_true_iff in Hh as [Hh%bool_decide_eq_true _]. apply Hm in Hh.
    eapply Hop; [cbn [op_step]; by rewrite decide_True|done..].
  - clear Hop. assert (calm (go_on t rest s)) as Hc by (by apply (go_on_calm s t (o_signal c :: rest))).
    destruct (decide (Forall (λ p, wake c p = None) (prog (go_on t rest s)))) as [Hno|Hex].
    { exists (go_on t rest s). split; [by eapply r_signal|]. split; [done|].
      split; [exists rest; split; [by eapply prog_go_on|reflexivity]|]. split; [intros t' Ht; by rewrite Hb|].
      split_and!; try done. left. intros t'. unfold before. rewrite Forall_lookup in Hno.
      destruct (prog (go_on t rest s) !! t') eqn:Ht'; [by eapply Hno|done]. }
    apply not_Forall_Exists, Exists_exists in Hex as (p & Hin & Hw); [|intros x; apply _].
    apply list_elem_of_lookup in Hin as (t' & Ht'). destruct (wake c p) as [p'|] eqn:Hwake; [|done].
    apply wake_resumed in Hwake as Hres.
    assert (∀ x, resumed (before (go_on t rest s) x) (before (go_on t' p' (go_on t rest s)) x)) as Hr.
    { intros x. rewrite (before_go_on _ _ _ _ _ Ht'). case_decide; [|done]. subst x. by rewrite (before_prog _ _ _ Ht'). }
    exists (go_on t' p' (go_on t rest s)). split; [by eapply r_wake|]. split.
    { by apply (wake_calm (go_on t rest s) t' c p). }
    split.
    { assert (prog (go_on t rest s) !! t = Some rest) as Hpt by (by eapply prog_go_on).
      change (prog (go_on t' p' (go_on t rest s))) with (<[t' := p']> (prog (go_on t rest s))).
      destruct (decide (t = t')) as [<-|Hne].
      - exists p'. rewrite list_lookup_insert_eq by (by eapply lookup_lt_Some).
        split; [done|]. by replace rest with p by congruence.
      - exists rest. by rewrite list_lookup_insert_ne. }
    split; [intros x Hx; rewrite <-(Hb x Hx rest); apply Hr|]. split_and!; try done. right.
    pose proof (waiters_go_on c t _ rest s Hp) as Hgo. pose proof (waiters_go_on c t' p p' (go_on t rest s) Ht').
    pose proof (wake_pending c c p p' Hwake) as Hpend. rewrite decide_True in Hpend by done. cbn [pending] in Hgo. lia.
Qed.

Lemma prog_before (s s' : tstate) (t : nat) (p : list op) :
  prog s !! t = Some p → p ≠ [] → resumed (before s t) (before s' t) → ∃ p', prog s' !! t = Some p' /\ resumed p p'.
Proof.
  intros Hp Hne Hr. rewrite (before_prog _ _ _ Hp) in Hr. unfold before in Hr.
  destruct (prog s' !! t) as [p'|]; [by exists p'|]. by inversion Hr; subst.
Qed.

(** What a thread does with a mutex it holds leaves the shutdown alone, and lets the mutex go. *)
Lemma release (s : tstate) (t : nat) (m : mutex) :
  calm s → owner s m = Some t →
  ∃ s', rtc run_step s s' /\ calm s' /\ owner s' = <[m := None]> (owner s) /\
    (∀ t', t' ≠ t → resumed (before s t') (before s' t')) /\
    stop s' = stop s /\ reason s' = reason s /\ (m ≠ interface_down_mut → down s' = down s).
Proof.
  intros Hs Hm. remember (length (before s t)) as n eqn:Hn. revert s Hs Hm Hn.
  induction n as [n IH] using lt_wf_ind; intros s Hs Hm Hn.
  destruct (Hs t) as (h & Hh & Ho). apply Ho in Hm as ->. unfold before in Hh, Hn.
  destruct (prog s !! t) as [[|o rest]|] eqn:Hp; [done| |done]. cbn [default id from_option] in Hh, Hn.
  assert (match o with o_lock _ | o_asleep _ _ | o_stop | o_reason _ => False | _ => True end) as Hno by (by destruct o).
  destruct (go_ahead s t o rest Hs Hp) as (s1 & Hstep & Hs1 & (rest' & Hp1 & Hr1) & Hothers & Hown & Hstop & Hreason & Hdown & _);
    [by destruct o|].
  assert ((∃ m', op_owner t o (owner s) = <[m' := None]> (owner s) /\ m' = m /\ op_down o (down s) = down s) \/
    (op_owner t o (owner s) = owner s /\ after_op o rest = rest /\ (m ≠ interface_down_mut → op_down o (down s) = down s)))
    as [(m' & Hown' & -> & Hdown')|(Hown' & Hafter & Hdown')].
  { destruct o; try done; cbn [sections] in Hh; try apply andb_true_iff in Hh as [[= <-]%bool_decide_eq_true _];
      [left; by eexists|left; by eexists|right..]; by split_and!. }
  - exists s1. rewrite Hown, Hown', Hstop, Hreason, Hdown, Hdown'. split; [by apply rtc_once|]. split; [done|].
    split; [done|]. split; [done|]. by destruct o.
  - rewrite Hafter in Hr1. destruct (IH (length rest')) with (s := s1) as (s' & Hrun & Hs' & Hown2 & Hothers2 & Hstop2 & Hreason2 & Hdown2).
    + rewrite Hn, <-(Forall2_length _ _ _ Hr1). cbn. lia.
    + done.
    + rewrite Hown, Hown'. by apply Ho.
    + by rewrite (before_prog _ _ _ Hp1).
    + exists s'. split; [by eapply rtc_l|]. split; [done|]. split; [by rewrite Hown2, Hown, Hown'|].
      split; [intros t' Ht; etrans; [by apply Hothers|by apply Hothers2]|].
      split; [rewrite Hstop2, Hstop; by destruct o|]. split; [rewrite Hreason2, Hreason; by destruct o|].
      intros Hne. by rewrite Hdown2, Hdown, Hdown'.
Qed.

(** So that a thread that wants a mutex and holds none gets it. *)
Lemma acquire (s : tstate) (t : nat) (m : mutex) (rest : list op) :
  calm s → prog s !! t = Some (o_lock m :: rest) →
  ∃ s' rest', rtc run_step s s' /\ calm s' /\ prog s' !! t = Some rest' /\ resumed rest rest' /\
    owner s' m = Some t /\ stop s' = stop s /\ reason s' = reason s /\ (m ≠ interface_down_mut → down s' = down s).
Proof.
  intros Hs Hp. destruct (calm_held s t _ Hs Hp) as (h & Hh & Ho). cbn [sections] in Hh.
  apply andb_true_iff in Hh as [->%bool_decide_eq_true _].
  assert (∃ s1, rtc run_step s s1 /\ calm s1 /\ owner s1 m = None /\ resumed (before s t) (before s1 t) /\
    stop s1 = stop s /\ reason s1 = reason s /\ (m ≠ interface_down_mut → down s1 = down s))
    as (s1 & Hrun & Hs1 & Hfree & Hr & Hstop & Hreason & Hdown).
  { destruct (owner s m) as [t'|] eqn:Hm.
    - destruct (release s t' m Hs Hm) as (s1 & Hrun & Hs1 & Hown & Hothers & Hrest). exists s1. rewrite Hown, fn_lookup_insert.
      split_and!; try done; try apply Hrest. apply Hothers. intros ->. by apply Ho in Hm.
    - by exists s. }
  destruct (prog_before s s1 t _ Hp) as (p1 & Hp1 & Hr1); [done|done|].
  inversion Hr1 as [|? o' ? rest1 Hl Hrest1]; subst. destruct Hl as [->|(? & ? & [=] & _)].
  destruct (go_ahead s1 t (o_lock m) rest1 Hs1 Hp1) as (s' & Hstep & Hs' & (rest' & Hp' & Hr') & _ & Hown & Hst & Hre & Hdo & _);
    [done|].
  exists s', rest'. split; [eapply rtc_r; [exact Hrun|exact Hstep]|]. split; [done|]. split; [done|].
  split; [by etrans|]. rewrite Hown, Hst, Hre, Hdo. split; [by apply fn_lookup_insert|]. by split_and!.
Qed.

Definition plain (o : op) : bool := match o with o_wait _ _ | o_asleep _ _ => false | _ => true end.

Lemma resumed_plain (q p r : list op) :
  Forall plain q → resumed (q ++ p) r → ∃ p', r = q ++ p' /\ resumed p p'.
Proof.
  intros Hq. revert r. induction Hq as [|o q Ho _ IH]; intros r Hr; [by exists r|].
  inversion Hr as [|? o' ? r' Hoo Hqr]; subst. destruct Hoo as [->|(c & m & -> & _)]; [|done].
  destruct (IH r' Hqr) as (p' & -> & Hp'). by exists p'.
Qed.

(** A thread comes to the end of operations that do not sleep. *)
Lemma run_through (q : list op) (s : tstate) (t : nat) (p : list op) :
  calm s → prog s !! t = Some (q ++ p) → Forall plain q →
  ∃ s' p', rtc run_step s s' /\ calm s' /\ prog s' !! t = Some p' /\ resumed p p' /\
    stop s' = foldl (λ b o, op_stop o b) (stop s) q /\ reason s' = foldl (λ r o, op_reason o r) (reason s) q /\
    (o_lock interface_down_mut ∉ q → down s' = foldl (λ b o, op_down o b) (down s) q).
Proof.
  intros Hs Hp Hq. revert s p Hs Hp. induction Hq as [|o q Ho Hq IH]; intros s p Hs Hp.
  { by exists s, p. }
  assert (∃ s1 p1, rtc run_step s s1 /\ calm s1 /\ prog s1 !! t = Some p1 /\ resumed (q ++ p) p1 /\
    stop s1 = op_stop o (stop s) /\ reason s1 = op_reason o (reason s) /\
    (o ≠ o_lock interface_down_mut → down s1 = op_down o (down s)))
    as (s1 & p1 & Hrun & Hs1 & Hp1 & Hr1 & Hstop & Hreason & Hdown).
  { assert ((∃ m, o = o_lock m) \/ match o with o_lock _ => False | o_asleep _ _ => False | _ => True end) as [(m & ->)|Hno]
      by (destruct o; eauto).
    - destruct (acquire s t m (q ++ p) Hs Hp) as (s1 & p1 & Hrun & Hs1 & Hp1 & Hr1 & _ & Hst & Hre & Hdo).
      exists s1, p1. split_and!; [done..|]. intros Hne. apply Hdo. congruence.
    - destruct (go_ahead s t o (q ++ p) Hs Hp) as (s1 & Hstep & Hs1 & (p1 & Hp1 & Hr1) & _ & _ & Hst & Hre & Hdo & _);
        [by destruct o|]. exists s1, p1. split; [by apply rtc_once|]. split_and!; try done. by destruct o. }
  destruct (resumed_plain q p p1 Hq Hr1) as (p2 & -> & Hp2).
  destruct (IH s1 p2 Hs1 Hp1) as (s' & p' & Hrun' & Hs' & Hp' & Hr' & Hst & Hre & Hdo).
  exists s', p'. split; [by etrans|]. split; [done|]. split; [done|]. split; [by etrans|].
  cbn [foldl]. rewrite <-Hstop, <-Hreason. split; [done|]. split; [done|].
  intros Hn. rewrite not_elem_of_cons in Hn. destruct Hn as [Hn1 Hn2]. rewrite Hdo, Hdown by done. done.
Qed.

Lemma sections_unique (h h' : option mutex) (p : list op) :
  sections h p = true → sections h' p = true → h = h'.
Proof.
  revert h h'. induction p as [|o p IH]; intros h h'; [|destruct o]; cbn [sections];
    rewrite ?andb_true_iff, ?bool_decide_eq_true; try apply IH; intros Hh Hh'; intuition congruence.
Qed.

Lemma init_calm (threads : nat) (isdown : bool) (r : option cstring) : calm (t_init threads isdown r).
Proof.
  intros t. exists None. split; [|by intros m]. unfold before. cbn [t_init prog].
  destruct (replicate threads [] !! t) as [p|] eqn:Hp; [|done]. apply lookup_replicate in Hp as [-> _]. done.
Qed.

(** The handlers start with nothing held and end so. *)
Lemma handler_sections (sig : signal) (p : list op) :
  sections None (sig_handler_ops sig ++ p) = sections None p.
Proof. by destruct sig. Qed.

Lemma unheld_none (s : tstate) (t : nat) (h : option mutex) :
  unheld t s → (∀ m, owner s m = Some t ↔ h = Some m) → h = None.
Proof. intros Hu Hm. destruct h as [m|]; [|done]. by destruct (Hu m); apply Hm. Qed.

Lemma deliver_calm (s : tstate) (t : nat) (sig : signal) (p : list op) :
  calm s → prog s !! t = Some p → unheld t s → calm (deliver_signal t sig p s).
Proof.
  intros Hs Hp Hu. apply (go_on_calm s t p); [done|done|]. intros h Hm. rewrite (unheld_none s t h Hu Hm).
  by rewrite handler_sections.
Qed.

Lemma step_calm (s s' : tstate) : calm s → step unheld s s' → calm s'.
Proof.
  intros Hs Hstep. destruct Hstep as [s s' Hrun|t c m rest s Hp|t call s Hp Hc|t sig p s Hp Hu].
  - destruct Hrun as [t o rest s s' Hp Ho|t c rest s Hp _|t c rest t' p p' s Hp Hp' Hw].
    + by eapply op_step_calm.
    + by apply (go_on_calm s t (o_signal c :: rest)).
    + apply (wake_calm _ t' c p); [|done|done]. by apply (go_on_calm s t (o_signal c :: rest)).
  - by apply (go_on_calm s t (o_asleep c m :: rest)).
  - apply (go_on_calm s t []); [done|done|]. intros h _ ->%bool_decide_eq_true. revert call Hc. by apply Forall_forall; repeat constructor.
  - by apply deliver_calm.
Qed.

Lemma reachable_calm (threads : nat) (isdown : bool) (r : option cstring) (s : tstate) :
  rtc (step unheld) (t_init threads isdown r) s → calm s.
Proof.
  intros Hr. refine (rtc_ind_r (R := step unheld) calm (t_init threads isdown r) _ _ s Hr); [apply init_calm|].
  intros s1 s2 _ Hstep Hs. by apply (step_calm s1).
Qed.

(** The next thing the thread does with [m] is to lock it. *)
Fixpoint relocks (m : mutex) (p : list op) : bool :=
  match p with
  | [] => false
  | o_lock m' :: q => if decide (m' = m) then true else relocks m q
  | o_unlock m' :: q | o_wait _ m' :: q | o_asleep _ m' :: q => if decide (m' = m) then false else relocks m q
  | _ :: q => relocks m q
  end.

(** It holds it already. *)
Definition dead (m : mutex) (t : nat) (s : tstate) : Prop :=
  owner s m = Some t /\ ∃ p, prog s !! t = Some p /\ relocks m p = true.

Lemma holder_not_relocks (m : mutex) (p : list op) : sections (Some m) p = true → relocks m p = false.
Proof.
  induction p as [|o p IH]; [done|].
  destruct o; cbn [sections relocks]; try exact IH; intros Hs;
    try (apply andb_true_iff in Hs as [Hs%bool_decide_eq_true Hp]); try done; try (by apply IH); by rewrite decide_True by congruence.
Qed.

Lemma wake_relocks (m : mutex) (c : cond) (p p' : list op) :
  wake c p = Some p' → relocks m p = true → relocks m p' = true.
Proof.
  revert p'. induction p as [|o p IH]; intros p' Hw; [done|].
  assert (∀ x, cons o <$> wake c p = Some x → ∃ q, wake c p = Some q /\ x = o :: q) as Hcons.
  { intros x. destruct (wake c p) as [q|]; [|done]. intros [= <-]. by exists q. }
  destruct o; cbn [wake] in Hw; try (apply Hcons in Hw as (q & Hq & ->); cbn [relocks]; try case_decide; by auto).
  case_decide as Hc; [|apply Hcons in Hw as (q & Hq & ->); cbn [relocks]; case_decide; by auto].
  injection Hw as <-. cbn [relocks]. by case_decide.
Qed.

Lemma handler_relocks (m : mutex) (sig : signal) (p : list op) :
  relocks m p = true → relocks m (sig_handler_ops sig ++ p) = true.
Proof. by destruct m, sig. Qed.

Lemma dead_go_on (m : mutex) (t t' : nat) (p r : list op) (s : tstate) :
  dead m t s → prog s !! t' = Some p → (relocks m p = true → relocks m r = true) → dead m t (go_on t' r s).
Proof.
  intros (Ho & q & Hq & Hr) Hp Hpr. split; [exact Ho|]. destruct (decide (t' = t)) as [->|Hne].
  - exists r. split; [by eapply prog_go_on|]. apply Hpr. congruence.
  - exists q. split; [|done]. change (prog (go_on t' r s)) with (<[t' := r]> (prog s)). by rewrite list_lookup_insert_ne.
Qed.

(** An operation does not take the mutex away, whoever makes it. *)
Lemma dead_op (m : mutex) (t t' : nat) (o : op) (rest : list op) (s s' : tstate) :
  dead m t s → prog s !! t' = Some (o :: rest) → op_step t' o rest s = Some s' → dead m t s'.
Proof.
  intros Hd Hp Ho. pose proof Hd as (Hown & q & Hq & Hr).
  assert (∀ r, (relocks m (o :: rest) = true → relocks m r = true) → dead m t (go_on t' r s)) as Hgo
    by (intros r; by apply (dead_go_on m t t' (o :: rest))).
  assert (∀ m' x r, m' ≠ m → dead m t (go_on t' r s) → dead m t (go_on t' r s <| owner := <[m' := x]> (owner s) |>)) as Howner.
  { intros m' x r Hne [_ Hx]. split; [|exact Hx]. change (<[m' := x]> (owner s) m = Some t). by rewrite fn_lookup_insert_ne. }
  assert (t' = t → relocks m (o :: rest) = true) as Ht by congruence.
  destruct o; cbn [op_step relocks] in *; try done; try (injection Ho as <-; by apply Hgo).
  - destruct (owner s m0) eqn:Hm; [done|]. injection Ho as <-. assert (m0 ≠ m) as Hne by congruence.
    rewrite decide_False in Hgo by done. apply Howner; [done|]. by apply Hgo.
  - destruct (decide (owner s m0 = Some t')) as [Hm|]; [|done]. injection Ho as <-. destruct (decide (m0 = m)) as [Hmm|Hmm].
    + exfalso. assert (t' = t) as Heq by congruence. by specialize (Ht Heq).
    + apply Howner; [done|]. by apply Hgo.
  - destruct (decide (owner s m0 = Some t')) as [Hm|]; [|done]. injection Ho as <-. destruct (decide (m0 = m)) as [Hmm|Hmm].
    + exfalso. assert (t' = t) as Heq by congruence. by specialize (Ht Heq).
    + apply Howner; [done|]. apply Hgo. cbn [relocks]. by rewrite decide_False.
Qed.

Lemma dead_step (m : mutex) (t : nat) (s s' : tstate) : dead m t s → step anytime s s' → dead m t s'.
Proof.
  intros Hd Hstep. destruct Hstep as [s s' Hrun|t' c m' rest s Hp|t' call s Hp Hc|t' sig p s Hp _].
  - destruct Hrun as [t' o rest s s' Hp Ho|t' c rest s Hp _|t' c rest t2 p p' s Hp Hp' Hw].
    + by eapply dead_op.
    + by apply (dead_go_on m t t' (o_signal c :: rest)).
    + apply (dead_go_on m t t2 p); [|done|by apply (wake_relocks m c)]. by apply (dead_go_on m t t' (o_signal c :: rest)).
  - apply (dead_go_on m t t' (o_asleep c m' :: rest)); [done|done|]. cbn [relocks]. by case_decide.
  - by apply (dead_go_on m t t' []).
  - apply (dead_go_on m t t' p); [done|done|]. apply handler_relocks.
Qed.

(** What the handlers that end the process do, when they start with nothing held. The back-off is
    of one thread only; if it sleeps there, it is woken. *)
Lemma shutdown_run (s : tstate) (t : nat) (rs : cstring) (p : list op) :
  calm s → prog s !! t = Some (shutdownSocketConnection_ops rs ++ p) →
  ∃ s' p', rtc run_step s s' /\ calm s' /\ prog s' !! t = Some p' /\ resumed p p' /\
    stop s' = true /\ reason s' = Some rs /\ down s' = false /\
    ((waiters backoff_delay_con s ≤ 1)%nat → no_sleeper backoff_delay_con s').
Proof.
  intros Hs Hp.
  set (tl := [o_signal backoff_delay_con; o_unlock backoff_delay_mut]).
  set (mid := [o_set_down false; o_signal interface_down_con; o_unlock interface_down_mut; o_lock backoff_delay_mut]).
  destruct (run_through [o_reason rs; o_stop; o_lock interface_down_mut] s t (mid ++ tl ++ p) Hs Hp)
    as (s1 & q1 & Hrun1 & Hs1 & Hq1 & Hr1 & Hst1 & Hre1 & _); [by repeat constructor|].
  apply resumed_plain in Hr1 as (q2 & -> & Hr1); [|by repeat constructor].
  destruct (run_through mid s1 t q2 Hs1 Hq1) as (s2 & q3 & Hrun2 & Hs2 & Hq3 & Hr2 & Hst2 & Hre2 & Hdo2); [by repeat constructor|].
  assert (resumed (tl ++ p) q3) as Hr3 by (by etrans).
  apply resumed_plain in Hr3 as (p3 & -> & Hr3); [|by repeat constructor].
  destruct (go_ahead s2 t (o_signal backoff_delay_con) (o_unlock backoff_delay_mut :: p3) Hs2 Hq3 I)
    as (s3 & Hstep3 & Hs3 & (q4 & Hq4 & Hr4) & _ & _ & Hst3 & Hre3 & Hdo3 & Hsig).
  apply (resumed_plain [o_unlock backoff_delay_mut]) in Hr4 as (p4 & -> & Hr4); [|by repeat constructor].
  destruct (go_ahead s3 t (o_unlock backoff_delay_mut) p4 Hs3 Hq4 I)
    as (s4 & Hstep4 & Hs4 & (p5 & Hp5 & Hr5) & Hothers & _ & Hst4 & Hre4 & Hdo4 & _).
  assert (rtc run_step s s2) as Hrun by (by etrans). exists s4, p5. split.
  { eapply rtc_r; [|exact Hstep4]. by eapply rtc_r. }
  split; [done|]. split; [done|]. split; [etrans; [exact Hr3|etrans; [exact Hr4|exact Hr5]]|].
  rewrite Hst4, Hst3, Hst2, Hst1, Hre4, Hre3, Hre2, Hre1, Hdo4, Hdo3, Hdo2 by (unfold mid; by_eval).
  split; [done|]. split; [done|]. split; [done|]. intros Hone.
  assert (no_sleeper backoff_delay_con s3) as Hno.
  { destruct Hsig as [Hno|Hlt]; [done|]. apply no_waiters. apply (run_waiters backoff_delay_con) in Hrun. lia. }
  intros t'. destruct (decide (t' = t)) as [->|Hne].
  - rewrite (before_prog _ _ _ Hp5). apply (wake_none_resumed _ p4); [exact Hr5|].
    specialize (Hno t). rewrite (before_prog _ _ _ Hq4) in Hno. cbn [app wake] in Hno. by destruct (wake _ p4).
  - apply (wake_none_resumed _ (before s3 t')); [by apply Hothers|apply Hno].
Qed.

(** ** Properties *)

(** The signals that end the process. *)
Definition ending (sig : signal) : bool :=
  match sig with SIGINT | SIGUSR1 | SIGTERM | other_signal => true | _ => false end.

(** C35. The handler of a signal comes to its end, whatever the other threads were doing, when the
    thread it interrupts holds none of the mutexes: the others need only go on by themselves to
    let go of what it waits for. Then it has done to the shutdown what [sig_handler] does, and the
    thread goes on where it was, perhaps out of its sleep; when the process is to end, the flag of
    the interface is reset, and the one thread that backs off does not sleep any more. *)
Theorem signal_handled (threads : nat) (isdown : bool) (r : option cstring) (s : tstate) (t : nat) (p : list op)
    (sig : signal) (w : World)
    (Hs : rtc (step unheld) (t_init threads isdown r) s) (Hp : prog s !! t = Some p) (Hfree : unheld t s)
    (Hstop : g_shutdown w = stop s) (Hreason : shutdown_reason w = reason s) :
  ∃ s' p' w', rtc run_step (deliver_signal t sig p s) s' /\ prog s' !! t = Some p' /\ resumed p p' /\ unheld t s' /\
    sig_handler sig w = Done (tt, w') /\ stop s' = g_shutdown w' /\ reason s' = shutdown_reason w' /\
    (ending sig = true → down s' = false /\
       ((waiters backoff_delay_con s ≤ 1)%nat → no_sleeper backoff_delay_con s')).
Proof.
  apply reachable_calm in Hs. pose proof (deliver_calm s t sig p Hs Hp Hfree) as Hd.
  assert (∀ s1 p1, calm s1 → prog s1 !! t = Some p1 → resumed p p1 → unheld t s1) as Hunheld.
  { intros s1 p1 Hs1 Hp1 Hr1 m Hm. destruct (calm_held s t p Hs Hp) as (h & Hh & Ho).
    rewrite (unheld_none s t h Hfree Ho) in Hh. destruct (calm_held s1 t p1 Hs1 Hp1) as (h1 & Hh1 & Ho1).
    rewrite (sections_resumed p p1 h1 Hr1) in Hh1. rewrite (sections_unique _ _ _ Hh1 Hh) in Ho1. by apply Ho1 in Hm. }
  assert (prog (deliver_signal t sig p s) !! t = Some (sig_handler_ops sig ++ p)) as Hpd by (by eapply prog_go_on).
  destruct (ending sig) eqn:Hend.
  - assert (∃ rs, sig_handler_ops sig = shutdownSocketConnection_ops rs /\
      sig_handler sig w = Done (tt, w <| shutdown_reason := Some rs |> <| g_shutdown := true |>)) as (rs & Hops & Hrun)
      by (destruct sig; try done; by eexists).
    rewrite Hops in Hpd. destruct (shutdown_run _ t rs p Hd Hpd) as (s' & p' & Hr & Hs' & Hp' & Hpp & Hst & Hre & Hdo & Hno).
    exists s', p'. eexists. split; [done|]. split; [done|]. split; [done|]. split; [by eapply Hunheld|].
    split; [exact Hrun|]. split; [exact Hst|]. split; [exact Hre|]. intros _. split; [exact Hdo|].
    intros Hone. apply Hno. pose proof (waiters_go_on backoff_delay_con t p (sig_handler_ops sig ++ p) s Hp) as Hw.
    unfold deliver_signal. rewrite Hops in Hw |- *. cbn in Hw. cbn. lia.
  - assert (sig_handler_ops sig = [] /\ sig_handler sig w = Done (tt, w)) as [Hops Hrun] by (by destruct sig).
    rewrite Hops in Hpd. exists (deliver_signal t sig p s), p, w. split; [done|]. split; [done|]. split; [done|].
    split; [by apply (Hunheld _ p)|]. split; [done|]. by rewrite Hstop, Hreason.
Qed.

(** When it holds one of the two, it waits for itself: whatever happens from then on, it keeps
    the mutex, never gets back to what it was doing, and nobody else gets the mutex. *)
Theorem signal_self_deadlock (threads : nat) (isdown : bool) (r : option cstring) (s s' : tstate) (t : nat)
    (p : list op) (m : mutex) (sig : signal)
    (Hs : rtc (step unheld) (t_init threads isdown r) s) (Hp : prog s !! t = Some p)
    (Hm : owner s m = Some t) (Hsvc : m ≠ svc_mut) (Hsig : ending sig = true)
    (Hr : rtc (step anytime) (deliver_signal t sig p s) s') :
  owner s' m = Some t /\ (∀ q, resumed p q → prog s' !! t ≠ Some q) /\
  ∀ t' rest, op_step t' (o_lock m) rest s' = None.
Proof.
  apply reachable_calm in Hs.
  assert (dead m t s') as (Hown & q & Hq & Hre).
  { refine (rtc_ind_r (R := step anytime) (dead m t) _ _ _ s' Hr).
    - split; [exact Hm|]. eexists. split; [by eapply prog_go_on|]. by destruct m, sig.
    - intros s1 s2 _ Hstep Hd. by apply (dead_step m t s1). }
  split; [done|]. split; [|intros t' rest; cbn; by rewrite Hown].
  intros q' Hq' Hp'. assert (q' = q) as -> by congruence.
  destruct (calm_held s t p Hs Hp) as (h & Hh & Ho). apply Ho in Hm as ->.
  rewrite <-(sections_resumed p q _ Hq') in Hh. by rewrite (holder_not_relocks m q Hh) in Hre.
Qed.

(** ** Witnesses *)

(** Runs of the threads' own operations, for examples. *)
Definition op_at (t : nat) (s : tstate) : option tstate :=
  match prog s !! t with Some (o :: rest) => op_step t o rest s | _ => None end.
Fixpoint ops_at (ts : list nat) (s : tstate) : option tstate :=
  match ts with [] => Some s | t :: ts => s' ← op_at t s; ops_at ts s' end.

Lemma ops_at_steps (safe : nat → tstate → Prop) (ts : list nat) (s s' : tstate) :
  ops_at ts s = Some s' → rtc (step safe) s s'.
Proof.
  revert s. induction ts as [|t ts IH]; intros s; cbn [ops_at]; [by intros [= <-]|].
  destruct (op_at t s) as [s1|] eqn:Ho; [|done]. intros Hr. eapply rtc_l; [apply s_run|by apply IH].
  unfold op_at in Ho. destruct (prog s !! t) as [[|o rest]|] eqn:Hp; [done| |done]. by eapply r_op.
Qed.

Lemma call_steps (safe : nat → tstate → Prop) (t : nat) (call : list op) (s s' : tstate) :
  prog s !! t = Some [] → call ∈ calls → rtc (step safe) (go_on t call s) s' → rtc (step safe) s s'.
Proof. intros Hp Hc Hr. eapply rtc_l; [by apply s_call|done]. Qed.

Definition start_reason : option cstring := shutdown_reason (world_init (λ _, None)).

(** The back-off of one thread has released its mutex when SIGTERM comes to it, and another
    thread is under the mutex of the interface. *)
Example signal_handled_witness :
  ∃ s s' p' w', rtc (step unheld) (t_init 2 true start_reason) s /\ owner s interface_down_mut = Some 1%nat /\
    rtc run_step (deliver_signal 0 SIGTERM [o_asleep backoff_delay_con backoff_delay_mut; o_unlock backoff_delay_mut; o_get_stop] s) s' /\
    prog s' !! 0%nat = Some p' /\ sig_handler SIGTERM (world_init (λ _, None)) = Done (tt, w') /\ stop s' = g_shutdown w' /\
    down s' = false /\ no_sleeper backoff_delay_con s'.
Proof.
  assert (∃ s, ops_at [0; 0]%nat (go_on 0 backoff_delay_ops (t_init 2 true start_reason)) = Some s) as [s1 H1] by (eexists; reflexivity).
  assert (∃ s, ops_at [1]%nat (go_on 1 get_interface_down_event_ops s1) = Some s) as [s H2]
    by (injection H1 as <-; eexists; reflexivity).
  assert (rtc (step unheld) (t_init 2 true start_reason) s) as Hs.
  { apply (call_steps _ 0 backoff_delay_ops); [reflexivity|by_eval|].
    etrans; [exact (ops_at_steps _ _ _ _ H1)|].
    apply (call_steps _ 1 get_interface_down_event_ops); [by injection H1 as <-|by_eval|]. exact (ops_at_steps _ _ _ _ H2). }
  destruct (signal_handled 2 true start_reason s 0 [o_asleep backoff_delay_con backoff_delay_mut; o_unlock backoff_delay_mut; o_get_stop]
    SIGTERM (world_init (λ _, None)) Hs) as (s' & p' & w' & Hr & Hp' & _ & _ & Hw & Hst & _ & Hd).
  1, 3, 4: injection H1 as <-; injection H2 as <-; reflexivity.
  - injection H1 as <-; injection H2 as <-. intros []; vm_compute; discriminate.
  - exists s, s', p', w'. split; [exact Hs|]. split; [injection H1 as <-; injection H2 as <-; reflexivity|].
    split; [exact Hr|]. split; [exact Hp'|]. split; [exact Hw|]. split; [exact Hst|].
    destruct (Hd eq_refl) as [Hdown Hno]. split; [exact Hdown|]. apply Hno.
    injection H1 as <-; injection H2 as <-. vm_compute. lia.
Defined.

(** SIGTERM while the thread reads the flag of the interface. *)
Example signal_self_deadlock_witness :
  ∃ s, rtc (step unheld) (t_init 1 true None) s /\
    ∀ s', rtc (step anytime) (deliver_signal 0 SIGTERM [o_get_down; o_unlock interface_down_mut] s) s' →
      owner s' interface_down_mut = Some 0%nat.
Proof.
  assert (∃ s, ops_at [0]%nat (go_on 0 get_interface_down_event_ops (t_init 1 true None)) = Some s) as [s H1]
    by (eexists; reflexivity).
  exists s. assert (rtc (step unheld) (t_init 1 true None) s) as Hs
    by (apply (call_steps _ 0 get_interface_down_event_ops); [reflexivity|by_eval|exact (ops_at_steps _ _ _ _ H1)]).
  split; [exact Hs|]. intros s' Hr.
  refine (proj1 (signal_self_deadlock 1 true None s s' 0 [o_get_down; o_unlock interface_down_mut] interface_down_mut
    SIGTERM Hs _ _ _ _ Hr)); [injection H1 as <-; reflexivity|injection H1 as <-; reflexivity|discriminate|reflexivity].
Defined.
