(* ===== verification/StringMemory.v ===== *)
(** * Strings in memory

    The elements of a CRUD destination (crud_internal.c) are malloc'ed strings behind an array
    of five pointers; a connection attempt (connection.c) keeps its strings in variables that
    FREE_PTR_VAR frees and clears. Both are shown to free what they allocate, once. *)

From S2P Require Import Prelude Heap StringHelpers Timers Config Wrp World ClientList Nopoll Upstream Cjson Crud.
Local Open Scope cs_scope.
Local Open Scope nat_scope.

(** ** The array of crud_internal.c *)

(** The strings that are allocated. *)
Abbreviation strings := (gmap loc cstring).

(** An element of [obj]: not written yet, NULL, or a string. *)
Inductive slot : Set := s_unset | s_null | s_ptr (p : loc).
Definition slot_of (p : option loc) : slot := match p with None => s_null | Some p => s_ptr p end.

Record dmem : Set := mk_d { strs : strings; obj : list slot }.
#[export] Instance dmem_settable : Settable dmem := λ d, mk_d (strs d) (obj d).

Section dest.
Context `{WrpLib} (malloc : strings → loc).

Definition new_string (s : cstring) : M dmem loc := λ d,
  let p := malloc (strs d) in Done (p, d <| strs := <[p := s]> (strs d) |>).

Definition string_at (p : loc) : M dmem cstring := d ← gets strs; lift (deref_o (d !! p)).

(** [free]; NULL is allowed. *)
Definition free_string (p : option loc) : M dmem unit :=
  match p with
  | None => mret tt
  | Some p => _ ← string_at p; modify (λ d, d <| strs := delete p (strs d) |>)
  end.

Definition get_slot (i : nat) : M dmem (option loc) :=
  a ← gets obj;
  match a !! i with
  | Some (s_ptr p) => mret (Some p)
  | Some s_null => mret None
  | Some s_unset | None => undef
  end.

Definition set_slot (i : nat) (p : option loc) : M dmem unit :=
  a ← gets obj;
  match a !! i with
  | Some _ => modify (λ d, d <| obj := <[i := slot_of p]> (obj d) |>)
  | None => undef
  end.

(** The loop of [freeObjArray] over the next [todo] elements. *)
Fixpoint free_loop (todo i : nat) : M dmem unit :=
  match todo with
  | O => mret tt
  | S todo => p ← get_slot i; free_string p;; set_slot i None;; free_loop todo (S i)
  end.
Definition freeObjArray (size : nat) : M dmem unit := free_loop (S size) 0.

(** The loop of [parse_dest_elements_to_string]; [None] is -1. *)
Fixpoint dest_loop (todo i : nat) (rv : option nat) (reqMsg : wrp_msg_t) : M dmem (option nat) :=
  match todo with
  | O => mret rv
  | S todo =>
      match wrp_get_msg_element i reqMsg with
      | None => set_slot i None;; mret rv
      | Some s => p ← new_string s; set_slot i (Some p);; dest_loop todo (S i) (Some i) reqMsg
      end
  end.

Definition strdupptr_mem (s : cstring) (e : nat) : M dmem (option loc) :=
  match strdupptr s e with None => mret None | Some t => p ← new_string t; mret (Some p) end.

(** The last element, cut at its slash. *)
Definition cut_last (rv : nat) : M dmem (option nat) :=
  p ← get_slot rv;
  p ← deref p;
  start ← string_at p;
  match strchr start "/"%char with
  | None => mret (Some rv)
  | Some e =>
      tagElem ← strdupptr_mem start e;
      let rest := drop (S e) start in
      match strchr rest "/"%char with
      | None =>
          testElem ← new_string rest;
          old ← get_slot rv;
          free_string old;;
          set_slot rv None;;
          set_slot rv tagElem;;
          set_slot (S rv) (Some testElem);;
          mret (Some (S rv))
      | Some _ =>
          freeObjArray rv;;
          free_string tagElem;;
          mret None
      end
  end.

Definition parse_dest_mem (reqMsg : wrp_msg_t) : M dmem (option nat) :=
  rv ← dest_loop (S WRP_ID_ELEMENT__APPLICATION) 0 None reqMsg;
  match rv with
  | None => undef
  | Some rv => cut_last rv
  end.
End dest.

(** *** Specification *)

(** The pointers [ps] are to strings of [m] that read [arr], each a string of its own; without
    them, [m] is [m0]. *)
Fixpoint spells (m0 : strings) (ps : list (option loc)) (arr : obj_array) (m : strings) : Prop :=
  match ps, arr with
  | [], [] => m = m0
  | None :: ps, None :: arr => spells m0 ps arr m
  | Some p :: ps, Some s :: arr => m !! p = Some s /\ spells m0 ps arr (delete p m)
  | _, _ => False
  end.

(** The array has [arr] in its first elements and nothing in the others. *)
Definition array_spells (m0 : strings) (arr : obj_array) (d : dmem) : Prop :=
  ∃ ps, spells m0 ps arr (strs d) /\ obj d = (slot_of <$> ps) ++ replicate (5 - length arr) s_unset.

Definition no_array (m : strings) : dmem := mk_d m (replicate 5 s_unset).

(** *** Lemmas *)

Lemma spells_length (m0 m : strings) ps arr : spells m0 ps arr m → length ps = length arr.
Proof.
  revert arr m. induction ps as [|[p|] ps IH]; intros [|[s|] arr] m; cbn; try done.
  - intros [_ Hh]. f_equal. by eapply IH.
  - intros Hh. f_equal. by eapply IH.
Qed.

Lemma spells_snoc_none (m0 m : strings) ps arr : spells m0 ps arr m → spells m0 (ps ++ [None]) (arr ++ [None]) m.
Proof.
  revert arr m. induction ps as [|[p|] ps IH]; intros [|[s|] arr] m; cbn; try done; [|by apply IH].
  intros [Hp Hh]. split; [done|by apply IH].
Qed.

Lemma spells_snoc (m0 m : strings) ps arr (p : loc) (s : cstring) :
  m !! p = None → spells m0 ps arr m → spells m0 (ps ++ [Some p]) (arr ++ [Some s]) (<[p := s]> m).
Proof.
  revert arr m. induction ps as [|[q|] ps IH]; intros [|[t|] arr] m Hp; cbn; try done.
  - intros ->. by rewrite lookup_insert_eq, delete_insert_id.
  - intros [Hq Hh]. assert (p ≠ q) by congruence. rewrite lookup_insert_ne by done. split; [done|].
    rewrite delete_insert_ne by done. apply IH; [|done]. by rewrite lookup_delete_ne.
  - by apply IH.
Qed.

Lemma spells_last (m0 m : strings) ps arr (p : loc) (s : option cstring) :
  spells m0 (ps ++ [Some p]) (arr ++ [s]) m → length ps = length arr →
  ∃ t, s = Some t /\ m !! p = Some t /\ spells m0 ps arr (delete p m).
Proof.
  revert arr m. induction ps as [|[q|] ps IH]; intros [|[t|] arr] m; cbn; try done.
  - destruct s as [s|]; [|done]. intros [Hp Hh] _. by exists s.
  - intros [Hq Hh] [= Hl]. destruct (IH _ _ Hh Hl) as (t' & -> & Ht & Hh'). exists t'. split; [done|].
    assert (p ≠ q) as Hpq by (intros ->; by rewrite lookup_delete_eq in Ht).
    rewrite lookup_delete_ne in Ht by done. split; [done|]. split; [by rewrite lookup_delete_ne|].
    by rewrite delete_delete.
  - intros Hh [= Hl]. by apply IH.
Qed.

Lemma spells_base (m0 m : strings) ps arr (q : loc) : spells m0 ps arr m → m !! q = None → m0 !! q = None.
Proof.
  revert arr m. induction ps as [|[p|] ps IH]; intros [|[s|] arr] m; cbn; try done.
  - by intros ->.
  - intros [_ Hh] Hq. apply (IH _ _ Hh). by rewrite lookup_delete_None; right.
  - by apply IH.
Qed.

Lemma spells_frame (m0 m : strings) ps arr (q : loc) (t : cstring) :
  spells m0 ps arr m → m !! q = None → spells (<[q := t]> m0) ps arr (<[q := t]> m).
Proof.
  revert arr m. induction ps as [|[p|] ps IH]; intros [|[s|] arr] m; cbn; try done.
  - by intros ->.
  - intros [Hp Hh] Hq. assert (q ≠ p) by congruence. rewrite lookup_insert_ne by done. split; [done|].
    rewrite delete_insert_ne by done. apply IH; [done|]. by rewrite lookup_delete_None; right.
  - by apply IH.
Qed.

Lemma spells_app_none (m0 m : strings) ps arr : spells m0 (ps ++ [None]) (arr ++ [None]) m → spells m0 ps arr m.
Proof.
  revert arr m. induction ps as [|[p|] ps IH]; intros [|[s|] arr] m; cbn; try done;
    try (by destruct arr); try (intros Hh%spells_length; rewrite length_app in Hh; cbn in Hh; lia).
  - intros [Hp Hh]. split; [done|by apply IH].
  - by apply IH.
Qed.

(** *** The operations, run *)

Lemma get_slot_run (d : dmem) (i : nat) (p : option loc) :
  obj d !! i = Some (slot_of p) → get_slot i d = Done (p, d).
Proof. intros Hi. unfold get_slot. run_m. rewrite Hi. by destruct p. Qed.

Lemma set_slot_run (d : dmem) (i : nat) (p : option loc) :
  (i < length (obj d)) → set_slot i p d = Done (tt, d <| obj := <[i := slot_of p]> (obj d) |>).
Proof. intros [s Hs]%lookup_lt_is_Some. unfold set_slot. run_m. by rewrite Hs. Qed.

Lemma free_string_run (d : dmem) (p : loc) (s : cstring) :
  strs d !! p = Some s → free_string (Some p) d = Done (tt, d <| strs := delete p (strs d) |>).
Proof. intros Hp. unfold free_string, string_at. run_m. by rewrite Hp. Qed.

Lemma free_loop_run (m0 : strings) (ps qs : list (option loc)) (arr brr : obj_array) (pre post : list slot) (d : dmem) :
  spells m0 (ps ++ qs) (arr ++ brr) (strs d) → length ps = length arr →
  obj d = pre ++ (slot_of <$> ps) ++ post →
  ∃ d', free_loop (length ps) (length pre) d = Done (tt, d') /\ spells m0 qs brr (strs d') /\
    obj d' = pre ++ replicate (length ps) s_null ++ post.
Proof.
  revert arr pre d. induction ps as [|p ps IH]; intros [|s arr] pre d Hh Hl Ho; try done.
  { by exists d. }
  injection Hl as Hl. cbn [length free_loop fmap list_fmap app] in *.
  assert (length pre < length (obj d)) as Hlt by (rewrite Ho, length_app; cbn; lia).
  rewrite (bind_Done _ _ _ d p) by (apply get_slot_run; rewrite Ho, lookup_app_r, Nat.sub_diag by done; reflexivity).
  assert (∃ d1, free_string p d = Done (tt, d1) /\ obj d1 = obj d /\ spells m0 (ps ++ qs) (arr ++ brr) (strs d1))
    as (d1 & Hf & Ho1 & Hh1).
  { destruct p as [p|], s as [s|]; try done.
    - destruct Hh as [Hp Hh]. eexists. split; [by eapply free_string_run|]. by split.
    - by exists d. }
  rewrite (bind_Done _ _ _ d1 tt) by exact Hf. rewrite <-Ho1 in Hlt.
  rewrite (bind_Done _ _ _ _ _ (set_slot_run d1 (length pre) None Hlt)).
  destruct (IH arr (pre ++ [s_null]) (d1 <| obj := <[length pre := slot_of None]> (obj d1) |>)) as (d' & Hr & Hh' & Ho').
  - exact Hh1.
  - done.
  - change (<[length pre := s_null]> (obj d1) = (pre ++ [s_null]) ++ (slot_of <$> ps) ++ post).
    rewrite Ho1, Ho, insert_app_r_alt, Nat.sub_diag by done. by rewrite <-app_assoc.
  - exists d'. rewrite length_app in Hr. cbn [length] in Hr. rewrite Nat.add_1_r in Hr. split; [exact Hr|]. split; [exact Hh'|].
    rewrite Ho', <-app_assoc. reflexivity.
Qed.

(** One more element. *)
Lemma array_snoc (d : dmem) (m0 : strings) (arr : obj_array) (s : option cstring) (p : option loc) (m : strings) :
  array_spells m0 arr d → length arr < 5 →
  (∀ ps, spells m0 ps arr (strs d) → spells m0 (ps ++ [p]) (arr ++ [s]) m) →
  ∃ d', set_slot (length arr) p (d <| strs := m |>) = Done (tt, d') /\ array_spells m0 (arr ++ [s]) d' /\ strs d' = m.
Proof.
  intros (ps & Hh & Ho) Hlt Hm. pose proof (spells_length _ _ _ _ Hh) as Hl.
  assert (length (obj d) = 5) as H5 by (rewrite Ho, length_app, length_fmap, length_replicate; lia).
  eexists. split; [apply set_slot_run; cbn; lia|]. split; [|done]. exists (ps ++ [p]). split; [by apply Hm|].
  change (<[length arr := slot_of p]> (obj d) = (slot_of <$> ps ++ [p]) ++ replicate (5 - length (arr ++ [s])) s_unset).
  rewrite Ho, insert_app_r_alt by (by rewrite length_fmap, Hl). rewrite length_fmap, Hl, Nat.sub_diag, length_app.
  replace (5 - length arr) with (S (5 - (length arr + 1))) by lia. cbn [length replicate]. rewrite fmap_app, <-app_assoc.
  by replace (length arr + 1) with (length arr + length [s]) by done.
Qed.

Section dest_facts.
Context `{WrpLib} (malloc : strings → loc) (Hmalloc : ∀ m, m !! malloc m = None).

Lemma dest_loop_run (todo : nat) (arr : obj_array) (rv : option nat) (reqMsg : wrp_msg_t) (m0 : strings) (d : dmem) :
  array_spells m0 arr d → length arr + todo <= 5 →
  ∃ d', dest_loop malloc todo (length arr) rv reqMsg d =
    Done (match filled (dest_elements todo (length arr) reqMsg) with O => rv | S k => Some (length arr + k) end, d') /\
    array_spells m0 (arr ++ dest_elements todo (length arr) reqMsg) d'.
Proof using Hmalloc.
  revert arr rv d. induction todo as [|todo IH]; intros arr rv d Ha Hlt; cbn [dest_loop dest_elements].
  { exists d. by rewrite app_nil_r. }
  destruct (wrp_get_msg_element (length arr) reqMsg) as [s|].
  - destruct (array_snoc d m0 arr (Some s) (Some (malloc (strs d))) (<[malloc (strs d) := s]> (strs d)))
      as (d1 & Hs & Ha1 & _); [done|lia|by intros ps; apply spells_snoc|].
    rewrite (bind_Done _ _ d (d <| strs := <[malloc (strs d) := s]> (strs d) |>) (malloc (strs d))) by done.
    rewrite (bind_Done _ _ _ _ _ Hs).
    destruct (IH (arr ++ [Some s]) (Some (length arr)) d1 Ha1) as (d' & Hr & Ha'); [rewrite length_app; cbn; lia|].
    rewrite length_app in Hr, Ha'. cbn [length] in Hr, Ha'. rewrite Nat.add_1_r in Hr, Ha'. exists d'. rewrite Hr.
    rewrite <-app_assoc in Ha'. split; [|exact Ha'].
    cbn [filled]. destruct (filled (dest_elements todo (S (length arr)) reqMsg)); [by rewrite Nat.add_0_r|by rewrite Nat.add_succ_r].
  - destruct (array_snoc d m0 arr None None (strs d)) as (d1 & Hs & Ha1 & _); [done|lia|by intros ps; apply spells_snoc_none|].
    exists d1. split; [|exact Ha1]. assert (d <| strs := strs d |> = d) as Hd by (by destruct d). rewrite Hd in Hs.
    by rewrite (bind_Done _ _ _ _ _ Hs).
Qed.
End dest_facts.

(** What the loop finds: strings, and perhaps a NULL behind them. *)
Lemma dest_shape `{WrpLib} (todo i : nat) (reqMsg : wrp_msg_t) :
  ∃ l t, dest_elements todo i reqMsg = map Some l ++ t /\ (t = [] \/ t = [None]) /\
    filled (dest_elements todo i reqMsg) = length l /\ (length l + length t <= todo).
Proof.
  revert i. induction todo as [|todo IH]; intros i; cbn [dest_elements].
  { exists [], []. cbn. auto with lia. }
  destruct (wrp_get_msg_element i reqMsg) as [s|].
  - destruct (IH (S i)) as (l & t & -> & Ht & Hf & Hl). exists (s :: l), t. cbn [map app filled length].
    split; [done|]. split; [done|]. split; [by rewrite Hf|lia].
  - exists [], [None]. cbn. auto with lia.
Qed.

Lemma free_array (m0 : strings) (d : dmem) (l : list (option cstring)) (t : obj_array) (n : nat) :
  array_spells m0 (l ++ t) d → length l = S n → (t = [] \/ t = [None]) →
  ∃ d', freeObjArray n d = Done (tt, d') /\ strs d' = m0 /\ ∀ i, i <= n → obj d' !! i = Some s_null.
Proof.
  intros (ps & Hh & Ho) Hl Ht. pose proof (spells_length _ _ _ _ Hh) as Hlen. rewrite length_app in Hlen.
  rewrite <-(take_drop (S n) ps) in Hh, Ho.
  assert (length (take (S n) ps) = S n) as Htake by (rewrite length_take; lia).
  rewrite fmap_app, <-app_assoc in Ho.
  destruct (free_loop_run m0 (take (S n) ps) (drop (S n) ps) l t []
    ((slot_of <$> drop (S n) ps) ++ replicate (5 - length (l ++ t)) s_unset) d Hh) as (d' & Hr & Hh' & Ho'); [lia|exact Ho|].
  rewrite Htake in Hr, Ho'. exists d'. split; [exact Hr|]. split.
  - destruct Ht as [->| ->]; destruct (drop (S n) ps) as [|[q|] qs]; try done. by destruct qs as [|[?|] ?].
  - intros i Hi. rewrite Ho'. cbn [app]. rewrite lookup_app_l by (rewrite length_replicate; lia).
    apply lookup_replicate. split; [done|lia].
Qed.

Section dest_parse.
Context (malloc : strings → loc) (Hmalloc : ∀ m, m !! malloc m = None).
Context (m0 : strings) (ps1 : list (option loc)) (p : loc) (qs : list (option loc)).
Context (l1 : list cstring) (start : cstring) (t : obj_array) (d : dmem).
Context (Hh : spells m0 (ps1 ++ Some p :: qs) (map Some l1 ++ Some start :: t) (strs d)).
Context (Hl1 : length ps1 = length l1) (Ht : t = [] \/ t = [None]).

Lemma last_string : strs d !! p = Some start /\ spells m0 ps1 (map Some l1) (delete p (strs d)).
Proof using Hh Hl1 Ht.
  assert (spells m0 (ps1 ++ [Some p]) (map Some l1 ++ [Some start]) (strs d)) as Hlast.
  { destruct Ht as [->| ->].
    - destruct qs; [exact Hh|]. apply spells_length in Hh. rewrite !length_app, length_map in Hh. cbn in Hh. lia.
    - destruct qs as [|q [|q' qs']]; try (apply spells_length in Hh; rewrite !length_app, length_map in Hh; cbn in Hh; lia).
      destruct q as [q|].
      + assert (spells m0 ((ps1 ++ [Some p]) ++ [Some q]) ((map Some l1 ++ [Some start]) ++ [None]) (strs d)) as Hbad
          by (by rewrite <-!app_assoc).
        apply spells_last in Hbad as (x & [=] & _). rewrite !length_app, length_map, Hl1. done.
      + apply spells_app_none. by rewrite <-!app_assoc. }
  apply spells_last in Hlast as (x & [= <-] & Hp & Hrest); [done|by rewrite length_map].
Qed.

(** The old element makes way for the two parts it was cut into. *)
Lemma parts_held (tag : option cstring) (q : option loc) (rest : cstring) (m1 : strings) :
  match tag, q with
  | Some x, Some q => strs d !! q = None /\ m1 = <[q := x]> (strs d)
  | None, None => m1 = strs d
  | _, _ => False
  end →
  let r := malloc m1 in
  <[r := rest]> m1 !! p = Some start /\
  spells m0 (ps1 ++ [q; Some r]) (map Some l1 ++ [tag; Some rest]) (delete p (<[r := rest]> m1)).
Proof using All.
  destruct last_string as [Hp Hheld]. intros Hq r. pose proof (Hmalloc m1) as Hr. fold r in Hr.
  assert (m1 !! p = Some start) as Hp1.
  { destruct tag, q; try done; [|by subst]. destruct Hq as [Hq ->]. rewrite lookup_insert_ne; [done|congruence]. }
  assert (r ≠ p) as Hrp by congruence. rewrite lookup_insert_ne by done. split; [done|].
  rewrite delete_insert_ne by done.
  replace (ps1 ++ [q; Some r]) with ((ps1 ++ [q]) ++ [Some r]) by (by rewrite <-app_assoc).
  replace (map Some l1 ++ [tag; Some rest]) with ((map Some l1 ++ [tag]) ++ [Some rest]) by (by rewrite <-app_assoc).
  apply spells_snoc; [by rewrite lookup_delete_None; right|].
  destruct tag as [x|], q as [q|]; try done.
  - destruct Hq as [Hq ->]. rewrite delete_insert_ne by congruence. apply spells_snoc; [by rewrite lookup_delete_None; right|done].
  - subst m1. by apply spells_snoc_none.
Qed.
End dest_parse.

(** The pointers, and that the last string is at the last of them. *)
Lemma last_pointer (m0 : strings) (l1 : list cstring) (start : cstring) (t : obj_array) (d : dmem) :
  array_spells m0 (map Some (l1 ++ [start]) ++ t) d →
  ∃ ps1 p qs, spells m0 (ps1 ++ Some p :: qs) (map Some l1 ++ Some start :: t) (strs d) /\ length ps1 = length l1 /\
    obj d = (slot_of <$> ps1) ++ s_ptr p :: (slot_of <$> qs) ++ replicate (4 - length l1 - length t) s_unset.
Proof.
  intros (ps & Hh & Ho). rewrite map_app, <-app_assoc in Hh. cbn [map app] in Hh.
  pose proof (spells_length _ _ _ _ Hh) as Hl. rewrite length_app, length_map in Hl. cbn in Hl.
  destruct (ps !! length l1) as [[p|]|] eqn:Hp.
  - rewrite <-(take_drop_middle _ _ _ Hp) in Hh, Ho.
    exists (take (length l1) ps), p, (drop (S (length l1)) ps). split; [exact Hh|].
    split; [rewrite length_take; lia|]. rewrite Ho, fmap_app, <-app_assoc. cbn [fmap list_fmap app slot_of].
    assert (5 - length (map Some (l1 ++ [start]) ++ t) = 4 - length l1 - length t) as ->; [|done].
    rewrite length_app, length_map, length_app. cbn. lia.
  - exfalso. rewrite <-(take_drop_middle _ _ _ Hp) in Hh. clear -Hh Hl.
    assert (length (take (length l1) ps) = length l1) as Hlt by (rewrite length_take; lia). revert Hh Hlt.
    generalize (take (length l1) ps) as qs, (drop (S (length l1)) ps) as rs, (strs d) as m. clear Hl ps d.
    induction l1 as [|x l IH]; intros [|[q|] qs] rs m; cbn; try done. intros [_ Hh] [= Hl]. by eapply IH.
  - apply lookup_ge_None in Hp. lia.
Qed.

Section cut.
Context (malloc : strings → loc) (Hmalloc : ∀ m, m !! malloc m = None).

Lemma strdupptr_run (s : cstring) (e : nat) (d : dmem) :
  ∃ q m1, strdupptr_mem malloc s e d = Done (q, d <| strs := m1 |>) /\
    match strdupptr s e, q with
    | Some x, Some q => strs d !! q = None /\ m1 = <[q := x]> (strs d)
    | None, None => m1 = strs d
    | _, _ => False
    end.
Proof using Hmalloc.
  unfold strdupptr_mem. destruct (strdupptr s e) as [x|].
  - eexists (Some _), _. split; [reflexivity|]. by split.
  - exists None, (strs d). split; [by destruct d|done].
Qed.

Lemma insert_middle {A} (xs : list A) (x y : A) (ys : list A) (i : nat) :
  length xs = i → <[i := y]> (xs ++ x :: ys) = xs ++ y :: ys.
Proof. intros <-. by rewrite insert_app_r_alt, Nat.sub_diag by done. Qed.

(** A format that is refused: the elements and the first part are freed. *)
Lemma refused_freed (m0 : strings) (l1 : list cstring) (start : cstring) (t : obj_array) (d : dmem)
    (tag : option cstring) (q : option loc) (m1 : strings) :
  array_spells m0 (map Some (l1 ++ [start]) ++ t) d → (t = [] \/ t = [None]) →
  match tag, q with
  | Some x, Some q => strs d !! q = None /\ m1 = <[q := x]> (strs d)
  | None, None => m1 = strs d
  | _, _ => False
  end →
  ∃ d', (freeObjArray (length l1);; free_string q;; @mret (M dmem) _ (option nat) None) (d <| strs := m1 |>) = Done (None, d') /\
    strs d' = m0.
Proof.
  intros Ha Ht Hq. destruct Ha as (ps & Hps & Hops).
  assert (∃ m0', array_spells m0' (map Some (l1 ++ [start]) ++ t) (d <| strs := m1 |>) /\
    ∀ d', strs d' = m0' → ∃ d2, free_string q d' = Done (tt, d2) /\ strs d2 = m0) as (m0' & Ha' & Hfree).
  { destruct tag as [x|], q as [q|]; try done.
    - destruct Hq as [Hq ->]. exists (<[q := x]> m0). split; [exists ps; split; [exact (spells_frame _ _ _ _ _ _ Hps Hq)|exact Hops]|].
      intros d' Hd'. eexists. split; [eapply free_string_run; rewrite Hd'; apply lookup_insert_eq|].
      cbn. rewrite Hd'. apply delete_insert_id. exact (spells_base _ _ _ _ _ Hps Hq).
    - subst m1. exists m0. split; [by exists ps|]. intros d' Hd'. by exists d'. }
  destruct (free_array m0' (d <| strs := m1 |>) (map Some (l1 ++ [start])) t (length l1) Ha') as (d' & Hr & Hd' & _);
    [rewrite length_map, length_app; cbn; lia|done|].
  destruct (Hfree d' Hd') as (d2 & Hr2 & Hd2). exists d2. split; [|done].
  rewrite (bind_Done _ _ _ _ _ Hr). by rewrite (bind_Done _ _ _ _ _ Hr2).
Qed.

Lemma cut_last_run (m0 : strings) (l1 : list cstring) (start : cstring) (t : obj_array) (d : dmem) :
  array_spells m0 (map Some (l1 ++ [start]) ++ t) d → (t = [] \/ t = [None]) → (length l1 + length t <= 3) →
  match strchr start "/"%char with
  | None => cut_last malloc (length l1) d = Done (Some (length l1), d)
  | Some e =>
      let rest := drop (S e) start in
      match strchr rest "/"%char with
      | None => ∃ d', cut_last malloc (length l1) d = Done (Some (S (length l1)), d') /\
          array_spells m0 (map Some l1 ++ [strdupptr start e; Some rest]) d'
      | Some _ => ∃ d', cut_last malloc (length l1) d = Done (None, d') /\ strs d' = m0
      end
  end.
Proof using Hmalloc.
  intros Ha Ht Hlt. destruct (last_pointer m0 l1 start t d Ha) as (ps1 & p & qs & Hh & Hl1 & Ho).
  destruct (last_string m0 ps1 p qs l1 start t d Hh Hl1 Ht) as [Hp Hrest].
  assert (obj d !! length l1 = Some (slot_of (Some p))) as Hslot
    by (rewrite Ho, lookup_app_r, length_fmap, Hl1, Nat.sub_diag by (rewrite length_fmap; lia); done).
  unfold cut_last. rewrite (bind_Done _ _ _ _ _ (get_slot_run d (length l1) (Some p) Hslot)). unfold deref.
  rewrite (bind_Done (mret p) _ d d p) by done.
  rewrite (bind_Done (string_at p) _ d d start) by (unfold string_at; run_m; by rewrite Hp).
  destruct (strchr start "/"%char) as [e|]; [|done]. cbn zeta.
  destruct (strdupptr_run start e d) as (q & m1 & Hdup & Hq).
  rewrite (bind_Done _ _ _ _ _ Hdup). destruct (strchr (drop (S e) start) "/"%char) as [e'|].
  - by apply (refused_freed m0 l1 start t d (strdupptr start e) q m1).
  - destruct (parts_held malloc Hmalloc m0 ps1 p qs l1 start t d Hh Hl1 Ht (strdupptr start e) q (drop (S e) start) m1 Hq)
      as [Hp2 Hheld]. cbn zeta in Hp2, Hheld. set (r := malloc m1) in *.
    set (d2 := d <| strs := <[r := drop (S e) start]> m1 |>).
    rewrite (bind_Done (new_string malloc (drop (S e) start)) _ (d <| strs := m1 |>) d2 r) by done.
    rewrite (bind_Done _ _ d2 d2 (Some p)) by (by apply get_slot_run).
    rewrite (bind_Done _ _ d2 _ tt (free_string_run d2 p start Hp2)).
    change (strs d2) with (<[r := drop (S e) start]> m1).
    set (m3 := delete p (<[r := drop (S e) start]> m1)) in *. set (us := replicate (4 - length l1 - length t) s_unset) in *.
    assert (∃ u, (slot_of <$> qs) ++ us = u :: replicate (3 - length l1) s_unset) as [u Hu].
    { pose proof (spells_length _ _ _ _ Hh) as Hlen. rewrite !length_app, length_map in Hlen. cbn in Hlen. unfold us.
      destruct Ht as [->| ->], qs as [|x [|y qs]]; cbn in Hlen |- *; try lia.
      - replace (4 - length l1 - 0) with (S (3 - length l1)) by (cbn in Hlt; lia). by eexists.
      - replace (4 - length l1 - 1) with (3 - length l1) by (cbn in Hlt; lia). by eexists. }
    rewrite Hu in Ho. assert (length (slot_of <$> ps1) = length l1) as Hlf by (by rewrite length_fmap).
    assert (∀ x m y ys, set_slot (length l1) x (mk_d m ((slot_of <$> ps1) ++ y :: ys)) =
      Done (tt, mk_d m ((slot_of <$> ps1) ++ slot_of x :: ys))) as Hset.
    { intros x m y ys. rewrite set_slot_run by (cbn; rewrite length_app; cbn; lia). cbn.
      do 2 f_equal. by rewrite insert_middle. }
    assert (d2 <| strs := m3 |> = mk_d m3 ((slot_of <$> ps1) ++ s_ptr p :: u :: replicate (3 - length l1) s_unset)) as ->
      by (unfold d2; destruct d; cbn in *; by rewrite Ho).
    rewrite !(bind_Done _ _ _ _ _ (Hset _ _ _ _)).
    assert (set_slot (S (length l1)) (Some r) (mk_d m3 ((slot_of <$> ps1) ++ slot_of q :: u :: replicate (3 - length l1) s_unset)) =
      Done (tt, mk_d m3 ((slot_of <$> ps1 ++ [q; Some r]) ++ replicate (3 - length l1) s_unset))) as Hlast.
    { rewrite set_slot_run by (cbn; rewrite length_app; cbn; lia). cbn. do 2 f_equal.
      rewrite fmap_app, <-app_assoc. cbn. change (slot_of q :: u :: ?x) with ([slot_of q] ++ u :: x).
      rewrite app_assoc, insert_middle by (rewrite length_app, Hlf; cbn; lia). by rewrite <-app_assoc. }
    rewrite (bind_Done _ _ _ _ _ Hlast). eexists. split; [reflexivity|].
    exists (ps1 ++ [q; Some r]). split; [exact Hheld|]. cbn. rewrite length_app, length_map. cbn.
    by replace (5 - (length l1 + 2)) with (3 - length l1) by lia.
Qed.
End cut.

(** ** Properties *)

(** C33. The array of a destination is parsed in memory as [parse_dest_elements_to_string] has it,
    within its five elements: each element that is a string is one of its own, and when the
    format is refused nothing stays allocated. The handlers free the elements up to the level
    they were given; that frees all of them, once, and leaves the memory as it was. *)
Theorem dest_array_freed `{WrpLib} (malloc : strings → loc) (reqMsg : wrp_msg_t) (m0 : strings)
    (Hmalloc : ∀ m, m !! malloc m = None) (Hids : WRP_ID_ELEMENT__APPLICATION <= 3) :
  match parse_dest_elements_to_string reqMsg with
  | Done (Some (objlevel, arr)) =>
      ∃ d, parse_dest_mem malloc reqMsg (no_array m0) = Done (Some objlevel, d) /\ array_spells m0 arr d /\
        ∃ d', freeObjArray objlevel d = Done (tt, d') /\ strs d' = m0 /\
          ∀ i, i <= objlevel → obj d' !! i = Some s_null
  | Done None => ∃ d, parse_dest_mem malloc reqMsg (no_array m0) = Done (None, d) /\ strs d = m0
  | Undef => parse_dest_mem malloc reqMsg (no_array m0) = Undef
  | NoFuel => False
  end.
Proof.
  unfold parse_dest_elements_to_string, parse_dest_mem.
  destruct (dest_loop_run malloc Hmalloc (S WRP_ID_ELEMENT__APPLICATION) [] None reqMsg m0 (no_array m0))
    as (d & Hr & Ha); [by exists []|cbn; lia|].
  destruct (dest_shape (S WRP_ID_ELEMENT__APPLICATION) 0 reqMsg) as (l & t & Harr & Ht & Hf & Hlt).
  cbn [length app] in Hr, Ha. rewrite Hf in *. rewrite (bind_Done _ _ _ _ _ Hr). rewrite Harr in *. clear Hr Harr Hf.
  destruct l as [|start l1 _] using rev_ind; [done|]. rewrite length_app, Nat.add_1_r in *. cbn [Nat.add].
  pose proof (cut_last_run malloc Hmalloc m0 l1 start t d Ha Ht ltac:(lia)) as Hcut.
  rewrite map_app, <-app_assoc. cbn [map app].
  assert (obj_str (map Some l1 ++ Some start :: t) (length l1) = Done start) as ->.
  { unfold obj_str, obj_at. assert ((map Some l1 ++ Some start :: t) !! length l1 = Some (Some start)) as Hi
      by (apply list_lookup_middle; by rewrite length_map).
    exact (f_equal (λ o, s ← deref_o o; deref_o s) Hi). }
  cbn [mbind outcome_bind].
  destruct (strchr start "/"%char) as [e|].
  - cbn zeta in Hcut. destruct (strchr (drop (S e) start) "/"%char) as [e'|]; [exact Hcut|].
    destruct Hcut as (d' & Hr & Ha'). exists d'. split; [exact Hr|].
    replace (take (length l1) (map Some l1 ++ Some start :: t)) with (map Some l1)
      by (by rewrite take_app_length' by (by rewrite length_map)).
    split; [exact Ha'|]. apply (free_array m0 d' (map Some l1 ++ [strdupptr start e; Some (drop (S e) start)]) []).
    + by rewrite app_nil_r.
    + rewrite length_app, length_map. cbn. lia.
    + by left.
  - exists d. rewrite map_app, <-app_assoc in Ha. split; [exact Hcut|]. split; [exact Ha|].
    apply (free_array m0 d (map Some l1 ++ [Some start]) t); [by rewrite <-app_assoc| |done].
    rewrite length_app, length_map. cbn. lia.
Qed.

(** ** Witness *)

Definition malloc_string (m : strings) : loc := fresh (dom m : gset loc).
Lemma malloc_string_fresh (m : strings) : m !! malloc_string m = None.
Proof. apply (not_elem_of_dom (D := gset loc)). exact (is_fresh (dom m : gset loc)). Qed.

Definition test1_request : wrp_msg_t :=
  WRP_CRUD CREATE (crud_zero <| crud_dest := Some ("mac:14cfe2142xxx/parodus/tag/test1"%cs) |>).

Example dest_array_freed_witness :
  ∃ d d', @parse_dest_mem wrp_example malloc_string test1_request (no_array ∅) = Done (Some 4, d) /\ size (strs d) = 5 /\
    freeObjArray 4 d = Done (tt, d') /\ strs d' = ∅.
Proof.
  pose proof (@dest_array_freed wrp_example malloc_string test1_request ∅ malloc_string_fresh ltac:(vm_compute; lia)) as Hp.
  destruct (@parse_dest_elements_to_string wrp_example test1_request) as [[[n arr]|]| |] eqn:Hn;
    [|vm_compute in Hn; discriminate Hn..].
  assert (n = 4) as -> by (revert Hn; vm_compute; congruence).
  destruct Hp as (d & Hr & _ & d' & Hf & Hd & _). exists d, d'. split; [exact Hr|].
  split; [|split; [exact Hf|exact Hd]]. revert Hr. vm_compute. by intros [= <-].
Defined.
