(* ===== verification/ConnMemory.v ===== *)
(** * The strings of a connection attempt

    connection.c keeps malloc'ed strings in the servers of the list, in the header information
    and in the extra headers; FREE_PTR_VAR frees one and clears its variable. What depends on
    the configuration, the network, the allocator or another thread is taken from a list of
    answers, so that every path of the functions is a run here. *)

From S2P Require Import Prelude Heap.

(** ** The variables *)

Inductive var : Set :=
| v_defaults | v_jwt | v_redirect      (* server_addr of the servers in the list *)
| v_user_agent | v_device_id           (* header_info *)
| v_extra_headers
| v_redirectURL.                       (* of wait_connection_ready_mem *)
#[export] Instance var_eq_dec : EqDecision var.
Proof. solve_decision. Defined.

Record cmem : Set := mk_cmem {
  blocks : gset loc;
  vars : var → option loc;
  current : option var;     (* current_server *)
  answers : list bool
}.
#[export] Instance cmem_settable : Settable cmem := λ s, mk_cmem (blocks s) (vars s) (current s) (answers s).

Section conn.
Context (malloc : gset loc → loc) (dns_query : bool).

(** What the next answer is. *)
Definition ask : M cmem bool := λ s,
  match answers s with
  | [] => NoFuel
  | b :: rest => Done (b, s <| answers := rest |>)
  end.

Definition assign (v : var) (p : option loc) : M cmem unit :=
  modify (λ s, s <| vars := λ x, if decide (x = v) then p else vars s x |>).

Definition alloc (v : var) : M cmem unit :=
  b ← gets blocks;
  let p := malloc b in
  modify (λ s, s <| blocks := {[p]} ∪ blocks s |>);;
  assign v (Some p).

(** [free]: of something that is not allocated it is undefined. *)
Definition free_block (p : loc) : M cmem unit := λ s,
  if decide (p ∈ blocks s) then Done (tt, s <| blocks := blocks s ∖ {[p]} |>) else Undef.

Definition FREE_PTR_VAR (v : var) : M cmem unit :=
  vs ← gets vars;
  match vs v with
  | None => mret tt
  | Some p => free_block p;; assign v None
  end.

(** ** connection.c *)

Definition server_is_null_mem (v : var) : M cmem bool :=
  vs ← gets vars; mret (match vs v with None => true | Some _ => false end).

Definition free_server_list_mem : M cmem unit :=
  FREE_PTR_VAR v_redirect;; FREE_PTR_VAR v_jwt;; FREE_PTR_VAR v_defaults.

(** [parse_webpa_url] clears the address before anything else. *)
Definition parse_server_url_mem (server : var) : M cmem bool :=
  assign server None;;
  ok ← ask;
  when ok (alloc server);;
  mret ok.

Definition free_header_info_mem : M cmem unit := FREE_PTR_VAR v_user_agent;; FREE_PTR_VAR v_device_id.
Definition set_header_info_null_mem : M cmem unit := assign v_user_agent None;; assign v_device_id None.

Definition init_header_info_mem : M cmem unit :=
  set_header_info_null_mem;;
  allocated ← ask;
  if negb allocated then mret tt
  else
    alloc v_user_agent;;
    allocated ← ask;
    if negb allocated then FREE_PTR_VAR v_user_agent
    else
      alloc v_device_id;;
      convey ← ask;
      if negb convey then free_header_info_mem else mret tt.

Definition free_extra_headers_mem : M cmem unit := FREE_PTR_VAR v_extra_headers.

(** The string of a variable is read. *)
Definition read_string (v : var) : M cmem unit :=
  vs ← gets vars;
  p ← deref (vs v);
  b ← gets blocks;
  if decide (p ∈ b) then mret tt else undef.

Definition build_extra_hdrs_mem : M cmem unit :=
  read_string v_device_id;; read_string v_user_agent;; alloc v_extra_headers.
Definition set_extra_headers_mem : M cmem unit := free_extra_headers_mem;; build_extra_hdrs_mem.

Definition get_current_server_mem : M cmem var :=
  redirect ← server_is_null_mem v_redirect;
  if negb redirect then mret v_redirect
  else
    jwt ← server_is_null_mem v_jwt;
    if negb jwt then mret v_jwt else mret v_defaults.
Definition set_current_server_mem : M cmem unit :=
  c ← get_current_server_mem; modify (λ s, s <| current := Some c |>).

Inductive find_result : Set := FIND_SUCCESS | FIND_JWT_FAIL | FIND_INVALID_DEFAULT.

Definition find_servers_mem : M cmem find_result :=
  free_server_list_mem;;
  ok ← parse_server_url_mem v_defaults;
  if negb ok then mret FIND_INVALID_DEFAULT
  else if dns_query then
    acquire_jwt ← ask;
    if (acquire_jwt : bool) then
      ok ← parse_server_url_mem v_jwt;
      mret (if (ok : bool) then FIND_SUCCESS else FIND_JWT_FAIL)
    else mret FIND_SUCCESS
  else mret FIND_SUCCESS.

(** The address of the server and the extra headers are read here. *)
Definition nopoll_connect_mem : M cmem bool :=
  c ← gets current;
  c ← deref c;
  vs ← gets vars;
  addr ← deref (vs c);
  b ← gets blocks;
  if decide (addr ∈ b) then
    match vs v_extra_headers with
    | Some h => if decide (h ∈ b) then ask else undef
    | None => ask
    end
  else undef.

Inductive wait_result : Set := WAIT_SUCCESS | WAIT_ACTION_RETRY | WAIT_FAIL.

(** noPoll reports a redirection only together with its URL. *)
Definition wait_connection_ready_mem : M cmem wait_result :=
  assign v_redirectURL None;;
  url ← ask;
  when url (alloc v_redirectURL);;
  ready ← ask;
  if (ready : bool) then FREE_PTR_VAR v_redirectURL;; mret WAIT_SUCCESS
  else
    redirected ← (if (url : bool) then ask else mret false);
    if (redirected : bool) then
      FREE_PTR_VAR v_redirect;;
      ok ← parse_server_url_mem v_redirect;
      FREE_PTR_VAR v_redirectURL;;
      if negb ok then mret WAIT_FAIL
      else set_current_server_mem;; mret WAIT_ACTION_RETRY
    else
      FREE_PTR_VAR v_redirectURL;;
      unauthorized ← ask;
      mret (if (unauthorized : bool) then WAIT_ACTION_RETRY else WAIT_FAIL).

(** The second try, over IPv4, is for servers with [allow_insecure] 0; that of a server
    whose URL could not be parsed is negative. *)
Definition try_ipv4 (is_ipv6 : bool) : M cmem bool :=
  c ← gets current;
  c ← deref c;
  vs ← gets vars;
  match vs c with
  | None => mret false
  | Some _ => if is_ipv6 then ask else mret false
  end.

Fixpoint connect_loop_mem (attempts : nat) (is_ipv6 : bool) : M cmem wait_result :=
  match attempts with
  | O => nofuel
  | S attempts =>
      connected ← nopoll_connect_mem;
      ok ← (if (connected : bool) then ask else mret false);
      wait_rtn ← (if (ok : bool) then wait_connection_ready_mem else mret WAIT_FAIL);
      match wait_rtn with
      | WAIT_SUCCESS => mret WAIT_SUCCESS
      | WAIT_ACTION_RETRY => mret WAIT_ACTION_RETRY
      | WAIT_FAIL =>
          again ← try_ipv4 is_ipv6;
          if (again : bool) then connect_loop_mem attempts false else mret WAIT_FAIL
      end
  end.
Definition connect_and_wait_mem : M cmem wait_result := is_ipv6 ← ask; connect_loop_mem 2 is_ipv6.

(** Waiting for the interface and the back-off touch none of the strings. *)
Fixpoint keep_trying_to_connect_mem (turns : nat) : M cmem bool :=
  match turns with
  | O => nofuel
  | S turns =>
      shutdown ← ask;
      if (shutdown : bool) then mret false
      else
        set_extra_headers_mem;;
        rtn ← connect_and_wait_mem;
        match rtn with
        | WAIT_SUCCESS => mret true
        | WAIT_ACTION_RETRY => keep_trying_to_connect_mem turns
        | WAIT_FAIL => mret false
        end
  end.

Fixpoint connection_loop_mem (turns : nat) : M cmem unit :=
  match turns with
  | O => nofuel
  | S turns =>
      shutdown ← ask;
      if (shutdown : bool) then mret tt
      else
        set_current_server_mem;;
        connected ← keep_trying_to_connect_mem turns;
        FREE_PTR_VAR v_redirect;;
        if (connected : bool) then mret tt
        else if dns_query then
          null ← server_is_null_mem v_jwt;
          if (null : bool) then
            found ← find_servers_mem;
            match found with
            | FIND_INVALID_DEFAULT => mret tt
            | _ => connection_loop_mem turns
            end
          else connection_loop_mem turns
        else connection_loop_mem turns
  end.

(** [r_null_server]: a shutdown has come before the first attempt; the code then reads
    [current_server], which is NULL. *)
Inductive conn_result : Set := r_invalid_default | r_connected | r_null_server.

(** [conn_ctx] is cleared first; it is a local variable. *)
Definition createNopollConnection_mem (turns : nat) : M cmem conn_result :=
  assign v_user_agent None;; assign v_device_id None;; assign v_extra_headers None;;
  modify (λ s, s <| current := None |>);;
  init_header_info_mem;;
  null ← server_is_null_mem v_defaults;
  found ← (if (null : bool) then find_servers_mem else mret FIND_SUCCESS);
  match found with
  | FIND_INVALID_DEFAULT => mret r_invalid_default
  | _ =>
      connection_loop_mem turns;;
      c ← gets current;
      match c with
      | None => mret r_null_server
      | Some _ =>
          free_extra_headers_mem;;
          free_header_info_mem;;
          mret r_connected
      end
  end.
End conn.

(** ** Specification *)

(** What is allocated is what the variables point to, each block from one of them. *)
Definition inv (s : cmem) : Prop :=
  (∀ p, p ∈ blocks s ↔ ∃ v, vars s v = Some p) /\
  (∀ v v' p, vars s v = Some p → vars s v' = Some p → v = v').

(** Between two attempts only the servers of the list are kept, and no redirection. *)
Definition at_rest (s : cmem) : Prop :=
  inv s /\ ∀ v, v ≠ v_defaults → v ≠ v_jwt → vars s v = None.

(** What each result leaves behind. *)
Definition left_over (r : conn_result) (s : cmem) : Prop :=
  match r with
  | r_connected => at_rest s
  | r_invalid_default => inv s /\ ∀ v, v ≠ v_user_agent → v ≠ v_device_id → vars s v = None
  | r_null_server => inv s
  end.

(** The header information could not be set up: the first answers tell whether its two
    strings could be allocated and whether there is a convey header. *)
Definition header_missing (s : cmem) : Prop := ∃ k, (k < 3)%nat /\ answers s !! k = Some false.

(** The server that is connected to has an address. *)
Definition has_server (s : cmem) : Prop := ∃ c, current s = Some c /\ vars s c ≠ None.

(** ** Lemmas *)

(** The variables after an assignment. *)
Definition assigned (v : var) (p : option loc) (s s' : cmem) : Prop :=
  (∀ x, vars s' x = if decide (x = v) then p else vars s x) /\ current s' = current s /\ answers s' = answers s.

(** Only these variables have changed. *)
Definition changes (vs : list var) (s s' : cmem) : Prop := ∀ x, x ∉ vs → vars s' x = vars s x.

Lemma changes_trans (us vs ws : list var) (s s1 s2 : cmem) :
  changes vs s s1 → changes ws s1 s2 → vs ⊆ us → ws ⊆ us → changes us s s2.
Proof. intros H1 H2 Hv Hw x Hx. rewrite H2, H1; [done|..]; intros Hin; apply Hx; auto. Qed.

Lemma changes_weaken (us vs : list var) (s s' : cmem) : changes vs s s' → vs ⊆ us → changes us s s'.
Proof. intros Hc Hv x Hx. apply Hc. auto. Qed.

Lemma assigned_changes (v : var) (p : option loc) (s s' : cmem) : assigned v p s s' → changes [v] s s'.
Proof. intros [Hv _] x Hx. rewrite Hv, decide_False; [done|]. intros ->. apply Hx. by left. Qed.

Lemma same_changes (vs : list var) (s s' : cmem) : vars s' = vars s → changes vs s s'.
Proof. intros Hv x _. by rewrite Hv. Qed.

Lemma list_subseteq_eval (us vs : list var) : forallb (λ x, bool_decide (x ∈ vs)) us = true → us ⊆ vs.
Proof. rewrite forallb_forall. intros Hf x Hx. apply (bool_decide_eq_true_1 (x ∈ vs)), Hf. by apply list_elem_of_In. Qed.

(** The value of a variable, looked up through the assignments made since. *)
Ltac look :=
  repeat match goal with
  | H : assigned _ _ ?s0 ?s |- context [vars ?s ?v] => rewrite (proj1 H v)
  | H : vars ?s = vars _ |- context [vars ?s _] => rewrite H
  | H : changes ?vs ?s0 ?s |- context [vars ?s ?v] => rewrite (H v) by (by_eval)
  | H : assigned _ _ ?s0 ?s |- context [current ?s] => rewrite (proj1 (proj2 H))
  | H : current ?s = current _ |- context [current ?s] => rewrite H
  end; cbn; try done.

Ltac framed :=
  intros x Hx; repeat match goal with
  | |- ?a = ?a => reflexivity
  | H : assigned _ _ ?s0 ?s |- context [vars ?s x] => rewrite (proj1 H x)
  | H : vars ?s = vars _ |- context [vars ?s x] => rewrite H
  | H : changes ?vs ?s0 ?s |- context [vars ?s x] => rewrite (H x) by (intros Hin; apply Hx; revert Hin; apply list_subseteq_eval; reflexivity)
  end; repeat (case_decide; [first [done | subst; exfalso; apply Hx; repeat first [apply list_elem_of_here | apply list_elem_of_further]]|]); try done.

Section runs.
Context (bad : Prop).

(** Nothing undefined happens unless [bad], and a run that comes to its end does so in [Q]. *)
Definition wp {A} (m : M cmem A) (Q : A → cmem → Prop) (s : cmem) : Prop :=
  match m s with Done (a, s') => Q a s' | Undef => bad | NoFuel => True end.

Lemma wp_bind {A B} (m : M cmem A) (f : A → M cmem B) (Q : B → cmem → Prop) (s : cmem) :
  wp m (λ a, wp (f a) Q) s → wp (a ← m; f a) Q s.
Proof. unfold wp, mbind, M_bind. by destruct (m s) as [[a s']| |]. Qed.

Lemma wp_ret {A} (a : A) (Q : A → cmem → Prop) (s : cmem) : Q a s → wp (mret a) Q s.
Proof. done. Qed.

Lemma wp_mono {A} (m : M cmem A) (P Q : A → cmem → Prop) (s : cmem) :
  wp m P s → (∀ a s', P a s' → Q a s') → wp m Q s.
Proof. unfold wp. destruct (m s) as [[a s']| |]; auto. Qed.

(** What the run is may be used too. *)
Lemma wp_done {A} (m : M cmem A) (P Q : A → cmem → Prop) (s : cmem) :
  wp m P s → (∀ a s', m s = Done (a, s') → P a s' → Q a s') → wp m Q s.
Proof. unfold wp. destruct (m s) as [[a s']| |]; auto. Qed.

Lemma wp_gets {A} (f : cmem → A) (Q : A → cmem → Prop) (s : cmem) : Q (f s) s → wp (gets f) Q s.
Proof. done. Qed.

Section rules.
Context (malloc : gset loc → loc) (Hmalloc : ∀ b, malloc b ∉ b).

Lemma wp_ask (Q : bool → cmem → Prop) (s : cmem) :
  inv s → (∀ b s', inv s' → vars s' = vars s → current s' = current s → Q b s') → wp ask Q s.
Proof. intros Hs HQ. unfold wp, ask. destruct (answers s); [done|]. by apply HQ. Qed.

Lemma wp_set_none (v : var) (Q : unit → cmem → Prop) (s : cmem) :
  inv s → vars s v = None → (∀ s', inv s' → assigned v None s s' → Q tt s') → wp (assign v None) Q s.
Proof.
  intros [Hb Hu] Hv HQ. unfold wp, assign, modify. apply HQ; [|by split].
  assert (∀ x, (if decide (x = v) then None else vars s x) = vars s x) as Hx by (intros x; case_decide; congruence).
  split; cbn.
  - intros p. rewrite Hb. split; intros [x Hp]; exists x; by rewrite Hx in *.
  - intros x y p. rewrite !Hx. apply Hu.
Qed.

Lemma wp_alloc (v : var) (Q : unit → cmem → Prop) (s : cmem) :
  inv s → vars s v = None → (∀ s' p, inv s' → assigned v (Some p) s s' → Q tt s') → wp (alloc malloc v) Q s.
Proof using Hmalloc.
  intros [Hb Hu] Hv HQ. unfold wp, alloc, assign. cbv [mbind M_bind mret M_ret gets modify]; cbn beta iota zeta. apply (HQ _ (malloc (blocks s))); [|by split].
  assert (∀ x, vars s x ≠ Some (malloc (blocks s))) as Hnew
    by (intros x Hx; apply (Hmalloc (blocks s)), Hb; by exists x).
  split; cbn.
  - intros p. rewrite elem_of_union, elem_of_singleton, Hb. split.
    + intros [->|[x Hx]]; [exists v; by rewrite decide_True|]. exists x. rewrite decide_False; [done|congruence].
    + intros [x Hx]. case_decide; [left; congruence|right; by exists x].
  - intros x y p. repeat case_decide; intros Hx Hy; try congruence. by apply (Hu x y p).
Qed.

Lemma wp_free (v : var) (Q : unit → cmem → Prop) (s : cmem) :
  inv s → (∀ s', inv s' → assigned v None s s' → Q tt s') → wp (FREE_PTR_VAR v) Q s.
Proof.
  intros Hs HQ. unfold wp, FREE_PTR_VAR, free_block, assign. cbv [mbind M_bind mret M_ret gets modify]; cbn beta iota zeta. destruct (vars s v) as [p|] eqn:Hp.
  2:{ apply HQ; [done|]. split; [|done]. intros x. case_decide; congruence. }
  destruct Hs as [Hb Hu]. rewrite decide_True by (apply Hb; by exists v). apply HQ; [|by split].
  split; cbn.
  - intros q. rewrite elem_of_difference, elem_of_singleton, Hb. split.
    + intros [[x Hx] Hq]. exists x. rewrite decide_False; [done|congruence].
    + intros [x Hx]. case_decide as Hxv; [done|]. split; [by exists x|]. intros ->. by apply Hxv, (Hu x v p).
  - intros x y q. repeat case_decide; try done. apply Hu.
Qed.

Lemma wp_is_null (v : var) (Q : bool → cmem → Prop) (s : cmem) :
  Q (match vars s v with None => true | Some _ => false end) s → wp (server_is_null_mem v) Q s.
Proof. done. Qed.
End rules.

Section specs.
Context (malloc : gset loc → loc) (Hmalloc : ∀ b, malloc b ∉ b).

Lemma wp_free_server_list (Q : unit → cmem → Prop) (s : cmem) :
  inv s → (∀ s', inv s' → changes [v_redirect; v_jwt; v_defaults] s s' → vars s' v_redirect = None → vars s' v_jwt = None →
    vars s' v_defaults = None → current s' = current s → Q tt s') → wp free_server_list_mem Q s.
Proof.
  intros Hs HQ. unfold free_server_list_mem. apply wp_bind, wp_free; [done|]. intros s1 Hs1 H1.
  apply wp_bind, wp_free; [done|]. intros s2 Hs2 H2. apply wp_free; [done|]. intros s3 Hs3 H3.
  apply HQ; [done|framed|look..].
Qed.

Lemma wp_parse_server_url (v : var) (Q : bool → cmem → Prop) (s : cmem) :
  inv s → vars s v = None → (∀ b s', inv s' → changes [v] s s' → current s' = current s →
    (vars s' v = None ↔ b = false) → Q b s') → wp (parse_server_url_mem malloc v) Q s.
Proof using Hmalloc.
  intros Hs Hv HQ. unfold parse_server_url_mem. apply wp_bind, wp_set_none; [done|done|]. intros s1 Hs1 H1.
  apply wp_bind, wp_ask; [done|]. intros b s2 Hs2 H2 Hc2. apply wp_bind. destruct b; cbn [when].
  - apply wp_alloc; [done|done|look; by rewrite decide_True|]. intros s3 p Hs3 H3. apply wp_ret, HQ.
    + done.
    + by framed.
    + look. 
    + look. by rewrite decide_True.
  - apply wp_ret, wp_ret, HQ; [done|by framed|look|]. look. by rewrite decide_True.
Qed.

Lemma wp_modify_current (c : option var) (Q : unit → cmem → Prop) (s : cmem) :
  inv s → (∀ s', inv s' → vars s' = vars s → answers s' = answers s → Q tt s') → wp (modify (λ s, s <| current := c |>)) Q s.
Proof. intros Hs HQ. by apply HQ. Qed.

Lemma wp_set_current_server (Q : unit → cmem → Prop) (s : cmem) :
  inv s → (∀ s', inv s' → vars s' = vars s → (vars s v_defaults ≠ None → has_server s') → Q tt s') →
  wp set_current_server_mem Q s.
Proof.
  intros Hs HQ. unfold set_current_server_mem, get_current_server_mem. repeat apply wp_bind. apply wp_is_null.
  assert (∀ c, (vars s v_defaults ≠ None → vars s c ≠ None) →
    wp (modify (λ s, s <| current := Some c |>)) Q s) as Hset.
  { intros c Hc. apply HQ; [exact Hs|done|]. intros Hd. exists c. split; [done|]. by apply Hc. }
  destruct (vars s v_redirect) eqn:Hr; cbn [negb]; [apply wp_ret, Hset; by rewrite Hr|].
  apply wp_bind, wp_is_null. destruct (vars s v_jwt) eqn:Hj; cbn [negb]; apply wp_ret, Hset; by rewrite ?Hj.
Qed.

Lemma wp_init_header_info (Q : unit → cmem → Prop) (s : cmem) :
  inv s → vars s v_user_agent = None → vars s v_device_id = None →
  (∀ s', inv s' → changes [v_user_agent; v_device_id] s s' → Q tt s') → wp (init_header_info_mem malloc) Q s.
Proof using Hmalloc.
  intros Hs Hu Hd HQ. unfold init_header_info_mem, set_header_info_null_mem, free_header_info_mem.
  apply wp_bind, wp_bind, wp_set_none; [done|done|]. intros s1 Hs1 H1. apply wp_set_none; [done|look|]. intros s2 Hs2 H2.
  apply wp_bind, wp_ask; [done|]. intros a s3 Hs3 H3 _. destruct a; cbn [negb]; [|apply wp_ret, HQ; [done|framed]].
  apply wp_bind, wp_alloc; [done|done|look|]. intros s4 p Hs4 H4.
  apply wp_bind, wp_ask; [done|]. intros b s5 Hs5 H5 _. destruct b; cbn [negb].
  - apply wp_bind, wp_alloc; [done|done|look|]. intros s6 q Hs6 H6. apply wp_bind, wp_ask; [done|]. intros c s7 Hs7 H7 _.
    destruct c; cbn [negb]; [apply wp_ret, HQ; [done|framed]|].
    apply wp_bind, wp_free; [done|]. intros s8 Hs8 H8. apply wp_free; [done|]. intros s9 Hs9 H9. apply HQ; [done|framed].
  - apply wp_free; [done|]. intros s6 Hs6 H6. apply HQ; [done|framed].
Qed.

Lemma wp_find_servers (dns_query : bool) (Q : find_result → cmem → Prop) (s : cmem) :
  inv s → (∀ r s', inv s' → changes [v_redirect; v_jwt; v_defaults] s s' → vars s' v_redirect = None →
    (r ≠ FIND_INVALID_DEFAULT → vars s' v_defaults ≠ None) →
    (r = FIND_INVALID_DEFAULT → vars s' v_defaults = None /\ vars s' v_jwt = None) → Q r s') →
  wp (find_servers_mem malloc dns_query) Q s.
Proof using Hmalloc.
  intros Hs HQ. unfold find_servers_mem. apply wp_bind, wp_free_server_list; [done|]. intros s1 Hs1 H1 Hr Hj Hd _.
  apply wp_bind, wp_parse_server_url; [done|done|]. intros ok s2 Hs2 H2 _ Hok.
  destruct ok; cbn [negb]; [|apply wp_ret, HQ; [done|framed|look|done|]].
  2:{ intros _. split; [by apply Hok|look]. }
  assert (vars s2 v_defaults ≠ None) as Hd2 by (by rewrite Hok).
  destruct dns_query; [|apply wp_ret, HQ; [done|framed|look|done|done]].
  apply wp_bind, wp_ask; [done|]. intros jwt s3 Hs3 H3 _. destruct jwt; [|apply wp_ret, HQ; [done|framed|look|by rewrite H3|done]].
  apply wp_bind, wp_parse_server_url; [done|look|]. intros ok4 s4 Hs4 H4 _ _.
  apply wp_ret, HQ; [done|framed|look| |by destruct ok4]. intros _. rewrite (H4 v_defaults) by (by_eval). by rewrite H3.
Qed.

Lemma wp_nopoll_connect (Q : bool → cmem → Prop) (s : cmem) :
  inv s → has_server s → (∀ b s', inv s' → vars s' = vars s → current s' = current s → Q b s') → wp nopoll_connect_mem Q s.
Proof.
  intros Hs (c & Hc & Hv) HQ. unfold nopoll_connect_mem. apply wp_bind, wp_gets. rewrite Hc. apply wp_bind, wp_ret.
  apply wp_bind, wp_gets. destruct (vars s c) as [p|] eqn:Hp; [|done]. apply wp_bind, wp_ret. apply wp_bind, wp_gets.
  pose proof (proj1 Hs) as Hb. rewrite decide_True by (apply Hb; by exists c).
  destruct (vars s v_extra_headers) as [h|] eqn:Hh; [rewrite decide_True by (apply Hb; by exists v_extra_headers)|];
    by apply wp_ask.
Qed.

(** The strings of the header are there, unless [bad]. *)
Definition header (s : cmem) : Prop := bad \/ (vars s v_user_agent ≠ None /\ vars s v_device_id ≠ None).

Lemma header_kept (s s' : cmem) :
  header s → vars s' v_user_agent = vars s v_user_agent → vars s' v_device_id = vars s v_device_id → header s'.
Proof. intros [?|?] Ha Hi; [by left|right]. by rewrite Ha, Hi. Qed.

Lemma wp_read_string (v : var) (Q : unit → cmem → Prop) (s : cmem) :
  inv s → bad \/ vars s v ≠ None → Q tt s → wp (read_string v) Q s.
Proof.
  intros Hs Hv HQ. unfold read_string. apply wp_bind, wp_gets. destruct (vars s v) as [p|] eqn:Hp.
  - apply wp_bind, wp_ret. apply wp_bind, wp_gets. rewrite decide_True by (apply (proj1 Hs); by exists v). by apply wp_ret.
  - by destruct Hv.
Qed.

(** The header and the old extra headers are read and freed, the new ones allocated. *)
Lemma wp_set_extra_headers (Q : unit → cmem → Prop) (s : cmem) :
  inv s → header s →
  (∀ s', inv s' → changes [v_extra_headers] s s' → current s' = current s →
     vars s' v_extra_headers ≠ None → Q tt s') →
  wp (set_extra_headers_mem malloc) Q s.
Proof using Hmalloc.
  intros Hs Hh HQ. unfold set_extra_headers_mem, build_extra_hdrs_mem, free_extra_headers_mem.
  apply wp_bind, wp_free; [done|]. intros s1 Hs1 H1.
  assert (header s1) as Hh1 by (apply (header_kept s); [done|look..]).
  apply wp_bind, wp_read_string; [done|unfold header in Hh1; tauto|].
  apply wp_bind, wp_read_string; [done|unfold header in Hh1; tauto|].
  apply wp_alloc; [done|done|look|]. intros s2 p Hs2 H2. apply HQ; [done|framed|look|look].
Qed.

(** When nothing is missing, the header is set up. *)
Lemma init_header (s s' : cmem) :
  (header_missing s → bad) → init_header_info_mem malloc s = Done (tt, s') → header s'.
Proof.
  intros Hbad. unfold init_header_info_mem, set_header_info_null_mem, free_header_info_mem, ask, alloc, assign.
  cbv [mbind M_bind mret M_ret gets modify]; cbn.
  destruct (answers s) as [|[] [|[] [|[] rest]]] eqn:Ha; cbn; try done;
    try (intros _; left; apply Hbad; unfold header_missing; rewrite Ha;
         first [by exists 0%nat; split; [lia|] | by exists 1%nat; split; [lia|] | by exists 2%nat; split; [lia|]]).
  intros [= <-]. by right.
Qed.

(** Between the tries: an address to connect to, the header, and no URL of a redirection. *)
Definition trying (s : cmem) : Prop :=
  inv s /\ vars s v_redirectURL = None /\ vars s v_defaults ≠ None /\ current s ≠ None /\ header s.

Lemma trying_kept (s s' : cmem) :
  trying s → inv s' → changes [v_redirect; v_redirectURL] s s' → vars s' v_redirectURL = None → current s' ≠ None →
  trying s'.
Proof.
  intros (_ & _ & Hd & _ & Hh) Hs' H Hu Hc. split; [done|]. split; [done|]. split; [by rewrite (H v_defaults) by (by_eval)|].
  split; [done|]. by apply (header_kept s); [|apply H; by_eval..].
Qed.

Lemma server_kept (s s' : cmem) :
  trying s → has_server s → changes [v_redirectURL] s s' → current s' = current s → has_server s'.
Proof.
  intros (_ & Hu & _) (c & Hc & Hv) H Hcur. exists c. split; [congruence|]. rewrite H; [done|].
  intros [->|Hx%elem_of_nil]%elem_of_cons; [by apply Hv|done].
Qed.

(** The redirection: the new address, or none. *)
Lemma wp_redirected (Q : wait_result → cmem → Prop) (s : cmem) :
  inv s → vars s v_defaults ≠ None → current s ≠ None →
  (∀ r s', inv s' → changes [v_redirect; v_redirectURL] s s' → vars s' v_redirectURL = None → current s' ≠ None →
    (r ≠ WAIT_FAIL → has_server s') → Q r s') →
  wp (FREE_PTR_VAR v_redirect;; ok ← parse_server_url_mem malloc v_redirect; FREE_PTR_VAR v_redirectURL;;
      if negb ok then mret WAIT_FAIL else set_current_server_mem;; mret WAIT_ACTION_RETRY) Q s.
Proof using Hmalloc.
  intros Hs Hd Hc HQ. apply wp_bind, wp_free; [done|]. intros s1 Hs1 H1.
  apply wp_bind, wp_parse_server_url; [done|look|]. intros ok s2 Hs2 H2 Hc2 _.
  apply wp_bind, wp_free; [done|]. intros s3 Hs3 H3. destruct ok; cbn [negb].
  - apply wp_bind, wp_set_current_server; [done|]. intros s4 Hs4 H4 Hserver. apply wp_ret.
    assert (has_server s4) as (c & Hcc & Hcv) by (apply Hserver; look; by rewrite (H2 v_defaults) by (by_eval); look).
    apply HQ; [done|framed|look|congruence|]. intros _. by exists c.
  - apply wp_ret, HQ; [done|framed|look|look|done].
Qed.

Lemma wp_wait_connection_ready (Q : wait_result → cmem → Prop) (s : cmem) :
  trying s → has_server s → (∀ r s', trying s' → changes [v_redirect; v_redirectURL] s s' →
    (r ≠ WAIT_FAIL → has_server s') → Q r s') → wp (wait_connection_ready_mem malloc) Q s.
Proof using Hmalloc.
  intros Ht Hserver HQ. pose proof Ht as (Hs & Hu & Hd & Hc & Hh). unfold wait_connection_ready_mem.
  apply wp_bind, wp_set_none; [done|done|]. intros s1 Hs1 H1. apply wp_bind, wp_ask; [done|]. intros url s2 Hs2 H2 Hc2.
  apply wp_bind. assert (wp (when url (alloc malloc v_redirectURL)) (λ _ s3, inv s3 /\ changes [v_redirectURL] s s3 /\
    current s3 = current s) s2) as Halloc.
  { destruct url; cbn [when]; [apply wp_alloc; [done|done|look|]; intros s3 p Hs3 H3|apply wp_ret];
      (split; [done|]; split; [framed|look]). }
  apply (wp_mono _ _ _ _ Halloc). clear Halloc. intros _ s3 (Hs3 & H3 & Hc3).
  apply wp_bind, wp_ask; [done|]. intros ready s4 Hs4 H4 Hc4.
  assert (∀ r s', inv s' → changes [v_redirectURL] s4 s' → vars s' v_redirectURL = None → current s' = current s4 → Q r s')
    as Hkept.
  { intros r s' Hs' H' Hu' Hc'. assert (current s' = current s) as Hcs by congruence. apply HQ.
    - apply (trying_kept s); [done|done|framed|done|congruence].
    - framed.
    - intros _. apply (server_kept s); [done|done|framed|done]. }
  destruct ready.
  { apply wp_bind, wp_free; [done|]. intros s5 Hs5 H5. apply wp_ret, Hkept; [done|framed|look|look]. }
  apply wp_bind. assert (wp (if url then ask else mret false) (λ _ s5, inv s5 /\ vars s5 = vars s4 /\ current s5 = current s4) s4)
    as Hask by (destruct url; [by apply wp_ask|by apply wp_ret]).
  apply (wp_mono _ _ _ _ Hask). clear Hask. intros redirected s5 (Hs5 & H5 & Hc5). destruct redirected.
  - apply wp_redirected; [done|by look; rewrite (H3 v_defaults) by (by_eval)|look; congruence|].
    intros r s6 Hs6 H6 Hu6 Hc6 Hr. apply HQ; [apply (trying_kept s); [done|done|framed|done|done]|framed|done].
  - apply wp_bind, wp_free; [done|]. intros s6 Hs6 H6. apply wp_bind, wp_ask; [done|]. intros b s7 Hs7 H7 Hc7.
    apply wp_ret, Hkept; [done|framed|look|look].
Qed.

Lemma wp_try_ipv4 (is_ipv6 : bool) (Q : bool → cmem → Prop) (s : cmem) :
  inv s → current s ≠ None →
  (∀ b s', inv s' → vars s' = vars s → current s' = current s → (b = true → has_server s') → Q b s') →
  wp (try_ipv4 is_ipv6) Q s.
Proof.
  intros Hs Hc HQ. unfold try_ipv4. apply wp_bind, wp_gets. destruct (current s) as [c|] eqn:Hcur; [|done].
  apply wp_bind, wp_ret. apply wp_bind, wp_gets. destruct (vars s c) eqn:Hv; [|by apply wp_ret, HQ].
  assert (∀ b s', inv s' → vars s' = vars s → current s' = current s → Q b s') as HQ'.
  { intros b s' Hs' H' Hc'. apply HQ; [done|done|congruence|]. intros _. exists c. rewrite H', Hc', Hcur, Hv. by split. }
  destruct is_ipv6; [by apply wp_ask|by apply wp_ret, HQ'].
Qed.

Lemma wp_connect_loop (n : nat) (is_ipv6 : bool) (Q : wait_result → cmem → Prop) (s : cmem) :
  trying s → has_server s → (∀ r s', trying s' → changes [v_redirect; v_redirectURL] s s' →
    (r ≠ WAIT_FAIL → has_server s') → Q r s') → wp (connect_loop_mem malloc n is_ipv6) Q s.
Proof using Hmalloc.
  revert is_ipv6 s. induction n as [|n IH]; intros is_ipv6 s Ht Hserver HQ; cbn [connect_loop_mem]; [done|].
  pose proof Ht as (Hs & Hu & Hd & Hc & Hh). apply wp_bind, wp_nopoll_connect; [done|done|]. intros connected s1 Hs1 H1 Hc1.
  apply wp_bind. assert (wp (if connected then ask else mret false) (λ _ s2, inv s2 /\ vars s2 = vars s /\ current s2 = current s) s1)
    as Hask by (destruct connected; [apply wp_ask; [done|]; intros; split_and!; [done|congruence..]|by apply wp_ret]).
  apply (wp_mono _ _ _ _ Hask). clear Hask. intros ok s2 (Hs2 & H2 & Hc2).
  assert (trying s2) as Ht2 by (apply (trying_kept s); [done|done|framed|look|congruence]).
  assert (has_server s2) as Hserver2 by (apply (server_kept s); [done|done|framed|done]).
  apply wp_bind. assert (wp (if ok then wait_connection_ready_mem malloc else mret WAIT_FAIL)
    (λ r s3, trying s3 /\ changes [v_redirect; v_redirectURL] s s3 /\ (r ≠ WAIT_FAIL → has_server s3)) s2) as Hwait.
  { destruct ok; [apply wp_wait_connection_ready; [done|done|]; intros r s3 Ht3 H3 Hr|apply wp_ret];
      (split; [done|]; split; [framed|done]). }
  apply (wp_mono _ _ _ _ Hwait). clear Hwait. intros r s3 (Ht3 & H3 & Hr). destruct r; [by apply wp_ret, HQ; auto..|].
  pose proof Ht3 as (Hs3 & Hu3 & Hd3 & Hc3 & _).
  apply wp_bind, wp_try_ipv4; [done|done|]. intros again s4 Hs4 H4 Hc4 Hagain.
  assert (trying s4) as Ht4 by (apply (trying_kept s3); [done|done|framed|look|congruence]).
  destruct again; [|apply wp_ret, HQ; [done|framed|done]].
  apply IH; [done|by apply Hagain|]. intros r s5 Ht5 H5 Hr5. apply HQ; [done|framed|done].
Qed.

Lemma wp_keep_trying (n : nat) (Q : bool → cmem → Prop) (s : cmem) :
  trying s → has_server s →
  (∀ b s', trying s' → changes [v_redirect; v_redirectURL; v_extra_headers] s s' → Q b s') →
  wp (keep_trying_to_connect_mem malloc n) Q s.
Proof using Hmalloc.
  revert s. induction n as [|n IH]; intros s Ht Hserver HQ; cbn [keep_trying_to_connect_mem]; [done|].
  pose proof Ht as (Hs & Hu & Hd & Hc & Hh). apply wp_bind, wp_ask; [done|]. intros shutdown s1 Hs1 H1 Hc1.
  destruct shutdown.
  { apply wp_ret, HQ; [|framed]. apply (trying_kept s); [done|done|framed|look|congruence]. }
  apply wp_bind, wp_set_extra_headers; [done|apply (header_kept s); [done|by rewrite H1..]|]. intros s3 Hs3 H3 Hce He3.
  assert (trying s3) as Ht3.
  { split; [done|]. split; [look|]. split; [look|]. split; [congruence|]. apply (header_kept s); [done|look..]. }
  assert (has_server s3) as Hserver3.
  { destruct Hserver as (c & Hcc & Hcv). exists c. split; [congruence|].
    destruct (decide (c = v_extra_headers)) as [->|Hne]; [done|]. rewrite (H3 c), H1; [done|]. by intros ->%list_elem_of_singleton. }
  unfold connect_and_wait_mem. apply wp_bind, wp_bind, wp_ask; [exact (proj1 Ht3)|]. intros is_ipv6 s4 Hs4 H4 Hc4.
  assert (trying s4) as Ht4.
  { pose proof Ht3 as (_ & Hu3 & _ & Hc3 & _). apply (trying_kept s3); [done|done|framed|by rewrite H4|by rewrite Hc4]. }
  apply wp_connect_loop; [done|apply (server_kept s3); [done|done|framed|done]|].
  intros r s5 Ht5 H5 Hr. destruct r; [apply wp_ret, HQ; [done|framed]| |apply wp_ret, HQ; [done|framed]].
  apply IH; [done|by apply Hr|]. intros b s6 Ht6 H6. apply HQ; [done|framed].
Qed.

(** The loop of [createNopollConnection]. *)
Lemma wp_connection_loop (dns_query : bool) (n : nat) (Q : unit → cmem → Prop) (s : cmem) :
  inv s → vars s v_redirectURL = None → vars s v_redirect = None → vars s v_defaults ≠ None → header s →
  (∀ s', inv s' → vars s' v_redirectURL = None → vars s' v_redirect = None →
     changes [v_redirect; v_redirectURL; v_extra_headers; v_jwt; v_defaults] s s' → Q tt s') →
  wp (connection_loop_mem malloc dns_query n) Q s.
Proof using Hmalloc.
  revert s. induction n as [|n IH]; intros s Hs Hu Hr Hd Hh HQ; cbn [connection_loop_mem]; [done|].
  apply wp_bind, wp_ask; [done|]. intros shutdown s1 Hs1 H1 _. destruct shutdown.
  { apply wp_ret, HQ; [done|look|look|framed]. }
  apply wp_bind, wp_set_current_server; [done|]. intros s2 Hs2 H2 Hserver.
  assert (has_server s2) as Hserver2 by (apply Hserver; by rewrite H1).
  assert (trying s2) as Ht2.
  { destruct Hserver2 as (c & Hc & _). split; [done|]. split; [look|]. split; [look|]. split; [by rewrite Hc|].
    apply (header_kept s); [done|look..]. }
  apply wp_bind, wp_keep_trying; [done|done|]. intros connected s3 (Hs3 & Hu3 & Hd3 & _ & Hh3) H3.
  apply wp_bind, wp_free; [done|]. intros s4 Hs4 H4.
  assert (vars s4 v_redirectURL = None /\ vars s4 v_redirect = None /\ vars s4 v_defaults ≠ None) as (Hu4 & Hr4 & Hd4)
    by (split; [by rewrite (proj1 H4)|split; by rewrite (proj1 H4)]).
  assert (header s4) as Hh4 by (apply (header_kept s3); [done|by rewrite (proj1 H4)..]).
  assert (wp (connection_loop_mem malloc dns_query n) Q s4) as Hgo.
  { apply IH; [done..|]. intros s' Hs' Hu' Hr' H'. apply HQ; [done..|framed]. }
  destruct connected; [apply wp_ret, HQ; [done..|framed]|]. destruct dns_query; [|exact Hgo].
  apply wp_bind, wp_is_null. destruct (vars s4 v_jwt); [exact Hgo|].
  apply wp_bind, wp_find_servers; [done|]. intros found s5 Hs5 H5 Hr5 Hd5 _.
  assert (vars s5 v_redirectURL = None) as Hu5 by (by rewrite (H5 v_redirectURL) by (by_eval)).
  assert (header s5) as Hh5 by (apply (header_kept s4); [done|rewrite (H5 _) by (by_eval); done..]).
  destruct found; [| |apply wp_ret, HQ; [done..|framed]];
    (apply IH; [done|done|done|by apply Hd5|done|]; intros s' Hs' Hu' Hr' H'; apply HQ; [done..|framed]).
Qed.

(** The servers are looked up unless there is a default one. *)
Lemma wp_servers (dns_query : bool) (s : cmem) :
  inv s → vars s v_redirect = None →
  wp (if match vars s v_defaults with None => true | Some _ => false end then find_servers_mem malloc dns_query
      else mret FIND_SUCCESS)
    (λ r s', inv s' /\ changes [v_redirect; v_jwt; v_defaults] s s' /\ vars s' v_redirect = None /\
       (r ≠ FIND_INVALID_DEFAULT → vars s' v_defaults ≠ None) /\
       (r = FIND_INVALID_DEFAULT → vars s' v_defaults = None /\ vars s' v_jwt = None)) s.
Proof using Hmalloc.
  intros Hs Hr. destruct (vars s v_defaults) eqn:Hd; [|by apply wp_find_servers].
  apply wp_ret. split_and!; [done|framed|done|intros _; by rewrite Hd|done].
Qed.

Lemma wp_connect_and_free (dns_query : bool) (turns : nat) (s : cmem) :
  inv s → vars s v_redirectURL = None → vars s v_redirect = None → vars s v_defaults ≠ None → header s →
  wp (connection_loop_mem malloc dns_query turns;; c ← gets current;
      match c with
      | None => mret r_null_server
      | Some _ => free_extra_headers_mem;; free_header_info_mem;; mret r_connected
      end) left_over s.
Proof using Hmalloc.
  intros Hs Hu Hr Hd Hh. unfold free_extra_headers_mem, free_header_info_mem.
  apply wp_bind, wp_connection_loop; [done..|]. intros s6 Hs6 Hu6 Hr6 _.
  apply wp_bind, wp_gets. destruct (current s6) as [c|]; [|exact Hs6].
  apply wp_bind, wp_free; [done|]. intros s7 Hs7 H7. apply wp_bind, wp_bind, wp_free; [done|]. intros s8 Hs8 H8.
  apply wp_free; [done|]. intros s9 Hs9 H9. apply wp_ret. split; [done|].
  intros v Hvd Hvj. look. repeat case_decide; try done. by destruct v.
Qed.

(** The whole of [createNopollConnection]. *)
Lemma wp_createNopollConnection (dns_query : bool) (turns : nat) (s : cmem) :
  at_rest s → (header_missing s → bad) → wp (createNopollConnection_mem malloc dns_query turns) left_over s.
Proof using Hmalloc.
  intros [Hs Hv] Hbad. unfold createNopollConnection_mem.
  apply wp_bind, wp_set_none; [done|by apply Hv|]. intros s1 Hs1 H1.
  apply wp_bind, wp_set_none; [done|look; by apply Hv|]. intros s2 Hs2 H2.
  apply wp_bind, wp_set_none; [done|look; by apply Hv|]. intros s3 Hs3 H3.
  assert (∀ v, v ≠ v_defaults → v ≠ v_jwt → vars s3 v = None) as Hv3
    by (intros v Hd Hj; look; repeat case_decide; try done; by apply Hv).
  apply wp_bind. apply (wp_modify_current None); [done|]. intros s3' Hs3' H3' Ha3'.
  assert (header_missing s3' → bad) as Hbad'.
  { unfold header_missing in *. by rewrite Ha3', (proj2 (proj2 H3)), (proj2 (proj2 H2)), (proj2 (proj2 H1)). }
  apply wp_bind, (wp_done _ (λ _ s4, inv s4 /\ changes [v_user_agent; v_device_id] s3' s4));
    [apply wp_init_header_info; [done|by rewrite H3'; apply Hv3|by rewrite H3'; apply Hv3|done]|].
  intros [] s4 Hrun [Hs4 H4]. pose proof (init_header s3' s4 Hbad' Hrun) as Hh4.
  assert (∀ v, v ≠ v_defaults → v ≠ v_jwt → v ≠ v_user_agent → v ≠ v_device_id → vars s4 v = None) as Hv4.
  { intros v Hd Hj Ha Hi. rewrite (H4 v); [by rewrite H3'; apply Hv3|]. intros [->|[->|Hx%elem_of_nil]%elem_of_cons]%elem_of_cons; done. }
  apply wp_bind, wp_is_null. apply wp_bind.
  pose proof (wp_servers dns_query s4 Hs4 (Hv4 v_redirect ltac:(done) ltac:(done) ltac:(done) ltac:(done))) as Hfound.
  apply (wp_mono _ _ _ _ Hfound). clear Hfound. intros found s5 (Hs5 & H5 & Hr5 & Hd5 & Hi5).
  assert (vars s5 v_redirectURL = None /\ vars s5 v_extra_headers = None) as [Hu5 He5]
    by (split; rewrite H5 by (by_eval); by apply Hv4).
  assert (header s5) as Hh5 by (apply (header_kept s4); [done|rewrite (H5 _) by (by_eval); done..]).
  pose proof (wp_connect_and_free dns_query turns s5 Hs5 Hu5 Hr5) as Hgo.
  destruct found; [apply Hgo; [by apply Hd5|done]|apply Hgo; [by apply Hd5|done]|]. apply wp_ret. split; [done|].
  destruct (Hi5 eq_refl) as [Hd Hj]. intros v Ha Hi. by destruct v.
Qed.
End specs.
End runs.

(** ** Properties *)

(** C32. The strings of [createNopollConnection], on every path: none is read, used or freed
    unless it is allocated, the server that is connected to always has an address, and in the
    end only the servers of the list are kept, without a redirection. Three cases are left out:
    when the header information could not be set up, which nothing tests, its missing strings
    are given to a format; when the default URL is invalid and there was no server before, the
    strings of the header are kept too; and a shutdown before the first attempt makes the code
    read NULL. *)
Theorem connection_strings (malloc : gset loc → loc) (dns_query : bool) (turns : nat) (s : cmem)
    (Hmalloc : ∀ b, malloc b ∉ b) (Hs : at_rest s) :
  match createNopollConnection_mem malloc dns_query turns s with
  | Done (r, s') => left_over r s'
  | Undef => header_missing s
  | NoFuel => True
  end.
Proof. by apply (wp_createNopollConnection (header_missing s) malloc). Qed.

(** ** Witnesses *)

Definition malloc_fresh (b : gset loc) : loc := fresh b.

(** A redirection, then a connection. *)
Definition start_mem (answers : list bool) : cmem := mk_cmem ∅ (λ _, None) None answers.
Definition redirected_answers : list bool :=
  [true; true; true;                    (* the header information *)
   true;                                (* the default URL *)
   false; false; true; true; true; true; false; true; true;   (* IPv6, connected, redirected *)
   false; true; true; true; false; true].

Lemma at_rest_start (a : list bool) : at_rest (start_mem a).
Proof. split; [|done]. split; [|done]. intros p. split; [by intros ?%elem_of_empty|by intros [v [=]]]. Qed.

Lemma malloc_fresh_fresh (b : gset loc) : malloc_fresh b ∉ b.
Proof. apply is_fresh. Qed.

Example connection_strings_witness :
  ∃ s', createNopollConnection_mem malloc_fresh false 5 (start_mem redirected_answers) = Done (r_connected, s') /\ at_rest s'.
Proof.
  pose proof (connection_strings malloc_fresh false 5 (start_mem redirected_answers) malloc_fresh_fresh
    (at_rest_start redirected_answers)) as Hs.
  destruct (createNopollConnection_mem malloc_fresh false 5 (start_mem redirected_answers)) as [[r s']| |] eqn:Hr;
    [| |].
  - exists s'. assert (r = r_connected) as -> by (revert Hr; vm_compute; congruence). split; [reflexivity|exact Hs].
  - exfalso. revert Hr. vm_compute. discriminate.
  - exfalso. revert Hr. vm_compute. discriminate.
Defined.

(** The user agent could not be allocated: the extra headers are built from NULL. *)
Example header_null_read : createNopollConnection_mem malloc_fresh false 5 (start_mem [false; true; false; false; true]) = Undef.
Proof. vm_compute. reflexivity. Qed.

(** Two calls with an invalid default URL: the strings of the first call's header are lost. *)
Example header_lost :
  ∃ s s', createNopollConnection_mem malloc_fresh false 5 (start_mem [true; true; true; false]) = Done (r_invalid_default, s) /\
    createNopollConnection_mem malloc_fresh false 5 (s <| answers := [true; true; true; false] |>) = Done (r_invalid_default, s') /\
    ∃ p, p ∈ blocks s' /\ ∀ v, vars s' v ≠ Some p.
Proof.
  eexists _, _. split; [vm_compute; reflexivity|]. split; [vm_compute; reflexivity|]. exists 1%positive.
  split; [by_eval|]. by intros [].
Qed.
