(* ===== verification/Delivery.v ===== *)
(** * The clients' messages on their way to the server

    What the server puts together from the frames noPoll is given, and what the threads
    [handle_upstream] and [processUpstreamMessage] let it have, whichever of them takes its
    turns when: the clients' messages in the order in which they came. *)

From S2P Require Import Prelude StringHelpers Timers Config Wrp Partners World ClientList Nopoll Upstream Cjson Crud Downstream Connection ConnInterface System Requests.
Local Open Scope cs_scope.
Local Open Scope Z_scope.
#[local] Opaque MAX_SEND_SIZE.

(** ** The server's side of the connection

    A message is a binary frame and the continuation frames that follow it, up to the
    one with FIN; a frame that does not fit is an error (RFC 6455, 5.4). [partial] is the
    message that has been begun. *)

Definition receive (partial : option bytes) (f : frame) : option (list bytes * option bytes) :=
  match partial, frame_op f with
  | None, NOPOLL_BINARY_FRAME =>
      Some (if frame_fin f then ([frame_payload f], None) else ([], Some (frame_payload f)))
  | Some p, NOPOLL_CONTINUATION_FRAME =>
      let m := (p ++ frame_payload f)%list in
      Some (if frame_fin f then ([m], None) else ([], Some m))
  | _, _ => None
  end.

Fixpoint receive_all (partial : option bytes) (fs : list frame) : option (list bytes * option bytes) :=
  match fs with
  | [] => Some ([], partial)
  | f :: fs =>
      match receive partial f with
      | Some (ms, partial) =>
          match receive_all partial fs with
          | Some (ms', partial) => Some ((ms ++ ms')%list, partial)
          | None => None
          end
      | None => None
      end
  end.

Lemma receive_all_app (p : option bytes) (a b : list frame) :
  receive_all p (a ++ b) =
    match receive_all p a with
    | Some (ms, p) => match receive_all p b with Some (ms', p) => Some ((ms ++ ms')%list, p) | None => None end
    | None => None
    end.
Proof.
  revert p. induction a as [|f a IH]; intros p; cbn [app receive_all].
  - by destruct (receive_all p b) as [[ms p']|].
  - destruct (receive p f) as [[ms p1]|]; [|done]. rewrite IH.
    destruct (receive_all p1 a) as [[ms1 p2]|]; [|done].
    destruct (receive_all p2 b) as [[ms2 p3]|]; [|done]. by rewrite app_assoc.
Qed.

Lemma last_take (n : nat) (b : bytes) : drop n b = [] → take n b = b.
Proof. intros Hd. by rewrite <-(take_drop n b) at 2; rewrite Hd, app_nil_r. Qed.

(** The continuation frames of what is left of a message. *)
Lemma receive_continued (fuel : nat) (b p : bytes) :
  b ≠ [] → (length b <= fuel)%nat →
  receive_all (Some p) (frames_from fuel b NOPOLL_CONTINUATION_FRAME) = Some ([(p ++ b)%list], None).
Proof.
  pose proof max_send_pos as Hpos. revert b p.
  induction fuel as [|fuel IH]; intros [|c b] p Hb Hl; [done|simpl in Hl; lia|done|].
  cbn [frames_from receive_all receive frame_op frame_fin frame_payload fst snd].
  case_bool_decide as Hd.
  - rewrite (last_take _ _ Hd), Hd. by destruct fuel.
  - rewrite IH; [|done|rewrite length_drop; simpl in *; lia].
    cbn [app]. by rewrite <-app_assoc, take_drop.
Qed.

(** A message that is sent whole arrives. *)
Lemma receive_frames (b : bytes) : b ≠ [] → receive_all None (frames b) = Some ([b], None).
Proof.
  pose proof max_send_pos as Hpos. intros Hb. unfold frames.
  destruct b as [|c b]; [done|]. remember (length (c :: b)) as n eqn:Hn.
  destruct n as [|n]; [done|].
  cbn [frames_from receive_all receive frame_op frame_fin frame_payload fst snd].
  case_bool_decide as Hd.
  - rewrite (last_take _ _ Hd), Hd. by destruct n.
  - rewrite receive_continued; [|done|rewrite length_drop; simpl in *; lia].
    cbn [app]. by rewrite take_drop.
Qed.

(** Messages sent one after the other arrive one after the other. *)
Lemma receive_messages (ms : list bytes) :
  receive_all None (concat (map frames ms)) = Some (filter (λ b, b ≠ []) ms, None).
Proof.
  induction ms as [|m ms IH]; [done|]. cbn [map concat]. rewrite receive_all_app, filter_cons.
  destruct m as [|c m]; [case_decide as Hn; [done|]|rewrite receive_frames, decide_True by done].
  - cbn. by rewrite IH.
  - by rewrite IH.
Qed.

(** The beginning of a message without its last frame leaves the server waiting for more. *)
Lemma receive_begun (fuel j : nat) (b p : bytes) :
  (length b <= fuel)%nat → (j < length (frames_from fuel b NOPOLL_CONTINUATION_FRAME))%nat →
  ∃ q, receive_all (Some p) (take j (frames_from fuel b NOPOLL_CONTINUATION_FRAME)) = Some ([], Some q).
Proof.
  pose proof max_send_pos as Hpos. revert j b p.
  induction fuel as [|fuel IH]; intros j [|c b] p Hl Hj; cbn [frames_from] in *; [simpl in Hj; lia..|].
  destruct j as [|j]; [by exists p|]. cbn [take receive_all receive frame_op frame_fin frame_payload fst snd].
  simpl length in Hj. case_bool_decide as Hd.
  { rewrite Hd in Hj. destruct fuel; simpl in Hj; lia. }
  destruct (IH j (drop MAX_SEND_SIZE (c :: b)) (p ++ take MAX_SEND_SIZE (c :: b))%list) as [q Hq];
    [rewrite length_drop; simpl in *; lia|lia|]. exists q. unfold bytes in *. by rewrite Hq.
Qed.

Lemma receive_first (b : bytes) (j : nat) :
  (0 < j < length (frames b))%nat → ∃ q, receive_all None (take j (frames b)) = Some ([], Some q).
Proof.
  pose proof max_send_pos as Hpos. unfold frames. intros Hj. destruct b as [|c b]; [simpl in Hj; lia|].
  remember (length (c :: b)) as n eqn:Hn. destruct n as [|n]; [done|]. destruct j as [|j]; [lia|].
  cbn [frames_from take receive_all receive frame_op frame_fin frame_payload fst snd] in *. simpl length in Hj.
  case_bool_decide as Hd.
  { rewrite Hd in Hj. destruct n; simpl in Hj; lia. }
  destruct (receive_begun n j (drop MAX_SEND_SIZE (c :: b)) (take MAX_SEND_SIZE (c :: b))) as [q Hq];
    [rewrite length_drop; simpl in *; lia|lia|]. exists q. unfold bytes in *. by rewrite Hq.
Qed.

(** The next message does not fit there. *)
Lemma receive_torn (q b : bytes) (more : list frame) : b ≠ [] → receive_all (Some q) (frames b ++ more) = None.
Proof. unfold frames. by destruct b as [|c b]. Qed.

(** ** Specification *)

(** What nanomsg gave the receiver on its socket. *)
Fixpoint received (s : Z) (tr : list event) : list bytes :=
  match tr with
  | [] => []
  | existT (nn_recv s') (Some b) :: tr => if decide (s' = s) then b :: received s tr else received s tr
  | _ :: tr => received s tr
  end.

(** noPoll takes every frame, at once or when it is flushed. *)
Definition takes_frames (env : oracle) : Prop :=
  ∀ h conn b fin op,
    let n := env h (nopoll_send_common conn b fin op) in
    n = Z.of_nat (length b) \/
    (n ≠ -1 /\ env (h ++ [ev (nopoll_send_common conn b fin op) n])%list
                   (nopoll_flush_writes conn FLUSH_WAIT_TIME n) = Z.of_nat (length b)).

(** A run of calls ends with a frame noPoll does not take: it has been refused, and then
    nothing of it goes out, or it has not been flushed in time, and then nobody knows what
    of it goes out. *)
Definition refused_at_last (l : list event) : Prop :=
  ∃ h conn b fin op, l = (h ++ [ev (nopoll_send_common conn b fin op) (-1)])%list.
Definition stuck_at_last (l : list event) : Prop :=
  ∃ h conn b fin op sent m,
    l = (h ++ [ev (nopoll_send_common conn b fin op) sent; ev (nopoll_flush_writes conn FLUSH_WAIT_TIME sent) m])%list /\
    m ≠ Z.of_nat (length b).

Section spec.
Context `{WrpLib}.

(** A CRUD message of a client that is for this device. *)
Definition stays (mac : cstring) (op : crud_op) (c : wrp_crud) : bool :=
  match op, crud_dest c with
  | CREATE, _ => false
  | _, None => true
  | _, Some dest =>
      let id := ("mac:" ++ mac)%list in
      bool_decide (mac = [] \/ map to_lower (take (length id) dest) = map to_lower id)
  end.

(** What goes on to the server of a client's message. *)
Definition outgoing (cfg : ParodusCfg) (raw : bytes) : option bytes :=
  match wrp_to_struct raw with
  | Some (WRP_EVENT e) =>
      match partner_id cfg with
      | [] => Some raw
      | pid =>
          match wrp_struct_to (WRP_EVENT (e <| ev_partner_ids := forwarded_ids pid e |>)) with
          | Some (c :: b) => Some (c :: b)
          | _ => None
          end
      end
  | Some (WRP_CRUD op c) => if stays (hw_mac cfg) op c then None else Some raw
  | Some (WRP_REQ _ | WRP_AUTH _ | WRP_UNKNOWN) => Some raw
  | Some (WRP_SVC_REGISTRATION _ | WRP_SVC_ALIVE) | None => None
  end.

(** The messages for the server among some of the clients, with the metadata. *)
Definition with_metadata (w : World) (b : bytes) : bytes :=
  appendEncodedData b (metadataPack w) (metaPackSize w).
Definition to_server (w : World) (msgs : list bytes) : list bytes :=
  map (with_metadata w) (omap (outgoing (parodusCfg w)) msgs).

(** What decides about a message for the server. *)
Definition settings (w : World) :=
  (parodusCfg w, metadataPack w, metaPackSize w, close_retry w, g_conn w, g_shutdown w).

(** A message that can be handled: it can be decoded, its strings fit, its destination is
    as long as it is read, and an event can be encoded with the partner ids it gets. *)
Definition sound (cfg : ParodusCfg) (raw : bytes) : Prop :=
  let mac := hw_mac cfg in
  match wrp_to_struct raw with
  | None => False
  | Some (WRP_SVC_REGISTRATION reg) => reg_fits reg
  | Some (WRP_EVENT e) =>
      partner_id cfg = [] \/
      is_Some (wrp_struct_to (WRP_EVENT (e <| ev_partner_ids := forwarded_ids (partner_id cfg) e |>)))
  | Some (WRP_CRUD op c) =>
      op = CREATE \/ mac = [] \/
      ((length mac <= 59)%nat /\ ∃ dest, crud_dest c = Some dest /\
         (op = RETREIVE → stays mac op c = true → (length mac + 5 <= length dest)%nat))
  | Some _ => True
  end.
End spec.

(** ** Lemmas *)

Lemma received_app (s : Z) (a b : list event) : received s (a ++ b) = (received s a ++ received s b)%list.
Proof.
  induction a as [|[c x] a IH]; [done|]. cbn [app received]. destruct c; try exact IH.
  destruct x as [m|]; [|exact IH]. case_decide; [|exact IH]. cbn. by rewrite IH.
Qed.

(** A run that hands noPoll all of a message. *)
Definition hands_over (fs : list frame) (w : World) (r : outcome (Z * World)) : Prop :=
  ∃ n new, r = Done (n, w <| trace := trace w ++ new |>) /\ frames_sent new = fs /\ ∀ s, received s new = [].

Lemma hands_over_cons (f : frame) (fs : list frame) (w : World) (es : list event) (r : outcome (Z * World)) :
  frames_sent es = [f] → (∀ s, received s es = []) →
  hands_over fs (w <| trace := trace w ++ es |>) r → hands_over (f :: fs) w r.
Proof.
  intros Hf Hr (n & new & -> & Hs & Hn). exists n, (es ++ new). split; [cbn; by rewrite app_assoc|].
  split; [by rewrite frames_sent_app, Hf, Hs|]. intros s. by rewrite received_app, Hr, Hn.
Qed.

Section accepted.
Context (env : oracle) (Htakes : takes_frames env) (conn : option noPollConn).

Lemma sendResponse_loop_taken (fuel : nat) (cp : bytes) (acc : Z) (op : noPollOpCode) (w : World) :
  (length cp <= fuel)%nat →
  hands_over (frames_from fuel cp op) w (sendResponse_loop env fuel conn cp acc op w).
Proof using Htakes.
  pose proof max_send_pos. revert cp acc op w.
  induction fuel as [|fuel IH]; intros [|x cp] acc op w Hl; simpl in Hl; try lia.
  1, 2: exists acc, []; cbn; rewrite app_nil_r; split; [by destruct w|done].
  cbn [sendResponse_loop frames_from].
  destruct (len_to_send_take (x :: cp)) as (Ht & Hd & Hn). cbn zeta in *. rewrite Ht, Hd, fin_flag.
  set (n := if (_ <? _)%nat then _ else _) in *. clearbody n. rewrite Hn.
  assert (Hrest : (length (drop MAX_SEND_SIZE (x :: cp)) <= fuel)%nat)
    by (rewrite length_drop; simpl; lia).
  run_m. set (fin := bool_decide _). set (part := take MAX_SEND_SIZE (x :: cp)).
  pose proof (Htakes (trace w) conn part fin op) as Htk. cbn zeta in Htk.
  set (sent := env _ (nopoll_send_common _ _ _ _)) in *.
  set (e1 := ev (nopoll_send_common conn part fin op) sent).
  destruct (Z.eqb_spec sent (Z.of_nat (length part))) as [_|Hne]; cbn beta iota.
  { by apply (hands_over_cons _ _ w [e1]), IH. }
  destruct Htk as [?|[Hno Hfl]]; [done|]. rewrite (proj2 (Z.eqb_neq _ _) Hno). cbn beta iota.
  set (fl := env _ (nopoll_flush_writes _ _ _)). rewrite (proj2 (Z.eqb_eq fl (Z.of_nat (length part)))) by exact Hfl.
  cbn beta iota. set (e2 := ev (nopoll_flush_writes _ _ _) fl).
  match goal with |- context [trace ?w1 ++ [e2]] =>
    change (trace w1 ++ [e2]) with ((trace w ++ [e1]) ++ [e2]) end.
  rewrite <-app_assoc. by apply (hands_over_cons _ _ w ([e1] ++ [e2])), IH.
Qed.
End accepted.

(** A run of the loop, whatever noPoll answers: it has taken the frames the result counts, and
    if these are not all, the one behind them was the last it was given. *)
Definition takes_up (fs : list frame) (acc : Z) (w : World) (r : outcome (Z * World)) : Prop :=
  ∃ k new, r = Done (acc + Z.of_nat (payload_length (take k fs)), w <| trace := trace w ++ new |>) /\
    frames_taken new = take k fs /\
    (k = length fs \/ ((k < length fs)%nat /\ (refused_at_last new \/ stuck_at_last new))).

Lemma takes_up_cons (f : frame) (fs : list frame) (acc : Z) (w : World) (es : list event) (r : outcome (Z * World)) :
  (∀ new, frames_taken (es ++ new) = f :: frames_taken new) →
  takes_up fs (acc + Z.of_nat (length (frame_payload f))) (w <| trace := trace w ++ es |>) r →
  takes_up (f :: fs) acc w r.
Proof.
  intros Hes (k & new & -> & Hk & Hend). exists (S k), (es ++ new). split.
  - replace (acc + Z.of_nat (length (frame_payload f)) + Z.of_nat (payload_length (take k fs)))
      with (acc + Z.of_nat (payload_length (take (S k) (f :: fs)))) by (unfold payload_length; simpl; lia).
    cbn. by rewrite app_assoc.
  - split; [by rewrite Hes, Hk|]. cbn. destruct Hend as [->|[Hl [H|H]]]; [by left|right..]; (split; [lia|]).
    + left. destruct H as (h & c & b & fin & op & ->). exists (es ++ h), c, b, fin, op. by rewrite app_assoc.
    + right. destruct H as (h & c & b & fin & op & n & m & -> & Hm). exists (es ++ h), c, b, fin, op, n, m.
      by rewrite app_assoc.
Qed.

Lemma takes_up_stop (f : frame) (fs : list frame) (acc : Z) (w : World) (es : list event) :
  frames_taken es = [] → refused_at_last es \/ stuck_at_last es →
  takes_up (f :: fs) acc w (Done (acc, w <| trace := trace w ++ es |>)).
Proof.
  intros He Hend. exists 0%nat, es. unfold payload_length. cbn. rewrite Z.add_0_r. split; [done|].
  split; [done|]. right. split; [lia|done].
Qed.

Lemma sendResponse_loop_takes (env : oracle) (conn : option noPollConn) (fuel : nat) (cp : bytes) (acc : Z)
    (op : noPollOpCode) (w : World) :
  (length cp <= fuel)%nat → takes_up (frames_from fuel cp op) acc w (sendResponse_loop env fuel conn cp acc op w).
Proof.
  pose proof max_send_pos. revert cp acc op w.
  induction fuel as [|fuel IH]; intros [|x cp] acc op w Hl; simpl in Hl; try lia.
  1, 2: exists 0%nat, []; cbn; rewrite app_nil_r, Z.add_0_r; split; [by destruct w|split; [done|by left]].
  cbn [sendResponse_loop frames_from].
  destruct (len_to_send_take (x :: cp)) as (Ht & Hd & Hn). cbn zeta in *. rewrite Ht, Hd, fin_flag.
  set (n := if (_ <? _)%nat then _ else _) in *. clearbody n. rewrite Hn.
  assert (Hrest : (length (drop MAX_SEND_SIZE (x :: cp)) <= fuel)%nat)
    by (rewrite length_drop; simpl; lia).
  run_m. set (fin := bool_decide _). set (part := take MAX_SEND_SIZE (x :: cp)).
  set (sent := env _ (nopoll_send_common _ _ _ _)).
  set (e1 := ev (nopoll_send_common conn part fin op) sent).
  destruct (Z.eqb_spec sent (Z.of_nat (length part))) as [Hs|Hs]; cbn beta iota.
  { apply (takes_up_cons (part, fin, op) _ _ w [e1]); [|by apply IH]. intros new. cbn. by rewrite (proj2 (Z.eqb_eq _ _) Hs). }
  destruct (Z.eqb_spec sent (-1)) as [Hm|Hm]; cbn beta iota.
  { apply (takes_up_stop _ _ _ w [e1]); [cbn; by rewrite (proj2 (Z.eqb_neq _ _) Hs), andb_false_r|].
    left. exists [], conn, part, fin, op. unfold e1. by rewrite Hm. }
  set (fl := env _ (nopoll_flush_writes _ _ _)). set (e2 := ev (nopoll_flush_writes _ _ _) fl).
  match goal with |- context [trace ?w1 ++ [e2]] =>
    change (trace w1 ++ [e2]) with ((trace w ++ [e1]) ++ [e2]) end. rewrite <-app_assoc.
  destruct (Z.eqb_spec fl (Z.of_nat (length part))) as [Hf|Hf]; cbn beta iota.
  - apply (takes_up_cons (part, fin, op) _ _ w ([e1] ++ [e2])); [|by apply IH]. intros new. cbn.
    by rewrite (proj2 (Z.eqb_neq _ _) Hm), (proj2 (Z.eqb_eq _ _) Hf), orb_true_r.
  - apply (takes_up_stop _ _ _ w ([e1] ++ [e2])).
    + cbn. by rewrite (proj2 (Z.eqb_neq _ _) Hs), (proj2 (Z.eqb_neq _ _) Hf), andb_false_r.
    + right. by exists [], conn, part, fin, op, sent, fl.
Qed.

Section handled.
Context `{WrpLib} (env : oracle) (Htakes : takes_frames env) (s : Z).

(** From [w0] to [w] the server has been sent these messages, and nothing that decides
    about the next ones has changed. *)
Definition advanced (ms : list bytes) (w0 w : World) : Prop :=
  settings w = settings w0 /\ UpStreamMsgQ w = UpStreamMsgQ w0 /\
  received s (trace w) = received s (trace w0) /\
  frames_sent (trace w) = (frames_sent (trace w0) ++ concat (map frames ms))%list.

Lemma advanced_refl (w : World) : advanced [] w w.
Proof. unfold advanced. cbn. by rewrite app_nil_r. Qed.

Lemma aside_call (w0 : World) (c : ext) :
  match c with nopoll_send_common _ _ _ _ | nn_recv _ => False | _ => True end →
  keeps (advanced [] w0) (call env c).
Proof.
  intros Hc w a w' (Hs & Hq & Hr & Hf) [= _ <-]. unfold advanced, settings in *. cbn.
  rewrite frames_sent_app, received_app, Hr, Hf. cbn. split_and!; [done|done|..].
  - destruct c; try done; by rewrite app_nil_r.
  - destruct c; try done; by rewrite !app_nil_r.
Qed.
#[local] Hint Extern 1 (keeps (advanced [] ?w0) (call _ ?c)) => exact (aside_call w0 c I) : keeps.
#[local] Hint Extern 2 (@keeps _ _ (call _ ?c)) => exact (aside_call _ c I) : keeps.

Lemma aside_reconnect (w0 : World) (l : list reg_list_item_t) (reg : wrp_reg) :
  keeps (advanced [] w0) (reconnect_loop env l reg).
Proof.
  induction l as [|c l IH]; cbn [reconnect_loop]; unfold reconnect_node, sendAuthStatus; keeps; apply IH.
Qed.

Lemma aside_registration (w0 : World) (reg : wrp_reg) : keeps (advanced [] w0) (process_registration env reg).
Proof.
  unfold process_registration, get_numOfClients, addToList, sendAuthStatus. keeps; apply aside_reconnect.
Qed.

Lemma aside_local (w0 : World) (m : wrp_msg_t) (raw : bytes) :
  keeps (advanced [] w0) (getServiceNameAndSendResponse env m raw).
Proof. unfold getServiceNameAndSendResponse, sendMsgtoRegisteredClients. keeps. Qed.

Lemma sent_open (b : bytes) (w : World) :
  upstream_open w = true →
  ∃ w', sendUpstreamMsgToServer env b w = Done (tt, w') /\
    advanced [with_metadata w b] w w'.
Proof using Htakes.
  intros Ho. rewrite sendUpstream_cases, Ho. unfold with_metadata. set (m := appendEncodedData _ _ _).
  destruct (sendResponse_loop_taken env Htakes (g_conn w) (length m) m 0 NOPOLL_BINARY_FRAME w)
    as (n & new & Hr & Hf & Hn); [done|].
  rewrite (bind_Done _ _ _ _ _ Hr). eexists. split; [reflexivity|].
  unfold advanced, settings. cbn. by rewrite frames_sent_app, received_app, Hn, Hf, !app_nil_r.
Qed.

(** What a CRUD message needs to be handled. *)
Lemma crud_needs (op : crud_op) (c : wrp_crud) (raw : bytes) (w w' : World) :
  op ≠ CREATE → process_crud env op c raw w = Done (tt, w') →
  (hw_mac (parodusCfg w) = [] /\ w' = w) \/
  (hw_mac (parodusCfg w) ≠ [] /\ (length (hw_mac (parodusCfg w)) <= 59)%nat /\ ∃ dest, crud_dest c = Some dest).
Proof.
  intros Hop Hr. assert (∃ f, (o ← getDeviceId; f o) w = Done (tt, w') /\ (∀ v, f None v = Done (tt, v)) /\
    ∀ x v, (∀ dest, crud_dest c ≠ Some dest) → f (Some x) v = Undef) as (f & Hf & Hnone & Hsome).
  { destruct op; [done|..]; eexists; (split; [exact Hr|]); (split; [done|]); intros [i n] v Hno; cbn beta iota;
      by destruct (crud_dest c) as [d|]; [destruct (Hno d)|]. }
  clear Hr. inv_bind Hf o w2 R1. cbn beta in Hf. revert R1. unfold getDeviceId. run_m.
  destruct (hw_mac (parodusCfg w)) as [|m0 mac].
  { intros [= <- <-]. rewrite Hnone in Hf. injection Hf as <-. by left. }
  destruct (Nat.ltb_spec 64 (length (m0 :: mac) + 5)) as [|Hl]; [done|]. intros [= <- <-].
  right. split; [done|]. split; [simpl in *; lia|]. destruct (crud_dest c) as [dest|]; [by exists dest|].
  by rewrite Hsome in Hf.
Qed.

Lemma stays_spec (mac : cstring) (op : crud_op) (c : wrp_crud) (dest : cstring) :
  op ≠ CREATE → crud_dest c = Some dest →
  let id := ("mac:" ++ mac)%list in
  stays mac op c = bool_decide (mac = [] \/ map to_lower (take (length id) dest) = map to_lower id).
Proof. intros Hop Hd. unfold stays. rewrite Hd. by destruct op. Qed.

Lemma stays_nil (op : crud_op) (c : wrp_crud) : op ≠ CREATE → stays [] op c = true.
Proof.
  intros Hop. unfold stays. destruct op; [done|..]; (destruct (crud_dest c); [|done]);
    apply bool_decide_eq_true; by left.
Qed.

Lemma crud_sends (op : crud_op) (c : wrp_crud) (raw : bytes) (w w' : World) :
  upstream_open w = true → process_crud env op c raw w = Done (tt, w') →
  advanced (if stays (hw_mac (parodusCfg w)) op c then [] else [with_metadata w raw]) w w'.
Proof using Htakes.
  intros Ho Hr. destruct (sent_open raw w Ho) as (w1 & Hs & Ha).
  destruct (decide (op = CREATE)) as [->|Hop].
  { cbn [process_crud stays] in *. rewrite Hs in Hr. by injection Hr as <-. }
  destruct (crud_needs op c raw w w' Hop Hr) as [[Hm ->]|(Hm & Hl & dest & Hd)].
  { rewrite Hm, stays_nil by done. apply advanced_refl. }
  rewrite (process_crud_step env op c raw w dest Hd) in Hr by done.
  rewrite (stays_spec _ op c dest) by done. cbn zeta in *. set (id := ("mac:" ++ hw_mac (parodusCfg w))%list) in *.
  rewrite (bool_decide_ext (hw_mac (parodusCfg w) = [] \/ _) (map to_lower (take (length id) dest) = map to_lower id)) by tauto.
  destruct (bool_decide _); [|rewrite Hs in Hr; by injection Hr as <-].
  refine (keeps_run _ _ _ _ _ (advanced_refl w) Hr _). unfold dest_is_parodus, addCRUDmsgToQueue.
  keeps; apply aside_local.
Qed.

(** A message that is handled: what is for the server goes there. *)
Lemma upstream_sends (v v' : upstream_locals) (raw : bytes) (w w' : World) :
  upstream_open w = true → process_upstream env v raw w = Done (v', w') →
  advanced (to_server w [raw]) w w'.
Proof using Htakes.
  intros Ho. unfold process_upstream, to_server, outgoing. cbn [omap list_omap].
  assert (∀ b (r : bool) (z : bool), (sendUpstreamMsgToServer env b;; mret r) w = Done (z, w') →
    advanced [with_metadata w b] w w') as Hsend.
  { intros b r z Hr. destruct (sent_open b w Ho) as (w1 & Hs & Ha). rewrite (bind_Done _ _ _ _ _ Hs) in Hr.
    by injection Hr as _ <-. }
  destruct (wrp_to_struct raw) as [m|].
  2:{ destruct (msg_unset v); [done|]. intros [= _ <-]. apply advanced_refl. }
  intros Hr. inv_bind Hr z w1 R1. injection Hr as _ ->.
  destruct m as [a|r|e|op c|reg| |]; cbn [process_message map] in *; try exact (Hsend raw _ _ R1).
  - revert R1. rewrite process_event_cases. destruct (partner_id (parodusCfg w)) as [|p pid]; [apply Hsend|].
    destruct (wrp_struct_to _) as [[|x b]|]; [|apply Hsend|destruct (bytes_unset v); [done|]];
      intros [= _ <-]; apply advanced_refl.
  - inv_bind R1 u w2 R2. injection R1 as _ <-. destruct u. apply crud_sends in R2; [|done]. by destruct (stays _ op c).
  - inv_bind R1 u w2 R2. injection R1 as _ <-. exact (keeps_run _ _ _ _ _ (advanced_refl w) R2 (aside_registration w reg)).
  - injection R1 as _ <-. apply advanced_refl.
Qed.

(** From [w0] to [w] these messages have come in and those have been handled. *)
Definition handed_on (arrived handled : list bytes) (w0 w : World) : Prop :=
  settings w = settings w0 /\
  received s (trace w) = (received s (trace w0) ++ arrived)%list /\
  (UpStreamMsgQ w0 ++ arrived = handled ++ UpStreamMsgQ w)%list /\
  frames_sent (trace w) = (frames_sent (trace w0) ++ concat (map frames (to_server w0 handled)))%list.

Lemma handed_on_refl (w : World) : handed_on [] [] w w.
Proof. unfold handed_on. by rewrite !app_nil_r. Qed.

Lemma to_server_app (w : World) (a b : list bytes) : to_server w (a ++ b) = (to_server w a ++ to_server w b)%list.
Proof. unfold to_server. by rewrite omap_app, map_app. Qed.

Lemma to_server_settings (w w' : World) (l : list bytes) : settings w' = settings w → to_server w' l = to_server w l.
Proof. unfold settings, to_server, with_metadata. by intros [= -> -> -> _ _ _]. Qed.

Lemma handed_on_trans (a1 a2 h1 h2 : list bytes) (w w1 w2 : World) :
  handed_on a1 h1 w w1 → handed_on a2 h2 w1 w2 → handed_on (a1 ++ a2) (h1 ++ h2) w w2.
Proof.
  intros (S1 & R1 & Q1 & F1) (S2 & R2 & Q2 & F2). split; [congruence|].
  split; [by rewrite R2, R1, app_assoc|]. split.
  - by rewrite app_assoc, Q1, <-!app_assoc, Q2.
  - rewrite F2, F1, (to_server_settings _ _ _ S1), to_server_app, map_app, concat_app. by rewrite app_assoc.
Qed.

Lemma open_settings (w w' : World) : settings w' = settings w → upstream_open w' = upstream_open w.
Proof. unfold settings, upstream_open. by intros [= -> _ -> -> _ _]. Qed.

(** A message taken from the queue and handled. *)
Lemma handled_one (v v' : upstream_locals) (raw : bytes) (rest : list bytes) (w w' : World) :
  upstream_open w = true → UpStreamMsgQ w = raw :: rest →
  process_upstream env v raw (w <| UpStreamMsgQ := rest |>) = Done (v', w') →
  handed_on [] [raw] w w'.
Proof using Htakes.
  intros Ho Hq Hr. apply upstream_sends in Hr as (Hs & Hq' & Hrc & Hf); [|exact Ho].
  unfold handed_on. rewrite Hs, Hq', Hrc, Hf, Hq, !app_nil_r. done.
Qed.

(** The flag is what is read of it, and once raised it stays. *)
Lemma read_flag (w w' : World) (b : bool) :
  read_g_shutdown env w = Done (b, w') →
  upstream_open w' = upstream_open w /\
  g_shutdown w' = b /\ (g_shutdown w = true → b = true) /\ (b = false → advanced [] w w').
Proof.
  run_m. unfold advanced, settings. destruct (g_shutdown w) eqn:Hw; intros [= <- <-]; [done|].
  split_and!; [done..|]. cbn. intros ->. by rewrite frames_sent_app, received_app, !app_nil_r.
Qed.

Lemma advanced_handed_on (w w' : World) : advanced [] w w' → handed_on [] [] w w'.
Proof. intros (Hs & Hq & Hr & Hf). unfold handed_on. by rewrite Hs, Hq, Hr, Hf, !app_nil_r. Qed.

(** A turn of the one thread and of the other: the way to the server stays open and the
    flag raised when it is; otherwise messages are handed on. *)
Definition hands_on (w w' : World) : Prop :=
  upstream_open w' = upstream_open w /\
  (g_shutdown w = true → g_shutdown w' = true) /\
  (g_shutdown w' = false → ∃ arrived handled, handed_on arrived handled w w').

Lemma consumer_hands_on (v : upstream_locals) (w w' : World) (r : bool * upstream_locals) :
  upstream_open w = true → processUpstreamMessage_turn env v w = Done (r, w') → hands_on w w'.
Proof using Htakes.
  intros Ho. unfold processUpstreamMessage_turn. intros Hr. inv_bind Hr q w1 R1. injection R1 as <- <-.
  destruct (UpStreamMsgQ w) as [|raw rest] eqn:Hq.
  - inv_bind Hr b w1 R1. apply read_flag in R1 as (Hop & Hb & Hup & Ha). destruct b.
    { injection Hr as _ <-. split_and!; [done..|congruence]. }
    inv_bind Hr u w2 R2. injection Hr as _ <-.
    pose proof (aside_call w sys_cond_wait I w1 u w2 (Ha eq_refl) R2) as Hw2.
    split; [by apply open_settings, Hw2|]. split; [intros Hg; by apply Hup in Hg|].
    intros _. exists [], []. by apply advanced_handed_on.
  - inv_bind Hr u w1 R1. injection R1 as <- <-. inv_bind Hr v2 w2 R2. injection Hr as _ <-.
    apply handled_one with (1 := Ho) (2 := Hq) in R2. split; [by apply open_settings, R2|].
    split; [|by exists [], [raw]]. destruct R2 as [[=] _]. congruence.
Qed.

Lemma receiver_hands_on (bind : Z) (w w' : World) (stop : bool) :
  receiver_turn env s bind w = Done (stop, w') → hands_on w w'.
Proof.
  unfold receiver_turn, handle_upstream_turn. intros Hr. inv_bind Hr stop' w1 R1. inv_bind R1 m w2 R2.
  injection R2 as Hm R2. inv_bind R1 b w3 R3. apply read_flag in R3 as (Hop & Hb & Hup & Ha).
  assert (g_shutdown w2 = g_shutdown w) as Hw2 by (by rewrite <-R2). rewrite Hw2 in Hup.
  assert (upstream_open w3 = upstream_open w) as Hop' by (by rewrite Hop, <-R2). destruct b.
  { injection R1 as <- <-. inv_bind Hr x1 w4 R4. inv_bind Hr x2 w5 R5. injection Hr as _ <-.
    injection R4 as _ <-. injection R5 as _ <-. split; [exact Hop'|]. split; cbn; congruence. }
  assert (∃ a, handed_on a [] w w1) as [a Ha1].
  { destruct (Ha eq_refl) as (H1 & H2 & H3 & H4). clear Ha. rewrite <-R2 in *.
    exists (match m with Some b => [b] | None => [] end). unfold handed_on. cbn in *.
    rewrite Hm in *. rewrite received_app in H3. rewrite frames_sent_app in H4. cbn in H3, H4. rewrite !app_nil_r in *.
    destruct m as [b|]; [inv_bind R1 x w4 R4; injection R4 as _ <-|]; injection R1 as _ <-; cbn in *;
      rewrite ?H1, ?H2, ?H3, ?H4, ?decide_True by done; by rewrite ?app_nil_r. }
  assert (stop' = false) as -> by (by destruct m; [inv_bind R1 x w4 R4|]; injection R1 as <- _).
  injection Hr as _ <-. split; [by apply open_settings, Ha1|].
  split; [intros Hg; by apply Hup in Hg|]. intros _. by exists a, [].
Qed.

(** A sound message is handled. *)
Lemma local_total (m : wrp_msg_t) (raw : bytes) (w : World) :
  ∃ w', getServiceNameAndSendResponse env m raw w = Done (tt, w') /\ same_but_trace w w'.
Proof.
  unfold getServiceNameAndSendResponse, sendMsgtoRegisteredClients, same_but_trace.
  destruct (wrp_service_of_dest m); run_m; [destruct (find_client _ _)|]; eexists; by destruct w.
Qed.

Lemma crud_total (op : crud_op) (c : wrp_crud) (raw : bytes) (w : World) :
  let mac := hw_mac (parodusCfg w) in
  op = CREATE \/ mac = [] \/
    ((length mac <= 59)%nat /\ ∃ dest, crud_dest c = Some dest /\
       (op = RETREIVE → stays mac op c = true → (length mac + 5 <= length dest)%nat)) →
  ∃ w', process_crud env op c raw w = Done (tt, w') /\ (clients_inv w → clients_inv w').
Proof.
  cbn zeta. intros Hs. destruct (sendUpstream_total env raw w) as (w1 & Hr1 & H1).
  assert (∀ v, same_but_trace w v → clients_inv w → clients_inv v) as Hinv by (unfold same_but_trace; by intros v ->).
  destruct (decide (op = CREATE)) as [->|Hop]; [exists w1; auto|].
  destruct (decide (hw_mac (parodusCfg w) = [])) as [Hm|Hm].
  { exists w. split; [|done]. destruct op; [done|..]; cbn [process_crud]; unfold getDeviceId; run_m; by rewrite Hm. }
  destruct Hs as [?|[?|(Hl & dest & Hd & Hlong)]]; [done..|].
  rewrite (process_crud_step env op c raw w dest Hd) by done. rewrite (stays_spec _ op c dest) in Hlong by done.
  cbn zeta in *. set (id := ("mac:" ++ hw_mac (parodusCfg w))%list) in *.
  destruct (decide (map to_lower (take (length id) dest) = map to_lower id)) as [Hmine|Hmine];
    [rewrite (bool_decide_eq_true_2 _ Hmine)|rewrite (bool_decide_eq_false_2 _ Hmine); exists w1; auto].
  destruct (local_total (WRP_CRUD op c) raw w) as (w2 & Hr2 & H2).
  destruct (decide (op = RETREIVE)) as [Hret|Hret]; [|exists w2; auto].
  unfold dest_is_parodus. rewrite bool_decide_eq_true_2 in Hlong by tauto. specialize (Hlong Hret eq_refl).
  rewrite (proj2 (Nat.ltb_ge _ _)) by (unfold id; rewrite length_app; simpl; lia). run_m.
  destruct (strneq _ _ _); [|exists w2; auto]. by eexists.
Qed.

Lemma upstream_total (ack : bytes) (v : upstream_locals) (raw : bytes) (w : World) :
  wrp_struct_to (WRP_AUTH 200) = Some ack → clients_inv w → sound (parodusCfg w) raw →
  ∃ v' w', process_upstream env v raw w = Done (v', w') /\ clients_inv w'.
Proof.
  intros Hack Hinv. unfold sound, process_upstream.
  assert (∀ b (r : bool), ∃ z w', (sendUpstreamMsgToServer env b;; mret r) w = Done (z, w') /\ clients_inv w') as Hsend.
  { intros b r. destruct (sendUpstream_total env b w) as (w1 & Hr & Hs). rewrite (bind_Done _ _ _ _ _ Hr).
    exists r, w1. split; [done|]. rewrite Hs. exact Hinv. }
  destruct (wrp_to_struct raw) as [m|]; [|done]. intros Hm.
  enough (∃ z w', process_message env (bytes_unset v) m raw w = Done (z, w') /\ clients_inv w') as (z & w' & Hr & Hi).
  { exists (mk_locals false z), w'. by rewrite (bind_Done _ _ _ _ _ Hr). }
  destruct m as [a|r|e|op c|reg| |]; cbn [process_message]; try apply Hsend.
  - rewrite process_event_cases. destruct (partner_id (parodusCfg w)); [apply Hsend|].
    destruct Hm as [?|[b ->]]; [done|]. destruct b; [by eexists _, w|apply Hsend].
  - destruct (crud_total op c raw w Hm) as (w' & Hr & Hi). exists (bytes_unset v), w'.
    rewrite (bind_Done _ _ _ _ _ Hr). auto.
  - destruct (process_registration_run env ack reg w Hack Hm Hinv) as (w' & Hr & Hi & _). exists (bytes_unset v), w'.
    by rewrite (bind_Done _ _ _ _ _ Hr).
  - by eexists _, w.
Qed.
End handled.

Section system.
Context `{WrpLib} `{CjsonLib} `{NopollLib} `{Credentials} (env : oracle) (Htakes : takes_frames env).
Context (mem : list event → cstring → url_memory) (dns_query seshat_enabled : bool) (timeout : Z) (turns : nat).
Context (rcv_sock rcv_bind : Z) (svc_bytes : bytes).

(** The thread that receives the clients' messages and the one that handles them. *)
Definition of_clients (t : task) : Prop := t = upstream_tid \/ t = upstream_msg_tid.

Lemma turn_hands_on (t : task) (s s' : system) :
  of_clients t → upstream_open (world s) = true →
  turn env mem dns_query seshat_enabled timeout turns rcv_sock rcv_bind svc_bytes t s = Done s' →
  hands_on rcv_sock (world s) (world s').
Proof using Htakes.
  intros [->| ->] Ho; cbn [turn].
  - unfold task_turn. destruct (receiver_turn _ _ _ _) as [[stop w]| |] eqn:Hr; [|done..].
    intros Heq. assert (world s' = w) as -> by (by destruct stop; injection Heq as <-).
    by apply (receiver_hands_on env rcv_sock) in Hr.
  - unfold consumer_turn. destruct (processUpstreamMessage_turn _ _ _) as [[[stop v] w]| |] eqn:Hr; [|done..].
    intros Heq. assert (world s' = w) as -> by (by destruct stop; injection Heq as <-).
    by apply (consumer_hands_on env Htakes rcv_sock) in Hr.
Qed.

Lemma schedule_hands_on (ts : list task) (s s' : system) :
  Forall of_clients ts → upstream_open (world s) = true →
  schedule env mem dns_query seshat_enabled timeout turns rcv_sock rcv_bind svc_bytes ts s = Done s' →
  hands_on rcv_sock (world s) (world s').
Proof using Htakes.
  intros Hts. revert s. induction Hts as [|t ts Ht Hts IH]; intros s Ho; cbn [schedule].
  { intros [= <-]. split; [done|]. split; [done|]. intros _. exists [], []. apply handed_on_refl. }
  case_decide; [|done]. destruct (turn _ _ _ _ _ _ _ _ _ t s) as [s1| |] eqn:Hr; [|done..]. cbn. intros Hrest.
  destruct (turn_hands_on t s s1 Ht Ho Hr) as (O1 & U1 & D1).
  destruct (IH s1 (eq_trans O1 Ho) Hrest) as (O2 & U2 & D2).
  split; [congruence|]. split; [auto|]. intros Hg. destruct (D2 Hg) as (a2 & h2 & Hd2).
  destruct D1 as (a1 & h1 & Hd1).
  { destruct (g_shutdown (world s1)) eqn:Hg1; [|done]. rewrite U2 in Hg by done. done. }
  exists (a1 ++ a2)%list, (h1 ++ h2)%list. by eapply handed_on_trans.
Qed.

(** The consumer's turns on a queue of sound messages. *)
Lemma queue_handled (ack : bytes) (q : list bytes) (s : system) :
  wrp_struct_to (WRP_AUTH 200) = Some ack → upstream_msg_tid ∈ live s →
  upstream_open (world s) = true → clients_inv (world s) → UpStreamMsgQ (world s) = q ->
  Forall (sound (parodusCfg (world s))) q →
  ∃ s', schedule env mem dns_query seshat_enabled timeout turns rcv_sock rcv_bind svc_bytes
      (replicate (length q) upstream_msg_tid) s = Done s' /\
    handed_on rcv_sock [] q (world s) (world s').
Proof using Htakes.
  intros Hack. revert s. induction q as [|raw q IH]; intros s Hl Ho Hi Hq Hall.
  { exists s. split; [done|apply handed_on_refl]. }
  apply Forall_cons in Hall as [Hraw Hall].
  assert (clients_inv ((world s) <| UpStreamMsgQ := q |>)) as Hi1 by (destruct Hi; by split).
  destruct (upstream_total env ack (msg_locals s) raw ((world s) <| UpStreamMsgQ := q |>) Hack Hi1 Hraw)
    as (v & w & Hr & Hi').
  pose proof (handled_one env Htakes rcv_sock (msg_locals s) v raw q (world s) w Ho Hq Hr) as Hone.
  assert (parodusCfg w = parodusCfg (world s)) as Hcfg by (by destruct Hone as [[=] _]).
  set (s1 := s <| world := w |> <| msg_locals := v |>).
  destruct (IH s1) as (s' & Hs' & Hrest); [done| |done| |cbn; by rewrite Hcfg|].
  { cbn. rewrite <-Ho. by apply open_settings, Hone. }
  { cbn. destruct Hone as (_ & _ & Hqq & _). rewrite app_nil_r, Hq in Hqq. by injection Hqq. }
  exists s'. split; [|exact (handed_on_trans rcv_sock [] [] [raw] q _ _ _ Hone Hrest)].
  cbn [length replicate]. erewrite schedule_turn; [exact Hs'|done|done|].
  apply turn_consumer. unfold processUpstreamMessage_turn. run_m. rewrite Hq. by rewrite Hr.
Qed.
End system.

(** ** Properties *)

(** C12. The clients' messages reach the server in the order in which they came. However the turns
    of the thread that receives them and of the thread that handles them alternate, while
    the way to the server is open, noPoll takes what it is given and no shutdown begins:
    what was queued and what has been received is what has been handled and what is queued
    now, in this order, and from the frames handed to noPoll the server puts together
    exactly the messages for it among those handled, one after the other and each with the
    metadata appended, and is left with no message begun. *)
Theorem clients_messages_in_order `{WrpLib} `{CjsonLib} `{NopollLib} `{Credentials} (env : oracle)
    (mem : list event → cstring → url_memory) (dns_query seshat_enabled : bool) (timeout : Z) (turns : nat)
    (rcv_sock rcv_bind : Z) (svc_bytes : bytes) (ts : list task) (s s' : system)
    (Htakes : takes_frames env) (Hts : Forall of_clients ts) (Hopen : upstream_open (world s) = true)
    (Hrun : schedule env mem dns_query seshat_enabled timeout turns rcv_sock rcv_bind svc_bytes ts s = Done s')
    (Hflag : g_shutdown (world s') = false) :
  ∃ arrived handled fs,
    received rcv_sock (trace (world s')) = (received rcv_sock (trace (world s)) ++ arrived)%list /\
    (UpStreamMsgQ (world s) ++ arrived = handled ++ UpStreamMsgQ (world s'))%list /\
    frames_sent (trace (world s')) = (frames_sent (trace (world s)) ++ fs)%list /\
    receive_all None fs = Some (filter (λ b, b ≠ []) (to_server (world s) handled), None).
Proof.
  destruct (schedule_hands_on env Htakes mem dns_query seshat_enabled timeout turns rcv_sock rcv_bind svc_bytes
    ts s s' Hts Hopen Hrun) as (_ & _ & D). destruct (D Hflag) as (a & h & _ & Hr & Hq & Hf).
  exists a, h, (concat (map frames (to_server (world s) h))). split_and!; [done..|apply receive_messages].
Qed.




(** ** Witnesses *)

(** noPoll refuses continuation frames. *)
Definition env_refuses : oracle := λ h c,
  match c as c return ans c with
  | nopoll_send_common _ _ _ NOPOLL_CONTINUATION_FRAME => -1
  | c => env_ok h c
  end.


(** A library that reads a registration, keep-alive answers and, in every other text, a
    request for the server. *)
Definition wrp_clients : WrpLib := {|
  wrp_to_struct := λ b, Some (if decide (b = "register"%cs) then WRP_SVC_REGISTRATION reg_iot
                              else if decide (b = "alive"%cs) then WRP_SVC_ALIVE else WRP_REQ req_zero);
  wrp_struct_to := λ _, Some "encoded"%cs;
  crud_view := @crud_view wrp_example;
  set_crud := @set_crud wrp_example;
  WRP_ID_ELEMENT__SERVICE := 2;
  WRP_ID_ELEMENT__APPLICATION := 3;
  wrp_get_msg_element := @wrp_get_msg_element wrp_example;
  wrp_does_service_match := @wrp_does_service_match wrp_example;
  wrp_pack_metadata := @wrp_pack_metadata wrp_example;
  appendEncodedData := λ b _ _, (b ++ "+meta")%list
|}.

(** The receiver's socket gives a registration first and requests behind it. noPoll wants
    every frame flushed. *)
Definition env_clients : oracle := λ h c,
  match c as c return ans c with
  | nn_recv _ => Some (if decide (h = []) then "register"%cs else "request"%cs)
  | nopoll_send_common _ b _ _ => 0
  | nopoll_flush_writes _ _ _ =>
      match last h with Some (existT (nopoll_send_common _ b _ _) _) => Z.of_nat (length b) | _ => 0 end
  | c => env_ok h c
  end.

Lemma env_clients_takes : takes_frames env_clients.
Proof. intros h conn b fin op. right. split; [done|]. cbn. by rewrite last_snoc. Qed.

Definition system_queued : system := system_of (own_world <| UpStreamMsgQ := ["alive"%cs; "event"%cs] |> <| trace := [] |>).

Example clients_messages_in_order_witness :
  ∃ s' fs, @schedule wrp_clients cjson_example nopoll_b64 no_credentials env_clients mem_example false true 180000 20
      5 7 "alive" [upstream_tid; upstream_msg_tid; upstream_msg_tid; upstream_tid; upstream_msg_tid; upstream_tid]
      system_queued = Done s' /\
    UpStreamMsgQ (world s') = ["request"%cs; "request"%cs] /\
    frames_sent (trace (world s')) = fs /\ receive_all None fs = Some (["event+meta"%cs], None).
Proof.
  destruct (@schedule wrp_clients cjson_example nopoll_b64 no_credentials env_clients mem_example false true 180000 20
    5 7 "alive" [upstream_tid; upstream_msg_tid; upstream_msg_tid; upstream_tid; upstream_msg_tid; upstream_tid]
    system_queued) as [s'| |] eqn:Hr; [|vm_compute in Hr; discriminate Hr..].
  assert (g_shutdown (world s') = false /\ UpStreamMsgQ (world s') = ["request"%cs; "request"%cs] /\
    received 5 (trace (world s')) = ["register"%cs; "request"%cs; "request"%cs]) as (Hg & Hq & Hrc)
    by (revert Hr; vm_compute; by intros [= <-]).
  destruct (@clients_messages_in_order wrp_clients cjson_example nopoll_b64 no_credentials env_clients mem_example
    false true 180000 20 5 7 "alive" [upstream_tid; upstream_msg_tid; upstream_msg_tid; upstream_tid; upstream_msg_tid;
    upstream_tid] system_queued s') as (a & h & fs & Ha & Hh & Hf & Hm).
  - exact env_clients_takes.
  - repeat constructor; (by left) || (by right).
  - reflexivity.
  - exact Hr.
  - exact Hg.
  - rewrite Hrc in Ha. cbn in Ha. subst a. rewrite Hq in Hh.
    change (["alive"%cs; "event"%cs; "register"%cs] ++ ["request"%cs; "request"%cs] = h ++ ["request"%cs; "request"%cs])%list in Hh.
    apply app_inj_2 in Hh as [<- _]; [|reflexivity].
    exists s', fs. split; [reflexivity|]. split; [exact Hq|]. split; [exact Hf|exact Hm].
Defined.

