(* ===== verification/Senders.v ===== *)
(** * Two threads that send on the one connection

    [processUpstreamMessage] and [listenerOnMessage] (for its error answers) both call
    [sendUpstreamMsgToServer], each in a thread of its own and without a lock, so that
    their calls of noPoll may alternate. [sendUpstreamMsgToServer] is taken apart here into
    the steps between which the other thread may come in: the checks before a message,
    and one pass of the loop of [sendResponse] for each frame. *)

From S2P Require Import Prelude Timers Config Wrp Partners World ClientList Nopoll Upstream Cjson Crud Downstream Connection ConnInterface System Requests Delivery.
Local Open Scope cs_scope.
Local Open Scope Z_scope.
#[local] Opaque MAX_SEND_SIZE.

(** The locals of [sendResponse] while its loop runs. *)
Record sending : Type := mk_sending {
  conn : option noPollConn;
  cp : bytes;               (* [length] bytes *)
  final_len_sent : Z;
  frame_type : noPollOpCode
}.

(** A thread: the messages it still has to send, and the one it is at. *)
Record sender : Type := mk_sender { todo : list bytes; now : option sending }.

Section steps.
Context `{WrpLib} (env : oracle).

(** [sendUpstreamMsgToServer] and [sendMessage] up to the call of [sendResponse]. *)
Definition send_begin (resp_bytes : bytes) : M World (option sending) :=
  size ← gets metaPackSize;
  if 0 <? size then
    pack ← gets metadataPack;
    let appendData := appendEncodedData resp_bytes pack size in
    retry ← gets close_retry;
    cfg ← gets parodusCfg;
    if negb retry || bool_decide (cloud_disconnect cfg ≠ None) then
      c ← gets g_conn;
      if cloud_status_is_online cfg
      then mret (Some (mk_sending c appendData 0 NOPOLL_BINARY_FRAME)) else mret None
    else mret None
  else mret None.

(** One pass of the loop of [sendResponse]; [None] behind it. *)
Definition send_pass (l : sending) : M World (option sending) :=
  match cp l with
  | [] => mret None
  | _ :: _ =>
      let len_to_send := if (MAX_SEND_SIZE <? length (cp l))%nat then MAX_SEND_SIZE else length (cp l) in
      let rest := drop len_to_send (cp l) in
      let fin := negb (0 <? length rest)%nat in
      let next := mk_sending (conn l) rest (final_len_sent l + Z.of_nat len_to_send) NOPOLL_CONTINUATION_FRAME in
      bytes_sent ← call env (nopoll_send_common (conn l) (take len_to_send (cp l)) fin (frame_type l));
      if bytes_sent =? Z.of_nat len_to_send then mret (Some next)
      else if bytes_sent =? -1 then mret None
      else
        flushed ← call env (nopoll_flush_writes (conn l) FLUSH_WAIT_TIME bytes_sent);
        mret (if flushed =? Z.of_nat len_to_send then Some next else None)
  end.

Definition sender_step (t : sender) : M World sender :=
  match now t with
  | Some l => l' ← send_pass l; mret (mk_sender (todo t) l')
  | None =>
      match todo t with
      | [] => mret t
      | m :: ms => l ← send_begin m; mret (mk_sender ms l)
      end
  end.

(** A thread on its own, and the steps of several in any order. *)
Fixpoint alone (n : nat) (t : sender) : M World sender :=
  match n with O => mret t | S n => t ← sender_step t; alone n t end.

Fixpoint interleaved (order : list nat) (ts : list sender) : M World (list sender) :=
  match order with
  | [] => mret ts
  | i :: order =>
      match ts !! i with
      | Some t => t' ← sender_step t; interleaved order (<[i := t']> ts)
      | None => interleaved order ts
      end
  end.

(** The messages one after the other, as the thread's code sends them. *)
Fixpoint send_each (ms : list bytes) : M World unit :=
  match ms with [] => mret tt | m :: ms => sendUpstreamMsgToServer env m;; send_each ms end.
End steps.

Definition threads (mss : list (list bytes)) : list sender := map (λ ms, mk_sender ms None) mss.

(** ** Specification *)

(** [xs] has been taken from the fronts of the lists, [ls'] are left. *)
Inductive taken {A} (ls : list (list A)) : list A → list (list A) → Prop :=
| taken_nil : taken ls [] ls
| taken_snoc xs ls' i x l : taken ls xs ls' → ls' !! i = Some (x :: l) → taken ls (xs ++ [x]) (<[i := l]> ls').

(** The messages a thread has not handed to noPoll yet. *)
Definition outbox `{WrpLib} (w : World) (t : sender) : list bytes :=
  (match now t with Some (mk_sending _ ((_ :: _) as b) _ _) => [b] | _ => [] end
     ++ map (with_metadata w) (todo t))%list.

(** A message that goes out in one frame. *)
Definition one_frame `{WrpLib} (w : World) (m : bytes) : Prop :=
  (0 < length (with_metadata w m) <= MAX_SEND_SIZE)%nat.

(** ** A thread on its own *)

Section alone.
Context `{WrpLib} (env : oracle).

(** The loop of [sendResponse] is its passes. *)
Lemma loop_is_passes (fuel : nat) (l : sending) (w : World) :
  cp l ≠ [] →
  sendResponse_loop env (S fuel) (conn l) (cp l) (final_len_sent l) (frame_type l) w =
    (o ← send_pass env l;
     match o with
     | Some l' => sendResponse_loop env fuel (conn l') (cp l') (final_len_sent l') (frame_type l')
     | None => mret (final_len_sent l)
     end) w.
Proof.
  destruct l as [c [|x b] acc op]; [done|]. intros _.
  cbn [conn cp final_len_sent frame_type send_pass sendResponse_loop].
  set (n := if (_ <? _)%nat then _ else _). run_m. set (sent := env _ (nopoll_send_common _ _ _ _)).
  destruct (sent =? Z.of_nat n); [done|]. destruct (sent =? -1); [done|]. cbn beta iota.
  by destruct (_ =? _).
Qed.

Lemma send_pass_run (l : sending) (w : World) :
  cp l ≠ [] →
  ∃ o w', send_pass env l w = Done (o, w') /\ match o with Some l' => (length (cp l') < length (cp l))%nat | None => True end.
Proof.
  pose proof max_send_pos. destruct l as [c [|x b] acc op]; [done|]. intros _. cbn [cp send_pass].
  set (n := if (_ <? _)%nat then _ else _). destruct (len_to_send_take (x :: b)) as (_ & Hd & _). fold n in Hd.
  assert (length (drop n (x :: b)) < length (x :: b))%nat as Hlt by (rewrite Hd, length_drop; simpl; lia).
  run_m. set (sent := env _ (nopoll_send_common _ _ _ _)).
  destruct (sent =? Z.of_nat n); [eexists _, _; split; [done|exact Hlt]|].
  destruct (sent =? -1); [eexists _, _; by split|]. cbn beta iota.
  destruct (_ =? _); eexists _, _; (split; [done|]); [exact Hlt|done].
Qed.

Lemma alone_S (n : nat) (t t' : sender) (w w' : World) :
  sender_step env t w = Done (t', w') → alone env (S n) t w = alone env n t' w'.
Proof. cbn [alone]. intros Hr. by rewrite (bind_Done _ _ _ _ _ Hr). Qed.

Lemma alone_app (n m : nat) (t : sender) (w : World) :
  alone env (n + m) t w = (t ← alone env n t; alone env m t) w.
Proof.
  revert t w. induction n as [|n IH]; intros t w; [done|]. cbn [Nat.add alone]. unfold mbind at 1 2 3, M_bind at 1 2 3.
  destruct (sender_step env t w) as [[t' w']| |]; [|done..]. apply IH.
Qed.

(** A message that has been begun is sent by so many steps of the thread. *)
Lemma passes_run (fuel : nat) (l : sending) (ms : list bytes) (w : World) :
  (length (cp l) <= fuel)%nat →
  ∃ n, alone env n (mk_sender ms (Some l)) w =
       (_ ← sendResponse_loop env fuel (conn l) (cp l) (final_len_sent l) (frame_type l); mret (mk_sender ms None)) w.
Proof.
  revert l w. induction fuel as [|fuel IH]; intros l w Hl.
  { exists 1%nat. destruct l as [c [|x b] acc op]; [done|simpl in Hl; lia]. }
  destruct (decide (cp l = [])) as [Hnil|Hne]; [exists 1%nat; by destruct l as [c [|x b] acc op]|].
  destruct (send_pass_run l w Hne) as (o & w1 & Hp & Hlt).
  assert (sender_step env (mk_sender ms (Some l)) w = Done (mk_sender ms o, w1)) as Hs
    by (unfold sender_step; cbn [now todo]; by rewrite (bind_Done _ _ _ _ _ Hp)).
  assert (∀ f : Z → M World sender,
    (r ← sendResponse_loop env (S fuel) (conn l) (cp l) (final_len_sent l) (frame_type l); f r) w =
    (r ← match o with
         | Some l' => sendResponse_loop env fuel (conn l') (cp l') (final_len_sent l') (frame_type l')
         | None => mret (final_len_sent l)
         end; f r) w1) as Hloop.
  { intros f. unfold mbind at 1 2, M_bind at 1 2. by rewrite (loop_is_passes fuel l w Hne), (bind_Done _ _ _ _ _ Hp). }
  rewrite Hloop. destruct o as [l'|].
  - destruct (IH l' w1) as [n Hn]; [lia|]. exists (S n). by rewrite (alone_S _ _ _ _ _ Hs).
  - exists 1%nat. by rewrite (alone_S _ _ _ _ _ Hs).
Qed.

(** The checks before a message. *)
Lemma send_begin_run (m : bytes) (w : World) :
  send_begin m w =
    Done (if upstream_open w then Some (mk_sending (g_conn w) (with_metadata w m) 0 NOPOLL_BINARY_FRAME) else None, w).
Proof.
  unfold send_begin, upstream_open, with_metadata. run_m. destruct (0 <? metaPackSize w); [|done]. cbn [andb].
  destruct (negb (close_retry w) || _); [|done]. cbn [andb]. by destruct (cloud_status_is_online _).
Qed.

Lemma message_alone (m : bytes) (ms : list bytes) (w : World) :
  ∃ n, alone env n (mk_sender (m :: ms) None) w = (sendUpstreamMsgToServer env m;; mret (mk_sender ms None)) w.
Proof.
  assert (sender_step env (mk_sender (m :: ms) None) w = Done (mk_sender ms
    (if upstream_open w then Some (mk_sending (g_conn w) (with_metadata w m) 0 NOPOLL_BINARY_FRAME) else None), w)) as Hs
    by (unfold sender_step; cbn [now todo]; by rewrite (bind_Done _ _ _ _ _ (send_begin_run m w))).
  unfold mbind at 1, M_bind at 1. rewrite sendUpstream_cases. destruct (upstream_open w).
  - destruct (passes_run (length (with_metadata w m)) (mk_sending (g_conn w) (with_metadata w m) 0 NOPOLL_BINARY_FRAME) ms w)
      as [n Hn]; [done|].
    exists (S n). rewrite (alone_S _ _ _ _ _ Hs), Hn. cbn [conn cp final_len_sent frame_type].
    unfold sendResponse, mbind, M_bind, with_metadata. by destruct (sendResponse_loop _ _ _ _ _ _ w) as [[r w']| |].
  - exists 1%nat. by rewrite (alone_S _ _ _ _ _ Hs).
Qed.
End alone.

(** ** Several threads *)

Lemma taken_trans {A} (l1 l2 l3 : list (list A)) (xs ys : list A) :
  taken l1 xs l2 → taken l2 ys l3 → taken l1 (xs ++ ys) l3.
Proof.
  intros H1 H2. revert H1. induction H2 as [|ys l3 i x l _ IH Hi]; intros H1; [by rewrite app_nil_r|].
  rewrite app_assoc. by apply (taken_snoc _ _ _ _ x); [apply IH|].
Qed.

Lemma taken_one {A} (ls : list (list A)) (i : nat) (x : A) (l : list A) :
  ls !! i = Some (x :: l) → taken ls [x] (<[i := l]> ls).
Proof. intros Hi. apply (taken_snoc _ [] _ _ x); [apply taken_nil|done]. Qed.

Lemma one_frame_frames (b : bytes) :
  (0 < length b <= MAX_SEND_SIZE)%nat → frames b = [(b, true, NOPOLL_BINARY_FRAME)].
Proof.
  intros [Hp Hm]. unfold frames. destruct b as [|x b]; [simpl in Hp; lia|]. remember (length (x :: b)) as n eqn:Hn.
  destruct n; [done|]. cbn [frames_from]. rewrite drop_ge, take_ge by lia. rewrite bool_decide_eq_true_2 by done.
  by destruct n.
Qed.

Lemma nonempty_all (xs : list bytes) : Forall (λ b, b ≠ []) xs → filter (λ b, b ≠ []) xs = xs.
Proof. induction 1 as [|b xs Hb _ IH]; [done|]. rewrite filter_cons_True by done. by f_equal. Qed.

Section short.
Context `{WrpLib} (env : oracle).

(** What a thread has not handed over goes out in one frame each. *)
Definition short (w : World) (t : sender) : Prop :=
  Forall (λ b, 0 < length b <= MAX_SEND_SIZE)%nat (outbox w t) /\
  match now t with Some (mk_sending _ (_ :: _) _ op) => op = NOPOLL_BINARY_FRAME | _ => True end.

Lemma outbox_settings (w w' : World) (t : sender) : settings w' = settings w → outbox w' t = outbox w t.
Proof. unfold settings, outbox, with_metadata. by intros [= _ -> -> _ _ _]. Qed.

Lemma short_settings (w w' : World) (t : sender) : settings w' = settings w → short w t → short w' t.
Proof. intros Hs. unfold short. by rewrite (outbox_settings w w' t Hs). Qed.

(** What the trace of a step says of the frame handed over, and whether noPoll has taken it. *)
Definition hands (es : list event) (f : frame) (yes : bool) : Prop :=
  frames_sent es = [f] /\ ∀ more, frames_taken (es ++ more) = ((if yes then [f] else []) ++ frames_taken more)%list.

(** A step of a thread: no frame, or the only frame of its next message. *)
Lemma short_pass (ms : list bytes) (c : option noPollConn) (b : bytes) (acc : Z) (w : World) :
  (0 < length b <= MAX_SEND_SIZE)%nat →
  ∃ o w' es yes, sender_step env (mk_sender ms (Some (mk_sending c b acc NOPOLL_BINARY_FRAME))) w = Done (mk_sender ms o, w') /\
    settings w' = settings w /\ match o with Some l => cp l = [] | None => True end /\
    trace w' = (trace w ++ es)%list /\ hands es (b, true, NOPOLL_BINARY_FRAME) yes.
Proof.
  intros Hb. destruct b as [|x b]; [simpl in Hb; lia|]. unfold hands.
  unfold sender_step, send_pass. cbn [now cp todo conn final_len_sent frame_type].
  rewrite (proj2 (Nat.ltb_ge _ _)) by lia. rewrite firstn_all, drop_all. run_m.
  set (sent := env _ (nopoll_send_common _ _ _ _)).
  destruct (sent =? _) eqn:E1; [|destruct (sent =? -1) eqn:E2]; cbn beta iota;
    [..|set (fl := env _ (nopoll_flush_writes _ _ _)); destruct (fl =? Z.of_nat (length (x :: b))) eqn:E3].
  - eexists _, _, [_], true. split; [reflexivity|]. split; [done|]. split; [done|]. split; [reflexivity|].
    split; [done|]. intros more. cbn. simpl in E1. by rewrite E1.
  - eexists _, _, [_], false. split; [reflexivity|]. split; [done|]. split; [done|]. split; [reflexivity|].
    split; [done|]. intros more. cbn. simpl in E1. by rewrite E1, E2.
  - eexists _, _, [_; _], true. split; [reflexivity|]. split; [done|]. split; [done|].
    split; [cbn; rewrite <-app_assoc; reflexivity|]. split; [done|]. intros more. cbn. simpl in E1, E3. by rewrite E1, E2, E3.
  - eexists _, _, [_; _], false. split; [reflexivity|]. split; [done|]. split; [done|].
    split; [cbn; rewrite <-app_assoc; reflexivity|]. split; [done|]. intros more. cbn. simpl in E1, E3. by rewrite E1, E2, E3.
Qed.

Lemma short_step (t : sender) (w : World) :
  upstream_open w = true → short w t →
  ∃ t' w', sender_step env t w = Done (t', w') /\ settings w' = settings w /\ short w t' /\
    ((outbox w t' = outbox w t /\ trace w' = trace w) \/
     ∃ b es yes, outbox w t = b :: outbox w t' /\ trace w' = (trace w ++ es)%list /\
       hands es (b, true, NOPOLL_BINARY_FRAME) yes).
Proof.
  intros Ho [Hall Hop]. destruct t as [ms [[c [|x b] acc op]|]]; cbn [now] in Hop; unfold short, outbox in *; cbn [now todo] in *.
  - exists (mk_sender ms None), w. split; [done|]. split; [done|]. split; [by split|]. by left.
  - subst op. apply Forall_cons in Hall as [Hb Hall].
    destruct (short_pass ms c (x :: b) acc w Hb) as (o & w' & es & yes & Hr & Hs & Hcp & Ht & Hf).
    exists (mk_sender ms o), w'. split; [done|]. split; [done|]. cbn [now todo].
    destruct o as [[c' [|y b'] acc' op']|]; [|done|]; (split; [by split|]); right; by exists (x :: b), es, yes.
  - destruct ms as [|m ms].
    { exists (mk_sender [] None), w. split; [done|]. split; [done|]. split; [by split|]. by left. }
    exists (mk_sender ms (Some (mk_sending (g_conn w) (with_metadata w m) 0 NOPOLL_BINARY_FRAME))), w.
    unfold sender_step. cbn [now todo]. rewrite (bind_Done _ _ _ _ _ (send_begin_run m w)), Ho.
    cbn [map app] in Hall |- *. pose proof Hall as [Hm _]%Forall_cons. cbn beta in Hm.
    destruct (with_metadata w m) as [|y b] eqn:Hb; [simpl in Hm; lia|].
    split; [done|]. split; [done|]. split; [by split|]. by left.
Qed.

(** The messages of a run, and those of them noPoll has taken. *)
Definition handed (new : list event) (xs ys : list bytes) : Prop :=
  frames_sent new = concat (map frames xs) /\ frames_taken new = concat (map frames ys) /\ sublist ys xs.

Lemma handed_cons (es new : list event) (b : bytes) (yes : bool) (xs ys : list bytes) :
  (0 < length b <= MAX_SEND_SIZE)%nat → hands es (b, true, NOPOLL_BINARY_FRAME) yes → handed new xs ys →
  handed (es ++ new) (b :: xs) ((if yes then [b] else []) ++ ys).
Proof.
  intros Hb [H1 H2] (Hx & Hy & Hs). unfold handed. rewrite frames_sent_app, H1, H2, Hx, Hy. cbn [map concat].
  rewrite one_frame_frames by done. split; [done|]. destruct yes; cbn [app map concat].
  - rewrite one_frame_frames by done. split; [done|by constructor].
  - split; [done|by constructor].
Qed.

Lemma interleaved_run (order : list nat) (ts : list sender) (w : World) :
  upstream_open w = true → Forall (short w) ts →
  ∃ ts' w' new xs ys, interleaved env order ts w = Done (ts', w') /\
    taken (map (outbox w) ts) xs (map (outbox w) ts') /\ Forall (λ b, b ≠ []) xs /\
    trace w' = (trace w ++ new)%list /\ handed new xs ys.
Proof.
  revert ts w. induction order as [|i order IH]; intros ts w Ho Hts; cbn [interleaved].
  { exists ts, w, [], [], []. rewrite app_nil_r. split_and!; [done|apply taken_nil|done..]. }
  destruct (ts !! i) as [t|] eqn:Hi; [|by apply IH].
  pose proof (Forall_lookup_1 _ _ _ _ Hts Hi) as Ht.
  destruct (short_step t w Ho Ht) as (t' & w1 & Hr & Hs & Ht' & Hcase). rewrite (bind_Done _ _ _ _ _ Hr).
  destruct (IH (<[i := t']> ts) w1) as (ts' & w' & new & xs & ys & Hr' & Htk & Hne & Hf & Hh).
  { rewrite <-Ho. by apply open_settings. }
  { apply Forall_insert; [|by apply (short_settings w)]. eapply Forall_impl; [exact Hts|]. intros v. by apply short_settings. }
  assert (∀ l, map (outbox w1) l = map (outbox w) l) as Hbox
    by (intros l; apply map_ext; intros v; by apply outbox_settings).
  rewrite !Hbox, list_fmap_insert in Htk.
  assert (map (outbox w) ts !! i = Some (outbox w t)) as Hout by (by rewrite list_lookup_fmap, Hi).
  destruct Hcase as [[He Hf1]|(b & es & yes & He & Hf1 & Hhs)].
  - rewrite He, list_insert_id in Htk by done. rewrite Hf1 in Hf. by exists ts', w', new, xs, ys.
  - destruct Ht as [Ht _]. rewrite He in Ht, Hout. apply Forall_cons in Ht as [Hb _].
    exists ts', w', (es ++ new)%list, (b :: xs), ((if yes then [b] else []) ++ ys)%list. split; [done|].
    split; [exact (taken_trans _ _ _ [b] xs (taken_one _ _ _ _ Hout) Htk)|].
    split; [constructor; [intros ->; simpl in Hb; lia|done]|].
    split; [by rewrite Hf, Hf1, <-app_assoc|]. by apply handed_cons.
Qed.

(** The frame a pass hands over, whatever noPoll answers. *)
Lemma pass_event (ms : list bytes) (l : sending) (w : World) :
  cp l ≠ [] →
  ∃ o w' answer rest, sender_step env (mk_sender ms (Some l)) w = Done (mk_sender ms o, w') /\
    w' = w <| trace := (trace w ++ ev (nopoll_send_common (conn l) (take MAX_SEND_SIZE (cp l))
      (bool_decide (drop MAX_SEND_SIZE (cp l) = [])) (frame_type l)) answer :: rest)%list |> /\
    frames_sent rest = [].
Proof.
  destruct l as [c [|x b] acc op]; [done|]. intros _. unfold sender_step, send_pass.
  cbn [now cp todo conn final_len_sent frame_type].
  destruct (len_to_send_take (x :: b)) as (Ht & Hd & _). cbn zeta in Ht, Hd. rewrite Ht, Hd, fin_flag. run_m.
  set (sent := env _ (nopoll_send_common _ _ _ _)).
  destruct (sent =? _); [|destruct (sent =? -1)]; cbn beta iota; [..|destruct (_ =? _)].
  1, 2: by eexists _, _, sent, [].
  all: eexists _, _, sent, [ev (nopoll_flush_writes c FLUSH_WAIT_TIME sent) _]; (split; [reflexivity|]); split; [|done];
    cbn; by rewrite <-app_assoc.
Qed.

(** The frame a pass hands over is taken. *)
Lemma pass_taken (ms : list bytes) (l : sending) (w : World) :
  takes_frames env → cp l ≠ [] →
  ∃ o w' es, sender_step env (mk_sender ms (Some l)) w = Done (mk_sender ms o, w') /\ settings w' = settings w /\
    trace w' = (trace w ++ es)%list /\
    hands es (take MAX_SEND_SIZE (cp l), bool_decide (drop MAX_SEND_SIZE (cp l) = []), frame_type l) true.
Proof.
  intros Htakes. destruct l as [c [|x b] acc op]; [done|]. intros _. unfold sender_step, send_pass, hands.
  cbn [now cp todo conn final_len_sent frame_type].
  destruct (len_to_send_take (x :: b)) as (Ht & Hd & Hn). cbn zeta in Ht, Hd, Hn. rewrite Ht, Hd, fin_flag, Hn. run_m.
  set (part := take MAX_SEND_SIZE (x :: b)). set (fin := bool_decide _).
  pose proof (Htakes (trace w) c part fin op) as Htk. cbn zeta in Htk.
  set (sent := env _ (nopoll_send_common _ _ _ _)) in *.
  destruct (Z.eqb_spec sent (Z.of_nat (length part))) as [Hs|Hne]; cbn beta iota.
  - eexists _, _, [_]. split; [reflexivity|]. split; [done|]. split; [reflexivity|].
    split; [done|]. intros more. cbn. by rewrite (proj2 (Z.eqb_eq _ _) Hs).
  - destruct Htk as [?|[Hno Hfl]]; [done|]. rewrite (proj2 (Z.eqb_neq _ _) Hno). cbn beta iota.
    eexists _, _, [_; _]. split; [reflexivity|]. split; [done|]. split; [cbn; rewrite <-app_assoc; reflexivity|].
    split; [done|]. intros more. cbn. rewrite (proj2 (Z.eqb_neq _ _) Hno), Hfl, Z.eqb_refl. by rewrite orb_true_r.
Qed.

(** The main thread closes the connection. *)
Lemma close_run (c : noPollConn) (w : World) :
  g_conn w = Some c →
  ∃ w' closed reason u, close_global_conn env w = Done (tt, w') /\
    trace w' = (trace w ++ closed ++ [ev (nopoll_conn_close_ext c CloseNormalClosure reason) u])%list /\
    cloud_status (parodusCfg w') = Some CLOUD_STATUS_OFFLINE.
Proof.
  intros Hc. unfold close_global_conn, close_and_unref_connection, close_conn, set_global_conn. run_m. rewrite Hc.
  destruct (shutdown_reason w) as [r|]; [destruct (streq r _);
    [destruct (close_reason_file (parodusCfg w)) as [f|]; [destruct (env (trace w) (sys_read_file f)) as [text|] eqn:Hf; [destruct (_ =? 0)%nat|]|]|]|];
    run_m;
    first [eexists _, [], _, _; split; [reflexivity|]; by split
          |eexists _, [ev (sys_read_file f) _], _, _; split; [reflexivity|]; split; [cbn; by rewrite <-app_assoc|done]].
Qed.

(** A message begun: its first frame is out after two steps. *)
Lemma first_frame (m : bytes) (ms : list bytes) (w : World) :
  takes_frames env → upstream_open w = true → with_metadata w m ≠ [] →
  let d := with_metadata w m in
  ∃ o w' es, (t ← sender_step env (mk_sender (m :: ms) None); sender_step env t) w = Done (mk_sender ms o, w') /\
    settings w' = settings w /\ trace w' = (trace w ++ es)%list /\
    hands es (take MAX_SEND_SIZE d, bool_decide (drop MAX_SEND_SIZE d = []), NOPOLL_BINARY_FRAME) true.
Proof.
  cbn zeta. intros Htakes Ho Hm. set (l := mk_sending (g_conn w) (with_metadata w m) 0 NOPOLL_BINARY_FRAME).
  assert (sender_step env (mk_sender (m :: ms) None) w = Done (mk_sender ms (Some l), w)) as Hs
    by (unfold sender_step; cbn [now todo]; by rewrite (bind_Done _ _ _ _ _ (send_begin_run m w)), Ho).
  rewrite (bind_Done _ _ _ _ _ Hs). exact (pass_taken ms l w Htakes Hm).
Qed.
End short.

(** ** Properties *)

(** C18. A thread that sends on its own sends what the code of the other files says: its steps
    come to an end, and the calls of noPoll they have made, with what was answered, are
    those of [sendUpstreamMsgToServer] for one message after the other. *)
Theorem sending_in_steps `{WrpLib} (env : oracle) (ms : list bytes) (w : World) :
  ∃ n w', alone env n (mk_sender ms None) w = Done (mk_sender [] None, w') /\
          send_each env ms w = Done (tt, w').
Proof.
  revert w. induction ms as [|m ms IH]; intros w; [by exists 0%nat, w|].
  destruct (message_alone env m ms w) as [n1 H1]. destruct (sendUpstream_total env m w) as (w1 & Hr & _).
  rewrite (bind_Done _ _ _ _ _ Hr) in H1. destruct (IH w1) as (n2 & w' & H2 & Hs).
  exists (n1 + n2)%nat, w'. rewrite alone_app, (bind_Done _ _ _ _ _ H1). split; [exact H2|].
  cbn [send_each]. by rewrite (bind_Done _ _ _ _ _ Hr).
Qed.

(** C14. Messages of one frame need no lock: however the steps of threads that send such messages
    alternate, and whatever noPoll answers, none of them fails, and the frames handed
    to noPoll make up whole messages only, each taken from the front of what one of the
    threads still had to send. A frame that noPoll refuses is a message that does not
    arrive; the server reads the others all the same. *)
Theorem short_messages_intact `{WrpLib} (env : oracle) (mss : list (list bytes)) (order : list nat) (w : World)
    (Hopen : upstream_open w = true) (Hshort : Forall (Forall (one_frame w)) mss) :
  ∃ ts' w' fs ms,
    interleaved env order (threads mss) w = Done (ts', w') /\
    frames_sent (trace w') = (frames_sent (trace w) ++ fs)%list /\
    receive_all None fs = Some (ms, None) /\
    taken (map (map (with_metadata w)) mss) ms (map (outbox w) ts') /\
    ∃ new arrived, trace w' = (trace w ++ new)%list /\ frames_sent new = fs /\ sublist arrived ms /\
      receive_all None (frames_taken new) = Some (arrived, None).
Proof.
  destruct (interleaved_run env order (threads mss) w Hopen) as (ts' & w' & new & xs & ys & Hr & Ht & Hne & Hf & Hs & Hy & Hsub).
  { apply Forall_map. eapply Forall_impl; [exact Hshort|]. intros ms Hms. split; [|done]. by apply Forall_map. }
  exists ts', w', (concat (map frames xs)), xs. split; [done|]. split; [by rewrite Hf, frames_sent_app, Hs|].
  rewrite receive_messages, (nonempty_all xs) by done. split; [done|]. split.
  - unfold threads in Ht. rewrite map_map in Ht. exact Ht.
  - exists new, ys. split; [done|]. split; [done|]. split; [done|]. rewrite Hy, receive_messages, nonempty_all; [done|].
    apply Forall_forall. intros y Hy'. eapply Forall_forall in Hne; [exact Hne|]. by eapply elem_of_sublist.
Qed.

(** C17. Longer messages do need one. When noPoll takes what it is given, a thread has a message
    of more than one frame and another thread sends in between, the first frame of its message comes in the middle of
    the other one: the server finds an error there and reads neither, nor anything behind
    them, although it would have read the two messages one after the other. *)
Theorem long_messages_torn `{WrpLib} (env : oracle) (a b : bytes) (as_ bs : list bytes) (w : World)
    (Htakes : takes_frames env) (Hopen : upstream_open w = true)
    (Ha : (MAX_SEND_SIZE < length (with_metadata w a))%nat) (Hb : with_metadata w b ≠ []) :
  (∃ ts' w' fs, interleaved env [0; 0; 1; 1]%nat (threads [a :: as_; b :: bs]) w = Done (ts', w') /\
    frames_sent (trace w') = (frames_sent (trace w) ++ fs)%list /\
    (∃ new, trace w' = (trace w ++ new)%list /\ frames_taken new = fs) /\
    ∀ more, receive_all None (fs ++ more) = None) /\
  receive_all None (frames (with_metadata w a) ++ frames (with_metadata w b)) =
    Some ([with_metadata w a; with_metadata w b], None).
Proof.
  assert (with_metadata w a ≠ []) as Hna by (intros Hn; rewrite Hn in Ha; simpl in Ha; lia).
  split; [|by rewrite receive_all_app, !receive_frames].
  destruct (first_frame env a as_ w Htakes Hopen Hna) as (o & w1 & e1 & R1 & S1 & T1 & F1 & K1). cbn zeta in F1, K1.
  assert (with_metadata w1 b = with_metadata w b) as Eb
    by (unfold settings, with_metadata in *; by injection S1 as _ -> -> _ _ _).
  destruct (first_frame env b bs w1) as (o' & w2 & e2 & R2 & _ & T2 & F2 & K2);
    [done|by rewrite <-Hopen; apply open_settings|by rewrite Eb|]. cbn zeta in F2, K2.
  assert (trace w2 = (trace w ++ e1 ++ e2)%list) as T by (by rewrite T2, T1, <-app_assoc).
  exists [mk_sender as_ o; mk_sender bs o'], w2. eexists. split.
  { cbn [interleaved threads map lookup list_lookup]. inv_bind R1 t1 v1 A1. inv_bind R2 t2 v2 A2.
    rewrite (bind_Done _ _ _ _ _ A1). cbn [insert list_insert lookup list_lookup].
    rewrite (bind_Done _ _ _ _ _ R1). cbn [insert list_insert lookup list_lookup].
    rewrite (bind_Done _ _ _ _ _ A2). cbn [insert list_insert lookup list_lookup].
    by rewrite (bind_Done _ _ _ _ _ R2). }
  split; [by rewrite T, !frames_sent_app, F1, F2|]. split.
  { exists (e1 ++ e2)%list. split; [exact T|]. rewrite K1. rewrite <-(app_nil_r e2), K2. reflexivity. }
  intros more.
  rewrite bool_decide_eq_false_2; [done|]. intros Hd. apply (f_equal length) in Hd. rewrite length_drop in Hd. simpl in Hd. lia.
Qed.

(** C21. Nothing keeps the main thread from closing the connection under a sender. When it
    closes the connection before the checks, nothing is sent; when it does so behind them,
    which a close flag raised in between does not prevent, the next frame of the message goes
    to the connection noPoll has already let go. *)
Theorem connection_closed_under_sender `{WrpLib} (env : oracle) (m : bytes) (ms : list bytes) (c : noPollConn) (w : World)
    (Hopen : upstream_open w = true) (Hconn : g_conn w = Some c) (Hm : with_metadata w m ≠ []) :
  ∃ w1 closed reason u,
    close_global_conn env w = Done (tt, w1) /\
    trace w1 = (trace w ++ closed ++ [ev (nopoll_conn_close_ext c CloseNormalClosure reason) u])%list /\
    sendUpstreamMsgToServer env m w1 = Done (tt, w1) /\
    ∃ t t' w2 answer rest, let d := with_metadata w m in
      sender_step env (mk_sender (m :: ms) None) w = Done (t, w) /\
      sender_step env t w1 = Done (t', w2) /\
      trace w2 = (trace w1 ++ ev (nopoll_send_common (Some c) (take MAX_SEND_SIZE d)
        (bool_decide (drop MAX_SEND_SIZE d = [])) NOPOLL_BINARY_FRAME) answer :: rest)%list.
Proof.
  destruct (close_run env c w Hconn) as (w1 & closed & reason & u & Hr & Ht & Hs). exists w1, closed, reason, u.
  split; [done|]. split; [done|]. split.
  { rewrite sendUpstream_cases. unfold upstream_open, cloud_status_is_online. rewrite Hs.
    by rewrite andb_false_r. }
  set (l := mk_sending (g_conn w) (with_metadata w m) 0 NOPOLL_BINARY_FRAME).
  destruct (pass_event env ms l w1 Hm) as (o & w2 & answer & rest & Hp & Hw2 & _).
  exists (mk_sender ms (Some l)), (mk_sender ms o), w2, answer, rest. cbn zeta.
  split; [unfold sender_step; cbn [now todo]; by rewrite (bind_Done _ _ _ _ _ (send_begin_run m w)), Hopen|].
  split; [exact Hp|]. rewrite Hw2. unfold l. cbn [conn cp frame_type]. by rewrite Hconn.
Qed.

(** ** Witnesses *)

Example connection_closed_under_sender_witness :
  let w := own_world <| trace := [] |> <| g_conn := Some 1 |> in
  ∃ w1 w2 t t' tr r u answer rest,
    close_global_conn env_ok w = Done (tt, w1) /\ trace w1 = tr /\
    ev (nopoll_conn_close_ext 1 CloseNormalClosure r) u ∈ tr /\
    sender_step (H := wrp_clients) env_ok (mk_sender ["event"%cs] None) w = Done (t, w) /\
    sender_step (H := wrp_clients) env_ok t w1 = Done (t', w2) /\
    trace w2 = (tr ++ ev (nopoll_send_common (Some 1) "event+meta" true NOPOLL_BINARY_FRAME) answer :: rest)%list.
Proof.
  cbn zeta.
  destruct (@connection_closed_under_sender wrp_clients env_ok "event" [] 1
    (own_world <| trace := [] |> <| g_conn := Some 1 |>)) as (w1 & cl & r & u & Hr & Ht & _ & t & t' & w2 & a & rest & H1 & H2 & H3).
  - reflexivity.
  - reflexivity.
  - discriminate.
  - exists w1, w2, t, t', (trace w1), r, u, a, rest. split; [exact Hr|]. split; [reflexivity|].
    split; [rewrite Ht; apply elem_of_app; right; apply elem_of_app; right; by left|]. split; [exact H1|]. split; [exact H2|].
    rewrite take_ge, bool_decide_eq_true_2 in H3; [exact H3|rewrite drop_ge; [done|]|];
      apply Nat.leb_le; vm_compute; reflexivity.
Defined.

Definition open_world : World := own_world <| trace := [] |>.

Example short_messages_intact_witness :
  let w := open_world in
  ∃ ts' w' fs ms,
    interleaved (H := wrp_clients) env_clients [0; 1; 0; 1; 0; 0; 0; 1; 0]%nat (threads [["event"%cs; "alive"%cs]; ["error"%cs]]) w =
      Done (ts', w') /\
    frames_sent (trace w') = fs /\ receive_all None fs = Some (ms, None) /\
    ms = ["event+meta"%cs; "error+meta"%cs; "alive+meta"%cs].
Proof.
  cbn zeta.
  destruct (@short_messages_intact wrp_clients env_clients [["event"%cs; "alive"%cs]; ["error"%cs]]
    [0; 1; 0; 1; 0; 0; 0; 1; 0]%nat open_world) as (ts' & w' & fs & ms & Hr & Hf & Hm & _ & _).
  - reflexivity.
  - repeat constructor; apply Nat.leb_le; vm_compute; reflexivity.
  - exists ts', w', fs, ms. split; [exact Hr|]. split; [exact Hf|]. split; [exact Hm|].
    assert (frames_sent (trace w') = concat (map frames ["event+meta"%cs; "error+meta"%cs; "alive+meta"%cs])) as Hfs
      by (revert Hr; vm_compute; by intros [= _ <-]).
    rewrite Hf in Hfs. change (fs = concat (map frames ["event+meta"%cs; "error+meta"%cs; "alive+meta"%cs])) in Hfs.
    rewrite Hfs, receive_messages in Hm. by injection Hm as <-.
Defined.

(** An event of 60 KiB and some more, and an error answer of the other thread. *)
Definition long_event : bytes := repeat "x"%char (N.to_nat 61440).

Example long_messages_torn_witness :
  let w := open_world in
  ∃ ts' w' fs,
    interleaved (H := wrp_clients) env_ok [0; 0; 1; 1]%nat (threads [[long_event]; ["error"%cs]]) w = Done (ts', w') /\
    frames_sent (trace w') = fs /\ receive_all None fs = None.
Proof.
  cbn zeta.
  destruct (@long_messages_torn wrp_clients env_ok long_event "error" [] [] open_world) as [(ts' & w' & fs & Hr & Hf & _ & Hm) _].
  - intros h conn b fin op. by left.
  - reflexivity.
  - apply Nat.ltb_lt. vm_compute. reflexivity.
  - discriminate.
  - exists ts', w', fs. split; [exact Hr|]. split; [exact Hf|]. rewrite <-(app_nil_r fs). exact (Hm []).
Defined.
