(* ===== verification/Buffers.v ===== *)
(** * Buffers of a fixed size

    What the program writes into arrays whose size does not depend on the text: the port of
    a server (config.c, connection.c), the name of the DNS record and the token that is
    joined from its answer (token.c), the device id (upstream.c). The bounds on the
    configuration are those [parseCommandLine] keeps (Config.v). *)

From S2P Require Import Prelude StringHelpers Timers Config Wrp Partners World ClientList Nopoll Upstream Cjson Connection Token.
Local Open Scope cs_scope.
Local Open Scope Z_scope.

(** ** Specification *)

(** [sprintf] of the port into [port_buf[8]]. *)
Definition port_fits (port : Z) : Prop := (length (print_dec port) < 8)%nat.

Section records.
Context `{DnsLib}.

(** The bytes of the data of the first [n] records. *)
Definition rdata_size (msg : ns_msg) (i : Z) : nat :=
  match ns_parserr msg i with inr rr => length (ns_rr_rdata rr) | inl _ => 0 end.
Definition rdata_total (msg : ns_msg) (i : Z) (n : nat) : nat :=
  sum_list_with (λ j, rdata_size msg (i + Z.of_nat j)) (seq 0 n).

(** The data of the records lie in the message, side by side; errors are negative. *)
Class DnsLaws : Prop := {
  records_inside : ∀ nsbuf l msg, 0 <= l → ns_initparse nsbuf l = inr msg →
    (rdata_total msg 0 (Z.to_nat (ns_msg_count msg)) <= Z.to_nat l)%nat;
  parserr_negative : ∀ msg i ret, ns_parserr msg i = inl ret → ret < 0
}.

(** The slot of the last record has not been filled. *)
Definition last_record_missing (msg : ns_msg) : Prop :=
  let '(num_txt_recs, table) := get_rr_seq_table msg (ns_msg_count msg) in
  ∀ rr, table !! Z.to_nat num_txt_recs ≠ Some (Some rr).
End records.

Definition slot_size (o : option (list ascii)) : nat := match o with Some rr => length rr | None => 0 end.
Definition table_size (t : seq_table) : nat := sum_list_with slot_size t.

(** ** The slots *)

Lemma table_insert (t : seq_table) (i : nat) (rr : list ascii) :
  t !! i = Some None → table_size (<[i := Some rr]> t) = (table_size t + length rr)%nat.
Proof.
  unfold table_size. revert i. induction t as [|o t IH]; intros [|i]; [done..| |]; cbn.
  - intros [= ->]. apply Nat.add_comm.
  - intros Hi. rewrite IH by done. lia.
Qed.

Lemma sum_shift (f : nat → nat) (l : list nat) :
  sum_list_with f (S <$> l) = sum_list_with (λ k, f (S k)) l.
Proof. induction l as [|k l IH]; [done|]. cbn. by rewrite IH. Qed.

Lemma slots_size (t : seq_table) (i n : nat) :
  (sum_list_with (λ k, slot_size (default None (t !! k))) (seq i n) <= table_size t)%nat.
Proof.
  unfold table_size. revert i n. induction t as [|o t IH]; intros i n.
  - induction (seq i n) as [|k l IHl]; [done|exact IHl].
  - destruct i as [|i]; [destruct n as [|n]|].
    + cbn. lia.
    + cbn [seq sum_list_with lookup list_lookup default]. rewrite <-fmap_S_seq, sum_shift.
      apply Nat.add_le_mono_l. exact (IH 0%nat n).
    + rewrite <-fmap_S_seq, sum_shift. etransitivity; [exact (IH i n)|apply Nat.le_add_l].
Qed.

Lemma strip_last_size (rr : list ascii) : (length (strip_last rr) <= length rr)%nat.
Proof.
  unfold strip_last. destruct (last rr) as [c|] eqn:Hl; [|done]. destruct (valid_b64_char c); [done|].
  apply last_Some in Hl as [l ->]. rewrite removelast_last, length_app. lia.
Qed.

Lemma strip_size (rr : list ascii) : (length (strip_rr_data rr) <= length rr)%nat.
Proof.
  unfold strip_rr_data. etransitivity; [apply strip_last_size|]. etransitivity; [apply strip_last_size|].
  destruct rr as [|c rr]; [done|]. destruct (isdigit c); simpl; lia.
Qed.

Lemma place_size (n : Z) (t t' : seq_table) (data : list ascii) :
  place_record n t data = Some t' → (table_size t' <= table_size t + length data)%nat.
Proof.
  unfold place_record. pose proof (strip_size data) as Hs. set (rr := strip_rr_data data) in *.
  destruct (_ =? -2); [done|]. set (p := find_seq_num rr).
  assert (∀ num rr', (length rr' <= length rr)%nat →
    (if num <? 0 then None else if n <? num then None
     else match t !! Z.to_nat num with
          | Some None => Some (<[Z.to_nat num := Some (if num =? 0 then rr' else drop 3 rr')]> t)
          | _ => None
          end) = Some t' → (table_size t' <= table_size t + length data)%nat) as Hput.
  { intros num rr' Hl. destruct (num <? 0); [done|]. destruct (n <? num); [done|].
    destruct (t !! Z.to_nat num) as [[x|]|] eqn:Ht; [done| |done]. intros [= <-]. rewrite table_insert by done.
    assert (length (if (num =? 0)%Z then rr' else drop 3 rr') <= length rr')%nat
      by (destruct (num =? 0); [done|rewrite length_drop; lia]). lia. }
  destruct (p <? 0); apply Hput; [done|]. rewrite length_drop. lia.
Qed.

(** ** The records of a message *)

Section records.
Context `{DnsLib}.

Lemma rdata_total_S (msg : ns_msg) (i : Z) (n : nat) :
  rdata_total msg i (S n) = (rdata_size msg i + rdata_total msg (i + 1) n)%nat.
Proof.
  unfold rdata_total. cbn [seq sum_list_with]. rewrite Z.add_0_r, <-fmap_S_seq, sum_shift. f_equal.
  induction (seq 0 n) as [|k l IH]; [done|]. cbn. rewrite IH. f_equal. f_equal. lia.
Qed.

(** The table the loop leaves, with an error or without. *)
Definition table_of (r : Z * seq_table + Z * seq_table) : seq_table :=
  match r with inl (_, t) | inr (_, t) => t end.

Lemma rr_loop_size (n : nat) (msg : ns_msg) (count i num : Z) (t : seq_table) :
  (table_size (table_of (rr_loop n msg count i t num)) <= table_size t + rdata_total msg i n)%nat.
Proof.
  revert i t num. induction n as [|n IH]; intros i t num; cbn [rr_loop]; [apply Nat.le_add_r|].
  rewrite rdata_total_S. unfold rdata_size. destruct (ns_parserr msg i) as [e|rr]; [apply Nat.le_add_r|].
  destruct (negb _); [specialize (IH (i + 1) t num); lia|].
  destruct (place_record count t (ns_rr_rdata rr)) as [t1|] eqn:Hp; [|apply Nat.le_add_r].
  apply place_size in Hp. specialize (IH (i + 1) t1 (num + 1)). lia.
Qed.

Lemma empty_table_size (n : nat) : table_size (replicate n None) = 0%nat.
Proof. unfold table_size. by induction n. Qed.

(** What is joined is in the data of the records. *)
Definition joined_size (t : seq_table) (n : nat) : nat :=
  sum_list_with (λ k, slot_size (default None (t !! k))) (seq 1 n).

Lemma table_records (msg : ns_msg) (count num : Z) (t : seq_table) :
  get_rr_seq_table msg count = (num, t) → (joined_size t (Z.to_nat num) <= rdata_total msg 0 (Z.to_nat count))%nat.
Proof.
  unfold get_rr_seq_table. set (empty := replicate SEQ_TABLE_SIZE None).
  destruct (MAX_RR_RECS <? count).
  { intros [= <- _]. apply Nat.le_0_l. }
  pose proof (rr_loop_size (Z.to_nat count) msg count 0 0 empty) as Hl.
  assert (table_size empty = 0%nat) as He by apply empty_table_size. rewrite He in Hl. clear He.
  assert (∀ k t', (table_size t' <= rdata_total msg 0 (Z.to_nat count))%nat →
    (joined_size t' k <= rdata_total msg 0 (Z.to_nat count))%nat) as Hall.
  { intros k t' Ht. etransitivity; [apply slots_size|exact Ht]. }
  destruct (rr_loop _ _ _ _ _ _) as [[e t1]|[k t1]]; cbn [table_of Nat.add] in Hl; [intros [= <- <-]; by apply Hall|].
  destruct (t1 !! 0%nat) as [[rr|]|] eqn:H0.
  2, 3: destruct (slots_filled _ _); intros [= <- <-]; by apply Hall.
  destruct (Z.ltb_spec 1 k) as [|Hk]; intros [= <- <-]; [by apply Hall|].
  assert (length rr <= table_size t1)%nat as Hrr.
  { destruct t1 as [|o t1]; [done|]. cbn in H0. injection H0 as ->. cbn. lia. }
  assert (Z.to_nat k = 0%nat \/ Z.to_nat k = 1%nat) as [-> | ->] by lia; [apply Nat.le_0_l|].
  unfold joined_size. cbn [seq sum_list_with].
  destruct (decide (1 < length t1)%nat) as [Hlt|Hge].
  - rewrite list_lookup_insert_eq by done. cbn. lia.
  - rewrite lookup_ge_None_2 by (rewrite length_insert; lia). cbn. lia.
Qed.

(** The slots below the last one have been filled. *)
Lemma rr_loop_error (n : nat) (msg : ns_msg) (count i num e : Z) (t t' : seq_table) :
  DnsLaws → rr_loop n msg count i t num = inl (e, t') → e < 0.
Proof.
  intros Hlaws. revert i t num. induction n as [|n IH]; intros i t num; cbn [rr_loop]; [done|].
  destruct (ns_parserr msg i) as [ret|rr] eqn:Hp; [intros [= <- _]; by eapply parserr_negative|].
  destruct (negb _); [apply IH|]. destruct (place_record _ _ _); [apply IH|]. intros [= <- _]. lia.
Qed.

Lemma slots_below (msg : ns_msg) (count num : Z) (t : seq_table) (k : nat) :
  DnsLaws → get_rr_seq_table msg count = (num, t) → 0 <= num → (1 <= k < Z.to_nat num)%nat →
  ∃ rr, t !! k = Some (Some rr).
Proof.
  intros Hlaws. unfold get_rr_seq_table. destruct (MAX_RR_RECS <? count); [intros [= <- _]; lia|].
  destruct (rr_loop _ _ _ _ _ _) as [[e t1]|[n t1]] eqn:Hl.
  { apply rr_loop_error in Hl; [|done]. intros [= <- _]. lia. }
  assert ((if slots_filled t1 (Z.to_nat n) then (n, t1) else (-1, t1)) = (num, t) → 0 <= num →
    (1 <= k < Z.to_nat num)%nat → ∃ rr, t !! k = Some (Some rr)) as Hfilled.
  { destruct (slots_filled t1 (Z.to_nat n)) eqn:Hf; intros [= <- <-] Hn Hk; [|lia].
    unfold slots_filled in Hf. rewrite forallb_forall in Hf. specialize (Hf k).
    destruct (t1 !! k) as [[rr|]|]; [by exists rr|..]; by discriminate Hf; apply in_seq; lia. }
  destruct (t1 !! 0%nat) as [[rr|]|]; try exact Hfilled.
  destruct (Z.ltb_spec 1 n); intros [= <- _]; lia.
Qed.

(** Joining slots: the text stays in the buffer, or a slot is empty. *)
Lemma join_size (n i : nat) (t : seq_table) (jwt : cstring) :
  (length jwt + sum_list_with (λ k, slot_size (default None (t !! k))) (seq i n) < NS_MAXBUF)%nat →
  match join_records n i t jwt with
  | Done s => (length s < NS_MAXBUF)%nat
  | Undef => ∃ k, (i <= k < i + n)%nat /\ ∀ rr, t !! k ≠ Some (Some rr)
  | NoFuel => False
  end.
Proof.
  revert i jwt. induction n as [|n IH]; intros i jwt; cbn [join_records seq sum_list_with]; [lia|]. intros Hl.
  destruct (t !! i) as [[rr|]|] eqn:Hi; [|exists i; split; [lia|congruence]..].
  cbn [default from_option id slot_size] in Hl. unfold strncat.
  assert (length (cstr rr) <= length rr)%nat as Hc by apply before_length.
  rewrite (proj2 (Nat.ltb_lt _ _)) by (rewrite length_app; lia). cbn.
  specialize (IH (S i) (jwt ++ cstr rr)%list). rewrite length_app in IH.
  destruct (join_records _ _ _ _); [apply IH; lia| |apply IH; lia].
  destruct IH as (k & Hk & Hno); [lia|]. exists k. split; [lia|done].
Qed.
End records.

(** ** Ports and names *)

Lemma print_dec_aux_size (k fuel : nat) (n : Z) (acc : cstring) :
  0 <= n < 10 ^ Z.of_nat (S k) → (length (print_dec_aux fuel n acc) <= length acc + S k)%nat.
Proof.
  revert fuel n acc. induction k as [|k IH]; intros [|fuel] n acc Hn; cbn [print_dec_aux]; [lia| |lia|].
  - rewrite (proj2 (Z.ltb_lt n 10)) by (change (10 ^ Z.of_nat 1) with 10 in Hn; lia). simpl. lia.
  - destruct (Z.ltb_spec n 10); [simpl; lia|].
    specialize (IH fuel (n / 10) (digit_char (n mod 10) :: acc)). simpl in IH |- *.
    assert (0 <= n / 10 < 10 ^ Z.of_nat (S k)) as Hd; [|specialize (IH Hd); simpl in *; lia].
    split; [apply Z.div_pos; lia|]. apply Z.div_lt_upper_bound; [lia|].
    rewrite <-Z.pow_succ_r by lia. rewrite Nat2Z.inj_succ in Hn. lia.
Qed.

Lemma port_in_range (port : Z) : 0 < port <= 65535 → port_fits port.
Proof.
  intros Hp. unfold port_fits, print_dec.
  assert (0 <= port < 10 ^ Z.of_nat 5) as Hr by (change (10 ^ Z.of_nat 5) with 100000; lia).
  pose proof (print_dec_aux_size 4 (S (Z.to_nat (Z.log2 port))) port [] Hr) as Hl.
  eapply Nat.le_lt_trans; [exact Hl|simpl; lia].
Qed.

Lemma url_port (full_url : cstring) (rv : Z) (addr : option cstring) (p : option Z) :
  url_spec full_url = (rv, addr, p) → 0 <= rv → ∃ port, p = Some port /\ 0 < port <= 65535.
Proof.
  unfold url_spec. destruct (split_url full_url) as [[[http host] port]|]; [|by intros [= <- _ _] Hn].
  set (q := parse_num_arg _).
  assert (0 <= q) by (unfold q; rewrite parse_num_arg_value; case_match; apply u32_range).
  destruct (Z.eqb_spec q UINT_ERR), (Z.eqb_spec q 0), (Z.ltb_spec 65535 q); simpl; intros [= <- <- <-] Hn; try lia.
  exists q. split; [done|lia].
Qed.

(** ** Properties *)

(** C20. With a configuration whose strings lie in their arrays, as the command line leaves it,
    the port of a server that was named by any URL fits the array it is printed into and
    the name of the DNS record the one it is put together in, which one more character in
    either part would overrun. The device id does not: its block of 64 bytes is overrun
    exactly when the MAC has 60 characters or more, for which [hw_mac] has room. *)
Theorem fixed_arrays_hold `{CjsonLib} `{NopollLib} `{Credentials} (mem : list event → cstring → url_memory) (w : World)
    (Hcfg : cfg_wf (parodusCfg w)) (Hmem : ∀ h full_url, url_memory_ok full_url (mem h full_url)) :
  (∀ full_url server rv server' w', cstring_ok full_url →
     parse_server_url mem full_url server w = Done ((rv, server'), w') → 0 <= rv → port_fits (port server')) /\
  (∃ buf, get_dns_txt_record_id w = Done (buf, w) /\ (length buf < TXT_REC_ID_MAXSIZE)%nat) /\
  (getDeviceId w = Undef ↔ (60 <= length (hw_mac (parodusCfg w)))%nat).
Proof.
  assert (length (hw_mac (parodusCfg w)) < 64 /\ length (dns_txt_url (parodusCfg w)) < 64)%nat as [Hmac Hurl].
  { destruct Hcfg as [Ha _]. unfold cfg_arrays in Ha. repeat (apply Forall_cons in Ha as [[? ?] Ha]). cbn in *. by split. }
  split; [|split].
  - intros full_url server rv server' w' Hok. unfold parse_server_url. run_m.
    rewrite parse_webpa_url_spec by done. destruct (url_spec full_url) as [[rv' addr] p] eqn:Hs.
    intros [= <- <- _] Hrv. destruct (url_port _ _ _ _ Hs Hrv) as (q & -> & Hq). cbn [port]. by apply port_in_range.
  - unfold get_dns_txt_record_id, TXT_REC_ID_MAXSIZE. run_m.
    assert (length (hw_mac (parodusCfg w) ++ "." ++ dns_txt_url (parodusCfg w))%cs%list < 128)%nat as Hl
      by (rewrite !length_app; simpl; lia).
    eexists. rewrite (proj2 (Nat.ltb_lt _ _) Hl). by split.
  - unfold getDeviceId. run_m. destruct (hw_mac (parodusCfg w)) as [|c mac]; [simpl; split; [done|lia]|].
    destruct (Nat.ltb_spec 64 (length (c :: mac) + 5)) as [Hlt|Hge]; simpl in *.
    + split; [lia|done].
    + split; [done|lia].
Qed.

(** C19. The token that is joined from a DNS answer stays in its buffer: as long as the data of
    the records lie in the message, which [nquery] accepts only when it is shorter than the
    buffer, the text is shorter than the buffer too, and all that can go wrong is that the
    record with the last number is missing. *)
Theorem token_buffer_holds `{DnsLaws} (env : oracle) (dns_txt_record_id : cstring) (w : World) :
  match query_dns env dns_txt_record_id w with
  | Done ((_, jwt_ans), _) => (length jwt_ans < NS_MAXBUF)%nat
  | Undef => ∃ nsbuf l msg, ns_initparse nsbuf l = inr msg /\ last_record_missing msg
  | NoFuel => False
  end.
Proof.
  assert (0 < NS_MAXBUF)%nat as Hpos by (unfold NS_MAXBUF; lia).
  unfold query_dns. destruct (nquery env dns_txt_record_id w) as [[[l nsbuf] w1]| |] eqn:Hq.
  2, 3: unfold nquery in Hq; revert Hq; run_m; destruct (_ <? 0); [done|];
        destruct (env _ _) as [len b]; destruct (_ <? 0); [done|]; by destruct (_ <=? len).
  rewrite (bind_Done _ _ _ _ _ Hq). destruct (Z.ltb_spec l 0) as [|Hl]; [exact Hpos|].
  assert (Z.to_nat l < NS_MAXBUF)%nat as Hsize.
  { unfold nquery in Hq. revert Hq. run_m. destruct (_ <? 0); [intros [= <- _ _]; lia|].
    destruct (env _ _) as [len b]. destruct (Z.ltb_spec len 0); [intros [= <- _ _]; lia|].
    destruct (Z.leb_spec (Z.of_nat NS_MAXBUF) len); intros [= <- _ _]; lia. }
  destruct (ns_initparse nsbuf l) as [e|msg] eqn:Hp; [exact Hpos|].
  pose proof (records_inside _ _ _ Hl Hp) as Htotal. unfold lift, assemble_jwt_from_dns.
  destruct (get_rr_seq_table msg (ns_msg_count msg)) as [num t] eqn:Ht. pose proof (table_records _ _ _ _ Ht) as Hj.
  destruct (Z.ltb_spec num 0) as [|Hnum]; [exact Hpos|].
  pose proof (join_size (Z.to_nat num) 1 t []) as Hjoin. unfold joined_size in Hj.
  destruct (join_records (Z.to_nat num) 1 t []) as [s| |] eqn:Hr; cbn.
  - apply Hjoin. simpl length. lia.
  - exists nsbuf, l, msg. split; [done|]. unfold last_record_missing. rewrite Ht.
    destruct Hjoin as (k & Hk & Hno); [simpl length; lia|].
    destruct (decide (k < Z.to_nat num)%nat) as [Hlt|Hge].
    + destruct (slots_below _ _ _ _ k _ Ht Hnum) as [rr Hrr]; [lia|]. by destruct (Hno rr).
    + by assert (Z.to_nat num = k) as -> by lia.
  - apply Hjoin. simpl length. lia.
Qed.

(** ** Witnesses *)

(** A MAC of 59 characters and a domain of 63. *)
Definition full_world : World :=
  (world_init (λ _, None)) <| parodusCfg := cfg_zero <| hw_mac := repeat "a"%char 59 |> <| dns_txt_url := repeat "b"%char 63 |> |>.

Example fixed_arrays_hold_witness :
  cfg_wf (parodusCfg full_world) /\
  (∃ buf, get_dns_txt_record_id full_world = Done (buf, full_world) /\ (length buf < TXT_REC_ID_MAXSIZE)%nat) /\
  getDeviceId full_world ≠ Undef.
Proof.
  assert (cfg_wf (parodusCfg full_world)) as Hw by by_eval. split; [exact Hw|].
  destruct (@fixed_arrays_hold cjson_example nopoll_b64 no_credentials
    (λ _ url, url_memory_filled (length url) "x"%char) full_world Hw) as (_ & H1 & H2).
  - intros h url. unfold url_memory_ok, url_memory_filled. cbn. split; [done|]. by rewrite ?length_replicate, ?repeat_length.
  - split; [exact H1|]. rewrite H2. change (length (hw_mac (parodusCfg full_world))) with 59%nat. lia.
Defined.

(** The records of [dns_example] in a message that is long enough for them. *)
Definition dns_sized (rrs : list ns_rr) : DnsLib := {|
  ns_msg := list ns_rr;
  ns_t_txt := 16;
  ns_initparse := λ _ l, if Z.of_nat (sum_list_with (λ rr, length (ns_rr_rdata rr)) rrs) <=? l then inr rrs else inl (-1);
  ns_msg_count := λ m, Z.of_nat (length m);
  ns_parserr := λ m i, match m !! Z.to_nat i with Some rr => inr rr | None => inl (-1) end
|}.

Lemma sizes_in_order (rrs pre : list ns_rr) :
  (sum_list_with (λ j, match match (pre ++ rrs)%list !! Z.to_nat (0 + Z.of_nat j) with
       Some rr => inr rr | None => inl (-1)%Z end with inl _ => 0 | inr rr => length (ns_rr_rdata rr) end)
     (seq (length pre) (length rrs)) <= sum_list_with (λ rr, length (ns_rr_rdata rr)) rrs)%nat.
Proof.
  revert pre. induction rrs as [|rr rrs IH]; intros pre; [done|]. cbn [seq length sum_list_with].
  rewrite Z.add_0_l, Nat2Z.id, list_lookup_middle by done. apply Nat.add_le_mono_l.
  specialize (IH (pre ++ [rr])%list). rewrite length_app, <-app_assoc in IH. cbn [length app] in IH.
  rewrite Nat.add_1_r in IH. exact IH.
Qed.

Lemma dns_sized_laws (rrs : list ns_rr) : @DnsLaws (dns_sized rrs).
Proof.
  split.
  - intros nsbuf l msg Hl. cbn. destruct (Z.leb_spec (Z.of_nat (sum_list_with (λ rr, length (ns_rr_rdata rr)) rrs)) l) as [Hs|]; [|done].
    intros [= <-]. rewrite Nat2Z.id.
    apply (Nat.le_trans _ (sum_list_with (λ rr, length (ns_rr_rdata rr)) rrs)); [|lia]. clear Hs. unfold rdata_total, rdata_size. cbn.
    exact (sizes_in_order rrs []).
  - intros msg i ret. cbn. destruct (_ !! _); [done|]. intros [= <-]. lia.
Qed.

Definition env_answers : oracle := λ h c,
  match c as c return ans c with
  | res_nquery _ => (100, [])
  | c => env_ok h c
  end.

Example token_buffer_holds_witness :
  ∃ w', @query_dns (dns_sized token_rrs) env_answers "14cfe2142xxx.test.mydns.net" token_world =
      Done ((0, "eyJhbGciOiXVCJ9.eyJl"%cs), w') /\ (length "eyJhbGciOiXVCJ9.eyJl"%cs < NS_MAXBUF)%nat.
Proof.
  pose proof (@token_buffer_holds (dns_sized token_rrs) (dns_sized_laws token_rrs) env_answers
    "14cfe2142xxx.test.mydns.net" token_world) as Hb.
  destruct (@query_dns (dns_sized token_rrs) env_answers "14cfe2142xxx.test.mydns.net" token_world)
    as [[[ret jwt] w']| |] eqn:Hr; [|vm_compute in Hr; discriminate Hr..].
  assert (ret = 0 /\ jwt = "eyJhbGciOiXVCJ9.eyJl"%cs) as [-> ->].
  { pose proof (f_equal (λ o, match o with Done (r, _) => Some r | _ => None end) Hr) as E.
    vm_compute in E. injection E as <- <-. by split. }
  exists w'. split; [reflexivity|exact Hb].
Defined.
