(* ===== verification/Memory.v ===== *)
(** * Blocks of memory beside the world

    A function that allocates and frees is its computation in the world with the allocations, the
    uses and the frees in between. A block is named after the pointer that holds it first and
    allocated once in a run. What is used or freed without being allocated is undefined, so
    that a computation that does the same with and without its memory uses only what is there. *)

From S2P Require Import Prelude Timers Config Wrp World.

Record hmem (B : Type) : Type := mk_h {
  world : World;
  live : list B;              (* allocated *)
  inside : list (B * B)       (* a tree and a value that was added to it *)
}.
Arguments mk_h {B} world live inside.
Arguments world {B} h.
Arguments live {B} h.
Arguments inside {B} h.
#[export] Instance hmem_settable B : Settable (hmem B) := λ s, mk_h (world s) (live s) (inside s).

Section memory.
Context {B : Type} `{!EqDecision B}.
#[local] Abbreviation hmem := (hmem B).
#[local] Abbreviation block := B.

(** ** Operations *)

(** A part that neither allocates nor frees. *)
Definition in_world {A} (m : M World A) : M hmem A := λ s,
  match m (world s) with
  | Done (a, w) => Done (a, s <| world := w |>)
  | Undef => Undef
  | NoFuel => NoFuel
  end.

(** Something that is not allocated is used: undefined. *)
Definition use (b : block) : M hmem unit := λ s,
  if bool_decide (b ∈ live s) then Done (tt, s) else Undef.
Definition alloc (b : block) : M hmem unit := modify (λ s, s <| live := b :: live s |>).
Definition drop_block (b : block) : M hmem unit :=
  modify (λ s, s <| live := filter (λ x, x ≠ b) (live s) |>).
Definition free (b : block) : M hmem unit := use b;; drop_block b.

(** The memory side of [cJSON_AddItemToObject]. *)
Definition add_to (tree b : block) : M hmem unit :=
  use tree;; use b;; modify (λ s, s <| inside := (tree, b) :: inside s |>).

Fixpoint for_each {A} (f : A → M hmem unit) (l : list A) : M hmem unit :=
  match l with [] => mret tt | a :: l => f a;; for_each f l end.

Definition added_to (b : block) (s : hmem) : list block :=
  map snd (filter (λ p, fst p = b) (inside s)).

(** [cJSON_Delete] frees a value and all that has been added to it. *)
Fixpoint delete_tree (depth : nat) (b : block) : M hmem unit :=
  match depth with
  | O => nofuel
  | S depth => use b;; l ← gets (added_to b); for_each (delete_tree depth) l;; drop_block b
  end.

Lemma use_run (b : block) (s : hmem) : b ∈ live s → use b s = Done (tt, s).
Proof. intros Hb. unfold use. by rewrite bool_decide_true. Qed.

Lemma filter_fresh (b : block) (l : list block) : b ∉ l → filter (λ x, x ≠ b) l = l.
Proof.
  induction l as [|x l IH]; [done|]. rewrite not_elem_of_cons. intros [Hx Hl].
  rewrite filter_cons_True by done. by rewrite IH.
Qed.

Lemma free_at (b : block) (w : World) (l1 l2 : list block) (i : list (block * block)) :
  b ∉ l1 → b ∉ l2 → free b (mk_h w (l1 ++ b :: l2) i) = Done (tt, mk_h w (l1 ++ l2) i).
Proof.
  intros H1 H2. unfold free, mbind, M_bind. rewrite use_run by (cbn; set_solver).
  change (Done (tt, mk_h w (filter (λ x, x ≠ b) (l1 ++ b :: l2)) i) = Done (tt, mk_h w (l1 ++ l2) i)).
  rewrite filter_app, filter_cons_False by (intros Hn; by apply Hn). by rewrite !filter_fresh.
Qed.

Lemma free_last (b : block) (w : World) (l : list block) (i : list (block * block)) :
  b ∉ l → free b (mk_h w (b :: l) i) = Done (tt, mk_h w l i).
Proof. apply (free_at b w []). apply not_elem_of_nil. Qed.

(** ** Beside the world *)

(** [m] does what [m0] does in the world, and ends as [P] says. *)
Definition beside {A} (P : A → hmem → Prop) (m : M hmem A) (m0 : M World A) (s : hmem) : Prop :=
  match m s with
  | Done (a, s') => m0 (world s) = Done (a, world s') /\ P a s'
  | Undef => m0 (world s) = Undef
  | NoFuel => m0 (world s) = NoFuel
  end.

Lemma beside_ret {A} (P : A → hmem → Prop) (a : A) (s : hmem) : P a s → beside P (mret a) (mret a) s.
Proof. done. Qed.

(** What only concerns the memory is run, what only concerns the world is done by both. *)
Lemma beside_memory {A C} (P : C → hmem → Prop) (m : M hmem A) (f : A → M hmem C) (m0 : M World C)
    (s s' : hmem) (a : A) :
  m s = Done (a, s') → world s' = world s → beside P (f a) m0 s' → beside P (x ← m; f x) m0 s.
Proof. unfold beside, mbind, M_bind. intros -> Hw Hf. by rewrite Hw in Hf. Qed.

Lemma beside_lift {A C} (P : C → hmem → Prop) (o : outcome A) (f : A → M hmem C) (f0 : A → M World C) (s : hmem) :
  (∀ a, o = Done a → beside P (f a) (f0 a) s) → beside P (x ← lift o; f x) (x ← lift o; f0 x) s.
Proof. unfold beside, mbind, M_bind, lift. intros Hf. destruct o; [by apply Hf|done|done]. Qed.

Lemma beside_world {A C} (P : C → hmem → Prop) (m : M World A) (f : A → M hmem C) (f0 : A → M World C)
    (w : World) (l : list block) (i : list (block * block)) :
  (∀ a w', m w = Done (a, w') → beside P (f a) (f0 a) (mk_h w' l i)) →
  beside P (x ← in_world m; f x) (x ← m; f0 x) (mk_h w l i).
Proof.
  unfold beside, mbind, M_bind, in_world. cbn. intros Hf. destruct (m w) as [[a w']| |]; [|done|done].
  by apply Hf.
Qed.

Lemma beside_bind {A C} (P : C → hmem → Prop) (Q : A → hmem → Prop) (m : M hmem A) (m0 : M World A)
    (f : A → M hmem C) (f0 : A → M World C) (s : hmem) :
  beside Q m m0 s → (∀ a s', Q a s' → beside P (f a) (f0 a) s') → beside P (x ← m; f x) (x ← m0; f0 x) s.
Proof.
  unfold beside, mbind, M_bind. intros Hm Hf. destruct (m s) as [[a s']| |].
  - destruct Hm as [-> HQ]. by apply Hf.
  - by rewrite Hm.
  - by rewrite Hm.
Qed.

Lemma beside_mono {A} (P Q : A → hmem → Prop) (m : M hmem A) (m0 : M World A) (s : hmem) :
  beside P m m0 s → (∀ a s', P a s' → Q a s') → beside Q m m0 s.
Proof. unfold beside. destruct (m s) as [[a s']| |]; [intros [? ?]; auto|done|done]. Qed.

Lemma beside_assoc {A C D} (P : D → hmem → Prop) (m : M hmem A) (g : A → M hmem C) (f : C → M hmem D)
    (m0 : M World D) (s : hmem) :
  beside P (x ← m; y ← g x; f y) m0 s → beside P (y ← (x ← m; g x); f y) m0 s.
Proof. unfold beside, mbind, M_bind. by destruct (m s) as [[a s']| |]. Qed.

Lemma beside_end {A} (P : A → hmem → Prop) (m : M World A) (w : World) (l : list block) (i : list (block * block)) :
  (∀ a w', m w = Done (a, w') → P a (mk_h w' l i)) → beside P (in_world m) m (mk_h w l i).
Proof. unfold beside, in_world. cbn. intros HP. destruct (m w) as [[a w']| |]; [|done|done]. split; [done|by apply HP]. Qed.

Lemma beside_assoc_r {A C D} (P : D → hmem → Prop) (m : M World A) (g : A → M World C) (f : C → M World D)
    (m1 : M hmem D) (s : hmem) :
  beside P m1 (x ← m; y ← g x; f y) s → beside P m1 (y ← (x ← m; g x); f y) s.
Proof.
  unfold beside, mbind, M_bind. destruct (m1 s) as [[a s']| |]; by destruct (m (world s)) as [[b w]| |].
Qed.

(** The last step in the world has memory work behind it. *)
Lemma beside_world_last {A} (P : A → hmem → Prop) (m : M World A) (f : A → M hmem A)
    (w : World) (l : list block) (i : list (block * block)) :
  (∀ a w', m w = Done (a, w') → beside P (f a) (mret a) (mk_h w' l i)) →
  beside P (x ← in_world m; f x) m (mk_h w l i).
Proof.
  unfold beside, mbind, M_bind, in_world. cbn. intros Hf. destruct (m w) as [[a w']| |]; [|done|done].
  exact (Hf a w' eq_refl).
Qed.

Lemma beside_then {A} (P Q : A → hmem → Prop) (m : M hmem A) (m0 : M World A) (f : A → M hmem A) (s : hmem) :
  beside Q m m0 s → (∀ a s', Q a s' → beside P (f a) (mret a) s') → beside P (x ← m; f x) m0 s.
Proof.
  unfold beside, mbind, M_bind. intros Hm Hf. destruct (m s) as [[a s']| |]; [|by rewrite Hm..].
  destruct Hm as [-> HQ]. exact (Hf a s' HQ).
Qed.

(** The memory is as it was. *)
Definition kept {A} (l : list block) (i : list (block * block)) (_ : A) (s : hmem) : Prop := ∃ w, s = mk_h w l i.

Lemma beside_memory_last {A} (P : A → hmem → Prop) (m : M hmem A) (s s' : hmem) (a : A) :
  m s = Done (a, s') → world s' = world s → P a s' → beside P m (mret a) s.
Proof. unfold beside. intros -> Hw HP. split; [by rewrite Hw|done]. Qed.

Lemma beside_undef {A C} (P : C → hmem → Prop) (f : A → M hmem C) (f0 : A → M World C) (s : hmem) :
  beside P (x ← undef; f x) (x ← undef; f0 x) s.
Proof. done. Qed.
End memory.

Lemma deref_same {A} (p : option A) (a : A) (w w' : World) : deref p w = Done (a, w') → w' = w.
Proof. destruct p; [by intros [= _ <-]|done]. Qed.

(** A concrete piece of memory work. *)
Ltac memory := eapply beside_memory; [cbv; reflexivity|reflexivity|].

(** One step of both; what reads or sets variables of the world is run. *)
Ltac both :=
  match goal with
  | |- beside _ (mret _) _ _ => apply beside_ret
  | |- beside _ (in_world _) _ _ => apply beside_end; intros ? ? ?
  | |- beside _ (mbind _ (lift _)) _ _ => apply beside_lift; intros ? ?
  | |- beside _ _ (mbind _ (mbind _ _)) _ => apply beside_assoc_r
  | |- beside _ _ (mbind ?f (mret ?a)) _ => change (mbind f (mret a)) with (f a); cbv beta iota
  | |- beside _ (mbind ?f (mret ?a)) _ _ => change (mbind f (mret a)) with (f a); cbv beta iota
  | |- beside _ (mbind _ undef) _ _ => apply beside_undef
  | |- beside _ (mbind _ (mbind _ _)) _ _ => apply beside_assoc
  | |- beside _ (mbind _ (in_world _)) _ _ =>
      apply beside_world; let H := fresh "Hw" in intros ? ? H; try (cbv [gets modify] in H; injection H as <- <-)
  end.
