(* ===== verification/CrudMemory.v ===== *)
(** * The memory of the CRUD handlers

    The text read from the configuration file, the JSON trees, the elements of the destination
    and the payload of the response are malloc'ed by the handlers of crud_internal.c and freed on
    each of their many ways out. The handlers are the ones of Crud.v, with every allocation, use
    and free that the code has in between; they are shown to be those when the memory is left
    out, and what they leave behind is told for each result. Blocks that are held by a global
    pointer when a handler begins count from the moment the pointer is overwritten. *)

From S2P Require Import Prelude StringHelpers Timers Config Wrp World ClientList Nopoll Upstream Cjson Crud Memory.
Local Open Scope cs_scope.
Local Open Scope Z_scope.

(** ** The memory

    A block is named after the pointer that holds it first; a handler allocates each of them
    once. A value that is created inside a tree and reached only through it (testObj, childObj,
    tmpObj and their members) is part of that tree. *)

Inductive block : Set :=
| b_jsonData | b_json
| b_tags                 (* tagObj, in the tree of the file or a new one *)
| b_jsonPayload | b_res_obj | b_payloadObj
| b_obj                  (* the strings in [obj] *)
| b_inMemResponse | b_jsonresponse
| b_out
| b_resPayload           (* resPayload, inmem_str, str1: the payload of the response *)
| b_cloud_disconnect     (* of the configuration *)
| b_reason
| b_old_disconnect       (* what the pointers to the two held before *)
| b_old_reason.
#[export] Instance block_eq_dec : EqDecision block.
Proof. solve_decision. Defined.

#[local] Abbreviation mem := (hmem block).

(** Only "tags" is ever added to a tree, and nothing to it that has a name here. *)
Definition cJSON_Delete (b : block) : M mem unit := delete_tree 2 b.

(** [json] is NULL when the file could not be read or parsed. *)
Definition delete_json (json : option json) : M mem unit :=
  match json with Some _ => cJSON_Delete b_json | None => mret tt end.

Definition failed (status : Z) (response : wrp_crud) : M mem (Z * wrp_crud) := in_world (fail status response).

(** The last pointer to a block goes to another one: the block is there for good. *)
Definition orphan (b : block) : M mem unit := alloc b.

Section handlers.
Context `{WrpLib} `{CjsonLib} (env : oracle).
(* whether the reason for the reconnect is the copy an earlier request has left there *)
Context (copied : bool).

(** ** The parts the handlers share *)

Definition readFromJSON_mem : M mem (option cstring) :=
  jsonData ← in_world readFromJSON;
  when (bool_decide (is_Some jsonData)) (alloc b_jsonData);;
  mret jsonData.

(** The text of the file is parsed; a member "tags" of it gets a name. *)
Definition parse_file (jsonData : option cstring) : M mem (option json) :=
  when (bool_decide (is_Some jsonData)) (use b_jsonData);;
  match cJSON_Parse jsonData with
  | None => mret None
  | Some j =>
      alloc b_json;;
      when (bool_decide (is_Some (cJSON_GetObjectItem (Some j) "tags"))) (alloc b_tags;; add_to b_json b_tags);;
      mret (Some j)
  end.

Definition load_json_mem : M mem (option (option json)) :=
  jsonData ← readFromJSON_mem;
  match jsonData with
  | None => json ← parse_file None; mret (Some json)
  | Some text =>
      if is_empty text then
        json ← parse_file (Some text);
        free b_jsonData;;
        mret (Some json)
      else
        json ← parse_file (Some text);
        match json with
        | None => free b_jsonData;; mret None
        | Some j => free b_jsonData;; mret (Some (Some j))
        end
  end.

(** StringMemory.v has the strings one by one. *)
Definition parse_dest (reqMsg : wrp_msg_t) : M mem (option (nat * obj_array)) :=
  parsed ← lift (parse_dest_elements_to_string reqMsg);
  when (bool_decide (is_Some parsed)) (alloc b_obj);;
  mret parsed.

Definition writeToJSON_mem (data : cstring) : M mem Z := use b_out;; in_world (writeToJSON env data).

(** With [freeFlag] the tree goes with all that has been added to it, without it alone. *)
Definition writeIntoCrudJson_mem (res_obj : json) (object : cstring) (objValue : json)
    (tail : list (cstring * json)) (freeFlag : bool) : M mem Z :=
  add_to b_res_obj b_tags;;
  alloc b_out;;
  write_status ← in_world (writeIntoCrudJson env res_obj object objValue tail);
  free b_out;;
  (if freeFlag then cJSON_Delete b_res_obj else free b_res_obj);;
  mret write_status.

(** The ways out behind a payload that has been parsed. *)
Definition refuse (status : Z) (json : option json) (response : wrp_crud) : M mem (Z * wrp_crud) :=
  cJSON_Delete b_jsonPayload;; delete_json json;; free b_obj;; failed status response.

Definition check_payload_mem (json : option json) (payload : option bytes) : M mem (option (list item)) :=
  match payload with
  | None => free b_obj;; delete_json json;; mret None
  | Some p =>
      match cJSON_Parse (Some (cstr p)) with
      | None => free b_obj;; delete_json json;; mret None
      | Some jsonPayload =>
          alloc b_jsonPayload;;
          use b_jsonPayload;;
          let items := cJSON_items jsonPayload in
          if (length items =? 0)%nat then free b_obj;; cJSON_Delete b_jsonPayload;; delete_json json;; mret None
          else if negb (find_expires items) then
            cJSON_Delete b_jsonPayload;; delete_json json;; free b_obj;; mret None
          else if negb (check_strings items) then
            cJSON_Delete b_jsonPayload;; delete_json json;; free b_obj;; mret None
          else mret (Some items)
      end
  end.

(** The end of [createObject] and [updateObject]. *)
Definition finish_mem (write_status : Z) (json : option json) (response : wrp_crud) : M mem (Z * wrp_crud) :=
  cJSON_Delete b_jsonPayload;; delete_json json;; free b_obj;; in_world (finish_write write_status response).

Definition tail_of (json : option json) (i : nat) : list (cstring * Cjson.json) :=
  match json with Some j => cJSON_linked_tail (later_members j i) | None => [] end.

(** ** Create *)

Definition create_tag_mem (json : option json) (name : cstring) (items : list item)
    (response : wrp_crud) : M mem (Z * wrp_crud) :=
  match cJSON_GetObjectItem json "tags" with
  | Some (i, (_, tagObj)) =>
      use b_tags;;
      match cJSON_GetObjectItem (Some tagObj) name with
      | Some _ =>
          found ← lift (find_exact (cJSON_items tagObj) name);
          match found with
          | Some _ => refuse 409 json response
          | None => finish_mem 0 json response
          end
      | None =>
          alloc b_res_obj;;
          match copy_items items cJSON_CreateObject with
          | None => cJSON_Delete b_res_obj;; refuse 400 json response
          | Some testObj =>
              let tagObj' := cJSON_AddItemToObject tagObj (Some name) (Some testObj) in
              let payloadObj := cJSON_AddItemToObject cJSON_CreateObject (Some name)
                                  (Some (copy_any items cJSON_CreateObject)) in
              alloc b_payloadObj;;
              use b_jsonPayload;;
              alloc b_resPayload;;
              cJSON_Delete b_payloadObj;;
              create_status ← writeIntoCrudJson_mem cJSON_CreateObject "tags" tagObj' (tail_of json i) false;
              finish_mem create_status json ((set_payload payloadObj response) <| crud_status := 201 |>)
          end
      end
  | None =>
      alloc b_res_obj;;
      alloc b_tags;;
      use b_jsonPayload;;
      match copy_items items cJSON_CreateObject with
      | None => cJSON_Delete b_res_obj;; cJSON_Delete b_tags;; refuse 400 json response
      | Some testObj =>
          let tagObj := cJSON_AddItemToObject cJSON_CreateObject (Some name) (Some testObj) in
          alloc b_resPayload;;
          create_status ← writeIntoCrudJson_mem cJSON_CreateObject "tags" tagObj [] true;
          finish_mem create_status json ((set_payload tagObj response) <| crud_status := 201 |>)
      end
  end.

Definition createObject_mem (reqMsg : wrp_msg_t) (response : wrp_crud) : M mem (Z * wrp_crud) :=
  loaded ← load_json_mem;
  match loaded with
  | None => failed 500 response
  | Some json =>
      match crud_dest (crud_view reqMsg) with
      | None => delete_json json;; failed 400 response
      | Some _ =>
          parsed ← parse_dest reqMsg;
          match parsed with
          | None => delete_json json;; failed 400 response
          | Some (objlevel, obj) =>
              valid ← lift (valid_tag_dest objlevel obj);
              if (valid : bool) then
                checked ← check_payload_mem json (crud_payload (crud_view reqMsg));
                match checked with
                | None => failed 400 response
                | Some items =>
                    use b_obj;;
                    name ← lift (obj_str obj objlevel);
                    create_tag_mem json name items response
                end
              else free b_obj;; delete_json json;; failed 400 response
          end
      end
  end.

(** ** Retrieve *)

Definition retrieve_failed (response : wrp_crud) : M mem (Z * wrp_crud) :=
  cJSON_Delete b_jsonresponse;; cJSON_Delete b_json;; free b_obj;; failed 400 response.

(** [j] is printed. *)
Definition retrieved (j : json) (response : wrp_crud) : M mem (Z * wrp_crud) :=
  use b_jsonresponse;;
  alloc b_resPayload;;
  cJSON_Delete b_jsonresponse;;
  cJSON_Delete b_json;;
  free b_obj;;
  mret (0, (set_payload j response) <| crud_status := 200 |>).

Definition retrieve_external_mem (objlevel : nat) (obj : obj_array) (response : wrp_crud)
    : M mem (Z * wrp_crud) :=
  jsonData ← readFromJSON_mem;
  match jsonData with
  | None => free b_obj;; failed 500 response
  | Some text =>
      if is_empty text then free b_obj;; failed 500 response
      else
        json ← parse_file (Some text);
        free b_jsonData;;
        match json with
        | None => free b_obj;; failed 500 response
        | Some json =>
            alloc b_jsonresponse;;
            match cJSON_GetObjectItem (Some json) "tags" with
            | None => retrieve_failed response
            | Some (_, (key, paramArray)) =>
                use b_tags;;
                let items := cJSON_items paramArray in
                if (length items =? 0)%nat then retrieve_failed response
                else
                  use b_obj;;
                  tags_name ← lift (deref_o key);
                  name ← lift (obj_str obj objlevel);
                  if streq tags_name name then
                    let jsonresponse := cJSON_AddItemToObject cJSON_CreateObject (Some name)
                                          (Some (copy_tags items cJSON_CreateObject)) in
                    tagObj ← lift (deref_o (cJSON_GetObjectItem (Some jsonresponse) "tags"));
                    retrieved (snd (snd tagObj)) response
                  else
                    tag ← lift (obj_is obj 3 "tag");
                    if (tag : bool) then
                      found ← lift (find_exact items name);
                      match found with
                      | None => retrieve_failed response
                      | Some i =>
                          subitem ← lift (deref_o (items !! i));
                          retrieved (copy_any (cJSON_items (snd subitem)) cJSON_CreateObject) response
                      end
                    else retrieve_failed response
            end
        end
  end.

(** [retrieveFromMemory] and [getClientStatus] begin with [cJSON_CreateObject]. *)
Definition retrieveObject_mem (reqMsg : wrp_msg_t) (response : wrp_crud) : M mem (Z * wrp_crud) :=
  match crud_dest (crud_view reqMsg) with
  | None => failed 400 response
  | Some _ =>
      parsed ← parse_dest reqMsg;
      match parsed with
      | None => failed 400 response
      | Some (objlevel, obj) =>
          use b_obj;;
          mem ← lift (in_memory objlevel obj);
          if (mem : bool) then
            key ← lift (obj_str obj 3);
            alloc b_inMemResponse;;
            inMemResponse ← in_world
              (if strstr key "service-status" then
                 service ← lift (obj_at obj 4); getClientStatus service
               else cfg ← gets parodusCfg; mret (retrieveFromMemory key cfg));
            match inMemResponse with
            | Some j =>
                use b_inMemResponse;;
                alloc b_resPayload;;
                cJSON_Delete b_inMemResponse;;
                free b_obj;;
                mret (0, (set_payload j response) <| crud_status := 200 |>)
            | None => cJSON_Delete b_inMemResponse;; free b_obj;; failed 400 response
            end
          else retrieve_external_mem objlevel obj response
      end
  end.

(** ** Update *)

Definition update_tag_mem (json : option json) (name : cstring) (items : list item)
    (response : wrp_crud) : M mem (Z * wrp_crud) :=
  alloc b_res_obj;;
  match cJSON_GetObjectItem json "tags" with
  | Some (i, (_, tagObj)) =>
      use b_tags;;
      match cJSON_GetObjectItem (Some tagObj) name with
      | Some _ =>
          found ← lift (find_exact (cJSON_items tagObj) name);
          match found with
          | Some j =>
              match copy_items items cJSON_CreateObject with
              | None => cJSON_Delete b_res_obj;; refuse 400 json response
              | Some testObj2 =>
                  let tagObj' := cJSON_AddItemToObject (cJSON_DeleteItemFromArray tagObj j)
                                   (Some name) (Some testObj2) in
                  update_status ← writeIntoCrudJson_mem cJSON_CreateObject "tags" tagObj' (tail_of json i) false;
                  finish_mem update_status json (response <| crud_status := 200 |>)
              end
          | None => finish_mem 0 json response
          end
      | None =>
          match copy_items items cJSON_CreateObject with
          | None => cJSON_Delete b_res_obj;; refuse 400 json response
          | Some testObj1 =>
              let tagObj' := cJSON_AddItemToObject tagObj (Some name) (Some testObj1) in
              update_status ← writeIntoCrudJson_mem cJSON_CreateObject "tags" tagObj' (tail_of json i) false;
              finish_mem update_status json (response <| crud_status := 201 |>)
          end
      end
  | None =>
      alloc b_tags;;
      use b_jsonPayload;;
      match copy_items items cJSON_CreateObject with
      | None => cJSON_Delete b_tags;; cJSON_Delete b_res_obj;; refuse 400 json response
      | Some testObj1 =>
          let tagObj := cJSON_AddItemToObject cJSON_CreateObject (Some name) (Some testObj1) in
          update_status ← writeIntoCrudJson_mem cJSON_CreateObject "tags" tagObj [] true;
          finish_mem update_status json (response <| crud_status := 201 |>)
      end
  end.

(** The reason is a string of the payload; it is copied for the configuration and from there
    for [ConnDisconnectFromCloud]. *)
Definition update_cloud_disconnect_mem (json : option json) (payload : option bytes)
    (response : wrp_crud) : M mem (Z * wrp_crud) :=
  match payload with
  | None => free b_obj;; failed 400 response
  | Some p =>
      match cJSON_Parse (Some (cstr p)) with
      | None => free b_obj;; delete_json json;; failed 400 response
      | Some jsonPayload =>
          alloc b_jsonPayload;;
          match cJSON_GetObjectItem (Some jsonPayload) CLOUD_DISCONNECT_REASON with
          | Some (_, (_, JString disconn_str)) =>
              if is_empty disconn_str then refuse 400 json response
              else if validateDisconnectString (Some disconn_str) then
                use b_jsonPayload;;
                old ← in_world (gets parodusCfg);
                in_world (with_cfg (set_cloud_disconnect_reason disconn_str));;
                when (bool_decide (is_Some (cloud_disconnect old))) (orphan b_old_disconnect);;
                alloc b_cloud_disconnect;;
                cJSON_Delete b_jsonPayload;;
                cfg ← in_world (gets parodusCfg);
                reason ← in_world (deref (cloud_disconnect cfg));
                alloc b_reason;;
                disconnStatus ← in_world (ConnDisconnectFromCloud reason);
                when ((0 <? disconnStatus) && copied) (orphan b_old_reason);;
                free b_obj;;
                delete_json json;;
                if 0 <? disconnStatus then mret (0, response <| crud_status := 200 |>)
                else failed 500 response
              else refuse 400 json response
          | Some _ => refuse 400 json response
          | None => free b_obj;; cJSON_Delete b_jsonPayload;; delete_json json;; failed 400 response
          end
      end
  end.

Definition updateObject_mem (reqMsg : wrp_msg_t) (response : wrp_crud) : M mem (Z * wrp_crud) :=
  loaded ← load_json_mem;
  match loaded with
  | None => failed 500 response
  | Some json =>
      match crud_dest (crud_view reqMsg) with
      | None => delete_json json;; failed 400 response
      | Some _ =>
          parsed ← parse_dest reqMsg;
          match parsed with
          | None => delete_json json;; failed 400 response
          | Some (objlevel, obj) =>
              valid ← lift (valid_tag_dest objlevel obj);
              if (valid : bool) then
                checked ← check_payload_mem json (crud_payload (crud_view reqMsg));
                match checked with
                | None => failed 400 response
                | Some items =>
                    use b_obj;;
                    name ← lift (obj_str obj objlevel);
                    update_tag_mem json name items response
                end
              else
                disconnect ← (if (objlevel =? 3)%nat then lift (obj_is obj 3 "cloud-disconnect")
                              else mret false);
                if (disconnect : bool) then
                  update_cloud_disconnect_mem json (crud_payload (crud_view reqMsg)) response
                else free b_obj;; delete_json json;; failed 400 response
          end
      end
  end.

(** ** Delete *)

Definition delete_failed (response : wrp_crud) : M mem (Z * wrp_crud) :=
  free b_obj;; cJSON_Delete b_json;; failed 400 response.

Definition delete_tag_mem (json : json) (objlevel : nat) (obj : obj_array)
    (response : wrp_crud) : M mem (Z * wrp_crud) :=
  match cJSON_GetObjectItem (Some json) "tags" with
  | None => delete_failed response
  | Some (ti, (key, paramArray)) =>
      use b_tags;;
      let items := cJSON_items paramArray in
      if (length items =? 0)%nat then delete_failed response
      else
        use b_obj;;
        tags_name ← lift (deref_o key);
        name ← lift (obj_str obj objlevel);
        if streq tags_name name then delete_failed response
        else
          found ← lift (find_exact items name);
          match found with
          | None => delete_failed response
          | Some i =>
              let json' := update_child json ti (cJSON_DeleteItemFromArray paramArray i) in
              free b_obj;;
              use b_json;;
              alloc b_out;;
              _ ← writeToJSON_mem (cJSON_PrintUnformatted json');
              cJSON_Delete b_json;;
              free b_out;;
              mret (0, response <| crud_status := 200 |>)
          end
  end.

Definition deleteObject_mem (reqMsg : wrp_msg_t) (response : wrp_crud) : M mem (Z * wrp_crud) :=
  jsonData ← readFromJSON_mem;
  match jsonData with
  | None => failed 500 response
  | Some text =>
      if is_empty text then failed 500 response
      else
        json ← parse_file (Some text);
        free b_jsonData;;
        match json with
        | None => failed 500 response
        | Some json =>
            match crud_dest (crud_view reqMsg) with
            | None => cJSON_Delete b_json;; failed 400 response
            | Some _ =>
                parsed ← parse_dest reqMsg;
                match parsed with
                | None => cJSON_Delete b_json;; failed 400 response
                | Some (objlevel, obj) =>
                    valid ← lift (valid_tag_dest objlevel obj);
                    if (valid : bool) then delete_tag_mem json objlevel obj response
                    else delete_failed response
                end
            end
        end
  end.
End handlers.

Definition handler_mem `{WrpLib} `{CjsonLib} (env : oracle) (copied : bool) (op : crud_op) : wrp_msg_t → wrp_crud → M mem (Z * wrp_crud) :=
  match op with
  | CREATE => createObject_mem env
  | RETREIVE => retrieveObject_mem
  | UPDATE => updateObject_mem env copied
  | DELETE => deleteObject_mem env
  end.

(** ** Specification *)

(** The request as [processCrudRequest] gives it to a handler, with nothing allocated yet. *)
Definition begin (w : World) : mem := mk_h w [] [].

(** Nothing was in the file. *)
Definition file_empty (w : World) : Prop := ∃ t, readFromJSON w = Done (Some t, w) /\ is_empty t = true.

(** What is allocated when a handler has returned. The payload of a response goes to the
    caller, which takes it out of one of status 500 without freeing it; the two copies of a reason
    are where the configuration and the variable of the reconnect point to, the second one only
    if there is no reconnect under way. The rest is lost: the blocks these two pointed to
    before too. *)
Definition left_behind (copied : bool) (op : crud_op) (payload : option bytes) (ret : Z) (r : wrp_crud) (w : World)
    (l : list block) : Prop :=
  match op with
  | CREATE => l = (if ret =? 0 then [b_resPayload] else []) \/ (l = [b_resPayload] /\ crud_status r = 500)
  | RETREIVE =>
      l = (if ret =? 0 then [b_resPayload] else []) \/
      (l = [b_jsonData] /\ crud_status r = 500 /\ file_empty w)
  | UPDATE =>
      l = [] \/
      (let old := match cloud_disconnect (parodusCfg w) with Some _ => [b_old_disconnect] | None => [] end in
       (l = (if copied then [b_old_reason] else []) ++ [b_reason; b_cloud_disconnect] ++ old /\
        ret = 0 /\ crud_status r = 200) \/
       (l = [b_reason; b_cloud_disconnect] ++ old /\ crud_status r = 500)) \/
      (l = [b_res_obj] /\ crud_status r = 500) \/
      ((l = [b_json] \/ l = [b_tags; b_json]) /\ crud_status r = 400 /\ payload = None)
  | DELETE => l = [] \/ (l = [b_jsonData] /\ crud_status r = 500 /\ file_empty w)
  end.

(** ** Lemmas *)

Lemma beside_failed (P : Z * wrp_crud → mem → Prop) (status : Z) (r : wrp_crud) (s : mem) :
  P (-1, r <| crud_status := status |>) s → beside P (failed status r) (fail status r) s.
Proof. destruct s. intros HP. by split. Qed.

Lemma beside_finish (P : Z * wrp_crud → mem → Prop) (write_status : Z) (r : wrp_crud) (s : mem) :
  (write_status = 1 → P (0, r) s) → P (-1, r <| crud_status := 500 |>) s →
  beside P (in_world (finish_write write_status r)) (finish_write write_status r) s.
Proof.
  intros H1 H2. destruct s. unfold beside, in_world, finish_write. cbn.
  destruct (Z.eqb_spec write_status 1); (split; [done|auto]).
Qed.

(** What is allocated of the file. *)
Definition has_tags `{CjsonLib} (json : option json) : bool :=
  bool_decide (is_Some (cJSON_GetObjectItem json "tags")).
Definition file_tree `{CjsonLib} (json : option json) : list block :=
  match json with None => [] | Some _ => if has_tags json then [b_tags; b_json] else [b_json] end.
Definition file_links `{CjsonLib} (json : option json) : list (block * block) :=
  if has_tags json then [(b_json, b_tags)] else [].

Section parts.
Context `{WrpLib} `{CjsonLib} (env : oracle).

Lemma beside_read (w : World) (l : list block) (i : list (block * block)) :
  beside (λ data s, readFromJSON w = Done (data, w) /\ s = mk_h w (match data with Some _ => b_jsonData :: l | None => l end) i)
    readFromJSON_mem readFromJSON (mk_h w l i).
Proof.
  unfold beside, readFromJSON_mem, mbind, M_bind, in_world. cbn.
  destruct (readFromJSON w) as [[[t|] w']| |] eqn:Hr; [| |done|done];
    pose proof (readFromJSON_pure _ _ _ Hr) as ->; cbn; by split.
Qed.

Lemma parse_file_done (data : option cstring) (w : World) (l : list block) (i : list (block * block)) :
  data = None \/ b_jsonData ∈ l →
  let json := cJSON_Parse data in
  parse_file data (mk_h w l i) = Done (json, mk_h w (file_tree json ++ l) (file_links json ++ i)).
Proof.
  intros Hd json. unfold parse_file, mbind, M_bind. 
  assert (when (bool_decide (is_Some data)) (use b_jsonData) (mk_h w l i) = Done (tt, mk_h w l i)) as ->.
  { destruct Hd as [->|Hd]; [done|]. destruct data; [|done]. unfold when, use. cbn. by rewrite bool_decide_true. }
  fold json. destruct json as [j|]; [|done]. cbn [file_tree]. unfold file_links, has_tags.
  destruct (cJSON_GetObjectItem (Some j) "tags"); cbn; [|done].
  unfold add_to, use, mbind, M_bind, modify. cbn.
  rewrite !bool_decide_true by (repeat first [by left|right]). done.
Qed.

(** The text is freed in any case. *)
Lemma beside_free_text {A} (P : A → mem → Prop) (json : option json) (m : M mem A) (m0 : M World A) (w : World) :
  beside P m m0 (mk_h w (file_tree json) (file_links json)) →
  beside P (free b_jsonData;; m) m0 (mk_h w (file_tree json ++ [b_jsonData]) (file_links json ++ [])).
Proof.
  unfold file_tree, file_links. rewrite app_nil_r. intros Hm.
  destruct json as [j|]; [destruct (has_tags (Some j))|change (has_tags None) with false in *];
    (eapply beside_memory; [cbv; reflexivity|done|exact Hm]).
Qed.

Lemma beside_load_json (w : World) :
  beside (λ loaded s, s = (match loaded with
      | Some json => mk_h w (file_tree json) (file_links json)
      | None => begin w
      end)) load_json_mem load_json (begin w).
Proof.
  unfold load_json_mem, load_json. eapply beside_bind; [apply beside_read|]. cbn beta.
  intros [t|] s [_ ->].
  - destruct (is_empty t); (eapply beside_memory; [apply parse_file_done; right; by left|done|]); cbn beta.
    + apply beside_free_text. by apply beside_ret.
    + destruct (cJSON_Parse (Some t)) as [j|]; apply beside_free_text; by apply beside_ret.
  - eapply beside_memory; [apply parse_file_done; by left|done|]. cbn beta.
    apply beside_ret. by rewrite !app_nil_r.
Qed.

Lemma check_payload_done (json : option json) (payload : option bytes) (w : World) :
  check_payload_mem json payload (mk_h w (b_obj :: file_tree json) (file_links json)) =
    Done (match check_payload payload with
          | None => (None, mk_h w [] (file_links json))
          | Some items => (Some items, mk_h w (b_jsonPayload :: b_obj :: file_tree json) (file_links json))
          end).
Proof.
  unfold check_payload_mem, check_payload, file_tree, file_links.
  destruct json as [j|]; [destruct (has_tags (Some j))|change (has_tags None) with false];
    repeat case_match; reflexivity.
Qed.

(** A handler that ends as [left_behind] says. *)
Definition ended (copied : bool) (op : crud_op) (payload : option bytes) (w : World) (a : Z * wrp_crud) (s : mem) : Prop :=
  left_behind copied op payload (fst a) (snd a) w (live s).
End parts.

Ltac step :=
  first
    [ match goal with
      | |- beside _ (failed _ _) _ _ => apply beside_failed
      | |- beside _ (in_world (finish_write _ _)) _ _ => apply beside_finish; [intros ?|]
      end
    | both
    | progress unfold refuse, finish_mem, delete_json, writeIntoCrudJson_mem, writeToJSON_mem,
        retrieve_failed, retrieved, delete_failed
    | memory
    | case_match ].
(** Whether there is an earlier reason. *)
Ltac rewrite_old :=
  match goal with
  | Hold : cloud_disconnect ?c = Some _ |- context [bool_decide (is_Some (cloud_disconnect ?c))] =>
      rewrite (bool_decide_eq_true_2 (is_Some (cloud_disconnect c))) by (by rewrite Hold); cbn [when]
  | Hold : cloud_disconnect ?c = None |- context [bool_decide (is_Some (cloud_disconnect ?c))] =>
      rewrite (bool_decide_eq_false_2 (is_Some (cloud_disconnect c))) by (rewrite Hold; by intros [? [=]]); cbn [when]
  | |- beside _ (mbind _ (when ((0 <? _) && _) _)) _ _ => unfold when; rewrite ?andb_true_r, ?andb_false_r
  end.
Ltac ending := unfold ended, left_behind; cbn; try discriminate; auto 8.

Section specs.
Context `{WrpLib} `{CjsonLib} (env : oracle) (copied : bool).

Lemma beside_create_tag (json : option json) (name : cstring) (items : list item) (response : wrp_crud)
    (payload : option bytes) (w0 w : World) :
  beside (ended copied CREATE payload w0) (create_tag_mem env json name items response)
    (create_tag env json name items response)
    (mk_h w (b_jsonPayload :: b_obj :: file_tree json) (file_links json)).
Proof.
  unfold create_tag_mem, create_tag, file_tree, file_links, has_tags.
  destruct json as [j|]; [destruct (cJSON_GetObjectItem (Some j) "tags") as [[i [k tagObj]]|]|];
    cbn [bool_decide is_Some decide_rel cJSON_GetObjectItem]; repeat step; ending.
Qed.

Lemma beside_update_tag (json : option json) (name : cstring) (items : list item) (response : wrp_crud)
    (payload : option bytes) (w0 w : World) :
  beside (ended copied UPDATE payload w0) (update_tag_mem env json name items response)
    (update_tag env json name items response)
    (mk_h w (b_jsonPayload :: b_obj :: file_tree json) (file_links json)).
Proof.
  unfold update_tag_mem, update_tag, file_tree, file_links, has_tags.
  destruct json as [j|]; [destruct (cJSON_GetObjectItem (Some j) "tags") as [[i [k tagObj]]|]|];
    cbn [bool_decide is_Some decide_rel cJSON_GetObjectItem]; repeat step; ending.
Qed.

Lemma beside_cloud_disconnect (json : option json) (payload : option bytes) (response : wrp_crud) (w0 w : World) :
  parodusCfg w = parodusCfg w0 →
  beside (ended copied UPDATE payload w0) (update_cloud_disconnect_mem copied json payload response)
    (update_cloud_disconnect payload response)
    (mk_h w (b_obj :: file_tree json) (file_links json)).
Proof.
  unfold update_cloud_disconnect_mem, update_cloud_disconnect, file_tree, file_links, orphan.
  intros Hcfg. unfold ended, left_behind. rewrite <-Hcfg.
  destruct (cloud_disconnect (parodusCfg w)) as [old|] eqn:Hold, copied;
    (destruct json as [j|]; [destruct (has_tags (Some j))|change (has_tags None) with false]);
    repeat (first [rewrite_old|step]); ending.
Qed.

Lemma beside_delete_tag (json : json) (objlevel : nat) (obj : obj_array) (response : wrp_crud)
    (payload : option bytes) (w0 w : World) :
  beside (ended copied DELETE payload w0) (delete_tag_mem env json objlevel obj response)
    (delete_tag env json objlevel obj response)
    (mk_h w (b_obj :: file_tree (Some json)) (file_links (Some json))).
Proof.
  unfold delete_tag_mem, delete_tag, file_tree, file_links, has_tags.
  destruct (cJSON_GetObjectItem (Some json) "tags") as [[i [k tagObj]]|];
    cbn [bool_decide is_Some decide_rel]; repeat step; ending.
Qed.

(** The part of a retrieval behind the parsing. *)
Lemma beside_retrieve_external (objlevel : nat) (obj : obj_array) (response : wrp_crud)
    (payload : option bytes) (w : World) :
  beside (ended copied RETREIVE payload w) (retrieve_external_mem objlevel obj response)
    (retrieve_external objlevel obj response) (mk_h w [b_obj] []).
Proof.
  unfold retrieve_external_mem, retrieve_external. eapply beside_bind; [apply beside_read|]. cbn beta.
  intros [t|] s [Hr ->]; [|repeat step; ending].
  destruct (is_empty t) eqn:He; [repeat step; unfold ended; right; split_and!; [done..|by exists t]|].
  eapply beside_memory; [apply parse_file_done; right; by left|done|]. cbn beta zeta.
  unfold file_tree, file_links, has_tags. destruct (cJSON_Parse (Some t)) as [j|]; [|repeat step; ending].
  destruct (cJSON_GetObjectItem (Some j) "tags") as [[i [k tagObj]]|];
    cbn [bool_decide is_Some decide_rel]; repeat step; ending.
Qed.

Lemma beside_check_payload (P : Z * wrp_crud → mem → Prop) (json : option json) (payload : option bytes)
    (response : wrp_crud) (f : list item → M mem (Z * wrp_crud)) (f0 : list item → M World (Z * wrp_crud)) (w : World) :
  P (-1, response <| crud_status := 400 |>) (mk_h w [] (file_links json)) →
  (∀ items, beside P (f items) (f0 items) (mk_h w (b_jsonPayload :: b_obj :: file_tree json) (file_links json))) →
  beside P (checked ← check_payload_mem json payload;
          match checked with None => failed 400 response | Some items => f items end)
    (match check_payload payload with None => fail 400 response | Some items => f0 items end)
    (mk_h w (b_obj :: file_tree json) (file_links json)).
Proof.
  intros Hf Hgo. pose proof (check_payload_done json payload w) as Hc.
  destruct (check_payload payload) as [items|]; (eapply beside_memory; [exact Hc|done|]).
  - apply Hgo.
  - by apply beside_failed.
Qed.

(** The elements of the destination. *)
Lemma beside_parse_dest {A} (P : A → mem → Prop) (reqMsg : wrp_msg_t) (f : option (nat * obj_array) → M mem A)
    (f0 : option (nat * obj_array) → M World A) (w : World) (l : list block) (i : list (block * block)) :
  (∀ parsed, beside P (f parsed) (f0 parsed) (mk_h w (match parsed with Some _ => b_obj :: l | None => l end) i)) →
  beside P (parsed ← parse_dest reqMsg; f parsed) (parsed ← lift (parse_dest_elements_to_string reqMsg); f0 parsed)
    (mk_h w l i).
Proof.
  intros Hf. unfold parse_dest. apply beside_assoc, beside_lift. intros parsed _. specialize (Hf parsed).
  by destruct parsed.
Qed.

(** The file is dropped. *)
Lemma beside_delete_json {A} (P : A → mem → Prop) (json : option json) (m : M mem A) (m0 : M World A) (w : World) :
  beside P m m0 (mk_h w [] (file_links json)) →
  beside P (delete_json json;; m) m0 (mk_h w (file_tree json) (file_links json)).
Proof.
  unfold file_tree, file_links. intros Hm.
  destruct json as [j|]; [destruct (has_tags (Some j))|change (has_tags None) with false in *];
    (eapply beside_memory; [cbv; reflexivity|done|exact Hm]).
Qed.

Lemma beside_free_obj {A} (P : A → mem → Prop) (json : option json) (m : M mem A) (m0 : M World A) (w : World) :
  beside P m m0 (mk_h w (file_tree json) (file_links json)) →
  beside P (free b_obj;; m) m0 (mk_h w (b_obj :: file_tree json) (file_links json)).
Proof.
  unfold file_tree, file_links. intros Hm.
  destruct json as [j|]; [destruct (has_tags (Some j))|change (has_tags None) with false in *];
    (eapply beside_memory; [cbv; reflexivity|done|exact Hm]).
Qed.

Lemma beside_use_obj {A} (P : A → mem → Prop) (m : M mem A) (m0 : M World A) (w : World)
    (l : list block) (i : list (block * block)) :
  b_obj ∈ l → beside P m m0 (mk_h w l i) → beside P (use b_obj;; m) m0 (mk_h w l i).
Proof. intros Hl Hm. eapply beside_memory; [unfold use; cbn; by rewrite bool_decide_true|done|exact Hm]. Qed.

Lemma beside_create (reqMsg : wrp_msg_t) (response : wrp_crud) (payload : option bytes) (w : World) :
  beside (ended copied CREATE payload w) (createObject_mem env reqMsg response) (createObject env reqMsg response) (begin w).
Proof.
  unfold createObject_mem, createObject. eapply beside_bind; [apply beside_load_json|]. cbn beta.
  intros [json|] s ->; [|repeat step; ending].
  case_match; [|apply beside_delete_json; step; ending].
  apply beside_parse_dest. intros [[objlevel obj]|]; [|apply beside_delete_json; step; ending].
  step. case_match; [|apply beside_free_obj, beside_delete_json; step; ending].
  apply beside_check_payload; [ending|]. intros items. apply beside_use_obj; [right; left|]. step.
  apply beside_create_tag.
Qed.

Lemma beside_update (reqMsg : wrp_msg_t) (response : wrp_crud) (w : World) :
  beside (ended copied UPDATE (crud_payload (crud_view reqMsg)) w) (updateObject_mem env copied reqMsg response)
    (updateObject env reqMsg response) (begin w).
Proof.
  unfold updateObject_mem, updateObject. eapply beside_bind; [apply beside_load_json|]. cbn beta.
  intros [json|] s ->; [|repeat step; ending].
  case_match; [|apply beside_delete_json; step; ending].
  apply beside_parse_dest. intros [[objlevel obj]|]; [|apply beside_delete_json; step; ending].
  step. case_match.
  - apply beside_check_payload; [ending|]. intros items. apply beside_use_obj; [right; left|]. step.
    apply beside_update_tag.
  - destruct (objlevel =? 3)%nat; [|memory; apply beside_free_obj, beside_delete_json; step; ending].
    step. case_match; [by apply beside_cloud_disconnect|apply beside_free_obj, beside_delete_json; step; ending].
Qed.

Lemma beside_retrieve (reqMsg : wrp_msg_t) (response : wrp_crud) (payload : option bytes) (w : World) :
  beside (ended copied RETREIVE payload w) (retrieveObject_mem reqMsg response) (retrieveObject reqMsg response) (begin w).
Proof.
  unfold retrieveObject_mem, retrieveObject, begin. case_match; [|step; ending].
  apply beside_parse_dest. intros [[objlevel obj]|]; [|step; ending].
  apply beside_use_obj; [left|]. step. case_match; [|apply beside_retrieve_external].
  step. memory. step. repeat step; ending.
Qed.

Lemma beside_delete (reqMsg : wrp_msg_t) (response : wrp_crud) (payload : option bytes) (w : World) :
  beside (ended copied DELETE payload w) (deleteObject_mem env reqMsg response) (deleteObject env reqMsg response) (begin w).
Proof.
  unfold deleteObject_mem, deleteObject. eapply beside_bind; [apply beside_read|]. cbn beta.
  intros [t|] s [Hr ->]; [|step; ending].
  destruct (is_empty t) eqn:He; [step; unfold ended; right; split_and!; [done..|by exists t]|].
  eapply beside_memory; [apply parse_file_done; right; by left|done|]. cbn beta zeta.
  apply beside_free_text. destruct (cJSON_Parse (Some t)) as [j|]; [|step; ending].
  case_match; [|apply (beside_delete_json _ (Some j)); step; ending].
  apply beside_parse_dest. intros [[objlevel obj]|]; [|apply (beside_delete_json _ (Some j)); step; ending].
  step. case_match; [apply beside_delete_tag|].
  unfold delete_failed. apply beside_free_obj, (beside_delete_json _ (Some j)). step. ending.
Qed.
End specs.

(** ** Properties *)

(** C9. The handlers of crud_internal.c use nothing that is not allocated and free nothing twice:
    with all allocations, uses and frees in their places, those of a value hung into two trees
    included, they do exactly what they do without them. When they return all has been freed
    but what [left_behind] tells. *)
Theorem crud_memory `{WrpLib} `{CjsonLib} (env : oracle) (copied : bool) (op : crud_op) (reqMsg : wrp_msg_t)
    (response : wrp_crud) (w : World) :
  match handler_mem env copied op reqMsg response (begin w) with
  | Done (ret, r, s) =>
      handler env op reqMsg response w = Done (ret, r, world s) /\
      left_behind copied op (crud_payload (crud_view reqMsg)) ret r w (live s)
  | Undef => handler env op reqMsg response w = Undef
  | NoFuel => handler env op reqMsg response w = NoFuel
  end.
Proof.
  assert (beside (ended copied op (crud_payload (crud_view reqMsg)) w) (handler_mem env copied op reqMsg response)
    (handler env op reqMsg response) (begin w)) as Hr.
  { destruct op; [apply beside_create|apply beside_retrieve|apply beside_update|apply beside_delete]. }
  unfold beside in Hr. by destruct (handler_mem _ _ _ _ _) as [[[ret r] s]| |].
Qed.

(** ** What is lost *)

Section lost.
#[local] Existing Instance wrp_example.
#[local] Existing Instance cjson_example.

(** The files cannot be opened for writing. *)
Definition env_readonly : oracle := λ h c,
  match c as c return ans c with
  | sys_fopen_write _ => false
  | c => env_ok h c
  end.

Definition world_with (text : cstring) (retry : bool) : World :=
  (world_init (λ _, Some text)) <| parodusCfg := cfg_zero <| crud_config_file := Some ("crud.json"%cs) |> |>
    <| close_retry := retry |>.

Definition tag_file : cstring := cJSON_PrintUnformatted
  (JObject [("tags"%cs, JObject [("Test"%cs, JObject [("expires"%cs, JNumber 9 (inject_Z 9))])])]).
Definition tag_payload : cstring := cJSON_PrintUnformatted (JObject [("expires"%cs, JNumber 7 (inject_Z 7))]).
Definition reason_payload : cstring :=
  cJSON_PrintUnformatted (JObject [(CLOUD_DISCONNECT_REASON, JString "maintenance")]).

Definition request (op : crud_op) (dest : cstring) (payload : option cstring) : wrp_msg_t :=
  WRP_CRUD op (crud_zero <| crud_dest := Some dest |> <| crud_payload := payload |>).

(** The status of the response and what is left behind. *)
Definition leaves (env : oracle) (copied : bool) (op : crud_op) (dest : cstring) (payload : option cstring) (w : World)
    (status : Z) (l : list block) : bool :=
  match handler_mem env copied op (request op dest payload) crud_zero (begin w) with
  | Done (_, r, s) => (crud_status r =? status) && bool_decide (live s = l)
  | _ => false
  end.

(** A tag is created: the response takes its payload along. *)
Example tag_created :
  leaves env_ok false CREATE "mac:14cfe2142xxx/parodus/tag/new" (Some tag_payload) (world_with tag_file false) 201 [b_resPayload] = true.
Proof. vm_compute. reflexivity. Qed.

(** The text of an empty file. *)
Example empty_text_lost :
  leaves env_ok false RETREIVE "mac:14cfe2142xxx/parodus/tag/Test" None (world_with "" false) 500 [b_jsonData] = true.
Proof. vm_compute. reflexivity. Qed.

(** The payload of a response that reports a file that could not be written: the caller sets the
    pointer to NULL. *)
Example payload_lost :
  leaves env_readonly false CREATE "mac:14cfe2142xxx/parodus/tag/new" (Some tag_payload) (world_with tag_file false) 500 [b_resPayload] = true.
Proof. vm_compute. reflexivity. Qed.

(** The new object, when the tag is there in other letters. *)
Example object_lost :
  leaves env_ok false UPDATE "mac:14cfe2142xxx/parodus/tag/TEST" (Some tag_payload) (world_with tag_file false) 500 [b_res_obj] = true.
Proof. vm_compute. reflexivity. Qed.

(** The tree of the file, when a cloud-disconnect request has no payload. *)
Example tree_lost :
  leaves env_ok false UPDATE "mac:14cfe2142xxx/parodus/cloud-disconnect" None (world_with tag_file false) 400 [b_tags; b_json] = true.
Proof. vm_compute. reflexivity. Qed.

(** The second copy of the reason, when a reconnect is already under way. *)
Example reason_lost :
  leaves env_ok false UPDATE "mac:14cfe2142xxx/parodus/cloud-disconnect" (Some reason_payload) (world_with tag_file true) 500
    [b_reason; b_cloud_disconnect] = true.
Proof. vm_compute. reflexivity. Qed.

(** The reason of an earlier request that has not been served, and the copy of it: the pointers
    of the configuration and of the reconnect are set to the new ones. *)
Example old_reason_lost :
  leaves env_ok true UPDATE "mac:14cfe2142xxx/parodus/cloud-disconnect" (Some reason_payload)
    (let w := world_with tag_file false in w <| parodusCfg := (parodusCfg w) <| cloud_disconnect := Some ("reboot"%cs) |> |>) 200
    [b_old_reason; b_reason; b_cloud_disconnect; b_old_disconnect] = true.
Proof. vm_compute. reflexivity. Qed.
End lost.
