(* ===== verification/DownstreamMemory.v ===== *)
(** * The memory of a message from the server

    What the downstream thread allocates and frees for one message of its queue: the decoded
    message, the copy of the destination, the error response with its text, its encoding and its
    structure, and the message made for the CRUD task. The functions are those of
    Downstream.v with every allocation, use and free in between. *)

From S2P Require Import Prelude StringHelpers Timers Config Wrp Partners World ClientList Nopoll Upstream Cjson Crud Downstream Memory.
Local Open Scope cs_scope.
Local Open Scope Z_scope.

Inductive dblock : Set :=
| d_queued             (* the element of the queue *)
| d_msg                (* noPoll's message behind it *)
| d_message            (* decoded *)
| d_destVal
| d_response           (* the JSON tree *)
| d_str                (* its text *)
| d_resp_msg | d_resp_bytes
| d_crudMessage.
#[export] Instance dblock_eq_dec : EqDecision dblock.
Proof. solve_decision. Defined.

#[local] Abbreviation dmem := (hmem dblock).

Section downstream.
Context `{WrpLib} `{CjsonLib} (env : oracle).

(** The strings of the response are those of the message; its structure alone is freed.
    A failed encoding leaves [resp_bytes] uninitialised. *)
Definition send_error_mem (message : wrp_msg_t) (response : json) : M dmem unit :=
  alloc d_resp_msg;;
  use d_message;;
  use d_response;;
  alloc d_str;;
  match wrp_struct_to (error_response message response) with
  | None => undef
  | Some bytes =>
      alloc d_resp_bytes;;
      match bytes with
      | [] => mret tt
      | resp_bytes => use d_resp_bytes;; in_world (sendUpstreamMsgToServer env resp_bytes)
      end;;
      free d_str;;
      free d_response;;
      free d_resp_bytes;;
      free d_resp_msg
  end.

(** The part behind a positive partner check. *)
Definition route_blocks (message : wrp_msg_t) (recivedMsg : bytes) (destVal : cstring) : M dmem (option json) :=
  use d_destVal;;
  let dest := dest_service destVal in
  free d_destVal;;
  l ← in_world (gets g_head);
  match find_client dest l with
  | Some temp => use d_msg;; _ ← in_world (call env (nn_send (sock temp) recivedMsg)); mret None
  | None =>
      if streq "parodus" dest then
        let c := crud_view message in
        match crud_source c, crud_transaction_uuid c with
        | Some _, Some _ =>
            use d_message;;
            crudMessage ← lift (createNewMsgForCRUD message);
            alloc d_crudMessage;;
            in_world (addCRUDmsgToQueue crudMessage);;
            mret None
        | _, _ => alloc d_response;; mret (Some (error_json 400 "Invalid Request"))
        end
      else alloc d_response;; mret (Some (error_json 531 "Service Unavailable"))
  end.

Definition deliver_mem (message : wrp_msg_t) (recivedMsg : bytes) : M dmem unit :=
  cfg ← in_world (gets parodusCfg);
  '(ret, _) ← lift (validate_partner_id (partner_id cfg) message None);
  when (ret <? 0) (alloc d_response);;
  destVal ← in_world (deref (message_dest message));
  alloc d_destVal;;
  response ← (if ret <? 0 then mret (Some (error_json 403 "Invalid partner_id"))
              else route_blocks message recivedMsg destVal);
  match message, response with
  | WRP_EVENT _, _ => mret tt
  | _, Some response => send_error_mem message response
  | _, None => mret tt
  end.

Definition listenerOnMessage_mem (msg : option bytes) : M dmem unit :=
  match msg with
  | None => mret tt
  | Some recivedMsg =>
      use d_msg;;
      match wrp_to_struct recivedMsg with
      | None => mret tt
      | Some message =>
          alloc d_message;;
          match message with
          | WRP_EVENT _ | WRP_REQ _ | WRP_CRUD _ _ => deliver_mem message recivedMsg
          | WRP_AUTH _ | WRP_SVC_REGISTRATION _ | WRP_SVC_ALIVE | WRP_UNKNOWN => mret tt
          end;;
          free d_message
      end
  end.

(** The element and noPoll's message come with the queue. *)
Definition messageHandlerTask_turn_mem : M dmem bool :=
  q ← in_world (gets ParodusMsgQ);
  match q with
  | message :: rest =>
      in_world (modify (λ w, w <| ParodusMsgQ := rest |>));;
      alloc d_queued;;
      alloc d_msg;;
      use d_queued;;
      listenerOnMessage_mem message;;
      use d_queued;;
      free d_msg;;
      free d_queued;;
      mret false
  | [] =>
      stop ← in_world (read_g_shutdown env);
      if (stop : bool) then mret true
      else _ ← in_world (call env sys_cond_wait); mret false
  end.
End downstream.

(** ** Specification *)

Definition is_event (message : wrp_msg_t) : bool := match message with WRP_EVENT _ => true | _ => false end.

(** Its partner id is not accepted. *)
Definition refused_by_partner (w : World) (message : wrp_msg_t) : Prop :=
  ∃ ret out, validate_partner_id (partner_id (parodusCfg w)) message None = Done (ret, out) /\ ret < 0.

(** What is still allocated when a message has been handled: nothing, or a message that has gone
    behind the CRUD requests. The copy of the destination is lost with a request of another
    partner, the response with an event that has reached nobody. *)
Definition message_leaves (w : World) (message : wrp_msg_t) (w' : World) (l : list dblock) : Prop :=
  l = [] \/
  (l = [d_crudMessage] /\ ∃ m, crudMsgQ w' = (crudMsgQ w ++ [m])%list) \/
  (refused_by_partner w message /\ is_event message = false /\ l = [d_destVal]) \/
  (is_event message = true /\ l = [d_response]).

(** A turn of the thread for the message at the head of the queue. *)
Definition turn_leaves `{WrpLib} (w w' : World) (l : list dblock) : Prop :=
  l = [] \/
  ∃ raw rest message, ParodusMsgQ w = Some raw :: rest /\ wrp_to_struct raw = Some message /\
    message_leaves w message w' l.

(** ** Lemmas *)

Section specs.
Context `{WrpLib} `{CjsonLib} (env : oracle).

(** The base of everything a message allocates. *)
Abbreviation base := [d_message; d_msg; d_queued].

Ltac dstep :=
  match goal with
  | |- beside _ (mbind _ (use _)) _ _ => memory
  | |- beside _ (mbind _ (alloc _)) _ _ => memory
  | |- beside _ (mbind _ (free _)) _ _ => memory
  | |- beside _ (mbind _ (when ?b _)) _ _ => unfold when; destruct b eqn:?
  | |- beside _ (mbind _ (match ?x with _ => _ end)) _ _ => destruct x eqn:?
  | |- beside _ (match ?x with _ => _ end) _ _ => destruct x eqn:?
  | |- beside _ (free _) (mret _) _ => eapply beside_memory_last; [cbv; reflexivity|reflexivity|]
  | |- beside _ (mbind _ (in_world ?m)) ?m _ => apply beside_world_last; intros [] ? _
  | |- beside _ undef undef _ => done
  | |- _ => both
  end.

(** An answer frees all it has allocated, and the response. *)
Lemma beside_send_error (P : unit → dmem → Prop) (message : wrp_msg_t) (j : json) (w : World) (l l' : list dblock) :
  (l = d_response :: base /\ l' = base) \/ (l = d_destVal :: d_response :: base /\ l' = d_destVal :: base) →
  (∀ w', P tt (mk_h w' l' [])) →
  beside P (send_error_mem env message j) (send_error env message j) (mk_h w l []).
Proof. intros [[-> ->]|[-> ->]] HP; unfold send_error_mem, send_error; repeat dstep; apply HP. Qed.

(** What is left on top of [base]. *)
Definition left_on_top (w0 : World) (message : wrp_msg_t) (_ : unit) (s : dmem) : Prop :=
  ∃ w' l, s = mk_h w' (l ++ base) [] /\ message_leaves w0 message w' l.

Definition route_left (w0 : World) (response : option json) (s : dmem) : Prop :=
  ∃ w', match response with
        | None => s = mk_h w' base [] \/
                  (s = mk_h w' (d_crudMessage :: base) [] /\ ∃ m, crudMsgQ w' = (crudMsgQ w0 ++ [m])%list)
        | Some _ => s = mk_h w' (d_response :: base) []
        end.

Lemma beside_route (message : wrp_msg_t) (raw : bytes) (destVal : cstring) (w0 w : World) :
  crudMsgQ w = crudMsgQ w0 →
  beside (route_left w0) (route_blocks env message raw destVal) (route env message raw destVal)
    (mk_h w (d_destVal :: base) []).
Proof.
  intros Hq. unfold route_blocks, route. repeat dstep; unfold route_left; try by eexists.
  - eexists. by left.
  - eexists. right. split; [reflexivity|]. eexists. cbn. by rewrite Hq.
Qed.

(** The partner check lets every event pass, unless it is undefined. *)
Lemma refused_request (w : World) (message : wrp_msg_t) : refused_by_partner w message → is_event message = false.
Proof.
  intros (ret & out & Hv & Hret). destruct message as [| |e| | | |]; try done. exfalso. revert Hv.
  unfold validate_partner_id, store_partners. repeat case_match; intros [= <- <-]; lia.
Qed.

(** The answer to a refused message. *)
Lemma beside_refused (message : wrp_msg_t) (j : json) (w0 w : World) :
  refused_by_partner w0 message →
  beside (left_on_top w0 message)
    (match message with WRP_EVENT _ => mret tt | _ => send_error_mem env message j end)
    (match message with WRP_EVENT _ => mret tt | _ => send_error env message j end)
    (mk_h w (d_destVal :: d_response :: base) []).
Proof.
  intros Hr. pose proof (refused_request _ _ Hr) as He.
  assert (∀ w', left_on_top w0 message tt (mk_h w' (d_destVal :: base) [])) as Hleft.
  { intros w'. exists w', [d_destVal]. split; [done|]. right. right. by left. }
  destruct message; try discriminate He;
    (apply (beside_send_error _ _ _ _ _ (d_destVal :: base)); [by right|exact Hleft]).
Qed.

Lemma beside_routed (message : wrp_msg_t) (response : option json) (w0 : World) (s : dmem) :
  route_left w0 response s →
  beside (left_on_top w0 message)
    (match message, response with
     | WRP_EVENT _, _ => mret tt
     | _, Some response => send_error_mem env message response
     | _, None => mret tt
     end)
    (match message, response with
     | WRP_EVENT _, _ => mret tt
     | _, Some response => send_error env message response
     | _, None => mret tt
     end) s.
Proof.
  intros [w' Hs]. destruct response as [j|].
  - subst s. assert (is_event message = true \/ is_event message = false) as [He|He] by (destruct (is_event message); auto).
    + destruct message; try discriminate He. apply beside_ret. exists w', [d_response]. split; [done|].
      right. right. by right.
    + destruct message; try discriminate He; (apply (beside_send_error _ _ _ _ _ base); [by left|];
        intros w1; exists w1, []; by split; [|left]).
  - assert (left_on_top w0 message tt s) as Hl; [|by destruct message; apply beside_ret].
    destruct Hs as [->|[-> Hm]]; [exists w', []; by split; [|left]|].
    exists w', [d_crudMessage]. split; [done|]. right. by left.
Qed.

Lemma beside_deliver (message : wrp_msg_t) (raw : bytes) (w0 w : World) :
  crudMsgQ w = crudMsgQ w0 → parodusCfg w = parodusCfg w0 →
  beside (left_on_top w0 message) (deliver_mem env message raw) (deliver env message raw) (mk_h w base []).
Proof.
  intros Hq Hc. unfold deliver_mem, deliver. do 2 dstep. destruct a as [ret out]. rewrite Hc in *.
  dstep.
  - do 3 dstep. both. apply beside_refused. exists ret, out. split; [done|]. by apply Z.ltb_lt.
  - do 3 dstep. apply deref_same in Hw as ->. eapply beside_bind; [by apply beside_route|]. cbn beta. intros response s.
    apply beside_routed.
Qed.

(** What a message has left, on top of the element of the queue and noPoll's message. *)
Definition listener_left (w0 : World) (msg : option bytes) (_ : unit) (s : dmem) : Prop :=
  ∃ w' l, s = mk_h w' (l ++ [d_msg; d_queued]) [] /\
    (l = [] \/ ∃ raw message, msg = Some raw /\ wrp_to_struct raw = Some message /\ message_leaves w0 message w' l).

Lemma beside_listener (msg : option bytes) (w0 w : World) :
  crudMsgQ w = crudMsgQ w0 → parodusCfg w = parodusCfg w0 →
  beside (listener_left w0 msg) (listenerOnMessage_mem env msg) (listenerOnMessage env msg)
    (mk_h w [d_msg; d_queued] []).
Proof.
  intros Hq Hc. unfold listenerOnMessage_mem, listenerOnMessage.
  assert (∀ w', listener_left w0 msg tt (mk_h w' [d_msg; d_queued] [])) as Hnone
    by (intros w'; exists w', []; by split; [|left]).
  destruct msg as [raw|]; [|by apply beside_ret]. dstep.
  destruct (wrp_to_struct raw) as [message|] eqn:Hm; [|by apply beside_ret]. dstep.
  assert (∀ w' l, message_leaves w0 message w' l → beside (listener_left w0 (Some raw)) (free d_message) (mret tt)
    (mk_h w' (l ++ base) [])) as Hfree.
  { intros w' l Hl. assert (listener_left w0 (Some raw) tt (mk_h w' (l ++ [d_msg; d_queued]) [])) as Hleft
      by (exists w', l; split; [done|]; right; by exists raw, message).
    destruct Hl as [->|[[-> ?]|[(_ & _ & ->)|[_ ->]]]];
      (eapply beside_memory_last; [cbv; reflexivity|reflexivity|exact Hleft]). }
  assert (beside (listener_left w0 (Some raw)) (deliver_mem env message raw;; free d_message) (deliver env message raw)
    (mk_h w base [])) as Hgo.
  { eapply beside_then; [by apply beside_deliver|]. cbn beta. intros [] s (w' & l & -> & Hl). by apply Hfree. }
  destruct message; try exact Hgo; (apply (Hfree w []); by left).
Qed.

Lemma beside_turn (w : World) :
  beside (λ _ s, turn_leaves w (world s) (live s)) (messageHandlerTask_turn_mem env) (messageHandlerTask_turn env)
    (mk_h w [] []).
Proof.
  unfold messageHandlerTask_turn_mem, messageHandlerTask_turn. dstep.
  destruct (ParodusMsgQ w) as [|msg rest] eqn:Hq; [repeat dstep; by left|]. do 4 dstep.
  eapply beside_bind; [by apply (beside_listener msg w)|]. cbn beta. intros [] s (w' & l & -> & Hl).
  assert (turn_leaves w w' l) as Ht.
  { destruct Hl as [->|(raw & message & -> & Hm & Hl)]; [by left|]. right. by exists raw, rest, message. }
  destruct Hl as [->|(raw & message & -> & Hm & [->|[[-> ?]|[(_ & _ & ->)|[_ ->]]]])];
    repeat dstep; exact Ht.
Qed.
End specs.

(** ** Properties *)

(** C10. The downstream thread uses nothing that is not allocated and frees nothing twice: a turn
    with all allocations, uses and frees in their places does exactly what it does without them.
    Behind it nothing is allocated but what [turn_leaves] tells: the message for the CRUD task,
    or what a request of another partner or an event that reaches nobody has lost. *)
Theorem downstream_memory `{WrpLib} `{CjsonLib} (env : oracle) (w : World) :
  match messageHandlerTask_turn_mem env (mk_h w [] []) with
  | Done (stop, s) =>
      messageHandlerTask_turn env w = Done (stop, world s) /\ turn_leaves w (world s) (live s)
  | Undef => messageHandlerTask_turn env w = Undef
  | NoFuel => messageHandlerTask_turn env w = NoFuel
  end.
Proof. exact (beside_turn env w). Qed.

(** ** What is lost *)

Definition event_example : wrp_event :=
  mk_event None (Some "dns:tr1d1um"%cs) (Some "mac:14cfe2142xxx/nobody"%cs) (Some ["other"%cs]) None None None 0.

(** What a turn leaves behind when the queue holds [message] and the device has [partner]. *)
Definition leaves_behind (partner : cstring) (message : wrp_msg_t) (l : list dblock) : bool :=
  match @messageHandlerTask_turn_mem (wrp_only message) cjson_example env_ok
    (mk_h (world_example <| parodusCfg := cfg_zero <| partner_id := partner |> |>
                         <| ParodusMsgQ := [Some raw_example] |>) [] []) with
  | Done (_, s) => bool_decide (live s = l)
  | _ => false
  end.

(** A request that a client gets: nothing. *)
Example request_leaves_nothing : leaves_behind "" (WRP_REQ req_example) [] = true.
Proof. vm_compute. reflexivity. Qed.

(** A request of another partner: the copy of its destination. *)
Example destination_lost : leaves_behind "comcast" (WRP_REQ req_example) [d_destVal] = true.
Proof. vm_compute. reflexivity. Qed.

(** An event for an unknown service: the response, which is made but not sent. *)
Example response_lost : leaves_behind "" (WRP_EVENT event_example) [d_response] = true.
Proof. vm_compute. reflexivity. Qed.
