(* ===== verification/UpstreamMemory.v ===== *)
(** * The memory of a client's message

    What the upstream thread allocates and frees for one message of its queue: the decoded
    message, the list of partners of an event, the message and the bytes that are made of it, the
    device id, the bytes with the metadata. The functions are those of Upstream.v with every
    allocation, use and free in between. Payloads.v tells which of the two functions frees
    the payload. *)

From S2P Require Import Prelude StringHelpers Timers Config Wrp Partners World ClientList Nopoll Upstream Cjson Crud Downstream Memory.
Local Open Scope cs_scope.
Local Open Scope Z_scope.

Inductive ublock : Set :=
| u_queued             (* the element of the queue *)
| u_payload            (* its bytes *)
| u_msg                (* decoded *)
| u_ids                (* the partner ids of an event, strings of [u_msg] *)
| u_partnersList       (* the array [validate_partner_id] makes *)
| u_own                (* the strings it copies into it *)
| u_eventMsg | u_bytes
| u_appendData
| u_device_id | u_serviceName
| u_retrieve_msg.
#[export] Instance ublock_eq_dec : EqDecision ublock.
Proof. solve_decision. Defined.

#[local] Abbreviation umem := (hmem ublock).

(** The ids a decoded message has. *)
Definition ids_of (msg : wrp_msg_t) : list cstring :=
  match msg with
  | WRP_EVENT e => match ev_partner_ids e with Some ids => ids | None => [] end
  | _ => []
  end.
Definition has_ids (msg : wrp_msg_t) : bool := match ids_of msg with [] => false | _ => true end.

Section upstream.
Context `{WrpLib} (env : oracle).

Definition sendUpstream_blocks (from : ublock) (resp_bytes : bytes) : M umem unit :=
  size ← in_world (gets metaPackSize);
  if 0 <? size then
    pack ← in_world (gets metadataPack);
    use from;;
    alloc u_appendData;;
    let appendData := appendEncodedData resp_bytes pack size in
    retry ← in_world (gets close_retry);
    cfg ← in_world (gets parodusCfg);
    (if negb retry || bool_decide (cloud_disconnect cfg ≠ None) then
       conn ← in_world (gets g_conn);
       use u_appendData;;
       in_world (sendMessage env conn appendData)
     else mret tt);;
    free u_appendData
  else mret tt.

(** [validate_partner_id] puts the strings of the message themselves into the new array, and
    copies of the configured ones behind them; behind the message all of them are freed. *)
Definition free_partners (partnersList : option (list cstring)) (msg : wrp_msg_t) : M umem unit :=
  match partnersList with
  | None => mret tt
  | Some _ => when (has_ids msg) (free u_ids);; free u_own;; free u_partnersList
  end.

(** Behind a failed encoding [bytes] is freed as it is: not initialised, which is undefined, or
    NULL, which does nothing. *)
Definition process_event_mem (bytes_unset : bool) (e : wrp_event) (raw : bytes) : M umem bool :=
  cfg ← in_world (gets parodusCfg);
  match validate_partner_id (partner_id cfg) (WRP_EVENT e) (Some None) with
  | Done (ret, out) =>
      let partnersList := match out with Some p => p | None => None end in
      when (bool_decide (is_Some partnersList)) (alloc u_own;; alloc u_partnersList);;
      unset ←
        (if ret =? 1 then
           let eventMsg := WRP_EVENT (e <| ev_partner_ids := partnersList |>) in
           alloc u_eventMsg;;
           use u_msg;;
           match wrp_struct_to eventMsg with
           | Some (c :: b) =>
               alloc u_bytes;;
               sendUpstream_blocks u_bytes (c :: b);;
               free u_eventMsg;;
               free u_bytes;;
               mret false
           | Some [] => alloc u_bytes;; free u_eventMsg;; free u_bytes;; mret false
           | None => free u_eventMsg;; if bytes_unset then undef else mret false
           end
         else sendUpstream_blocks u_payload raw;; mret bytes_unset);
      free_partners partnersList (WRP_EVENT e);;
      mret unset
  | Undef => undef
  | NoFuel => nofuel
  end.

Definition getServiceName_blocks (msg : wrp_msg_t) (raw : bytes) : M umem unit :=
  use u_msg;;
  match wrp_service_of_dest msg with
  | Some serviceName =>
      alloc u_serviceName;;
      use u_payload;;
      _ ← in_world (sendMsgtoRegisteredClients env serviceName raw);
      free u_serviceName
  | None => mret tt
  end.

Definition process_crud_mem (op : crud_op) (c : wrp_crud) (raw : bytes) : M umem unit :=
  match op with
  | CREATE => sendUpstream_blocks u_payload raw
  | RETREIVE | UPDATE | DELETE =>
      id ← in_world getDeviceId;
      match id with
      | None => mret tt
      | Some (device_id, device_id_len) =>
          alloc u_device_id;;
          dest ← in_world (deref (crud_dest c));
          use u_device_id;;
          (if strncaseeq (device_id_len - 1) device_id dest then
             if decide (op = RETREIVE) then
               for_parodus ← in_world (dest_is_parodus dest device_id_len);
               if (for_parodus : bool) then
                 use u_msg;;
                 alloc u_retrieve_msg;;
                 in_world (addCRUDmsgToQueue (createUpstreamRetrieveMsg op c))
               else getServiceName_blocks (WRP_CRUD op c) raw
             else getServiceName_blocks (WRP_CRUD op c) raw
           else sendUpstream_blocks u_payload raw);;
          free u_device_id
      end
  end.

Definition process_message_mem (bytes_unset : bool) (msg : wrp_msg_t) (raw : bytes) : M umem bool :=
  match msg with
  | WRP_SVC_REGISTRATION reg => use u_msg;; in_world (process_registration env reg);; mret bytes_unset
  | WRP_EVENT e => process_event_mem bytes_unset e raw
  | WRP_REQ _ => sendUpstream_blocks u_payload raw;; mret bytes_unset
  | WRP_CRUD op c => process_crud_mem op c raw;; mret bytes_unset
  | WRP_SVC_ALIVE => mret bytes_unset
  | WRP_AUTH _ | WRP_UNKNOWN => sendUpstream_blocks u_payload raw;; mret bytes_unset
  end.

(** [wrp_free_struct] frees the message with its strings. *)
Definition wrp_free_struct (b : ublock) : M umem unit := delete_tree 2 b.

(** The bytes, by one of two functions (Payloads.v), are freed before the decoded message. *)
Definition process_upstream_mem (v : upstream_locals) (raw : bytes) : M umem upstream_locals :=
  use u_payload;;
  match wrp_to_struct raw with
  | Some msg =>
      alloc u_msg;;
      when (has_ids msg) (alloc u_ids;; add_to u_msg u_ids);;
      unset ← process_message_mem (bytes_unset v) msg raw;
      use u_msg;;
      free u_payload;;
      wrp_free_struct u_msg;;
      mret (mk_locals false unset)
  | None => if msg_unset v then undef else free u_payload;; mret v
  end.

(** The element comes with the queue, and its bytes with it. *)
Definition processUpstreamMessage_turn_mem (v : upstream_locals) : M umem (bool * upstream_locals) :=
  q ← in_world (gets UpStreamMsgQ);
  match q with
  | raw :: rest =>
      in_world (modify (λ w, w <| UpStreamMsgQ := rest |>));;
      alloc u_queued;;
      alloc u_payload;;
      v ← process_upstream_mem v raw;
      free u_queued;;
      mret (false, v)
  | [] =>
      stop ← in_world (read_g_shutdown env);
      if (stop : bool) then mret (true, v)
      else _ ← in_world (call env sys_cond_wait); mret (false, v)
  end.
End upstream.

(** ** Specification *)

(** An event with partner ids of which none is configured. *)
Definition foreign (w : World) (msg : wrp_msg_t) : Prop :=
  partner_id (parodusCfg w) ≠ [] /\ has_ids msg = true /\ ~ partner_match (partner_id (parodusCfg w)) (ids_of msg).

(** The message at the head of the queue is one. *)
Definition foreign_next `{WrpLib} (w : World) : Prop :=
  ∃ raw rest msg, UpStreamMsgQ w = raw :: rest /\ wrp_to_struct raw = Some msg /\ foreign w msg.

(** The message at the head of the queue is an event that cannot be encoded with the partner ids
    it gets, and no event has been encoded before. *)
Definition unencodable_next `{WrpLib} (v : upstream_locals) (w : World) : Prop :=
  bytes_unset v = true /\ partner_id (parodusCfg w) ≠ [] /\
  ∃ raw rest e, UpStreamMsgQ w = raw :: rest /\ wrp_to_struct raw = Some (WRP_EVENT e) /\
    wrp_struct_to (WRP_EVENT (e <| ev_partner_ids := forwarded_ids (partner_id (parodusCfg w)) e |>)) = None.

(** What is allocated after a turn: at most a request that has gone behind the CRUD requests. *)
Definition upstream_leaves (w w' : World) (l : list ublock) : Prop :=
  l = [] \/ (l = [u_retrieve_msg] /\ ∃ m, crudMsgQ w' = (crudMsgQ w ++ [m])%list).

(** ** Lemmas *)

Ltac ustep :=
  match goal with
  | |- beside _ (mbind _ (use _)) _ _ => memory
  | |- beside _ (mbind _ (alloc _)) _ _ => memory
  | |- beside _ (mbind _ (free _)) _ _ => memory
  | |- beside _ (mbind _ (when ?b _)) _ _ => unfold when; destruct b eqn:?
  | |- beside _ (mbind _ (match ?x with _ => _ end)) _ _ => destruct x eqn:?
  | |- beside _ (match ?x with _ => _ end) _ _ => destruct x eqn:?
  | |- beside _ (free _) (mret _) _ => eapply beside_memory_last; [cbv; reflexivity|reflexivity|]
  | |- beside _ (mbind _ (in_world ?m)) ?m _ => apply beside_world_last; intros [] ? ?
  | |- beside _ undef undef _ => done
  | |- beside _ nofuel nofuel _ => done
  | |- _ => both
  end.

(** What is allocated while a message is handled. *)
Definition base_of (msg : wrp_msg_t) : list ublock :=
  if has_ids msg then [u_ids; u_msg; u_payload; u_queued] else [u_msg; u_payload; u_queued].
Definition links_of (msg : wrp_msg_t) : list (ublock * ublock) := if has_ids msg then [(u_msg, u_ids)] else [].

Section specs.
Context `{WrpLib} (env : oracle).

(** Sending allocates and frees the bytes with the metadata. *)
Lemma beside_send (from : ublock) (b : bytes) (w : World) (l : list ublock) (i : list (ublock * ublock)) :
  from ∈ l → u_appendData ∉ l →
  beside (kept l i) (sendUpstream_blocks env from b) (sendUpstreamMsgToServer env b) (mk_h w l i).
Proof.
  intros Hfrom Happ. unfold sendUpstream_blocks, sendUpstreamMsgToServer. both.
  destruct (0 <? metaPackSize w); [|apply beside_ret; by exists w]. both.
  eapply beside_memory; [by apply use_run|done|]. eapply beside_memory; [reflexivity|done|]. cbn beta zeta. do 2 both.
  assert (∀ w', beside (kept l i) (free u_appendData) (mret tt) (mk_h w' (u_appendData :: l) i)) as Hfree.
  { intros w'. eapply beside_memory_last; [by apply free_last|done|]. by exists w'. }
  destruct (negb (close_retry w) || _); [|both; apply Hfree].
  do 2 both. both. eapply beside_memory; [apply use_run; by left|done|]. cbn beta.
  apply beside_world_last. intros [] w' _. apply Hfree.
Qed.

(** What is sent for an event. *)
Lemma beside_event_message (unset : bool) (ret : Z) (eventMsg : wrp_msg_t) (raw : bytes) (w : World) (l : list ublock)
    (i : list (ublock * ublock)) :
  u_msg ∈ l → u_payload ∈ l → u_appendData ∉ l → u_eventMsg ∉ l → u_bytes ∉ l →
  beside (kept l i)
    (if ret =? 1 then
       alloc u_eventMsg;;
       use u_msg;;
       match wrp_struct_to eventMsg with
       | Some (c :: b) =>
           alloc u_bytes;;
           sendUpstream_blocks env u_bytes (c :: b);;
           free u_eventMsg;;
           free u_bytes;;
           mret false
       | Some [] => alloc u_bytes;; free u_eventMsg;; free u_bytes;; mret false
       | None => free u_eventMsg;; if unset then undef else mret false
       end
     else sendUpstream_blocks env u_payload raw;; mret unset)
    (if ret =? 1 then
       match wrp_struct_to eventMsg with
       | Some (c :: b) => sendUpstreamMsgToServer env (c :: b);; mret false
       | Some [] => mret false
       | None => if unset then undef else mret false
       end
     else sendUpstreamMsgToServer env raw;; mret unset) (mk_h w l i).
Proof.
  intros Hm Hp Ha He Hb. destruct (ret =? 1).
  2:{ eapply beside_bind; [by apply beside_send|]. intros [] s [w' ->]. apply beside_ret. by exists w'. }
  eapply beside_memory; [reflexivity|done|]. eapply beside_memory; [apply use_run; by right|done|]. cbn beta.
  assert (∀ w', beside (kept l i) (free u_eventMsg;; free u_bytes;; mret false) (mret false)
    (mk_h w' (u_bytes :: u_eventMsg :: l) i)) as Hfree.
  { intros w'. eapply beside_memory; [by apply (free_at u_eventMsg w' [u_bytes] l i); [by_eval|]|done|].
    eapply beside_memory; [by apply free_last|done|]. apply beside_ret. by exists w'. }
  destruct (wrp_struct_to eventMsg) as [[|c b]|].
  - eapply beside_memory; [reflexivity|done|]. apply Hfree.
  - eapply beside_memory; [reflexivity|done|]. cbn beta. eapply beside_bind.
    { apply beside_send; [by left|]. cbn. rewrite !not_elem_of_cons. done. }
    intros [] s [w' ->]. apply Hfree.
  - eapply beside_memory; [by apply free_last|done|]. destruct unset; [done|]. apply beside_ret. by exists w.
Qed.

(** The partner check makes a list with strings of the message exactly for a foreign one. *)
Lemma validate_event (w : World) (e : wrp_event) :
  ∃ ret p, validate_partner_id (partner_id (parodusCfg w)) (WRP_EVENT e) (Some None) = Done (ret, Some p) /\
    (foreign w (WRP_EVENT e) ↔ is_Some p /\ has_ids (WRP_EVENT e) = true).
Proof.
  unfold foreign. destruct (partner_id (parodusCfg w)) as [|c pid].
  { exists 0, None. split; [done|]. split; [by intros []|by intros [[? ?] _]]. }
  unfold validate_partner_id, has_ids, ids_of. set (p := c :: pid). destruct (ev_partner_ids e) as [ids|].
  - destruct (match_event (parse_partner_id p) ids) eqn:Hm.
    + apply match_event_spec in Hm. exists 1, None. split; [done|]. split; [by intros (_ & _ & Hn)|by intros [[? ?] _]].
    + apply match_event_false in Hm. eexists 1, _. split; [done|]. split; [by intros (_ & Hi & _); split|].
      intros [_ Hi]. by split.
  - eexists 1, _. split; [done|]. split; [by intros (_ & Hi & _)|by intros [_ Hi]].
Qed.

(** An event with its partner ids; those of a foreign one are gone. *)
Definition event_left (w0 : World) (e : wrp_event) (_ : bool) (s : umem) : Prop :=
  ∃ w', (~ foreign w0 (WRP_EVENT e) /\ s = mk_h w' (base_of (WRP_EVENT e)) (links_of (WRP_EVENT e))) \/
        (foreign w0 (WRP_EVENT e) /\ s = mk_h w' [u_msg; u_payload; u_queued] [(u_msg, u_ids)]).

Lemma beside_event (unset : bool) (e : wrp_event) (raw : bytes) (w0 w : World) :
  parodusCfg w = parodusCfg w0 →
  beside (event_left w0 e) (process_event_mem env unset e raw) (process_event env unset e raw)
    (mk_h w (base_of (WRP_EVENT e)) (links_of (WRP_EVENT e))).
Proof.
  intros Hc. destruct (validate_event w0 e) as (ret & p & Hv & Hf).
  unfold process_event_mem, process_event, event_left. both. rewrite Hc, Hv. cbv beta iota zeta.
  unfold base_of, links_of, free_partners. destruct p as [ids|]; destruct (has_ids (WRP_EVENT e));
    (eapply beside_memory; [cbv; reflexivity|done|]); cbn beta;
    (eapply beside_then; [apply beside_event_message; by_eval|]); intros r s [w' ->];
    (eapply beside_memory; [cbv; reflexivity|done|]); apply beside_ret; exists w'.
  - right. split; [|done]. apply Hf. by eexists.
  - left. split; [|done]. rewrite Hf. by intros [_ ?].
  - left. split; [|done]. rewrite Hf. by intros [[? ?] _].
  - left. split; [|done]. rewrite Hf. by intros [_ ?].
Qed.

(** What a message has left; of a foreign event the ids are missing. *)
Definition message_left {A} (w0 : World) (msg : wrp_msg_t) (_ : A) (s : umem) : Prop :=
  ∃ w' l, (~ foreign w0 msg /\ s = mk_h w' (l ++ base_of msg) (links_of msg) /\ upstream_leaves w0 w' l) \/
          (foreign w0 msg /\ s = mk_h w' [u_msg; u_payload; u_queued] [(u_msg, u_ids)]).

Lemma nothing_left {A} (a : A) (w0 w' : World) (msg : wrp_msg_t) :
  has_ids msg = false → message_left w0 msg a (mk_h w' (base_of msg) (links_of msg)).
Proof.
  intros Hi. exists w', []. left. split; [|by split; [|left]]. intros (_ & Hf & _). congruence.
Qed.

Lemma beside_service (msg : wrp_msg_t) (raw : bytes) (w : World) (l : list ublock) (i : list (ublock * ublock)) :
  u_msg ∈ l → u_payload ∈ l → u_serviceName ∉ l →
  beside (kept l i) (getServiceName_blocks env msg raw) (getServiceNameAndSendResponse env msg raw) (mk_h w l i).
Proof.
  intros Hm Hp Hs. unfold getServiceName_blocks, getServiceNameAndSendResponse.
  eapply beside_memory; [by apply use_run|done|]. cbn beta.
  destruct (wrp_service_of_dest msg) as [serviceName|]; [|apply beside_ret; by exists w].
  eapply beside_memory; [reflexivity|done|]. eapply beside_memory; [apply use_run; by right|done|]. cbn beta.
  both. eapply beside_memory_last; [by apply free_last|done|]. by eexists.
Qed.

Lemma device_id_same (w w' : World) (a : option (cstring * nat)) : getDeviceId w = Done (a, w') → w' = w.
Proof. unfold getDeviceId. run_m. destruct (hw_mac _); [by intros [= _ <-]|]. by destruct (_ <? _)%nat; [|intros [= _ <-]]. Qed.

Lemma for_parodus_same (dest : cstring) (n : nat) (w w' : World) (a : bool) :
  dest_is_parodus dest n w = Done (a, w') → w' = w.
Proof. unfold dest_is_parodus. by destruct (_ <? _)%nat; [|intros [= _ <-]]. Qed.

(** The part behind the device id. *)
Lemma beside_for_device (op : crud_op) (c : wrp_crud) (raw dest device_id : cstring) (len : nat) (w0 w : World) :
  crudMsgQ w = crudMsgQ w0 →
  beside (λ _ s, ∃ w' l, s = mk_h w' (l ++ [u_device_id; u_msg; u_payload; u_queued]) [] /\ upstream_leaves w0 w' l)
    (if strncaseeq (len - 1) device_id dest then
       if decide (op = RETREIVE) then
         for_parodus ← in_world (dest_is_parodus dest len);
         if (for_parodus : bool) then
           use u_msg;;
           alloc u_retrieve_msg;;
           in_world (addCRUDmsgToQueue (createUpstreamRetrieveMsg op c))
         else getServiceName_blocks env (WRP_CRUD op c) raw
       else getServiceName_blocks env (WRP_CRUD op c) raw
     else sendUpstream_blocks env u_payload raw)
    (if strncaseeq (len - 1) device_id dest then
       if decide (op = RETREIVE) then
         for_parodus ← dest_is_parodus dest len;
         if (for_parodus : bool) then addCRUDmsgToQueue (createUpstreamRetrieveMsg op c)
         else getServiceNameAndSendResponse env (WRP_CRUD op c) raw
       else getServiceNameAndSendResponse env (WRP_CRUD op c) raw
     else sendUpstreamMsgToServer env raw)
    (mk_h w [u_device_id; u_msg; u_payload; u_queued] []).
Proof.
  intros Hq. set (L := [u_device_id; u_msg; u_payload; u_queued]).
  assert (∀ (a : unit) s, kept L [] a s → ∃ w' l, s = mk_h w' (l ++ L) [] /\ upstream_leaves w0 w' l) as Hkept
    by (intros _ s [w' ->]; exists w', []; by split; [|left]).
  assert (∀ w', beside (λ _ s, ∃ w' l, s = mk_h w' (l ++ L) [] /\ upstream_leaves w0 w' l)
    (getServiceName_blocks env (WRP_CRUD op c) raw) (getServiceNameAndSendResponse env (WRP_CRUD op c) raw)
    (mk_h w' L [])) as Hservice by (intros w'; eapply beside_mono; [apply beside_service; by_eval|exact Hkept]).
  destruct (strncaseeq _ _ _); [|eapply beside_mono; [apply beside_send; by_eval|exact Hkept]].
  destruct (decide (op = RETREIVE)); [|apply Hservice]. both. apply for_parodus_same in Hw as ->.
  destruct a; [|apply Hservice]. do 2 ustep. apply beside_end. intros [] w' Hw.
  injection Hw as <-. eexists _, [u_retrieve_msg]. split; [reflexivity|]. right. split; [done|]. cbn. rewrite Hq. by eexists.
Qed.

Lemma beside_device_freed (op : crud_op) (c : wrp_crud) (w0 w : World) (l : list ublock) :
  upstream_leaves w0 w l →
  beside (message_left w0 (WRP_CRUD op c)) (free u_device_id) (mret tt)
    (mk_h w (l ++ [u_device_id; u_msg; u_payload; u_queued]) []).
Proof.
  intros Hl. eapply beside_memory_last; [apply (free_at u_device_id w l)|done|].
  - by destruct Hl as [->|[-> _]]; by_eval.
  - by_eval.
  - exists w, l. left. split; [by intros (_ & ? & _)|done].
Qed.

Lemma beside_crud (op : crud_op) (c : wrp_crud) (raw : bytes) (w0 w : World) :
  crudMsgQ w = crudMsgQ w0 →
  beside (message_left w0 (WRP_CRUD op c)) (process_crud_mem env op c raw) (process_crud env op c raw)
    (mk_h w [u_msg; u_payload; u_queued] []).
Proof.
  intros Hq. assert (∀ w', message_left w0 (WRP_CRUD op c) tt (mk_h w' [u_msg; u_payload; u_queued] [])) as Hnone
    by (intros w'; by apply (nothing_left tt w0 w' (WRP_CRUD op c))).
  unfold process_crud_mem, process_crud.
  destruct op; [eapply beside_mono; [apply beside_send; by_eval|intros [] s [w' ->]; apply Hnone]|..];
    both; apply device_id_same in Hw as ->; (destruct a as [[device_id len]|]; [|apply beside_ret, Hnone]);
    ustep; both; apply deref_same in Hw as ->; ustep;
    (eapply beside_then; [by apply beside_for_device|]); intros [] s (w' & l & -> & Hl); by apply beside_device_freed.
Qed.

Lemma beside_message (unset : bool) (msg : wrp_msg_t) (raw : bytes) (w0 w : World) :
  crudMsgQ w = crudMsgQ w0 → parodusCfg w = parodusCfg w0 →
  beside (message_left w0 msg) (process_message_mem env unset msg raw) (process_message env unset msg raw)
    (mk_h w (base_of msg) (links_of msg)).
Proof.
  intros Hq Hc. destruct msg; cbn [process_message_mem process_message];
    try (eapply beside_bind; [apply beside_send; by_eval|]; intros [] s [w' ->]; apply beside_ret; by apply nothing_left).
  - eapply beside_mono; [by apply beside_event|]. intros r s [w' [[Hf ->]|[Hf ->]]].
    + exists w', []. left. split; [done|]. by split; [|left].
    + exists w', []. by right.
  - eapply beside_bind; [by apply beside_crud|]. intros [] s Hs. apply beside_ret. exact Hs.
  - unfold base_of, links_of. cbn. eapply beside_memory; [by apply use_run; left|done|].
    apply beside_world. intros [] w' _. apply beside_ret. by apply nothing_left.
  - apply beside_ret. by apply nothing_left.
Qed.
End specs.

Section turns.
Context `{WrpLib} (env : oracle).

(** What is left when the decoded message is freed. *)
Definition upstream_left {A} (w0 : World) (_ : A) (s : umem) : Prop :=
  ∃ w' l i, s = mk_h w' (l ++ [u_queued]) i /\ upstream_leaves w0 w' l.

Lemma beside_process (v : upstream_locals) (raw : bytes) (w0 w : World) :
  crudMsgQ w = crudMsgQ w0 → parodusCfg w = parodusCfg w0 →
  (∀ msg, wrp_to_struct raw = Some msg → ~ foreign w0 msg) →
  beside (upstream_left w0) (process_upstream_mem env v raw) (process_upstream env v raw)
    (mk_h w [u_payload; u_queued] []).
Proof.
  intros Hq Hc Hf. unfold process_upstream_mem, process_upstream. ustep.
  destruct (wrp_to_struct raw) as [msg|].
  - eapply (beside_memory _ _ _ _ _ (mk_h w [u_msg; u_payload; u_queued] []) tt); [done|done|].
    eapply (beside_memory _ _ _ _ _ (mk_h w (base_of msg) (links_of msg)) tt);
      [by unfold base_of, links_of; destruct (has_ids msg); cbv|done|].
    eapply beside_bind; [by apply (beside_message env (bytes_unset v) msg raw w0)|].
    intros r s (w' & l & [(_ & -> & Hl)|[Hno _]]); [|by destruct (Hf msg)].
    assert (∀ A (a : A), upstream_left w0 a (mk_h w' (l ++ [u_queued]) (links_of msg))) as Hleft
      by (intros A a; by exists w', l, (links_of msg)).
    unfold base_of, links_of in *. destruct Hl as [->|[-> _]]; destruct (has_ids msg); repeat ustep;
      (eapply beside_memory; [cbv; reflexivity|done|]); apply beside_ret, Hleft.
  - destruct (msg_unset v); [done|]. eapply beside_memory; [cbv; reflexivity|done|]. apply beside_ret.
    exists w, [], []. by split; [|left].
Qed.

(** The ids of a foreign event are freed a second time. *)
Lemma process_foreign (v : upstream_locals) (raw : bytes) (msg : wrp_msg_t) (w0 w : World) :
  crudMsgQ w = crudMsgQ w0 → parodusCfg w = parodusCfg w0 →
  wrp_to_struct raw = Some msg → foreign w0 msg →
  match process_upstream_mem env v raw (mk_h w [u_payload; u_queued] []) with
  | Done _ => False
  | Undef => True
  | NoFuel => process_upstream env v raw w = NoFuel
  end.
Proof.
  intros Hq Hc Hm Hf. pose proof (beside_message env (bytes_unset v) msg raw w0 w Hq Hc) as Hb.
  assert (has_ids msg = true) as Hi by apply Hf.
  assert (process_upstream_mem env v raw (mk_h w [u_payload; u_queued] []) =
    (unset ← process_message_mem env (bytes_unset v) msg raw;
     use u_msg;; free u_payload;; wrp_free_struct u_msg;; mret (mk_locals false unset))
      (mk_h w (base_of msg) (links_of msg))) as ->.
  { unfold process_upstream_mem, base_of, links_of. rewrite Hm, Hi. reflexivity. }
  unfold process_upstream. rewrite Hm. unfold beside in Hb. unfold mbind at 1, M_bind at 1.
  destruct (process_message_mem env _ msg raw _) as [[r s]| |]; [|done|].
  2:{ unfold mbind, M_bind. cbn [world] in Hb. by rewrite Hb. }
  destruct Hb as [_ (w' & l & [[Hn _]|[_ ->]])]; [by destruct (Hn Hf)|]. by cbv.
Qed.

(** A turn for a message that is not foreign. *)
Lemma beside_upstream_turn (v : upstream_locals) (w : World) :
  ~ foreign_next w →
  beside (λ _ s, upstream_leaves w (world s) (live s)) (processUpstreamMessage_turn_mem env v)
    (processUpstreamMessage_turn env v) (mk_h w [] []).
Proof.
  intros Hn. unfold processUpstreamMessage_turn_mem, processUpstreamMessage_turn. ustep.
  destruct (UpStreamMsgQ w) as [|raw rest] eqn:Hq; [repeat ustep; by left|]. do 3 ustep.
  eapply beside_bind; [apply (beside_process v raw w); [done|done|]|].
  { intros msg Hm Hf. apply Hn. by exists raw, rest, msg. }
  intros r s (w' & l & i & -> & Hl). cbn beta. 
  destruct Hl as [->|[-> Hl]]; repeat ustep; [by left|by right].
Qed.
(** A turn for a foreign event. *)
Lemma upstream_turn_foreign (v : upstream_locals) (w : World) :
  foreign_next w →
  match processUpstreamMessage_turn_mem env v (mk_h w [] []) with
  | Done _ => False
  | Undef => True
  | NoFuel => processUpstreamMessage_turn env v w = NoFuel
  end.
Proof.
  intros (raw & rest & msg & Hq & Hm & Hf). set (w1 := w <| UpStreamMsgQ := rest |>).
  assert (processUpstreamMessage_turn_mem env v (mk_h w [] []) =
    (v ← process_upstream_mem env v raw; free u_queued;; mret (false, v)) (mk_h w1 [u_payload; u_queued] [])) as ->.
  { unfold processUpstreamMessage_turn_mem. cbv [mbind M_bind in_world gets world]. by rewrite Hq. }
  assert (processUpstreamMessage_turn env v w = (v ← process_upstream env v raw; mret (false, v)) w1) as ->.
  { unfold processUpstreamMessage_turn. cbv [mbind M_bind gets]. by rewrite Hq. }
  pose proof (process_foreign v raw msg w w1 eq_refl eq_refl Hm Hf) as Hp. unfold mbind, M_bind.
  destruct (process_upstream_mem env v raw _) as [[r s]| |]; [done|done|]. by rewrite Hp.
Qed.

(** A turn for an event that cannot be encoded. *)
Lemma turn_unencodable (v : upstream_locals) (w : World) :
  unencodable_next v w → processUpstreamMessage_turn env v w = Undef.
Proof.
  intros (Hv & Hp & raw & rest & e & Hq & Hm & He). unfold processUpstreamMessage_turn, process_upstream.
  cbv [mbind M_bind gets modify]. rewrite Hq, Hm. cbn [process_message]. rewrite process_event_cases.
  change (parodusCfg (w <| UpStreamMsgQ := rest |>)) with (parodusCfg w).
  destruct (partner_id (parodusCfg w)); [done|]. by rewrite He, Hv.
Qed.

#[local] Instance foreign_dec (w : World) (msg : wrp_msg_t) : Decision (foreign w msg).
Proof. unfold foreign. apply _. Defined.

#[local] Instance foreign_next_dec (w : World) : Decision (foreign_next w).
Proof.
  unfold foreign_next. destruct (UpStreamMsgQ w) as [|raw rest]; [right; by intros (? & ? & ? & [=] & _)|].
  destruct (wrp_to_struct raw) as [msg|] eqn:Hm; [destruct (decide (foreign w msg)) as [Hf|Hf]|].
  - left. by exists raw, rest, msg.
  - right. intros (? & ? & ? & [= <- <-] & Hm' & Hf'). congruence.
  - right. intros (? & ? & ? & [= <- <-] & Hm' & Hf'). congruence.
Defined.
End turns.

(** ** Properties *)


(** ** Examples *)

(** A library that reads one message and encodes none. *)
Definition wrp_silent (m : wrp_msg_t) : WrpLib := {|
  wrp_to_struct := λ _, Some m;
  wrp_struct_to := λ _, None;
  crud_view := @crud_view wrp_example;
  set_crud := @set_crud wrp_example;
  WRP_ID_ELEMENT__SERVICE := 2;
  WRP_ID_ELEMENT__APPLICATION := 3;
  wrp_get_msg_element := @wrp_get_msg_element wrp_example;
  wrp_does_service_match := @wrp_does_service_match wrp_example;
  wrp_pack_metadata := @wrp_pack_metadata wrp_example;
  appendEncodedData := @appendEncodedData wrp_example
|}.

(** The memory after a turn for an event with these partner ids, of a device of comcast that is not
    connected. *)
Definition event_turn (encodes bytes_unset : bool) (ids : option (list cstring)) : outcome (list ublock) :=
  let e := mk_event None (Some "dns:config"%cs) (Some "event:device-status"%cs) ids None None None 0 in
  let w := world_example <| parodusCfg := cfg_zero <| partner_id := "comcast" |> |>
                         <| UpStreamMsgQ := [raw_example] |> <| metaPackSize := 1 |> in
  let lib := if encodes then wrp_only (WRP_EVENT e) else wrp_silent (WRP_EVENT e) in
  match @processUpstreamMessage_turn_mem lib env_ok (mk_locals false bytes_unset) (mk_h w [] []) with
  | Done (_, s) => Done (live s)
  | Undef => Undef
  | NoFuel => NoFuel
  end.

Example event_without_ids_freed : event_turn true true None = Done [].
Proof. vm_compute. reflexivity. Qed.

Example event_of_partner_freed : event_turn true true (Some ["other"%cs; "comcast"%cs]) = Done [].
Proof. vm_compute. reflexivity. Qed.

Example foreign_ids_freed_twice : event_turn true true (Some ["other"%cs]) = Undef.
Proof. vm_compute. reflexivity. Qed.

(** The first event cannot be encoded; a later one may fail. *)
Example unset_bytes_freed : event_turn false true None = Undef.
Proof. vm_compute. reflexivity. Qed.

Example null_bytes_freed : event_turn false false None = Done [].
Proof. vm_compute. reflexivity. Qed.
